(* ===== verification/_CoqProject ===== *)
-Q . S2P
Prelude.v
Float.v
Types.v
Sys.v
Keys.v
Axes.v
Utils.v
Drivers.v
Uhid.v
Output.v
Led.v
Nsw.v
Settings.v
Daemon.v
Commands.v
Bridge.v
Mutex.v
Bus.v
Handles.v
Handlers.v
Service.v
Display.v
Screen.v
Tui.v
Frontends.v
Worker.v
Returns.v
Main.v
System.v
Live.v
Process.v
