(* ===== verification/Prelude.v ===== *)
(** * DSTX: a verification development

    DSTX is a daemon that turns DualShock 4, DualSense and Switch Pro
    controllers into virtual Xbox pads, with a command line, a terminal
    interface and a D-Bus service as front ends.  This library models the C code
    under [src/dstx/src/] and proves what makes it correct, and, where the code
    does something else than it means to, what it does instead.

    ** The program

    Shared memory ([shared_data_t] of [dstx.h]) holds four slots
    ([controller_t]).  The daemon's main thread ([daemon.c]) registers devices
    in slots and watches one worker thread per slot.  A worker reads reports
    ([drivers.c], [nsw.c]), maps buttons ([keys.c]) and sticks ([axes.c]), feeds
    a virtual device ([drivers.c] for uinput, [uhid.c] for UHID), and sends
    rumble and light back ([output.c], [led.c]).  The settings thread
    ([settings.c]) keeps the slots and the profiles on disk in step.  The front
    ends write slots and post profile requests ([commands.c], [utils.c]).

    ** The files

    - [Prelude]: fixed-width integers, C arrays as lists, time values, loops,
      record setters, tactics.
    - [Float]: binary32 and binary64 arithmetic on the Standard Library's
      [SpecFloat], with the magnitude lemmas the table look-ups need.
    - [Types]: [dstx.h]; one record per structure, members in the C order.
    - [Sys]: the kernel as an oracle over the history of calls, the [io] monad,
      descriptors that are open in a history, [safe_write] (of [utils.c]), and
      [DeviceOpener], what a routine that opens a device promises its callers.
    - [Keys]: [keys.c].  [Axes]: [axes.c].  [Utils]: [utils.c].
    - [Drivers]: [drivers.c]; [translate_ds4] and [translate_dualsense] give the
      new slot, the debounce table and the frame of events they emit.
    - [Uhid]: [uhid.c], with the report descriptor as data and a decoder for it.
    - [Output]: [output.c].  [Led]: [led.c].  [Nsw]: [nsw.c].
    - [Settings]: [settings.c]; cJSON is the class [CJson] with its laws
      [CJsonLaws] and a concrete instance; the disk is a map from paths to files.
    - [Daemon]: the main thread of [daemon.c] and the parts of a worker it
      shares with its theorems, as functions and as the transition system
      [daemon_step].
    - [Commands]: [commands.c].
    - [Bridge]: the snapshots and the monitor of the D-Bus service
      ([dbus-utils.c], [dbus-monitor.c]).
    - [Mutex]: the robust mutex of the shared memory, [safe_shm_lock], and the
      threads between their lock and their unlock.
    - [Bus]: libdbus messages as the class [DBus] with its laws [DBusLaws], the
      state of the service and its monad [svc], signals ([dbus-signals.c]) and
      systemd ([dbus-systemd.c]).
    - [Handles]: the mappings of the shared memory in the service and its profile
      requests ([dbus-utils.c]).  [Handlers]: the methods ([dbus-handlers.c]).
    - [Service]: the process of the service: the monitor thread around the turns
      of [Bridge], and the main thread ([dbus-main.c]) around the methods.
    - [Display]: the contents of the screens ([display.c]).  [Screen]: their drawing,
      as moves, colours and glyphs.  [Tui]: [ui.c].
    - [Frontends]: one specification of the settings, and how the command line,
      the terminal and the service implement it.
    - [Worker]: a worker thread of [daemon.c] from its start to its end.
      [Returns]: that it comes back.
    - [Main]: [main.c].
    - [System]: everything side by side in one transition system.  [Live]: the
      slots and the threads in its runs, and what a stop of the daemon does to them.
    - [Process]: children and their results, clocks, the terminal and its modes,
      the signal handler ([utils.c], [ui.c]), and the daemon's process from its
      announcement to its end ([main.c], [run_daemon_loop]).

    A C function keeps its name.  A function with a loop or a long body is split
    into named parts in the order of the code.  Stateful code takes and returns
    the state it uses (the slot, file-scope variables, the disk); code that makes
    system calls is in [io]; a read outside an array and exhausted fuel are
    [None].

    ** What the theorems show

    - From report to virtual device: a translated frame holds only events the
      device was declared for, in range, in one frame; the debounce machine is
      equivalent to its specification over the history of samples; the key map
      computes exactly the remapping; the sensitivity table is read in bounds,
      in its row and along it, but for one input; the UHID report is the one its
      own descriptor describes; the Switch path writes each change of the slot
      once, with the kernel's codes, and takes a change whose write failed for
      written.
    - Back to the controller: shape, gain, brightness and checksum of every
      output report, and how its offsets differ from the documented ones; when
      rumble is due, and that it is sent then and only then; a dirty colour is sent
      and retried, then clean; requests of effects are sanitised; effects write
      only on change.
    - System calls: [safe_write] writes everything or reports an error, and
      returns; devices are opened or nothing is left open; a worker never has
      two virtual devices.
    - Slots and workers: registration keeps the configuration of a slot; a worker
      has one virtual device at most; the watchdog ends what hangs and cannot
      begin it again.
    - Profiles: what is saved is read back; what is loaded is what the file says
      of each slot it has, in range, with the default for what is missing; a slot
      the file lacks stays as it was; every request is answered; a save replaces
      the file as a whole.
    - A worker gives back every descriptor it opened (but on one path) and its
      slot; its start returns, also with a device that does not answer; the whole
      thread returns, as long as no stick is in the corner.
    - Front ends: no command line, no typed line and no D-Bus call puts a
      configuration out of range, but the effect commands of the terminal and the
      service, which check nothing; for every setting the exact slot each of the
      three makes, when the three are the specified one and when they differ;
      a D-Bus call gives back what it took and is answered once; the service ends
      on a signal and gives back what its threads hold; the requests of
      the service are those of the command line; the state of the terminal
      interface is well formed in all its runs; what its screens draw stays inside
      their frame if and only if the texts of devices and profiles they show fit,
      and one page of the help does not; the D-Bus signals are exactly the edges of
      the connections and, at most every sixtieth of a second, the changes of the
      telemetry.
    - The start: what the memory is like when the daemon is announced, and what
      becomes of a memory left by another daemon, dead or alive.
    - The mutex keeps threads apart while all use [safe_shm_lock]; the plain
      lock of the service can lose it for good.
    - The whole: in every interleaving of the front ends, the main thread, the
      workers and the settings thread, all configurations stay in range, from a
      start in range and but for those effect commands; the
      bitmap, the connections, the threads and the paths of the slots agree, but
      for slots a front end disconnected by stopping the daemon, and these are as
      the others again after one turn of the main thread.
    - The end: what the interface and a signal leave of the terminal (never its
      size), and that a signal ends the daemon
      without the shutdown and the last save the code has after its loop.
    - Where the code misses its aim: a stop event that stops nothing, a gain
      applied twice, lost rumble commands, a save that an effect puts off for
      ever, a watchdog that cannot restart a worker, and others, each proved as
      the behaviour of the code.

    ** Bounds and fuel

    [safe_write] takes one unit of fuel per [write]; [safe_write_returns] gives
    the amount that is enough.  The batch mode of the command line takes one per
    token, which [batch_total] shows to be enough.  All other loops are
    structural: over the four slots, the eighteen buttons, the entries of a
    directory, or the list of what a descriptor delivers.  The 50 looks of a
    profile request and the retries of the code are its own constants.  The flush
    of a Bluetooth device takes one unit per report that waits
    ([worker_start_returns]), the host's events of a UHID device one per event
    ([worker_returns]); the loops of the service one per reading of its flag
    ([service_stops]);
    the profile screen one per line, for which the length of the text is enough
    ([list_screen_shows]).  Event loops are functions of the list of turns they
    meet, each with what the world contributes to it.

    ** What is a parameter

    [powf], [sin], [cosf], [sinf], [fmod], [fmodf] and [crc32] are functions the
    theorems quantify over; the answers of the kernel, of [readdir], [access] and
    the clocks are inputs; other processes and threads act as functions on the
    shared memory at the points where the code waits.

    ** What is not modelled

    Logging (its rate limiter is), what the command line prints, the texts of
    notifications, allocation failure, checks of null pointers
    that cannot be null, and the width of time stamps, which are unbounded
    integers but where the code keeps 64 bits.  A section under the lock is one
    step of the components; the lock itself is in [Mutex].  A turn of the main
    thread is one step too, so nothing comes between its watchdog, its joins, its
    [poll] and its registrations, and the unlocked writes of the bitmap in them
    and in the workers do not race here as they may in the code.  The mutex a
    starting daemon makes anew while others hold it is [made_new_admits], not a
    step of [lock_step].  Atomic members are values, with the store into a
    narrower member written out ([to_uint8]).  What [fork], [waitpid] and the clocks answer and what a child does
    are inputs.  Of [main.c] the owner and the mode of the shared
    memory and [mlock] are left out.  What libdbus does when a connection is lost and when the
    name is asked for is an input of [Service].  The graphical interface is
    written in another language and is a client of the D-Bus service. *)

From Stdlib Require Export ZArith List Lia Bool String.
From stdpp Require Export base decidable list numbers option relations.
From coqutil Require Export Datatypes.RecordSetters.
Export DoubleBraceUpdate.
#[export] Set Default Goal Selector "1".
#[export] Set Warnings "-notation-overridden".
Global Open Scope Z_scope.

(** ** Fixed-width integers

    A C integer is a [Z]; a store into a narrower object goes through the
    wrap-around of that object's type.  [i16], [i32] are the two's-complement
    signed types. *)

Definition u8 (z : Z) : Z := z mod 2 ^ 8.
Definition u16 (z : Z) : Z := z mod 2 ^ 16.
Definition u32 (z : Z) : Z := z mod 2 ^ 32.
Definition u64 (z : Z) : Z := z mod 2 ^ 64.
Definition i16 (z : Z) : Z := (z + 2 ^ 15) mod 2 ^ 16 - 2 ^ 15.
Definition i32 (z : Z) : Z := (z + 2 ^ 31) mod 2 ^ 32 - 2 ^ 31.

Definition is_u8 (z : Z) : Prop := 0 <= z < 2 ^ 8.
Definition is_i16 (z : Z) : Prop := - 2 ^ 15 <= z < 2 ^ 15.

Create HintDb dstx.
Create Rewrite HintDb dstx.

Lemma u8_range z : 0 <= u8 z < 256.
Proof. unfold u8; apply Z.mod_pos_bound; lia. Qed.
Lemma u16_range z : 0 <= u16 z < 65536.
Proof. unfold u16; apply Z.mod_pos_bound; lia. Qed.
Lemma u32_range z : 0 <= u32 z < 4294967296.
Proof. unfold u32; apply Z.mod_pos_bound; lia. Qed.
Lemma u64_range z : 0 <= u64 z < 2 ^ 64.
Proof. unfold u64; apply Z.mod_pos_bound; lia. Qed.
Lemma i16_range z : -32768 <= i16 z < 32768.
Proof. unfold i16; pose proof (Z.mod_pos_bound (z + 2 ^ 15) (2 ^ 16)); lia. Qed.

Lemma u8_small z : 0 <= z < 256 -> u8 z = z.
Proof. intros; unfold u8; apply Z.mod_small; lia. Qed.
Lemma u8_idem z : u8 (u8 z) = u8 z.
Proof. apply u8_small, u8_range. Qed.
Lemma u16_small z : 0 <= z < 65536 -> u16 z = z.
Proof. intros; unfold u16; apply Z.mod_small; lia. Qed.
Lemma u32_small z : 0 <= z < 4294967296 -> u32 z = z.
Proof. intros; unfold u32; apply Z.mod_small; lia. Qed.
Lemma u64_small z : 0 <= z < 2 ^ 64 -> u64 z = z.
Proof. intros; unfold u64; apply Z.mod_small; lia. Qed.
Lemma i16_small z : -32768 <= z < 32768 -> i16 z = z.
Proof. intros; unfold i16; rewrite Z.mod_small; lia. Qed.
Lemma i32_small z : - 2 ^ 31 <= z < 2 ^ 31 -> i32 z = z.
Proof. intros; unfold i32; rewrite Z.mod_small; lia. Qed.

#[export] Hint Resolve u8_range u16_range u32_range i16_range : dstx.
#[export] Hint Rewrite u8_small u16_small u32_small i16_small i32_small
  using lia : dstx.

(** A C truth value stored in a [uint8_t] or [bool]: [b2z] one way, [truthy]
    the other. *)
Abbreviation b2z := Z.b2z.
Definition truthy (z : Z) : bool := negb (z =? 0).

Lemma truthy_b2z b : truthy (b2z b) = b.
Proof. by destruct b. Qed.
Lemma truthy_true z : truthy z = true <-> z <> 0.
Proof. unfold truthy; destruct (Z.eqb_spec z 0); simpl; split; congruence. Qed.
Lemma truthy_false z : truthy z = false <-> z = 0.
Proof. unfold truthy; destruct (Z.eqb_spec z 0); simpl; split; congruence. Qed.
Lemma b2z_range b : 0 <= b2z b <= 1.
Proof. destruct b; simpl; lia. Qed.
#[export] Hint Rewrite truthy_b2z : dstx.
#[export] Hint Resolve b2z_range : dstx.

(** A [uint8_t] member that is written from a wider object carries its type:
    [to_uint8] is the store, and the value reads back as a [Z]. *)
Record uint8_t : Set := mk_uint8 { uint8_val :> Z; uint8_ok : u8 uint8_val = uint8_val }.
Definition to_uint8 (z : Z) : uint8_t := mk_uint8 (u8 z) (u8_idem z).

Lemma uint8_eq (a b : uint8_t) : (a : Z) = b -> a = b.
Proof. destruct a as [x p], b as [y q]; simpl. intros ->. f_equal. apply proof_irrel. Qed.
Lemma to_uint8_small z : 0 <= z < 256 -> uint8_val (to_uint8 z) = z.
Proof. apply u8_small. Qed.
Lemma to_uint8_val (a : uint8_t) : to_uint8 a = a.
Proof. apply uint8_eq, uint8_ok. Qed.

(** ** Record updates

    [r {{ f := v }}] is coqutil's record update.  A large record declares its
    setters once: [mk_setter eta] builds the setter of a projection [p] from
    the record's expansion [eta] (the constructor applied to the projections of
    a variable), by abstracting the occurrence of [p]. *)
Ltac mk_setter eta :=
  lazymatch goal with
  | |- @Setter _ _ ?p =>
      let u := fresh "u" in
      let x := fresh "x" in
      intros u x;
      let b := eval cbv beta delta [eta] in (eta x) in
      let g := eval cbv beta in (p x) in
      let b' := eval pattern g in b in
      lazymatch b' with
      | ?F _ => let t := eval cbv beta in (F (u g)) in exact t
      end
  end.

(** A bit mask test [x & (1 << n)]. *)
Definition bit (x : Z) (n : Z) : bool := Z.testbit x n.

(** [struct timeval] and the microsecond difference the code writes out each
    time it compares two of them ([long] arithmetic). *)
#[projections(primitive)]
Record timeval := mk_timeval { tv_sec : Z; tv_usec : Z }.
Definition tv_zero : timeval := mk_timeval 0 0.
Definition tv_diff_us (a b : timeval) : Z :=
  (tv_sec a - tv_sec b) * 1000000 + (tv_usec a - tv_usec b).
(** The same instant as one number of microseconds. *)
Definition tv_us (a : timeval) : Z := tv_sec a * 1000000 + tv_usec a.
Lemma tv_diff_us_spec a b : tv_diff_us a b = tv_us a - tv_us b.
Proof. unfold tv_diff_us, tv_us; lia. Qed.

(** [strstr(s, sub) != NULL]. *)
Definition contains (sub s : string) : bool :=
  match String.index 0 sub s with Some _ => true | None => false end.

(** ** Lists used as C arrays *)

Section arrays.
Context {A : Type}.
Implicit Types (l : list A) (x : A).

(** Reads of an array whose index the code has validated. *)
Definition aget (d : A) l (i : Z) : A := nth (Z.to_nat i) l d.
Definition aset l (i : Z) x : list A := <[Z.to_nat i := x]> l.

Lemma length_aset l i x : length (aset l i x) = length l.
Proof. apply length_insert. Qed.
Lemma aget_aset_eq d l i x :
  0 <= i < Z.of_nat (length l) -> aget d (aset l i x) i = x.
Proof.
  intros Hi. unfold aget, aset. rewrite nth_lookup.
  rewrite list_lookup_insert_eq; [done | lia].
Qed.
Lemma aget_aset_ne d l i j x :
  0 <= i -> 0 <= j -> i <> j -> aget d (aset l i x) j = aget d l j.
Proof.
  intros. unfold aget, aset. rewrite !nth_lookup.
  rewrite list_lookup_insert_ne; [done | lia].
Qed.
Lemma aget_aset d l i j x :
  0 <= i < Z.of_nat (length l) -> 0 <= j ->
  aget d (aset l i x) j = if j =? i then x else aget d l j.
Proof.
  intros Hi Hj. destruct (Z.eqb_spec j i) as [->|Hne].
  - by apply aget_aset_eq.
  - apply aget_aset_ne; lia.
Qed.
Lemma aset_Forall (P : A -> Prop) l i x :
  Forall P l -> P x -> Forall P (aset l i x).
Proof. intros Hl Hx. unfold aset. by apply Forall_insert. Qed.
Lemma aget_Forall (P : A -> Prop) d l i :
  Forall P l -> P d -> P (aget d l i).
Proof.
  intros Hl Hd. unfold aget. destruct (nth_in_or_default (Z.to_nat i) l d) as [Hin | ->].
  - eapply List.Forall_forall; eauto.
  - done.
Qed.
End arrays.

#[export] Hint Rewrite @length_aset : dstx.
#[export] Hint Resolve aset_Forall : dstx.

(** The members of a list with distinct keys. *)
Lemma map_nodup_inj {A B} (f : A -> B) l a b : NoDup (map f l) -> In a l -> In b l -> f a = f b -> a = b.
Proof.
  induction l as [|x l IH]; intros Hn Ha Hb E; [done|]. cbn [map] in Hn. apply NoDup_cons in Hn as [Hx Hn].
  rewrite list_elem_of_In in Hx. destruct Ha as [->|Ha], Hb as [->|Hb]; [done | | | by apply IH].
  - destruct Hx. rewrite E. by apply in_map.
  - destruct Hx. rewrite <- E. by apply in_map.
Qed.
Lemma filter_nodup {A B} (f : A -> B) p l : NoDup (map f l) -> NoDup (map f (List.filter p l)).
Proof.
  induction l as [|x l IH]; intros Hn; [done|]. cbn [map List.filter] in *. apply NoDup_cons in Hn as [Hx Hn].
  destruct (p x); [|by apply IH]. cbn [map]. apply NoDup_cons. split; [|by apply IH].
  rewrite list_elem_of_In in Hx |- *. intros H. apply Hx. apply in_map_iff in H as (y & <- & Hy).
  apply filter_In in Hy as [Hy _]. by apply in_map.
Qed.
Lemma last_cons {A} (x d : A) l : List.last (x :: l) d = List.last l x.
Proof.
  revert x d. induction l as [|y l IH]; intros x d; [done|].
  change (List.last (x :: y :: l) d) with (List.last (y :: l) d). by rewrite !IH.
Qed.
Lemma filter_none {A} (p : A -> bool) l : Forall (fun x => p x = false) l -> List.filter p l = [].
Proof. induction 1 as [|x l Hx _ IH]; [done|]. cbn [List.filter]. by rewrite Hx. Qed.

(** ** Control

    [fold_idx f n a] is [for (int i = 0; i < n; i++) a = f(i, a)]. *)
Definition fold_idx {A} (f : Z -> A -> A) (n : nat) (a : A) : A :=
  fold_left (fun a i => f (Z.of_nat i) a) (seq 0 n) a.

Lemma fold_idx_S {A} (f : Z -> A -> A) n a :
  fold_idx f (S n) a = f (Z.of_nat n) (fold_idx f n a).
Proof. unfold fold_idx. by rewrite seq_S, fold_left_app. Qed.

Lemma fold_idx_ind {A} (P : nat -> A -> Prop) (f : Z -> A -> A) n a :
  P O a ->
  (forall i b, (i < n)%nat -> P i b -> P (S i) (f (Z.of_nat i) b)) ->
  P n (fold_idx f n a).
Proof.
  intros H0 Hstep. induction n as [|n IH]; [done|].
  rewrite fold_idx_S. apply Hstep; [lia|]. apply IH. intros; apply Hstep; [lia | done].
Qed.

(** ** Tactics *)

(** Case on the boolean tests of the goal, turning [Z] tests into facts. *)
Ltac zcase :=
  match goal with
  | |- context [?a =? ?b] => destruct (Z.eqb_spec a b)
  | |- context [?a <? ?b] => destruct (Z.ltb_spec a b)
  | |- context [?a <=? ?b] => destruct (Z.leb_spec a b)
  | |- context [?a >=? ?b] => rewrite (Z.geb_leb a b)
  | |- context [?a >? ?b] => rewrite (Z.gtb_ltb a b)
  end.
Ltac zcases := repeat (zcase; simpl; try lia).
(** Case on the scrutinee of an [if] or [match] on a boolean in the goal. *)
Ltac bcase :=
  match goal with
  | |- context [if ?b then _ else _] =>
      let E := fresh "E" in destruct b eqn:E
  end.
(** Turn boolean hypotheses over [Z] into propositions. *)
Ltac zprop :=
  repeat match goal with
  | H : (_ && _)%bool = true |- _ => apply andb_prop in H as [? ?]
  | H : (_ || _)%bool = false |- _ => apply orb_false_elim in H as [? ?]
  | H : negb _ = true |- _ => apply negb_true_iff in H
  | H : negb _ = false |- _ => apply negb_false_iff in H
  | H : (_ =? _) = true |- _ => apply Z.eqb_eq in H
  | H : (_ =? _) = false |- _ => apply Z.eqb_neq in H
  | H : (_ <? _) = true |- _ => apply Z.ltb_lt in H
  | H : (_ <? _) = false |- _ => apply Z.ltb_ge in H
  | H : (_ <=? _) = true |- _ => apply Z.leb_le in H
  | H : (_ <=? _) = false |- _ => apply Z.leb_gt in H
  end.

Lemma existsb_ext_f {A} (f g : A -> bool) l : (forall x, f x = g x) -> existsb f l = existsb g l.
Proof. intros H. induction l as [|x l IH]; simpl; [done|]. by rewrite H, IH. Qed.

(** Split [Forall] over a literal list. *)
Ltac forall_list :=
  repeat match goal with
  | |- Forall _ (_ :: _) => apply Forall_cons_2
  | |- Forall _ [] => apply Forall_nil_2
  end.
