(* ===== verification/Float.v ===== *)
(** * IEEE-754 arithmetic of the C code

    [float] and [double] are binary32 and binary64 data computed by the
    standard library's executable specification of IEEE-754 ([SpecFloat]),
    round to nearest even.  The program is built for x86_64 with SSE arithmetic
    and without [-ffast-math], so each C operation is one rounded operation.
    A conversion to an integer type truncates; outside the range of the type C
    leaves it undefined and the model takes what [cvttss2si]/[cvttsd2si]
    give, the most negative 32-bit integer. *)

From S2P Require Import Prelude.
From Stdlib Require Export SpecFloat.

Abbreviation float := spec_float (only parsing).

Definition f32_of_Z (z : Z) : float := binary_normalize 24 128 z 0 false.
Definition f64_of_Z (z : Z) : float := binary_normalize 53 1024 z 0 false.
Definition f32_add : float -> float -> float := SFadd 24 128.
Definition f32_sub : float -> float -> float := SFsub 24 128.
Definition f32_mul : float -> float -> float := SFmul 24 128.
Definition f32_div : float -> float -> float := SFdiv 24 128.
Definition f32_sqrt : float -> float := SFsqrt 24 128.
Definition f64_add : float -> float -> float := SFadd 53 1024.
Definition f64_sub : float -> float -> float := SFsub 53 1024.
Definition f64_mul : float -> float -> float := SFmul 53 1024.
Definition f64_div : float -> float -> float := SFdiv 53 1024.

(** Conversions between the two formats. *)
Definition refloat (prec emax : Z) (f : float) : float :=
  match f with
  | S754_finite s m e => binary_normalize prec emax (cond_Zopp s (Zpos m)) e s
  | _ => f
  end.
Definition f64_of_f32 : float -> float := refloat 53 1024.
Definition f32_of_f64 : float -> float := refloat 24 128.

(** Decimal literals, as the quotient of two exact integers. *)
Definition f32_lit (n d : Z) : float := f32_div (f32_of_Z n) (f32_of_Z d).
Definition f64_lit (n d : Z) : float := f64_div (f64_of_Z n) (f64_of_Z d).
(** [M_PI], the double nearest to pi. *)
Definition M_PI : float := S754_finite false 7074237752028440 (-51).

(** Comparisons: false on NaN, as in C. *)
Definition flt (x y : float) : bool := SFltb x y.
Definition fle (x y : float) : bool := SFleb x y.
Definition fgt (x y : float) : bool := SFltb y x.
Definition fge (x y : float) : bool := SFleb y x.
Definition fabs_ : float -> float := SFabs.
Definition is_nan (f : float) : bool := match f with S754_nan => true | _ => false end.

(** [cvttss2si]: truncation towards zero to an [int]. *)
Definition ftrunc (f : float) : option Z :=
  match f with
  | S754_zero _ => Some 0
  | S754_finite s m e =>
      let a := if 0 <=? e then Zpos m * 2 ^ e else Zpos m / 2 ^ (- e) in
      Some (if s then - a else a)
  | _ => None
  end.
Definition i32_of_float (f : float) : Z :=
  match ftrunc f with
  | Some z => if (- 2 ^ 31 <=? z) && (z <? 2 ^ 31) then z else - 2 ^ 31
  | None => - 2 ^ 31
  end.
(** [(uint8_t)f]: the low byte of the truncated value. *)
Definition u8_of_float (f : float) : Z := u8 (i32_of_float f).

(** ** Lemmas *)

Lemma i32_of_float_range f : - 2 ^ 31 <= i32_of_float f < 2 ^ 31.
Proof.
  unfold i32_of_float. destruct (ftrunc f) as [z|]; [|lia].
  destruct (_ && _) eqn:E; zprop; lia.
Qed.
Lemma u8_of_float_range f : 0 <= u8_of_float f < 256.
Proof. apply u8_range. Qed.
#[export] Hint Resolve i32_of_float_range u8_of_float_range : dstx.

(** A float that is not NaN is below a bound or above it. *)
Lemma SFcompare_swap x y : SFcompare y x = option_map CompOpp (SFcompare x y).
Proof.
  destruct x as [[]|[]| |[] m e], y as [[]|[]| |[] m' e']; simpl; try reflexivity.
  all: rewrite (Z.compare_antisym e e');
       pose proof (Pos.compare_cont_antisym m m' Eq) as Ha; simpl in Ha; rewrite <- Ha;
       by destruct (e ?= e'), (Pos.compare_cont Eq m m').
Qed.

Lemma SFcompare_not_nan x y :
  is_nan x = false -> is_nan y = false -> exists c, SFcompare x y = Some c.
Proof.
  destruct x as [[]|[]| |[] m e], y as [[]|[]| |[] m' e']; try discriminate;
    intros _ _; eexists; simpl; reflexivity.
Qed.

Lemma flt_false_fle x y :
  is_nan x = false -> is_nan y = false -> flt x y = false -> fle y x = true.
Proof.
  intros Hx Hy. unfold flt, fle, SFltb, SFleb.
  destruct (SFcompare_not_nan x y Hx Hy) as [c Hc].
  rewrite (SFcompare_swap x y), Hc. by destruct c.
Qed.

Lemma fle_refl x : is_nan x = false -> fle x x = true.
Proof.
  unfold fle, SFleb. destruct x as [[]|[]| |[] m e]; try done; intros _; simpl.
  all: by rewrite Z.compare_refl, Pos.compare_cont_refl.
Qed.

(** Clamping from both sides, the idiom of the code, brings any non-NaN value
    into the interval. *)
Definition fclamp (lo hi x : float) : float :=
  let x := if flt x lo then lo else x in if fgt x hi then hi else x.

Lemma fclamp_range lo hi x :
  is_nan x = false -> is_nan lo = false -> is_nan hi = false -> fle lo hi = true ->
  fle lo (fclamp lo hi x) = true /\ fle (fclamp lo hi x) hi = true.
Proof.
  intros Hx Hlo Hhi Hle. unfold fclamp, fgt.
  destruct (flt x lo) eqn:E1.
  - destruct (SFltb hi lo) eqn:E2; auto using fle_refl.
  - destruct (SFltb hi x) eqn:E2; split; auto using fle_refl, flt_false_fle.
Qed.

(** ** Magnitude bounds

    [fsmall K f]: [f] is a non-negative number, neither NaN nor infinite, of
    value at most [2^K].  Each rounded operation below doubles its exact bound
    at worst, which is enough to bound what a conversion to [int] gives. *)
Definition fsmall (K : Z) (f : float) : Prop :=
  match f with
  | S754_zero s => s = false
  | S754_finite s m e =>
      s = false /\ -149 <= e /\ Zpos m * 2 ^ (e + 200) <= 2 ^ (K + 200)
  | _ => False
  end.

Lemma shr_1_m r : 0 <= shr_m r -> shr_m (shr_1 r) = shr_m r / 2.
Proof. rewrite <- Z.div2_div. by destruct r as [[|[p|p|]|p] a b]. Qed.

Lemma iter_shr_1_m p r :
  0 <= shr_m r -> shr_m (iter_pos shr_1 p r) = shr_m r / 2 ^ Zpos p.
Proof.
  revert r. induction p as [p IH|p IH|]; intros r Hr; simpl.
  - rewrite (Pos2Z.inj_xI p). assert (0 <= shr_m (shr_1 r)) as H1
      by (rewrite shr_1_m by done; apply Z.div_pos; lia).
    assert (0 <= shr_m (iter_pos shr_1 p (shr_1 r))) as H2
      by (rewrite IH by done; apply Z.div_pos; lia).
    rewrite IH, IH, shr_1_m by done.
    replace (2 * Zpos p + 1) with (1 + (Zpos p + Zpos p)) by lia.
    by rewrite !Z.pow_add_r, <- !Z.div_div by lia.
  - rewrite (Pos2Z.inj_xO p). assert (0 <= shr_m (iter_pos shr_1 p r)) as H2
      by (rewrite IH by done; apply Z.div_pos; lia).
    rewrite IH, IH by done.
    rewrite <- Z.add_diag, Z.pow_add_r by lia. by rewrite <- Z.div_div by lia.
  - rewrite shr_1_m by done. done.
Qed.

Lemma Zdigits2_le m : 0 < m -> 2 ^ (Zdigits2 m - 1) <= m.
Proof.
  intros H. destruct m as [|p|p]; try lia. unfold Zdigits2.
  assert (forall q, 2 ^ (Zpos (digits2_pos q) - 1) <= Zpos q) as Hq; [|apply Hq].
  clear. induction q as [q IH|q IH|]; simpl; try lia.
  all: rewrite Pos2Z.inj_succ; replace (Z.succ (Zpos (digits2_pos q)) - 1)
    with ((Zpos (digits2_pos q) - 1) + 1) by lia;
    rewrite Z.pow_add_r by (pose proof (Pos2Z.is_pos (digits2_pos q)); lia); lia.
Qed.

Lemma shr_record_of_loc_m m l : shr_m (shr_record_of_loc m l) = m.
Proof. by destruct l as [|[]]. Qed.

Lemma shr_fexp_spec m e l :
  0 <= m -> -200 <= e ->
  let '(r, e1) := shr_fexp 24 128 m e l in
  e1 = Z.max e (fexp 24 128 (Zdigits2 m + e)) /\ 0 <= shr_m r /\
  shr_m r * 2 ^ (e1 + 200) <= m * 2 ^ (e + 200).
Proof.
  intros Hm He. unfold shr_fexp, shr.
  set (k := fexp 24 128 (Zdigits2 m + e) - e). destruct k as [|p|p] eqn:Ek; cbv zeta.
  1,3: rewrite shr_record_of_loc_m; repeat split; lia.
  rewrite iter_shr_1_m; rewrite shr_record_of_loc_m; [|done].
  repeat split; [lia | apply Z.div_pos; lia |].
  replace (e + Zpos p + 200) with (Zpos p + (e + 200)) by lia.
  rewrite Z.pow_add_r, Z.mul_assoc by lia.
  apply Z.mul_le_mono_nonneg_r; [lia|]. rewrite Z.mul_comm. apply Z.mul_div_le. lia.
Qed.

Lemma round_nearest_even_bound m l : 0 <= m -> m <= round_nearest_even m l <= m + 1.
Proof. intros H. destruct l as [|[]]; simpl; try destruct (Z.even m); lia. Qed.

Lemma pow200_inj a b : 0 <= a + 200 -> 2 ^ (a + 200) <= 2 ^ (b + 200) -> a <= b.
Proof.
  intros Ha H. destruct (Z.le_gt_cases a b); [done|].
  destruct (Z.le_gt_cases 0 (b + 200)).
  - apply Z.pow_le_mono_r_iff in H; lia.
  - rewrite (Z.pow_neg_r 2 (b + 200)) in H by lia. pose proof (Z.pow_pos_nonneg 2 (a + 200)). lia.
Qed.

Lemma fexp24_max x : fexp 24 128 x = Z.max (x - 24) (-149).
Proof. reflexivity. Qed.

Lemma round_aux_small K m e l :
  0 <= m -> -200 <= e <= K -> -149 <= K <= 100 -> m * 2 ^ (e + 200) <= 2 ^ (K + 200) ->
  fsmall (K + 1) (binary_round_aux 24 128 false m e l).
Proof.
  intros Hm He HK HV. unfold binary_round_aux.
  assert (Zdigits2 m + e <= K + 1) as Hd.
  { destruct (Z.eq_dec m 0) as [->|]; [simpl; lia|].
    pose proof (Zdigits2_le m ltac:(lia)) as H.
    enough (Zdigits2 m - 1 + e <= K) by lia.
    assert (1 <= Zdigits2 m) as H1 by (destruct m; simpl; lia).
    apply pow200_inj; [lia|].
    replace (Zdigits2 m - 1 + e + 200) with (Zdigits2 m - 1 + (e + 200)) by lia.
    rewrite Z.pow_add_r by lia. nia. }
  pose proof (shr_fexp_spec m e l Hm ltac:(lia)) as H1.
  destruct (shr_fexp 24 128 m e l) as [r1 e1]. destruct H1 as (He1 & Hr1 & HV1).
  rewrite fexp24_max in He1.
  pose proof (round_nearest_even_bound (shr_m r1) (loc_of_shr_record r1) Hr1) as Hrn.
  set (m1 := round_nearest_even _ _) in *.
  pose proof (shr_fexp_spec m1 e1 loc_Exact ltac:(lia) ltac:(lia)) as H2.
  destruct (shr_fexp 24 128 m1 e1 loc_Exact) as [r2 e2]. destruct H2 as (He2 & Hr2 & HV2).
  assert (m1 * 2 ^ (e1 + 200) <= 2 ^ (K + 1 + 200)) as HV3.
  { replace (K + 1 + 200) with (1 + (K + 200)) by lia.
    rewrite (Z.pow_add_r 2 1) by lia. rewrite Z.pow_1_r.
    assert (2 ^ (e1 + 200) <= 2 ^ (K + 200)) by (apply Z.pow_le_mono_r; lia). nia. }
  destruct (shr_m r2) as [|p|p] eqn:Ep; [done | | lia].
  assert (e2 <= K + 1) as Hle.
  { apply pow200_inj; [lia|]. pose proof (Z.pow_pos_nonneg 2 (e2 + 200)). nia. }
  destruct (Z.leb_spec e2 (128 - 24)); [|lia].
  simpl. repeat split; [lia | nia].
Qed.

Lemma f32_of_Z_small K z : 0 <= z <= 2 ^ K -> 0 <= K <= 100 -> fsmall (K + 1) (f32_of_Z z).
Proof.
  intros Hz HK. destruct z as [|p|p]; [done | | lia].
  unfold f32_of_Z, binary_normalize, binary_round, shl_align. rewrite fexp24_max.
  assert (1 <= Zpos (digits2_pos p)) by lia.
  destruct (Z.max _ _ - 0) as [|d|d] eqn:Ed; apply round_aux_small; try lia.
  1,2: rewrite (Z.pow_add_r 2 K) by lia; apply Z.mul_le_mono_nonneg_r; lia.
  fold (shift_pos d p). rewrite shift_pos_correct, Z.pow_pos_fold, (Z.mul_comm _ (Zpos p)).
  rewrite <- Z.mul_assoc, <- Z.pow_add_r by lia.
  replace (Zpos d + _) with 200 by lia.
  rewrite (Z.pow_add_r 2 K) by lia. apply Z.mul_le_mono_nonneg_r; lia.
Qed.

Lemma fsmall_exp K m e : Zpos m * 2 ^ (e + 200) <= 2 ^ (K + 200) -> -149 <= e -> e <= K.
Proof.
  intros H He. apply pow200_inj; [lia|]. pose proof (Z.pow_pos_nonneg 2 (e + 200)). nia.
Qed.

(** The square root of a number at most [2^(2k)]. *)
Lemma f32_sqrt_small k f : 0 <= k <= 90 -> fsmall (2 * k) f -> fsmall (k + 1) (f32_sqrt f).
Proof.
  intros Hk. unfold f32_sqrt, SFsqrt. destruct f as [s|s| |s m e]; simpl fsmall; try done.
  intros (-> & He & HV). pose proof (fsmall_exp _ _ _ HV He) as HeK.
  unfold SFsqrt_core_binary. rewrite fexp24_max. cbv zeta.
  set (e' := Z.min _ _).
  assert (e' <= Z.div2 e /\ -149 <= e') as [Hle Hge].
  { unfold e'. rewrite !Z.div2_div. pose proof (Z.div_le_lower_bound e 2 (-149)). lia. }
  rewrite Z.div2_div in Hle. pose proof (Z.div_mod e 2 ltac:(lia)) as Hdm.
  pose proof (Z.mod_pos_bound e 2 ltac:(lia)) as Hmb.
  set (s := e - 2 * e'). assert (0 <= s) as Hs by (unfold s; lia).
  replace (match s with 0 => Zpos m | Zpos _ => Z.shiftl (Zpos m) s | Zneg _ => 0 end)
    with (Zpos m * 2 ^ s).
  2:{ destruct s eqn:E; [simpl; lia | rewrite Z.shiftl_mul_pow2 by lia; done | lia]. }
  pose proof (Z.sqrtrem_spec (Zpos m * 2 ^ s) ltac:(apply Z.mul_nonneg_nonneg; lia)) as Hq.
  destruct (Z.sqrtrem _) as [q r]. destruct Hq as [Hq Hr].
  assert (0 <= q) by lia.
  apply round_aux_small; try lia.
  apply Z.square_le_simpl_nonneg; [lia|]. rewrite <- Z.pow_add_r by lia.
  replace (k + 200 + (k + 200)) with (200 + (2 * k + 200)) by lia. rewrite (Z.pow_add_r 2 200) by lia.
  etransitivity; [|apply Z.mul_le_mono_nonneg_l; [lia | exact HV]].
  replace (q * 2 ^ (e' + 200) * (q * 2 ^ (e' + 200)))
    with (q * q * (2 ^ (e' + 200) * 2 ^ (e' + 200))) by ring.
  rewrite <- Z.pow_add_r by lia.
  etransitivity; [apply (Z.mul_le_mono_nonneg_r _ (Zpos m * 2 ^ s)); lia|].
  rewrite <- Z.mul_assoc, <- Z.pow_add_r by lia.
  rewrite (Z.mul_comm (2 ^ 200)), <- Z.mul_assoc, <- Z.pow_add_r by lia.
  replace (s + (e' + 200 + (e' + 200))) with (e + 200 + 200) by (unfold s; lia). lia.
Qed.

(** Division by [32768.0f]. *)
Lemma f32_div_small K f :
  0 <= K <= 90 -> fsmall K f -> fsmall (K - 15 + 1) (f32_div f (f32_of_Z 32768)).
Proof.
  intros HK. change (f32_of_Z 32768) with (S754_finite false 8388608 (-8)).
  unfold f32_div, SFdiv. destruct f as [s|s| |s m e]; try done.
  { simpl. by intros ->. }
  intros (-> & He & HV). pose proof (fsmall_exp _ _ _ HV He) as HeK.
  unfold SFdiv_core_binary. rewrite fexp24_max. cbv zeta.
  change (Zdigits2 8388608) with 24.
  set (e' := Z.min _ _). set (s := e - -8 - e').
  assert (e' <= e + 8 /\ -192 <= e') as [Hle Hge] by (unfold e'; lia).
  assert (0 <= s) as Hs by (unfold s; lia).
  replace (match s with 0 => Zpos m | Zpos _ => Z.shiftl (Zpos m) s | Zneg _ => 0 end)
    with (Zpos m * 2 ^ s).
  2:{ destruct s eqn:E; [simpl; lia | rewrite Z.shiftl_mul_pow2 by lia; done | lia]. }
  pose proof (Z_div_mod (Zpos m * 2 ^ s) 8388608 ltac:(lia)) as Hq.
  destruct (Z.div_eucl _ _) as [q r]. destruct Hq as [Hq Hr].
  assert (0 <= Zpos m * 2 ^ s) by (apply Z.mul_nonneg_nonneg; lia).
  assert (0 <= q) by lia.
  simpl xorb. apply round_aux_small; try lia.
  - split; [lia|]. assert (Zdigits2 (Zpos m) + e <= K + 1) as Hd.
    { pose proof (Zdigits2_le (Zpos m) ltac:(lia)) as Hd.
      assert (1 <= Zdigits2 (Zpos m)) by (simpl; lia).
      enough (Zdigits2 (Zpos m) - 1 + e <= K) by lia. apply pow200_inj; [lia|].
      replace (Zdigits2 (Zpos m) - 1 + e + 200) with (Zdigits2 (Zpos m) - 1 + (e + 200)) by lia.
      rewrite Z.pow_add_r by lia. nia. }
    unfold e'. lia.
  - apply (Z.mul_le_mono_pos_r _ _ (2 ^ 23)); [lia|].
    rewrite <- (Z.pow_add_r 2 (K - 15 + 200)) by lia.
    replace (q * 2 ^ (e' + 200) * 2 ^ 23) with (8388608 * q * 2 ^ (e' + 200)) by lia.
    etransitivity; [apply (Z.mul_le_mono_nonneg_r _ (Zpos m * 2 ^ s)); lia|].
    rewrite <- Z.mul_assoc, <- Z.pow_add_r by lia.
    replace (s + (e' + 200)) with (e + 200 + 8) by (unfold s; lia).
    replace (K - 15 + 200 + 23) with (K + 200 + 8) by lia.
    rewrite !(Z.pow_add_r 2 _ 8) by lia. nia.
Qed.

(** Multiplication by [256.0f]. *)
Lemma f32_mul_small K f :
  -100 <= K <= 80 -> fsmall K f -> fsmall (K + 8 + 1) (f32_mul f (f32_of_Z 256)).
Proof.
  intros HK. change (f32_of_Z 256) with (S754_finite false 8388608 (-15)).
  unfold f32_mul, SFmul. destruct f as [s|s| |s m e]; try done.
  { simpl. by intros ->. }
  intros (-> & He & HV). pose proof (fsmall_exp _ _ _ HV He) as HeK.
  simpl xorb. apply round_aux_small; try lia.
  rewrite Pos2Z.inj_mul, <- Z.mul_assoc. change 8388608 with (2 ^ 23).
  rewrite <- Z.pow_add_r by lia.
  replace (23 + (e + -15 + 200)) with (e + 200 + 8) by lia.
  replace (K + 8 + 200) with (K + 200 + 8) by lia.
  rewrite !(Z.pow_add_r 2 _ 8) by lia. nia.
Qed.

(** A small number truncates to an [int] without overflow. *)
Lemma i32_of_float_small K f : 0 <= K < 31 -> fsmall K f -> 0 <= i32_of_float f <= 2 ^ K.
Proof.
  intros HK. unfold i32_of_float. destruct f as [s|s| |s m e]; try done; simpl fsmall.
  { intros _. simpl. lia. }
  intros (-> & He & HV). simpl ftrunc. cbv iota beta.
  set (a := if 0 <=? e then Zpos m * 2 ^ e else Zpos m / 2 ^ (- e)).
  assert (0 <= a <= 2 ^ K) as Ha.
  { unfold a. destruct (Z.leb_spec 0 e).
    - rewrite !(Z.pow_add_r 2 _ 200) in HV by lia. nia.
    - split; [apply Z.div_pos; lia|].
      apply Z.div_le_upper_bound; [lia|]. rewrite <- Z.pow_add_r by lia.
      apply (Z.mul_le_mono_pos_r _ _ (2 ^ (e + 200))); [lia|].
      rewrite <- Z.pow_add_r by lia. by replace (- e + K + (e + 200)) with (K + 200) by lia. }
  assert (2 ^ K < 2 ^ 31) by (apply Z.pow_lt_mono_r; lia).
  destruct (Z.leb_spec (- 2 ^ 31) a), (Z.ltb_spec a (2 ^ 31)); simpl; lia.
Qed.

(** Rounding never makes NaN. *)
Lemma shr_m_nonneg r e n : 0 <= shr_m r -> 0 <= shr_m (fst (shr r e n)).
Proof.
  intros H. unfold shr. destruct n; simpl; try done.
  rewrite iter_shr_1_m by done. apply Z.div_pos; lia.
Qed.
Lemma round_aux_not_nan prec emax s m e l :
  0 <= m -> is_nan (binary_round_aux prec emax s m e l) = false.
Proof.
  intros Hm. unfold binary_round_aux, shr_fexp.
  match goal with |- context [shr ?r ?e ?n] =>
    pose proof (shr_m_nonneg r e n ltac:(rewrite shr_record_of_loc_m; lia)) as H1;
    destruct (shr r e n) as [r1 e1] end.
  pose proof (round_nearest_even_bound (shr_m r1) (loc_of_shr_record r1) H1) as H2.
  match goal with |- context [shr ?r ?e ?n] =>
    pose proof (shr_m_nonneg r e n ltac:(rewrite shr_record_of_loc_m; simpl in *; lia)) as H3;
    destruct (shr r e n) as [r2 e2] end.
  simpl in H3. destruct (shr_m r2); [done | by destruct (_ <=? _) | lia].
Qed.
