(* ===== verification/Types.v ===== *)
(** * The data of [dstx.h]

    Constants, enumerations and structures of [src/dstx/src/dstx.h].  Every
    structure is a record with the members of the C structure in the C order;
    an atomic member is its value (the interleavings are explicit in the
    components that have them).  A [uint8_t], [int16_t], ... member is a [Z];
    the width is enforced where the code stores into it.  Only the effect of a
    stored configuration, a [uint8_t] that is written from an [int] member, carries
    its type. *)

From S2P Require Import Prelude.
From Stdlib Require Import SpecFloat.

Definition MAX_SLOTS : nat := 4.
Definition SHM_MAGIC_VALUE : Z := 0x44535458.
Definition RUMBLE_TIMEOUT_US : Z := 5000.
Definition RUMBLE_KEEPALIVE_US : Z := 20000.
Definition LED_TIMEOUT_US : Z := 20000.
Definition LED_FAST_TIMEOUT_US : Z := 5000.
Definition DEBOUNCE_DELAY_US : Z := 15000.
Definition WORKER_HEARTBEAT_TIMEOUT_US : Z := 5000000.
Definition MAX_INPUT_NODES : nat := 8.
Definition PROFILE_NAME_LEN : nat := 64.

(** ** Enumerations *)

Inductive log_category_t : Set :=
| LOG_CAT_RUMBLE | LOG_CAT_LED | LOG_CAT_UHID | LOG_CAT_DRIVER
| LOG_CAT_NSW | LOG_CAT_OUTPUT | LOG_CAT_WORKER.

Inductive controller_type_t : Set := TYPE_DS4 | TYPE_DUALSENSE | TYPE_NSW_PRO.
#[export] Instance controller_type_eq_dec : EqDecision controller_type_t.
Proof. solve_decision. Defined.

(** [sensitivity_preset_t]: a [uint8_t] in the structures, so the presets are
    numbers and [SENS_PRESET_COUNT] bounds the valid ones. *)
Definition SENS_PRESET_DEFAULT : Z := 0.
Definition SENS_PRESET_PRECISION : Z := 1.
Definition SENS_PRESET_RAPID : Z := 2.
Definition SENS_PRESET_SUAVE : Z := 3.
Definition SENS_PRESET_AGGRESSIVE : Z := 4.
Definition SENS_PRESET_SNIPER : Z := 5.
Definition SENS_PRESET_RACING : Z := 6.
Definition SENS_PRESET_FPS : Z := 7.
Definition SENS_PRESET_COUNT : Z := 8.

Inductive physical_button_t : Set :=
| PHY_BTN_CROSS | PHY_BTN_CIRCLE | PHY_BTN_SQUARE | PHY_BTN_TRIANGLE
| PHY_BTN_L1 | PHY_BTN_R1 | PHY_BTN_L2 | PHY_BTN_R2
| PHY_BTN_SHARE | PHY_BTN_OPTIONS | PHY_BTN_L3 | PHY_BTN_R3
| PHY_BTN_PS | PHY_BTN_TOUCH
| PHY_BTN_DPAD_UP | PHY_BTN_DPAD_DOWN | PHY_BTN_DPAD_LEFT | PHY_BTN_DPAD_RIGHT.
Definition PHY_BTN_COUNT : nat := 18.

Inductive logical_button_t : Set :=
| LOGICAL_BTN_NONE
| LOGICAL_BTN_CROSS | LOGICAL_BTN_CIRCLE | LOGICAL_BTN_SQUARE | LOGICAL_BTN_TRIANGLE
| LOGICAL_BTN_L1 | LOGICAL_BTN_R1 | LOGICAL_BTN_L2 | LOGICAL_BTN_R2
| LOGICAL_BTN_SHARE | LOGICAL_BTN_OPTIONS | LOGICAL_BTN_L3 | LOGICAL_BTN_R3
| LOGICAL_BTN_PS | LOGICAL_BTN_TOUCH
| LOGICAL_BTN_DPAD_UP | LOGICAL_BTN_DPAD_DOWN
| LOGICAL_BTN_DPAD_LEFT | LOGICAL_BTN_DPAD_RIGHT.
Definition LOGICAL_BTN_COUNT : Z := 19.
#[export] Instance logical_button_eq_dec : EqDecision logical_button_t.
Proof. solve_decision. Defined.

(** The enumerators' values (declaration order, from 0). *)
Definition phy_val (p : physical_button_t) : Z :=
  match p with
  | PHY_BTN_CROSS => 0 | PHY_BTN_CIRCLE => 1 | PHY_BTN_SQUARE => 2
  | PHY_BTN_TRIANGLE => 3 | PHY_BTN_L1 => 4 | PHY_BTN_R1 => 5
  | PHY_BTN_L2 => 6 | PHY_BTN_R2 => 7 | PHY_BTN_SHARE => 8
  | PHY_BTN_OPTIONS => 9 | PHY_BTN_L3 => 10 | PHY_BTN_R3 => 11
  | PHY_BTN_PS => 12 | PHY_BTN_TOUCH => 13 | PHY_BTN_DPAD_UP => 14
  | PHY_BTN_DPAD_DOWN => 15 | PHY_BTN_DPAD_LEFT => 16 | PHY_BTN_DPAD_RIGHT => 17
  end.
Definition log_val (b : logical_button_t) : Z :=
  match b with
  | LOGICAL_BTN_NONE => 0 | LOGICAL_BTN_CROSS => 1 | LOGICAL_BTN_CIRCLE => 2
  | LOGICAL_BTN_SQUARE => 3 | LOGICAL_BTN_TRIANGLE => 4 | LOGICAL_BTN_L1 => 5
  | LOGICAL_BTN_R1 => 6 | LOGICAL_BTN_L2 => 7 | LOGICAL_BTN_R2 => 8
  | LOGICAL_BTN_SHARE => 9 | LOGICAL_BTN_OPTIONS => 10 | LOGICAL_BTN_L3 => 11
  | LOGICAL_BTN_R3 => 12 | LOGICAL_BTN_PS => 13 | LOGICAL_BTN_TOUCH => 14
  | LOGICAL_BTN_DPAD_UP => 15 | LOGICAL_BTN_DPAD_DOWN => 16
  | LOGICAL_BTN_DPAD_LEFT => 17 | LOGICAL_BTN_DPAD_RIGHT => 18
  end.
Coercion phy_val : physical_button_t >-> Z.

(** ** Structures *)

#[projections(primitive)]
Record periodic_effect_t := mk_periodic_effect {
  pe_active : bool;
  waveform : Z;
  period : Z;
  magnitude : Z;
  offset : Z;
  phase : Z;
  start_time : timeval;
  last_value : Z;
  left_freq : Z;
  right_freq : Z
}.

#[projections(primitive)]
Record input_node_info_t := mk_input_node { node_path : string; node_name : string }.

#[projections(primitive)]
Record ff_effect_t := mk_ff_effect { ff_strong : Z; ff_weak : Z }.

#[projections(primitive)]
Record debounce_entry_t := mk_debounce_entry { db_last_change_us : Z; db_pending : Z }.

#[projections(primitive)]
Record controller_t := mk_controller {
  LX : Z; LY : Z; RX : Z; RY : Z;
  LT : Z; RT : Z;
  square : Z; cross : Z; circle : Z; triangle : Z;
  L1 : Z; R1 : Z; L2 : Z; R2 : Z;
  Share : Z; Options : Z; L3 : Z; R3 : Z; PS : Z; touch_btn : Z;
  HATX : Z; HATY : Z;
  battery : Z;
  connected : bool;
  is_bluetooth : bool;
  uinput_fd : Z;
  emulate_active : bool;
  ctype : controller_type_t;
  dev_path : string;
  is_uhid : bool;
  uhid_fd : Z;
  uhid_output_buf : list Z;
  uhid_output_pending : bool;
  led_r : Z; led_g : Z; led_b : Z;
  led_base_r : Z; led_base_g : Z; led_base_b : Z;
  rumble_weak : Z; rumble_strong : Z;
  rumble_gain : Z;
  deadzone : Z;
  debounce_enabled : bool;
  sensitivity_left_preset : Z;
  sensitivity_right_preset : Z;
  keymap : list Z;
  request_switch_layout : bool;
  request_xbox_layout : bool;
  request_reset_all_keybinds : bool;
  worker_heartbeat : Z;
  worker_stop : bool;
  ff_effects : list ff_effect_t;
  periodic_effects : list periodic_effect_t;
  effect_type : list Z;
  active_effect_id : Z;
  active_effect_type : Z;
  led_dirty : bool;
  rumble_dirty : bool;
  writing_output : bool;
  led_static : bool;
  led_request_effect : Z;
  led_request_speed : Z;
  led_request_brightness : Z;
  led_request_pending : bool;
  player_leds : Z;
  effect_phase : spec_float;
  global_led_brightness : Z;
  led_reapply : bool;
  external_retry_count : Z;
  last_external_retry : timeval;
  rumble_active : bool;
  invert_ly : bool;
  invert_ry : bool;
  is_trigger_digital : bool;
  dpad_up : Z; dpad_down : Z; dpad_left : Z; dpad_right : Z;
  debounce : list debounce_entry_t;
  output_seq : Z;
  product_name : string;
  uniq : string;
  driver : string;
  input_nodes : list input_node_info_t;
  num_input_nodes : Z
}.

#[projections(primitive)]
Record slot_config_t := mk_slot_config {
  cfg_led_r : Z; cfg_led_g : Z; cfg_led_b : Z;
  cfg_led_base_r : Z; cfg_led_base_g : Z; cfg_led_base_b : Z;
  cfg_rumble_gain : Z;
  cfg_deadzone : Z;
  cfg_global_led_brightness : Z;
  cfg_player_leds : Z;
  cfg_debounce_enabled : bool;
  cfg_emulate_active : bool;
  cfg_is_uhid : bool;
  cfg_led_reapply : bool;
  cfg_rumble_active : bool;
  cfg_invert_ly : bool; cfg_invert_ry : bool;
  cfg_sensitivity_left_preset : Z;
  cfg_sensitivity_right_preset : Z;
  cfg_led_effect : uint8_t;
  cfg_led_effect_speed : Z;
  cfg_led_effect_brightness : Z;
  cfg_keymap : list Z;
  cfg_treat_triggers_as_digital : bool
}.

#[projections(primitive)]
Record shared_data_t := mk_shared_data {
  magic : Z;
  slots : list controller_t;
  request_reload : bool;
  daemon_pid : Z;
  heartbeat : Z;
  ledfx_active : bool;
  free_slots_bitmap : Z;
  profile_request : Z;
  profile_name : string;
  profile_response : Z;
  profile_response_msg : string;
  auto_save_enabled : Z;
  auto_save_delay_ms : Z;
  current_profile_name : string
}.

(** ** Setters

    [eta_..] is the expansion of a record over its projections; the setters of
    its members are built from it once. *)
Definition eta_periodic_effect_t (r : periodic_effect_t) : periodic_effect_t := {|
  pe_active := pe_active r; waveform := waveform r; period := period r; magnitude :=
  magnitude r; offset := offset r; phase := phase r; start_time := start_time r;
  last_value := last_value r; left_freq := left_freq r; right_freq := right_freq r |}.
#[export] Instance set_pe_active : Setter pe_active. Proof. mk_setter eta_periodic_effect_t. Defined.
#[export] Instance set_waveform : Setter waveform. Proof. mk_setter eta_periodic_effect_t. Defined.
#[export] Instance set_period : Setter period. Proof. mk_setter eta_periodic_effect_t. Defined.
#[export] Instance set_magnitude : Setter magnitude. Proof. mk_setter eta_periodic_effect_t. Defined.
#[export] Instance set_offset : Setter offset. Proof. mk_setter eta_periodic_effect_t. Defined.
#[export] Instance set_phase : Setter phase. Proof. mk_setter eta_periodic_effect_t. Defined.
#[export] Instance set_start_time : Setter start_time. Proof. mk_setter eta_periodic_effect_t. Defined.
#[export] Instance set_last_value : Setter last_value. Proof. mk_setter eta_periodic_effect_t. Defined.
#[export] Instance set_left_freq : Setter left_freq. Proof. mk_setter eta_periodic_effect_t. Defined.
#[export] Instance set_right_freq : Setter right_freq. Proof. mk_setter eta_periodic_effect_t. Defined.

Definition eta_controller_t (r : controller_t) : controller_t := {|
  LX := LX r; LY := LY r; RX := RX r; RY := RY r; LT := LT r; RT := RT r; square :=
  square r; cross := cross r; circle := circle r; triangle := triangle r; L1 := L1 r; R1
  := R1 r; L2 := L2 r; R2 := R2 r; Share := Share r; Options := Options r; L3 := L3 r;
  R3 := R3 r; PS := PS r; touch_btn := touch_btn r; HATX := HATX r; HATY := HATY r;
  battery := battery r; connected := connected r; is_bluetooth := is_bluetooth r;
  uinput_fd := uinput_fd r; emulate_active := emulate_active r; ctype := ctype r;
  dev_path := dev_path r; is_uhid := is_uhid r; uhid_fd := uhid_fd r; uhid_output_buf :=
  uhid_output_buf r; uhid_output_pending := uhid_output_pending r; led_r := led_r r;
  led_g := led_g r; led_b := led_b r; led_base_r := led_base_r r; led_base_g :=
  led_base_g r; led_base_b := led_base_b r; rumble_weak := rumble_weak r; rumble_strong
  := rumble_strong r; rumble_gain := rumble_gain r; deadzone := deadzone r;
  debounce_enabled := debounce_enabled r; sensitivity_left_preset :=
  sensitivity_left_preset r; sensitivity_right_preset := sensitivity_right_preset r;
  keymap := keymap r; request_switch_layout := request_switch_layout r;
  request_xbox_layout := request_xbox_layout r; request_reset_all_keybinds :=
  request_reset_all_keybinds r; worker_heartbeat := worker_heartbeat r; worker_stop :=
  worker_stop r; ff_effects := ff_effects r; periodic_effects := periodic_effects r;
  effect_type := effect_type r; active_effect_id := active_effect_id r;
  active_effect_type := active_effect_type r; led_dirty := led_dirty r; rumble_dirty :=
  rumble_dirty r; writing_output := writing_output r; led_static := led_static r;
  led_request_effect := led_request_effect r; led_request_speed := led_request_speed r;
  led_request_brightness := led_request_brightness r; led_request_pending :=
  led_request_pending r; player_leds := player_leds r; effect_phase := effect_phase r;
  global_led_brightness := global_led_brightness r; led_reapply := led_reapply r;
  external_retry_count := external_retry_count r; last_external_retry :=
  last_external_retry r; rumble_active := rumble_active r; invert_ly := invert_ly r;
  invert_ry := invert_ry r; is_trigger_digital := is_trigger_digital r; dpad_up :=
  dpad_up r; dpad_down := dpad_down r; dpad_left := dpad_left r; dpad_right :=
  dpad_right r; debounce := debounce r; output_seq := output_seq r; product_name :=
  product_name r; uniq := uniq r; driver := driver r; input_nodes := input_nodes r;
  num_input_nodes := num_input_nodes r |}.
#[export] Instance set_LX : Setter LX. Proof. mk_setter eta_controller_t. Defined.
#[export] Instance set_LY : Setter LY. Proof. mk_setter eta_controller_t. Defined.
#[export] Instance set_RX : Setter RX. Proof. mk_setter eta_controller_t. Defined.
#[export] Instance set_RY : Setter RY. Proof. mk_setter eta_controller_t. Defined.
#[export] Instance set_LT : Setter LT. Proof. mk_setter eta_controller_t. Defined.
#[export] Instance set_RT : Setter RT. Proof. mk_setter eta_controller_t. Defined.
#[export] Instance set_square : Setter square. Proof. mk_setter eta_controller_t. Defined.
#[export] Instance set_cross : Setter cross. Proof. mk_setter eta_controller_t. Defined.
#[export] Instance set_circle : Setter circle. Proof. mk_setter eta_controller_t. Defined.
#[export] Instance set_triangle : Setter triangle. Proof. mk_setter eta_controller_t. Defined.
#[export] Instance set_L1 : Setter L1. Proof. mk_setter eta_controller_t. Defined.
#[export] Instance set_R1 : Setter R1. Proof. mk_setter eta_controller_t. Defined.
#[export] Instance set_L2 : Setter L2. Proof. mk_setter eta_controller_t. Defined.
#[export] Instance set_R2 : Setter R2. Proof. mk_setter eta_controller_t. Defined.
#[export] Instance set_Share : Setter Share. Proof. mk_setter eta_controller_t. Defined.
#[export] Instance set_Options : Setter Options. Proof. mk_setter eta_controller_t. Defined.
#[export] Instance set_L3 : Setter L3. Proof. mk_setter eta_controller_t. Defined.
#[export] Instance set_R3 : Setter R3. Proof. mk_setter eta_controller_t. Defined.
#[export] Instance set_PS : Setter PS. Proof. mk_setter eta_controller_t. Defined.
#[export] Instance set_touch_btn : Setter touch_btn. Proof. mk_setter eta_controller_t. Defined.
#[export] Instance set_HATX : Setter HATX. Proof. mk_setter eta_controller_t. Defined.
#[export] Instance set_HATY : Setter HATY. Proof. mk_setter eta_controller_t. Defined.
#[export] Instance set_battery : Setter battery. Proof. mk_setter eta_controller_t. Defined.
#[export] Instance set_connected : Setter connected. Proof. mk_setter eta_controller_t. Defined.
#[export] Instance set_is_bluetooth : Setter is_bluetooth. Proof. mk_setter eta_controller_t. Defined.
#[export] Instance set_uinput_fd : Setter uinput_fd. Proof. mk_setter eta_controller_t. Defined.
#[export] Instance set_emulate_active : Setter emulate_active. Proof. mk_setter eta_controller_t. Defined.
#[export] Instance set_ctype : Setter ctype. Proof. mk_setter eta_controller_t. Defined.
#[export] Instance set_dev_path : Setter dev_path. Proof. mk_setter eta_controller_t. Defined.
#[export] Instance set_is_uhid : Setter is_uhid. Proof. mk_setter eta_controller_t. Defined.
#[export] Instance set_uhid_fd : Setter uhid_fd. Proof. mk_setter eta_controller_t. Defined.
#[export] Instance set_uhid_output_buf : Setter uhid_output_buf. Proof. mk_setter eta_controller_t. Defined.
#[export] Instance set_uhid_output_pending : Setter uhid_output_pending. Proof. mk_setter eta_controller_t. Defined.
#[export] Instance set_led_r : Setter led_r. Proof. mk_setter eta_controller_t. Defined.
#[export] Instance set_led_g : Setter led_g. Proof. mk_setter eta_controller_t. Defined.
#[export] Instance set_led_b : Setter led_b. Proof. mk_setter eta_controller_t. Defined.
#[export] Instance set_led_base_r : Setter led_base_r. Proof. mk_setter eta_controller_t. Defined.
#[export] Instance set_led_base_g : Setter led_base_g. Proof. mk_setter eta_controller_t. Defined.
#[export] Instance set_led_base_b : Setter led_base_b. Proof. mk_setter eta_controller_t. Defined.
#[export] Instance set_rumble_weak : Setter rumble_weak. Proof. mk_setter eta_controller_t. Defined.
#[export] Instance set_rumble_strong : Setter rumble_strong. Proof. mk_setter eta_controller_t. Defined.
#[export] Instance set_rumble_gain : Setter rumble_gain. Proof. mk_setter eta_controller_t. Defined.
#[export] Instance set_deadzone : Setter deadzone. Proof. mk_setter eta_controller_t. Defined.
#[export] Instance set_debounce_enabled : Setter debounce_enabled. Proof. mk_setter eta_controller_t. Defined.
#[export] Instance set_sensitivity_left_preset : Setter sensitivity_left_preset. Proof. mk_setter eta_controller_t. Defined.
#[export] Instance set_sensitivity_right_preset : Setter sensitivity_right_preset. Proof. mk_setter eta_controller_t. Defined.
#[export] Instance set_keymap : Setter keymap. Proof. mk_setter eta_controller_t. Defined.
#[export] Instance set_request_switch_layout : Setter request_switch_layout. Proof. mk_setter eta_controller_t. Defined.
#[export] Instance set_request_xbox_layout : Setter request_xbox_layout. Proof. mk_setter eta_controller_t. Defined.
#[export] Instance set_request_reset_all_keybinds : Setter request_reset_all_keybinds. Proof. mk_setter eta_controller_t. Defined.
#[export] Instance set_worker_heartbeat : Setter worker_heartbeat. Proof. mk_setter eta_controller_t. Defined.
#[export] Instance set_worker_stop : Setter worker_stop. Proof. mk_setter eta_controller_t. Defined.
#[export] Instance set_ff_effects : Setter ff_effects. Proof. mk_setter eta_controller_t. Defined.
#[export] Instance set_periodic_effects : Setter periodic_effects. Proof. mk_setter eta_controller_t. Defined.
#[export] Instance set_effect_type : Setter effect_type. Proof. mk_setter eta_controller_t. Defined.
#[export] Instance set_active_effect_id : Setter active_effect_id. Proof. mk_setter eta_controller_t. Defined.
#[export] Instance set_active_effect_type : Setter active_effect_type. Proof. mk_setter eta_controller_t. Defined.
#[export] Instance set_led_dirty : Setter led_dirty. Proof. mk_setter eta_controller_t. Defined.
#[export] Instance set_rumble_dirty : Setter rumble_dirty. Proof. mk_setter eta_controller_t. Defined.
#[export] Instance set_writing_output : Setter writing_output. Proof. mk_setter eta_controller_t. Defined.
#[export] Instance set_led_static : Setter led_static. Proof. mk_setter eta_controller_t. Defined.
#[export] Instance set_led_request_effect : Setter led_request_effect. Proof. mk_setter eta_controller_t. Defined.
#[export] Instance set_led_request_speed : Setter led_request_speed. Proof. mk_setter eta_controller_t. Defined.
#[export] Instance set_led_request_brightness : Setter led_request_brightness. Proof. mk_setter eta_controller_t. Defined.
#[export] Instance set_led_request_pending : Setter led_request_pending. Proof. mk_setter eta_controller_t. Defined.
#[export] Instance set_player_leds : Setter player_leds. Proof. mk_setter eta_controller_t. Defined.
#[export] Instance set_effect_phase : Setter effect_phase. Proof. mk_setter eta_controller_t. Defined.
#[export] Instance set_global_led_brightness : Setter global_led_brightness. Proof. mk_setter eta_controller_t. Defined.
#[export] Instance set_led_reapply : Setter led_reapply. Proof. mk_setter eta_controller_t. Defined.
#[export] Instance set_external_retry_count : Setter external_retry_count. Proof. mk_setter eta_controller_t. Defined.
#[export] Instance set_last_external_retry : Setter last_external_retry. Proof. mk_setter eta_controller_t. Defined.
#[export] Instance set_rumble_active : Setter rumble_active. Proof. mk_setter eta_controller_t. Defined.
#[export] Instance set_invert_ly : Setter invert_ly. Proof. mk_setter eta_controller_t. Defined.
#[export] Instance set_invert_ry : Setter invert_ry. Proof. mk_setter eta_controller_t. Defined.
#[export] Instance set_is_trigger_digital : Setter is_trigger_digital. Proof. mk_setter eta_controller_t. Defined.
#[export] Instance set_dpad_up : Setter dpad_up. Proof. mk_setter eta_controller_t. Defined.
#[export] Instance set_dpad_down : Setter dpad_down. Proof. mk_setter eta_controller_t. Defined.
#[export] Instance set_dpad_left : Setter dpad_left. Proof. mk_setter eta_controller_t. Defined.
#[export] Instance set_dpad_right : Setter dpad_right. Proof. mk_setter eta_controller_t. Defined.
#[export] Instance set_debounce : Setter debounce. Proof. mk_setter eta_controller_t. Defined.
#[export] Instance set_output_seq : Setter output_seq. Proof. mk_setter eta_controller_t. Defined.
#[export] Instance set_product_name : Setter product_name. Proof. mk_setter eta_controller_t. Defined.
#[export] Instance set_uniq : Setter uniq. Proof. mk_setter eta_controller_t. Defined.
#[export] Instance set_driver : Setter driver. Proof. mk_setter eta_controller_t. Defined.
#[export] Instance set_input_nodes : Setter input_nodes. Proof. mk_setter eta_controller_t. Defined.
#[export] Instance set_num_input_nodes : Setter num_input_nodes. Proof. mk_setter eta_controller_t. Defined.

Definition eta_slot_config_t (r : slot_config_t) : slot_config_t := {|
  cfg_led_r := cfg_led_r r; cfg_led_g := cfg_led_g r; cfg_led_b := cfg_led_b r;
  cfg_led_base_r := cfg_led_base_r r; cfg_led_base_g := cfg_led_base_g r; cfg_led_base_b
  := cfg_led_base_b r; cfg_rumble_gain := cfg_rumble_gain r; cfg_deadzone :=
  cfg_deadzone r; cfg_global_led_brightness := cfg_global_led_brightness r;
  cfg_player_leds := cfg_player_leds r; cfg_debounce_enabled := cfg_debounce_enabled r;
  cfg_emulate_active := cfg_emulate_active r; cfg_is_uhid := cfg_is_uhid r;
  cfg_led_reapply := cfg_led_reapply r; cfg_rumble_active := cfg_rumble_active r;
  cfg_invert_ly := cfg_invert_ly r; cfg_invert_ry := cfg_invert_ry r;
  cfg_sensitivity_left_preset := cfg_sensitivity_left_preset r;
  cfg_sensitivity_right_preset := cfg_sensitivity_right_preset r; cfg_led_effect :=
  cfg_led_effect r; cfg_led_effect_speed := cfg_led_effect_speed r;
  cfg_led_effect_brightness := cfg_led_effect_brightness r; cfg_keymap := cfg_keymap r;
  cfg_treat_triggers_as_digital := cfg_treat_triggers_as_digital r |}.
#[export] Instance set_cfg_led_r : Setter cfg_led_r. Proof. mk_setter eta_slot_config_t. Defined.
#[export] Instance set_cfg_led_g : Setter cfg_led_g. Proof. mk_setter eta_slot_config_t. Defined.
#[export] Instance set_cfg_led_b : Setter cfg_led_b. Proof. mk_setter eta_slot_config_t. Defined.
#[export] Instance set_cfg_led_base_r : Setter cfg_led_base_r. Proof. mk_setter eta_slot_config_t. Defined.
#[export] Instance set_cfg_led_base_g : Setter cfg_led_base_g. Proof. mk_setter eta_slot_config_t. Defined.
#[export] Instance set_cfg_led_base_b : Setter cfg_led_base_b. Proof. mk_setter eta_slot_config_t. Defined.
#[export] Instance set_cfg_rumble_gain : Setter cfg_rumble_gain. Proof. mk_setter eta_slot_config_t. Defined.
#[export] Instance set_cfg_deadzone : Setter cfg_deadzone. Proof. mk_setter eta_slot_config_t. Defined.
#[export] Instance set_cfg_global_led_brightness : Setter cfg_global_led_brightness. Proof. mk_setter eta_slot_config_t. Defined.
#[export] Instance set_cfg_player_leds : Setter cfg_player_leds. Proof. mk_setter eta_slot_config_t. Defined.
#[export] Instance set_cfg_debounce_enabled : Setter cfg_debounce_enabled. Proof. mk_setter eta_slot_config_t. Defined.
#[export] Instance set_cfg_emulate_active : Setter cfg_emulate_active. Proof. mk_setter eta_slot_config_t. Defined.
#[export] Instance set_cfg_is_uhid : Setter cfg_is_uhid. Proof. mk_setter eta_slot_config_t. Defined.
#[export] Instance set_cfg_led_reapply : Setter cfg_led_reapply. Proof. mk_setter eta_slot_config_t. Defined.
#[export] Instance set_cfg_rumble_active : Setter cfg_rumble_active. Proof. mk_setter eta_slot_config_t. Defined.
#[export] Instance set_cfg_invert_ly : Setter cfg_invert_ly. Proof. mk_setter eta_slot_config_t. Defined.
#[export] Instance set_cfg_invert_ry : Setter cfg_invert_ry. Proof. mk_setter eta_slot_config_t. Defined.
#[export] Instance set_cfg_sensitivity_left_preset : Setter cfg_sensitivity_left_preset. Proof. mk_setter eta_slot_config_t. Defined.
#[export] Instance set_cfg_sensitivity_right_preset : Setter cfg_sensitivity_right_preset. Proof. mk_setter eta_slot_config_t. Defined.
#[export] Instance set_cfg_led_effect : Setter cfg_led_effect. Proof. mk_setter eta_slot_config_t. Defined.
#[export] Instance set_cfg_led_effect_speed : Setter cfg_led_effect_speed. Proof. mk_setter eta_slot_config_t. Defined.
#[export] Instance set_cfg_led_effect_brightness : Setter cfg_led_effect_brightness. Proof. mk_setter eta_slot_config_t. Defined.
#[export] Instance set_cfg_keymap : Setter cfg_keymap. Proof. mk_setter eta_slot_config_t. Defined.
#[export] Instance set_cfg_treat_triggers_as_digital : Setter cfg_treat_triggers_as_digital. Proof. mk_setter eta_slot_config_t. Defined.

Definition eta_shared_data_t (r : shared_data_t) : shared_data_t := {|
  magic := magic r; slots := slots r; request_reload := request_reload r; daemon_pid :=
  daemon_pid r; heartbeat := heartbeat r; ledfx_active := ledfx_active r;
  free_slots_bitmap := free_slots_bitmap r; profile_request := profile_request r;
  profile_name := profile_name r; profile_response := profile_response r;
  profile_response_msg := profile_response_msg r; auto_save_enabled := auto_save_enabled
  r; auto_save_delay_ms := auto_save_delay_ms r; current_profile_name :=
  current_profile_name r |}.
#[export] Instance set_magic : Setter magic. Proof. mk_setter eta_shared_data_t. Defined.
#[export] Instance set_slots : Setter slots. Proof. mk_setter eta_shared_data_t. Defined.
#[export] Instance set_request_reload : Setter request_reload. Proof. mk_setter eta_shared_data_t. Defined.
#[export] Instance set_daemon_pid : Setter daemon_pid. Proof. mk_setter eta_shared_data_t. Defined.
#[export] Instance set_heartbeat : Setter heartbeat. Proof. mk_setter eta_shared_data_t. Defined.
#[export] Instance set_ledfx_active : Setter ledfx_active. Proof. mk_setter eta_shared_data_t. Defined.
#[export] Instance set_free_slots_bitmap : Setter free_slots_bitmap. Proof. mk_setter eta_shared_data_t. Defined.
#[export] Instance set_profile_request : Setter profile_request. Proof. mk_setter eta_shared_data_t. Defined.
#[export] Instance set_profile_name : Setter profile_name. Proof. mk_setter eta_shared_data_t. Defined.
#[export] Instance set_profile_response : Setter profile_response. Proof. mk_setter eta_shared_data_t. Defined.
#[export] Instance set_profile_response_msg : Setter profile_response_msg. Proof. mk_setter eta_shared_data_t. Defined.
#[export] Instance set_auto_save_enabled : Setter auto_save_enabled. Proof. mk_setter eta_shared_data_t. Defined.
#[export] Instance set_auto_save_delay_ms : Setter auto_save_delay_ms. Proof. mk_setter eta_shared_data_t. Defined.
#[export] Instance set_current_profile_name : Setter current_profile_name. Proof. mk_setter eta_shared_data_t. Defined.

(** The all-zero structures a [memset(.., 0, ..)] leaves. *)
Definition zero_periodic : periodic_effect_t :=
  mk_periodic_effect false 0 0 0 0 0 tv_zero 0 0 0.
Definition zero_controller : controller_t := {|
  LX := 0; LY := 0; RX := 0; RY := 0; LT := 0; RT := 0;
  square := 0; cross := 0; circle := 0; triangle := 0;
  L1 := 0; R1 := 0; L2 := 0; R2 := 0;
  Share := 0; Options := 0; L3 := 0; R3 := 0; PS := 0; touch_btn := 0;
  HATX := 0; HATY := 0; battery := 0; connected := false; is_bluetooth := false;
  uinput_fd := 0; emulate_active := false; ctype := TYPE_DS4; dev_path := "";
  is_uhid := false; uhid_fd := 0; uhid_output_buf := repeat 0 64;
  uhid_output_pending := false; led_r := 0; led_g := 0; led_b := 0;
  led_base_r := 0; led_base_g := 0; led_base_b := 0; rumble_weak := 0;
  rumble_strong := 0; rumble_gain := 0; deadzone := 0; debounce_enabled := false;
  sensitivity_left_preset := 0; sensitivity_right_preset := 0;
  keymap := repeat 0 18; request_switch_layout := false;
  request_xbox_layout := false; request_reset_all_keybinds := false;
  worker_heartbeat := 0; worker_stop := false;
  ff_effects := repeat (mk_ff_effect 0 0) 16;
  periodic_effects := repeat zero_periodic 16; effect_type := repeat 0 16;
  active_effect_id := 0; active_effect_type := 0; led_dirty := false;
  rumble_dirty := false; writing_output := false; led_static := false;
  led_request_effect := 0; led_request_speed := 0; led_request_brightness := 0;
  led_request_pending := false; player_leds := 0; effect_phase := S754_zero false;
  global_led_brightness := 0; led_reapply := false; external_retry_count := 0;
  last_external_retry := tv_zero; rumble_active := false; invert_ly := false;
  invert_ry := false; is_trigger_digital := false;
  dpad_up := 0; dpad_down := 0; dpad_left := 0; dpad_right := 0;
  debounce := repeat (mk_debounce_entry 0 0) 18; output_seq := 0;
  product_name := ""; uniq := ""; driver := "";
  input_nodes := repeat (mk_input_node "" "") 8; num_input_nodes := 0 |}.
Definition zero_slot_config : slot_config_t :=
  mk_slot_config 0 0 0 0 0 0 0 0 0 0 false false false false false false false
    0 0 (to_uint8 0) 0 0 (repeat 0 18) false.

(** [slots[i]] of the shared memory, for a validated index. *)
Definition get_slot (shm : shared_data_t) (i : Z) : controller_t :=
  aget zero_controller (slots shm) i.
Definition put_slot (shm : shared_data_t) (i : Z) (c : controller_t) : shared_data_t :=
  shm {{ slots := aset (slots shm) i c }}.

(** ** [get_trigger_axis_value] *)
Definition get_trigger_axis_value (slot : controller_t) (is_left : bool) : Z :=
  if is_left then
    if 0 <? LT slot then
      if aget 0 (keymap slot) PHY_BTN_L2 =? log_val LOGICAL_BTN_L2 then LT slot else 0
    else if truthy (L2 slot) then 255 else 0
  else
    if 0 <? RT slot then
      if aget 0 (keymap slot) PHY_BTN_R2 =? log_val LOGICAL_BTN_R2 then RT slot else 0
    else if truthy (R2 slot) then 255 else 0.

(** The trigger axis stays in the 0..255 range declared to the kernel as soon
    as the stored trigger values do. *)
Lemma get_trigger_axis_value_range slot l :
  LT slot <= 255 -> RT slot <= 255 -> 0 <= get_trigger_axis_value slot l <= 255.
Proof.
  intros. unfold get_trigger_axis_value. destruct l; zcases; repeat bcase; lia.
Qed.

Lemma length_put_slot shm i c : length (slots (put_slot shm i c)) = length (slots shm).
Proof. apply length_aset. Qed.
Lemma get_put_slot_eq shm i c :
  0 <= i < Z.of_nat (length (slots shm)) -> get_slot (put_slot shm i c) i = c.
Proof. apply aget_aset_eq. Qed.
Lemma get_put_slot_ne shm i j c :
  0 <= i -> 0 <= j -> i <> j -> get_slot (put_slot shm i c) j = get_slot shm j.
Proof. apply aget_aset_ne. Qed.

(** A slot after another is written: untouched, or the one written. *)
Lemma get_put_slot_or shm i j :
  (forall c, get_slot (put_slot shm i c) j = get_slot shm j) \/
  ((forall c, get_slot (put_slot shm i c) j = c) /\ get_slot shm j = get_slot shm i).
Proof.
  unfold get_slot, aget.
  assert (forall c, slots (put_slot shm i c) = <[Z.to_nat i := c]> (slots shm)) as Es by reflexivity.
  destruct (decide (Z.to_nat i = Z.to_nat j)) as [E|E].
  - rewrite <- E. destruct (decide (Z.to_nat i < length (slots shm))%nat).
    + right. split; [|done]. intros c. by rewrite Es, nth_lookup, list_lookup_insert_eq.
    + left. intros c. by rewrite Es, list_insert_ge by lia.
  - left. intros c. by rewrite Es, !nth_lookup, list_lookup_insert_ne.
Qed.

(** The life of a slot is as it was: its connection, its node, its type and the
    last sign of its worker. *)
Definition same_life (c c' : controller_t) : Prop :=
  connected c' = connected c /\ dev_path c' = dev_path c /\ ctype c' = ctype c /\
  worker_heartbeat c' = worker_heartbeat c.
#[export] Instance same_life_refl : Reflexive same_life.
Proof. done. Qed.
#[export] Instance same_life_trans : Transitive same_life.
Proof. intros a b c (? & ? & ? & ?) (? & ? & ? & ?). repeat split; congruence. Qed.

(** The enumerator with a given value, for the [switch] over a [uint8_t]. *)
Definition log_of_val (v : Z) : option logical_button_t :=
  match v with
  | 0 => Some LOGICAL_BTN_NONE | 1 => Some LOGICAL_BTN_CROSS
  | 2 => Some LOGICAL_BTN_CIRCLE | 3 => Some LOGICAL_BTN_SQUARE
  | 4 => Some LOGICAL_BTN_TRIANGLE | 5 => Some LOGICAL_BTN_L1
  | 6 => Some LOGICAL_BTN_R1 | 7 => Some LOGICAL_BTN_L2 | 8 => Some LOGICAL_BTN_R2
  | 9 => Some LOGICAL_BTN_SHARE | 10 => Some LOGICAL_BTN_OPTIONS
  | 11 => Some LOGICAL_BTN_L3 | 12 => Some LOGICAL_BTN_R3 | 13 => Some LOGICAL_BTN_PS
  | 14 => Some LOGICAL_BTN_TOUCH | 15 => Some LOGICAL_BTN_DPAD_UP
  | 16 => Some LOGICAL_BTN_DPAD_DOWN | 17 => Some LOGICAL_BTN_DPAD_LEFT
  | 18 => Some LOGICAL_BTN_DPAD_RIGHT
  | _ => None
  end.

Lemma log_of_log_val b : log_of_val (log_val b) = Some b.
Proof. by destruct b. Qed.
Lemma log_of_val_Some v b : log_of_val v = Some b <-> v = log_val b.
Proof.
  split; [|intros ->; apply log_of_log_val].
  destruct v as [|p|p]; [by intros [= <-] | | done].
  do 5 (destruct p as [p|p|]; simpl; try (by intros [= <-]); try done).
Qed.
#[export] Hint Rewrite log_of_log_val : dstx.
