(* ===== verification/Sys.v ===== *)
(** * System calls and [safe_write]

    The kernel is an oracle: [kernel h op] is the result and the [errno] of the
    call [op] issued after the calls [h] (newest first).  An [io] computation
    threads that history and has no result when its fuel runs out, which only
    happens inside the retry loop of [safe_write]. *)

From S2P Require Import Prelude.

Definition EINTR : Z := 4.
Definition EPIPE : Z := 32.
Definition ESRCH : Z := 3.

(** The calls the modelled code issues; payloads are byte lists. *)
Inductive sysop : Set :=
| SysOpen (path : string)
| SysClose (fd : Z)
| SysIoctl (fd : Z) (request : string) (arg : Z)
| SysWrite (fd : Z) (data : list Z)
| SysRead (fd : Z)
| SysPoll (fd timeout_ms : Z)
| SysKill (pid sig : Z)
| SysShmOpen (path : string)
| SysInotifyInit
| SysInotifyWatch (fd : Z) (path : string)
| SysFstat (fd : Z)          (* the size, or -1 *)
| SysMmap (fd : Z)           (* -1 is MAP_FAILED *)
| SysMunmap
| SysLock (mutex : string)
| SysUnlock (mutex : string).

Definition kernel_t : Type := list sysop -> sysop -> Z * Z.

Definition io (A : Type) : Type := list sysop -> option (A * list sysop).
#[export] Instance io_ret : MRet io := fun A x h => Some (x, h).
#[export] Instance io_bind : MBind io :=
  fun A B f m h => match m h with Some (x, h') => f x h' | None => None end.

(** Little-endian encodings of integer members. *)
Fixpoint le_bytes (n : nat) (z : Z) : list Z :=
  match n with O => [] | S n => z mod 256 :: le_bytes n (z / 256) end.
Fixpoint le_value (l : list Z) : Z :=
  match l with [] => 0 | b :: l => b + 256 * le_value l end.

Section with_kernel.
Context (kernel : kernel_t).

Definition sys (op : sysop) : io (Z * Z) := fun h => Some (kernel h op, op :: h).
(** A call of which only the result is used. *)
Definition sys_ (op : sysop) : io Z := fun h => Some ((kernel h op).1, op :: h).

(** [safe_write]: one unit of fuel per [write] call. *)
Fixpoint safe_write_loop (fuel : nat) (fd : Z) (data : list Z) : io bool :=
  match data, fuel with
  | [], _ => mret true
  | _, O => fun _ => None
  | _, S fuel =>
      r ← sys (SysWrite fd data);
      if r.1 <? 0 then
        if r.2 =? EINTR then safe_write_loop fuel fd data else mret false
      else if r.1 =? 0 then mret false
      else safe_write_loop fuel fd (drop (Z.to_nat r.1) data)
  end.

Definition safe_write (fuel : nat) (fd : Z) (data : list Z) : io Z :=
  ok ← safe_write_loop fuel fd data;
  mret (if ok : bool then Z.of_nat (length data) else -1).

(** ** Specification

    The bytes the kernel accepted on [fd] in a history: the accepted prefix of
    every successful write, oldest first. *)
Fixpoint accepted (fd : Z) (h : list sysop) : list Z :=
  match h with
  | [] => []
  | op :: h =>
      accepted fd h ++
      match op with
      | SysWrite fd' data =>
          if fd' =? fd then take (Z.to_nat (kernel h op).1) data else []
      | _ => []
      end
  end.

(** [write] never reports more bytes than it was given. *)
Definition write_bounded : Prop :=
  forall h fd data, (kernel h (SysWrite fd data)).1 <= Z.of_nat (length data).

(** The same write is interrupted at most [k] times in a row. *)
Definition eintr_bounded (k : nat) : Prop :=
  forall h fd data, exists j, (j <= k)%nat /\
    let r := kernel (repeat (SysWrite fd data) j ++ h) (SysWrite fd data) in
    ~ (r.1 < 0 /\ r.2 = EINTR).

(** The least index at which a decidable property fails. *)
Lemma least_false (P : nat -> Prop) `{forall i, Decision (P i)} n :
  ~ P n -> exists j, (j <= n)%nat /\ (forall i, (i < j)%nat -> P i) /\ ~ P j.
Proof.
  revert n. refine (well_founded_ind lt_wf _ _). intros n IH Hn.
  destruct (decide (Forall P (seq 0 n))) as [HF|HF].
  - exists n. repeat split; [done | | done]. intros i Hi.
    rewrite List.Forall_forall in HF. apply HF, in_seq. lia.
  - apply not_Forall_Exists, List.Exists_exists in HF as (i & Hi & HPi); [|apply _].
    apply in_seq in Hi. destruct (IH i) as (j & ? & ? & ?); [lia | done |].
    exists j. repeat split; [lia | done | done].
Qed.

Lemma io_bind_Some {A B} (m : io A) (f : A -> io B) h x h' :
  m h = Some (x, h') -> (m ≫= f) h = f x h'.
Proof. intros H. unfold mbind, io_bind. by rewrite H. Qed.

Lemma io_bind_inv {A B} (m : io A) (f : A -> io B) h y h'' :
  (m ≫= f) h = Some (y, h'') -> exists x h', m h = Some (x, h') /\ f x h' = Some (y, h'').
Proof.
  unfold mbind, io_bind. destruct (m h) as [[x h']|] eqn:E; [|done].
  intros H. by exists x, h'.
Qed.

Lemma take_neg_length (A : Type) (l : list A) n : (n <= 0) -> take (Z.to_nat n) l = [].
Proof. intros H. by replace (Z.to_nat n) with O by lia. Qed.

Lemma safe_write_loop_spec fuel fd data h ok h' :
  write_bounded ->
  safe_write_loop fuel fd data h = Some (ok, h') ->
  exists n, (n <= length data)%nat /\
    accepted fd h' = accepted fd h ++ take n data /\ (ok = true <-> n = length data) .
Proof.
  intros Hb. revert data h. induction fuel as [|fuel IH]; intros [|b data] h;
    simpl safe_write_loop; try done.
  1,2: intros [= <- <-]; exists O; simpl; rewrite app_nil_r; repeat split; lia.
  set (D := b :: data). set (op := SysWrite fd D).
  unfold mbind, io_bind, sys. cbv beta iota.
  assert (forall h1, h1 = op :: h -> accepted fd h1 =
    accepted fd h ++ take (Z.to_nat (kernel h op).1) D) as Hacc.
  { intros h1 ->. simpl. by rewrite Z.eqb_refl. }
  specialize (Hacc _ eq_refl). pose proof (Hb h fd D) as HbD. fold op in HbD.
  destruct (Z.ltb_spec (kernel h op).1 0).
  { rewrite take_neg_length, app_nil_r in Hacc by lia.
    destruct (_ =? EINTR).
    - intros Hrec. destruct (IH _ _ Hrec) as (n & Hn & Ha & Ho).
      exists n. by rewrite Ha, Hacc.
    - intros [= <- <-]. exists O. rewrite Hacc, app_nil_r. simpl. repeat split; lia. }
  destruct (Z.eqb_spec (kernel h op).1 0) as [Hz|Hz].
  { rewrite take_neg_length, app_nil_r in Hacc by lia.
    intros [= <- <-]. exists O. rewrite Hacc, app_nil_r. simpl. repeat split; lia. }
  intros Hrec. destruct (IH _ _ Hrec) as (n & Hn & Ha & Ho).
  rewrite length_drop in Hn, Ho.
  exists (Z.to_nat (kernel h op).1 + n)%nat. split; [lia|]. split.
  - rewrite Ha, Hacc, <- app_assoc. f_equal. by rewrite take_take_drop.
  - rewrite Ho. lia.
Qed.

Lemma repeat_shift {A} (x : A) j h : repeat x j ++ x :: h = repeat x (S j) ++ h.
Proof. induction j as [|j IHj]; simpl; [done|]. f_equal. exact IHj. Qed.

(** An interrupted write is retried until it is not. *)
Lemma safe_write_retry j fuel fd b data h :
  (forall i, (i < j)%nat ->
     let r := kernel (repeat (SysWrite fd (b :: data)) i ++ h) (SysWrite fd (b :: data)) in
     r.1 < 0 /\ r.2 = EINTR) ->
  safe_write_loop (j + fuel) fd (b :: data) h =
  safe_write_loop fuel fd (b :: data) (repeat (SysWrite fd (b :: data)) j ++ h).
Proof.
  revert h. induction j as [|j IH]; intros h Hi; [done|].
  change (S j + fuel)%nat with (S (j + fuel)). simpl safe_write_loop at 1.
  unfold mbind, io_bind, sys at 1.
  destruct (Hi O) as [Hneg Herr]; [lia|]. simpl in Hneg, Herr.
  destruct (Z.ltb_spec (kernel h (SysWrite fd (b :: data))).1 0); [|lia].
  rewrite Herr, Z.eqb_refl. rewrite IH.
  - by rewrite repeat_shift.
  - intros i Hlt. rewrite repeat_shift. apply Hi. lia.
Qed.

Lemma safe_write_loop_terminates k fd data h fuel :
  write_bounded -> eintr_bounded k ->
  (length data * S k <= fuel)%nat ->
  exists ok h', safe_write_loop fuel fd data h = Some (ok, h').
Proof.
  intros Hb He. revert h data. induction fuel as [fuel IH] using lt_wf_ind.
  intros h [|b data] Hf; [by destruct fuel; eexists _, _|].
  destruct (He h fd (b :: data)) as (j0 & Hj0 & Hr0).
  (* the first index that is not an interrupted write *)
  assert (exists j, (j <= k)%nat /\
    (forall i, (i < j)%nat ->
       let r := kernel (repeat (SysWrite fd (b :: data)) i ++ h) (SysWrite fd (b :: data)) in
       r.1 < 0 /\ r.2 = EINTR) /\
    let r := kernel (repeat (SysWrite fd (b :: data)) j ++ h) (SysWrite fd (b :: data)) in
    ~ (r.1 < 0 /\ r.2 = EINTR)) as (j & Hj & Hlt & Hr).
  { destruct (least_false (fun i =>
      let r := kernel (repeat (SysWrite fd (b :: data)) i ++ h) (SysWrite fd (b :: data)) in
      r.1 < 0 /\ r.2 = EINTR) j0 Hr0) as (j & Hjle & Hlt & Hn).
    exists j. split; [lia|]. split; [exact Hlt | exact Hn]. }
  simpl in Hf. replace fuel with (j + S (fuel - S j))%nat by lia.
  rewrite safe_write_retry by done.
  set (h1 := repeat _ j ++ h) in *. cbv zeta in Hr.
  simpl safe_write_loop. unfold mbind, io_bind, sys.
  destruct (Z.ltb_spec (kernel h1 (SysWrite fd (b :: data))).1 0).
  { destruct (Z.eqb_spec (kernel h1 (SysWrite fd (b :: data))).2 EINTR); [tauto | by eexists _, _]. }
  destruct (Z.eqb_spec (kernel h1 (SysWrite fd (b :: data))).1 0); [by eexists _, _|].
  apply IH; [lia|]. rewrite length_drop. simpl length. nia.
Qed.

(** ** Close discipline

    [opened h fd]: [fd] was obtained from an [open] of the history and not
    closed since. *)
Definition is_open_step (op : sysop) (r : Z) (fd : Z) (b : bool) : bool :=
  match op with
  | SysOpen _ | SysShmOpen _ | SysInotifyInit => if (0 <=? r) && (r =? fd) then true else b
  | SysClose fd' => if fd' =? fd then false else b
  | _ => b
  end.
Fixpoint opened (h : list sysop) (fd : Z) : bool :=
  match h with
  | [] => false
  | op :: h => is_open_step op (kernel h op).1 fd (opened h fd)
  end.

Lemma opened_nonneg h x : opened h x = true -> 0 <= x.
Proof.
  induction h as [|op h IH]; [done|]. cbn [opened].
  assert (forall r b, (b = true -> 0 <= x) -> (if (0 <=? r) && (r =? x) then true else b) = true -> 0 <= x)
    as Hr.
  { intros r b Hb. destruct (Z.leb_spec 0 r), (Z.eqb_spec r x); cbn [andb]; auto; lia. }
  destruct op; cbn [is_open_step]; eauto. destruct (_ =? _); [done | auto].
Qed.

(** The calls between two histories leave every descriptor as it was. *)
Definition fds_same (h h' : list sysop) : Prop := forall fd, opened h' fd = opened h fd.
Lemma fds_same_refl h : fds_same h h.
Proof. done. Qed.
Lemma fds_same_trans h1 h2 h3 : fds_same h1 h2 -> fds_same h2 h3 -> fds_same h1 h3.
Proof. intros H1 H2 fd. by rewrite (H2 fd), (H1 fd). Qed.

(** No descriptor is open in [h'] that was not open in [h]. *)
Definition no_leak (h h' : list sysop) : Prop :=
  forall fd, opened h' fd = true -> opened h fd = true.
Lemma fds_same_no_leak h1 h2 h3 : no_leak h1 h2 -> fds_same h2 h3 -> no_leak h1 h3.
Proof. intros H1 H2 fd. rewrite (H2 fd). apply H1. Qed.
Lemma open_close_no_leak h h1 path :
  fds_same (SysOpen path :: h) h1 ->
  no_leak h (SysClose (kernel h (SysOpen path)).1 :: h1).
Proof.
  intros H1 fd. simpl. destruct (Z.eqb_spec (kernel h (SysOpen path)).1 fd) as [E|E]; [done|].
  rewrite (H1 fd). simpl. apply Z.eqb_neq in E. rewrite E. by rewrite andb_false_r.
Qed.
Lemma open_failed_no_leak h path :
  (kernel h (SysOpen path)).1 < 0 -> no_leak h (SysOpen path :: h).
Proof. intros Hr fd. simpl. destruct (Z.leb_spec 0 (kernel h (SysOpen path)).1); [lia | done]. Qed.

(** [h'] has at most one descriptor open that [h] had not: [fd]. *)
Definition opened_only (h h' : list sysop) (fd : Z) : Prop :=
  forall fd', opened h' fd' = true -> fd' = fd \/ opened h fd' = true.
Lemma open_opened_only h h1 path :
  fds_same (SysOpen path :: h) h1 -> opened_only h h1 (kernel h (SysOpen path)).1.
Proof.
  intros H1 fd. rewrite (H1 fd). simpl. destruct (Z.eqb_spec (kernel h (SysOpen path)).1 fd); [by left|].
  rewrite andb_false_r. by right.
Qed.

(** What a routine that opens a device promises to its callers: -1 with nothing
    left open, or a descriptor that is open, and only that one. *)
Class DeviceOpener (create : io Z) : Prop :=
  device_opener h r h' : create h = Some (r, h') ->
    (r = -1 /\ no_leak h h') \/ (0 <= r /\ opened h' r = true /\ opened_only h h' r).

Lemma safe_write_loop_fds fuel fd data h ok h' :
  safe_write_loop fuel fd data h = Some (ok, h') -> fds_same h h'.
Proof.
  revert data h. induction fuel as [|fuel IH]; intros [|b data] h; simpl safe_write_loop; try done.
  1,2: by intros [= <- <-].
  unfold mbind, io_bind, sys. cbv beta iota.
  repeat case_match; try (by intros [= <- <-]).
  all: intros Hr; eapply fds_same_trans; [|apply (IH _ _ Hr)]; done.
Qed.

Lemma safe_write_fds fuel fd data h r h' :
  safe_write fuel fd data h = Some (r, h') -> fds_same h h'.
Proof.
  unfold safe_write. intros H. apply io_bind_inv in H as (ok & h1 & Hw & [= <- <-]).
  by apply safe_write_loop_fds in Hw.
Qed.

(** ** Computations that open and close nothing

    [quietly m Q]: whatever [m] returns satisfies [Q], and every descriptor is
    as it was.  The rules follow the structure of a computation; [quiet] below
    applies them. *)
Definition quietly {A} (m : io A) (Q : A -> Prop) : Prop :=
  forall h x h', m h = Some (x, h') -> Q x /\ fds_same h h'.

Lemma quietly_ret {A} (x : A) (Q : A -> Prop) : Q x -> quietly (mret x) Q.
Proof. intros HQ h y h' [= <- <-]. by split. Qed.

Lemma quietly_bind {A B} (m : io A) (f : A -> io B) (P : A -> Prop) (Q : B -> Prop) :
  quietly m P -> (forall x, P x -> quietly (f x) Q) -> quietly (m ≫= f) Q.
Proof.
  intros Hm Hf h y h' H. apply io_bind_inv in H as (x & h1 & E & H).
  destruct (Hm _ _ _ E) as [HP F1]. destruct (Hf x HP _ _ _ H) as [HQ F2].
  split; [done | by eapply fds_same_trans].
Qed.

Lemma quietly_mono {A} (m : io A) (P Q : A -> Prop) :
  quietly m P -> (forall x, P x -> Q x) -> quietly m Q.
Proof. intros Hm HPQ h x h' E. destruct (Hm _ _ _ E). auto. Qed.

(** The calls that neither open nor close. *)
Definition keeps_fds (op : sysop) : bool :=
  match op with
  | SysOpen _ | SysShmOpen _ | SysInotifyInit | SysClose _ => false
  | _ => true
  end.
Lemma keeps_fds_same op h : keeps_fds op = true -> fds_same h (op :: h).
Proof. by destruct op. Qed.

Lemma quietly_sys_ op (Q : Z -> Prop) :
  keeps_fds op = true -> (forall r, Q r) -> quietly (sys_ op) Q.
Proof. intros Hop HQ h x h' [= <- <-]. split; [done | by apply keeps_fds_same]. Qed.

Lemma quietly_sys op (Q : Z * Z -> Prop) :
  keeps_fds op = true -> (forall r, Q r) -> quietly (sys op) Q.
Proof. intros Hop HQ h x h' [= <- <-]. split; [done | by apply keeps_fds_same]. Qed.

Lemma quietly_safe_write fuel fd data (Q : Z -> Prop) :
  (forall r, Q r) -> quietly (safe_write fuel fd data) Q.
Proof. intros HQ h x h' E. split; [done | by eapply safe_write_fds]. Qed.

(** ** Computations that return

    [returns m]: [m] has a result after any calls. *)
Definition returns {A} (m : io A) : Prop := forall h, exists x h', m h = Some (x, h').

Lemma returns_ret {A} (x : A) : returns (mret x).
Proof. intros h. by exists x, h. Qed.
Lemma returns_bind {A B} (m : io A) (f : A -> io B) :
  returns m -> (forall x, returns (f x)) -> returns (m ≫= f).
Proof.
  intros Hm Hf h. destruct (Hm h) as (x & h1 & E). rewrite (io_bind_Some _ _ _ _ _ E). apply Hf.
Qed.
Lemma returns_sys_ op : returns (sys_ op).
Proof. intros h. by eexists _, _. Qed.
Lemma returns_safe_write k fuel fd data :
  write_bounded -> eintr_bounded k -> (length data * S k <= fuel)%nat -> returns (safe_write fuel fd data).
Proof.
  intros Hb He Hf h. destruct (safe_write_loop_terminates k fd data h fuel Hb He Hf) as (ok & h' & Hw).
  unfold safe_write. rewrite (io_bind_Some _ _ _ _ _ Hw). by eexists _, _.
Qed.

(** The reads of a descriptor so far. *)
Fixpoint reads_of (fd : Z) (h : list sysop) : nat :=
  match h with
  | [] => O
  | SysRead fd' :: h => if fd' =? fd then S (reads_of fd h) else reads_of fd h
  | _ :: h => reads_of fd h
  end.

(** Of any [N + 1] reads of the descriptor in a row, one finds nothing. *)
Definition drains (N : nat) (fd : Z) : Prop :=
  forall h, exists j, (j <= N)%nat /\
    forall h', reads_of fd h' = (reads_of fd h + j)%nat -> (kernel h' (SysRead fd)).1 <= 0.

(** ** Descriptors held since a history

    [holds h0 h l]: what is open in [h] was open in [h0] or is in [l]. *)
Definition holds (h0 h : list sysop) (l : list Z) : Prop :=
  forall fd, opened h fd = true -> opened h0 fd = true \/ In fd l.

Lemma holds_refl h : holds h h [].
Proof. intros fd H. by left. Qed.
Lemma holds_no_leak h0 h : holds h0 h [] <-> no_leak h0 h.
Proof. split; intros H fd Hfd; [by destruct (H fd Hfd) | left; auto]. Qed.
Lemma holds_same h0 h h' l : fds_same h h' -> holds h0 h l -> holds h0 h' l.
Proof. intros Hs H fd Hfd. rewrite (Hs fd) in Hfd. auto. Qed.
Lemma holds_incl h0 h l l' : (forall fd, 0 <= fd -> In fd l -> In fd l') -> holds h0 h l -> holds h0 h l'.
Proof. intros Hi H fd Hfd. apply opened_nonneg in Hfd as ?. destruct (H fd Hfd); auto. Qed.

(** A call that opens, and one that closes. *)
Lemma holds_open h0 h op l :
  (forall fd, is_open_step op (kernel h op).1 fd (opened h fd) = true ->
     fd = (kernel h op).1 \/ opened h fd = true) ->
  holds h0 h l -> holds h0 (op :: h) ((kernel h op).1 :: l).
Proof.
  intros Hop H fd Hfd. destruct (Hop fd Hfd) as [->|Ho]; [by right; left|].
  destruct (H fd Ho); [by left | by right; right].
Qed.
Lemma holds_close h0 h fd l : holds h0 h (fd :: l) -> holds h0 (SysClose fd :: h) l.
Proof.
  intros H fd' Hfd. cbn [opened is_open_step] in Hfd. destruct (Z.eqb_spec fd fd'); [done|].
  destruct (H fd' Hfd) as [?|[?|?]]; [by left | done | by right].
Qed.
Lemma opens_only op h fd :
  is_open_step op (kernel h op).1 fd (opened h fd) = true -> fd = (kernel h op).1 \/ opened h fd = true.
Proof.
  destruct op; cbn [is_open_step]; auto; try (destruct (_ && _) eqn:E; [zprop; by left | by right]).
  by destruct (_ =? _); [|right].
Qed.

Lemma holds_sys_ op h0 h l r h' :
  sys_ op h = Some (r, h') -> holds h0 h l -> holds h0 h' (r :: l).
Proof. intros [= <- <-] H. apply holds_open; [|done]. apply opens_only. Qed.
Lemma holds_quietly {A} (m : io A) Q h0 h l x h' :
  quietly m Q -> m h = Some (x, h') -> holds h0 h l -> holds h0 h' l.
Proof. intros Hm E. eapply holds_same, Hm, E. Qed.
End with_kernel.

#[export] Hint Resolve quietly_safe_write quietly_sys_ quietly_sys : dstx.

(** One rule of [quietly], and all of them: what is left is about the values. *)
Ltac quiet_step :=
  lazymatch goal with
  | |- quietly _ (mret _) ?Q =>
      first [is_evar Q; apply (quietly_ret _ _ (fun _ => True)); exact I | apply quietly_ret]
  | |- quietly _ (_ ≫= _) _ => eapply quietly_bind; [|intros ? ?; cbv beta in *]
  | |- quietly _ (sys_ _ _) _ => apply quietly_sys_; [reflexivity | intros ?; try exact I]
  | |- quietly _ (sys _ _) _ => apply quietly_sys; [reflexivity | intros ?; try exact I]
  | |- quietly _ (safe_write _ _ _ _) _ => apply quietly_safe_write; intros ?; try exact I
  | |- quietly _ (if ?b then _ else _) _ => destruct b eqn:?
  | |- quietly _ (match ?x with _ => _ end) _ => destruct x eqn:?
  end.

(** The rules of [returns]. *)
Ltac returns_step :=
  lazymatch goal with
  | |- returns (mret _) => apply returns_ret
  | |- returns (_ ≫= _) => apply returns_bind; [|intros ?; cbv beta]
  | |- returns (sys_ _ _) => apply returns_sys_
  | |- returns (if ?b then _ else _) => destruct b
  | |- returns (match ?x with _ => _ end) => destruct x
  end.

(** C38: [safe_write] writes all bytes or fails: a result equal to the byte
    count means the descriptor accepted exactly those bytes in order, and the
    only other result is -1, with a prefix accepted. *)
Theorem safe_write_all_or_error kernel fuel fd data h r h' :
  write_bounded kernel ->
  safe_write kernel fuel fd data h = Some (r, h') ->
  (r = Z.of_nat (length data) /\ accepted kernel fd h' = accepted kernel fd h ++ data) \/
  (r = -1 /\ exists n, (n < length data)%nat /\
     accepted kernel fd h' = accepted kernel fd h ++ take n data).
Proof.
  intros Hb H. unfold safe_write in H. apply io_bind_inv in H as (ok & h1 & Hw & [= <- <-]).
  destruct (safe_write_loop_spec _ _ _ _ _ _ _ Hb Hw) as (n & Hn & Ha & Ho). destruct ok.
  - left. split; [done|]. assert (n = length data) as -> by tauto. by rewrite Ha, firstn_all.
  - right. split; [done|]. exists n. split; [|done].
    assert (n <> length data) by (intros ->; tauto || (assert (false = true) by tauto; done)). lia.
Qed.

(** With a kernel that interrupts the same [write] at most [k] times in a
    row, [(k + 1)] units of fuel per byte are enough for [safe_write] to
    return. *)
Theorem safe_write_returns kernel k fd data h :
  write_bounded kernel -> eintr_bounded kernel k ->
  exists r h', safe_write kernel (length data * S k) fd data h = Some (r, h').
Proof.
  intros Hb He.
  destruct (safe_write_loop_terminates kernel k fd data h (length data * S k) Hb He ltac:(lia))
    as (ok & h' & Hw).
  exists (if ok then Z.of_nat (length data) else -1), h'.
  unfold safe_write. by rewrite (io_bind_Some _ _ _ _ _ Hw).
Qed.

(** A kernel on which every call succeeds with result 5, [write] completely. *)
Definition good_kernel : kernel_t := fun _ op =>
  match op with SysWrite _ data => (Z.of_nat (length data), 0) | _ => (5, 0) end.

(** A kernel that writes one byte at a time, interrupting every other call. *)
Definition slow_kernel : kernel_t := fun h op =>
  match op with
  | SysWrite _ data =>
      if Nat.even (length h) then (-1, EINTR) else (Z.min 1 (Z.of_nat (length data)), 0)
  | _ => (0, 0)
  end.
Lemma slow_kernel_bounded : write_bounded slow_kernel.
Proof. intros h fd data. simpl. destruct (Nat.even _); simpl; lia. Qed.
Lemma slow_kernel_eintr : eintr_bounded slow_kernel 1.
Proof.
  intros h fd data. destruct (Nat.even (length h)) eqn:E.
  - exists 1%nat. split; [lia|]. simpl repeat. unfold slow_kernel. simpl app.
    change (length (SysWrite fd data :: h)) with (S (length h)).
    rewrite Nat.even_succ, <- Nat.negb_even, E. simpl. lia.
  - exists O. split; [lia|]. simpl. rewrite E. simpl. lia.
Qed.

Example safe_write_all_or_error_witness :
  (fun p => accepted slow_kernel 5 p.2) <$> safe_write slow_kernel 10 5 [1; 2; 3] [] = Some [1; 2; 3].
Proof.
  destruct (safe_write slow_kernel 10 5 [1; 2; 3] []) as [[r h']|] eqn:E;
    [|exfalso; revert E; vm_compute; discriminate].
  destruct (safe_write_all_or_error slow_kernel 10 5 [1; 2; 3] [] r h' slow_kernel_bounded E)
    as [[_ H]|[Hr _]].
  - simpl. by rewrite H.
  - subst r. exfalso. revert E. vm_compute. discriminate.
Defined.

Example safe_write_returns_witness :
  exists r h', safe_write slow_kernel 6 5 [1; 2; 3] [] = Some (r, h').
Proof.
  exact (safe_write_returns slow_kernel 1 5 [1; 2; 3] [] slow_kernel_bounded slow_kernel_eintr).
Defined.
