(* ===== verification/Keys.v ===== *)
(** * Button remapping: [src/dstx/src/keys.c]

    A keymap sends each of the 18 physical buttons to a logical button (0 is
    "disabled").  [keys_apply_map] rewrites the logical button fields of a slot
    from the raw physical state.  The pointer arguments are never NULL in the
    program, so the NULL early returns are not modelled. *)

From S2P Require Import Prelude Types.

(** ** The default (identity) map *)
Definition keys_get_default_map (type : controller_type_t) (map_out : list Z) : list Z :=
  fold_idx (fun i m => aset m i (u8 (i + 1))) PHY_BTN_COUNT map_out.

(** ** Applying a map *)

(** Step 1: zero all logical buttons. *)
Definition keys_zero_buttons (slot : controller_t) : controller_t :=
  slot {{ cross := 0; circle := 0; square := 0; triangle := 0;
          L1 := 0; R1 := 0; L2 := 0; R2 := 0; Share := 0; Options := 0;
          L3 := 0; R3 := 0; PS := 0; touch_btn := 0;
          dpad_up := 0; dpad_down := 0; dpad_left := 0; dpad_right := 0 }}.

(** The [switch (logical)] of step 2. *)
Definition keys_press (b : logical_button_t) (slot : controller_t) : controller_t :=
  match b with
  | LOGICAL_BTN_NONE => slot
  | LOGICAL_BTN_CROSS => slot {{ cross := 1 }}
  | LOGICAL_BTN_CIRCLE => slot {{ circle := 1 }}
  | LOGICAL_BTN_SQUARE => slot {{ square := 1 }}
  | LOGICAL_BTN_TRIANGLE => slot {{ triangle := 1 }}
  | LOGICAL_BTN_L1 => slot {{ L1 := 1 }}
  | LOGICAL_BTN_R1 => slot {{ R1 := 1 }}
  | LOGICAL_BTN_L2 => slot {{ L2 := 1 }}
  | LOGICAL_BTN_R2 => slot {{ R2 := 1 }}
  | LOGICAL_BTN_SHARE => slot {{ Share := 1 }}
  | LOGICAL_BTN_OPTIONS => slot {{ Options := 1 }}
  | LOGICAL_BTN_L3 => slot {{ L3 := 1 }}
  | LOGICAL_BTN_R3 => slot {{ R3 := 1 }}
  | LOGICAL_BTN_PS => slot {{ PS := 1 }}
  | LOGICAL_BTN_TOUCH => slot {{ touch_btn := 1 }}
  | LOGICAL_BTN_DPAD_UP => slot {{ dpad_up := 1 }}
  | LOGICAL_BTN_DPAD_DOWN => slot {{ dpad_down := 1 }}
  | LOGICAL_BTN_DPAD_LEFT => slot {{ dpad_left := 1 }}
  | LOGICAL_BTN_DPAD_RIGHT => slot {{ dpad_right := 1 }}
  end.

(** The body of the loop of step 2, for one physical button. *)
Definition keys_apply_one (km raw : list Z) (phy : Z) (slot : controller_t) : controller_t :=
  if negb (truthy (aget 0 raw phy)) then slot
  else
    let logical := aget 0 km phy in
    if logical =? log_val LOGICAL_BTN_NONE then slot
    else if LOGICAL_BTN_COUNT <=? logical then slot
    else match log_of_val logical with
         | Some b => keys_press b slot
         | None => slot
         end.

(** Step 3: recalculate [HATX] and [HATY]. *)
Definition keys_recalc_hat (slot : controller_t) : controller_t :=
  slot {{ HATX := (if truthy (dpad_right slot) then 1
                   else if truthy (dpad_left slot) then -1 else 0);
          HATY := (if truthy (dpad_up slot) then -1
                   else if truthy (dpad_down slot) then 1 else 0) }}.

Definition keys_apply_map (slot : controller_t) (km raw : list Z) : controller_t :=
  keys_recalc_hat
    (fold_idx (keys_apply_one km raw) PHY_BTN_COUNT (keys_zero_buttons slot)).

(** ** Layouts *)
Definition set_face (km : list Z) (c ci s t : logical_button_t) : list Z :=
  aset (aset (aset (aset km PHY_BTN_CROSS (log_val c)) PHY_BTN_CIRCLE (log_val ci))
    PHY_BTN_SQUARE (log_val s)) PHY_BTN_TRIANGLE (log_val t).

Definition keys_set_xbox_layout (slot : controller_t) : controller_t :=
  slot {{ keymap := set_face (keymap slot) LOGICAL_BTN_CROSS LOGICAL_BTN_CIRCLE
                      LOGICAL_BTN_SQUARE LOGICAL_BTN_TRIANGLE }}.

Definition keys_set_switch_layout (slot : controller_t) : controller_t :=
  slot {{ keymap := set_face (keymap slot) LOGICAL_BTN_CIRCLE LOGICAL_BTN_CROSS
                      LOGICAL_BTN_TRIANGLE LOGICAL_BTN_SQUARE }}.

Definition keys_reset_all_keybinds (slot : controller_t) : controller_t :=
  slot {{ keymap := keys_get_default_map (ctype slot) (keymap slot) }}.

(** * Specification

    Which logical buttons a keymap and a raw state press, as a predicate. *)
Definition pressed_upto (n : nat) (km raw : list Z) (b : logical_button_t) : bool :=
  existsb (fun p => truthy (aget 0 raw (Z.of_nat p)) && (aget 0 km (Z.of_nat p) =? log_val b))
    (seq 0 n).
Definition pressed (km raw : list Z) (b : logical_button_t) : bool :=
  pressed_upto PHY_BTN_COUNT km raw b.

(** The slot whose logical buttons are given by [f] and whose other fields are
    those of [s]. *)
Definition with_buttons (f : logical_button_t -> bool) (s : controller_t) : controller_t :=
  s {{ cross := b2z (f LOGICAL_BTN_CROSS); circle := b2z (f LOGICAL_BTN_CIRCLE);
       square := b2z (f LOGICAL_BTN_SQUARE); triangle := b2z (f LOGICAL_BTN_TRIANGLE);
       L1 := b2z (f LOGICAL_BTN_L1); R1 := b2z (f LOGICAL_BTN_R1);
       L2 := b2z (f LOGICAL_BTN_L2); R2 := b2z (f LOGICAL_BTN_R2);
       Share := b2z (f LOGICAL_BTN_SHARE); Options := b2z (f LOGICAL_BTN_OPTIONS);
       L3 := b2z (f LOGICAL_BTN_L3); R3 := b2z (f LOGICAL_BTN_R3);
       PS := b2z (f LOGICAL_BTN_PS); touch_btn := b2z (f LOGICAL_BTN_TOUCH);
       dpad_up := b2z (f LOGICAL_BTN_DPAD_UP); dpad_down := b2z (f LOGICAL_BTN_DPAD_DOWN);
       dpad_left := b2z (f LOGICAL_BTN_DPAD_LEFT);
       dpad_right := b2z (f LOGICAL_BTN_DPAD_RIGHT) }}.

(** Hat position of a set of directions: right wins over left, up over down. *)
Definition hat_x (f : logical_button_t -> bool) : Z :=
  if f LOGICAL_BTN_DPAD_RIGHT then 1 else if f LOGICAL_BTN_DPAD_LEFT then -1 else 0.
Definition hat_y (f : logical_button_t -> bool) : Z :=
  if f LOGICAL_BTN_DPAD_UP then -1 else if f LOGICAL_BTN_DPAD_DOWN then 1 else 0.

(** A well-formed keymap: one entry per physical button, each a logical value. *)
Definition keymap_ok (km : list Z) : Prop :=
  length km = PHY_BTN_COUNT /\ Forall (fun v => 0 <= v < LOGICAL_BTN_COUNT) km.

(** * Lemmas *)

Lemma with_buttons_ext f g s :
  (forall b, b <> LOGICAL_BTN_NONE -> f b = g b) -> with_buttons f s = with_buttons g s.
Proof. intros H. unfold with_buttons. by rewrite !H by done. Qed.

Lemma keys_press_with_buttons b f s :
  b <> LOGICAL_BTN_NONE ->
  keys_press b (with_buttons f s) =
  with_buttons (fun b' => f b' || bool_decide (b' = b)) s.
Proof.
  intros Hb. destruct b; try done; unfold with_buttons;
    rewrite ?orb_true_r, ?orb_false_r; reflexivity.
Qed.

Lemma pressed_upto_S n km raw b :
  pressed_upto (S n) km raw b =
  pressed_upto n km raw b
  || (truthy (aget 0 raw (Z.of_nat n)) && (aget 0 km (Z.of_nat n) =? log_val b)).
Proof.
  unfold pressed_upto. rewrite seq_S, existsb_app. simpl. by rewrite orb_false_r.
Qed.

Lemma log_val_eqb v b b' :
  log_of_val v = Some b -> (v =? log_val b') = bool_decide (b' = b).
Proof. intros ->%log_of_val_Some. by destruct b, b'. Qed.

Lemma log_val_range b : 0 <= log_val b < LOGICAL_BTN_COUNT.
Proof. unfold LOGICAL_BTN_COUNT; destruct b; simpl; lia. Qed.

(** One iteration of the loop extends the pressed set by one physical button. *)
Lemma keys_apply_one_spec km raw n s :
  keys_apply_one km raw (Z.of_nat n) (with_buttons (pressed_upto n km raw) s) =
  with_buttons (pressed_upto (S n) km raw) s.
Proof.
  unfold keys_apply_one.
  destruct (truthy (aget 0 raw (Z.of_nat n))) eqn:Hraw; cbn [negb]; cbv zeta.
  2:{ apply with_buttons_ext; intros b _. by rewrite pressed_upto_S, Hraw, orb_false_r. }
  set (v := aget 0 km (Z.of_nat n)).
  destruct (log_of_val v) as [b|] eqn:Hv.
  - pose proof (log_val_range b) as Hr.
    assert (v = log_val b) as Hvb by (by apply log_of_val_Some).
    destruct (decide (b = LOGICAL_BTN_NONE)) as [->|Hne].
    + rewrite Hvb; simpl. apply with_buttons_ext; intros b' Hb'.
      rewrite pressed_upto_S, Hraw. fold v. rewrite (log_val_eqb v _ b' Hv).
      rewrite bool_decide_eq_false_2 by done. by rewrite andb_false_r, orb_false_r.
    + assert ((v =? log_val LOGICAL_BTN_NONE) = false) as ->
        by (rewrite (log_val_eqb v _ _ Hv); apply bool_decide_eq_false; congruence).
      destruct (Z.leb_spec LOGICAL_BTN_COUNT v); [lia|].
      rewrite keys_press_with_buttons by done.
      apply with_buttons_ext; intros b' _. rewrite pressed_upto_S, Hraw; simpl.
      fold v. by rewrite (log_val_eqb v _ b' Hv).
  - assert (forall b, (v =? log_val b) = false) as Hno.
    { intros b. apply Z.eqb_neq. intros ->. by rewrite log_of_log_val in Hv. }
    rewrite Hno. transitivity (with_buttons (pressed_upto n km raw) s); [by bcase|].
    apply with_buttons_ext; intros b _.
    by rewrite pressed_upto_S, (Hno b : (aget 0 km _ =? _) = _), andb_false_r, orb_false_r.
Qed.

Lemma keys_apply_loop km raw n s :
  fold_idx (keys_apply_one km raw) n (keys_zero_buttons s) =
  with_buttons (pressed_upto n km raw) s.
Proof.
  apply (fold_idx_ind (fun n c => c = with_buttons (pressed_upto n km raw) s)).
  - reflexivity.
  - intros i b _ ->. apply keys_apply_one_spec.
Qed.

Lemma keys_recalc_hat_spec f s :
  keys_recalc_hat (with_buttons f s) =
  (with_buttons f s) {{ HATX := hat_x f; HATY := hat_y f }}.
Proof.
  transitivity ((with_buttons f s)
    {{ HATX := (if truthy (b2z (f LOGICAL_BTN_DPAD_RIGHT)) then 1
                else if truthy (b2z (f LOGICAL_BTN_DPAD_LEFT)) then -1 else 0);
       HATY := (if truthy (b2z (f LOGICAL_BTN_DPAD_UP)) then -1
                else if truthy (b2z (f LOGICAL_BTN_DPAD_DOWN)) then 1 else 0) }});
    [reflexivity | by rewrite !truthy_b2z].
Qed.

(** ** Keymaps *)

Lemma keymap_ok_aset km i v :
  keymap_ok km -> 0 <= v < LOGICAL_BTN_COUNT -> keymap_ok (aset km i v).
Proof. intros [Hl Hf] Hv. split; [by rewrite length_aset | by apply aset_Forall]. Qed.

Lemma keymap_ok_set_face km c ci s t : keymap_ok km -> keymap_ok (set_face km c ci s t).
Proof. intros H. unfold set_face. repeat apply keymap_ok_aset; auto using log_val_range. Qed.
#[export] Hint Resolve keymap_ok_aset keymap_ok_set_face log_val_range : dstx.

Lemma default_map_identity type km :
  length km = PHY_BTN_COUNT ->
  keys_get_default_map type km = map (fun i => Z.of_nat i + 1) (seq 0 PHY_BTN_COUNT).
Proof.
  intros Hlen. unfold PHY_BTN_COUNT in Hlen.
  do 18 (destruct km as [|? km]; [discriminate Hlen|]).
  destruct km; [reflexivity | discriminate Hlen].
Qed.

Lemma keymap_ok_default type km :
  length km = PHY_BTN_COUNT -> keymap_ok (keys_get_default_map type km).
Proof.
  intros H. rewrite default_map_identity by done. split; [reflexivity|].
  apply List.Forall_forall. intros v Hv. apply in_map_iff in Hv as (i & <- & Hi).
  apply in_seq in Hi. unfold PHY_BTN_COUNT, LOGICAL_BTN_COUNT in *. lia.
Qed.

(** Only the four face entries change under a layout. *)
Lemma set_face_get km c ci s t p :
  length km = PHY_BTN_COUNT -> 0 <= p < 18 ->
  aget 0 (set_face km c ci s t) p =
  (if p =? 0 then log_val c else if p =? 1 then log_val ci
   else if p =? 2 then log_val s else if p =? 3 then log_val t else aget 0 km p).
Proof.
  intros Hl Hp. unfold set_face. unfold PHY_BTN_COUNT in Hl.
  rewrite !aget_aset by (rewrite ?length_aset, ?Hl; simpl; lia). simpl.
  zcases; congruence.
Qed.

Lemma keymap_ext (a b : list Z) :
  length a = length b ->
  (forall p, 0 <= p < Z.of_nat (length a) -> aget 0 a p = aget 0 b p) -> a = b.
Proof.
  intros Hl H. apply (nth_ext _ _ 0 0); [done|]. intros n Hn.
  specialize (H (Z.of_nat n)). unfold aget in H. rewrite Nat2Z.id in H. apply H. lia.
Qed.

Lemma keymap_put_keymap km s : keymap (s {{ keymap := km }}) = km.
Proof. reflexivity. Qed.
Lemma put_keymap_twice a b s : (s {{ keymap := a }}) {{ keymap := b }} = s {{ keymap := b }}.
Proof. reflexivity. Qed.

Lemma set_face_ext km km' c ci s t :
  length km = PHY_BTN_COUNT -> length km' = PHY_BTN_COUNT ->
  (forall p, 4 <= p < 18 -> aget 0 km p = aget 0 km' p) ->
  set_face km c ci s t = set_face km' c ci s t.
Proof.
  intros Hl Hl' H. apply keymap_ext.
  - unfold set_face. by rewrite !length_aset, Hl, Hl'.
  - unfold set_face at 1. rewrite !length_aset, Hl. change (Z.of_nat PHY_BTN_COUNT) with 18. intros p Hp.
    rewrite !set_face_get by done. zcases; apply H; lia.
Qed.

(** The face entries are overwritten, so a layout forgets the one before. *)
Lemma set_face_twice km c ci s t c' ci' s' t' :
  length km = PHY_BTN_COUNT ->
  set_face (set_face km c ci s t) c' ci' s' t' = set_face km c' ci' s' t'.
Proof.
  intros Hl. apply set_face_ext; [unfold set_face; by rewrite !length_aset | done |].
  intros p Hp. rewrite set_face_get by (done || lia). zcases; lia.
Qed.

Lemma pressed_map_unique km raw b p :
  0 <= p < 18 ->
  (forall q, 0 <= q < 18 -> (aget 0 km q =? log_val b) = (q =? p)) ->
  pressed km raw b = truthy (aget 0 raw p).
Proof.
  intros Hp H. unfold pressed, pressed_upto.
  destruct (existsb _ _) eqn:E.
  - apply existsb_exists in E as (n & Hn & Hb%andb_prop). apply in_seq in Hn.
    unfold PHY_BTN_COUNT in Hn. destruct Hb as [Hr Hk].
    rewrite H in Hk by lia. apply Z.eqb_eq in Hk. by rewrite Hk in Hr.
  - symmetry. apply not_true_is_false. intros Ht.
    assert (existsb (fun p0 => truthy (aget 0 raw (Z.of_nat p0))
              && (aget 0 km (Z.of_nat p0) =? log_val b)) (seq 0 PHY_BTN_COUNT) = true).
    { apply existsb_exists. exists (Z.to_nat p). split.
      - apply in_seq. unfold PHY_BTN_COUNT. lia.
      - rewrite Z2Nat.id by lia. rewrite Ht, H by lia. simpl. apply Z.eqb_refl. }
    congruence.
Qed.

Lemma default_map_get type km q :
  length km = PHY_BTN_COUNT -> 0 <= q < 18 ->
  aget 0 (keys_get_default_map type km) q = q + 1.
Proof.
  intros Hl Hq. rewrite default_map_identity by done. unfold aget, PHY_BTN_COUNT.
  rewrite nth_lookup, list_lookup_fmap, lookup_seq_lt by lia. simpl. lia.
Qed.

(** * Properties *)

(** C6: [keys_apply_map] computes exactly the remapping: each logical button
    is 1 when some pressed physical button is mapped to it and 0 otherwise
    (whatever values the keymap holds, out-of-range ones included), the hat
    axes are those of the pressed directions, and no other field of the slot
    changes. *)
Theorem keys_apply_map_spec slot km raw :
  keys_apply_map slot km raw =
  (with_buttons (pressed km raw) slot)
    {{ HATX := hat_x (pressed km raw); HATY := hat_y (pressed km raw) }}.
Proof.
  unfold keys_apply_map. rewrite keys_apply_loop. apply keys_recalc_hat_spec.
Qed.

(** Under the default map every physical button presses the logical button
    of the same name and no other (round trip through the identity map). *)
Theorem keys_default_map_roundtrip type km raw b :
  length km = PHY_BTN_COUNT -> b <> LOGICAL_BTN_NONE ->
  pressed (keys_get_default_map type km) raw b = truthy (aget 0 raw (log_val b - 1)).
Proof.
  intros Hl Hb. pose proof (log_val_range b).
  assert (log_val b <> 0) by (destruct b; simpl; (congruence || lia)).
  unfold LOGICAL_BTN_COUNT in *.
  apply pressed_map_unique; [lia|]. intros q Hq.
  rewrite default_map_get by done. zcases.
Qed.

Example keys_default_map_roundtrip_witness :
  pressed (keys_get_default_map TYPE_DS4 (repeat 0 18)) (aset (repeat 0 18) 2 1)
    LOGICAL_BTN_SQUARE = true.
Proof.
  rewrite (keys_default_map_roundtrip TYPE_DS4 (repeat 0 18) (aset (repeat 0 18) 2 1)
    LOGICAL_BTN_SQUARE); [reflexivity | reflexivity | discriminate].
Defined.

(** The layout functions are absolute: whichever layout was applied before
    is forgotten (so each is idempotent), the keymap entries other than the
    four face buttons keep their values, and a well-formed keymap stays
    well-formed; the full reset gives a well-formed keymap from any array. *)
Theorem keys_layouts_absolute slot :
  keymap_ok (keymap slot) ->
  keys_set_switch_layout (keys_set_xbox_layout slot) = keys_set_switch_layout slot /\
  keys_set_xbox_layout (keys_set_switch_layout slot) = keys_set_xbox_layout slot /\
  keys_set_switch_layout (keys_set_switch_layout slot) = keys_set_switch_layout slot /\
  keys_set_xbox_layout (keys_set_xbox_layout slot) = keys_set_xbox_layout slot /\
  (forall p, 4 <= p < 18 ->
     aget 0 (keymap (keys_set_switch_layout slot)) p = aget 0 (keymap slot) p /\
     aget 0 (keymap (keys_set_xbox_layout slot)) p = aget 0 (keymap slot) p) /\
  keymap_ok (keymap (keys_set_switch_layout slot)) /\
  keymap_ok (keymap (keys_set_xbox_layout slot)) /\
  keymap_ok (keymap (keys_reset_all_keybinds slot)).
Proof.
  intros Hok. pose proof (proj1 Hok) as Hl.
  unfold keys_set_switch_layout, keys_set_xbox_layout, keys_reset_all_keybinds.
  rewrite !put_keymap_twice, !keymap_put_keymap, !set_face_twice by done.
  repeat split; try by apply keymap_ok_set_face.
  3-4: by apply keymap_ok_default.
  all: rewrite set_face_get by (done || lia); zcases; lia.
Qed.

Example keys_layouts_absolute_witness :
  keymap (keys_set_xbox_layout (keys_set_switch_layout
    (zero_controller {{ keymap := map (fun i => Z.of_nat i + 1) (seq 0 18) }})))
  = map (fun i => Z.of_nat i + 1) (seq 0 18).
Proof.
  set (s := zero_controller {{ keymap := map (fun i => Z.of_nat i + 1) (seq 0 18) }}).
  destruct (keys_layouts_absolute s) as (_ & H & _).
  - split; [reflexivity|]. repeat (constructor; [unfold LOGICAL_BTN_COUNT; lia|]). constructor.
  - rewrite H. reflexivity.
Defined.
