(* ===== verification/Axes.v ===== *)
(** * Stick curves and deadzone: [src/dstx/src/axes.c]

    The file-scope state ([g_preset_luts], [g_initialized]) is the record
    [axes_state], threaded through the operations that initialise it lazily.
    [powf] is a parameter.  The array of tables has the dimensions of its
    declaration in its type; a read outside them is undefined behaviour in C, and
    the core returns [None] there. *)

From S2P Require Import Prelude Float Types.
From stdpp Require Import vector.
Local Open Scope Z_scope.

Definition LUT_SIZE : nat := 257.
Definition NORMALIZED_MAX : float := f32_of_Z 65535.
Definition STICK_MIN : Z := -32768.
Definition STICK_MAX : Z := 32767.
Definition MAX_MAG : float := f32_of_Z 32768.

(** [preset_config_t] and the table of presets. *)
Record preset_config_t := mk_preset_config { pc_name : string; exponent : float }.
Definition g_presets : list preset_config_t :=
  [ mk_preset_config "Default" (f32_lit 1 1);
    mk_preset_config "Precision" (f32_lit 65 100);
    mk_preset_config "Rapid" (f32_lit 18 10);
    mk_preset_config "Smooth" (f32_lit 75 100);
    mk_preset_config "Aggressive" (f32_lit 25 10);
    mk_preset_config "Sniper" (f32_lit 5 10);
    mk_preset_config "Racing" (f32_lit 1 1);
    mk_preset_config "FPS" (f32_lit 15 10) ].

Definition clamp (value : Z) : Z :=
  if STICK_MAX <? value then STICK_MAX
  else if value <? STICK_MIN then STICK_MIN
  else i16 value.

Definition get_sensitivity_preset_name (preset : Z) : string :=
  if (0 <=? preset) && (preset <? SENS_PRESET_COUNT)
  then pc_name (aget (mk_preset_config "" (f32_of_Z 0)) g_presets preset)
  else "Unknown".

Definition apply_sensitivity_preset_left (slot : controller_t) (preset : Z) : controller_t :=
  if (preset <? 0) || (SENS_PRESET_COUNT <=? preset) then slot
  else if negb (sensitivity_left_preset slot =? preset)
  then slot {{ sensitivity_left_preset := u8 preset }} else slot.

Definition apply_sensitivity_preset_right (slot : controller_t) (preset : Z) : controller_t :=
  if (preset <? 0) || (SENS_PRESET_COUNT <=? preset) then slot
  else if negb (sensitivity_right_preset slot =? preset)
  then slot {{ sensitivity_right_preset := u8 preset }} else slot.

(** [float g_preset_luts[SENS_PRESET_COUNT][LUT_SIZE]], all zero at the start. *)
Definition lut_table : Type := vec (vec float LUT_SIZE) (Z.to_nat SENS_PRESET_COUNT).
Definition zero_luts : lut_table := vreplicate _ (vreplicate _ (f32_of_Z 0)).

(** [a[i]], [None] outside the array. *)
Definition vget {A} {n} (v : vec A n) (i : Z) : option A :=
  if i <? 0 then None else vec_to_list v !! Z.to_nat i.
(** [g_preset_luts[preset][i]]. *)
Definition lut_read (luts : lut_table) (preset i : Z) : option float :=
  row ← vget luts preset; vget row i.

(** File-scope state, and the one the process starts with. *)
Record axes_state := mk_axes_state {
  g_preset_luts : lut_table;
  g_initialized : bool }.
Definition axes_start : axes_state := mk_axes_state zero_luts false.

Section with_powf.
(** [powf] of the C library. *)
Context (powf : float -> float -> float).

(** One entry of a preset's table, i in 0..256. *)
Definition lut_entry (cfg : preset_config_t) (i : Z) : float :=
  let input_mag := f32_div (f32_of_Z i) (f32_of_Z 256) in
  let output_mag := powf input_mag (exponent cfg) in
  let output_mag := if fgt output_mag (f32_of_Z 1) then f32_of_Z 1 else output_mag in
  let normalized := f32_mul output_mag NORMALIZED_MAX in
  let normalized := if flt normalized (f32_of_Z 0) then f32_of_Z 0 else normalized in
  if fgt normalized NORMALIZED_MAX then NORMALIZED_MAX else normalized.

Definition lut_indices : vec Z LUT_SIZE := list_to_vec (map Z.of_nat (seq 0 LUT_SIZE)).
Definition preset_rows : vec preset_config_t (Z.to_nat SENS_PRESET_COUNT) := list_to_vec g_presets.
Definition init_axis_system (st : axes_state) : axes_state :=
  if g_initialized st then st
  else mk_axes_state (vmap (fun cfg => vmap (lut_entry cfg) lut_indices) preset_rows) true.

(** The float [t] of [apply_sensitivity_core]: the position on the table of a
    stick of squared magnitude [mag_sq]. *)
Definition lut_position (mag_sq : Z) : float :=
  f32_mul (f32_div (f32_sqrt (f32_of_Z mag_sq)) MAX_MAG) (f32_of_Z 256).

(** [preset] is a [uint8_t]. *)
Definition apply_sensitivity_core (luts : lut_table) (preset x y : Z) : option (Z * Z) :=
  let preset := u8 preset in
  let preset := if SENS_PRESET_COUNT <=? preset then SENS_PRESET_DEFAULT else preset in
  let mag_sq := i32 (x * x + y * y) in
  if mag_sq =? 0 then Some (x, y)
  else
    let mag := f32_sqrt (f32_of_Z mag_sq) in
    if fge mag MAX_MAG then Some (x, y)
    else
      let t := lut_position mag_sq in
      let idx := i32_of_float t in
      let frac := f32_sub t (f32_of_Z idx) in
      let curved :=
        if 256 <=? idx then Some (f32_of_Z 1)
        else
          low ← lut_read luts preset idx;
          high ← lut_read luts preset (idx + 1);
          let interp := f32_add low (f32_mul frac (f32_sub high low)) in
          Some (f32_div interp NORMALIZED_MAX) in
      match curved with
      | None => None
      | Some curved_norm_mag =>
          let new_mag := f32_mul curved_norm_mag MAX_MAG in
          let scale := f32_div new_mag mag in
          Some (clamp (i32_of_float (f32_mul (f32_of_Z x) scale)),
                clamp (i32_of_float (f32_mul (f32_of_Z y) scale)))
      end.

Definition apply_sensitivity_left (st : axes_state) (slot : controller_t) (x y : Z)
  : axes_state * option (Z * Z) :=
  let st := init_axis_system st in
  (st, apply_sensitivity_core (g_preset_luts st) (sensitivity_left_preset slot) x y).

Definition apply_sensitivity_right (st : axes_state) (slot : controller_t) (x y : Z)
  : axes_state * option (Z * Z) :=
  let st := init_axis_system st in
  (st, apply_sensitivity_core (g_preset_luts st) (sensitivity_right_preset slot) x y).
End with_powf.

Definition apply_deadzone (x y deadzone_pct : Z) : Z * Z :=
  let dz := if 100 <? deadzone_pct then 100 else deadzone_pct in
  if dz =? 0 then (x, y)
  else if 100 <=? dz then (0, 0)
  else
    let mag := f32_sqrt (f32_of_Z (i32 (x * x + y * y))) in
    let threshold := f32_mul (f32_div (f32_of_Z dz) (f32_of_Z 100)) MAX_MAG in
    if fle mag threshold then (0, 0)
    else
      let mag := if fgt mag MAX_MAG then MAX_MAG else mag in
      let new_mag :=
        f32_add threshold
          (f32_div (f32_mul (f32_sub mag threshold) (f32_sub MAX_MAG threshold))
             (f32_sub MAX_MAG threshold)) in
      let scale := f32_div new_mag mag in
      (clamp (i32_of_float (f32_mul (f32_of_Z x) scale)),
       clamp (i32_of_float (f32_mul (f32_of_Z y) scale))).

(** * Lemmas *)

Lemma clamp_range v : -32768 <= clamp v <= 32767.
Proof.
  unfold clamp, STICK_MAX, STICK_MIN. zcases. rewrite i16_small; lia.
Qed.
Lemma clamp_id v : -32768 <= v <= 32767 -> clamp v = v.
Proof.
  intros. unfold clamp, STICK_MAX, STICK_MIN. zcases. apply i16_small; lia.
Qed.
#[export] Hint Resolve clamp_range : dstx.

Lemma init_axis_initialized powf st : g_initialized (init_axis_system powf st) = true.
Proof. unfold init_axis_system. by destruct (g_initialized st) eqn:E. Qed.

(** The only pair of 16-bit values whose sum of squares overflows [int32_t]. *)
Lemma mag_sq_overflow x y :
  -32768 <= x <= 32767 -> -32768 <= y <= 32767 ->
  (x = -32768 /\ y = -32768 /\ i32 (x * x + y * y) = -2 ^ 31) \/
  (0 <= x * x + y * y < 2 ^ 31 /\ i32 (x * x + y * y) = x * x + y * y).
Proof.
  intros Hx Hy. destruct (Z.eq_dec x (-32768)) as [->|Hx'], (Z.eq_dec y (-32768)) as [->|Hy'].
  - left. repeat split.
  - right. assert (y * y <= 32767 * 32767) by nia. rewrite i32_small by nia. nia.
  - right. assert (x * x <= 32767 * 32767) by nia. rewrite i32_small by nia. nia.
  - right. assert (x * x <= 32767 * 32767) by nia. assert (y * y <= 32767 * 32767) by nia.
    rewrite i32_small by nia. nia.
Qed.

(** The table index computed from a non-overflowed squared magnitude. *)
Lemma lut_position_index n : 0 <= n < 2 ^ 31 -> 0 <= i32_of_float (lut_position n) <= 32768.
Proof.
  intros Hn. change 32768 with (2 ^ 15). apply (i32_of_float_small 15); [lia|].
  unfold lut_position.
  apply (f32_mul_small 6); [lia|]. change 6 with (20 - 15 + 1).
  apply f32_div_small; [lia|]. change 20 with (19 + 1).
  apply f32_sqrt_small; [lia|]. change (2 * 19) with (37 + 1).
  apply f32_of_Z_small; [|lia]. change (2 ^ 37) with 137438953472. lia.
Qed.

(** A read inside the declared dimensions gives the entry. *)
Lemma vget_in {A} {n} (v : vec A n) i : 0 <= i < Z.of_nat n -> exists a, vget v i = Some a.
Proof.
  intros Hi. unfold vget. destruct (Z.ltb_spec i 0); [lia|].
  apply lookup_lt_is_Some_2. rewrite length_vec_to_list. lia.
Qed.
Lemma vget_out {A} {n} (v : vec A n) i : i < 0 \/ Z.of_nat n <= i -> vget v i = None.
Proof.
  intros Hi. unfold vget. destruct (Z.ltb_spec i 0); [done|].
  apply lookup_ge_None_2. rewrite length_vec_to_list. lia.
Qed.
Lemma lut_read_spec luts preset i :
  (exists v, lut_read luts preset i = Some v) <->
  (0 <= preset < SENS_PRESET_COUNT /\ 0 <= i < Z.of_nat LUT_SIZE).
Proof.
  unfold lut_read. split.
  - intros [v H]. destruct (decide (0 <= preset < SENS_PRESET_COUNT)) as [Hp|Hp].
    + split; [done|]. destruct (vget luts preset) as [row|]; [|done]. cbn in H.
      destruct (decide (0 <= i < Z.of_nat LUT_SIZE)); [done|]. rewrite vget_out in H by lia. done.
    + rewrite vget_out in H; [done|]. unfold SENS_PRESET_COUNT in *. lia.
  - intros [Hp Hi]. destruct (vget_in luts preset) as [row ->]; [unfold SENS_PRESET_COUNT in *; lia|].
    cbn. by apply vget_in.
Qed.

Lemma core_overflow luts preset : apply_sensitivity_core luts preset (-32768) (-32768) = None.
Proof.
  unfold apply_sensitivity_core. cbv zeta.
  set (p := if SENS_PRESET_COUNT <=? u8 preset then _ else _). clearbody p.
  set (idx := i32_of_float _). assert (idx = (- 2 ^ 31)) as -> by reflexivity.
  assert (lut_read luts p (- 2 ^ 31) = None) as ->.
  { destruct (lut_read luts p (- 2 ^ 31)) as [v|] eqn:E; [|done].
    destruct (proj1 (lut_read_spec luts p (- 2 ^ 31))) as [_ [H _]]; [by exists v | by destruct H]. }
  reflexivity.
Qed.

(** Outcome of the core when the index is not negative: it returns. *)
Lemma core_returns luts preset x y :
  0 <= i32_of_float (lut_position (i32 (x * x + y * y))) ->
  exists p, apply_sensitivity_core luts preset x y = Some p.
Proof.
  intros Hi. unfold apply_sensitivity_core. cbv zeta.
  set (p := if SENS_PRESET_COUNT <=? u8 preset then _ else _).
  assert (0 <= p < SENS_PRESET_COUNT) as Hp.
  { pose proof (u8_range preset). subst p. unfold SENS_PRESET_DEFAULT.
    destruct (Z.leb_spec SENS_PRESET_COUNT (u8 preset)); unfold SENS_PRESET_COUNT in *; lia. }
  clearbody p. destruct (i32 _ =? 0); [eauto|]. destruct (fge _ _); [eauto|].
  set (idx := i32_of_float _) in *. destruct (Z.leb_spec 256 idx); [eauto|].
  destruct (proj2 (lut_read_spec luts p idx)) as [low ->]; [unfold LUT_SIZE; lia|].
  destruct (proj2 (lut_read_spec luts p (idx + 1))) as [high ->]; [unfold LUT_SIZE; lia|]. cbn. eauto.
Qed.

Lemma core_range luts preset x y x' y' :
  -32768 <= x <= 32767 -> -32768 <= y <= 32767 ->
  apply_sensitivity_core luts preset x y = Some (x', y') ->
  -32768 <= x' <= 32767 /\ -32768 <= y' <= 32767.
Proof.
  intros Hx Hy. unfold apply_sensitivity_core. cbv zeta.
  destruct (i32 _ =? 0); [by intros [= <- <-]|].
  destruct (fge _ _); [by intros [= <- <-]|].
  case_match; [|done]. intros [= <- <-]. auto using clamp_range.
Qed.

Lemma core_total luts preset x y :
  -32768 <= x <= 32767 -> -32768 <= y <= 32767 -> ~ (x = -32768 /\ y = -32768) ->
  exists p, apply_sensitivity_core luts preset x y = Some p.
Proof.
  intros Hx Hy Hc. destruct (mag_sq_overflow x y Hx Hy) as [(?&?&_)|[Hn Hi]]; [tauto|].
  apply core_returns. rewrite Hi. by apply lut_position_index.
Qed.

Lemma core_None luts preset x y :
  -32768 <= x <= 32767 -> -32768 <= y <= 32767 ->
  apply_sensitivity_core luts preset x y = None -> x = -32768 /\ y = -32768.
Proof.
  intros Hx Hy E. destruct (Z.eq_dec x (-32768)), (Z.eq_dec y (-32768)); try tauto;
    destruct (core_total luts preset x y Hx Hy) as [p Hp]; first [tauto | congruence].
Qed.

Lemma apply_deadzone_range x y dz :
  -32768 <= x <= 32767 -> -32768 <= y <= 32767 ->
  -32768 <= fst (apply_deadzone x y dz) <= 32767 /\
  -32768 <= snd (apply_deadzone x y dz) <= 32767.
Proof.
  intros. unfold apply_deadzone. cbv zeta.
  repeat bcase; simpl; auto using clamp_range; lia.
Qed.

Lemma SFmul_not_nan x y :
  is_nan x = false -> match y with S754_finite _ _ _ => True | _ => False end ->
  is_nan (f32_mul x y) = false.
Proof.
  unfold f32_mul, SFmul. destruct y as [| | |sy my ey]; try done.
  destruct x as [| | |sx mx ex]; try done. intros _ _. apply round_aux_not_nan. lia.
Qed.

(** The integer part of the deadzone threshold. *)
Definition deadzone_edge (dz : Z) : Z :=
  i32_of_float (f32_mul (f32_div (f32_of_Z dz) (f32_of_Z 100)) MAX_MAG).
Definition edge_jumps (dz : Z) : bool :=
  bool_decide (apply_deadzone (deadzone_edge dz) 0 dz = (0, 0)) &&
  bool_decide (apply_deadzone (deadzone_edge dz + 1) 0 dz = (deadzone_edge dz + 1, 0)) &&
  (deadzone_edge dz * 100 <=? dz * 32768) && (dz * 32768 <? (deadzone_edge dz + 1) * 100).

Lemma edge_jumps_all : forallb edge_jumps (map Z.of_nat (seq 1 99)) = true.
Proof. vm_compute. reflexivity. Qed.

Lemma edge_jumps_dz dz : 1 <= dz <= 99 -> edge_jumps dz = true.
Proof.
  intros Hdz. pose proof (proj1 (forallb_forall _ _) edge_jumps_all dz) as H. apply H.
  apply in_map_iff. exists (Z.to_nat dz). split; [lia|]. apply in_seq. lia.
Qed.

(** * Properties *)

(** C3: neither the array of tables nor a table is read out of its declared bounds
    except for one input: whatever the preset byte in the shared memory is, for
    16-bit stick coordinates the sensitivity curve returns a 16-bit pair,
    except exactly at x = y = -32768, where the 32-bit sum of squares wraps to a
    negative number, its square root is NaN, and the table index is negative. *)
Theorem sensitivity_index_safe luts preset x y :
  -32768 <= x <= 32767 -> -32768 <= y <= 32767 ->
  match apply_sensitivity_core luts preset x y with
  | Some (x', y') => -32768 <= x' <= 32767 /\ -32768 <= y' <= 32767
  | None => x = -32768 /\ y = -32768
  end /\
  (x = -32768 /\ y = -32768 -> apply_sensitivity_core luts preset x y = None).
Proof.
  intros Hx Hy. split; [|intros [-> ->]; apply core_overflow].
  destruct (apply_sensitivity_core luts preset x y) as [[x' y']|] eqn:E.
  - exact (core_range _ _ _ _ _ _ Hx Hy E).
  - exact (core_None _ _ _ _ Hx Hy E).
Qed.

(** A preset byte outside the eight presets, and the tables as they are computed. *)
Example sensitivity_index_safe_witness :
  let luts := g_preset_luts (init_axis_system (fun x _ => x) axes_start) in
  (exists p, apply_sensitivity_core luts 200 5000 (-9000) = Some p) /\ lut_read luts 200 70 = None.
Proof.
  intros luts. split; [|reflexivity].
  pose proof (sensitivity_index_safe luts 200 5000 (-9000) ltac:(lia) ltac:(lia)) as [H _].
  destruct (apply_sensitivity_core luts 200 5000 (-9000)) as [p|]; [by exists p | lia].
Defined.

(** Initialising the tables leaves every entry between 0 and 65535 whatever
    [powf] returns for it, as long as that is not NaN; a second initialisation
    changes nothing. *)
Theorem sensitivity_tables_range powf st :
  (forall cfg i, is_nan (powf (f32_div (f32_of_Z i) (f32_of_Z 256)) (exponent cfg)) = false) ->
  let luts := g_preset_luts (init_axis_system powf axes_start) in
  (forall preset i v, lut_read luts preset i = Some v -> fle (f32_of_Z 0) v = true /\ fle v (f32_of_Z 65535) = true) /\
  init_axis_system powf (init_axis_system powf st) = init_axis_system powf st.
Proof.
  intros Hp. split.
  - intros preset i v H. unfold lut_read, vget in H. cbn [init_axis_system axes_start g_initialized g_preset_luts] in H.
    destruct (preset <? 0); [done|]. rewrite vec_to_list_map in H. 
    rewrite list_lookup_fmap in H. destruct (vec_to_list preset_rows !! _) as [cfg|]; [|done].
    cbn [fmap option_fmap option_map mbind option_bind] in H. destruct (i <? 0); [done|].
    rewrite vec_to_list_map, list_lookup_fmap in H. destruct (vec_to_list lut_indices !! _) as [k|]; [|done].
    injection H as <-. apply fclamp_range; try reflexivity. apply SFmul_not_nan; [|done].
    destruct (fgt _ _); [reflexivity | apply Hp].
  - unfold init_axis_system at 1. by rewrite init_axis_initialized.
Qed.

Example sensitivity_tables_range_witness :
  let luts := g_preset_luts (init_axis_system (fun _ y => f32_of_Z 1) axes_start) in
  exists v, lut_read luts 7 256 = Some v /\ fle v (f32_of_Z 65535) = true.
Proof.
  intros luts. destruct (proj2 (lut_read_spec luts 7 256)) as [v Hv]; [unfold SENS_PRESET_COUNT, LUT_SIZE; lia|].
  exists v. split; [done|].
  by destruct (proj1 (sensitivity_tables_range (fun _ _ => f32_of_Z 1) axes_start (fun _ _ => eq_refl)) 7 256 v Hv).
Defined.

(** The deadzone keeps 16-bit coordinates 16-bit and, for every percentage
    from 1 to 99, sends the last coordinate of the zone to 0 and the next one to
    itself: the remaining range is not rescaled, the output jumps from 0 to the
    threshold. *)
Theorem deadzone_edge_not_rescaled x y dz :
  -32768 <= x <= 32767 -> -32768 <= y <= 32767 -> 1 <= dz <= 99 ->
  (-32768 <= fst (apply_deadzone x y dz) <= 32767 /\
   -32768 <= snd (apply_deadzone x y dz) <= 32767) /\
  exists edge, edge * 100 <= dz * 32768 < (edge + 1) * 100 /\
    apply_deadzone edge 0 dz = (0, 0) /\ apply_deadzone (edge + 1) 0 dz = (edge + 1, 0).
Proof.
  intros Hx Hy Hdz. split; [by apply apply_deadzone_range|].
  exists (deadzone_edge dz). pose proof (edge_jumps_dz dz Hdz) as H.
  unfold edge_jumps in H. zprop.
  repeat match goal with H : bool_decide _ = true |- _ => apply bool_decide_eq_true in H end.
  auto.
Qed.

Example deadzone_edge_not_rescaled_witness :
  exists edge, edge * 100 <= 10 * 32768 < (edge + 1) * 100 /\
    apply_deadzone edge 0 10 = (0, 0) /\ apply_deadzone (edge + 1) 0 10 = (edge + 1, 0).
Proof. apply (deadzone_edge_not_rescaled 0 0 10); lia. Defined.
