(* ===== verification/Utils.v ===== *)
(** * Utilities: [src/dstx/src/utils.c]

    Log rate limiting, the shared memory connection of a client, service
    control, the profile conversion functions and the synchronous profile
    request.  [safe_write] is in [Sys].  A wait on another process is a loop
    whose iterations see the memory through [env i], what the other processes
    did during the i-th sleep. *)

From S2P Require Import Prelude Types Sys.

(** ** Log rate limiting *)

Definition LOG_CAT_COUNT : Z := 7.
Record log_rate_t := mk_log_rate { last_log_us : list Z; counter : list Z }.
Definition zero_log_rate : log_rate_t := mk_log_rate (repeat 0 7) (repeat 0 7).

(** [log_rate_init] clears the state once; the state starts cleared. *)
Record log_state := mk_log_state { g_log_rate : log_rate_t; g_log_rate_initialized : bool }.
Definition log_rate_init (s : log_state) : log_state :=
  if g_log_rate_initialized s then s else mk_log_state zero_log_rate true.

(** Each returns whether the message was logged; [now] is the monotonic time. *)
Definition log_ratelimit_time (s : log_state) (cat interval_us now : Z) : log_state * bool :=
  let s := log_rate_init s in
  if LOG_CAT_COUNT <=? cat then (s, true)
  else
    let g := g_log_rate s in
    let last := aget 0 (last_log_us g) cat in
    if interval_us <=? u64 (now - last)
    then (mk_log_state (mk_log_rate (aset (last_log_us g) cat now) (counter g)) true, true)
    else (s, false).

(** [None] is the division by zero of [every_n = 0]. *)
Definition log_ratelimit_count (s : log_state) (cat every_n : Z) : option (log_state * bool) :=
  let s := log_rate_init s in
  if LOG_CAT_COUNT <=? cat then Some (s, true)
  else
    let g := g_log_rate s in
    let c := u32 (aget 0 (counter g) cat + 1) in
    let s := mk_log_state (mk_log_rate (last_log_us g) (aset (counter g) cat c)) true in
    if every_n =? 0 then None else Some (s, c mod every_n =? 0).

Definition log_reset_category (s : log_state) (cat : Z) : log_state :=
  if cat <? LOG_CAT_COUNT then
    let g := g_log_rate s in
    mk_log_state (mk_log_rate (aset (last_log_us g) cat 0) (aset (counter g) cat 0))
      (g_log_rate_initialized s)
  else s.

(** ** Connection to the shared memory *)

(** [shm_ptr] and [shm_fd]; [None] is NULL. *)
Record shm_conn := mk_conn { shm_ptr : option shared_data_t; shm_fd : Z }.
Definition disconnect_shm (c : shm_conn) : shm_conn := mk_conn None (-1).

(** What the system calls of [try_connect_shm] return: the descriptor of
    [shm_open] (-1 on failure), the size [fstat] reports ([None] on failure),
    the mapped memory ([None] for MAP_FAILED), and [kill]'s result and errno. *)
Record connect_env := mk_connect_env {
  ce_fd : Z;
  ce_size : option Z;
  ce_map : option shared_data_t;
  ce_sleep : nat -> shared_data_t -> shared_data_t;
  ce_kill : Z -> Z * Z }.

(** [sizeof(shared_data_t)], decided by the compiler. *)
Section with_size.
Context (sizeof_shared_data : Z).

(** The loop of heartbeat polls: at most [n] of them. *)
Fixpoint wait_heartbeat (n : nat) (env : nat -> shared_data_t -> shared_data_t) (i : nat)
  (shm : shared_data_t) : shared_data_t * Z :=
  match n with
  | O => (shm, 0)
  | S n =>
      let hb := heartbeat shm in
      if 0 <? hb then (shm, hb) else wait_heartbeat n env (S i) (env i shm)
  end.

Definition try_connect_shm (e : connect_env) (c : shm_conn) : shm_conn * bool :=
  let c := disconnect_shm c in
  if ce_fd e =? -1 then (mk_conn None (-1), false)
  else
    match ce_size e with
    | None => (mk_conn None (-1), false)
    | Some size =>
        if size <? sizeof_shared_data then (mk_conn None (-1), false)
        else
          match ce_map e with
          | None => (mk_conn None (-1), false)
          | Some shm =>
              if negb (magic shm =? SHM_MAGIC_VALUE)
              then (disconnect_shm (mk_conn (Some shm) (ce_fd e)), false)
              else if daemon_pid shm <=? 0 then (mk_conn (Some shm) (ce_fd e), false)
              else
                let pid := daemon_pid shm in
                let (shm, hb) := wait_heartbeat 20 (ce_sleep e) 0 shm in
                let c := mk_conn (Some shm) (ce_fd e) in
                if hb =? 0 then (disconnect_shm c, false)
                else
                  let (r, errno) := ce_kill e pid in
                  if (r =? -1) && (errno =? ESRCH) then (disconnect_shm c, false)
                  else (c, true)
          end
    end.
End with_size.

(** [is_daemon_alive]; [kill] is the result and errno of [kill(pid, 0)] and
    [env] what the other processes do between it and the lock. *)
Definition is_daemon_alive (kill : Z -> Z * Z) (env : shared_data_t -> shared_data_t)
  (shm_ptr : option shared_data_t) : option shared_data_t * bool :=
  match shm_ptr with
  | None => (None, false)
  | Some shm =>
      let pid := daemon_pid shm in
      if pid <=? 0 then (Some shm, false)
      else
        let (r, errno) := kill pid in
        let shm := env shm in
        if negb (r =? 0) then
          if errno =? ESRCH then
            (Some (if daemon_pid shm =? pid
                   then shm {{ daemon_pid := 0; heartbeat := 0 }} else shm), false)
          else (Some shm, true)
        else (Some shm, negb (heartbeat shm =? 0))
  end.

(** ** Service control *)

Inductive svc_action :=
| SvcLock | SvcUnlock | SvcSystemctl (action : string) | SvcConnect | SvcSleepUs (us : Z)
| SvcDisconnect.

(** Waiting for a fresh connection to show a heartbeat: [ready j] is whether the
    j-th look at it sees a heartbeat and a pid. *)
Fixpoint wait_ready (n : nat) (ready : nat -> bool) (j : nat) : list svc_action :=
  match n with
  | O => []
  | S n => if ready j then [] else SvcSleepUs 50000 :: wait_ready n ready (S j)
  end.

(** The attempts to connect: [conn i] is what the i-th [try_connect_shm]
    returns. *)
Fixpoint connect_attempts (n : nat) (conn : nat -> bool) (ready : nat -> bool) (i : nat)
  : list svc_action :=
  match n with
  | O => []
  | S n =>
      SvcConnect ::
      if conn i then wait_ready 20 ready 0
      else SvcSleepUs 100000 :: connect_attempts n conn ready (S i)
  end.

(** [start_service]: the actions it takes. [shm] is the mapped memory before the
    call, [alive] what [is_daemon_alive] answers. *)
Definition start_service (shm : option shared_data_t) (alive : bool)
  (conn ready : nat -> bool) : list svc_action :=
  let rest :=
    if alive then []
    else SvcSystemctl "start" :: connect_attempts 30 conn ready 0 in
  match shm with
  | None => rest
  | Some m =>
      SvcLock ::
      if 0 <? daemon_pid m then
        SvcUnlock :: if 0 <? heartbeat m then [] else SvcUnlock :: rest
      else SvcUnlock :: rest
  end.

Definition stop_service (shm : option shared_data_t) : option shared_data_t * list svc_action :=
  match shm with
  | None => (None, [SvcSystemctl "stop"; SvcSleepUs 200000])
  | Some m =>
      (Some (fold_idx (fun i m => put_slot m i ((get_slot m i) {{ connected := false }}))
               MAX_SLOTS (m {{ daemon_pid := 0; heartbeat := 0 }})),
       [SvcSystemctl "stop"; SvcLock; SvcUnlock; SvcDisconnect; SvcSleepUs 200000])
  end.

(** ** Conversions between a slot and its persistent configuration *)

Definition slot_config_to_controller (cfg : slot_config_t) (ctrl : controller_t) : controller_t :=
  ctrl {{ led_r := cfg_led_r cfg; led_g := cfg_led_g cfg; led_b := cfg_led_b cfg;
          led_base_r := cfg_led_base_r cfg; led_base_g := cfg_led_base_g cfg;
          led_base_b := cfg_led_base_b cfg;
          rumble_gain := cfg_rumble_gain cfg; deadzone := cfg_deadzone cfg;
          global_led_brightness := cfg_global_led_brightness cfg;
          debounce_enabled := cfg_debounce_enabled cfg;
          keymap := cfg_keymap cfg;
          emulate_active := cfg_emulate_active cfg; is_uhid := cfg_is_uhid cfg;
          led_reapply := cfg_led_reapply cfg; rumble_active := cfg_rumble_active cfg;
          invert_ly := cfg_invert_ly cfg; invert_ry := cfg_invert_ry cfg;
          sensitivity_left_preset := cfg_sensitivity_left_preset cfg;
          sensitivity_right_preset := cfg_sensitivity_right_preset cfg;
          led_static := (cfg_led_effect cfg =? 0);
          led_request_effect := uint8_val (cfg_led_effect cfg);
          led_request_speed := cfg_led_effect_speed cfg;
          led_request_brightness := cfg_led_effect_brightness cfg;
          player_leds := cfg_player_leds cfg;
          led_request_pending := true;
          is_trigger_digital := cfg_treat_triggers_as_digital cfg }}.

Definition controller_to_slot_config (ctrl : controller_t) : slot_config_t :=
  {| cfg_led_r := led_r ctrl; cfg_led_g := led_g ctrl; cfg_led_b := led_b ctrl;
     cfg_led_base_r := led_base_r ctrl; cfg_led_base_g := led_base_g ctrl;
     cfg_led_base_b := led_base_b ctrl;
     cfg_rumble_gain := rumble_gain ctrl; cfg_deadzone := deadzone ctrl;
     cfg_global_led_brightness := global_led_brightness ctrl;
     cfg_player_leds := player_leds ctrl;
     cfg_debounce_enabled := debounce_enabled ctrl;
     cfg_emulate_active := emulate_active ctrl; cfg_is_uhid := is_uhid ctrl;
     cfg_led_reapply := led_reapply ctrl; cfg_rumble_active := rumble_active ctrl;
     cfg_invert_ly := invert_ly ctrl; cfg_invert_ry := invert_ry ctrl;
     cfg_sensitivity_left_preset := sensitivity_left_preset ctrl;
     cfg_sensitivity_right_preset := sensitivity_right_preset ctrl;
     cfg_led_effect := to_uint8 (led_request_effect ctrl);
     cfg_led_effect_speed := led_request_speed ctrl;
     cfg_led_effect_brightness := led_request_brightness ctrl;
     cfg_keymap := keymap ctrl;
     cfg_treat_triggers_as_digital := is_trigger_digital ctrl |}.

(** ** Synchronous profile requests *)

(** [strncpy(dst, s, n)] followed by the terminator, [snprintf(dst, n + 1, "%s", s)]:
    the first [n] characters. *)
Definition strn (n : nat) (s : string) : string := substring 0 n s.

Fixpoint wait_response (n : nat) (env : nat -> shared_data_t -> shared_data_t) (i : nat)
  (msg_size : nat) (shm : shared_data_t) : shared_data_t * bool * string :=
  match n with
  | O => (shm, false, strn (msg_size - 1) "Timeout waiting for daemon")
  | S n =>
      let shm := env i shm in
      let resp := profile_response shm in
      if negb (resp =? 0)
      then (shm {{ profile_response := 0 }}, resp =? 1,
            strn (msg_size - 1) (profile_response_msg shm))
      else wait_response n env (S i) msg_size shm
  end.

(** The request part, under the lock. *)
Definition profile_request_post (request : Z) (name : option string)
  (auto_enable auto_delay : Z) (shm : shared_data_t) : shared_data_t :=
  let shm := shm {{ profile_request := request }} in
  let shm := match name with
             | Some n => shm {{ profile_name := strn (PROFILE_NAME_LEN - 1) n }}
             | None => shm {{ profile_name := EmptyString }}
             end in
  let shm := if 0 <=? auto_enable then shm {{ auto_save_enabled := auto_enable }} else shm in
  let shm := if 0 <=? auto_delay then shm {{ auto_save_delay_ms := auto_delay }} else shm in
  shm {{ profile_response := 0; profile_response_msg := EmptyString }}.

Definition profile_request_sync (env : nat -> shared_data_t -> shared_data_t)
  (request : Z) (name : option string) (auto_enable auto_delay : Z) (msg_size : nat)
  (shm : shared_data_t) : shared_data_t * bool * string :=
  wait_response (Z.to_nat (1000 / 20)) env 0 msg_size
    (profile_request_post request name auto_enable auto_delay shm).

(** ** Input node discovery

    The directory tree below the hidraw device: [None] when [opendir] fails,
    else the entries (name, is it a directory). *)
Record sysfs := mk_sysfs {
  fs_input_dir : option (list (string * bool));
  fs_base_dir : option (list (string * bool));
  fs_sub : string -> option (list string) }.

(** The inner loop over one [inputN] directory. *)
Fixpoint collect_events (l : list string) (paths : list string) (max_nodes : nat) : list string :=
  match l with
  | [] => paths
  | n :: l =>
      if (length paths <? max_nodes)%nat then
        if String.prefix "event" n
        then collect_events l (paths ++ [String.append "/dev/input/" n]) max_nodes
        else collect_events l paths max_nodes
      else paths
  end.

Fixpoint collect_inputs (fs : sysfs) (l : list (string * bool)) (paths : list string)
  (max_nodes : nat) : list string :=
  match l with
  | [] => paths
  | (n, is_dir) :: l =>
      if (length paths <? max_nodes)%nat then
        if is_dir && String.prefix "input" n then
          match fs_sub fs n with
          | None => collect_inputs fs l paths max_nodes
          | Some evs => collect_inputs fs l (collect_events evs paths max_nodes) max_nodes
          end
        else collect_inputs fs l paths max_nodes
      else paths
  end.

Definition discover_all_input_nodes (fs : sysfs) (max_nodes : nat) : list string :=
  match fs_input_dir fs with
  | Some l => collect_inputs fs l [] max_nodes
  | None =>
      match fs_base_dir fs with
      | Some l => collect_inputs fs l [] max_nodes
      | None => []
      end
  end.

(** * Lemmas *)

(** A sequence of calls of one category at the given times: the times logged. *)
Fixpoint log_run (s : log_state) (cat interval : Z) (ts : list Z) : list Z :=
  match ts with
  | [] => []
  | t :: ts =>
      let (s', logged) := log_ratelimit_time s cat interval t in
      if logged : bool then t :: log_run s' cat interval ts else log_run s' cat interval ts
  end.

(** Consecutive elements at least [d] apart, the first at least [d] after [a]. *)
Fixpoint spaced (d a : Z) (l : list Z) : Prop :=
  match l with [] => True | x :: l => a + d <= x /\ spaced d x l end.
Fixpoint ascending (a : Z) (l : list Z) : Prop :=
  match l with [] => True | x :: l => a <= x < 2 ^ 64 /\ ascending x l end.

Definition log_wf (s : log_state) : Prop :=
  length (last_log_us (g_log_rate s)) = 7%nat /\
  (g_log_rate_initialized s = false -> g_log_rate s = zero_log_rate).

Lemma log_run_spaced cat interval ts s now :
  0 <= cat < LOG_CAT_COUNT -> log_wf s ->
  0 <= aget 0 (last_log_us (g_log_rate s)) cat <= now -> ascending now ts ->
  spaced interval (aget 0 (last_log_us (g_log_rate s)) cat) (log_run s cat interval ts).
Proof.
  intros Hcat. unfold LOG_CAT_COUNT in Hcat.
  revert s now. induction ts as [|t ts IH]; intros s now [Hlen Hini] Hlast Hasc; [done|].
  destruct Hasc as [Ht Hasc]. simpl log_run. unfold log_ratelimit_time.
  set (s1 := log_rate_init s).
  assert (g_log_rate s1 = g_log_rate s) as E1.
  { unfold s1, log_rate_init. destruct (g_log_rate_initialized s); [done|].
    by rewrite Hini. }
  assert (g_log_rate_initialized s1 = true) as E2.
  { unfold s1, log_rate_init. by destruct (g_log_rate_initialized s) eqn:E. }
  destruct (Z.leb_spec LOG_CAT_COUNT cat); [unfold LOG_CAT_COUNT in *; lia|].
  rewrite E1, u64_small by lia.
  destruct (Z.leb_spec interval (t - aget 0 (last_log_us (g_log_rate s)) cat)).
  - split; [lia|].
    set (s2 := mk_log_state _ true).
    assert (aget 0 (last_log_us (g_log_rate s2)) cat = t) as E3
      by (apply aget_aset_eq; rewrite Hlen; lia).
    specialize (IH s2 t). rewrite E3 in IH. apply IH; [|lia|done].
    split; [|done]. simpl. by rewrite length_aset.
  - specialize (IH s1 t). rewrite E1 in IH. apply IH; [|lia|done].
    split; [by rewrite E1|]. by rewrite E2.
Qed.

(** The memory as seen after the i-th sleep. *)
Fixpoint env_state (env : nat -> shared_data_t -> shared_data_t) (i : nat) (shm : shared_data_t)
  : shared_data_t :=
  match i with O => shm | S i => env i (env_state env i shm) end.

Lemma wait_response_spec n env i msg shm0 :
  let '(shm', ok, out) := wait_response n env i msg (env_state env i shm0) in
  (exists k, (i < k <= i + n)%nat /\
     (forall j, (i < j < k)%nat -> profile_response (env_state env j shm0) = 0) /\
     profile_response (env_state env k shm0) <> 0 /\
     ok = (profile_response (env_state env k shm0) =? 1) /\
     out = strn (msg - 1) (profile_response_msg (env_state env k shm0)) /\
     shm' = (env_state env k shm0) {{ profile_response := 0 }}) \/
  ((forall j, (i < j <= i + n)%nat -> profile_response (env_state env j shm0) = 0) /\
   ok = false /\ out = strn (msg - 1) "Timeout waiting for daemon" /\
   shm' = env_state env (i + n) shm0).
Proof.
  revert i. induction n as [|n IH]; intros i; simpl wait_response.
  { right. repeat split; [intros; lia | by rewrite Nat.add_0_r]. }
  change (env i (env_state env i shm0)) with (env_state env (S i) shm0).
  destruct (Z.eqb_spec (profile_response (env_state env (S i) shm0)) 0) as [E|E]; simpl negb; cbv iota.
  - specialize (IH (S i)).
    destruct (wait_response n env (S i) msg (env_state env (S i) shm0)) as [[shm' ok] out].
    destruct IH as [(k & Hk & Hz & Hnz & ?)|(Hz & ? & ? & ?)].
    + left. exists k. split; [lia|]. split; [|done].
      intros j Hj. destruct (decide (j = S i)) as [->|]; [done | apply Hz; lia].
    + right. replace (i + S n)%nat with (S i + n)%nat by lia. repeat split; try done.
      intros j Hj. destruct (decide (j = S i)) as [->|]; [done | apply Hz; lia].
  - left. exists (S i). repeat split; [lia | lia | intros; lia | done].
Qed.

Lemma wait_heartbeat_pos n env i shm shm' hb :
  wait_heartbeat n env i shm = (shm', hb) -> hb <> 0 -> 0 < hb /\ heartbeat shm' = hb.
Proof.
  revert i shm. induction n as [|n IH]; intros i shm; simpl; [by intros [= <- <-]|].
  destruct (Z.ltb_spec 0 (heartbeat shm)); [by intros [= <- <-]|]. apply IH.
Qed.

Lemma collect_events_bound evs paths m :
  (length paths <= m)%nat -> Forall (String.prefix "/dev/input/event") paths ->
  (length (collect_events evs paths m) <= m)%nat /\
  Forall (String.prefix "/dev/input/event") (collect_events evs paths m).
Proof.
  revert paths. induction evs as [|n evs IH]; intros paths Hl HF; [done|]. simpl.
  destruct (Nat.ltb_spec (length paths) m); [|done].
  destruct (String.prefix "event" n) eqn:E; apply IH; try done.
  - rewrite length_app. simpl. lia.
  - apply Forall_app. split; [done|]. constructor; [|done].
    apply Is_true_true. exact E.
Qed.

Lemma collect_inputs_bound fs l paths m :
  (length paths <= m)%nat -> Forall (String.prefix "/dev/input/event") paths ->
  (length (collect_inputs fs l paths m) <= m)%nat /\
  Forall (String.prefix "/dev/input/event") (collect_inputs fs l paths m).
Proof.
  revert paths. induction l as [|[n d] l IH]; intros paths Hl HF; [done|]. simpl.
  repeat case_match; auto. by apply IH; apply collect_events_bound.
Qed.

(** At most [max_nodes] event nodes are found, all below /dev/input. *)
Lemma discover_bound fs m :
  (length (discover_all_input_nodes fs m) <= m)%nat /\
  Forall (String.prefix "/dev/input/event") (discover_all_input_nodes fs m).
Proof.
  unfold discover_all_input_nodes. repeat case_match.
  1,2: apply collect_inputs_bound; simpl; [lia | done].
  simpl. split; [lia | done].
Qed.

(** Locks held by the caller at the end of a list of actions, when an unlock
    without a lock has no effect but is counted. *)
Fixpoint locks (l : list svc_action) : Z :=
  match l with
  | [] => 0
  | SvcLock :: l => 1 + locks l
  | SvcUnlock :: l => -1 + locks l
  | _ :: l => locks l
  end.

Lemma config_of_applied cfg ctrl :
  controller_to_slot_config (slot_config_to_controller cfg ctrl) = cfg.
Proof.
  transitivity (cfg {{ cfg_led_effect := to_uint8 (cfg_led_effect cfg) }}); [reflexivity|].
  rewrite to_uint8_val. reflexivity.
Qed.

Lemma locks_wait_ready n ready j : locks (wait_ready n ready j) = 0.
Proof. revert j. induction n; intros j; simpl; [done|]. destruct (ready j); [done | apply IHn]. Qed.
Lemma locks_connect n conn ready i : locks (connect_attempts n conn ready i) = 0.
Proof.
  revert i. induction n; intros i; simpl; [done|]. destruct (conn i); [exact (locks_wait_ready 20 ready 0) | apply IHn].
Qed.

(** * Properties *)

(** A slot's configuration survives the round trip through a controller, and
    writing back the configuration a controller has changes nothing but the
    derived static flag, the pending LED request and an effect number over a
    byte, which keeps its low eight bits. *)
Theorem slot_config_roundtrip cfg ctrl :
  controller_to_slot_config (slot_config_to_controller cfg ctrl) = cfg /\
  slot_config_to_controller (controller_to_slot_config ctrl) ctrl =
    ctrl {{ led_static := (u8 (led_request_effect ctrl) =? 0);
            led_request_effect := u8 (led_request_effect ctrl); led_request_pending := true }} /\
  (forall cfg', slot_config_to_controller cfg' (slot_config_to_controller cfg ctrl) =
     slot_config_to_controller cfg' ctrl).
Proof. split; [apply config_of_applied | split; reflexivity]. Qed.

(** The logs of one category let through by [log_ratelimit_time] on a
    clock that does not go back are at least the interval apart. *)
Theorem log_ratelimit_spaced cat interval ts :
  0 <= cat < LOG_CAT_COUNT -> ascending 0 ts ->
  spaced interval 0 (log_run (mk_log_state zero_log_rate false) cat interval ts).
Proof.
  intros Hcat Hts. set (s := mk_log_state zero_log_rate false).
  assert (aget 0 (last_log_us (g_log_rate s)) cat = 0) as E.
  { unfold aget. change (last_log_us (g_log_rate s)) with (repeat 0 7).
    destruct (nth_in_or_default (Z.to_nat cat) (repeat 0 7) 0) as [Hin | ->]; [|done].
    by apply repeat_spec in Hin. }
  pose proof (log_run_spaced cat interval ts s 0) as H. rewrite E in H.
  apply H; [done | by split | lia | done].
Qed.

Example log_ratelimit_spaced_witness :
  spaced 1000 0 (log_run (mk_log_state zero_log_rate false) 2 1000 [500; 1500; 1600; 2600]).
Proof.
  apply (log_ratelimit_spaced 2 1000 [500; 1500; 1600; 2600]).
  - unfold LOG_CAT_COUNT. lia.
  - simpl. lia.
Defined.

(** A synchronous profile request looks at the response at most 50 times
    (one second): it takes the first non-zero response it sees, reports success
    exactly when that is 1, copies its message and clears it for the next
    request; when all 50 looks see 0 it reports a timeout. *)
Theorem profile_request_outcome env request name en delay msg shm :
  let st := fun i => env_state env i (profile_request_post request name en delay shm) in
  let '(shm', ok, out) := profile_request_sync env request name en delay msg shm in
  (exists k, (0 < k <= 50)%nat /\
     (forall j, (0 < j < k)%nat -> profile_response (st j) = 0) /\
     profile_response (st k) <> 0 /\ ok = (profile_response (st k) =? 1) /\
     out = strn (msg - 1) (profile_response_msg (st k)) /\ profile_response shm' = 0) \/
  ((forall j, (0 < j <= 50)%nat -> profile_response (st j) = 0) /\
   ok = false /\ out = strn (msg - 1) "Timeout waiting for daemon").
Proof.
  cbv zeta. unfold profile_request_sync. change (Z.to_nat (1000 / 20)) with 50%nat.
  set (shm0 := profile_request_post _ _ _ _ _).
  pose proof (wait_response_spec 50 env 0 msg shm0) as H. simpl env_state in H.
  destruct (wait_response 50 env 0 msg shm0) as [[shm' ok] out].
  destruct H as [(k & Hk & Hz & Hnz & Hok & Hout & Hshm)|(Hz & Hok & Hout & _)].
  - left. exists k. subst shm'. repeat split; [lia | lia | done | done | done | done].
  - right. repeat split; [|done|done]. intros j Hj. apply Hz. lia.
Qed.

(** [try_connect_shm] returns true only with the memory mapped, its magic
    right, the daemon's heartbeat positive and a pid that [kill] does not report
    missing; when it returns false nothing stays mapped or open, except on the
    path of an invalid pid, where the mapping is kept. *)
Theorem try_connect_shm_sound size e c c' ok :
  try_connect_shm size e c = (c', ok) ->
  match ce_map e with
  | Some shm =>
      if ok then
        magic shm = SHM_MAGIC_VALUE /\ 0 < daemon_pid shm /\ shm_fd c' = ce_fd e /\
        (exists shm', shm_ptr c' = Some shm' /\ 0 < heartbeat shm') /\
        ~ ((ce_kill e (daemon_pid shm)).1 = -1 /\ (ce_kill e (daemon_pid shm)).2 = ESRCH)
      else (shm_ptr c' = None /\ shm_fd c' = -1) \/
           (daemon_pid shm <= 0 /\ shm_ptr c' = Some shm)
  | None => ok = false /\ shm_ptr c' = None /\ shm_fd c' = -1
  end.
Proof.
  unfold try_connect_shm. cbv zeta.
  destruct (Z.eqb_spec (ce_fd e) (-1)); [intros [= <- <-]; destruct (ce_map e); auto|].
  destruct (ce_size e) as [sz|]; [|intros [= <- <-]; destruct (ce_map e); auto].
  destruct (sz <? size); [intros [= <- <-]; destruct (ce_map e); auto|].
  destruct (ce_map e) as [shm|]; [|by intros [= <- <-]].
  destruct (Z.eqb_spec (magic shm) SHM_MAGIC_VALUE); simpl negb; cbv iota;
    [|intros [= <- <-]; auto].
  destruct (Z.leb_spec (daemon_pid shm) 0); [intros [= <- <-]; auto|].
  destruct (wait_heartbeat 20 (ce_sleep e) 0 shm) as [shm' hb] eqn:Ew.
  destruct (Z.eqb_spec hb 0) as [Ehb|Ehb]; [intros [= <- <-]; auto|].
  destruct (wait_heartbeat_pos _ _ _ _ _ _ Ew Ehb) as [Hpos Hhb].
  destruct (ce_kill e (daemon_pid shm)) as [r errno].
  destruct (Z.eqb_spec r (-1)), (Z.eqb_spec errno ESRCH); simpl andb; cbv iota;
    intros [= <- <-]; auto.
  all: repeat split; try done; [exists shm'; split; [done|lia] | simpl; lia].
Qed.

Example try_connect_shm_sound_witness :
  let shm := mk_shared_data SHM_MAGIC_VALUE (repeat zero_controller 4) false 77 1 false 0xff 0
               EmptyString 0 EmptyString 0 0 EmptyString in
  0 < daemon_pid shm.
Proof.
  intros shm.
  pose proof (try_connect_shm_sound 0
    (mk_connect_env 5 (Some 0) (Some shm) (fun _ m => m) (fun _ => (0, 0)))
    (mk_conn None (-1)) (mk_conn (Some shm) 5) true) as H.
  exact (proj1 (proj2 (H eq_refl))).
Defined.

(** [start_service] releases the mutex as often as it takes it, except
    when the memory shows a pid but no heartbeat yet: then it unlocks twice for
    one lock. *)
Theorem start_service_locks shm alive conn ready :
  locks (start_service shm alive conn ready) =
  match shm with
  | Some m => if (0 <? daemon_pid m) && negb (0 <? heartbeat m) then -1 else 0
  | None => 0
  end.
Proof.
  unfold start_service. cbv zeta. destruct shm as [m|].
  - destruct (0 <? daemon_pid m), (0 <? heartbeat m), alive;
      cbn [locks negb andb]; rewrite ?locks_connect; lia.
  - destruct alive; cbn [locks]; by rewrite ?locks_connect.
Qed.
