(* ===== verification/Drivers.v ===== *)
(** * Input translation: [src/dstx/src/drivers.c]

    Normalisation of the stick bytes, the uinput device declaration, the
    per-button debounce, and the translation of DualShock 4 and DualSense
    reports into a slot update and a list of input events.  [translate_ds4] and
    [translate_dualsense] have the same text but for the report offsets and the
    battery, so the shared stages are definitions used by both. *)

From S2P Require Import Prelude Float Types Sys Keys Axes.
From Stdlib Require Import Sorting.Sorted.

(** ** linux/input-event-codes.h *)
Definition EV_SYN : Z := 0.
Definition EV_KEY : Z := 1.
Definition EV_ABS : Z := 3.
Definition EV_FF : Z := 0x15.
Definition SYN_REPORT : Z := 0.
Definition ABS_X : Z := 0.
Definition ABS_Y : Z := 1.
Definition ABS_Z : Z := 2.
Definition ABS_RX : Z := 3.
Definition ABS_RY : Z := 4.
Definition ABS_RZ : Z := 5.
Definition ABS_HAT0X : Z := 0x10.
Definition ABS_HAT0Y : Z := 0x11.
Definition BTN_SOUTH : Z := 0x130.
Definition BTN_EAST : Z := 0x131.
Definition BTN_NORTH : Z := 0x133.
Definition BTN_WEST : Z := 0x134.
Definition BTN_TL : Z := 0x136.
Definition BTN_TR : Z := 0x137.
Definition BTN_TL2 : Z := 0x138.
Definition BTN_TR2 : Z := 0x139.
Definition BTN_SELECT : Z := 0x13a.
Definition BTN_START : Z := 0x13b.
Definition BTN_MODE : Z := 0x13c.
Definition BTN_THUMBL : Z := 0x13d.
Definition BTN_THUMBR : Z := 0x13e.
Definition FF_RUMBLE : Z := 0x50.
Definition FF_PERIODIC : Z := 0x51.
Definition FF_SQUARE : Z := 0x58.
Definition FF_TRIANGLE : Z := 0x59.
Definition FF_SINE : Z := 0x5a.
Definition FF_GAIN : Z := 0x60.

(** [struct input_event] without its time stamp. *)
#[projections(primitive)]
Record input_event := mk_event { ev_type : Z; ev_code : Z; ev_value : Z }.

(** The 24 bytes of [struct input_event] on x86_64. *)
Definition event_bytes (tv : timeval) (e : input_event) : list Z :=
  le_bytes 8 (u64 (tv_sec tv)) ++ le_bytes 8 (u64 (tv_usec tv)) ++
  le_bytes 2 (u16 (ev_type e)) ++ le_bytes 2 (u16 (ev_code e)) ++ le_bytes 4 (u32 (ev_value e)).

(** ** Helpers *)

Definition safe_normalize (v : Z) : Z :=
  if v =? 128 then 0
  else if v =? 0 then -32768
  else if v =? 255 then 32767
  else if v <? 128 then i16 ((v - 128) * 256)
  else i16 ((v - 128) * 257 + 128).

Section emit.
Context (kernel : kernel_t) (fuel : nat) (clock : list sysop -> timeval).

(** A failed write is only logged. *)
Definition emit (fd : Z) (e : input_event) : io unit :=
  if fd <? 0 then mret tt
  else fun h =>
    (r ← safe_write kernel fuel fd (event_bytes (clock h) e); mret tt) h.

(** Successive calls of [emit]. *)
Fixpoint emit_all (fd : Z) (l : list input_event) : io unit :=
  match l with
  | [] => mret tt
  | e :: l => _ ← emit fd e; emit_all fd l
  end.
End emit.

(** ** uinput setup *)

Definition uinput_buttons : list Z :=
  [BTN_SOUTH; BTN_EAST; BTN_NORTH; BTN_WEST; BTN_START; BTN_SELECT; BTN_TL; BTN_TR;
   BTN_THUMBL; BTN_THUMBR; BTN_MODE; BTN_TL2; BTN_TR2].
Definition uinput_axes : list Z :=
  [ABS_X; ABS_Y; ABS_RX; ABS_RY; ABS_Z; ABS_RZ; ABS_HAT0X; ABS_HAT0Y].

(** [u.absmin] and [u.absmax]: zero where the code assigns nothing. *)
Definition uinput_absmin (axis : Z) : Z :=
  if (axis =? ABS_X) || (axis =? ABS_Y) || (axis =? ABS_RX) || (axis =? ABS_RY) then -32768
  else if (axis =? ABS_HAT0X) || (axis =? ABS_HAT0Y) then -1 else 0.
Definition uinput_absmax (axis : Z) : Z :=
  if (axis =? ABS_X) || (axis =? ABS_Y) || (axis =? ABS_RX) || (axis =? ABS_RY) then 32767
  else if (axis =? ABS_Z) || (axis =? ABS_RZ) then 255
  else if (axis =? ABS_HAT0X) || (axis =? ABS_HAT0Y) then 1 else 0.

Section setup.
Context (kernel : kernel_t) (fuel : nat).
(** The bytes of [struct uinput_user_dev] for a device index: name, ids, axis
    ranges and [ff_effects_max], laid out by the kernel's header. *)
Context (user_dev : Z -> list Z).

Fixpoint ioctl_each (fd : Z) (req : string) (l : list Z) : io unit :=
  match l with
  | [] => mret tt
  | a :: l => _ ← sys_ kernel (SysIoctl fd req a); ioctl_each fd req l
  end.

Definition setup_uinput_indexed (index : Z) : io Z :=
  fd ← sys_ kernel (SysOpen "/dev/uinput");
  if fd <? 0 then mret (-1)
  else
    r ← sys_ kernel (SysIoctl fd "UI_SET_EVBIT" EV_KEY);
    if r <? 0 then _ ← sys_ kernel (SysClose fd); mret (-1)
    else
      _ ← ioctl_each fd "UI_SET_EVBIT" [EV_ABS; EV_FF];
      _ ← ioctl_each fd "UI_SET_FFBIT"
            [FF_RUMBLE; FF_PERIODIC; FF_SQUARE; FF_TRIANGLE; FF_SINE; FF_GAIN];
      _ ← sys_ kernel (SysIoctl fd "UI_P_SET_FF_EFFECTS" 16);
      _ ← ioctl_each fd "UI_SET_KEYBIT" uinput_buttons;
      _ ← ioctl_each fd "UI_SET_ABSBIT" uinput_axes;
      let u := user_dev index in
      w ← safe_write kernel fuel fd u;
      if negb (w =? Z.of_nat (length u)) then _ ← sys_ kernel (SysClose fd); mret (-1)
      else
        r ← sys_ kernel (SysIoctl fd "UI_DEV_CREATE" 0);
        if r <? 0 then _ ← sys_ kernel (SysClose fd); mret (-1)
        else
          _ ← safe_write kernel fuel fd
                (event_bytes tv_zero (mk_event EV_FF FF_GAIN 0xFFFF));
          mret fd.
End setup.

(** ** Debounce of the physical buttons *)

Record phy_debounce_t := mk_phy_debounce { last_change_us : Z; pending : Z; stable : Z }.
Definition zero_phy_debounce : phy_debounce_t := mk_phy_debounce 0 0 0.

(** One button: the new entry, whose [stable] is the result. *)
Definition debounce_step (db : phy_debounce_t) (now raw : Z) : phy_debounce_t :=
  if raw =? stable db then mk_phy_debounce (last_change_us db) raw (stable db)
  else if raw =? pending db then
    if DEBOUNCE_DELAY_US <=? u64 (now - last_change_us db)
    then mk_phy_debounce (last_change_us db) raw raw
    else db
  else mk_phy_debounce now raw (stable db).

(** [g_phy_debounce]: a row of 18 entries per slot. *)
Definition debounce_table : Type := list (list phy_debounce_t).
Definition g_phy_debounce_init : debounce_table :=
  repeat (repeat zero_phy_debounce PHY_BTN_COUNT) MAX_SLOTS.

Definition debounce_physical (g : debounce_table) (slot_idx phy now raw : Z)
  : debounce_table * Z :=
  if (slot_idx <? 0) || (Z.of_nat MAX_SLOTS <=? slot_idx) then (g, raw)
  else if (phy <? 0) || (Z.of_nat PHY_BTN_COUNT <=? phy) then (g, raw)
  else
    let row := aget [] g slot_idx in
    let db := debounce_step (aget zero_phy_debounce row phy) now raw in
    (aset g slot_idx (aset row phy db), stable db).

(** The loop over the 18 buttons; [times i] is the clock at the i-th call. *)
Definition debounce_all (slot_idx : Z) (times : Z -> Z) (phy_raw : list Z) (g : debounce_table)
  : debounce_table * list Z :=
  fold_idx (fun i acc =>
      let (g', v) := debounce_physical acc.1 slot_idx i (times i) (aget 0 phy_raw i) in
      (g', acc.2 ++ [v]))
    PHY_BTN_COUNT (g, []).

(** ** Stages of a translation *)

(** The static state the translation uses: the curve tables and the debounce
    table. *)
Record drv_state := mk_drv { drv_axes : axes_state; drv_debounce : debounce_table }.

Definition invert_axis (v : Z) : Z := if v =? -32768 then 32767 else i16 (- v).

Section translate.
Context (powf : float -> float -> float).

(** Sticks: normalise, curve, invert ([None]: the out-of-bounds table read). *)
Definition translate_sticks (buf : list Z) (offset : Z) (ax : axes_state) (slot : controller_t)
  : axes_state * option controller_t :=
  let slot := slot {{ LX := safe_normalize (aget 0 buf (offset + 0));
                      LY := safe_normalize (aget 0 buf (offset + 1));
                      RX := safe_normalize (aget 0 buf (offset + 2));
                      RY := safe_normalize (aget 0 buf (offset + 3)) }} in
  let (ax, l) := apply_sensitivity_left powf ax slot (LX slot) (LY slot) in
  let (ax, r) := apply_sensitivity_right powf ax slot (RX slot) (RY slot) in
  (ax,
   '(lx, ly) ← l;
   '(rx, ry) ← r;
   let ly := if invert_ly slot then invert_axis ly else ly in
   let ry := if invert_ry slot then invert_axis ry else ry in
   Some (slot {{ LX := lx; LY := ly; RX := rx; RY := ry }})).

(** Deadzone of both sticks; a percentage above 100 counts as 0. *)
Definition translate_deadzone (slot : controller_t) : controller_t :=
  let dz := if 100 <? deadzone slot then 0 else deadzone slot in
  let (lx, ly) := apply_deadzone (LX slot) (LY slot) dz in
  let (rx, ry) := apply_deadzone (RX slot) (RY slot) dz in
  slot {{ LX := lx; LY := ly; RX := rx; RY := ry }}.

(** The raw state of the 18 physical buttons, in the order of
    [physical_button_t], from the three button bytes. *)
Definition translate_raw (buttons buttons2 buttons3 : Z) : list Z :=
  let dpad := Z.land buttons 0x0F in
  map b2z
    [ bit buttons 5; bit buttons 6; bit buttons 4; bit buttons 7;
      bit buttons2 0; bit buttons2 1; bit buttons2 2; bit buttons2 3;
      bit buttons2 4; bit buttons2 5; bit buttons2 6; bit buttons2 7;
      bit buttons3 0; bit buttons3 1;
      (dpad =? 0) || (dpad =? 1) || (dpad =? 7);
      (dpad =? 3) || (dpad =? 4) || (dpad =? 5);
      (dpad =? 5) || (dpad =? 6) || (dpad =? 7);
      (dpad =? 1) || (dpad =? 2) || (dpad =? 3) ].

Definition translate_debounce (slot : controller_t) (slot_idx : Z) (times : Z -> Z)
  (phy_raw : list Z) (g : debounce_table) : debounce_table * list Z :=
  if debounce_enabled slot then debounce_all slot_idx times phy_raw g else (g, phy_raw).

(** The value of a trigger axis in analog mode. *)
Definition trigger_value (pressed : bool) (mapped_to_self : bool) (raw logical : Z) : Z :=
  if pressed then (if mapped_to_self then raw else 0)
  else if truthy logical then 255 else 0.

(** The events of a frame, in emission order. *)
Definition frame_events (slot : controller_t) (phy_stable : list Z) : list input_event :=
  let trig_digital := is_trigger_digital slot in
  let left_val :=
    trigger_value (truthy (aget 0 phy_stable PHY_BTN_L2))
      (aget 0 (keymap slot) PHY_BTN_L2 =? log_val LOGICAL_BTN_L2) (LT slot) (L2 slot) in
  let right_val :=
    trigger_value (truthy (aget 0 phy_stable PHY_BTN_R2))
      (aget 0 (keymap slot) PHY_BTN_R2 =? log_val LOGICAL_BTN_R2) (RT slot) (R2 slot) in
  [mk_event EV_ABS ABS_X (LX slot); mk_event EV_ABS ABS_Y (LY slot);
   mk_event EV_ABS ABS_RX (RX slot); mk_event EV_ABS ABS_RY (RY slot)] ++
  (if negb trig_digital
   then [mk_event EV_ABS ABS_Z left_val; mk_event EV_ABS ABS_RZ right_val] else []) ++
  [mk_event EV_KEY BTN_WEST (triangle slot); mk_event EV_KEY BTN_NORTH (square slot);
   mk_event EV_KEY BTN_SOUTH (cross slot); mk_event EV_KEY BTN_EAST (circle slot);
   mk_event EV_ABS ABS_HAT0X (HATX slot); mk_event EV_ABS ABS_HAT0Y (HATY slot);
   mk_event EV_KEY BTN_TL (L1 slot); mk_event EV_KEY BTN_TR (R1 slot);
   mk_event EV_KEY BTN_SELECT (Share slot); mk_event EV_KEY BTN_START (Options slot);
   mk_event EV_KEY BTN_THUMBL (L3 slot); mk_event EV_KEY BTN_THUMBR (R3 slot);
   mk_event EV_KEY BTN_MODE (PS slot)] ++
  (if trig_digital
   then [mk_event EV_KEY BTN_TL2 (L2 slot); mk_event EV_KEY BTN_TR2 (R2 slot)] else []) ++
  [mk_event EV_SYN SYN_REPORT 0].

(** Battery bytes. *)
Definition battery_level (level : Z) : Z :=
  if 100 <? level * 10 + 5 then 100 else level * 10 + 5.
Definition battery_ds4 (b : Z) : Z :=
  let level := Z.land b 0x0F in
  if bit b 4 then
    if level <=? 10 then battery_level level else if level =? 11 then 100 else 0
  else if level <=? 10 then battery_level level else 0.
Definition battery_dualsense (b : Z) : Z :=
  let level := Z.land b 0x0F in
  let status := Z.land (Z.shiftr b 4) 0x0F in
  if (status =? 0) || (status =? 1) then battery_level level
  else if status =? 2 then 100 else 0.

(** Everything after the sticks, common to both reports: the offsets of the
    triggers, the buttons and the battery are arguments. *)
Definition translate_rest (buf : list Z) (lt_off b1 b2 b3 : Z) (battery_of : Z)
  (slot_idx : Z) (times : Z -> Z) (ufd : Z) (g : debounce_table) (slot : controller_t)
  : debounce_table * controller_t * list input_event :=
  let slot := slot {{ LT := aget 0 buf lt_off; RT := aget 0 buf (lt_off + 1) }} in
  let slot := translate_deadzone slot in
  let phy_raw := translate_raw (aget 0 buf b1) (aget 0 buf b2) (aget 0 buf b3) in
  let (g, phy_stable) := translate_debounce slot slot_idx times phy_raw g in
  let slot := keys_apply_map slot (keymap slot) phy_stable in
  let evs := if 0 <=? ufd then frame_events slot phy_stable else [] in
  (g, slot {{ battery := battery_of }}, evs).

Definition translate_ds4 (buf : list Z) (slot_idx : Z) (times : Z -> Z) (ufd : Z)
  (d : drv_state) (slot : controller_t)
  : option (drv_state * controller_t * list input_event) :=
  let offset := if aget 0 buf 0 =? 0x11 then 3 else 1 in
  let (ax, s) := translate_sticks buf offset (drv_axes d) slot in
  slot ← s;
  let '(g, slot, evs) :=
    translate_rest buf (offset + 7) (offset + 4) (offset + 5) (offset + 6)
      (battery_ds4 (aget 0 buf (offset + 29))) slot_idx times ufd (drv_debounce d) slot in
  Some (mk_drv ax g, slot, evs).

Definition translate_dualsense (buf : list Z) (slot_idx : Z) (times : Z -> Z) (ufd : Z)
  (d : drv_state) (slot : controller_t)
  : option (drv_state * controller_t * list input_event) :=
  let offset := if aget 0 buf 0 =? 0x31 then 2 else 1 in
  let (ax, s) := translate_sticks buf offset (drv_axes d) slot in
  slot ← s;
  let '(g, slot, evs) :=
    translate_rest buf (offset + 4) (offset + 7) (offset + 8) (offset + 9)
      (battery_dualsense (aget 0 buf (offset + 52))) slot_idx times ufd (drv_debounce d) slot in
  Some (mk_drv ax g, slot, evs).
End translate.

(** * Specifications *)

(** Debounce as a function of the history of (time, raw value) samples of a
    button, newest first: the output follows the raw value once the current
    uninterrupted run of that value spans the debounce delay. *)
Fixpoint run_start (r t : Z) (hist : list (Z * Z)) : Z :=
  match hist with
  | (t', r') :: h => if r' =? r then run_start r t' h else t
  | [] => t
  end.
Fixpoint debounced (hist : list (Z * Z)) : Z :=
  match hist with
  | [] => 0
  | (t, r) :: h =>
      if r =? debounced h then debounced h
      else if DEBOUNCE_DELAY_US <=? u64 (t - run_start r t h) then r else debounced h
  end.

(** The implementation run over the same history. *)
Fixpoint debounce_run (hist : list (Z * Z)) : phy_debounce_t :=
  match hist with
  | [] => zero_phy_debounce
  | (t, r) :: h => debounce_step (debounce_run h) t r
  end.

(** An event the uinput device was declared for, with its value in the declared
    range. *)
Definition event_declared (e : input_event) : Prop :=
  (ev_type e = EV_ABS /\ In (ev_code e) uinput_axes /\
   uinput_absmin (ev_code e) <= ev_value e <= uinput_absmax (ev_code e)) \/
  (ev_type e = EV_KEY /\ In (ev_code e) uinput_buttons /\ 0 <= ev_value e <= 1) \/
  e = mk_event EV_SYN SYN_REPORT 0.
Definition has_code (ty code : Z) (l : list input_event) : bool :=
  existsb (fun e => (ev_type e =? ty) && (ev_code e =? code)) l.

Definition byte_buf (buf : list Z) : Prop := Forall is_u8 buf.

(** * Lemmas *)

Lemma aget_byte buf i : byte_buf buf -> 0 <= aget 0 buf i <= 255.
Proof.
  intros H. assert (is_u8 (aget 0 buf i)) as Hb by (apply aget_Forall; [done | unfold is_u8; lia]).
  unfold is_u8 in Hb. lia.
Qed.

Lemma safe_normalize_range v : 0 <= v <= 255 -> -32768 <= safe_normalize v <= 32767.
Proof. intros. unfold safe_normalize. zcases; rewrite i16_small; lia. Qed.

Lemma safe_normalize_lt a b : 0 <= a < b -> b <= 255 -> safe_normalize a < safe_normalize b.
Proof.
  assert (forall v, 0 <= v <= 255 ->
    safe_normalize v = if v =? 255 then 32767 else if v <=? 128 then (v - 128) * 256
                       else (v - 128) * 257 + 128) as E.
  { intros v Hv. unfold safe_normalize. zcases; rewrite ?i16_small; lia. }
  intros. rewrite !E by lia. zcases.
Qed.

Lemma safe_normalize_min v : 0 <= v <= 255 -> safe_normalize v = -32768 <-> v = 0.
Proof. intros. unfold safe_normalize. zcases; rewrite ?i16_small; lia. Qed.

Lemma invert_axis_range v : -32768 <= v <= 32767 -> -32768 <= invert_axis v <= 32767.
Proof. intros. unfold invert_axis. zcases. rewrite i16_small; lia. Qed.

Lemma debounce_run_inv hist :
  pending (debounce_run hist) = match hist with (_, r) :: _ => r | [] => 0 end /\
  (pending (debounce_run hist) <> stable (debounce_run hist) ->
   match hist with
   | (t, r) :: h => last_change_us (debounce_run hist) = run_start r t h
   | [] => True
   end).
Proof.
  induction hist as [|[t r] h [IHp IHl]]; [done|]. simpl debounce_run. unfold debounce_step.
  destruct (Z.eqb_spec r (stable (debounce_run h))) as [E|E]; [split; [done|]; simpl; congruence|].
  destruct (Z.eqb_spec r (pending (debounce_run h))) as [E'|E'].
  - destruct (_ <=? _); simpl; [split; [done | congruence]|]. split; [done|]. intros _.
    rewrite <- E' in IHl. specialize (IHl E). rewrite IHp in E'.
    destruct h as [|[t' r'] h]; [simpl in E; congruence|]. simpl.
    subst r'. by rewrite Z.eqb_refl.
  - split; [done|]. intros _. rewrite IHp in E'. destruct h as [|[t' r'] h]; [done|]. simpl in *.
    by destruct (Z.eqb_spec r' r); [congruence|].
Qed.

Lemma debounce_run_stable hist : stable (debounce_run hist) = debounced hist.
Proof.
  induction hist as [|[t r] h IH]; [done|]. simpl. rewrite <- IH. unfold debounce_step.
  destruct (Z.eqb_spec r (stable (debounce_run h))) as [E|E]; [done|].
  destruct (debounce_run_inv h) as [Hp Hl].
  destruct (Z.eqb_spec r (pending (debounce_run h))) as [E'|E'].
  - rewrite <- E' in Hl. specialize (Hl E). rewrite Hp in E'.
    destruct h as [|[t' r'] h]; [simpl in E; congruence|]. simpl run_start. subst r'.
    rewrite Z.eqb_refl, <- Hl. by destruct (_ <=? _).
  - rewrite Hp in E'. assert (run_start r t h = t) as ->.
    { destruct h as [|[t' r'] h]; [done|]. simpl in *. by destruct (Z.eqb_spec r' r); [congruence|]. }
    rewrite Z.sub_diag. done.
Qed.

(** A burst of samples of one value, newest first, after a different one. *)
Lemma run_start_burst r times base :
  match base with (_, r') :: _ => r' <> r | [] => True end ->
  forall t, run_start r t (map (fun t => (t, r)) times ++ base) = List.last times t.
Proof.
  intros Hb. induction times as [|t' times IH]; intros t.
  - simpl. destruct base as [|[t0 r'] base]; [done|]. simpl. by destruct (Z.eqb_spec r' r).
  - simpl map. simpl app. simpl run_start. by rewrite Z.eqb_refl, IH, last_cons.
Qed.

Lemma last_In (l : list Z) d : In (List.last l d) (d :: l).
Proof.
  revert d. induction l as [|x l IH]; intros d; [by left|]. right. rewrite last_cons. apply IH.
Qed.

Lemma debounced_burst r times base d :
  Forall (fun t => d <= t < d + DEBOUNCE_DELAY_US) times ->
  StronglySorted (fun x y => y <= x) times ->
  match base with (_, r') :: _ => r' <> r | [] => True end ->
  debounced (map (fun t => (t, r)) times ++ base) = debounced base.
Proof.
  intros Hd Hs Hb. induction Hs as [|t times Hs IH Hle]; [done|].
  apply Forall_cons in Hd as [Ht Hd]. simpl. rewrite IH by done.
  destruct (r =? debounced base); [done|]. rewrite run_start_burst by done.
  assert (d <= List.last times t <= t) as Hl.
  { rewrite List.Forall_forall in Hd, Hle.
    destruct (last_In times t) as [<-|Hin]; [lia|].
    specialize (Hd _ Hin). specialize (Hle _ Hin). simpl in *. lia. }
  unfold DEBOUNCE_DELAY_US in *. rewrite u64_small by lia.
  by destruct (Z.leb_spec 15000 (t - List.last times t)); [lia|].
Qed.

Lemma bound_abs code v :
  In code uinput_axes -> uinput_absmin code <= v <= uinput_absmax code ->
  event_declared (mk_event EV_ABS code v).
Proof. intros. by left. Qed.
Lemma bound_key code v :
  In code uinput_buttons -> 0 <= v <= 1 -> event_declared (mk_event EV_KEY code v).
Proof. intros. right. by left. Qed.

(** What the slot of a frame satisfies once keys and sticks are set. *)
Definition slot_ranges (s : controller_t) : Prop :=
  (-32768 <= LX s <= 32767 /\ -32768 <= LY s <= 32767 /\
   -32768 <= RX s <= 32767 /\ -32768 <= RY s <= 32767) /\
  (0 <= LT s <= 255 /\ 0 <= RT s <= 255) /\
  (-1 <= HATX s <= 1 /\ -1 <= HATY s <= 1) /\
  Forall (fun v => 0 <= v <= 1)
    [triangle s; square s; cross s; circle s; L1 s; R1 s; Share s; Options s;
     L3 s; R3 s; PS s; L2 s; R2 s].

Lemma trigger_value_range b m raw l : 0 <= raw <= 255 -> 0 <= trigger_value b m raw l <= 255.
Proof. intros. unfold trigger_value. repeat bcase; lia. Qed.

Ltac in_list := simpl; repeat (first [left; reflexivity | right]).

Lemma frame_events_declared s st :
  slot_ranges s -> Forall event_declared (frame_events s st).
Proof.
  intros (Hst & Htr & Hhat & Hb).
  repeat match goal with H : Forall _ (_ :: _) |- _ => apply Forall_cons in H as [? H] end.
  unfold frame_events. cbv zeta. rewrite !Forall_app.
  destruct (is_trigger_digital s); cbn [negb];
    repeat match goal with
    | |- _ /\ _ => split
    | |- Forall _ (_ :: _) => apply Forall_cons_2
    | |- Forall _ [] => apply Forall_nil_2
    | |- event_declared (mk_event EV_SYN _ _) => right; right; reflexivity
    | |- event_declared (mk_event EV_ABS _ (trigger_value _ _ _ _)) =>
        apply bound_abs; [in_list | apply trigger_value_range; lia]
    | |- event_declared (mk_event EV_ABS _ _) =>
        apply bound_abs; [in_list | cbn; lia]
    | |- event_declared (mk_event EV_KEY _ _) => apply bound_key; [in_list | lia]
    end.
Qed.

Lemma frame_events_shape s st :
  exists l, frame_events s st = l ++ [mk_event EV_SYN SYN_REPORT 0] /\
    has_code EV_SYN SYN_REPORT l = false /\
    has_code EV_ABS ABS_Z l = negb (is_trigger_digital s) /\
    has_code EV_ABS ABS_RZ l = negb (is_trigger_digital s) /\
    has_code EV_KEY BTN_TL2 l = is_trigger_digital s /\
    has_code EV_KEY BTN_TR2 l = is_trigger_digital s.
Proof.
  unfold frame_events. cbv zeta. rewrite !app_assoc. eexists. split; [reflexivity|].
  destruct (is_trigger_digital s); repeat split; reflexivity.
Qed.

Lemma translate_deadzone_frame s :
  let s' := translate_deadzone s in
  LT s' = LT s /\ RT s' = RT s /\ keymap s' = keymap s.
Proof.
  unfold translate_deadzone. destruct (apply_deadzone (LX s) _ _), (apply_deadzone (RX s) _ _).
  repeat split.
Qed.
Lemma translate_deadzone_range s :
  -32768 <= LX s <= 32767 -> -32768 <= LY s <= 32767 ->
  -32768 <= RX s <= 32767 -> -32768 <= RY s <= 32767 ->
  let s' := translate_deadzone s in
  -32768 <= LX s' <= 32767 /\ -32768 <= LY s' <= 32767 /\
  -32768 <= RX s' <= 32767 /\ -32768 <= RY s' <= 32767.
Proof.
  intros H1 H2 H3 H4. unfold translate_deadzone.
  set (dz := if 100 <? deadzone s then 0 else deadzone s).
  pose proof (apply_deadzone_range (LX s) (LY s) dz H1 H2) as Hl.
  pose proof (apply_deadzone_range (RX s) (RY s) dz H3 H4) as Hr.
  destruct (apply_deadzone (LX s) _ _), (apply_deadzone (RX s) _ _). simpl in Hl, Hr.
  exact (conj (proj1 Hl) (conj (proj2 Hl) Hr)).
Qed.

(** Key fields and hats after [keys_apply_map], the others unchanged. *)
Lemma keys_apply_ranges s raw :
  let s' := keys_apply_map s (keymap s) raw in
  (LX s' = LX s /\ LY s' = LY s /\ RX s' = RX s /\ RY s' = RY s /\ LT s' = LT s /\ RT s' = RT s) /\
  (-1 <= HATX s' <= 1 /\ -1 <= HATY s' <= 1) /\
  Forall (fun v => 0 <= v <= 1)
    [triangle s'; square s'; cross s'; circle s'; L1 s'; R1 s'; Share s'; Options s';
     L3 s'; R3 s'; PS s'; L2 s'; R2 s'].
Proof.
  set (f := pressed (keymap s) raw).
  assert (keys_apply_map s (keymap s) raw =
    (with_buttons f s) {{ HATX := hat_x f; HATY := hat_y f }}) as ->.
  { unfold keys_apply_map. rewrite keys_apply_loop. apply keys_recalc_hat_spec. }
  cbv zeta. split; [repeat split|]. split.
  - change (-1 <= hat_x f <= 1 /\ -1 <= hat_y f <= 1). unfold hat_x, hat_y.
    repeat bcase; lia.
  - repeat constructor; try apply b2z_range.
Qed.

Lemma translate_sticks_spec powf buf off ax s :
  byte_buf buf ->
  match (translate_sticks powf buf off ax s).2 with
  | Some s' => (-32768 <= LX s' <= 32767 /\ -32768 <= LY s' <= 32767 /\
                -32768 <= RX s' <= 32767 /\ -32768 <= RY s' <= 32767)
  | None => (aget 0 buf off = 0 /\ aget 0 buf (off + 1) = 0) \/
            (aget 0 buf (off + 2) = 0 /\ aget 0 buf (off + 3) = 0)
  end.
Proof.
  intros Hb. unfold translate_sticks, apply_sensitivity_left, apply_sensitivity_right.
  cbv beta iota zeta delta [snd]. rewrite Z.add_0_r.
  match goal with |- context [apply_sensitivity_core _ _ (LX ?s1) _] => set (s0 := s1) end.
  change (LX s0) with (safe_normalize (aget 0 buf off)).
  change (LY s0) with (safe_normalize (aget 0 buf (off + 1))).
  change (RX s0) with (safe_normalize (aget 0 buf (off + 2))).
  change (RY s0) with (safe_normalize (aget 0 buf (off + 3))).
  pose proof (safe_normalize_range _ (aget_byte buf off Hb)) as H0.
  pose proof (safe_normalize_range _ (aget_byte buf (off + 1) Hb)) as H1.
  pose proof (safe_normalize_range _ (aget_byte buf (off + 2) Hb)) as H2.
  pose proof (safe_normalize_range _ (aget_byte buf (off + 3) Hb)) as H3.
  destruct (apply_sensitivity_core _ _ (safe_normalize (aget 0 buf off)) _) as [[lx ly]|] eqn:EL; simpl.
  2:{ left. apply core_None in EL; [|done..].
      by rewrite !safe_normalize_min in EL by (apply aget_byte; done). }
  destruct (apply_sensitivity_core _ _ (safe_normalize (aget 0 buf (off + 2))) _) as [[rx ry]|] eqn:ER; simpl.
  2:{ right. apply core_None in ER; [|done..].
      by rewrite !safe_normalize_min in ER by (apply aget_byte; done). }
  pose proof (core_range _ _ _ _ _ _ H0 H1 EL) as [Hlx Hly].
  pose proof (core_range _ _ _ _ _ _ H2 H3 ER) as [Hrx Hry].
  assert (forall b v, -32768 <= v <= 32767 ->
    -32768 <= (if b : bool then invert_axis v else v) <= 32767) as Hinv
    by (intros [] v Hv; auto using invert_axis_range).
  exact (conj Hlx (conj (Hinv (invert_ly s0) ly Hly) (conj Hrx (Hinv (invert_ry s0) ry Hry)))).
Qed.

Lemma ioctl_each_fds kernel fd req l h u h' :
  ioctl_each kernel fd req l h = Some (u, h') -> fds_same kernel h h'.
Proof.
  revert h. induction l as [|a l IH]; intros h; simpl; [by intros [= <- <-]|].
  unfold mbind, io_bind, sys_. intros Hr. by apply IH in Hr.
Qed.

Lemma battery_level_range l : 0 <= l -> 0 <= battery_level l <= 100.
Proof. intros. unfold battery_level. zcases. Qed.
Lemma battery_ds4_range b : 0 <= battery_ds4 b <= 100.
Proof.
  unfold battery_ds4. cbv zeta. change 15 with (Z.ones 4). rewrite Z.land_ones by lia.
  pose proof (Z.mod_pos_bound b (2 ^ 4)) as H.
  repeat bcase; try lia; apply battery_level_range; lia.
Qed.
Lemma battery_dualsense_range b : 0 <= battery_dualsense b <= 100.
Proof.
  unfold battery_dualsense. cbv zeta. change 15 with (Z.ones 4). rewrite !Z.land_ones by lia.
  pose proof (Z.mod_pos_bound b (2 ^ 4)) as H.
  repeat bcase; try lia; apply battery_level_range; lia.
Qed.

Lemma put_triggers_spec s a b :
  let s1 := s {{ LT := a; RT := b }} in
  LX s1 = LX s /\ LY s1 = LY s /\ RX s1 = RX s /\ RY s1 = RY s /\ LT s1 = a /\ RT s1 = b.
Proof. repeat split. Qed.
Lemma put_battery_spec s b :
  let s1 := s {{ battery := b }} in
  (slot_ranges s -> slot_ranges s1) /\ battery s1 = b /\
  (forall st, frame_events s1 st = frame_events s st).
Proof. repeat split; try apply H; by destruct H as (_ & _ & _ & H). Qed.

(** The common stages keep the declared ranges and send a declared frame. *)
Lemma translate_rest_spec buf lt b1 b2 b3 bat idx times ufd g s :
  byte_buf buf ->
  -32768 <= LX s <= 32767 /\ -32768 <= LY s <= 32767 /\
  -32768 <= RX s <= 32767 /\ -32768 <= RY s <= 32767 ->
  let '(g', s', evs) := translate_rest buf lt b1 b2 b3 bat idx times ufd g s in
  slot_ranges s' /\ battery s' = bat /\
  (if 0 <=? ufd then exists st, evs = frame_events s' st else evs = []).
Proof.
  intros Hb Hst. unfold translate_rest.
  pose proof (put_triggers_spec s (aget 0 buf lt) (aget 0 buf (lt + 1))) as Hs1.
  set (s1 := s {{ LT := _; RT := _ }}) in *. clearbody s1.
  destruct Hs1 as (Hlx & Hly & Hrx & Hry & HL & HR). rewrite <- Hlx, <- Hly, <- Hrx, <- Hry in Hst.
  destruct Hst as (D1 & D2 & D3 & D4).
  pose proof (translate_deadzone_frame s1) as (HLT & HRT & _).
  pose proof (translate_deadzone_range s1 D1 D2 D3 D4) as D.
  set (s2 := translate_deadzone s1) in *. clearbody s2.
  destruct (translate_debounce s2 idx times _ g) as [g' st].
  pose proof (keys_apply_ranges s2 st) as ((K1 & K2 & K3 & K4 & K5 & K6) & Khat & Kb).
  set (s3 := keys_apply_map s2 (keymap s2) st) in *. clearbody s3.
  assert (slot_ranges s3) as Hr3.
  { unfold slot_ranges. rewrite K1, K2, K3, K4, K5, K6, HLT, HRT, HL, HR.
    exact (conj D (conj (conj (aget_byte buf lt Hb) (aget_byte buf (lt + 1) Hb)) (conj Khat Kb))). }
  destruct (put_battery_spec s3 bat) as (B1 & B2 & B3).
  split; [by apply B1|]. split; [exact B2|].
  destruct (0 <=? ufd); [|done]. exists st. by rewrite B3.
Qed.

(** * Properties *)

(** The byte-to-16-bit conversion of a stick stays in the 16-bit range, is
    strictly increasing on the 256 byte values, and sends the ends and the
    centre of the byte range to the ends and the centre of the 16-bit range. *)
Theorem safe_normalize_monotone a b :
  0 <= a < b -> b <= 255 ->
  -32768 <= safe_normalize a < safe_normalize b /\ safe_normalize b <= 32767 /\
  safe_normalize 0 = -32768 /\ safe_normalize 128 = 0 /\ safe_normalize 255 = 32767.
Proof.
  intros Ha Hb. pose proof (safe_normalize_range a ltac:(lia)) as [Hla _].
  pose proof (safe_normalize_range b ltac:(lia)) as [_ Hub].
  pose proof (safe_normalize_lt a b Ha Hb). auto 10.
Qed.

Example safe_normalize_monotone_witness : safe_normalize 127 < safe_normalize 129.
Proof. apply (safe_normalize_monotone 127 129); lia. Defined.

(** C2: the debounce of a button implements its history specification on every
    sequence of samples: the output takes a new raw value exactly when the
    current uninterrupted run of that value spans at least 15000 us; so a burst
    of samples that are all read within 15000 us leaves the output unchanged. *)
Theorem debounce_refines_history hist r times base d :
  stable (debounce_run hist) = debounced hist /\
  (Forall (fun t => d <= t < d + DEBOUNCE_DELAY_US) times ->
   StronglySorted (fun x y => y <= x) times ->
   match base with (_, r') :: _ => r' <> r | [] => True end ->
   stable (debounce_run (map (fun t => (t, r)) times ++ base)) = stable (debounce_run base)).
Proof.
  split; [apply debounce_run_stable|]. intros. rewrite !debounce_run_stable.
  by apply (debounced_burst r times base d).
Qed.

Example debounce_refines_history_witness :
  stable (debounce_run (map (fun t => (t, 1)) [30900; 30500; 30000] ++ [(20000, 0)])) = 0.
Proof.
  apply (debounce_refines_history [] 1 [30900; 30500; 30000] [(20000, 0)] 30000).
  - repeat constructor; unfold DEBOUNCE_DELAY_US; lia.
  - repeat constructor; lia.
  - lia.
Defined.

(** C1: whatever the bytes of a report, a DualShock 4 frame that is translated
    contains only events the uinput device was declared for, each value within
    its declared range, ends with its only SYN_REPORT, and sends the trigger
    axes or the trigger buttons, never both; without a virtual device nothing
    is sent.  The same holds of a DualSense frame, and the battery is a
    percentage.  Translation fails (out-of-bounds table read) only if both
    bytes of some stick are 0. *)
Theorem translate_frames_declared powf buf idx times ufd d slot :
  byte_buf buf ->
  forall (translate : list Z -> Z -> (Z -> Z) -> Z -> drv_state -> controller_t ->
            option (drv_state * controller_t * list input_event)) off,
  (translate = translate_ds4 powf /\ off = (if aget 0 buf 0 =? 0x11 then 3 else 1)) \/
  (translate = translate_dualsense powf /\ off = (if aget 0 buf 0 =? 0x31 then 2 else 1)) ->
  match translate buf idx times ufd d slot with
  | None => (aget 0 buf off = 0 /\ aget 0 buf (off + 1) = 0) \/
            (aget 0 buf (off + 2) = 0 /\ aget 0 buf (off + 3) = 0)
  | Some (_, slot', evs) =>
      slot_ranges slot' /\ 0 <= battery slot' <= 100 /\
      if 0 <=? ufd then
        Forall event_declared evs /\
        exists l, evs = l ++ [mk_event EV_SYN SYN_REPORT 0] /\
          has_code EV_SYN SYN_REPORT l = false /\
          has_code EV_ABS ABS_Z l = negb (has_code EV_KEY BTN_TL2 l) /\
          has_code EV_ABS ABS_RZ l = negb (has_code EV_KEY BTN_TR2 l)
      else evs = []
  end.
Proof.
  intros Hb translate off Htr.
  assert (forall lt b1 b2 b3 bat g s, 0 <= bat <= 100 ->
    -32768 <= LX s <= 32767 /\ -32768 <= LY s <= 32767 /\
    -32768 <= RX s <= 32767 /\ -32768 <= RY s <= 32767 ->
    let '(g', s', evs) := translate_rest buf lt b1 b2 b3 bat idx times ufd g s in
    slot_ranges s' /\ 0 <= battery s' <= 100 /\
      if 0 <=? ufd then
        Forall event_declared evs /\
        exists l, evs = l ++ [mk_event EV_SYN SYN_REPORT 0] /\
          has_code EV_SYN SYN_REPORT l = false /\
          has_code EV_ABS ABS_Z l = negb (has_code EV_KEY BTN_TL2 l) /\
          has_code EV_ABS ABS_RZ l = negb (has_code EV_KEY BTN_TR2 l)
      else evs = []) as Hrest.
  { intros lt b1 b2 b3 bat g s Hbat Hs.
    pose proof (translate_rest_spec buf lt b1 b2 b3 bat idx times ufd g s Hb Hs) as H.
    destruct (translate_rest buf lt b1 b2 b3 bat idx times ufd g s) as [[g' s'] evs].
    destruct H as (Hr & Hbt & Hev). split; [done|]. split; [by rewrite Hbt|].
    destruct (0 <=? ufd); [|done]. destruct Hev as [st ->].
    split; [by apply frame_events_declared|].
    destruct (frame_events_shape s' st) as (l & ? & ? & HZ & HRZ & HL & HR).
    exists l. rewrite HZ, HRZ, HL, HR. auto. }
  destruct Htr as [[-> ->]|[-> ->]]; unfold translate_ds4, translate_dualsense;
    match goal with |- context [translate_sticks ?p ?b ?o ?a ?s] =>
      pose proof (translate_sticks_spec p b o a s Hb) as Hst;
      destruct (translate_sticks p b o a s) as [ax [s1|]] end; try exact Hst;
    cbn [snd] in Hst; unfold mbind, option_bind;
    match goal with |- context [translate_rest _ ?lt ?b1 ?b2 ?b3 ?bat _ _ _ ?g _] =>
      pose proof (Hrest lt b1 b2 b3 bat g s1) as H end.
  1: specialize (H (battery_ds4_range _) Hst). 2: specialize (H (battery_dualsense_range _) Hst).
  all: by destruct (translate_rest _ _ _ _ _ _ _ _ _ _ _) as [[g' s'] evs].
Qed.

Example translate_frames_declared_witness :
  match translate_ds4 (fun x _ => x) (repeat 128 64) 0 (fun _ => 0) 3
          (mk_drv axes_start g_phy_debounce_init) zero_controller with
  | Some (_, s, _) => 0 <= battery s <= 100
  | None => False
  end.
Proof.
  assert (byte_buf (repeat 128 64)) as Hb
    by (apply List.Forall_forall; intros v ->%repeat_spec; unfold is_u8; lia).
  pose proof (translate_frames_declared (fun x _ => x) (repeat 128 64) 0 (fun _ => 0) 3
    (mk_drv axes_start g_phy_debounce_init) zero_controller Hb
    (translate_ds4 (fun x _ => x)) 1 (or_introl (conj eq_refl eq_refl))) as H.
  destruct (translate_ds4 _ _ _ _ _ _ _) as [[[? s] ?]|]; [apply H|].
  destruct H as [[H _]|[H _]]; vm_compute in H; discriminate H.
Defined.

Lemma setup_uinput_spec kernel fuel user_dev index h r h' :
  setup_uinput_indexed kernel fuel user_dev index h = Some (r, h') ->
  (r = -1 /\ no_leak kernel h h') \/
  (0 <= r /\ r = (kernel h (SysOpen "/dev/uinput")).1 /\ opened kernel h' r = true /\
   opened_only kernel h h' r).
Proof.
  unfold setup_uinput_indexed. intros H. apply io_bind_inv in H as (fd & h1 & [= <- <-] & H).
  set (op := SysOpen "/dev/uinput") in *.
  destruct (Z.ltb_spec (kernel h op).1 0).
  { injection H as <- <-. left. split; [done|]. by apply open_failed_no_leak. }
  set (fd := (kernel h op).1) in *.
  assert (forall h2, fds_same kernel (op :: h) h2 -> opened kernel h2 fd = true) as Hop.
  { intros h2 ->. simpl. unfold fd. rewrite Z.eqb_refl.
    by destruct (Z.leb_spec 0 (kernel h op).1); [|lia]. }
  assert (forall h2 r h3, fds_same kernel (op :: h) h2 ->
    (_ ← sys_ kernel (SysClose fd); mret (-1) : io Z) h2 = Some (r, h3) ->
    r = -1 /\ no_leak kernel h h3) as Hclose.
  { intros h2 r2 h3 Hs [= <- <-]. split; [done|]. by apply open_close_no_leak. }
  apply io_bind_inv in H as (r1 & h2 & [= <- <-] & H).
  assert (fds_same kernel (op :: h) (SysIoctl fd "UI_SET_EVBIT" EV_KEY :: op :: h)) as F2 by done.
  destruct (_ <? 0); [left; by apply (Hclose _ _ _ F2)|].
  repeat match type of H with
  | (mbind _ (ioctl_each _ _ _ _) _ = _) =>
      apply io_bind_inv in H as (?u & ?h2 & ?Hi & H);
      apply ioctl_each_fds in Hi; pose proof (fds_same_trans _ _ _ _ F2 Hi); clear F2 Hi;
      rename select (fds_same _ (op :: h) _) into F2
  | (mbind _ (sys_ _ (SysIoctl _ "UI_P_SET_FF_EFFECTS" _)) _ = _) =>
      apply io_bind_inv in H as (?u & ?h2 & [= <- <-] & H);
      match type of H with _ ?hh = _ =>
        assert (fds_same kernel (op :: h) hh) by (intros ?; rewrite <- F2; done) end;
      clear F2; rename select (fds_same _ (op :: h) _) into F2
  end.
  apply io_bind_inv in H as (w & hA & Hw & H). apply safe_write_fds in Hw.
  pose proof (fds_same_trans _ _ _ _ F2 Hw) as F3.
  destruct (negb _); [left; by apply (Hclose _ _ _ F3)|].
  apply io_bind_inv in H as (r2 & hB & [= <- <-] & H).
  assert (fds_same kernel (op :: h) (SysIoctl fd "UI_DEV_CREATE" 0 :: hA)) as F4
    by (intros ?; rewrite <- F3; done).
  destruct (_ <? 0); [left; by apply (Hclose _ _ _ F4)|].
  apply io_bind_inv in H as (w2 & hC & Hw2 & [= <- <-]). apply safe_write_fds in Hw2.
  pose proof (fds_same_trans _ _ _ _ F4 Hw2) as F5.
  right. split; [done|]. split; [done|]. split; [by apply Hop | by apply open_opened_only].
Qed.

#[export] Instance setup_uinput_opener kernel fuel user_dev index :
  DeviceOpener kernel (setup_uinput_indexed kernel fuel user_dev index).
Proof.
  intros h r h' H. destruct (setup_uinput_spec _ _ _ _ _ _ _ H) as [?|(? & _ & ? & ?)]; auto.
Qed.

(** [setup_uinput_indexed] fails closed: it returns -1 or a descriptor from
    a successful open, and when it returns -1 no descriptor opened by it stays
    open. *)
Theorem setup_uinput_fails_closed kernel fuel user_dev index h r h' :
  setup_uinput_indexed kernel fuel user_dev index h = Some (r, h') ->
  (r = -1 /\ no_leak kernel h h') \/
  (0 <= r /\ r = (kernel h (SysOpen "/dev/uinput")).1 /\ opened kernel h' r = true /\
   opened_only kernel h h' r).
Proof. apply setup_uinput_spec. Qed.

Example setup_uinput_fails_closed_witness :
  exists r h', setup_uinput_indexed good_kernel 9 (fun _ => [1; 2]) 0 [] = Some (r, h') /\
    opened good_kernel h' r = true.
Proof.
  destruct (setup_uinput_indexed good_kernel 9 (fun _ => [1; 2]) 0 []) as [[r h']|] eqn:E;
    [|exfalso; revert E; vm_compute; discriminate].
  exists r, h'. split; [done|].
  destruct (setup_uinput_fails_closed good_kernel 9 (fun _ => [1; 2]) 0 [] r h' E)
    as [[Hr _]|(_ & _ & H & _)]; [|exact H].
  exfalso. subst r. revert E. vm_compute. discriminate.
Defined.
