(* ===== verification/Uhid.v ===== *)
(** * UHID backend: [src/dstx/src/uhid.c]

    The HID report descriptor, the input report built from a slot, the events
    the kernel sends back, and the life cycle of the virtual device.  The bytes
    of [struct uhid_event] are the kernel header's layout, a parameter. *)

From S2P Require Import Prelude Types Sys.
From Stdlib Require Import Btauto.

(** ** Events of <linux/uhid.h> *)
Inductive uhid_event :=
| UHID_CREATE2 (name phys uniq_ : string) (vendor product version country : Z) (rd_data : list Z)
| UHID_DESTROY
| UHID_START
| UHID_STOP
| UHID_OPEN
| UHID_CLOSE
| UHID_OUTPUT (size : Z) (data : list Z)
| UHID_GET_REPORT (id : Z)
| UHID_GET_REPORT_REPLY (id err size : Z)
| UHID_SET_REPORT (id rtype size : Z) (data : list Z)
| UHID_SET_REPORT_REPLY (id err : Z)
| UHID_INPUT2 (data : list Z)
| UHID_UNHANDLED (type : Z).

(** [enum uhid_report_type]. *)
Definition UHID_FEATURE_REPORT : Z := 0.
Definition UHID_OUTPUT_REPORT : Z := 1.
Definition UHID_INPUT_REPORT : Z := 2.

(** ** Report descriptor *)

Definition custom_descriptor : list Z :=
  [
    0x05; 0x01; 0x09; 0x05; 0xA1; 0x01; 0x85; 0x01; 0x05; 0x09; 0x19; 0x01;
    0x29; 0x0F; 0x15; 0x00; 0x25; 0x01; 0x75; 0x01; 0x95; 0x0F; 0x81; 0x02;
    0x75; 0x01; 0x95; 0x01; 0x81; 0x03; 0x05; 0x01; 0x09; 0x39; 0x15; 0x00;
    0x25; 0x07; 0x35; 0x00; 0x46; 0x3B; 0x01; 0x65; 0x14; 0x75; 0x08;
    0x95; 0x01; 0x81; 0x42; 0x05; 0x01; 0x09; 0x30; 0x15; 0x00; 0x26; 0xFF; 0x00;
    0x75; 0x08; 0x95; 0x01; 0x81; 0x02; 0x09; 0x31; 0x15; 0x00; 0x26; 0xFF; 0x00;
    0x75; 0x08; 0x95; 0x01; 0x81; 0x02; 0x05; 0x01; 0x09; 0x00; 0x15; 0x00;
    0x26; 0xFF; 0x00; 0x75; 0x08; 0x95; 0x01; 0x81; 0x03; 0x05; 0x01;
    0x09; 0x00; 0x15; 0x00; 0x26; 0xFF; 0x00; 0x75; 0x08; 0x95; 0x01;
    0x81; 0x03; 0x09; 0x33; 0x15; 0x00; 0x26; 0xFF; 0x00; 0x75; 0x08;
    0x95; 0x01; 0x81; 0x02; 0x09; 0x34; 0x15; 0x00; 0x26; 0xFF; 0x00;
    0x75; 0x08; 0x95; 0x01; 0x81; 0x02; 0x05; 0x01; 0x09; 0x00; 0x15; 0x00;
    0x26; 0xFF; 0x00; 0x75; 0x08; 0x95; 0x01; 0x81; 0x03; 0x05; 0x01;
    0x09; 0x32; 0x15; 0x00; 0x26; 0xFF; 0x00; 0x75; 0x08; 0x95; 0x01;
    0x81; 0x02; 0x09; 0x35; 0x15; 0x00; 0x26; 0xFF; 0x00; 0x75; 0x08;
    0x95; 0x01; 0x81; 0x02; 0x05; 0x0F; 0x09; 0x21; 0xA1; 0x02; 0x75; 0x08;
    0x95; 0x04; 0x46; 0xFF; 0x00; 0x26; 0xFF; 0x00; 0x09; 0x26; 0x91; 0x02;
    0xC0; 0xC0
  ].

(** The new buffer and the size written, 0 when it does not fit. *)
Definition uhid_build_report_descriptor (buf : list Z) (buf_size : Z) : list Z * Z :=
  let n := Z.of_nat (length custom_descriptor) in
  if n <=? buf_size
  then (custom_descriptor ++ drop (length custom_descriptor) buf, n)
  else (buf, 0).

(** ** Rumble requests from the host *)

(** The store shared by output and set-report: the gain applied to both bytes. *)
Definition uhid_store_rumble (data : list Z) (slot : controller_t) : controller_t :=
  let gain := rumble_gain slot in
  slot {{ rumble_strong := u8 (aget 0 data 1 * gain / 100);
          rumble_weak := u8 (aget 0 data 2 * gain / 100);
          rumble_dirty := true }}.

Definition uhid_handle_output (ev : uhid_event) (slot : controller_t) : controller_t :=
  match ev with
  | UHID_OUTPUT size data => if 3 <=? size then uhid_store_rumble data slot else slot
  | _ => slot
  end.

(** ** Input report *)

Definition uhid_buttons (slot : controller_t) : Z :=
  let set (b : Z) n (acc : Z) := if truthy b then Z.lor acc (Z.shiftl 1 n) else acc in
  let buttons :=
    set (R3 slot) 14 (set (L3 slot) 13 (set (PS slot) 12 (set (Options slot) 11
      (set (Share slot) 10 (set (R1 slot) 7 (set (L1 slot) 6 (set (square slot) 3
        (set (triangle slot) 4 (set (circle slot) 1 (set (cross slot) 0 0)))))))))) in
  if is_trigger_digital slot then set (R2 slot) 9 (set (L2 slot) 8 buttons) else buttons.

Definition uhid_dpad (slot : controller_t) : Z :=
  let hat y x := (HATY slot =? y) && (HATX slot =? x) in
  if hat (-1) 0 then 0 else if hat (-1) 1 then 1 else if hat 0 1 then 2 else if hat 1 1 then 3
  else if hat 1 0 then 4 else if hat 1 (-1) then 5 else if hat 0 (-1) then 6
  else if hat (-1) (-1) then 7 else 8.

(** [None] is a store past the end of [buf], whose length is [buf_size]. *)
Definition uhid_build_input_report (slot : controller_t) (buf : list Z) : option (list Z * Z) :=
  if (length buf <? 12)%nat then Some (buf, 0)
  else
    let buttons := uhid_buttons slot in
    let buf := repeat 0 12 ++ drop 12 buf in
    let buf := aset buf 0 1 in
    let buf := aset (aset buf 1 (Z.land buttons 0xFF)) 2 (Z.land (Z.shiftr buttons 8) 0xFF) in
    let buf := aset buf 3 (uhid_dpad slot) in
    let buf := aset (aset buf 4 (u8 (Z.shiftr (LX slot + 32768) 8)))
                 5 (u8 (Z.shiftr (LY slot + 32768) 8)) in
    let buf := aset (aset buf 8 (u8 (Z.shiftr (RX slot + 32768) 8)))
                 9 (u8 (Z.shiftr (RY slot + 32768) 8)) in
    if negb (is_trigger_digital slot) then
      let buf := aset buf 11 (u8 (get_trigger_axis_value slot true)) in
      if (12 <? length buf)%nat
      then Some (aset buf 12 (u8 (get_trigger_axis_value slot false)), 13)
      else None
    else Some (buf, 13).

(** ** Device life cycle and event loop *)

Section uhid.
Context (kernel : kernel_t) (fuel : nat).
(** The bytes of an event, as the kernel header lays the structure out. *)
Context (uhid_bytes : uhid_event -> list Z).
(** What the k-th read of the descriptor returns: an event, or nothing. *)
Context (reads : Z -> list sysop -> option uhid_event).
(** [snprintf] of the device strings. *)
Context (fmt_name fmt_phys : Z -> string) (fmt_uniq : Z -> Z -> string) (time_now : Z).

Definition uhid_write_event (fd : Z) (ev : uhid_event) : io Z :=
  r ← safe_write kernel fuel fd (uhid_bytes ev);
  mret (if negb (r =? Z.of_nat (length (uhid_bytes ev))) then -1 else 0).

Definition uhid_read_event (fd : Z) : io (option uhid_event) :=
  fun h => Some (reads fd h, SysRead fd :: h).

Definition uhid_handle_get_report (id fd : Z) : io unit :=
  _ ← uhid_write_event fd (UHID_GET_REPORT_REPLY id 0 0); mret tt.

Definition uhid_handle_set_report (id rtype size : Z) (data : list Z) (slot : controller_t)
  (fd : Z) : io controller_t :=
  let slot := if (3 <=? size) && (rtype =? 2) then uhid_store_rumble data slot else slot in
  _ ← uhid_write_event fd (UHID_SET_REPORT_REPLY id 0); mret slot.

Definition uhid_version (slot : option controller_t) : Z :=
  match slot with
  | Some s => match ctype s with
              | TYPE_DS4 => 0x0101 | TYPE_DUALSENSE => 0x0102 | TYPE_NSW_PRO => 0x0103
              end
  | None => 0x0100
  end.

Definition uhid_create (slot : option controller_t) (index : Z) : io Z :=
  fd ← sys_ kernel (SysOpen "/dev/uhid");
  if fd <? 0 then mret (-1)
  else
    let (rd, rd_size) := uhid_build_report_descriptor (repeat 0 4096) 4096 in
    if rd_size =? 0 then _ ← sys_ kernel (SysClose fd); mret (-1)
    else
      w ← uhid_write_event fd
            (UHID_CREATE2 (fmt_name (index + 1)) (fmt_phys index) (fmt_uniq index time_now)
               0x045e (0x0300 + index) (uhid_version slot) 0 (take (Z.to_nat rd_size) rd));
      if w <? 0 then _ ← sys_ kernel (SysClose fd); mret (-1)
      else
        ret ← sys_ kernel (SysPoll fd 3000);
        started ← (if 0 <? ret then
                     ev ← uhid_read_event fd;
                     mret (match ev with Some UHID_START => true | _ => false end)
                   else mret false);
        if started : bool then mret fd
        else _ ← sys_ kernel (SysClose fd); mret (-1).

Definition uhid_destroy (fd : Z) : io unit :=
  if fd <? 0 then mret tt
  else
    _ ← uhid_write_event fd UHID_DESTROY;
    _ ← sys_ kernel (SysClose fd); mret tt.

(** One event of the loop. *)
Definition uhid_handle_event (fd : Z) (ev : uhid_event) (slot : controller_t) : io controller_t :=
  match ev with
  | UHID_OUTPUT _ _ => mret (uhid_handle_output ev slot)
  | UHID_GET_REPORT id => _ ← uhid_handle_get_report id fd; mret slot
  | UHID_SET_REPORT id rtype size data => uhid_handle_set_report id rtype size data slot fd
  | _ => mret slot
  end.

(** The loop: [n] bounds the number of events read. *)
Fixpoint uhid_handle_events (n : nat) (fd : Z) (slot : controller_t) : io controller_t :=
  match n with
  | O => fun _ => None
  | S n =>
      ev ← uhid_read_event fd;
      match ev with
      | None => mret slot
      | Some ev => slot' ← uhid_handle_event fd ev slot; uhid_handle_events n fd slot'
      end
  end.

Definition uhid_send_input (fd : Z) (data : list Z) : io Z :=
  if (fd <? 0) || (length data =? 0)%nat || (64 <? length data)%nat then mret (-1)
  else
    r ← uhid_write_event fd (UHID_INPUT2 data);
    mret (if r <? 0 then -1 else 0).
End uhid.

(** * Specification: the fields a descriptor declares

    A HID parser for short items, enough to give every declared field its usage
    page, usages, bit offset, bit size, count and flags. *)
Record hid_field := mk_field {
  f_page : Z; f_usages : list Z; f_off : Z; f_size : Z; f_count : Z; f_flags : Z }.
Record hid_state := mk_hid {
  h_page : Z; h_size : Z; h_count : Z; h_usages : list Z; h_umin : Z;
  h_id : Z; h_in : Z; h_out : Z; h_depth : Z;
  h_inputs : list hid_field; h_outputs : list hid_field }.
Definition hid_init : hid_state := mk_hid 0 0 0 [] 0 0 0 0 0 [] [].

Definition item_size (prefix : Z) : nat :=
  match Z.land prefix 3 with 1 => 1 | 2 => 2 | 3 => 4 | _ => 0 end.

Definition range (a b : Z) : list Z := map (fun i => a + Z.of_nat i) (seq 0 (Z.to_nat (b - a + 1))).

(** One item: the prefix without its size bits, and its data. *)
Definition hid_item (tag v : Z) (s : hid_state) : hid_state :=
  let '(mk_hid p sz c us um id i o d ins outs) := s in
  let field off := mk_field p us off sz c v in
  match tag with
  | 0x04 => mk_hid v sz c us um id i o d ins outs          (* usage page *)
  | 0x08 => mk_hid p sz c (us ++ [v]) um id i o d ins outs (* usage *)
  | 0x18 => mk_hid p sz c us v id i o d ins outs           (* usage minimum *)
  | 0x28 => mk_hid p sz c (us ++ range um v) um id i o d ins outs (* usage maximum *)
  | 0x74 => mk_hid p v c us um id i o d ins outs           (* report size *)
  | 0x84 => mk_hid p sz c us um v i o d ins outs           (* report id *)
  | 0x94 => mk_hid p sz v us um id i o d ins outs          (* report count *)
  | 0x80 => mk_hid p sz c [] 0 id (i + sz * c) o d (ins ++ [field i]) outs
  | 0x90 => mk_hid p sz c [] 0 id i (o + sz * c) d ins (outs ++ [field o])
  | 0xA0 => mk_hid p sz c [] 0 id i o (d + 1) ins outs     (* collection *)
  | 0xC0 => mk_hid p sz c [] 0 id i o (d - 1) ins outs     (* end collection *)
  | _ => s
  end.

Fixpoint hid_parse (fuel : nat) (l : list Z) (s : hid_state) : option hid_state :=
  match l, fuel with
  | [], _ => Some s
  | _, O => None
  | b :: l, S fuel =>
      let n := item_size b in
      if (length l <? n)%nat then None
      else hid_parse fuel (drop n l) (hid_item (Z.land b 0xFC) (le_value (take n l)) s)
  end.

Definition parsed : option hid_state :=
  hid_parse (length custom_descriptor) custom_descriptor hid_init.

(** Bit offset of a usage among the input fields: the k-th usage of a field of
    single-bit reports is its k-th bit. *)
Fixpoint index_of (u : Z) (l : list Z) (k : Z) : option Z :=
  match l with [] => None | x :: l => if x =? u then Some k else index_of u l (k + 1) end.
Fixpoint usage_offset (page u : Z) (l : list hid_field) : option (Z * Z) :=
  match l with
  | [] => None
  | f :: l =>
      if negb (f_page f =? page) then usage_offset page u l
      else match index_of u (f_usages f) 0 with
           | Some k => Some (f_off f + k * f_size f, f_size f)
           | None => usage_offset page u l
           end
  end.

(** The value of an 8-bit field and of a one-bit field in a report whose first
    byte is the report id. *)
Definition axis_of (page u : Z) (rep : list Z) : option Z :=
  s ← parsed;
  '(off, size) ← usage_offset page u (h_inputs s);
  if (size =? 8) && (off mod 8 =? 0) then Some (aget 0 rep (1 + off / 8)) else None.
Definition button_of (n : Z) (rep : list Z) : option bool :=
  s ← parsed;
  '(off, size) ← usage_offset 9 n (h_inputs s);
  if size =? 1 then Some (bit (aget 0 rep (1 + off / 8)) (off mod 8)) else None.

(** Hat positions 0 to 7 clockwise from up; 8 is the null position. *)
Definition hat_of (v : Z) : Z * Z :=
  match v with
  | 0 => (0, -1) | 1 => (1, -1) | 2 => (1, 0) | 3 => (1, 1)
  | 4 => (0, 1) | 5 => (-1, 1) | 6 => (-1, 0) | 7 => (-1, -1)
  | _ => (0, 0)
  end.

(** The button numbers of the report and the slot members behind them. *)
Definition uhid_button_table (s : controller_t) : list (Z * Z) :=
  [(1, cross s); (2, circle s); (4, square s); (5, triangle s); (7, L1 s); (8, R1 s);
   (11, Share s); (12, Options s); (13, PS s); (14, L3 s); (15, R3 s)].

(** * Lemmas *)

Lemma hat_roundtrip s :
  -1 <= HATX s <= 1 -> -1 <= HATY s <= 1 ->
  hat_of (uhid_dpad s) = (HATX s, HATY s) /\ 0 <= uhid_dpad s <= 8.
Proof.
  intros Hx Hy. unfold uhid_dpad.
  assert (HATX s = -1 \/ HATX s = 0 \/ HATX s = 1) as [-> | [-> | ->]] by lia;
  assert (HATY s = -1 \/ HATY s = 0 \/ HATY s = 1) as [-> | [-> | ->]] by lia;
  simpl; split; (reflexivity || lia).
Qed.

Lemma testbit_set b acc n m :
  0 <= n -> 0 <= m ->
  Z.testbit (if truthy b then Z.lor acc (Z.shiftl 1 n) else acc) m =
  Z.testbit acc m || (truthy b && (n =? m)).
Proof.
  intros. destruct (truthy b); [|by rewrite orb_false_r]. simpl.
  rewrite Z.lor_spec, Z.shiftl_1_l, Z.pow2_bits_eqb by done. done.
Qed.

(** The bits of the button word. *)
Lemma uhid_buttons_bit s m :
  0 <= m ->
  Z.testbit (uhid_buttons s) m =
  existsb (fun p => (p.1 - 1 =? m) && truthy p.2)
    (uhid_button_table s ++
     if is_trigger_digital s then [(9, L2 s); (10, R2 s)] else []).
Proof.
  intros Hm. unfold uhid_buttons. cbv zeta.
  destruct (is_trigger_digital s); rewrite !testbit_set, Z.bits_0 by lia; simpl;
    rewrite !orb_false_r;
    repeat match goal with |- context [truthy ?v && ?e] =>
      rewrite (andb_comm (truthy v) e) end; rewrite !orb_assoc;
    destruct m as [|m|m]; try lia; simpl;
    do 4 (try destruct m as [m|m|]; simpl); btauto.
Qed.

(** The report as a function of the bytes after the fixed twelve. *)
Definition report_bytes (s : controller_t) : list Z :=
  [1; Z.land (uhid_buttons s) 0xFF; Z.land (Z.shiftr (uhid_buttons s) 8) 0xFF; uhid_dpad s;
   u8 (Z.shiftr (LX s + 32768) 8); u8 (Z.shiftr (LY s + 32768) 8); 0; 0;
   u8 (Z.shiftr (RX s + 32768) 8); u8 (Z.shiftr (RY s + 32768) 8); 0;
   if is_trigger_digital s then 0 else u8 (get_trigger_axis_value s true)].

Lemma uhid_build_spec s buf :
  (13 <= length buf)%nat ->
  uhid_build_input_report s buf =
  Some (report_bytes s ++
        (if is_trigger_digital s then aget 0 buf 12 else u8 (get_trigger_axis_value s false)) ::
        drop 13 buf, 13).
Proof.
  intros Hl. do 13 (destruct buf as [|? buf]; [simpl in Hl; lia|]).
  unfold uhid_build_input_report, report_bytes.
  destruct (Nat.ltb_spec (length (z :: z0 :: z1 :: z2 :: z3 :: z4 :: z5 :: z6 :: z7 :: z8 :: z9 :: z10 :: z11 :: buf)) 12);
    [simpl in *; lia|].
  destruct (is_trigger_digital s); reflexivity.
Qed.

Lemma uhid_build_12 s buf :
  length buf = 12%nat -> is_trigger_digital s = false -> uhid_build_input_report s buf = None.
Proof.
  intros Hl Hd. do 12 (destruct buf as [|? buf]; [discriminate Hl|]).
  destruct buf; [|discriminate Hl]. unfold uhid_build_input_report. by rewrite Hd.
Qed.

Lemma shift_stick v : -32768 <= v <= 32767 -> u8 (Z.shiftr (v + 32768) 8) = (v + 32768) / 256.
Proof.
  intros Hv. rewrite Z.shiftr_div_pow2 by lia. change (2 ^ 8) with 256.
  apply u8_small. split; [apply Z.div_pos; lia | apply Z.div_lt_upper_bound; lia].
Qed.

Lemma low_byte_bit w m : 0 <= m < 8 -> bit (Z.land w 0xFF) m = Z.testbit w m.
Proof.
  intros Hm. unfold bit. rewrite Z.land_spec. change 255 with (Z.ones 8).
  rewrite Z.ones_spec_low by lia. apply andb_true_r.
Qed.
Lemma high_byte_bit w m : 0 <= m < 8 -> bit (Z.land (Z.shiftr w 8) 0xFF) m = Z.testbit w (m + 8).
Proof. intros Hm. rewrite low_byte_bit by done. by rewrite Z.shiftr_spec by lia. Qed.

Lemma button_of_spec s n buf :
  1 <= n <= 15 ->
  button_of n (report_bytes s ++ buf) = Some (Z.testbit (uhid_buttons s) (n - 1)).
Proof.
  intros Hn. assert (n = 1 \/ n = 2 \/ n = 3 \/ n = 4 \/ n = 5 \/ n = 6 \/ n = 7 \/ n = 8 \/
    n = 9 \/ n = 10 \/ n = 11 \/ n = 12 \/ n = 13 \/ n = 14 \/ n = 15) as Hc by lia.
  unfold report_bytes.
  repeat destruct Hc as [-> | Hc]; [..|subst n];
    match goal with |- _ = Some (Z.testbit ?w ?m) =>
      let v := eval vm_compute in m in change m with v;
      first [ transitivity (Some (bit (Z.land w 0xFF) v)); [reflexivity | by rewrite low_byte_bit]
            | let k := eval vm_compute in (v - 8) in
              transitivity (Some (bit (Z.land (Z.shiftr w 8) 0xFF) k));
              [reflexivity | by rewrite high_byte_bit] ]
    end.
Qed.

(** A rumble store keeps every other member. *)
Definition only_rumble (s s' : controller_t) : Prop :=
  s' = s {{ rumble_strong := rumble_strong s'; rumble_weak := rumble_weak s';
            rumble_dirty := rumble_dirty s' }}.
Lemma only_rumble_refl s : only_rumble s s.
Proof. reflexivity. Qed.
Lemma only_rumble_store d s : only_rumble s (uhid_store_rumble d s).
Proof. reflexivity. Qed.
Lemma only_rumble_trans a b c : only_rumble a b -> only_rumble b c -> only_rumble a c.
Proof. unfold only_rumble. intros H1 H2. rewrite H2, H1. reflexivity. Qed.

Lemma uhid_handle_event_spec kernel fuel ub fd ev s h s' h' :
  uhid_handle_event kernel fuel ub fd ev s h = Some (s', h') ->
  s' = (match ev with
        | UHID_OUTPUT size data => if 3 <=? size then uhid_store_rumble data s else s
        | UHID_SET_REPORT _ rtype size data =>
            if (3 <=? size) && (rtype =? UHID_INPUT_REPORT) then uhid_store_rumble data s else s
        | _ => s
        end) /\ fds_same kernel h h'.
Proof.
  assert (forall ev' h1 w h2, uhid_write_event kernel fuel ub fd ev' h1 = Some (w, h2) ->
    fds_same kernel h1 h2) as Hw.
  { intros ev' h1 w h2 H. apply io_bind_inv in H as (r & h3 & H & [= <- <-]).
    by apply safe_write_fds in H. }
  destruct ev; simpl; try (by intros [= <- <-]).
  - unfold uhid_handle_get_report. intros H.
    apply io_bind_inv in H as (u & h1 & H & [= <- <-]).
    apply io_bind_inv in H as (w & h2 & H & [= <-]). split; [done|]. subst. by eapply Hw.
  - unfold uhid_handle_set_report. intros H.
    apply io_bind_inv in H as (w & h2 & H & [= <- <-]). split; [done|]. by eapply Hw.
Qed.

Lemma uhid_handle_events_spec kernel fuel ub reads n fd s h s' h' :
  uhid_handle_events kernel fuel ub reads n fd s h = Some (s', h') ->
  only_rumble s s' /\ fds_same kernel h h'.
Proof.
  revert s h. induction n as [|n IH]; intros s h; simpl; [done|].
  intros H. apply io_bind_inv in H as (ev & h1 & [= <- <-] & H).
  destruct (reads fd h) as [ev|]; [|by injection H as <- <-].
  apply io_bind_inv in H as (s1 & h2 & He & H).
  apply uhid_handle_event_spec in He as [He Hf]. destruct (IH _ _ H) as [I1 I2]. split.
  - eapply only_rumble_trans; [|exact I1]. rewrite He.
    destruct ev; try apply only_rumble_refl; bcase;
      first [apply only_rumble_store | apply only_rumble_refl].
  - eapply fds_same_trans; [|exact I2]. intros fd'. rewrite (Hf fd'). reflexivity.
Qed.

(** * Properties *)

(** C4: the input report matches the descriptor sent to the kernel: the
    descriptor parses with balanced collections into a 12-byte input report
    under id 1 and a 4-byte output report; for every slot with 16-bit sticks
    and a buffer of at least 13 bytes the builder fills 13 bytes starting with
    that id, in which the declared X, Y, Rx, Ry fields hold the high byte of the
    sticks, each declared button its member (the triggers only in digital mode,
    buttons 3 and 6 never), the hat the direction, and in analog mode the
    declared Z and Rz fields the trigger values. *)
Theorem uhid_report_matches_descriptor s buf :
  (13 <= length buf)%nat ->
  Forall (fun v => -32768 <= v <= 32767) [LX s; LY s; RX s; RY s] ->
  -1 <= HATX s <= 1 -> -1 <= HATY s <= 1 -> LT s <= 255 -> RT s <= 255 ->
  (exists st, parsed = Some st /\ h_depth st = 0 /\ h_in st = 8 * 12 /\ h_out st = 8 * 4 /\
     h_id st = 1) /\
  exists rep, uhid_build_input_report s buf = Some (rep, 13) /\ length rep = length buf /\
    aget 0 rep 0 = 1 /\
    axis_of 1 0x30 rep = Some ((LX s + 32768) / 256) /\
    axis_of 1 0x31 rep = Some ((LY s + 32768) / 256) /\
    axis_of 1 0x33 rep = Some ((RX s + 32768) / 256) /\
    axis_of 1 0x34 rep = Some ((RY s + 32768) / 256) /\
    option_map hat_of (axis_of 1 0x39 rep) = Some (HATX s, HATY s) /\
    (forall n, 1 <= n <= 15 -> button_of n rep =
       Some (existsb (fun p => (p.1 =? n) && truthy p.2)
         (uhid_button_table s ++ if is_trigger_digital s then [(9, L2 s); (10, R2 s)] else []))) /\
    (is_trigger_digital s = false ->
       axis_of 1 0x32 rep = Some (get_trigger_axis_value s true) /\
       axis_of 1 0x35 rep = Some (get_trigger_axis_value s false)).
Proof.
  intros Hl Hst Hx Hy HLT HRT. split; [eexists; split; [vm_compute; reflexivity|]; done|].
  repeat match goal with H : Forall _ (_ :: _) |- _ => apply Forall_cons in H as [? H] end.
  rewrite uhid_build_spec by done. eexists. split; [reflexivity|].
  split; [rewrite length_app; cbn [length]; rewrite length_drop; simpl; lia|].
  split; [reflexivity|].
  split; [rewrite <- shift_stick by done; reflexivity|].
  split; [rewrite <- shift_stick by done; reflexivity|].
  split; [rewrite <- shift_stick by done; reflexivity|].
  split; [rewrite <- shift_stick by done; reflexivity|].
  split; [rewrite <- (proj1 (hat_roundtrip s Hx Hy)); reflexivity|].
  split.
  - intros n Hn. rewrite button_of_spec, uhid_buttons_bit by lia. f_equal.
    apply existsb_ext_f. intros [k v]. cbn [fst snd].
    destruct (Z.eqb_spec (k - 1) (n - 1)), (Z.eqb_spec k n); (done || lia).
  - intros Hd. rewrite Hd. unfold report_bytes. rewrite Hd.
    pose proof (get_trigger_axis_value_range s true HLT HRT).
    pose proof (get_trigger_axis_value_range s false HLT HRT).
    rewrite (u8_small (get_trigger_axis_value s true)),
      (u8_small (get_trigger_axis_value s false)) by lia. split; reflexivity.
Qed.

Example uhid_report_matches_descriptor_witness :
  exists rep, uhid_build_input_report (zero_controller {{ R2 := 1; LX := 256 }}) (repeat 0 64) =
    Some (rep, 13) /\ axis_of 1 0x30 rep = Some 129.
Proof.
  destruct (uhid_report_matches_descriptor (zero_controller {{ R2 := 1; LX := 256 }}) (repeat 0 64))
    as [_ (rep & H & _ & _ & HX & _)];
    [simpl; lia | forall_list; vm_compute; split; discriminate | vm_compute; split; discriminate
     | vm_compute; split; discriminate | vm_compute; discriminate | vm_compute; discriminate |].
  exists rep. split; [exact H | exact HX].
Defined.

(** The builder's size check is one byte short: with a 12-byte buffer, which
    it accepts, it stores past the end in analog mode; and in digital mode the
    thirteenth byte of the report it returns, the declared Rz axis, is whatever
    the buffer held, not 0. *)
Theorem uhid_report_byte_12 s buf b :
  (is_trigger_digital s = false -> length buf = 12%nat -> uhid_build_input_report s buf = None) /\
  (is_trigger_digital s = true ->
   exists rep, uhid_build_input_report s (aset (buf ++ repeat 0%Z 13) 12%Z b) = Some (rep, 13) /\
     axis_of 1 0x35 rep = Some b).
Proof.
  split; [intros; by apply uhid_build_12|]. intros Hd.
  assert (13 <= length (aset (buf ++ repeat 0%Z 13) 12%Z b))%nat as Hl
    by (rewrite length_aset, length_app, repeat_length; lia).
  rewrite uhid_build_spec by done. eexists. split; [reflexivity|]. rewrite Hd.
  rewrite aget_aset_eq; [reflexivity|]. rewrite length_app, repeat_length. lia.
Qed.

Example uhid_report_byte_12_witness :
  uhid_build_input_report zero_controller (repeat 7 12) = None.
Proof. by apply (uhid_report_byte_12 zero_controller (repeat 7 12) 0). Defined.

(** Whatever events the host sends, the event loop changes nothing of the
    slot but the rumble bytes and their dirty flag and leaves no descriptor
    open or closed; and a SET_REPORT of an output report, the type of the
    descriptor's rumble report, is answered without touching the rumble (only
    the input type is acted on). *)
Theorem uhid_events_touch_rumble_only kernel fuel ub reads n fd s h s' h' :
  uhid_handle_events kernel fuel ub reads n fd s h = Some (s', h') ->
  only_rumble s s' /\ fds_same kernel h h' /\
  (forall id size data h1 s1 h2,
     uhid_handle_event kernel fuel ub fd (UHID_SET_REPORT id UHID_OUTPUT_REPORT size data) s h1
     = Some (s1, h2) -> s1 = s).
Proof.
  intros H. destruct (uhid_handle_events_spec _ _ _ _ _ _ _ _ _ _ H) as [H1 H2].
  split; [done|]. split; [done|]. intros id size data h1 s1 h2 He.
  apply uhid_handle_event_spec in He as [He _].
  change (UHID_OUTPUT_REPORT =? UHID_INPUT_REPORT) with false in He. by rewrite andb_false_r in He.
Qed.

Example uhid_events_touch_rumble_only_witness :
  exists p, uhid_handle_events slow_kernel 9 (fun _ => [0])
      (fun _ h => if (length h <? 1)%nat then Some (UHID_OUTPUT 3 [0; 200; 100]) else None)
      5 3 (zero_controller {{ rumble_gain := 50 }}) [] = Some p /\
    only_rumble (zero_controller {{ rumble_gain := 50 }}) p.1 /\ rumble_strong p.1 = 100.
Proof.
  set (reads := fun (_ : Z) (h : list sysop) =>
    if (length h <? 1)%nat then Some (UHID_OUTPUT 3 [0; 200; 100]) else None).
  set (s := zero_controller {{ rumble_gain := 50 }}).
  assert (exists p, uhid_handle_events slow_kernel 9 (fun _ => [0]) reads 5 3 s [] = Some p /\
    rumble_strong p.1 = 100) as ([s' h'] & E & R)
    by (eexists; split; [vm_compute; reflexivity | reflexivity]).
  exists (s', h'). split; [exact E|]. split; [|exact R].
  exact (proj1 (uhid_events_touch_rumble_only slow_kernel 9 (fun _ => [0]) reads 5 3 s [] s' h' E)).
Defined.

Lemma uhid_create_spec kernel fuel ub reads fn fp fu tn slot index h r h' :
  uhid_create kernel fuel ub reads fn fp fu tn slot index h = Some (r, h') ->
  (r = -1 /\ no_leak kernel h h') \/
  (r = (kernel h (SysOpen "/dev/uhid")).1 /\ 0 <= r /\ opened kernel h' r = true /\ opened_only kernel h h' r /\
   exists h1, reads r h1 = Some UHID_START).
Proof.
  unfold uhid_create. intros H. apply io_bind_inv in H as (fd & h1 & [= <- <-] & H).
  set (op := SysOpen "/dev/uhid") in *.
  destruct (Z.ltb_spec (kernel h op).1 0).
  { injection H as <- <-. left. split; [done|]. by apply open_failed_no_leak. }
  set (fd := (kernel h op).1) in *.
  assert (forall h2 r h3, fds_same kernel (op :: h) h2 ->
    (_ ← sys_ kernel (SysClose fd); mret (-1) : io Z) h2 = Some (r, h3) ->
    r = -1 /\ no_leak kernel h h3) as Hclose.
  { intros h2 r2 h3 Hs [= <- <-]. split; [done|]. by apply open_close_no_leak. }
  change (uhid_build_report_descriptor (repeat 0 4096) 4096)
    with (custom_descriptor ++ drop (length custom_descriptor) (repeat 0 4096),
          Z.of_nat (length custom_descriptor)) in H. cbv iota beta in H.
  change (Z.of_nat (length custom_descriptor) =? 0) with false in H. cbv iota in H.
  apply io_bind_inv in H as (w & h2 & Hw & H).
  apply io_bind_inv in Hw as (r0 & h3 & Hw & [= <- <-]). apply safe_write_fds in Hw.
  destruct (_ <? 0) in H; [left; by apply (Hclose _ _ _ Hw)|].
  apply io_bind_inv in H as (p & h4 & [= <- <-] & H).
  apply io_bind_inv in H as (started & h5 & Hs & H).
  set (h6 := SysPoll fd 3000 :: h3) in *.
  assert (fds_same kernel (op :: h) h6) as F6 by (intros ?; rewrite <- Hw; done).
  destruct (0 <? _).
  - apply io_bind_inv in Hs as (ev & h7 & [= <- <-] & [= <- <-]).
    destruct (reads fd h6) as [[]|] eqn:Er; cbv iota in H;
      try (left; eapply (Hclose (SysRead fd :: h6)); [intros ?; rewrite <- F6; done | exact H]).
    injection H as <- <-. right. split; [done|]. split; [done|].
    split; [|split; [|by exists h6]];
      [|apply open_opened_only; intros ?; rewrite <- F6; done].
    change (opened kernel h6 fd = true). rewrite (F6 fd). simpl. unfold fd.
    rewrite Z.eqb_refl. by destruct (Z.leb_spec 0 (kernel h op).1); [|lia].
  - injection Hs as <- <-. left. by apply (Hclose _ _ _ F6).
Qed.

#[export] Instance uhid_create_opener kernel fuel ub reads fn fp fu tn slot index :
  DeviceOpener kernel (uhid_create kernel fuel ub reads fn fp fu tn slot index).
Proof.
  intros h r h' H. destruct (uhid_create_spec _ _ _ _ _ _ _ _ _ _ _ _ _ H) as [?|(_ & ? & ? & ? & _)]; auto.
Qed.

(** [uhid_create] returns -1 or the descriptor of a successful open of
    /dev/uhid whose START event was read; on -1 nothing it opened stays open. *)
Theorem uhid_create_fails_closed kernel fuel ub reads fn fp fu tn slot index h r h' :
  uhid_create kernel fuel ub reads fn fp fu tn slot index h = Some (r, h') ->
  (r = -1 /\ no_leak kernel h h') \/
  (r = (kernel h (SysOpen "/dev/uhid")).1 /\ 0 <= r /\ opened kernel h' r = true /\ opened_only kernel h h' r /\
   exists h1, reads r h1 = Some UHID_START).
Proof. apply uhid_create_spec. Qed.

Example uhid_create_fails_closed_witness :
  exists r h', uhid_create good_kernel 9 (fun _ => [1; 2]) (fun _ _ => Some UHID_START)
      (fun _ => EmptyString) (fun _ => EmptyString) (fun _ _ => EmptyString) 0 None 0 [] = Some (r, h') /\
    opened good_kernel h' r = true.
Proof.
  destruct (uhid_create good_kernel 9 (fun _ => [1; 2]) (fun _ _ => Some UHID_START)
      (fun _ => EmptyString) (fun _ => EmptyString) (fun _ _ => EmptyString) 0 None 0 [])
    as [[r h']|] eqn:E; [|exfalso; revert E; vm_compute; discriminate].
  exists r, h'. split; [done|].
  destruct (uhid_create_fails_closed good_kernel 9 _ _ _ _ _ _ _ _ _ r h' E)
    as [[Hr _]|(_ & _ & H & _)]; [|exact H].
  exfalso. subst r. revert E. vm_compute. discriminate.
Defined.
