(* ===== verification/Output.v ===== *)
(** * Output: [src/dstx/src/output.c]

    Output report builders, [send_output_report], force feedback upload and
    events, and the rumble and LED pipelines.  [crc32] (zlib) and [sin] (libm)
    are parameters.  The wall clock of a call is an argument. *)

From S2P Require Import Prelude Float Types Sys Drivers Uhid.

Definition DS4_USB_REPORT_SIZE : nat := 32.
Definition DS4_BT_REPORT_SIZE : nat := 78.
Definition DS_USB_REPORT_SIZE : nat := 48.
Definition DS_BT_REPORT_SIZE : nat := 78.
Definition EV_UINPUT : Z := 0x0101.
Definition UI_FF_UPLOAD : Z := 1.

Definition player_leds_to_byte (mode : Z) : Z :=
  if 5 <? mode then 0x00 else aget 0 [0x00; 0x04; 0x06; 0x15; 0x1B; 0x1F] mode.

Definition scale_led (value brightness : Z) : Z := u8 (value * brightness / 100).

Definition clamp_u8 (val min max def : Z) : Z :=
  if (val <? min) || (max <? val) then def else u8 val.

(** Stores into a report: offset and byte. *)
Definition put_bytes (l : list (Z * Z)) (report : list Z) : list Z :=
  fold_left (fun r p => aset r p.1 p.2) l report.

Section crc.
(** zlib's [crc32(crc, buf, len)] on the bytes of [buf]. *)
Context (crc32 : Z -> list Z -> Z).

(** The four CRC bytes over the 0xA2 header and the first 74 bytes. *)
Definition append_crc (report : list Z) : list Z :=
  let crc := crc32 0 [] in
  let crc := crc32 crc [0xA2] in
  let crc := crc32 crc (take 74 report) in
  take 74 report ++ le_bytes 4 (u32 crc) ++ drop 78 report.

Definition build_ds4_usb_report (slot : controller_t) : list Z :=
  put_bytes
    [(0, 0x05); (1, 0x07); (2, 0); (4, rumble_strong slot); (5, rumble_weak slot);
     (6, scale_led (led_r slot) (global_led_brightness slot));
     (7, scale_led (led_g slot) (global_led_brightness slot));
     (8, scale_led (led_b slot) (global_led_brightness slot)); (9, 0); (10, 0)]
    (repeat 0 DS4_USB_REPORT_SIZE).

Definition build_ds4_bt_report (slot : controller_t) : list Z :=
  append_crc
    (put_bytes
      [(0, 0x11); (1, 0x80); (3, 0x03); (6, rumble_weak slot); (7, rumble_strong slot);
       (8, scale_led (led_r slot) (global_led_brightness slot));
       (9, scale_led (led_g slot) (global_led_brightness slot));
       (10, scale_led (led_b slot) (global_led_brightness slot))]
      (repeat 0 DS4_BT_REPORT_SIZE)).

Definition build_dualsense_usb_report (slot : controller_t) : list Z :=
  put_bytes
    [(0, 0x02); (1, 0x13); (2, 0x17); (3, rumble_weak slot); (4, rumble_strong slot);
     (40, 0x02); (42, 0); (44, player_leds_to_byte (player_leds slot));
     (45, scale_led (led_r slot) (global_led_brightness slot));
     (46, scale_led (led_g slot) (global_led_brightness slot));
     (47, scale_led (led_b slot) (global_led_brightness slot))]
    (repeat 0 DS_USB_REPORT_SIZE).

Definition build_dualsense_bt_report (slot : controller_t) : list Z :=
  append_crc
    (put_bytes
      [(0, 0x31); (1, 0x02); (2, 0x13); (3, 0x17); (4, rumble_weak slot);
       (5, rumble_strong slot); (41, 0x02); (44, 0);
       (45, player_leds_to_byte (player_leds slot));
       (46, scale_led (led_r slot) (global_led_brightness slot));
       (47, scale_led (led_g slot) (global_led_brightness slot));
       (48, scale_led (led_b slot) (global_led_brightness slot))]
      (repeat 0 DS_BT_REPORT_SIZE)).

(** The copy [send_output_report] hands to the builders: validated values and
    the gain applied to the rumble. *)
Definition output_view (slot : controller_t) : controller_t :=
  let gain := clamp_u8 (rumble_gain slot) 0 100 100 in
  zero_controller {{
    rumble_strong := u8 (rumble_strong slot * gain / 100);
    rumble_weak := u8 (rumble_weak slot * gain / 100);
    led_r := led_r slot; led_g := led_g slot; led_b := led_b slot;
    global_led_brightness := clamp_u8 (global_led_brightness slot) 0 100 80;
    ctype := ctype slot; is_bluetooth := is_bluetooth slot; output_seq := output_seq slot;
    player_leds := clamp_u8 (player_leds slot) 0 5 0 }}.

(** The report for the controller type; none for the Switch Pro. *)
Definition output_report (slot : controller_t) : option (list Z) :=
  let tmp := output_view slot in
  match ctype slot with
  | TYPE_DS4 =>
      Some (if is_bluetooth slot then build_ds4_bt_report tmp else build_ds4_usb_report tmp)
  | TYPE_DUALSENSE =>
      Some (if is_bluetooth slot then build_dualsense_bt_report tmp
            else build_dualsense_usb_report tmp)
  | TYPE_NSW_PRO => None
  end.

Section send.
Context (kernel : kernel_t) (fuel : nat).

Definition send_output_report (fd : Z) (slot : controller_t) : io unit :=
  if (fd <? 0) || negb (connected slot) then mret tt
  else
    match output_report slot with
    | None => mret tt
    | Some report => _ ← safe_write kernel fuel fd report; mret tt
    end.
End send.
End crc.

(** ** Periodic effects *)

Section wave.
(** [sin] of the C library. *)
Context (sin : float -> float).

(** C's [%] truncates towards zero. *)
Definition compute_periodic_wave (p : periodic_effect_t) (now : timeval) : Z :=
  let elapsed_us := tv_diff_us now (start_time p) in
  let period_us := period p * 1000 in
  if period_us <=? 0 then 0
  else
    let t := f64_div (f64_of_Z (Z.rem elapsed_us period_us)) (f64_of_Z 1000) in
    let norm := f64_div t (f64_of_Z (period p)) in
    let wave :=
      if waveform p =? FF_SINE then sin (f64_mul (f64_mul (f64_of_Z 2) M_PI) norm)
      else if waveform p =? FF_SQUARE
      then (if flt norm (f64_lit 1 2) then f64_of_Z 1 else f64_of_Z (-1))
      else if waveform p =? FF_TRIANGLE
      then f64_sub (f64_mul (f64_of_Z 2)
             (fabs_ (f64_sub (f64_mul (f64_of_Z 2) norm) (f64_of_Z 1)))) (f64_of_Z 1)
      else f64_of_Z 0 in
    let value := f64_add (f64_of_Z (offset p)) (f64_mul (f64_of_Z (magnitude p)) wave) in
    let value := if flt value (f64_of_Z 0) then f64_of_Z 0 else value in
    let value := if fgt value (f64_of_Z 32767) then f64_of_Z 32767 else value in
    u8_of_float (f64_div value (f64_of_Z 128)).

Definition apply_wave_to_rumble (wave_value : Z) (slot : controller_t) : controller_t :=
  if 127 <? wave_value
  then slot {{ rumble_strong := wave_value; rumble_weak := 0 }}
  else slot {{ rumble_strong := 0; rumble_weak := wave_value }}.

(** ** Force feedback from uinput *)

(** The part of [struct ff_effect] the code reads, by effect type. *)
Inductive ff_effect_u :=
| FFU_RUMBLE (strong_magnitude weak_magnitude : Z)
| FFU_PERIODIC (waveform period magnitude offset phase : Z)
| FFU_OTHER.

(** The upload: [begin id] is what UI_BEGIN_FF_UPLOAD fills in, [None] when the
    ioctl fails. *)
Definition rumble_handle_ff_upload (begin : Z -> option (Z * ff_effect_u)) (ev : input_event)
  (slot : controller_t) : controller_t * bool :=
  if negb (ev_type ev =? EV_UINPUT) || negb (ev_code ev =? UI_FF_UPLOAD) then (slot, false)
  else
    match begin (ev_value ev) with
    | None => (slot, false)
    | Some (effect_id, u) =>
        if (0 <=? effect_id) && (effect_id <? 16) then
          match u with
          | FFU_RUMBLE s w =>
              (slot {{ effect_type := aset (effect_type slot) effect_id 1;
                       ff_effects := aset (ff_effects slot) effect_id
                         (mk_ff_effect (u8 (Z.shiftr s 8)) (u8 (Z.shiftr w 8))) }}, true)
          | FFU_PERIODIC wf per mag off ph =>
              let p := aget zero_periodic (periodic_effects slot) effect_id in
              (slot {{ effect_type := aset (effect_type slot) effect_id 2;
                       periodic_effects := aset (periodic_effects slot) effect_id
                         (p {{ waveform := wf; period := per; magnitude := mag; offset := off;
                               phase := ph; pe_active := false; last_value := 0;
                               left_freq := 0; right_freq := 0 }}) }}, true)
          | FFU_OTHER => (slot, false)
          end
        else (slot, false)
    end.

Definition rumble_handle_ff_event (now : timeval) (ev : input_event) (slot : controller_t)
  : controller_t :=
  if negb (rumble_active slot) && negb ((ev_type ev =? EV_FF) && (ev_value ev =? 0)) then slot
  else if negb (ev_type ev =? EV_FF) then slot
  else
    let effect_id := ev_code ev in
    if (effect_id <? 0) || (16 <=? effect_id) then slot
    else if 0 <? ev_value ev then
      let ty := aget 0 (effect_type slot) effect_id in
      if ty =? 1 then
        let e := aget (mk_ff_effect 0 0) (ff_effects slot) effect_id in
        slot {{ rumble_strong := ff_strong e; rumble_weak := ff_weak e; rumble_dirty := true;
                active_effect_id := -1; active_effect_type := 0 }}
      else if ty =? 2 then
        let p := (aget zero_periodic (periodic_effects slot) effect_id)
                   {{ start_time := now; pe_active := true }} in
        let first_val := compute_periodic_wave p now in
        let slot := slot {{ active_effect_id := effect_id; active_effect_type := 2 }} in
        let slot := apply_wave_to_rumble first_val slot in
        slot {{ periodic_effects := aset (periodic_effects slot) effect_id
                  (p {{ last_value := first_val }});
                rumble_dirty := true }}
      else slot
    else if active_effect_id slot =? effect_id then
      slot {{ active_effect_id := -1; active_effect_type := 0;
              rumble_strong := 0; rumble_weak := 0; rumble_dirty := true }}
    else slot.

(** ** Pipelines

    [send] is what the pipeline calls to write: [send_output_report], or
    [nsw_send_rumble] for the Switch Pro, as an operation on the slot and on
    what else the sender keeps (the context of the Switch Pro). *)

(** The periodic effect of a Switch Pro. *)
Definition pipeline_periodic (now : timeval) (slot : controller_t) : controller_t :=
  if bool_decide (ctype slot = TYPE_NSW_PRO) && (active_effect_type slot =? 2)
     && (0 <=? active_effect_id slot) then
    let eid := active_effect_id slot in
    let p := aget zero_periodic (periodic_effects slot) eid in
    let new_val := compute_periodic_wave p now in
    if negb (new_val =? last_value p) then
      let slot := apply_wave_to_rumble new_val slot in
      slot {{ rumble_dirty := true;
              periodic_effects := aset (periodic_effects slot) eid
                (p {{ last_value := new_val }}) }}
    else slot
  else slot.

(** When the rumble has to be sent. *)
Definition rumble_should_send (slot : controller_t) (elapsed : Z) : bool :=
  (rumble_dirty slot && (RUMBLE_TIMEOUT_US <=? elapsed)) ||
  (((0 <? rumble_strong slot) || (0 <? rumble_weak slot)) && (RUMBLE_KEEPALIVE_US <=? elapsed)).

(** The new slot, the new time of the last send, and whether a report went out. *)
Definition rumble_process_pipeline {S} (send : controller_t -> S -> io (controller_t * S))
  (now : timeval) (slot : controller_t) (ctx : S) (last_rumble_time : timeval)
  : io (controller_t * S * timeval * bool) :=
  let elapsed := tv_diff_us now last_rumble_time in
  let slot := pipeline_periodic now slot in
  if rumble_should_send slot elapsed && connected slot then
    r ← send (slot {{ writing_output := true }}) ctx;
    let '(slot, ctx) := r in
    mret ((slot {{ writing_output := false }}) {{ rumble_dirty := false }}, ctx, now, true)
  else mret (slot, ctx, last_rumble_time, false).

Definition led_process_pipeline (send : controller_t -> io controller_t) (now : timeval)
  (slot : controller_t) (last_led_time : timeval) : io (controller_t * timeval * bool) :=
  let retry_count := external_retry_count slot in
  if negb (led_dirty slot) && (retry_count =? 0) then mret (slot, last_led_time, false)
  else
    let timeout_us := if 0 <? retry_count then 100000
                      else if led_static slot then LED_TIMEOUT_US else LED_FAST_TIMEOUT_US in
    let last := if 0 <? retry_count then last_external_retry slot else last_led_time in
    let elapsed := tv_diff_us now last in
    if timeout_us <=? elapsed then
      slot ← send (slot {{ writing_output := true }});
      let slot := slot {{ writing_output := false }} in
      if 0 <? retry_count then
        mret (slot {{ last_external_retry := now;
                      external_retry_count := (if 0 <? external_retry_count slot
                                               then external_retry_count slot - 1
                                               else external_retry_count slot) }},
              last_led_time, true)
      else mret (slot {{ led_dirty := false }}, now, true)
    else mret (slot, last_led_time, false).
End wave.

(** * Lemmas *)

Lemma length_put_bytes l r : length (put_bytes l r) = length r.
Proof.
  unfold put_bytes. revert r. induction l as [|p l IH]; intros r; simpl; [done|].
  by rewrite IH, length_aset.
Qed.
Lemma put_bytes_Forall (P : Z -> Prop) l r :
  Forall P r -> Forall (fun p => P p.2) l -> Forall P (put_bytes l r).
Proof.
  intros Hr Hl. unfold put_bytes. revert r Hr. induction Hl as [|p l Hp _ IH]; intros r Hr; simpl; [done|].
  apply IH. by apply aset_Forall.
Qed.
Lemma le_bytes_range n z : Forall is_u8 (le_bytes n z).
Proof.
  revert z. induction n as [|n IH]; intros z; constructor; [|done].
  unfold is_u8. apply Z.mod_pos_bound. lia.
Qed.
Lemma length_le_bytes n z : length (le_bytes n z) = n.
Proof. revert z. induction n as [|n IH]; intros z; simpl; [done|]. by rewrite IH. Qed.
Lemma repeat_u8 n : Forall is_u8 (repeat 0 n).
Proof. apply List.Forall_forall. intros v ->%repeat_spec. unfold is_u8. lia. Qed.

Lemma append_crc_length crc r : length r = 78%nat -> length (append_crc crc r) = 78%nat.
Proof.
  intros Hl. unfold append_crc. rewrite !length_app, length_take, length_drop, length_le_bytes. lia.
Qed.
Lemma append_crc_Forall crc r : Forall is_u8 r -> Forall is_u8 (append_crc crc r).
Proof.
  intros Hr. unfold append_crc. cbv zeta.
  apply Forall_app. split; [by apply Forall_take|].
  apply Forall_app. split; [apply le_bytes_range | by apply Forall_drop].
Qed.
Lemma append_crc_get crc r i :
  length r = 78%nat -> 0 <= i < 74 -> aget 0 (append_crc crc r) i = aget 0 r i.
Proof.
  intros Hl Hi. unfold append_crc, aget. cbv zeta.
  rewrite app_nth1 by (rewrite length_take; lia).
  rewrite !nth_lookup, lookup_take_lt; [done | lia].
Qed.

Lemma scale_range v b : 0 <= v <= 255 -> 0 <= b <= 100 -> 0 <= v * b / 100 <= v.
Proof.
  intros. split; [apply Z.div_pos; lia|]. apply Z.div_le_upper_bound; lia || nia.
Qed.
Lemma scale_led_range v b : 0 <= v <= 255 -> 0 <= b <= 100 -> 0 <= scale_led v b <= v.
Proof. intros Hv Hb. unfold scale_led. pose proof (scale_range v b Hv Hb). rewrite u8_small; lia. Qed.
Lemma clamp_u8_range v lo hi d :
  0 <= lo <= hi -> hi <= 255 -> lo <= d <= hi -> lo <= clamp_u8 v lo hi d <= hi.
Proof.
  intros. unfold clamp_u8. destruct (Z.ltb_spec v lo), (Z.ltb_spec hi v); simpl; try lia.
  rewrite u8_small; lia.
Qed.
Lemma player_leds_range m : 0 <= m -> 0 <= player_leds_to_byte m <= 31.
Proof.
  intros Hm. unfold player_leds_to_byte. destruct (Z.ltb_spec 5 m); [lia|].
  assert (m = 0 \/ m = 1 \/ m = 2 \/ m = 3 \/ m = 4 \/ m = 5)
    as [->|[->|[->|[->|[->| ->]]]]] by lia; vm_compute; split; discriminate.
Qed.

(** The byte members of a slot that reach a report. *)
Definition slot_bytes (s : controller_t) : Prop :=
  Forall is_u8 [rumble_strong s; rumble_weak s; led_r s; led_g s; led_b s].

(** The offsets of the strong and the weak motor and of the colour in a report. *)
Definition strong_offset (t : controller_type_t) (bt : bool) : Z :=
  match t with TYPE_DS4 => if bt then 7 else 4 | _ => if bt then 5 else 4 end.
Definition weak_offset (t : controller_type_t) (bt : bool) : Z :=
  match t with TYPE_DS4 => if bt then 6 else 5 | _ => if bt then 4 else 3 end.
Definition led_offset (t : controller_type_t) (bt : bool) : Z :=
  match t with TYPE_DS4 => if bt then 8 else 6 | _ => if bt then 46 else 45 end.
Definition report_size (t : controller_type_t) (bt : bool) : nat :=
  if bt then 78 else match t with TYPE_DS4 => 32 | _ => 48 end.

Lemma output_view_spec s :
  slot_bytes s ->
  let v := output_view s in
  let gain := clamp_u8 (rumble_gain s) 0 100 100 in
  let bright := clamp_u8 (global_led_brightness s) 0 100 80 in
  rumble_strong v = rumble_strong s * gain / 100 /\ rumble_weak v = rumble_weak s * gain / 100 /\
  scale_led (led_r v) (global_led_brightness v) = led_r s * bright / 100 /\
  scale_led (led_g v) (global_led_brightness v) = led_g s * bright / 100 /\
  scale_led (led_b v) (global_led_brightness v) = led_b s * bright / 100 /\
  0 <= player_leds v <= 5 /\
  Forall is_u8 [rumble_strong v; rumble_weak v; scale_led (led_r v) (global_led_brightness v);
    scale_led (led_g v) (global_led_brightness v); scale_led (led_b v) (global_led_brightness v);
    player_leds_to_byte (player_leds v)].
Proof.
  intros Hs v gain bright. unfold slot_bytes, is_u8 in Hs.
  repeat match goal with H : Forall _ (_ :: _) |- _ => apply Forall_cons in H as [? H] end.
  assert (0 <= gain <= 100) as Hg by (apply clamp_u8_range; lia).
  assert (0 <= bright <= 100) as Hb by (apply clamp_u8_range; lia).
  assert (forall x g, 0 <= x < 2 ^ 8 -> 0 <= g <= 100 -> u8 (x * g / 100) = x * g / 100 /\ 0 <= x * g / 100 <= x)
    as E by (intros x g Hx Hgg; pose proof (scale_range x g); rewrite u8_small; lia).
  assert (0 <= player_leds v <= 5) as Hp
    by (change (0 <= clamp_u8 (player_leds s) 0 5 0 <= 5); apply clamp_u8_range; lia).
  pose proof (player_leds_range (player_leds v) (proj1 Hp)).
  change (rumble_strong v) with (u8 (rumble_strong s * gain / 100)).
  change (rumble_weak v) with (u8 (rumble_weak s * gain / 100)).
  unfold scale_led. change (global_led_brightness v) with bright.
  change (led_r v) with (led_r s). change (led_g v) with (led_g s). change (led_b v) with (led_b s).
  pose proof (E (rumble_strong s) gain ltac:(done) Hg) as [-> ?].
  pose proof (E (rumble_weak s) gain ltac:(done) Hg) as [-> ?].
  pose proof (E (led_r s) bright ltac:(done) Hb) as [-> ?].
  pose proof (E (led_g s) bright ltac:(done) Hb) as [-> ?].
  pose proof (E (led_b s) bright ltac:(done) Hb) as [-> ?].
  do 6 (split; [done|]). forall_list; unfold is_u8; lia.
Qed.

(** The builders on any view: length, bytes and positions. *)
Definition report_holds (t : controller_type_t) (bt : bool) (v : controller_t) (r : list Z) : Prop :=
  length r = report_size t bt /\ Forall is_u8 r /\
  aget 0 r (strong_offset t bt) = rumble_strong v /\ aget 0 r (weak_offset t bt) = rumble_weak v /\
  aget 0 r (led_offset t bt) = scale_led (led_r v) (global_led_brightness v) /\
  aget 0 r (led_offset t bt + 1) = scale_led (led_g v) (global_led_brightness v) /\
  aget 0 r (led_offset t bt + 2) = scale_led (led_b v) (global_led_brightness v).

Ltac report_bytes_tac :=
  repeat match goal with
  | H : Forall _ (_ :: _) |- _ => apply Forall_cons in H as [? H]
  end;
  apply put_bytes_Forall; [apply repeat_u8 | forall_list; cbn [fst snd]; first [assumption | unfold is_u8; lia]].

Lemma build_holds crc t v :
  Forall is_u8 [rumble_strong v; rumble_weak v; scale_led (led_r v) (global_led_brightness v);
    scale_led (led_g v) (global_led_brightness v); scale_led (led_b v) (global_led_brightness v);
    player_leds_to_byte (player_leds v)] ->
  (t = TYPE_DS4 -> report_holds t false v (build_ds4_usb_report v) /\
                   report_holds t true v (build_ds4_bt_report crc v)) /\
  (t = TYPE_DUALSENSE -> report_holds t false v (build_dualsense_usb_report v) /\
                         report_holds t true v (build_dualsense_bt_report crc v)).
Proof.
  intros Hv. split; intros ->; (split; (split; [|split]);
    unfold build_ds4_usb_report, build_ds4_bt_report, build_dualsense_usb_report,
      build_dualsense_bt_report;
    try (rewrite ?append_crc_length; rewrite ?length_put_bytes; reflexivity);
    try (try apply append_crc_Forall; report_bytes_tac)).
  1,3: repeat split.
  all: cbn [strong_offset weak_offset led_offset];
    repeat split; (rewrite append_crc_get; [reflexivity | reflexivity | lia]).
Qed.

Lemma put_bytes_crc_tail crc r :
  length r = 78%nat ->
  drop 74 (append_crc crc r) =
    le_bytes 4 (u32 (crc (crc (crc 0 []) [0xA2]) (take 74 (append_crc crc r)))).
Proof.
  intros Hl. unfold append_crc. cbv zeta.
  set (x := u32 _).
  rewrite drop_app_length' by (rewrite length_take; lia).
  assert (take 74 (take 74 r ++ le_bytes 4 x ++ drop 78 r) = take 74 r) as ->
    by (rewrite take_app_length'; [done | rewrite length_take; lia]).
  rewrite drop_ge by lia. by rewrite app_nil_r.
Qed.

(** One send of the rumble pipeline. *)
Lemma rumble_pipeline_sends {S} sin send now s (ctx : S) last h s' ctx' last' h' :
  rumble_process_pipeline sin send now s ctx last h = Some (s', ctx', last', true, h') ->
  RUMBLE_TIMEOUT_US <= tv_diff_us now last /\ last' = now /\ rumble_dirty s' = false /\
  writing_output s' = false.
Proof.
  unfold rumble_process_pipeline. cbv zeta.
  destruct (rumble_should_send _ _ && _) eqn:E; [|done].
  apply andb_prop in E as [E _]. intros H.
  apply io_bind_inv in H as ([s1 ctx1] & h1 & _ & [= <- _ <- _]).
  repeat split. unfold rumble_should_send in E.
  unfold RUMBLE_TIMEOUT_US, RUMBLE_KEEPALIVE_US in *.
  apply orb_prop in E as [[_ E]%andb_prop|[_ E]%andb_prop]; zprop; lia.
Qed.

(** The LED pipeline of a slot whose colour does not change meanwhile, called
    at the given times; the number of reports it sends. *)
Fixpoint led_calls (send : controller_t -> io controller_t) (ts : list timeval) (s : controller_t)
  (last : timeval) : io (controller_t * timeval * nat) :=
  match ts with
  | [] => mret (s, last, 0%nat)
  | t :: ts =>
      r ← led_process_pipeline send t s last;
      let '(s, last, sent) := r in
      r ← led_calls send ts s last;
      let '(s, last, n) := r in
      mret (s, last, if sent : bool then S n else n)
  end.

(** Times at least [d] apart, the first at least [d] after [t]. *)
Fixpoint tv_spaced (d : Z) (t : timeval) (ts : list timeval) : Prop :=
  match ts with [] => True | t' :: ts => d <= tv_diff_us t' t /\ tv_spaced d t' ts end.

(** A write that returns and changes neither the dirty flag nor the retries. *)
Definition led_send_ok (send : controller_t -> io controller_t) : Prop :=
  forall s h, exists s' h', send s h = Some (s', h') /\
    led_dirty s' = led_dirty s /\ external_retry_count s' = external_retry_count s /\
    led_static s' = led_static s.

Lemma put_retry_spec s now n :
  let s1 := (s {{ writing_output := false }}) {{ last_external_retry := now; external_retry_count := n }} in
  external_retry_count s1 = n /\ last_external_retry s1 = now /\ led_dirty s1 = led_dirty s /\
  led_static s1 = led_static s.
Proof. repeat split. Qed.
Lemma put_clean_spec s :
  let s1 := (s {{ writing_output := false }}) {{ led_dirty := false }} in
  led_dirty s1 = false /\ external_retry_count s1 = external_retry_count s.
Proof. repeat split. Qed.
Lemma put_writing_spec s :
  let s1 := s {{ writing_output := true }} in
  external_retry_count s1 = external_retry_count s /\ led_dirty s1 = led_dirty s /\
  led_static s1 = led_static s.
Proof. repeat split. Qed.

Lemma led_pipeline_retry send now s last h :
  led_send_ok send -> 0 < external_retry_count s ->
  100000 <= tv_diff_us now (last_external_retry s) ->
  exists s' h', led_process_pipeline send now s last h = Some (s', last, true, h') /\
    external_retry_count s' = external_retry_count s - 1 /\ led_dirty s' = led_dirty s /\
    last_external_retry s' = now /\ led_static s' = led_static s.
Proof.
  intros Hs Hr Ht. unfold led_process_pipeline.
  destruct (Z.eqb_spec (external_retry_count s) 0) as [Hz|_]; [lia|]. rewrite andb_false_r.
  destruct (Z.ltb_spec 0 (external_retry_count s)); [|lia].
  destruct (Z.leb_spec 100000 (tv_diff_us now (last_external_retry s))); [|lia].
  destruct (Hs (s {{ writing_output := true }}) h) as (s1 & h1 & H1 & Hd & Hc & Hst).
  destruct (put_writing_spec s) as (W1 & W2 & W3). rewrite W2 in Hd. rewrite W1 in Hc. rewrite W3 in Hst.
  unfold mbind, io_bind. rewrite H1.
  set (n := if 0 <? external_retry_count (s1 {{ writing_output := false }})
            then external_retry_count (s1 {{ writing_output := false }}) - 1
            else external_retry_count (s1 {{ writing_output := false }})).
  assert (n = external_retry_count s - 1) as Hn.
  { unfold n. change (external_retry_count (s1 {{ writing_output := false }})) with (external_retry_count s1).
    rewrite Hc. destruct (Z.ltb_spec 0 (external_retry_count s)); lia. }
  destruct (put_retry_spec s1 now n) as (P1 & P2 & P3 & P4).
  eexists _, _. split; [reflexivity|]. rewrite P1, P2, P3, P4. auto.
Qed.

Lemma led_pipeline_final send now s last h :
  led_send_ok send -> external_retry_count s = 0 -> led_dirty s = true ->
  LED_TIMEOUT_US <= tv_diff_us now last ->
  exists s' h', led_process_pipeline send now s last h = Some (s', now, true, h') /\
    external_retry_count s' = 0 /\ led_dirty s' = false.
Proof.
  intros Hs Hr Hd Ht. unfold led_process_pipeline. rewrite Hr, Hd.
  change (0 <? 0) with false. cbn [negb andb]. cbv zeta iota.
  assert (((if led_static s then LED_TIMEOUT_US else LED_FAST_TIMEOUT_US) <=? tv_diff_us now last) = true) as ->.
  { apply Z.leb_le. unfold LED_TIMEOUT_US, LED_FAST_TIMEOUT_US in *. destruct (led_static s); lia. }
  destruct (Hs (s {{ writing_output := true }}) h) as (s1 & h1 & H1 & _ & Hc & _).
  destruct (put_writing_spec s) as (W1 & _). rewrite W1 in Hc.
  unfold mbind, io_bind. rewrite H1.
  destruct (put_clean_spec s1) as (P1 & P2).
  eexists _, _. split; [reflexivity|]. by rewrite P1, P2, Hc.
Qed.

Lemma led_pipeline_idle send now s last h :
  external_retry_count s = 0 -> led_dirty s = false ->
  led_process_pipeline send now s last h = Some (s, last, false, h).
Proof. intros Hr Hd. unfold led_process_pipeline. by rewrite Hr, Hd. Qed.

(** The fixed colour is retransmitted once per retry, then sent a last time. *)
Lemma led_calls_retry send ts s last h :
  led_send_ok send -> led_dirty s = true -> 0 <= external_retry_count s ->
  tv_spaced 100000 (last_external_retry s) ts ->
  Z.of_nat (length ts) <= external_retry_count s ->
  exists s' h', led_calls send ts s last h = Some (s', last, length ts, h') /\
    external_retry_count s' = external_retry_count s - Z.of_nat (length ts) /\
    led_dirty s' = true.
Proof.
  intros Hs. revert s h. induction ts as [|t ts IH]; intros s h Hd H0 Hsp Hle.
  { exists s, h. simpl. repeat split; [lia | done]. }
  destruct Hsp as [Ht Hsp]. simpl length in Hle.
  destruct (led_pipeline_retry send t s last h Hs ltac:(lia) Ht) as (s1 & h1 & E & Ec & Ed & El & _).
  rewrite <- El in Hsp. rewrite Hd in Ed.
  destruct (IH s1 h1 Ed ltac:(lia) Hsp ltac:(lia)) as (s2 & h2 & E2 & Ec2 & Ed2).
  exists s2, h2. simpl led_calls. unfold mbind at 1, io_bind at 1. rewrite E.
  unfold mbind, io_bind. rewrite E2. split; [done|]. split; [simpl length; lia | done].
Qed.

Lemma led_calls_app send ts1 ts2 s last h s1 last1 n1 h1 :
  led_calls send ts1 s last h = Some (s1, last1, n1, h1) ->
  led_calls send (ts1 ++ ts2) s last h =
  match led_calls send ts2 s1 last1 h1 with
  | Some (s2, last2, n2, h2) => Some (s2, last2, (n1 + n2)%nat, h2)
  | None => None
  end.
Proof.
  revert s last h n1. induction ts1 as [|t ts1 IH]; intros s last h n1.
  { simpl. intros [= <- <- <- <-]. by destruct (led_calls send ts2 s last h) as [[[[? ?] ?] ?]|]. }
  simpl. unfold mbind, io_bind.
  destruct (led_process_pipeline send t s last h) as [[[[s' l'] sent] h']|]; [|done].
  destruct (led_calls send ts1 s' l' h') as [[[[s2 l2] n] h2]|] eqn:E; [|done].
  intros [= <- <- <- <-]. rewrite (IH _ _ _ _ E).
  destruct (led_calls send ts2 s2 l2 h2) as [[[[? ?] ?] ?]|]; [|done].
  by destruct sent.
Qed.

(** ** Force feedback events *)

Definition ff_started (id : Z) (s : controller_t) : controller_t :=
  let e := aget (mk_ff_effect 0 0) (ff_effects s) id in
  s {{ rumble_strong := ff_strong e; rumble_weak := ff_weak e; rumble_dirty := true;
       active_effect_id := -1; active_effect_type := 0 }}.

Ltac ff_range :=
  match goal with Hid : 0 <= ?id < 16 |- _ =>
    destruct (Z.ltb_spec id 0); [lia|]; destruct (Z.leb_spec 16 id); [lia|] end.

Lemma ff_start_rumble sin now id s :
  0 <= id < 16 -> rumble_active s = true -> aget 0 (effect_type s) id = 1 ->
  rumble_handle_ff_event sin now (mk_event EV_FF id 1) s = ff_started id s.
Proof.
  intros Hid Ha Hty. unfold rumble_handle_ff_event. cbn [ev_type ev_code ev_value].
  rewrite Ha, Hty. cbn [negb andb]. ff_range. reflexivity.
Qed.

Definition ff_periodic_started (sin : float -> float) (now : timeval) (id : Z) (s : controller_t)
  : controller_t :=
  let p := (aget zero_periodic (periodic_effects s) id) {{ start_time := now; pe_active := true }} in
  let v := compute_periodic_wave sin p now in
  let s := apply_wave_to_rumble v (s {{ active_effect_id := id; active_effect_type := 2 }}) in
  s {{ periodic_effects := aset (periodic_effects s) id (p {{ last_value := v }});
       rumble_dirty := true }}.

Lemma ff_start_periodic sin now id s :
  0 <= id < 16 -> rumble_active s = true -> aget 0 (effect_type s) id = 2 ->
  rumble_handle_ff_event sin now (mk_event EV_FF id 1) s = ff_periodic_started sin now id s.
Proof.
  intros Hid Ha Hty. unfold rumble_handle_ff_event. cbn [ev_type ev_code ev_value].
  rewrite Ha, Hty. cbn [negb andb]. ff_range. reflexivity.
Qed.

Lemma ff_periodic_started_id sin now id s :
  active_effect_id (ff_periodic_started sin now id s) = id.
Proof. unfold ff_periodic_started, apply_wave_to_rumble. cbv zeta. by destruct (127 <? _). Qed.

Lemma ff_stop_active sin now id s :
  0 <= id < 16 -> active_effect_id s = id ->
  let s' := rumble_handle_ff_event sin now (mk_event EV_FF id 0) s in
  rumble_strong s' = 0 /\ rumble_weak s' = 0 /\ rumble_dirty s' = true.
Proof.
  intros Hid Ha. unfold rumble_handle_ff_event. cbn [ev_type ev_code ev_value].
  change (EV_FF =? EV_FF) with true. change (0 =? 0) with true. rewrite andb_false_r. cbn [negb].
  ff_range. cbn [orb]. change (0 <? 0) with false. rewrite Ha, Z.eqb_refl. done.
Qed.

Lemma ff_stop_inactive sin now id s :
  0 <= id < 16 -> active_effect_id s <> id ->
  rumble_handle_ff_event sin now (mk_event EV_FF id 0) s = s.
Proof.
  intros Hid Ha. unfold rumble_handle_ff_event. cbn [ev_type ev_code ev_value].
  change (EV_FF =? EV_FF) with true. change (0 =? 0) with true. rewrite andb_false_r. cbn [negb].
  ff_range. cbn [orb]. change (0 <? 0) with false. by destruct (Z.eqb_spec (active_effect_id s) id).
Qed.

(** * Properties *)

(** The offsets of the weak motor, the strong motor and the colour that
    [docs/reverse-engineering.txt] gives. *)
Definition documented_offsets (t : controller_type_t) (bt : bool) : Z * Z * Z :=
  match t with TYPE_DS4 => if bt then (5, 6, 7) else (3, 4, 5) | _ => if bt then (4, 5, 46) else (3, 4, 45) end.

(** C5: every output report has the length of its type and transport and
    consists of bytes; the motor bytes are the requested intensities times the
    validated gain over 100, so never above the request, at the offsets of the
    type; the colour bytes are scaled by the validated brightness; a Bluetooth
    report ends with the CRC of the 0xA2 header and its first 74 bytes; the
    Switch Pro gets no report.  For a DualSense the offsets are the documented ones.
    For a DualShock 4 they are not: over Bluetooth all three are one higher, over
    USB the weak motor is two and the colour one higher, and the strong motor is
    where the document has it, so the two are in the other order. *)
Theorem output_report_shape crc s :
  slot_bytes s ->
  let gain := clamp_u8 (rumble_gain s) 0 100 100 in
  let bright := clamp_u8 (global_led_brightness s) 0 100 80 in
  let t := ctype s in let bt := is_bluetooth s in
  0 <= gain <= 100 /\ 0 <= bright <= 100 /\
  (let '(weak, strong, led) := documented_offsets t bt in
   (weak_offset t bt, strong_offset t bt, led_offset t bt) =
     match t with
     | TYPE_DS4 => if bt then (weak + 1, strong + 1, led + 1) else (weak + 2, strong, led + 1)
     | _ => (weak, strong, led)
     end) /\
  match output_report crc s with
  | None => t = TYPE_NSW_PRO
  | Some r =>
      length r = report_size t bt /\ Forall is_u8 r /\
      aget 0 r (strong_offset t bt) = rumble_strong s * gain / 100 /\
      rumble_strong s * gain / 100 <= rumble_strong s /\
      aget 0 r (weak_offset t bt) = rumble_weak s * gain / 100 /\
      rumble_weak s * gain / 100 <= rumble_weak s /\
      aget 0 r (led_offset t bt) = led_r s * bright / 100 /\
      aget 0 r (led_offset t bt + 1) = led_g s * bright / 100 /\
      aget 0 r (led_offset t bt + 2) = led_b s * bright / 100 /\
      (bt = true -> drop 74 r = le_bytes 4 (u32 (crc (crc (crc 0 []) [0xA2]) (take 74 r))))
  end.
Proof.
  intros Hs gain bright t bt.
  assert (0 <= gain <= 100) as Hg by (apply clamp_u8_range; lia).
  assert (0 <= bright <= 100) as Hb by (apply clamp_u8_range; lia).
  split; [done|]. split; [done|]. split; [by destruct t, bt|].
  destruct (output_view_spec s Hs) as (V1 & V2 & V3 & V4 & V5 & _ & VF).
  pose proof (build_holds crc t _ VF) as [HD HS].
  assert (rumble_strong s * gain / 100 <= rumble_strong s /\
          rumble_weak s * gain / 100 <= rumble_weak s) as [B1 B2].
  { unfold slot_bytes, is_u8 in Hs. apply Forall_cons in Hs as [H1 Hs].
    apply Forall_cons in Hs as [H2 _]. split; apply scale_range; lia. }
  unfold output_report. fold t bt. destruct t; [specialize (HD eq_refl) | specialize (HS eq_refl) | done].
  all: match goal with
       | H : report_holds _ false _ _ /\ report_holds _ true _ _ |- _ => destruct H as [Hu Hbt] end.
  all: destruct bt;
    [destruct Hbt as (L & F & R1 & R2 & R3 & R4 & R5) | destruct Hu as (L & F & R1 & R2 & R3 & R4 & R5)];
    rewrite R1, R2, R3, R4, R5, V1, V2, V3, V4, V5;
    (do 9 (split; [done|]); try done; intros _; apply put_bytes_crc_tail; reflexivity).
Qed.

Example output_report_shape_witness :
  exists r, output_report (fun c l => c) (zero_controller {{ ctype := TYPE_DUALSENSE;
      rumble_strong := 200; rumble_gain := 50 }}) = Some r /\ aget 0 r 4 = 100.
Proof.
  pose proof (output_report_shape (fun c l => c) (zero_controller {{ ctype := TYPE_DUALSENSE;
      rumble_strong := 200; rumble_gain := 50 }})) as H.
  destruct H as (_ & _ & _ & H); [unfold slot_bytes, is_u8; forall_list; vm_compute; (split; [discriminate | reflexivity])|].
  eexists. split; [reflexivity|]. exact (proj1 (proj2 (proj2 H))).
Defined.

(** When a report has to go out: to a connected controller, when the rumble changed
    and 5 ms have passed since the last one, or when a motor runs and 20 ms have
    passed. *)
Definition rumble_due (slot : controller_t) (elapsed : Z) : Prop :=
  connected slot = true /\
  ((rumble_dirty slot = true /\ 5000 <= elapsed) \/
   ((0 < rumble_strong slot \/ 0 < rumble_weak slot) /\ 20000 <= elapsed)).
(** The periodic effect a Switch Pro plays has another value now. *)
Definition wave_moved (sin : float -> float) (now : timeval) (slot : controller_t) : Prop :=
  let p := aget zero_periodic (periodic_effects slot) (active_effect_id slot) in
  ctype slot = TYPE_NSW_PRO /\ active_effect_type slot = 2 /\ 0 <= active_effect_id slot /\
  compute_periodic_wave sin p now <> last_value p.

Lemma should_send_due slot elapsed : rumble_should_send slot elapsed && connected slot = true <-> rumble_due slot elapsed.
Proof.
  unfold rumble_should_send, rumble_due, RUMBLE_TIMEOUT_US, RUMBLE_KEEPALIVE_US.
  rewrite !andb_true_iff, !orb_true_iff, !andb_true_iff, !orb_true_iff, !Z.leb_le, !Z.ltb_lt. tauto.
Qed.

(** C7: the rumble pipeline of every type of controller.  It sends when a report is
    due and only then: for a connected slot whose rumble changed once 5 ms have
    passed since the last report, and every 20 ms while a motor runs; a send ends
    the change.  A call that does not send changes nothing but the periodic effect
    of a Switch Pro, whose new value counts as a change.  Two reports are never
    less than 5 ms apart. *)
Theorem rumble_pipeline_rate {S} sin send now s (ctx : S) last h :
  let s1 := pipeline_periodic sin now s in
  (~ wave_moved sin now s -> s1 = s) /\
  (wave_moved sin now s -> rumble_dirty s1 = true /\ connected s1 = connected s) /\
  (rumble_due s1 (tv_diff_us now last) ->
   forall s2 ctx2 h2, send (s1 {{ writing_output := true }}) ctx h = Some (s2, ctx2, h2) ->
   exists s', rumble_process_pipeline sin send now s ctx last h = Some (s', ctx2, now, true, h2) /\
     rumble_dirty s' = false /\ writing_output s' = false) /\
  (~ rumble_due s1 (tv_diff_us now last) ->
   rumble_process_pipeline sin send now s ctx last h = Some (s1, ctx, last, false, h)) /\
  (forall s' ctx' last' h',
     rumble_process_pipeline sin send now s ctx last h = Some (s', ctx', last', true, h') ->
     RUMBLE_TIMEOUT_US <= tv_diff_us now last /\ last' = now /\ rumble_dirty s' = false /\
     forall now2 s2 ctx2 h2 s3 ctx3 last3 h3,
       rumble_process_pipeline sin send now2 s2 ctx2 last' h2 = Some (s3, ctx3, last3, true, h3) ->
       RUMBLE_TIMEOUT_US <= tv_diff_us now2 now).
Proof.
  cbv zeta. set (s1 := pipeline_periodic sin now s).
  assert (forall b, rumble_should_send s1 (tv_diff_us now last) && connected s1 = b ->
    rumble_process_pipeline sin send now s ctx last h =
      (if b return io _ then r ← send (s1 {{ writing_output := true }}) ctx;
         let '(s2, ctx) := r in mret ((s2 {{ writing_output := false }}) {{ rumble_dirty := false }}, ctx, now, true)
       else mret (s1, ctx, last, false)) h) as E.
  { intros b <-. unfold rumble_process_pipeline. fold s1. by destruct (_ && _). }
  split; [|split; [|split; [|split]]].
  - intros Hm. subst s1. unfold pipeline_periodic, wave_moved in *. case_bool_decide; [|done].
    destruct (Z.eqb_spec (active_effect_type s) 2); [|done].
    destruct (Z.leb_spec 0 (active_effect_id s)); [|done]. cbn [andb]. cbv zeta.
    destruct (Z.eqb_spec (compute_periodic_wave sin (aget zero_periodic (periodic_effects s) (active_effect_id s)) now)
      (last_value (aget zero_periodic (periodic_effects s) (active_effect_id s)))); [done|]. destruct Hm. by repeat split.
  - intros (H1 & H2 & H3 & H4). subst s1. unfold pipeline_periodic. rewrite bool_decide_eq_true_2 by done.
    rewrite H2, Z.eqb_refl. destruct (Z.leb_spec 0 (active_effect_id s)); [|lia]. cbn [andb]. cbv zeta.
    apply Z.eqb_neq in H4. rewrite H4. cbn [negb]. unfold apply_wave_to_rumble. split; [reflexivity | by case_match].
  - intros Hd s2 ctx2 h2 Hs. apply should_send_due in Hd. rewrite (E true Hd). unfold mbind, io_bind. rewrite Hs.
    eexists. split; [reflexivity|]. by split.
  - intros Hd. rewrite (E false); [done|]. apply not_true_is_false. by rewrite should_send_due.
  - intros s' ctx' last' h' H.
    destruct (rumble_pipeline_sends _ _ _ _ _ _ _ _ _ _ _ H) as (H1 & -> & H2 & _).
    do 3 (split; [done|]). intros now2 s2 ctx2 h2 s3 ctx3 last3 h3 H3.
    by destruct (rumble_pipeline_sends _ _ _ _ _ _ _ _ _ _ _ H3) as (? & _).
Qed.

Definition send_nothing (s : controller_t) (u : unit) : io (controller_t * unit) := mret (s, u).

(** A changed rumble goes out at once; a still one waits for the keep-alive. *)
Example rumble_pipeline_rate_witness :
  (exists s', rumble_process_pipeline (fun x => x) send_nothing (mk_timeval 1 0)
    (zero_controller {{ connected := true; rumble_dirty := true }}) tt tv_zero [] =
    Some (s', tt, mk_timeval 1 0, true, [])) /\
  rumble_process_pipeline (fun x => x) send_nothing (mk_timeval 0 19999)
    (zero_controller {{ connected := true; rumble_weak := 9 }}) tt tv_zero [] =
    Some (zero_controller {{ connected := true; rumble_weak := 9 }}, tt, tv_zero, false, []).
Proof.
  split.
  - destruct (rumble_pipeline_rate (fun x => x) send_nothing (mk_timeval 1 0)
      (zero_controller {{ connected := true; rumble_dirty := true }}) tt tv_zero []) as (_ & _ & H & _).
    destruct (H ltac:(split; [reflexivity | left; split; [reflexivity | vm_compute; discriminate]]) _ tt [] eq_refl)
      as (s' & E & _). by exists s'.
  - destruct (rumble_pipeline_rate (fun x => x) send_nothing (mk_timeval 0 19999)
      (zero_controller {{ connected := true; rumble_weak := 9 }}) tt tv_zero []) as (_ & _ & _ & H & _).
    apply H. intros (_ & [[Hd _]|[_ Ht]]); [discriminate Hd | revert Ht; vm_compute; auto].
Defined.

(** C8: when another program has touched the light bar ([n] pending retries), a
    slot whose colour stays dirty is retransmitted once per call at 100 ms
    steps, [n] times, then sent one last time, and after that not again: n + 1
    reports in all, ending clean. *)
Theorem led_retries_then_clean send ts t ts' s last h :
  led_send_ok send -> led_dirty s = true ->
  external_retry_count s = Z.of_nat (length ts) ->
  tv_spaced 100000 (last_external_retry s) ts ->
  LED_TIMEOUT_US <= tv_diff_us t last ->
  exists s' h', led_calls send (ts ++ t :: ts') s last h = Some (s', t, S (length ts), h') /\
    led_dirty s' = false /\ external_retry_count s' = 0.
Proof.
  intros Hs Hd Hn Hsp Ht.
  destruct (led_calls_retry send ts s last h Hs Hd ltac:(lia) Hsp ltac:(lia)) as (s1 & h1 & E1 & C1 & D1).
  destruct (led_pipeline_final send t s1 last h1 Hs ltac:(lia) D1 Ht) as (s2 & h2 & E2 & C2 & D2).
  assert (led_calls send ts' s2 t h2 = Some (s2, t, 0%nat, h2)) as E3.
  { clear -C2 D2. induction ts' as [|t' ts' IH]; [done|]. simpl led_calls.
    unfold mbind, io_bind. rewrite led_pipeline_idle by done. by rewrite IH. }
  exists s2, h2. split; [|done]. rewrite (led_calls_app _ _ _ _ _ _ _ _ _ _ E1).
  simpl led_calls. unfold mbind, io_bind. rewrite E2, E3. f_equal. f_equal. f_equal. lia.
Qed.

Example led_retries_then_clean_witness :
  exists s' h', led_calls mret [mk_timeval 1 0; mk_timeval 2 0; mk_timeval 3 0; mk_timeval 4 0]
      (zero_controller {{ led_dirty := true; external_retry_count := 2 }}) tv_zero [] =
    Some (s', mk_timeval 3 0, 3%nat, h') /\ led_dirty s' = false /\ external_retry_count s' = 0.
Proof.
  apply (led_retries_then_clean mret [mk_timeval 1 0; mk_timeval 2 0] (mk_timeval 3 0)
    [mk_timeval 4 0] (zero_controller {{ led_dirty := true; external_retry_count := 2 }}) tv_zero []).
  - intros s h. exists s, h. done.
  - reflexivity.
  - reflexivity.
  - vm_compute. repeat split; discriminate.
  - vm_compute. discriminate.
Defined.

(** Stopping a force-feedback effect. The stop event of a periodic effect
    that is playing zeroes the rumble and marks it for sending; but starting a
    plain rumble effect forgets its id, so the stop event of that effect, the
    very next event, changes nothing: the motors keep the effect's intensity. *)
Theorem ff_stop_event sin now1 now2 id s :
  0 <= id < 16 -> rumble_active s = true ->
  let start := mk_event EV_FF id 1 in
  let stop := mk_event EV_FF id 0 in
  let s1 := rumble_handle_ff_event sin now1 start s in
  (aget 0 (effect_type s) id = 2 ->
     let s2 := rumble_handle_ff_event sin now2 stop s1 in
     rumble_strong s2 = 0 /\ rumble_weak s2 = 0 /\ rumble_dirty s2 = true) /\
  (aget 0 (effect_type s) id = 1 ->
     rumble_handle_ff_event sin now2 stop s1 = s1 /\
     rumble_strong s1 = ff_strong (aget (mk_ff_effect 0 0) (ff_effects s) id) /\
     rumble_weak s1 = ff_weak (aget (mk_ff_effect 0 0) (ff_effects s) id)).
Proof.
  intros Hid Ha start stop s1. unfold s1, start, stop. split; intros Hty.
  - rewrite (ff_start_periodic sin now1 id s Hid Ha Hty). apply ff_stop_active; [done | apply ff_periodic_started_id].
  - rewrite (ff_start_rumble sin now1 id s Hid Ha Hty).
    split; [|split; reflexivity].
    apply ff_stop_inactive; [done|]. change (active_effect_id (ff_started id s)) with (-1). lia.
Qed.

Example ff_stop_event_witness :
  let s := zero_controller {{ rumble_active := true; effect_type := repeat 1 16;
             ff_effects := repeat (mk_ff_effect 90 80) 16 }} in
  let s1 := rumble_handle_ff_event (fun x => x) tv_zero (mk_event EV_FF 3 1) s in
  rumble_handle_ff_event (fun x => x) tv_zero (mk_event EV_FF 3 0) s1 = s1 /\
  rumble_strong s1 = 90.
Proof.
  intros s s1.
  destruct (ff_stop_event (fun x => x) tv_zero tv_zero 3 s ltac:(lia) eq_refl) as [_ H].
  destruct (H eq_refl) as (H1 & H2 & _). split; [exact H1 | exact H2].
Defined.

(** The gain is applied once to a force-feedback request coming through
    uinput but twice to the same request coming through UHID: once when the
    request is stored and again when the report is built. *)
Theorem uhid_gain_applied_twice strong weak rest g slot crc :
  0 <= strong <= 255 -> 0 <= weak <= 255 -> 0 <= g <= 100 ->
  ctype slot = TYPE_DUALSENSE -> is_bluetooth slot = false -> rumble_gain slot = g ->
  let s := uhid_handle_output (UHID_OUTPUT 3 (1 :: strong :: weak :: rest)) slot in
  let u := slot {{ rumble_strong := strong; rumble_weak := weak }} in
  match output_report crc s, output_report crc u with
  | Some rs, Some ru =>
      aget 0 rs 4 = strong * g / 100 * g / 100 /\ aget 0 rs 3 = weak * g / 100 * g / 100 /\
      aget 0 ru 4 = strong * g / 100 /\ aget 0 ru 3 = weak * g / 100
  | _, _ => False
  end.
Proof.
  intros Hs Hw Hg Ht Hb Hgain s u.
  assert (clamp_u8 g 0 100 100 = g) as Hcl.
  { unfold clamp_u8. destruct (Z.ltb_spec g 0), (Z.ltb_spec 100 g); simpl; try lia. rewrite u8_small; lia. }
  assert (forall x, 0 <= x <= 255 -> u8 (x * g / 100) = x * g / 100 /\ 0 <= x * g / 100 <= 255) as E
    by (intros x Hx; pose proof (scale_range x g); rewrite u8_small; lia).
  pose proof (E strong Hs) as [Es Rs]. pose proof (E weak Hw) as [Ew Rw].
  pose proof (E _ Rs) as [Es2 _]. pose proof (E _ Rw) as [Ew2 _].
  assert (forall x : controller_t, ctype x = TYPE_DUALSENSE -> is_bluetooth x = false ->
    output_report crc x = Some (build_dualsense_usb_report (output_view x))) as Hrep
    by (intros x Hx Hxb; unfold output_report; by rewrite Hx, Hxb).
  rewrite (Hrep s Ht Hb), (Hrep u Ht Hb).
  assert (forall v, aget 0 (build_dualsense_usb_report v) 4 = rumble_strong v /\
                    aget 0 (build_dualsense_usb_report v) 3 = rumble_weak v) as Hv by done.
  destruct (Hv (output_view s)) as [-> ->]. destruct (Hv (output_view u)) as [-> ->].
  assert (rumble_strong s = u8 (strong * rumble_gain slot / 100) /\
          rumble_weak s = u8 (weak * rumble_gain slot / 100) /\ rumble_gain s = rumble_gain slot)
    as (S1 & S2 & S3) by done.
  assert (forall x, rumble_strong (output_view x) = u8 (rumble_strong x * clamp_u8 (rumble_gain x) 0 100 100 / 100)
    /\ rumble_weak (output_view x) = u8 (rumble_weak x * clamp_u8 (rumble_gain x) 0 100 100 / 100))
    as Hview by done.
  destruct (Hview s) as [-> ->]. destruct (Hview u) as [-> ->].
  rewrite S1, S2, S3. change (rumble_gain u) with (rumble_gain slot). rewrite Hgain, Hcl, Es, Ew.
  change (rumble_strong u) with strong. change (rumble_weak u) with weak. auto.
Qed.

Example uhid_gain_applied_twice_witness :
  match output_report (fun c _ => c)
          (uhid_handle_output (UHID_OUTPUT 3 [1; 200; 100])
             (zero_controller {{ ctype := TYPE_DUALSENSE; rumble_gain := 50 }})) with
  | Some r => aget 0 r 4 = 50
  | None => False
  end.
Proof.
  pose proof (uhid_gain_applied_twice 200 100 [] 50
    (zero_controller {{ ctype := TYPE_DUALSENSE; rumble_gain := 50 }}) (fun c _ => c)
    ltac:(lia) ltac:(lia) ltac:(lia) eq_refl eq_refl eq_refl) as H.
  cbv zeta in H.
  destruct (output_report (fun c _ => c) (uhid_handle_output _ _)); [|exact H].
  destruct (output_report (fun c _ => c) _); [exact (proj1 H) | contradiction].
Defined.
