(* ===== verification/Led.v ===== *)
(** * LED effects: [src/dstx/src/led.c]

    The sine and easing tables, the nine effects, request processing and the
    per-slot update.  [cosf], [sinf], [fmod] and [fmodf] are parameters.  A table
    read outside its bounds or a call through the effect table outside its
    bounds is undefined in C; the model returns [None] there. *)

From S2P Require Import Prelude Float Types.

Definition MAX_SPEED : Z := 10.
Definition MIN_SPEED : Z := 1.
Definition MAX_BRIGHTNESS : Z := 100.
Definition MIN_BRIGHTNESS : Z := 1.
Definition RATE_LIMIT_US : Z := 8000.
Definition EASING_TABLE_SIZE : Z := 256.
Definition SIN_TABLE_SIZE : Z := 360.

(** [led_effect_t]; requests carry it as a number. *)
Inductive led_effect_t : Set :=
| LEDFX_STATIC | LEDFX_BREATH | LEDFX_RAINBOW | LEDFX_PULSE | LEDFX_STROBE
| LEDFX_WAVE | LEDFX_BATTERY | LEDFX_TRIGGER | LEDFX_BUTTON_PRESS.
Definition LEDFX_COUNT : Z := 9.
#[export] Instance led_effect_eq_dec : EqDecision led_effect_t.
Proof. solve_decision. Defined.
Definition led_effect_of (v : Z) : option led_effect_t :=
  match v with
  | 0 => Some LEDFX_STATIC | 1 => Some LEDFX_BREATH | 2 => Some LEDFX_RAINBOW
  | 3 => Some LEDFX_PULSE | 4 => Some LEDFX_STROBE | 5 => Some LEDFX_WAVE
  | 6 => Some LEDFX_BATTERY | 7 => Some LEDFX_TRIGGER | 8 => Some LEDFX_BUTTON_PRESS
  | _ => None
  end.

Inductive easing_type_t : Set :=
| EASING_LINEAR | EASING_SINE_IN_OUT | EASING_SINE_CYCLE | EASING_QUAD_IN_OUT
| EASING_CUBIC_IN_OUT.

(** [led_slot_state_t]: [current_effect] is kept as its number. *)
#[projections(primitive)]
Record led_slot_state_t := mk_led_state {
  current_effect : Z;
  start_time_sec : float;
  speed : Z;
  brightness : Z;
  active : bool;
  last_write : timeval;
  last_r : Z; last_g : Z; last_b : Z }.
Definition eta_led_slot_state_t (r : led_slot_state_t) : led_slot_state_t :=
  mk_led_state (current_effect r) (start_time_sec r) (speed r) (brightness r) (active r)
    (last_write r) (last_r r) (last_g r) (last_b r).
#[export] Instance set_current_effect : Setter current_effect. Proof. mk_setter eta_led_slot_state_t. Defined.
#[export] Instance set_start_time_sec : Setter start_time_sec. Proof. mk_setter eta_led_slot_state_t. Defined.
#[export] Instance set_speed : Setter speed. Proof. mk_setter eta_led_slot_state_t. Defined.
#[export] Instance set_brightness : Setter brightness. Proof. mk_setter eta_led_slot_state_t. Defined.
#[export] Instance set_active : Setter active. Proof. mk_setter eta_led_slot_state_t. Defined.
#[export] Instance set_last_write : Setter last_write. Proof. mk_setter eta_led_slot_state_t. Defined.
#[export] Instance set_last_r : Setter last_r. Proof. mk_setter eta_led_slot_state_t. Defined.
#[export] Instance set_last_g : Setter last_g. Proof. mk_setter eta_led_slot_state_t. Defined.
#[export] Instance set_last_b : Setter last_b. Proof. mk_setter eta_led_slot_state_t. Defined.

Definition led_state0 : led_slot_state_t :=
  mk_led_state 0 (f64_of_Z 0) 5 80 false tv_zero 0 0 0.

(** ** Speed *)
Definition g_speed_multipliers : list (led_effect_t * float) :=
  [(LEDFX_BREATH, f32_lit 1 1); (LEDFX_RAINBOW, f32_lit 1 1); (LEDFX_PULSE, f32_lit 1 1);
   (LEDFX_STROBE, f32_lit 8 1); (LEDFX_WAVE, f32_lit 12 10); (LEDFX_BATTERY, f32_lit 8 10);
   (LEDFX_TRIGGER, f32_lit 0 1); (LEDFX_BUTTON_PRESS, f32_lit 0 1)].

Definition get_speed_multiplier_for_effect (effect : led_effect_t) : float :=
  match List.find (fun p => bool_decide (p.1 = effect)) g_speed_multipliers with
  | Some p => p.2
  | None => f32_lit 1 1
  end.

Definition get_base_speed_multiplier (speed : Z) : float :=
  let t := f32_div (f32_of_Z (speed - MIN_SPEED)) (f32_of_Z (MAX_SPEED - MIN_SPEED)) in
  f32_add (f32_lit 5 100) (f32_mul t (f32_sub (f32_lit 12 10) (f32_lit 5 100))).

Definition easing_linear (t : float) : float := t.
Definition easing_quad_in_out (t : float) : float :=
  if flt t (f32_lit 1 2) then f32_mul (f32_mul (f32_of_Z 2) t) t
  else
    let t := f32_mul (f32_of_Z 2) (f32_sub (f32_of_Z 1) t) in
    f32_sub (f32_of_Z 1) (f32_div (f32_mul t t) (f32_of_Z 2)).
Definition easing_cubic_in_out (t : float) : float :=
  if flt t (f32_lit 1 2) then f32_mul (f32_mul (f32_mul (f32_of_Z 4) t) t) t
  else
    let t := f32_mul (f32_of_Z 2) (f32_sub (f32_of_Z 1) t) in
    f32_sub (f32_of_Z 1) (f32_div (f32_mul (f32_mul t t) t) (f32_of_Z 2)).

Section libm.
Context (cosf sinf : float -> float) (fmod fmodf : float -> float -> float).

(** A mixed expression is evaluated in double and passed back as float. *)
Definition easing_sine_in_out (t : float) : float :=
  f32_div (f32_sub (f32_of_Z 1) (cosf (f32_of_f64 (f64_mul (f64_of_f32 t) M_PI)))) (f32_of_Z 2).
Definition easing_sine_cycle (t : float) : float :=
  f32_mul (f32_lit 1 2)
    (f32_sub (f32_of_Z 1)
       (cosf (f32_of_f64 (f64_mul (f64_mul (f64_of_Z 2) M_PI) (f64_of_f32 t))))).

Definition easing_fun (type : easing_type_t) : float -> float :=
  match type with
  | EASING_LINEAR => easing_linear
  | EASING_SINE_IN_OUT => easing_sine_in_out
  | EASING_SINE_CYCLE => easing_sine_cycle
  | EASING_QUAD_IN_OUT => easing_quad_in_out
  | EASING_CUBIC_IN_OUT => easing_cubic_in_out
  end.

(** The tables [init_tables] fills, entry by entry. *)
Definition g_sin_table (i : Z) : float :=
  sinf (f32_of_f64 (f64_div (f64_mul (f64_of_Z i) M_PI) (f64_of_Z 180))).
Definition g_easing_tables (type : easing_type_t) (i : Z) : float :=
  easing_fun type (f32_div (f32_of_Z i) (f32_of_Z (EASING_TABLE_SIZE - 1))).

Definition fast_sinf (degrees : float) : float :=
  let idx := Z.rem (i32_of_float degrees) SIN_TABLE_SIZE in
  g_sin_table (if idx <? 0 then idx + SIN_TABLE_SIZE else idx).

Definition easing_apply (type : easing_type_t) (t : float) : option float :=
  if fle t (f32_of_Z 0) then Some (g_easing_tables type 0)
  else if fge t (f32_of_Z 1) then Some (g_easing_tables type (EASING_TABLE_SIZE - 1))
  else
    let pos := f32_mul t (f32_of_Z (EASING_TABLE_SIZE - 1)) in
    let idx := i32_of_float pos in
    if (idx <? 0) || (EASING_TABLE_SIZE <=? idx + 1) then None
    else
      let frac := f32_sub pos (f32_of_Z idx) in
      let a := g_easing_tables type idx in
      let b := g_easing_tables type (idx + 1) in
      Some (f32_add a (f32_mul frac (f32_sub b a))).

(** ** Effects: a colour from the state, the slot and the phase *)

Definition rgb : Type := Z * Z * Z.
Definition base_times (slot : controller_t) (k : float) : rgb :=
  (u8_of_float (f32_mul (f32_of_Z (led_base_r slot)) k),
   u8_of_float (f32_mul (f32_of_Z (led_base_g slot)) k),
   u8_of_float (f32_mul (f32_of_Z (led_base_b slot)) k)).
(** [state->brightness / 100.0f]. *)
Definition unit_brightness (state : led_slot_state_t) : float :=
  f32_div (f32_of_Z (brightness state)) (f32_of_Z 100).
(** [state->brightness * factor / 100.0f]. *)
Definition factor_brightness (state : led_slot_state_t) (factor : float) : float :=
  f32_div (f32_mul (f32_of_Z (brightness state)) factor) (f32_of_Z 100).
(** [fmod(phase, 360.0f) / 360.0f] stored in a float. *)
Definition cycle_of (phase : float) : float :=
  f32_of_f64 (f64_div (fmod phase (f64_of_Z 360)) (f64_of_Z 360)).
(** [phase * M_PI / 180.0f] stored in a float. *)
Definition radians_of (phase : float) : float :=
  f32_of_f64 (f64_div (f64_mul phase M_PI) (f64_of_Z 180)).

Definition effect_static (state : led_slot_state_t) (slot : controller_t) : rgb :=
  base_times slot (unit_brightness state).

Definition effect_breath (state : led_slot_state_t) (slot : controller_t) (phase : float)
  : option rgb :=
  factor ← easing_apply EASING_SINE_CYCLE (cycle_of phase);
  Some (base_times slot (factor_brightness state factor)).

Definition effect_rainbow (state : led_slot_state_t) (phase : float) : rgb :=
  let h := f32_of_f64 phase in
  let v := unit_brightness state in
  let c := f32_mul v (f32_of_Z 1) in
  let x := f32_mul c
             (f32_sub (f32_of_Z 1)
                (fabs_ (f32_sub (fmodf (f32_div h (f32_of_Z 60)) (f32_of_Z 2)) (f32_of_Z 1)))) in
  let m := f32_sub v c in
  let z := f32_of_Z 0 in
  let '(rf, gf, bf) :=
    if flt h (f32_of_Z 60) then (c, x, z)
    else if flt h (f32_of_Z 120) then (x, c, z)
    else if flt h (f32_of_Z 180) then (z, c, x)
    else if flt h (f32_of_Z 240) then (z, x, c)
    else if flt h (f32_of_Z 300) then (x, z, c)
    else (c, z, x) in
  let byte f := u8_of_float (f32_mul (f32_add f m) (f32_of_Z 255)) in
  (byte rf, byte gf, byte bf).

Definition effect_pulse (state : led_slot_state_t) (slot : controller_t) (phase : float) : rgb :=
  let factor := f32_div (f32_add (sinf (radians_of phase)) (f32_of_Z 1)) (f32_of_Z 2) in
  let factor := f32_add (f32_lit 2 10) (f32_mul factor (f32_lit 8 10)) in
  base_times slot (factor_brightness state factor).

Definition effect_strobe (state : led_slot_state_t) (slot : controller_t) (phase : float) : rgb :=
  if flt (fmod phase (f64_of_Z 360)) (f64_of_Z 180)
  then base_times slot (unit_brightness state) else (0, 0, 0).

Definition effect_wave (state : led_slot_state_t) (phase : float) : rgb :=
  let rad := radians_of phase in
  let k := unit_brightness state in
  let shifted n := f32_of_f64 (f64_add (f64_of_f32 rad) (f64_div (f64_mul (f64_of_Z n) M_PI) (f64_of_Z 3))) in
  let byte a := u8_of_float
    (f32_mul (f32_add (f32_of_Z 128) (f32_mul (f32_of_Z 127) (sinf a))) k) in
  (byte rad, byte (shifted 2), byte (shifted 4)).

Definition effect_battery (state : led_slot_state_t) (slot : controller_t) (phase : float)
  : option rgb :=
  let k := unit_brightness state in
  let byte n := u8_of_float (f32_mul (f32_of_Z n) k) in
  if 80 <=? battery slot then Some (0, byte 255, 0)
  else if 50 <=? battery slot then Some (byte 255, byte 255, 0)
  else if 20 <=? battery slot then Some (byte 255, byte 165, 0)
  else
    factor ← easing_apply EASING_SINE_CYCLE (cycle_of phase);
    Some (u8_of_float (f32_mul (f32_mul (f32_of_Z 255) k) factor), 0, 0).

Definition effect_trigger (state : led_slot_state_t) (slot : controller_t) : rgb :=
  let lt := if 0 <? LT slot then LT slot else 0 in
  let rt := if 0 <? RT slot then RT slot else 0 in
  let max_trigger := if rt <? lt then lt else rt in
  if 0 <? max_trigger
  then base_times slot
         (f32_mul (f32_div (f32_of_Z max_trigger) (f32_of_Z 255)) (unit_brightness state))
  else (0, 0, 0).

Definition any_button_pressed (slot : controller_t) : bool :=
  existsb truthy
    [cross slot; circle slot; square slot; triangle slot; L1 slot; R1 slot; L2 slot; R2 slot;
     Share slot; Options slot; PS slot; L3 slot; R3 slot; touch_btn slot].

Definition effect_button (state : led_slot_state_t) (slot : controller_t) : rgb :=
  if any_button_pressed slot then base_times slot (unit_brightness state) else (0, 0, 0).

(** [g_effects[effect].update]. *)
Definition effect_update (effect : led_effect_t) (state : led_slot_state_t) (slot : controller_t)
  (phase : float) : option rgb :=
  match effect with
  | LEDFX_STATIC => Some (effect_static state slot)
  | LEDFX_BREATH => effect_breath state slot phase
  | LEDFX_RAINBOW => Some (effect_rainbow state phase)
  | LEDFX_PULSE => Some (effect_pulse state slot phase)
  | LEDFX_STROBE => Some (effect_strobe state slot phase)
  | LEDFX_WAVE => Some (effect_wave state phase)
  | LEDFX_BATTERY => effect_battery state slot phase
  | LEDFX_TRIGGER => Some (effect_trigger state slot)
  | LEDFX_BUTTON_PRESS => Some (effect_button state slot)
  end.

(** ** Requests and updates *)

(** [g_slot_state] and [g_initialized]. *)
Record ledfx_state := mk_ledfx { g_slot_state : list led_slot_state_t; g_ready : bool }.

Definition ledfx_init (st : ledfx_state) : ledfx_state :=
  if g_ready st then st else mk_ledfx (repeat led_state0 MAX_SLOTS) true.
Definition ledfx_cleanup (st : ledfx_state) : ledfx_state := mk_ledfx (g_slot_state st) false.

Definition led_get (st : list led_slot_state_t) (i : Z) : led_slot_state_t := aget led_state0 st i.

(** The handling of a pending request of one slot ([sec], [tv]: the clocks). *)
Definition led_request_slot (sec : float) (tv : timeval) (slot : controller_t)
  (state : led_slot_state_t) : controller_t * led_slot_state_t :=
  if negb (connected slot) then (slot, state)
  else if negb (led_request_pending slot) then (slot, state)
  else
    let effect := led_request_effect slot in
    let sp := led_request_speed slot in
    let br := led_request_brightness slot in
    let slot := slot {{ led_request_pending := false }} in
    let sp := if (sp <? MIN_SPEED) || (MAX_SPEED <? sp) then 5 else sp in
    let br := if (br <? MIN_BRIGHTNESS) || (MAX_BRIGHTNESS <? br) then 80 else br in
    if effect =? 0 then
      (slot {{ led_static := true; led_r := led_base_r slot; led_g := led_base_g slot;
               led_b := led_base_b slot; led_dirty := true }},
       state {{ active := false }})
    else if (0 <? effect) && (effect <? LEDFX_COUNT) then
      let slot := slot {{ led_static := false }} in
      let slot := if (effect =? 7) || (effect =? 8)
                  then slot {{ led_r := 0; led_g := 0; led_b := 0 }} else slot in
      (slot {{ led_dirty := true }},
       state {{ active := true; current_effect := effect; speed := sp; brightness := br;
                start_time_sec := sec; last_write := tv; last_r := 0; last_g := 0; last_b := 0 }})
    else (slot, state).

Definition ledfx_process_requests (sec : Z -> float) (tv : Z -> timeval) (shm : shared_data_t)
  (st : ledfx_state) : shared_data_t * ledfx_state :=
  if negb (g_ready st) then (shm, st)
  else
    let '(shm, states) :=
      fold_idx (fun i acc =>
          let (slot, state) := led_request_slot (sec i) (tv i) (get_slot acc.1 i) (led_get acc.2 i) in
          (put_slot acc.1 i slot, aset acc.2 i state))
        MAX_SLOTS (shm, g_slot_state st) in
    (shm, mk_ledfx states true).

(** The new slot and state, and whether the colour changed. *)
Definition led_update (current_time : float) (now_tv : timeval) (slot : controller_t)
  (state : led_slot_state_t) : option (controller_t * led_slot_state_t * bool) :=
  if negb (connected slot) || led_static slot || negb (active state) then Some (slot, state, false)
  else
    let elapsed_us := tv_diff_us now_tv (last_write state) in
    let is_first_frame := (tv_sec (last_write state) =? 0) && (tv_usec (last_write state) =? 0) in
    let cache_reset := (last_r state =? 0) && (last_g state =? 0) && (last_b state =? 0) in
    if negb is_first_frame && negb cache_reset && (elapsed_us <? RATE_LIMIT_US)
    then Some (slot, state, false)
    else
      effect ← led_effect_of (current_effect state);
      let final_speed := f32_mul (get_base_speed_multiplier (speed state))
                           (get_speed_multiplier_for_effect effect) in
      let elapsed := f64_sub current_time (start_time_sec state) in
      let phase := fmod (f64_mul (f64_mul elapsed (f64_of_f32 final_speed)) (f64_of_Z 360))
                     (f64_of_Z 360) in
      '(r, g, b) ← effect_update effect state slot phase;
      if negb (r =? last_r state) || negb (g =? last_g state) || negb (b =? last_b state) then
        Some (slot {{ led_r := r; led_g := g; led_b := b; led_dirty := true }},
              state {{ last_r := r; last_g := g; last_b := b; last_write := now_tv }}, true)
      else Some (slot, state, false).

Definition ledfx_update_slot (slot_idx : Z) (current_time : float) (now_tv : timeval)
  (shm : shared_data_t) (st : ledfx_state) : option (shared_data_t * ledfx_state * bool) :=
  if negb (g_ready st) then Some (shm, st, false)
  else if (slot_idx <? 0) || (Z.of_nat MAX_SLOTS <=? slot_idx) then Some (shm, st, false)
  else
    '(slot, state, changed) ←
      led_update current_time now_tv (get_slot shm slot_idx) (led_get (g_slot_state st) slot_idx);
    Some (put_slot shm slot_idx slot, mk_ledfx (aset (g_slot_state st) slot_idx state) true, changed).
End libm.

Definition ledfx_get_effect_name (effect : Z) : string :=
  match led_effect_of effect with
  | Some LEDFX_STATIC => "STATIC" | Some LEDFX_BREATH => "BREATH"
  | Some LEDFX_RAINBOW => "RAINBOW" | Some LEDFX_PULSE => "PULSE"
  | Some LEDFX_STROBE => "STROBE" | Some LEDFX_WAVE => "WAVE"
  | Some LEDFX_BATTERY => "BATTERY" | Some LEDFX_TRIGGER => "TRIGGER"
  | Some LEDFX_BUTTON_PRESS => "BUTTON" | None => "UNKNOWN"
  end.

(** * Lemmas *)

(** What the effect state of a slot satisfies: an active effect is one of the
    eight dynamic ones, speed and brightness are in range. *)
Definition led_state_ok (s : led_slot_state_t) : Prop :=
  (active s = true -> 1 <= current_effect s < LEDFX_COUNT) /\
  1 <= speed s <= 10 /\ 1 <= brightness s <= 100.

Lemma led_state0_ok : led_state_ok led_state0.
Proof. split; [done|]. split; vm_compute; split; discriminate. Qed.

Lemma led_start_ok s e sp br sec tv :
  0 < e < LEDFX_COUNT -> 1 <= sp <= 10 -> 1 <= br <= 100 ->
  led_state_ok (s {{ active := true; current_effect := e; speed := sp; brightness := br;
    start_time_sec := sec; last_write := tv; last_r := 0; last_g := 0; last_b := 0 }}).
Proof. intros He Hs Hb. split; [intros _; change (1 <= e < LEDFX_COUNT); lia|]. exact (conj Hs Hb). Qed.
Lemma led_stop_ok s : led_state_ok s -> led_state_ok (s {{ active := false }}).
Proof. intros (_ & H). split; [done | exact H]. Qed.

Lemma led_request_slot_ok sec tv slot state :
  led_state_ok state -> led_state_ok (led_request_slot sec tv slot state).2.
Proof.
  intros H. unfold led_request_slot. cbv zeta.
  destruct (negb (connected slot)); [done|].
  destruct (negb (led_request_pending slot)); [done|].
  destruct (led_request_effect slot =? 0); [by apply led_stop_ok|].
  destruct ((0 <? led_request_effect slot) && (led_request_effect slot <? LEDFX_COUNT)) eqn:E; [|done].
  zprop. apply led_start_ok; [lia| |].
  - destruct ((led_request_speed slot <? MIN_SPEED) || (MAX_SPEED <? led_request_speed slot)) eqn:Es; [lia|].
    unfold MIN_SPEED, MAX_SPEED in Es. zprop. lia.
  - destruct ((led_request_brightness slot <? MIN_BRIGHTNESS) || (MAX_BRIGHTNESS <? led_request_brightness slot)) eqn:Eb; [lia|].
    unfold MIN_BRIGHTNESS, MAX_BRIGHTNESS in Eb. zprop. lia.
Qed.

(** A pending request of a connected slot is consumed; its colour becomes dirty
    unless the effect number is unknown. *)
Lemma led_request_slot_pending sec tv slot state :
  connected slot = true ->
  led_request_pending (led_request_slot sec tv slot state).1 = false.
Proof.
  intros Hc. unfold led_request_slot. cbv zeta. rewrite Hc. cbn [negb].
  destruct (led_request_pending slot) eqn:E; cbn [negb]; [|done].
  destruct (led_request_effect slot =? 0); [done|].
  destruct (_ && _); [|done]. by destruct (_ || _).
Qed.

Lemma length_fold_requests sec tv n shm states :
  let r := fold_idx (fun i acc =>
      let (slot, state) := led_request_slot (sec i) (tv i) (get_slot acc.1 i) (led_get acc.2 i) in
      (put_slot acc.1 i slot, aset acc.2 i state)) n (shm, states) in
  length (slots r.1) = length (slots shm) /\ length r.2 = length states.
Proof.
  induction n as [|n IH]; [done|]. cbv zeta in *. rewrite fold_idx_S.
  set (acc := fold_idx _ n _) in *.
  destruct (led_request_slot _ _ _ _) as [slot state]. simpl fst. simpl snd.
  by rewrite length_put_slot, length_aset.
Qed.

(** The loop treats each slot on its own. *)
Lemma fold_requests_get sec tv n shm states j :
  0 <= j -> (n <= length (slots shm))%nat -> (n <= length states)%nat ->
  let r := fold_idx (fun i acc =>
      let (slot, state) := led_request_slot (sec i) (tv i) (get_slot acc.1 i) (led_get acc.2 i) in
      (put_slot acc.1 i slot, aset acc.2 i state)) n (shm, states) in
  (get_slot r.1 j, led_get r.2 j) =
    if j <? Z.of_nat n then led_request_slot (sec j) (tv j) (get_slot shm j) (led_get states j)
    else (get_slot shm j, led_get states j).
Proof.
  intros Hj. induction n as [|n IH]; intros Hl Hs.
  { change (Z.of_nat 0) with 0. destruct (Z.ltb_spec j 0); [lia | done]. }
  specialize (IH ltac:(lia) ltac:(lia)). cbv zeta in *. rewrite fold_idx_S.
  pose proof (length_fold_requests sec tv n shm states) as [L1 L2]. cbv zeta in L1, L2.
  set (acc := fold_idx _ n _) in *.
  destruct (Z.eq_dec j (Z.of_nat n)) as [->|Hne].
  - destruct (Z.ltb_spec (Z.of_nat n) (Z.of_nat n)); [lia|]. injection IH as IH1 IH2.
    rewrite IH1, IH2. destruct (led_request_slot _ _ _ _) as [slot state]. simpl fst. simpl snd.
    destruct (Z.ltb_spec (Z.of_nat n) (Z.of_nat (S n))); [|lia].
    rewrite get_put_slot_eq by lia. unfold led_get. by rewrite aget_aset_eq by lia.
  - destruct (led_request_slot (sec (Z.of_nat n)) _ _ _) as [slot state]. simpl fst. simpl snd.
    rewrite get_put_slot_ne by lia. unfold led_get. rewrite aget_aset_ne by lia.
    change (aget led_state0 acc.2 j) with (led_get acc.2 j). rewrite IH.
    destruct (Z.ltb_spec j (Z.of_nat n)), (Z.ltb_spec j (Z.of_nat (S n))); (done || lia).
Qed.

(** ** The easing index *)

Lemma Zdigits2_lt m d : 0 < m -> Zdigits2 m <= d -> m < 2 ^ d.
Proof.
  intros Hm Hd. destruct m as [|p|p]; try lia. unfold Zdigits2 in Hd.
  assert (forall q, Zpos q < 2 ^ Zpos (digits2_pos q)) as Hq.
  { clear. induction q as [q IH|q IH|]; simpl digits2_pos; try lia.
    all: rewrite Pos2Z.inj_succ, Z.pow_succ_r by lia; lia. }
  specialize (Hq p). assert (2 ^ Zpos (digits2_pos p) <= 2 ^ d) by (apply Z.pow_le_mono_r; lia). lia.
Qed.

(** Product of a float below one by 255, by cases on its mantissa. *)
Lemma round_below_255 m e :
  0 < m -> e <= -40 -> m * 2 ^ (e + 200) <= (2 ^ 24 - 2) * 255 * 2 ^ (200 - 24) ->
  -200 <= e ->
  0 <= i32_of_float (binary_round_aux 24 128 false m e loc_Exact) <= 254.
Proof.
  intros Hm He HV He2. unfold binary_round_aux.
  pose proof (shr_fexp_spec m e loc_Exact ltac:(lia) ltac:(lia)) as H1.
  destruct (shr_fexp 24 128 m e loc_Exact) as [r1 e1]. destruct H1 as (He1 & Hr1 & HV1).
  rewrite fexp24_max in He1.
  pose proof (round_nearest_even_bound (shr_m r1) (loc_of_shr_record r1) Hr1) as Hrn.
  set (m1 := round_nearest_even _ _) in *.
  pose proof (shr_fexp_spec m1 e1 loc_Exact ltac:(lia) ltac:(lia)) as H2.
  destruct (shr_fexp 24 128 m1 e1 loc_Exact) as [r2 e2]. destruct H2 as (He3 & Hr2 & HV2).
  rewrite fexp24_max in He3.
  assert (e1 <= -16) as Hle.
  { assert (Zdigits2 m + e <= 8) as Hd; [|lia].
    pose proof (Zdigits2_le m Hm) as Hdl. assert (1 <= Zdigits2 m) by (destruct m; simpl; lia).
    enough (Zdigits2 m - 1 + (e + 200) < 208) by lia.
    apply (Z.pow_lt_mono_r_iff 2); [lia | lia |]. rewrite Z.pow_add_r by lia.
    assert ((2 ^ 24 - 2) * 255 * 2 ^ (200 - 24) < 2 ^ 208) by reflexivity. nia. }
  assert (m1 * 2 ^ (e1 + 200) < 255 * 2 ^ 200) as HV3.
  { assert (2 ^ (e1 + 200) <= 2 ^ 184) by (apply Z.pow_le_mono_r; lia).
    assert ((2 ^ 24 - 2) * 255 * 2 ^ (200 - 24) + 2 ^ 184 < 255 * 2 ^ 200) by reflexivity. nia. }
  destruct (shr_m r2) as [|p|p] eqn:Ep; [done | | lia].
  destruct (Z.leb_spec e2 (128 - 24)) as [Hle2|Hgt].
  2:{ exfalso. assert (2 ^ 304 <= 2 ^ (e2 + 200)) by (apply Z.pow_le_mono_r; lia).
      assert (255 * 2 ^ 200 < 2 ^ 304) by reflexivity. nia. }
  unfold i32_of_float, ftrunc.
  set (a := if 0 <=? e2 then Zpos p * 2 ^ e2 else Zpos p / 2 ^ (- e2)).
  assert (0 <= a <= 254) as Ha.
  { unfold a. destruct (Z.leb_spec 0 e2) as [Hp|Hn].
    - rewrite (Z.pow_add_r 2 e2) in HV2 by lia. nia.
    - split; [apply Z.div_pos; lia|].
      enough (Zpos p / 2 ^ (- e2) < 255) by lia. apply Z.div_lt_upper_bound; [lia|].
      apply (Z.mul_lt_mono_pos_r (2 ^ (e2 + 200))); [apply Z.pow_pos_nonneg; lia|].
      replace (2 ^ (- e2) * 255 * 2 ^ (e2 + 200)) with (255 * (2 ^ (- e2) * 2 ^ (e2 + 200))) by ring.
      rewrite <- Z.pow_add_r by lia. replace (- e2 + (e2 + 200)) with 200 by lia. lia. }
  destruct (Z.leb_spec (- 2 ^ 31) a), (Z.ltb_spec a (2 ^ 31)); simpl; lia.
Qed.

Lemma easing_index t :
  valid_binary 24 128 t = true -> is_nan t = false ->
  fle t (f32_of_Z 0) = false -> fge t (f32_of_Z 1) = false ->
  0 <= i32_of_float (f32_mul t (f32_of_Z 255)) <= 254.
Proof.
  change (f32_of_Z 0) with (S754_zero false). change (f32_of_Z 1) with (S754_finite false 8388608 (-23)).
  change (f32_of_Z 255) with (S754_finite false 16711680 (-16)).
  intros Hv Hn Hle Hge.
  destruct t as [s|[]| |[] m e]; try discriminate.
  simpl in Hv. apply andb_prop in Hv as [Hc _]. unfold canonical_mantissa in Hc.
  apply Z.eqb_eq in Hc. rewrite fexp24_max in Hc.
  unfold fge, fle, SFleb, SFcompare in Hge.
  assert (e <= -23) as He
    by (destruct (Z.compare_spec (-23) e); [lia | discriminate Hge | lia]).
  assert (Zpos m < 2 ^ 24) as Hm.
  { apply Zdigits2_lt; [lia|]. change (Zdigits2 (Zpos m)) with (Zpos (digits2_pos m)). lia. }
  assert (e = -23 -> Zpos m < 8388608) as Hm23.
  { intros ->. simpl in Hge. destruct (Pos.compare_cont Eq 8388608 m) eqn:Ec; try discriminate Hge.
    change ((8388608 ?= m)%positive = Gt) in Ec. apply Pos.compare_gt_iff in Ec. exact Ec. }
  assert (e <= -24) as He24.
  { destruct (Z.eq_dec e (-23)) as [->|]; [|lia]. specialize (Hm23 eq_refl).
    exfalso. assert (Zpos (digits2_pos m) = 24) as Hd by lia.
    pose proof (Zdigits2_le (Zpos m) ltac:(lia)) as Hl.
    change (Zdigits2 (Zpos m)) with (Zpos (digits2_pos m)) in Hl. rewrite Hd in Hl. simpl in Hl. lia. }
  assert (-149 <= e) as Hemin by lia.
  unfold f32_mul, SFmul. simpl xorb.
  destruct (Z.eq_dec (Zpos m) 16777215) as [Em|Em].
  - injection Em as ->.
    destruct (Z.eq_dec e (-24)) as [->|]; [vm_compute; split; discriminate|].
    apply round_below_255; [lia | lia | | lia].
    replace (e + -16 + 200) with (e + 184) by lia.
    assert (2 ^ (e + 184) <= 2 ^ 159) by (apply Z.pow_le_mono_r; lia).
    assert (Zpos (16777215 * 16711680) * 2 ^ 159 <= (2 ^ 24 - 2) * 255 * 2 ^ (200 - 24)) by (vm_compute; discriminate).
    nia.
  - apply round_below_255; [lia | lia | | lia].
    replace (e + -16 + 200) with (e + 184) by lia.
    assert (2 ^ (e + 184) <= 2 ^ 160) by (apply Z.pow_le_mono_r; lia).
    assert (0 < 2 ^ (e + 184)) by (apply Z.pow_pos_nonneg; lia).
    rewrite Pos2Z.inj_mul.
    assert (Zpos m * 16711680 * 2 ^ (e + 184) <= 16777214 * 16711680 * 2 ^ 160) by nia.
    assert (16777214 * 16711680 * 2 ^ 160 = (2 ^ 24 - 2) * 255 * 2 ^ (200 - 24)) by reflexivity. lia.
Qed.

Lemma easing_apply_total cosf type t :
  valid_binary 24 128 t = true -> is_nan t = false ->
  exists v, easing_apply cosf type t = Some v.
Proof.
  intros Hv Hn. unfold easing_apply.
  destruct (fle t (f32_of_Z 0)) eqn:E1; [eauto|].
  destruct (fge t (f32_of_Z 1)) eqn:E2; [eauto|].
  pose proof (easing_index t Hv Hn E1 E2). unfold EASING_TABLE_SIZE. change (256 - 1) with 255.
  cbv zeta.
  destruct (Z.ltb_spec (i32_of_float (f32_mul t (f32_of_Z 255))) 0); [lia|].
  destruct (Z.leb_spec 256 (i32_of_float (f32_mul t (f32_of_Z 255)) + 1)); [lia|].
  eauto.
Qed.

Lemma led_get_aset st i s :
  0 <= i < Z.of_nat (length st) -> led_get (aset st i s) i = s.
Proof. apply aget_aset_eq. Qed.

Lemma led_update_spec cosf sinf fmod fmodf now tv slot state slot' state' changed :
  led_update cosf sinf fmod fmodf now tv slot state = Some (slot', state', changed) ->
  if changed : bool then
    connected slot = true /\ led_static slot = false /\ active state = true /\
    (led_r slot', led_g slot', led_b slot') <> (last_r state, last_g state, last_b state) /\
    slot' = slot {{ led_r := last_r state'; led_g := last_g state'; led_b := last_b state';
                    led_dirty := true }} /\
    last_write state' = tv /\
    ((last_r state, last_g state, last_b state) = (0, 0, 0) \/ last_write state = tv_zero \/
     RATE_LIMIT_US <= tv_diff_us tv (last_write state))
  else slot' = slot /\ state' = state.
Proof.
  unfold led_update. cbv zeta.
  destruct (connected slot) eqn:Ec, (led_static slot) eqn:Es, (active state) eqn:Ea;
    cbn [negb orb]; try (by intros [= <- <- <-]).
  destruct (_ && _ && _) eqn:Er; [by intros [= <- <- <-]|].
  destruct (led_effect_of (current_effect state)) as [e|]; [|done]. cbn [mbind option_bind].
  destruct (effect_update _ _ _ _ _ _ _ _) as [[[r g] b]|]; [|done]. cbn [mbind option_bind].
  destruct (negb (r =? last_r state) || negb (g =? last_g state) || negb (b =? last_b state)) eqn:Ed;
    [|by intros [= <- <- <-]].
  intros [= <- <- <-]. do 3 (split; [done|]). split.
  - intros [= E1 E2 E3]. change (r = last_r state) in E1. change (g = last_g state) in E2.
    change (b = last_b state) in E3. rewrite E1, E2, E3, !Z.eqb_refl in Ed. discriminate Ed.
  - split; [reflexivity|]. split; [reflexivity|].
    apply andb_false_iff in Er as [Er|Er].
    + apply andb_false_iff in Er as [Er|Er]; apply negb_false_iff in Er.
      * right. left. apply andb_prop in Er as [E1 E2]. zprop.
        destruct (last_write state) as [a b']. simpl in *. by subst.
      * left. zprop. congruence.
    + right. right. zprop. done.
Qed.

(** * Properties *)

(** Processing the pending LED requests leaves every slot's effect state well
    formed (an active effect is one of the eight dynamic ones, speed 1 to 10,
    brightness 1 to 100, whatever numbers the requests held), handles each slot
    independently of the others, consumes the request of every connected slot
    and leaves disconnected slots alone. *)
Theorem led_requests_sanitised sec tv shm st :
  g_ready st = true -> length (slots shm) = MAX_SLOTS -> length (g_slot_state st) = MAX_SLOTS ->
  Forall led_state_ok (g_slot_state st) ->
  let (shm', st') := ledfx_process_requests sec tv shm st in
  length (slots shm') = MAX_SLOTS /\ length (g_slot_state st') = MAX_SLOTS /\
  forall j, 0 <= j < Z.of_nat MAX_SLOTS ->
    led_state_ok (led_get (g_slot_state st') j) /\
    (connected (get_slot shm j) = true -> led_request_pending (get_slot shm' j) = false) /\
    (connected (get_slot shm j) = false ->
       get_slot shm' j = get_slot shm j /\
       led_get (g_slot_state st') j = led_get (g_slot_state st) j) /\
    (get_slot shm' j, led_get (g_slot_state st') j) =
      led_request_slot (sec j) (tv j) (get_slot shm j) (led_get (g_slot_state st) j).
Proof.
  intros Hr Hl Hs Hok. unfold ledfx_process_requests. rewrite Hr. cbn [negb].
  pose proof (length_fold_requests sec tv MAX_SLOTS shm (g_slot_state st)) as [L1 L2].
  pose proof (fun j Hj => fold_requests_get sec tv MAX_SLOTS shm (g_slot_state st) j Hj
    ltac:(lia) ltac:(lia)) as Hget.
  cbv zeta in *. destruct (fold_idx _ MAX_SLOTS _) as [shm' states]. cbn [fst snd g_slot_state] in *.
  rewrite L1, L2. split; [done|]. split; [done|]. intros j Hj.
  specialize (Hget j ltac:(lia)). destruct (Z.ltb_spec j (Z.of_nat MAX_SLOTS)); [|lia].
  assert (led_state_ok (led_get (g_slot_state st) j)) as Hj_ok
    by (unfold led_get; apply aget_Forall; [done | apply led_state0_ok]).
  pose proof (led_request_slot_ok (sec j) (tv j) (get_slot shm j) _ Hj_ok) as Hok'.
  pose proof (led_request_slot_pending (sec j) (tv j) (get_slot shm j)
    (led_get (g_slot_state st) j)) as Hp.
  rewrite <- Hget in Hok', Hp. split; [exact Hok'|]. split; [exact Hp|]. split; [|exact Hget].
  intros Hc. unfold led_request_slot in Hget. rewrite Hc in Hget. by injection Hget.
Qed.

Example led_requests_sanitised_witness :
  let slot := zero_controller {{ connected := true; led_request_pending := true;
                led_request_effect := 3; led_request_speed := 99; led_request_brightness := 0 }} in
  let shm := mk_shared_data 0 (repeat slot 4) false 0 0 false 0 0 EmptyString 0 EmptyString 0 0 EmptyString in
  let (shm', st') := ledfx_process_requests (fun _ => f64_of_Z 0) (fun _ => tv_zero) shm
                       (mk_ledfx (repeat led_state0 4) true) in
  led_state_ok (led_get (g_slot_state st') 2).
Proof.
  intros slot shm.
  pose proof (led_requests_sanitised (fun _ => f64_of_Z 0) (fun _ => tv_zero) shm
    (mk_ledfx (repeat led_state0 4) true) eq_refl eq_refl eq_refl) as H.
  destruct (ledfx_process_requests _ _ _ _) as [shm' st'].
  apply H; [|vm_compute; split; [discriminate | reflexivity]].
  repeat (apply Forall_cons_2; [apply led_state0_ok|]). constructor.
Defined.

(** An effect update changes the slot only when the computed colour differs
    from the last one it wrote, for a connected slot with an active dynamic
    effect; then it writes that colour, marks it dirty and remembers it, and the
    previous write was at least 8 ms before, unless the last colour was black or
    nothing was written yet; otherwise slot and state stay as they were. *)
Theorem led_update_writes_on_change cosf sinf fmod fmodf i now tv shm st shm' st' changed :
  length (slots shm) = MAX_SLOTS -> length (g_slot_state st) = MAX_SLOTS ->
  0 <= i < Z.of_nat MAX_SLOTS -> g_ready st = true ->
  ledfx_update_slot cosf sinf fmod fmodf i now tv shm st = Some (shm', st', changed) ->
  let slot := get_slot shm i in let slot' := get_slot shm' i in
  let s := led_get (g_slot_state st) i in let s' := led_get (g_slot_state st') i in
  if changed : bool then
    connected slot = true /\ led_static slot = false /\ active s = true /\
    (led_r slot', led_g slot', led_b slot') <> (last_r s, last_g s, last_b s) /\
    slot' = slot {{ led_r := last_r s'; led_g := last_g s'; led_b := last_b s'; led_dirty := true }} /\
    last_write s' = tv /\
    ((last_r s, last_g s, last_b s) = (0, 0, 0) \/ last_write s = tv_zero \/
     RATE_LIMIT_US <= tv_diff_us tv (last_write s))
  else slot' = slot /\ s' = s.
Proof.
  intros Hl Hs Hi Hr. unfold ledfx_update_slot. rewrite Hr. cbn [negb].
  destruct (Z.ltb_spec i 0), (Z.leb_spec (Z.of_nat MAX_SLOTS) i); try lia. cbn [orb].
  destruct (led_update _ _ _ _ _ _ _ _) as [[[slot' s'] ch]|] eqn:E; [|done].
  cbn [mbind option_bind]. intros [= <- <- <-].
  cbv zeta. rewrite get_put_slot_eq by lia. cbn [g_slot_state].
  rewrite led_get_aset by lia.
  exact (led_update_spec _ _ _ _ _ _ _ _ _ _ _ E).
Qed.

(** The interpolation of an easing table stays inside it: for every float
    that is a binary32 datum and not NaN, even the largest below 1, both
    entries it reads exist. *)
Theorem easing_in_bounds cosf type t :
  valid_binary 24 128 t = true -> is_nan t = false ->
  (exists v, easing_apply cosf type t = Some v) /\
  (fle t (f32_of_Z 0) = false -> fge t (f32_of_Z 1) = false ->
   0 <= i32_of_float (f32_mul t (f32_of_Z (EASING_TABLE_SIZE - 1))) /\
   i32_of_float (f32_mul t (f32_of_Z (EASING_TABLE_SIZE - 1))) + 1 < EASING_TABLE_SIZE).
Proof.
  intros Hv Hn. split; [by apply easing_apply_total|]. intros H0 H1.
  pose proof (easing_index t Hv Hn H0 H1). unfold EASING_TABLE_SIZE in *. change (256 - 1) with 255. lia.
Qed.

Example easing_in_bounds_witness :
  exists v, easing_apply (fun x => x) EASING_QUAD_IN_OUT (S754_finite false 16777215 (-24)) = Some v.
Proof. apply (easing_in_bounds (fun x => x) EASING_QUAD_IN_OUT); reflexivity. Defined.

Example led_update_writes_on_change_witness :
  let slot := zero_controller {{ connected := true; R1 := 1; led_base_r := 200 }} in
  let shm := mk_shared_data 0 (repeat slot 4) false 0 0 false 0 0 EmptyString 0 EmptyString 0 0 EmptyString in
  let s := led_state0 {{ active := true; current_effect := 8; brightness := 50 }} in
  exists shm' st', ledfx_update_slot (fun x => x) (fun x => x) (fun x _ => x) (fun x _ => x) 1
    (f64_of_Z 1) (mk_timeval 9 0) shm (mk_ledfx (repeat s 4) true) = Some (shm', st', true) /\
    led_r (get_slot shm' 1) = 100.
Proof.
  intros slot shm s.
  destruct (ledfx_update_slot (fun x => x) (fun x => x) (fun x _ => x) (fun x _ => x) 1
    (f64_of_Z 1) (mk_timeval 9 0) shm (mk_ledfx (repeat s 4) true)) as [[[shm' st'] []]|] eqn:E;
    [| exfalso; revert E; vm_compute; discriminate | exfalso; revert E; vm_compute; discriminate].
  exists shm', st'. split; [done|].
  pose proof (led_update_writes_on_change _ _ _ _ 1 _ _ shm (mk_ledfx (repeat s 4) true) shm' st' true
    eq_refl eq_refl ltac:(vm_compute; split; [discriminate | reflexivity]) eq_refl E)
    as (_ & _ & _ & _ & H & _).
  rewrite H. assert (last_r (led_get (g_slot_state st') 1) = 100) as Hr
    by (revert E; vm_compute; intros [= <- <-]; reflexivity).
  exact Hr.
Defined.
