(* ===== verification/Nsw.v ===== *)
(** * Nintendo Switch Pro: [src/dstx/src/nsw.c]

    Discovery of the evdev node, the per-slot context, event processing and
    forwarding to the virtual device, rumble through force feedback, monitoring
    and clean-up.  The [last_..] members of the context cache what the virtual
    device was last told. *)

From S2P Require Import Prelude Float Types Sys Keys Axes Drivers Uhid Output.
From Stdlib Require Import Ascii.

Definition NSW_RUMBLE_RATE_LIMIT_US : Z := 50000.
Definition NSW_UINPUT_RATE_LIMIT_US : Z := 4000.
Definition NSW_MAX_RUMBLE_LOGS : Z := 5.
Definition NSW_BT_OFFSET_LX : Z := 2545.
Definition NSW_BT_OFFSET_LY : Z := 2978.
Definition NSW_BT_OFFSET_RX : Z := 2438.
Definition NSW_BT_OFFSET_RY : Z := 2873.
Definition BTN_Z : Z := 0x135.

(** ** Context

    [connected], [uhid_fd], [lx], ... of the C structure carry a prefix where
    [controller_t] has a member of the same name. *)
#[projections(primitive)]
Record nsw_context_t := mk_nsw {
  event_fd : Z;
  inotify_fd : Z;
  inotify_wd : Z;
  effect_id : Z;
  nsw_connected : bool;
  initialized : bool;
  event_path : string;
  slot_index : Z;
  last_strong : Z;
  last_weak : Z;
  last_rumble_time : timeval;
  rumble_log_count : Z;
  last_rumble_log_time : timeval;
  last_cross : Z;
  last_circle : Z;
  last_square : Z;
  last_triangle : Z;
  last_l1 : Z;
  last_r1 : Z;
  last_l2 : Z;
  last_r2 : Z;
  last_share : Z;
  last_options : Z;
  last_ps : Z;
  last_l3 : Z;
  last_r3 : Z;
  last_lx : Z;
  last_ly : Z;
  last_rx : Z;
  last_ry : Z;
  last_lt : Z;
  last_rt : Z;
  last_hatx : Z;
  last_haty : Z;
  last_uinput_time : timeval;
  is_active : bool;
  thread_pid : Z;
  ctx_uhid_fd : Z;
  ctx_lx : Z;
  ctx_ly : Z;
  ctx_rx : Z;
  ctx_ry : Z;
  phy_raw : list Z
}.
Definition eta_nsw_context_t (r : nsw_context_t) : nsw_context_t := {| event_fd := event_fd r;
  inotify_fd := inotify_fd r; inotify_wd := inotify_wd r; effect_id := effect_id r;
  nsw_connected := nsw_connected r; initialized := initialized r; event_path := event_path r;
  slot_index := slot_index r; last_strong := last_strong r; last_weak := last_weak r;
  last_rumble_time := last_rumble_time r; rumble_log_count := rumble_log_count r;
  last_rumble_log_time := last_rumble_log_time r; last_cross := last_cross r; last_circle :=
  last_circle r; last_square := last_square r; last_triangle := last_triangle r; last_l1 :=
  last_l1 r; last_r1 := last_r1 r; last_l2 := last_l2 r; last_r2 := last_r2 r; last_share :=
  last_share r; last_options := last_options r; last_ps := last_ps r; last_l3 := last_l3 r;
  last_r3 := last_r3 r; last_lx := last_lx r; last_ly := last_ly r; last_rx := last_rx r;
  last_ry := last_ry r; last_lt := last_lt r; last_rt := last_rt r; last_hatx := last_hatx r;
  last_haty := last_haty r; last_uinput_time := last_uinput_time r; is_active := is_active r;
  thread_pid := thread_pid r; ctx_uhid_fd := ctx_uhid_fd r; ctx_lx := ctx_lx r; ctx_ly :=
  ctx_ly r; ctx_rx := ctx_rx r; ctx_ry := ctx_ry r; phy_raw := phy_raw r |}.
#[export] Instance set_event_fd : Setter event_fd. Proof. mk_setter eta_nsw_context_t. Defined.
#[export] Instance set_inotify_fd : Setter inotify_fd. Proof. mk_setter eta_nsw_context_t. Defined.
#[export] Instance set_inotify_wd : Setter inotify_wd. Proof. mk_setter eta_nsw_context_t. Defined.
#[export] Instance set_effect_id : Setter effect_id. Proof. mk_setter eta_nsw_context_t. Defined.
#[export] Instance set_nsw_connected : Setter nsw_connected. Proof. mk_setter eta_nsw_context_t. Defined.
#[export] Instance set_initialized : Setter initialized. Proof. mk_setter eta_nsw_context_t. Defined.
#[export] Instance set_event_path : Setter event_path. Proof. mk_setter eta_nsw_context_t. Defined.
#[export] Instance set_slot_index : Setter slot_index. Proof. mk_setter eta_nsw_context_t. Defined.
#[export] Instance set_last_strong : Setter last_strong. Proof. mk_setter eta_nsw_context_t. Defined.
#[export] Instance set_last_weak : Setter last_weak. Proof. mk_setter eta_nsw_context_t. Defined.
#[export] Instance set_last_rumble_time : Setter last_rumble_time. Proof. mk_setter eta_nsw_context_t. Defined.
#[export] Instance set_rumble_log_count : Setter rumble_log_count. Proof. mk_setter eta_nsw_context_t. Defined.
#[export] Instance set_last_rumble_log_time : Setter last_rumble_log_time. Proof. mk_setter eta_nsw_context_t. Defined.
#[export] Instance set_last_cross : Setter last_cross. Proof. mk_setter eta_nsw_context_t. Defined.
#[export] Instance set_last_circle : Setter last_circle. Proof. mk_setter eta_nsw_context_t. Defined.
#[export] Instance set_last_square : Setter last_square. Proof. mk_setter eta_nsw_context_t. Defined.
#[export] Instance set_last_triangle : Setter last_triangle. Proof. mk_setter eta_nsw_context_t. Defined.
#[export] Instance set_last_l1 : Setter last_l1. Proof. mk_setter eta_nsw_context_t. Defined.
#[export] Instance set_last_r1 : Setter last_r1. Proof. mk_setter eta_nsw_context_t. Defined.
#[export] Instance set_last_l2 : Setter last_l2. Proof. mk_setter eta_nsw_context_t. Defined.
#[export] Instance set_last_r2 : Setter last_r2. Proof. mk_setter eta_nsw_context_t. Defined.
#[export] Instance set_last_share : Setter last_share. Proof. mk_setter eta_nsw_context_t. Defined.
#[export] Instance set_last_options : Setter last_options. Proof. mk_setter eta_nsw_context_t. Defined.
#[export] Instance set_last_ps : Setter last_ps. Proof. mk_setter eta_nsw_context_t. Defined.
#[export] Instance set_last_l3 : Setter last_l3. Proof. mk_setter eta_nsw_context_t. Defined.
#[export] Instance set_last_r3 : Setter last_r3. Proof. mk_setter eta_nsw_context_t. Defined.
#[export] Instance set_last_lx : Setter last_lx. Proof. mk_setter eta_nsw_context_t. Defined.
#[export] Instance set_last_ly : Setter last_ly. Proof. mk_setter eta_nsw_context_t. Defined.
#[export] Instance set_last_rx : Setter last_rx. Proof. mk_setter eta_nsw_context_t. Defined.
#[export] Instance set_last_ry : Setter last_ry. Proof. mk_setter eta_nsw_context_t. Defined.
#[export] Instance set_last_lt : Setter last_lt. Proof. mk_setter eta_nsw_context_t. Defined.
#[export] Instance set_last_rt : Setter last_rt. Proof. mk_setter eta_nsw_context_t. Defined.
#[export] Instance set_last_hatx : Setter last_hatx. Proof. mk_setter eta_nsw_context_t. Defined.
#[export] Instance set_last_haty : Setter last_haty. Proof. mk_setter eta_nsw_context_t. Defined.
#[export] Instance set_last_uinput_time : Setter last_uinput_time. Proof. mk_setter eta_nsw_context_t. Defined.
#[export] Instance set_is_active : Setter is_active. Proof. mk_setter eta_nsw_context_t. Defined.
#[export] Instance set_thread_pid : Setter thread_pid. Proof. mk_setter eta_nsw_context_t. Defined.
#[export] Instance set_ctx_uhid_fd : Setter ctx_uhid_fd. Proof. mk_setter eta_nsw_context_t. Defined.
#[export] Instance set_ctx_lx : Setter ctx_lx. Proof. mk_setter eta_nsw_context_t. Defined.
#[export] Instance set_ctx_ly : Setter ctx_ly. Proof. mk_setter eta_nsw_context_t. Defined.
#[export] Instance set_ctx_rx : Setter ctx_rx. Proof. mk_setter eta_nsw_context_t. Defined.
#[export] Instance set_ctx_ry : Setter ctx_ry. Proof. mk_setter eta_nsw_context_t. Defined.
#[export] Instance set_phy_raw : Setter phy_raw. Proof. mk_setter eta_nsw_context_t. Defined.
Definition zero_nsw_context : nsw_context_t := mk_nsw 0 0 0 0 false false EmptyString 0 0 0
  tv_zero 0 tv_zero 0 0 0 0 0 0 0 0 0 0 0 0 0 0 0 0 0 0 0 0 0 tv_zero false 0 0 0 0 0 0
  (repeat 0 18).

(** ** Events read from the device *)

(** What one [read] returns: an event, nothing more for now (EAGAIN), an error
    or end of file, or something to retry (EINTR, a short read). *)
Inductive nsw_read :=
| RdEvent (ev : input_event) | RdAgain | RdError | RdRetry.

Definition set_phy (p : physical_button_t) (v : Z) (ctx : nsw_context_t) : nsw_context_t :=
  ctx {{ phy_raw := aset (phy_raw ctx) p (u8 v) }}.

(** The [switch] over the key codes. *)
Definition nsw_key_event (code value : Z) (s : controller_t * nsw_context_t)
  : controller_t * nsw_context_t :=
  let (slot, ctx) := s in
  if code =? BTN_SOUTH then (slot, set_phy PHY_BTN_CROSS value ctx)
  else if code =? BTN_EAST then (slot, set_phy PHY_BTN_CIRCLE value ctx)
  else if code =? BTN_NORTH then (slot, set_phy PHY_BTN_TRIANGLE value ctx)
  else if code =? BTN_WEST then (slot, set_phy PHY_BTN_SQUARE value ctx)
  else if code =? BTN_TL then (slot, set_phy PHY_BTN_L1 value ctx)
  else if code =? BTN_TR then (slot, set_phy PHY_BTN_R1 value ctx)
  else if code =? BTN_TL2 then
    (slot {{ LT := (if truthy value then 255 else 0) }}, set_phy PHY_BTN_L2 value ctx)
  else if code =? BTN_TR2 then
    (slot {{ RT := (if truthy value then 255 else 0) }}, set_phy PHY_BTN_R2 value ctx)
  else if code =? BTN_SELECT then (slot, set_phy PHY_BTN_SHARE value ctx)
  else if code =? BTN_START then (slot, set_phy PHY_BTN_OPTIONS value ctx)
  else if code =? BTN_MODE then (slot, set_phy PHY_BTN_PS value ctx)
  else if code =? BTN_THUMBL then (slot, set_phy PHY_BTN_L3 value ctx)
  else if code =? BTN_THUMBR then (slot, set_phy PHY_BTN_R3 value ctx)
  else if code =? BTN_Z then (slot, set_phy PHY_BTN_TOUCH value ctx)
  else (slot, ctx).

Definition nsw_abs_event (code value : Z) (ctx : nsw_context_t) : nsw_context_t :=
  if code =? ABS_X then ctx {{ ctx_lx := i16 value }}
  else if code =? ABS_Y then ctx {{ ctx_ly := i16 value }}
  else if code =? ABS_RX then ctx {{ ctx_rx := i16 value }}
  else if code =? ABS_RY then ctx {{ ctx_ry := i16 value }}
  else if code =? ABS_HAT0X then
    set_phy PHY_BTN_DPAD_RIGHT (b2z (value =? 1)) (set_phy PHY_BTN_DPAD_LEFT (b2z (value =? -1)) ctx)
  else if code =? ABS_HAT0Y then
    set_phy PHY_BTN_DPAD_DOWN (b2z (value =? 1)) (set_phy PHY_BTN_DPAD_UP (b2z (value =? -1)) ctx)
  else ctx.

Definition nsw_event (ev : input_event) (s : controller_t * nsw_context_t)
  : controller_t * nsw_context_t :=
  if ev_type ev =? EV_KEY then nsw_key_event (ev_code ev) (ev_value ev) s
  else if ev_type ev =? EV_ABS then (s.1, nsw_abs_event (ev_code ev) (ev_value ev) s.2)
  else s.

(** The read loop: the final slot and context, the number of events, and whether
    it ended on an error.  [reads] is what the successive reads return; its end
    counts as EAGAIN. *)
Fixpoint nsw_read_loop (reads : list nsw_read) (s : controller_t * nsw_context_t) (count : Z)
  : controller_t * nsw_context_t * Z * bool :=
  match reads with
  | [] | RdAgain :: _ => (s, count, false)
  | RdError :: _ => ((s.1, s.2 {{ nsw_connected := false }}), count, true)
  | RdRetry :: reads => nsw_read_loop reads s count
  | RdEvent ev :: reads => nsw_read_loop reads (nsw_event ev s) (count + 1)
  end.

(** ** Stick transforms *)

Definition clamp_axis (val : Z) : Z :=
  if 32767 <? val then 32767 else if val <? -32768 then -32768 else i16 val.

Section transforms.
Context (powf : float -> float -> float).

Definition nsw_apply_transforms (ax : axes_state) (slot : controller_t) (ctx : nsw_context_t)
  : axes_state * option controller_t :=
  let bt := is_bluetooth slot in
  let lx := if bt then clamp_axis (ctx_lx ctx + NSW_BT_OFFSET_LX) else ctx_lx ctx in
  let ly := if bt then clamp_axis (ctx_ly ctx - NSW_BT_OFFSET_LY) else ctx_ly ctx in
  let rx := if bt then clamp_axis (ctx_rx ctx + NSW_BT_OFFSET_RX) else ctx_rx ctx in
  let ry := if bt then clamp_axis (ctx_ry ctx - NSW_BT_OFFSET_RY) else ctx_ry ctx in
  let (ax, l) := apply_sensitivity_left powf ax slot lx ly in
  let (ax, r) := apply_sensitivity_right powf ax slot rx ry in
  (ax,
   '(lx, ly) ← l;
   '(rx, ry) ← r;
   let ly := if invert_ly slot then invert_axis ly else ly in
   let ry := if invert_ry slot then invert_axis ry else ry in
   let dz := if 100 <? deadzone slot then 0 else deadzone slot in
   let (lx, ly) := if 0 <? dz then apply_deadzone lx ly dz else (lx, ly) in
   let (rx, ry) := if 0 <? dz then apply_deadzone rx ry dz else (rx, ry) in
   Some (slot {{ LX := lx; LY := ly; RX := rx; RY := ry }})).
End transforms.

(** ** Forwarding to uinput

    Each forwarded member is a channel: its event, its value in the slot, and
    its cache in the context. *)
Record channel := mk_channel {
  ch_type : Z; ch_code : Z;
  ch_slot : controller_t -> Z;
  ch_cache : nsw_context_t -> Z;
  ch_put : Z -> nsw_context_t -> nsw_context_t }.

Definition channels_common : list channel :=
  [ mk_channel EV_KEY BTN_SOUTH cross last_cross (fun v c => c {{ last_cross := v }});
    mk_channel EV_KEY BTN_EAST circle last_circle (fun v c => c {{ last_circle := v }});
    mk_channel EV_KEY BTN_NORTH square last_square (fun v c => c {{ last_square := v }});
    mk_channel EV_KEY BTN_WEST triangle last_triangle (fun v c => c {{ last_triangle := v }});
    mk_channel EV_KEY BTN_TL L1 last_l1 (fun v c => c {{ last_l1 := v }});
    mk_channel EV_KEY BTN_TR R1 last_r1 (fun v c => c {{ last_r1 := v }});
    mk_channel EV_KEY BTN_SELECT Share last_share (fun v c => c {{ last_share := v }});
    mk_channel EV_KEY BTN_START Options last_options (fun v c => c {{ last_options := v }});
    mk_channel EV_KEY BTN_MODE PS last_ps (fun v c => c {{ last_ps := v }});
    mk_channel EV_KEY BTN_THUMBL L3 last_l3 (fun v c => c {{ last_l3 := v }});
    mk_channel EV_KEY BTN_THUMBR R3 last_r3 (fun v c => c {{ last_r3 := v }});
    mk_channel EV_ABS ABS_X LX last_lx (fun v c => c {{ last_lx := v }});
    mk_channel EV_ABS ABS_Y LY last_ly (fun v c => c {{ last_ly := v }});
    mk_channel EV_ABS ABS_RX RX last_rx (fun v c => c {{ last_rx := v }});
    mk_channel EV_ABS ABS_RY RY last_ry (fun v c => c {{ last_ry := v }}) ].
Definition channels_analog : list channel :=
  [ mk_channel EV_ABS ABS_Z (fun s => get_trigger_axis_value s true) last_lt
      (fun v c => c {{ last_lt := v }});
    mk_channel EV_ABS ABS_RZ (fun s => get_trigger_axis_value s false) last_rt
      (fun v c => c {{ last_rt := v }}) ].
Definition channels_digital : list channel :=
  [ mk_channel EV_KEY BTN_TL2 L2 last_l2 (fun v c => c {{ last_l2 := v }});
    mk_channel EV_KEY BTN_TR2 R2 last_r2 (fun v c => c {{ last_r2 := v }}) ].
Definition channels_hat : list channel :=
  [ mk_channel EV_ABS ABS_HAT0X HATX last_hatx (fun v c => c {{ last_hatx := v }});
    mk_channel EV_ABS ABS_HAT0Y HATY last_haty (fun v c => c {{ last_haty := v }}) ].

(** The channels in forwarding order for a trigger mode. *)
Definition nsw_channels (digital : bool) : list channel :=
  channels_common ++ (if digital then channels_digital else channels_analog) ++ channels_hat.

(** One [if (slot->x != ctx->last_x)] block. *)
Definition forward_one (slot : controller_t) (acc : nsw_context_t * list input_event)
  (ch : channel) : nsw_context_t * list input_event :=
  let v := ch_slot ch slot in
  if negb (v =? ch_cache ch acc.1)
  then (ch_put ch v acc.1, acc.2 ++ [mk_event (ch_type ch) (ch_code ch) v])
  else acc.

(** The new caches and the events handed to [safe_write], in order.  The code logs
    a write that fails and goes on as if it had not: the cache is updated and the
    later events are written, so neither depends on the results.  What reaches the
    device of them is [written]. *)
Definition nsw_forward (slot : controller_t) (ctx : nsw_context_t)
  : nsw_context_t * list input_event :=
  let (ctx, evs) :=
    fold_left (forward_one slot) (nsw_channels (is_trigger_digital slot)) (ctx, []) in
  (ctx, if negb (bool_decide (evs = [])) then evs ++ [mk_event EV_SYN SYN_REPORT 0] else []).

(** What [nsw_read_events] hands to the virtual device. *)
Inductive nsw_sent :=
| SentUinput (evs : list input_event)
| SentUhid (report : list Z).

Section read_events.
Context (powf : float -> float -> float).
(** The stack buffer of the UHID report, whatever it holds. *)
Context (stack : list Z).

(** The outcome: [None] on an out-of-bounds access, else the axis state, the
    slot, the context, what was sent and the number of events. *)
Definition nsw_read_events (reads : list nsw_read) (now : timeval) (ufd : Z) (ax : axes_state)
  (slot : controller_t) (ctx : nsw_context_t)
  : option (axes_state * controller_t * nsw_context_t * list nsw_sent * Z) :=
  if negb (initialized ctx) || negb (is_active ctx) || (event_fd ctx <? 0)
  then Some (ax, slot, ctx, [], 0)
  else
    let uhid_fd := ctx_uhid_fd ctx in
    let use_uhid := 0 <=? uhid_fd in
    let '((slot, ctx), count, failed) := nsw_read_loop reads (slot, ctx) 0 in
    if failed : bool then Some (ax, slot, ctx, [], count)
    else
      let (ax, s) := nsw_apply_transforms powf ax slot ctx in
      slot ← s;
      let slot := keys_apply_map slot (keymap slot) (phy_raw ctx) in
      if (0 <? count) && (NSW_UINPUT_RATE_LIMIT_US <=? tv_diff_us now (last_uinput_time ctx)) then
        let (ctx, sent) :=
          if (0 <=? ufd) && negb use_uhid
          then let (ctx, evs) := nsw_forward slot ctx in (ctx, [SentUinput evs])
          else (ctx, []) in
        sent ← (if use_uhid then
                  '(rep, size) ← uhid_build_input_report slot stack;
                  Some (if 0 <? size then sent ++ [SentUhid (take (Z.to_nat size) rep)] else sent)
                else Some sent);
        Some (ax, slot, ctx {{ last_uinput_time := now }}, sent, count)
      else Some (ax, slot, ctx, [], count).
End read_events.

(** ** Discovery, initialisation, rumble, clean-up *)

Definition is_pro_controller (name : string) : bool :=
  (contains "Pro Controller" name && negb (contains "IMU" name)) ||
  (contains "Nintendo" name && contains "Controller" name && negb (contains "IMU" name)).

Definition should_log_rumble (now : timeval) (ctx : nsw_context_t) : nsw_context_t * bool :=
  let ctx := if 1000000 <? tv_diff_us now (last_rumble_log_time ctx)
             then ctx {{ rumble_log_count := 0; last_rumble_log_time := now }} else ctx in
  if rumble_log_count ctx <? NSW_MAX_RUMBLE_LOGS
  then (ctx {{ rumble_log_count := rumble_log_count ctx + 1 }}, true)
  else (ctx, false).

Section nsw_io.
Context (kernel : kernel_t) (fuel : nat).
(** The name the device behind a node reports. *)
Context (dev_name : string -> string).

(** The entries of /dev/input in [readdir] order. *)
Fixpoint nsw_find_loop (entries : list string) (slot : controller_t) : io (controller_t * Z) :=
  match entries with
  | [] => mret (slot, -1)
  | e :: entries =>
      if negb (String.prefix "event" e) then nsw_find_loop entries slot
      else
        let path := String.append "/dev/input/" e in
        fd ← sys_ kernel (SysOpen path);
        if fd <? 0 then nsw_find_loop entries slot
        else
          r ← sys_ kernel (SysIoctl fd "EVIOCGNAME" 256);
          if r <? 0 then _ ← sys_ kernel (SysClose fd); nsw_find_loop entries slot
          else if is_pro_controller (dev_name path) then
            mret (slot {{ input_nodes := aset (input_nodes slot) 0
                            (mk_input_node path (substring 0 127 (dev_name path)));
                          num_input_nodes := 1 }}, fd)
          else _ ← sys_ kernel (SysClose fd); nsw_find_loop entries slot
  end.

Definition nsw_find_evdev_device (entries : option (list string)) (slot : controller_t)
  : io (controller_t * Z) :=
  match entries with None => mret (slot, -1) | Some l => nsw_find_loop l slot end.

(** An inotify event: watch descriptor, is it IN_DELETE, name. *)
Definition nsw_check_inotify (events : list (Z * bool * string)) (ctx : nsw_context_t) : bool :=
  if inotify_fd ctx <? 0 then false
  else existsb (fun e => let '(wd, del, name) := e in
         (wd =? inotify_wd ctx) && del && contains name (event_path ctx)) events.

(** The text before the last slash. *)
Fixpoint before_last_slash (s : string) : option string :=
  match s with
  | EmptyString => None
  | String c s =>
      match before_last_slash s with
      | Some d => Some (String c d)
      | None => if Ascii.eqb c "/"%char then Some EmptyString else None
      end
  end.

Definition nsw_setup_inotify (ctx : nsw_context_t) : io (nsw_context_t * bool) :=
  fd ← sys_ kernel SysInotifyInit;
  if fd <? 0 then mret (ctx {{ inotify_fd := fd }}, false)
  else
    let dir_path := default "/dev/input"%string (before_last_slash (event_path ctx)) in
    wd ← sys_ kernel (SysInotifyWatch fd dir_path);
    if wd <? 0 then
      _ ← sys_ kernel (SysClose fd);
      mret (ctx {{ inotify_fd := -1; inotify_wd := wd }}, false)
    else mret (ctx {{ inotify_fd := fd; inotify_wd := wd }}, true).

(** The context right after [memset] and the assignments of [nsw_init]. *)
Definition nsw_fresh_context (idx pid : Z) (now : timeval) : nsw_context_t :=
  zero_nsw_context {{ slot_index := idx; effect_id := -1; is_active := true; thread_pid := pid;
    ctx_uhid_fd := -1; last_rumble_time := now; last_rumble_log_time := now;
    last_lt := -1; last_rt := -1; last_uinput_time := now }}.

Definition nsw_init (idx pid : Z) (now : timeval) (entries : option (list string))
  (link : option string) (has_rumble : bool) (slot : controller_t) (ctx : nsw_context_t) : io (controller_t * nsw_context_t * bool) :=
  if initialized ctx then mret (slot, ctx, true)
  else
    let ctx := nsw_fresh_context idx pid now in
    r ← nsw_find_evdev_device entries slot;
    let '(slot, fd) := r in
    if fd <? 0 then mret (slot, ctx {{ is_active := false }}, false)
    else
      let ctx := ctx {{ event_fd := fd }} in
      let ctx := match link with Some p => ctx {{ event_path := p }} | None => ctx end in
      r ← nsw_setup_inotify ctx;
      let (ctx, _) := r : nsw_context_t * bool in
      bits ← sys_ kernel (SysIoctl fd "EVIOCGBIT" EV_FF);
      _ ← (if (0 <=? bits) && has_rumble
           then safe_write kernel fuel fd (event_bytes tv_zero (mk_event EV_FF FF_GAIN 0xFFFF))
           else mret 0);
      mret (slot, ctx {{ nsw_connected := true; initialized := true }}, true).

Definition nsw_set_uhid_fd (fd : Z) (ctx : nsw_context_t) : nsw_context_t :=
  if initialized ctx then ctx {{ ctx_uhid_fd := fd }} else ctx.

(** Play (1) or stop (0) an uploaded effect. *)
Definition nsw_ff_write (ctx : nsw_context_t) (id value : Z) : io bool :=
  let bytes := event_bytes tv_zero (mk_event EV_FF id value) in
  r ← safe_write kernel fuel (event_fd ctx) bytes;
  mret (r =? Z.of_nat (length bytes)).

(** Stop the active effect, remove it, forget it. *)
Definition nsw_stop_effect (ctx : nsw_context_t) : io (nsw_context_t * bool) :=
  ok ← nsw_ff_write ctx (effect_id ctx) 0;
  _ ← sys_ kernel (SysIoctl (event_fd ctx) "EVIOCRMFF" (effect_id ctx));
  mret (ctx {{ effect_id := -1 }}, ok).

(** [upload strong weak] is the outcome of EVIOCSFF: the effect id or failure. *)
Definition nsw_send_rumble (hup : bool) (now : timeval) (upload : Z -> Z -> option Z)
  (slot : controller_t) (ctx : nsw_context_t) : io nsw_context_t :=
  if negb (initialized ctx) || negb (is_active ctx) || (event_fd ctx <? 0) then mret ctx
  else if negb (nsw_connected ctx) then mret ctx
  else if negb (rumble_active slot) then
    if 0 <=? effect_id ctx then
      r ← nsw_stop_effect ctx;
      mret (should_log_rumble now (r.1 {{ last_strong := 0; last_weak := 0 }})).1
    else mret ctx
  else
    p ← sys_ kernel (SysPoll (event_fd ctx) 0);
    if (p <? 0) || hup then mret (ctx {{ nsw_connected := false }})
    else
      let gain := clamp_u8 (rumble_gain slot) 0 100 100 in
      let target_strong := u8 (rumble_strong slot * gain / 100) in
      let target_weak := u8 (rumble_weak slot * gain / 100) in
      if (target_strong =? last_strong ctx) && (target_weak =? last_weak ctx)
      then mret (ctx {{ last_rumble_time := now }})
      else if (target_strong =? 0) && (target_weak =? 0) then
        if effect_id ctx =? -1
        then mret (ctx {{ last_strong := 0; last_weak := 0; last_rumble_time := now }})
        else
          ok ← nsw_ff_write ctx (effect_id ctx) 0;
          if ok : bool then
            _ ← sys_ kernel (SysIoctl (event_fd ctx) "EVIOCRMFF" (effect_id ctx));
            mret (should_log_rumble now
                    (ctx {{ effect_id := -1; last_strong := 0; last_weak := 0;
                            last_rumble_time := now }})).1
          else mret ctx
      else if tv_diff_us now (last_rumble_time ctx) <? NSW_RUMBLE_RATE_LIMIT_US
      then mret (ctx {{ last_strong := target_strong; last_weak := target_weak }})
      else
        ctx ← (if 0 <=? effect_id ctx
               then r ← nsw_stop_effect ctx; mret r.1 else mret ctx);
        let strong_mag := u16 (target_strong * 257) in
        let weak_mag := u16 (target_weak * 257) in
        _ ← sys_ kernel (SysIoctl (event_fd ctx) "EVIOCSFF" (strong_mag * 65536 + weak_mag));
        match upload strong_mag weak_mag with
        | None => mret ctx
        | Some id =>
            if 0 <=? id then
              let ctx := ctx {{ effect_id := id }} in
              ok ← nsw_ff_write ctx id 1;
              mret (if ok : bool
                    then (should_log_rumble now
                            (ctx {{ last_strong := target_strong; last_weak := target_weak;
                                    last_rumble_time := now }})).1
                    else ctx)
            else mret ctx
        end.

Definition nsw_monitor (events : list (Z * bool * string)) (ctx : nsw_context_t)
  : nsw_context_t * bool :=
  if negb (initialized ctx) || negb (is_active ctx) then (ctx, true)
  else if nsw_check_inotify events ctx
  then (if nsw_connected ctx then ctx {{ nsw_connected := false }} else ctx, false)
  else (ctx, nsw_connected ctx).

Definition nsw_cleanup (ctx : nsw_context_t) : io nsw_context_t :=
  if negb (initialized ctx) then mret ctx
  else
    let ctx := ctx {{ is_active := false }} in
    ctx ← (if 0 <=? effect_id ctx then r ← nsw_stop_effect ctx; mret r.1 else mret ctx);
    ctx ← (if 0 <=? inotify_fd ctx
           then _ ← sys_ kernel (SysClose (inotify_fd ctx)); mret (ctx {{ inotify_fd := -1 }})
           else mret ctx);
    ctx ← (if 0 <=? event_fd ctx
           then _ ← sys_ kernel (SysClose (event_fd ctx)); mret (ctx {{ event_fd := -1 }})
           else mret ctx);
    mret (ctx {{ initialized := false; nsw_connected := false }}).
End nsw_io.

(** * Specification: the virtual device as a map from (type, code) to value *)

Definition dev_state : Type := Z -> Z -> Z.
Definition dev_event (dev : dev_state) (e : input_event) : dev_state :=
  if ev_type e =? EV_SYN then dev
  else fun t c => if (t =? ev_type e) && (c =? ev_code e) then ev_value e else dev t c.
Definition dev_events (dev : dev_state) (l : list input_event) : dev_state :=
  fold_left dev_event l dev.

Definition all_channels : list channel :=
  channels_common ++ channels_analog ++ channels_digital ++ channels_hat.
Definition same_key (a b : channel) : bool :=
  (ch_type a =? ch_type b) && (ch_code a =? ch_code b).
Definition is_trigger_axis (ch : channel) : bool :=
  (ch_type ch =? EV_ABS) && ((ch_code ch =? ABS_Z) || (ch_code ch =? ABS_RZ)).

(** The layout of the virtual pad, by the numbers of [linux/input-event-codes.h]:
    the value the device has to have for a slot, [None] for what it has no control
    of in the trigger mode of the slot. *)
Definition pad_key (s : controller_t) (code : Z) : option Z :=
  match code with
  | 0x130 => Some (cross s) | 0x131 => Some (circle s) | 0x133 => Some (square s) | 0x134 => Some (triangle s)
  | 0x136 => Some (L1 s) | 0x137 => Some (R1 s) | 0x13a => Some (Share s) | 0x13b => Some (Options s)
  | 0x13c => Some (PS s) | 0x13d => Some (L3 s) | 0x13e => Some (R3 s)
  | 0x138 => if is_trigger_digital s then Some (L2 s) else None
  | 0x139 => if is_trigger_digital s then Some (R2 s) else None
  | _ => None
  end.
Definition pad_axis (s : controller_t) (code : Z) : option Z :=
  match code with
  | 0 => Some (LX s) | 1 => Some (LY s) | 3 => Some (RX s) | 4 => Some (RY s)
  | 2 => if is_trigger_digital s then None else Some (get_trigger_axis_value s true)
  | 5 => if is_trigger_digital s then None else Some (get_trigger_axis_value s false)
  | 16 => Some (HATX s) | 17 => Some (HATY s)
  | _ => None
  end.
Definition pad_value (s : controller_t) (type code : Z) : option Z :=
  match type with 1 => pad_key s code | 3 => pad_axis s code | _ => None end.

(** The events that arrive: [ok k] is whether the write of the [k]th succeeded.
    The code logs a failure and goes on. *)
Fixpoint written (ok : nat -> bool) (l : list input_event) : list input_event :=
  match l with
  | [] => []
  | e :: l => (if ok 0%nat then [e] else []) ++ written (fun k => ok (S k)) l
  end.

(** The cache of every channel is what the device has; a trigger axis may still
    hold the initial -1, which no trigger value equals. *)
Definition mirrors (dev : dev_state) (ctx : nsw_context_t) : Prop :=
  Forall (fun ch => ch_cache ch ctx = dev (ch_type ch) (ch_code ch) \/
                    (is_trigger_axis ch = true /\ ch_cache ch ctx = -1)) all_channels.

(** * Lemmas *)

(** Caches are distinct members, keys are distinct, and no channel is SYN. *)
Definition channel_laws (a b : channel) : Prop :=
  (forall v c, ch_cache b (ch_put a v c) = if same_key b a then v else ch_cache b c) /\
  (same_key b a = true -> forall s, ch_slot b s = ch_slot a s) /\
  ch_type a <> EV_SYN /\
  (is_trigger_axis a = true -> forall s, 0 <= ch_slot a s).

Lemma get_trigger_nonneg s l : 0 <= get_trigger_axis_value s l.
Proof. unfold get_trigger_axis_value. destruct l; zcases; repeat bcase; lia. Qed.

Lemma channels_lawful : Forall (fun a => Forall (channel_laws a) all_channels) all_channels.
Proof.
  unfold all_channels, channels_common, channels_analog, channels_digital, channels_hat.
  cbn [app]. forall_list; (split; [reflexivity|]; split; [first [discriminate | reflexivity]|];
    split; [discriminate | first [discriminate | intros _ s; apply get_trigger_nonneg]]).
Qed.

Lemma laws a b : In a all_channels -> In b all_channels -> channel_laws a b.
Proof.
  intros Ha Hb. pose proof channels_lawful as H. rewrite List.Forall_forall in H.
  specialize (H a Ha). rewrite List.Forall_forall in H. exact (H b Hb).
Qed.

Lemma nsw_channels_incl d ch : In ch (nsw_channels d) -> In ch all_channels.
Proof.
  unfold nsw_channels, all_channels. rewrite !in_app_iff. destruct d; tauto.
Qed.

Lemma dev_event_get dev a v b :
  ch_type a <> EV_SYN ->
  dev_event dev (mk_event (ch_type a) (ch_code a) v) (ch_type b) (ch_code b) =
  if same_key b a then v else dev (ch_type b) (ch_code b).
Proof.
  intros Ha. unfold dev_event. cbn [ev_type ev_code ev_value].
  by destruct (Z.eqb_spec (ch_type a) EV_SYN).
Qed.

Lemma dev_events_app dev l l' : dev_events dev (l ++ l') = dev_events (dev_events dev l) l'.
Proof. apply fold_left_app. Qed.

(** One forwarded channel keeps the mirror and updates that channel. *)
Lemma forward_one_mirrors slot dev ctx evs ch ds :
  In ch all_channels -> Forall (fun c => In c all_channels) ds ->
  mirrors (dev_events dev evs) ctx ->
  Forall (fun c => dev_events dev evs (ch_type c) (ch_code c) = ch_slot c slot) ds ->
  let '(ctx', evs') := forward_one slot (ctx, evs) ch in
  mirrors (dev_events dev evs') ctx' /\
  Forall (fun c => dev_events dev evs' (ch_type c) (ch_code c) = ch_slot c slot) (ch :: ds).
Proof.
  intros Hch Hin Hm Hd. unfold forward_one. cbn [fst snd].
  assert (ch_type ch <> EV_SYN) as Hsyn by apply (laws ch ch Hch Hch).
  destruct (Z.eqb_spec (ch_slot ch slot) (ch_cache ch ctx)) as [E|E]; cbn [negb].
  - split; [done|]. constructor; [|done].
    unfold mirrors in Hm. rewrite List.Forall_forall in Hm. destruct (Hm ch Hch) as [H|[Ht H]].
    + by rewrite <- H.
    + exfalso. pose proof (laws ch ch Hch Hch) as (_ & _ & _ & Hpos). specialize (Hpos Ht slot). lia.
  - rewrite dev_events_app. cbn [dev_events fold_left]. split.
    + unfold mirrors in *. rewrite List.Forall_forall in Hm |- *. intros c Hc.
      rewrite dev_event_get by done. destruct (laws ch c Hch Hc) as (-> & _).
      destruct (same_key c ch); [by left | by apply Hm].
    + rewrite List.Forall_forall in Hd, Hin. constructor.
      * rewrite dev_event_get by done. unfold same_key. by rewrite !Z.eqb_refl.
      * apply List.Forall_forall. intros c Hc. rewrite dev_event_get by done.
        destruct (laws ch c Hch (Hin c Hc)) as (_ & Hs & _).
        destruct (same_key c ch); [by rewrite Hs | by apply Hd].
Qed.

Lemma forward_fold_mirrors slot dev chs ctx evs ds :
  Forall (fun c => In c all_channels) chs -> Forall (fun c => In c all_channels) ds ->
  mirrors (dev_events dev evs) ctx ->
  Forall (fun c => dev_events dev evs (ch_type c) (ch_code c) = ch_slot c slot) ds ->
  let '(ctx', evs') := fold_left (forward_one slot) chs (ctx, evs) in
  mirrors (dev_events dev evs') ctx' /\
  Forall (fun c => dev_events dev evs' (ch_type c) (ch_code c) = ch_slot c slot) (chs ++ ds).
Proof.
  revert ctx evs ds. induction chs as [|ch chs IH]; intros ctx evs ds Hc Hd Hm Hv; [done|].
  apply Forall_cons in Hc as [Hch Hc]. cbn [fold_left].
  pose proof (forward_one_mirrors slot dev ctx evs ch ds Hch Hd Hm Hv) as H.
  destruct (forward_one slot (ctx, evs) ch) as [ctx1 evs1]. destruct H as [Hm1 Hv1].
  specialize (IH ctx1 evs1 (ch :: ds) Hc ltac:(by constructor) Hm1 Hv1).
  destruct (fold_left (forward_one slot) chs (ctx1, evs1)) as [ctx2 evs2].
  destruct IH as [Hm2 Hv2]. split; [done|].
  rewrite List.Forall_forall in Hv2 |- *. intros c Hin. apply Hv2.
  rewrite in_app_iff in *. simpl in *. tauto.
Qed.

Lemma forward_nothing slot chs ctx evs :
  Forall (fun c => ch_cache c ctx = ch_slot c slot) chs ->
  fold_left (forward_one slot) chs (ctx, evs) = (ctx, evs).
Proof.
  induction 1 as [|c chs Hc _ IH]; [done|]. cbn [fold_left]. unfold forward_one at 2.
  cbn [fst snd]. by rewrite Hc, Z.eqb_refl.
Qed.

Lemma forward_fold_nosyn slot chs ctx evs :
  Forall (fun c => In c all_channels) chs ->
  Forall (fun e => ev_type e <> EV_SYN) evs ->
  Forall (fun e => ev_type e <> EV_SYN) (fold_left (forward_one slot) chs (ctx, evs)).2.
Proof.
  intros Hc. revert ctx evs. induction Hc as [|c chs Hc _ IH]; intros ctx evs He; [done|].
  cbn [fold_left]. unfold forward_one at 2. cbn [fst snd].
  destruct (negb _); apply IH; [|done]. apply Forall_app. split; [done|].
  constructor; [|done]. apply (laws c c Hc Hc).
Qed.

(** *** The events of a forward, when writes may fail *)

Definition channel_event (slot : controller_t) (ch : channel) : input_event :=
  mk_event (ch_type ch) (ch_code ch) (ch_slot ch slot).
Definition channel_key (ch : channel) : Z * Z := (ch_type ch, ch_code ch).
Definition event_key (e : input_event) : Z * Z := (ev_type e, ev_code e).
Definition differs (slot : controller_t) (ctx : nsw_context_t) (ch : channel) : bool :=
  negb (ch_slot ch slot =? ch_cache ch ctx).

Lemma other_key a b : channel_key a <> channel_key b -> same_key a b = false.
Proof.
  unfold channel_key, same_key. intros H.
  destruct (Z.eqb_spec (ch_type a) (ch_type b)), (Z.eqb_spec (ch_code a) (ch_code b)); try done. destruct H. congruence.
Qed.

Lemma forward_one_other slot ch c ctx evs :
  In ch all_channels -> In c all_channels -> channel_key c <> channel_key ch ->
  ch_cache c (forward_one slot (ctx, evs) ch).1 = ch_cache c ctx.
Proof.
  intros Hch Hc Hk. unfold forward_one. cbn [fst snd]. destruct (laws ch c Hch Hc) as (Hp & _).
  destruct (negb _); [|done]. cbn [fst]. by rewrite Hp, other_key.
Qed.
Lemma forward_one_self slot ch ctx evs :
  In ch all_channels -> ch_cache ch (forward_one slot (ctx, evs) ch).1 = ch_slot ch slot.
Proof.
  intros Hch. unfold forward_one. cbn [fst snd]. destruct (laws ch ch Hch Hch) as (Hp & _).
  destruct (Z.eqb_spec (ch_slot ch slot) (ch_cache ch ctx)); [done|]. cbn [negb fst].
  rewrite Hp. unfold same_key. by rewrite !Z.eqb_refl.
Qed.

(** Distinct channels: the events are those of the channels whose cache differs,
    in order, and every cache ends with the value of the slot. *)
Lemma forward_fold_exact slot chs ctx evs :
  Forall (fun c => In c all_channels) chs -> NoDup (map channel_key chs) ->
  let r := fold_left (forward_one slot) chs (ctx, evs) in
  r.2 = evs ++ map (channel_event slot) (List.filter (differs slot ctx) chs) /\
  Forall (fun c => ch_cache c r.1 = ch_slot c slot) chs /\
  (forall c, In c all_channels -> ~ In (channel_key c) (map channel_key chs) -> ch_cache c r.1 = ch_cache c ctx).
Proof.
  cbv zeta. revert ctx evs. induction chs as [|ch chs IH]; intros ctx evs Hin Hnd.
  { cbn. by rewrite app_nil_r. }
  apply Forall_cons in Hin as [Hch Hin]. cbn [map] in Hnd. apply NoDup_cons in Hnd as [Hni Hnd].
  rewrite list_elem_of_In in Hni. cbn [fold_left].
  destruct (forward_one slot (ctx, evs) ch) as [ctx1 evs1] eqn:E.
  pose proof (f_equal fst E) as E1. cbn [fst] in E1.
  destruct (IH ctx1 evs1 Hin Hnd) as (H1 & H2 & H3).
  assert (forall c, In c chs -> ch_cache c ctx1 = ch_cache c ctx) as Hsame.
  { intros c Hc. rewrite <- E1. apply forward_one_other; [done | |].
    - rewrite List.Forall_forall in Hin. by apply Hin.
    - intros Hk. apply Hni. rewrite <- Hk. by apply in_map. }
  split; [|split].
  - rewrite H1. assert (List.filter (differs slot ctx1) chs = List.filter (differs slot ctx) chs) as ->.
    { apply filter_ext_in. intros c Hc. unfold differs. by rewrite Hsame. }
    unfold forward_one in E. cbn [fst snd] in E. cbn [List.filter]. unfold differs at 2.
    destruct (negb _); injection E as _ <-; [|done]. by rewrite <- app_assoc.
  - constructor; [|done]. rewrite H3; [|done | exact Hni]. rewrite <- E1. by apply forward_one_self.
  - intros c Hc Hn. cbn [map] in Hn. rewrite H3; [|done | intros Hi; apply Hn; by right].
    rewrite <- E1. apply forward_one_other; [done | done|]. intros Hk. apply Hn. by left.
Qed.

Lemma channels_distinct d : NoDup (map channel_key (nsw_channels d)).
Proof. destruct d; apply (bool_decide_unpack _); vm_compute; exact I. Qed.

Lemma written_all ok l : (forall k, ok k = true) -> written ok l = l.
Proof. revert ok. induction l as [|e l IH]; intros ok H; [done|]. cbn [written]. rewrite H, IH by auto. done. Qed.
Lemma written_in ok l k e : l !! k = Some e -> ok k = true -> In e (written ok l).
Proof.
  revert ok k. induction l as [|e' l IH]; intros ok [|k] Hl Hk; try done; cbn [written].
  - injection Hl as ->. rewrite Hk. by left.
  - apply in_or_app. right. by apply (IH _ k).
Qed.
Lemma written_from ok l e : In e (written ok l) -> exists k, l !! k = Some e /\ ok k = true.
Proof.
  revert ok. induction l as [|e' l IH]; intros ok H; [done|]. cbn [written] in H. apply in_app_or in H as [H|H].
  - destruct (ok 0%nat) eqn:E; [|done]. destruct H as [<-|[]]. by exists 0%nat.
  - destruct (IH _ H) as (k & Hk & Ho). by exists (S k).
Qed.

(** The device after events no two of which are for the same control. *)
Lemma dev_events_other dev l t c : (forall e, In e l -> event_key e <> (t, c)) -> dev_events dev l t c = dev t c.
Proof.
  revert dev. induction l as [|e l IH]; intros dev H; [done|]. cbn [dev_events fold_left].
  change (dev_events (dev_event dev e) l t c = dev t c). rewrite IH by (intros; apply H; by right).
  unfold dev_event. destruct (ev_type e =? EV_SYN); [done|].
  destruct (Z.eqb_spec t (ev_type e)) as [->|], (Z.eqb_spec c (ev_code e)) as [->|]; try done.
  destruct (H e (or_introl eq_refl)). done.
Qed.
Lemma dev_events_this dev l e :
  (forall e', In e' l -> event_key e' = event_key e -> e' = e) -> In e l -> ev_type e <> EV_SYN ->
  dev_events dev l (ev_type e) (ev_code e) = ev_value e.
Proof.
  revert dev. induction l as [|e' l IH]; intros dev Hu Hin Hs; [done|]. cbn [dev_events fold_left].
  change (dev_events (dev_event dev e') l (ev_type e) (ev_code e) = ev_value e).
  destruct (in_dec (fun x y : Z * Z => decide (x = y)) (event_key e) (map event_key l)) as [Hl|Hl].
  - apply in_map_iff in Hl as (e2 & Hk & H2). apply IH; [intros; apply Hu; [by right | done] | | done].
    by rewrite <- (Hu e2 (or_intror H2) Hk).
  - assert (e' = e) as -> by (destruct Hin as [|Hin]; [done|]; destruct Hl; by apply in_map).
    rewrite dev_events_other.
    + unfold dev_event. destruct (Z.eqb_spec (ev_type e) EV_SYN); [done|]. by rewrite !Z.eqb_refl.
    + intros x Hx Hk. apply Hl. change (ev_type e, ev_code e) with (event_key e) in Hk. rewrite <- Hk. by apply in_map.
Qed.

(** The channels of a trigger mode are the controls of the pad. *)
Lemma channel_pad slot ch :
  In ch (nsw_channels (is_trigger_digital slot)) -> pad_value slot (ch_type ch) (ch_code ch) = Some (ch_slot ch slot).
Proof.
  intros H. assert (Forall (fun ch => pad_value slot (ch_type ch) (ch_code ch) = Some (ch_slot ch slot))
    (nsw_channels (is_trigger_digital slot))) as F; [|rewrite List.Forall_forall in F; by apply F].
  unfold pad_value, pad_key, pad_axis, nsw_channels, channels_common, channels_digital, channels_analog, channels_hat.
  destruct (is_trigger_digital slot) eqn:D; cbn [app]; forall_list; cbn; by rewrite ?D.
Qed.
Lemma pad_channel slot t c v : pad_value slot t c = Some v ->
  exists ch, In ch (nsw_channels (is_trigger_digital slot)) /\ channel_key ch = (t, c) /\ ch_slot ch slot = v.
Proof.
  intros H.
  assert (exists ch, find (fun ch => (ch_type ch =? t) && (ch_code ch =? c)) (nsw_channels (is_trigger_digital slot)) = Some ch)
    as [ch Hf].
  { unfold pad_value, pad_key, pad_axis in H.
    destruct (is_trigger_digital slot); repeat (case_match; try discriminate H); eexists; reflexivity. }
  apply find_some in Hf as [Hi Hk]. apply andb_prop in Hk as [Ht%Z.eqb_eq Hc%Z.eqb_eq]. exists ch.
  split; [done|]. split; [unfold channel_key; congruence|].
  pose proof (channel_pad slot ch Hi) as Hp. congruence.
Qed.

Lemma events_once slot ctx d k k' e :
  let evs := map (channel_event slot) (List.filter (differs slot ctx) (nsw_channels d)) in
  evs !! k = Some e -> evs !! k' = Some e -> k = k'.
Proof.
  cbv zeta. set (chs := List.filter _ _). intros H H'.
  assert (NoDup (map event_key (map (channel_event slot) chs))) as Hn.
  { rewrite map_map. change (map _ chs) with (map channel_key chs). apply filter_nodup, channels_distinct. }
  eapply NoDup_lookup; [exact Hn | |]; change (map event_key ?l) with (event_key <$> l);
    rewrite list_lookup_fmap; [rewrite H | rewrite H']; reflexivity.
Qed.

Lemma frame_events_pad slot phy e :
  In e (frame_events slot phy) -> ev_type e <> EV_SYN ->
  ~ (ev_type e = EV_ABS /\ (ev_code e = ABS_Z \/ ev_code e = ABS_RZ)) ->
  pad_value slot (ev_type e) (ev_code e) = Some (ev_value e).
Proof.
  intros He Hs Ht. revert Hs Ht.
  assert (Forall (fun e => ev_type e <> EV_SYN -> ~ (ev_type e = EV_ABS /\ (ev_code e = ABS_Z \/ ev_code e = ABS_RZ)) ->
    pad_value slot (ev_type e) (ev_code e) = Some (ev_value e)) (frame_events slot phy)) as F;
    [|rewrite List.Forall_forall in F; by apply F].
  unfold frame_events. cbv zeta. destruct (is_trigger_digital slot) eqn:D; cbn [negb app]; forall_list; cbn;
    intros Hs Ht; unfold pad_value, pad_key, pad_axis; cbn; rewrite ?D; try done;
    exfalso; first [by apply Hs | apply Ht; split; [done | by (left + right)]].
Qed.

(** A last SYN_REPORT does not change the device. *)
Lemma dev_written_tail dev ok l b :
  dev_events dev (written ok (l ++ if negb b then [mk_event EV_SYN SYN_REPORT 0] else [])) =
  dev_events dev (written ok l).
Proof.
  revert dev ok. induction l as [|e l IH]; intros dev ok; cbn [app written].
  - destruct b; [done|]. cbn [negb written]. by destruct (ok 0%nat).
  - rewrite !dev_events_app. apply IH.
Qed.

(** One control of the pad after a forward. *)
Lemma forwarded_control slot dev ctx t c v ok b :
  mirrors dev ctx -> pad_value slot t c = Some v ->
  let evs := map (channel_event slot) (List.filter (differs slot ctx) (nsw_channels (is_trigger_digital slot))) in
  let l := evs ++ if negb b then [mk_event EV_SYN SYN_REPORT 0] else [] in
  dev_events dev (written ok l) t c = v \/
  exists k, l !! k = Some (mk_event t c v) /\ ok k = false /\ dev_events dev (written ok l) t c = dev t c.
Proof.
  intros Hm Hv. cbv zeta. rewrite dev_written_tail.
  destruct (pad_channel slot t c v Hv) as (ch & Hch & Hk & Hs). injection Hk as Ht Hc.
  assert (forall e, In e (map (channel_event slot) (List.filter (differs slot ctx) (nsw_channels (is_trigger_digital slot)))) ->
    event_key e = (t, c) -> e = mk_event t c v /\ differs slot ctx ch = true) as Hkey.
  { intros e He Hek. apply in_map_iff in He as (ch' & <- & H'). apply filter_In in H' as [H' Hd].
    assert (ch' = ch) as ->.
    { apply (map_nodup_inj channel_key (nsw_channels (is_trigger_digital slot))); try done.
      - apply channels_distinct.
      - unfold channel_key. rewrite Ht, Hc. exact Hek. }
    split; [|done]. unfold channel_event. congruence. }
  destruct (differs slot ctx ch) eqn:D.
  - assert (channel_event slot ch = mk_event t c v) as Ee by (unfold channel_event; congruence).
    assert (In (mk_event t c v) (map (channel_event slot)
      (List.filter (differs slot ctx) (nsw_channels (is_trigger_digital slot))))) as Hi
      by (rewrite <- Ee; apply in_map, filter_In; done).
    apply list_elem_of_In, list_elem_of_lookup in Hi as [k Hlk].
    destruct (ok k) eqn:Hok.
    + left. change v with (ev_value (mk_event t c v)).
      change t with (ev_type (mk_event t c v)) at 1. change c with (ev_code (mk_event t c v)) at 2.
      apply dev_events_this; [|by eapply written_in|].
      * intros e He Hek. apply written_from in He as (k' & Hk' & _).
        apply Hkey; [by eapply list_elem_of_In, list_elem_of_lookup_2 | exact Hek].
      * cbn. rewrite <- Ht. apply (laws ch ch); by apply nsw_channels_incl in Hch.
    + right. exists k. split; [by apply lookup_app_l_Some|]. split; [done|]. apply dev_events_other.
      intros e He Hek. apply written_from in He as (k' & Hk' & Ho').
      destruct (Hkey e) as [-> _]; [by eapply list_elem_of_In, list_elem_of_lookup_2 | exact Hek|].
      assert (k' = k) as -> by (eapply events_once; eassumption). congruence.
  - left. rewrite dev_events_other.
    + unfold differs in D. apply negb_false_iff, Z.eqb_eq in D.
      apply nsw_channels_incl in Hch. unfold mirrors in Hm. rewrite List.Forall_forall in Hm.
      destruct (Hm ch Hch) as [H|[Hx H]]; [rewrite <- Ht, <- Hc; congruence|].
      exfalso. destruct (laws ch ch Hch Hch) as (_ & _ & _ & Hpos). specialize (Hpos Hx slot). lia.
    + intros e He Hek. apply written_from in He as (k' & Hk' & _).
      destruct (Hkey e) as [_ Hd]; [by eapply list_elem_of_In, list_elem_of_lookup_2 | exact Hek|]. congruence.
Qed.

(** ** Rumble *)

Definition rumble_target (slot : controller_t) : Z * Z :=
  let gain := clamp_u8 (rumble_gain slot) 0 100 100 in
  (u8 (rumble_strong slot * gain / 100), u8 (rumble_weak slot * gain / 100)).

Definition rumble_ready (slot : controller_t) (ctx : nsw_context_t) : Prop :=
  initialized ctx = true /\ is_active ctx = true /\ 0 <= event_fd ctx /\
  nsw_connected ctx = true /\ rumble_active slot = true.

Lemma send_rumble_limited kernel fuel now upload slot ctx h :
  rumble_ready slot ctx -> 0 <= (kernel h (SysPoll (event_fd ctx) 0)).1 ->
  rumble_target slot <> (last_strong ctx, last_weak ctx) -> rumble_target slot <> (0, 0) ->
  tv_diff_us now (last_rumble_time ctx) < NSW_RUMBLE_RATE_LIMIT_US ->
  nsw_send_rumble kernel fuel false now upload slot ctx h =
    Some (ctx {{ last_strong := (rumble_target slot).1; last_weak := (rumble_target slot).2 }},
          SysPoll (event_fd ctx) 0 :: h).
Proof.
  intros (Hi & Ha & Hfd & Hc & Hr) Hp Hne H0 Ht. unfold nsw_send_rumble.
  rewrite Hi, Ha, Hc, Hr. destruct (Z.ltb_spec (event_fd ctx) 0); [lia|]. cbn [negb orb].
  unfold mbind, io_bind, sys_. cbv beta iota.
  destruct (Z.ltb_spec (kernel h (SysPoll (event_fd ctx) 0)).1 0); [lia|]. cbn [orb]. cbv iota zeta.
  unfold rumble_target in *. cbn [fst snd] in *.
  set (ts := u8 (rumble_strong slot * _ / 100)) in *. set (tw := u8 (rumble_weak slot * _ / 100)) in *.
  destruct ((ts =? last_strong ctx) && (tw =? last_weak ctx)) eqn:E1.
  { zprop. congruence. }
  destruct ((ts =? 0) && (tw =? 0)) eqn:E2; [zprop; congruence|].
  destruct (Z.ltb_spec (tv_diff_us now (last_rumble_time ctx)) NSW_RUMBLE_RATE_LIMIT_US); [done | lia].
Qed.

Lemma send_rumble_same kernel fuel now upload slot ctx h :
  rumble_ready slot ctx -> 0 <= (kernel h (SysPoll (event_fd ctx) 0)).1 ->
  rumble_target slot = (last_strong ctx, last_weak ctx) ->
  nsw_send_rumble kernel fuel false now upload slot ctx h =
    Some (ctx {{ last_rumble_time := now }}, SysPoll (event_fd ctx) 0 :: h).
Proof.
  intros (Hi & Ha & Hfd & Hc & Hr) Hp He. unfold nsw_send_rumble.
  rewrite Hi, Ha, Hc, Hr. destruct (Z.ltb_spec (event_fd ctx) 0); [lia|]. cbn [negb orb].
  unfold mbind, io_bind, sys_. cbv beta iota.
  destruct (Z.ltb_spec (kernel h (SysPoll (event_fd ctx) 0)).1 0); [lia|]. cbn [orb]. cbv iota zeta.
  unfold rumble_target in He. injection He as -> ->. by rewrite !Z.eqb_refl.
Qed.

(** Calling the sender again and again with the same slot. *)
Fixpoint send_rumble_again (kernel : kernel_t) (fuel : nat) (nows : list timeval)
  (upload : Z -> Z -> option Z) (slot : controller_t) (ctx : nsw_context_t) : io nsw_context_t :=
  match nows with
  | [] => mret ctx
  | t :: nows => ctx ← nsw_send_rumble kernel fuel false t upload slot ctx;
                 send_rumble_again kernel fuel nows upload slot ctx
  end.

Lemma put_rumble_time_spec ctx t :
  let c := ctx {{ last_rumble_time := t }} in
  initialized c = initialized ctx /\ is_active c = is_active ctx /\ event_fd c = event_fd ctx /\
  nsw_connected c = nsw_connected ctx /\ last_strong c = last_strong ctx /\
  last_weak c = last_weak ctx.
Proof. repeat split. Qed.

Lemma send_rumble_again_quiet kernel fuel nows upload slot ctx h :
  (forall h', 0 <= (kernel h' (SysPoll (event_fd ctx) 0)).1) ->
  rumble_ready slot ctx -> rumble_target slot = (last_strong ctx, last_weak ctx) ->
  exists ctx', send_rumble_again kernel fuel nows upload slot ctx h =
    Some (ctx', repeat (SysPoll (event_fd ctx) 0) (length nows) ++ h).
Proof.
  revert ctx h. induction nows as [|t nows IH]; intros ctx h Hp Hr He; [by eexists|].
  simpl send_rumble_again. unfold mbind, io_bind.
  rewrite (send_rumble_same kernel fuel t upload slot ctx h Hr (Hp h) He).
  destruct (put_rumble_time_spec ctx t) as (E1 & E2 & E3 & E4 & E5 & E6).
  destruct Hr as (R1 & R2 & R3 & R4 & R5).
  destruct (IH (ctx {{ last_rumble_time := t }}) (SysPoll (event_fd ctx) 0 :: h)) as [ctx' H].
  - by rewrite E3.
  - unfold rumble_ready. by rewrite E1, E2, E3, E4.
  - by rewrite E5, E6.
  - exists ctx'. rewrite H, E3. by rewrite repeat_shift.
Qed.

(** ** Discovery *)

Lemma nsw_find_loop_fds kernel dev_name l slot h slot' fd h' :
  nsw_find_loop kernel dev_name l slot h = Some (slot', fd, h') ->
  -1 <= fd /\ forall fd', opened kernel h' fd' = true -> opened kernel h fd' = true \/ (fd' = fd /\ 0 <= fd).
Proof.
  revert h. induction l as [|e l IH]; intros h; cbn [nsw_find_loop].
  { intros [= _ <- <-]. split; [lia | auto]. }
  destruct (negb _); [apply IH|]. unfold mbind, io_bind, sys_. cbv beta iota.
  set (op := SysOpen (String.append "/dev/input/" e)).
  destruct (Z.ltb_spec (kernel h op).1 0) as [Hneg|Hpos].
  { intros H. apply IH in H as [H1 H2]. split; [done|]. intros fd' Hfd'.
    destruct (H2 fd' Hfd') as [Ho|]; [left | by right].
    by apply (open_failed_no_leak kernel h _ Hneg). }
  set (f := (kernel h op).1) in *.
  assert (forall h2, fds_same kernel (op :: h) h2 ->
    nsw_find_loop kernel dev_name l slot (SysClose f :: h2) = Some (slot', fd, h') ->
    -1 <= fd /\ forall fd', opened kernel h' fd' = true ->
      opened kernel h fd' = true \/ (fd' = fd /\ 0 <= fd)) as Hclose.
  { intros h2 Hs H. apply IH in H as [H1 H2]. split; [done|]. intros fd' Hfd'.
    destruct (H2 fd' Hfd') as [Ho|]; [left | by right].
    by apply (open_close_no_leak kernel h h2 _ Hs). }
  destruct (_ <? 0); [by apply Hclose|].
  destruct (is_pro_controller _); [|by apply Hclose].
  intros [= _ <- <-]. split; [lia|]. intros fd'. simpl. fold f.
  destruct (Z.leb_spec 0 f); [|lia]. cbn [andb]. fold op f.
  destruct (Z.eqb_spec f fd') as [->|]; [right; auto | left; done].
Qed.

(** * Properties *)

(** C9: forwarding to the virtual device.  Given caches that are what the device was last
    told, when every write succeeds they still are, and every key and axis of the
    pad has the value of the slot, by the numbers of the kernel's event codes; what
    the trigger mode leaves out is untouched.  When a write fails, its control
    keeps the old value, and only that one; as the cache has the new value anyway,
    the next forward of the same slot sends nothing: the event is lost.  The frame
    is empty when nothing differs and otherwise ends with its only SYN_REPORT.  The
    layout is the one of the frames of the Sony controllers, trigger axes apart. *)
Theorem nsw_forward_mirrors slot dev ctx ok :
  mirrors dev ctx ->
  let '(ctx', evs) := nsw_forward slot ctx in
  let dev' := dev_events dev (written ok evs) in
  ((forall k, ok k = true) ->
     mirrors dev' ctx' /\ forall t c v, pad_value slot t c = Some v -> dev' t c = v) /\
  (forall t c v, pad_value slot t c = Some v ->
     dev' t c = v \/ exists k, evs !! k = Some (mk_event t c v) /\ ok k = false /\ dev' t c = dev t c) /\
  (forall t c, pad_value slot t c = None -> dev' t c = dev t c) /\
  nsw_forward slot ctx' = (ctx', []) /\
  (Forall (fun ch => ch_cache ch ctx = ch_slot ch slot) (nsw_channels (is_trigger_digital slot)) -> evs = []) /\
  (evs = [] \/ exists l, evs = l ++ [mk_event EV_SYN SYN_REPORT 0] /\ Forall (fun e => ev_type e <> EV_SYN) l) /\
  (forall phy e, In e (frame_events slot phy) -> ev_type e <> EV_SYN ->
     ~ (ev_type e = EV_ABS /\ (ev_code e = ABS_Z \/ ev_code e = ABS_RZ)) ->
     pad_value slot (ev_type e) (ev_code e) = Some (ev_value e)).
Proof.
  intros Hm. set (chs := nsw_channels (is_trigger_digital slot)).
  assert (Forall (fun c => In c all_channels) chs) as Hin
    by (apply List.Forall_forall; intros c; apply nsw_channels_incl).
  pose proof (channels_distinct (is_trigger_digital slot)) as Hnd. fold chs in Hnd.
  pose proof (forward_fold_mirrors slot dev _ ctx [] [] Hin ltac:(constructor) Hm ltac:(constructor)) as Hmi.
  pose proof (forward_fold_nosyn slot _ ctx [] Hin ltac:(constructor)) as Hns.
  pose proof (forward_fold_exact slot chs ctx [] Hin Hnd) as (Hev & Hca & _).
  destruct (fold_left _ _ _) as [ctx' evs] eqn:E. cbn [fst snd app] in *. destruct Hmi as [Hmi _].
  set (tail := if negb (bool_decide (evs = [])) then [mk_event EV_SYN SYN_REPORT 0] else []).
  assert (nsw_forward slot ctx = (ctx', evs ++ tail)) as ->.
  { unfold nsw_forward. fold chs. rewrite E. unfold tail. destruct (bool_decide (evs = [])) eqn:B; cbn [negb]; [|done].
    apply bool_decide_eq_true in B. by rewrite B. }
  assert (forall t c v, pad_value slot t c = Some v ->
    dev_events dev (written ok (evs ++ tail)) t c = v \/
    exists k, (evs ++ tail) !! k = Some (mk_event t c v) /\ ok k = false /\
      dev_events dev (written ok (evs ++ tail)) t c = dev t c) as Hcontrol.
  { intros t c v Hv. rewrite Hev. by apply forwarded_control. }
  cbv zeta. split; [|split; [exact Hcontrol|split; [|split; [|split; [|split]]]]].
  - intros Ho. split.
    + rewrite written_all by done. unfold tail. rewrite dev_events_app. by case_bool_decide.
    + intros t c v Hv. destruct (Hcontrol t c v Hv) as [|(k & _ & Hk & _)]; [done|]. by rewrite Ho in Hk.
  - intros t c Hn. unfold tail. rewrite dev_written_tail, Hev. apply dev_events_other. intros e He.
    apply written_from in He as (k & Hk & _). apply list_elem_of_lookup_2, list_elem_of_In, in_map_iff in Hk as (ch & <- & Hch).
    apply filter_In in Hch as [Hch _]. intros [= <- <-]. apply channel_pad in Hch. congruence.
  - unfold nsw_forward. fold chs. by rewrite forward_nothing.
  - intros Hall. assert (evs = []) as ->; [|done]. rewrite Hev.
    rewrite (filter_none (differs slot ctx)); [done|]. rewrite List.Forall_forall in Hall |- *. intros ch Hch.
    unfold differs. by rewrite (Hall ch Hch), Z.eqb_refl.
  - unfold tail. case_bool_decide as Hb; cbn [negb]; [left; by rewrite Hb | right; by exists evs].
  - apply frame_events_pad.
Qed.
(** A pressed button and a moved stick; the write of the button fails. *)
Example nsw_forward_mirrors_witness :
  let slot := zero_controller {{ cross := 1; LX := 500 }} in
  let '(ctx', evs) := nsw_forward slot (nsw_fresh_context 0 1 tv_zero) in
  let dev' := dev_events (fun _ _ => 0) (written (fun k => (0 <? k)%nat) evs) in
  dev' EV_KEY BTN_SOUTH = 0 /\ dev' EV_ABS ABS_X = 500 /\ nsw_forward slot ctx' = (ctx', []).
Proof.
  pose proof (nsw_forward_mirrors (zero_controller {{ cross := 1; LX := 500 }}) (fun _ _ => 0)
    (nsw_fresh_context 0 1 tv_zero) (fun k => (0 <? k)%nat)) as H. cbv zeta.
  destruct (nsw_forward _ _) as [ctx' evs] eqn:E. destruct H as (_ & _ & _ & H & _).
  - unfold mirrors, all_channels, channels_common, channels_analog, channels_digital, channels_hat. cbn [app].
    forall_list; cbv beta; first [left; reflexivity | right; split; reflexivity].
  - split; [|split; [|exact H]]; vm_compute in E; injection E as _ <-; reflexivity.
Defined.

(** A rumble command inside the 50 ms limit is lost for good: nothing is
    written, but the context records it as sent, so every later call with the
    same request, however late, again writes nothing. *)
Theorem nsw_rumble_limited_is_lost kernel fuel now nows upload slot ctx h :
  (forall h', 0 <= (kernel h' (SysPoll (event_fd ctx) 0)).1) -> rumble_ready slot ctx ->
  rumble_target slot <> (last_strong ctx, last_weak ctx) -> rumble_target slot <> (0, 0) ->
  tv_diff_us now (last_rumble_time ctx) < NSW_RUMBLE_RATE_LIMIT_US ->
  exists ctx', send_rumble_again kernel fuel (now :: nows) upload slot ctx h =
    Some (ctx', repeat (SysPoll (event_fd ctx) 0) (S (length nows)) ++ h).
Proof.
  intros Hp Hr Hne H0 Ht. simpl send_rumble_again. unfold mbind, io_bind.
  rewrite (send_rumble_limited kernel fuel now upload slot ctx h Hr (Hp h) Hne H0 Ht).
  set (c := ctx {{ last_strong := (rumble_target slot).1; last_weak := (rumble_target slot).2 }}).
  destruct (send_rumble_again_quiet kernel fuel nows upload slot c (SysPoll (event_fd ctx) 0 :: h))
    as [ctx' H]; [exact Hp | exact Hr | by destruct (rumble_target slot) |].
  exists ctx'. rewrite H. change (event_fd c) with (event_fd ctx). by rewrite repeat_shift.
Qed.

Example nsw_rumble_limited_is_lost_witness :
  exists ctx', send_rumble_again good_kernel 9 [mk_timeval 0 10000; mk_timeval 60 0; mk_timeval 90 0]
    (fun _ _ => Some 1) (zero_controller {{ rumble_active := true; rumble_strong := 90; rumble_gain := 100 }})
    ((nsw_fresh_context 0 1 tv_zero) {{ initialized := true; nsw_connected := true; event_fd := 4 }}) [] =
    Some (ctx', [SysPoll 4 0; SysPoll 4 0; SysPoll 4 0]).
Proof.
  destruct (nsw_rumble_limited_is_lost good_kernel 9 (mk_timeval 0 10000)
    [mk_timeval 60 0; mk_timeval 90 0] (fun _ _ => Some 1)
    (zero_controller {{ rumble_active := true; rumble_strong := 90; rumble_gain := 100 }})
    ((nsw_fresh_context 0 1 tv_zero) {{ initialized := true; nsw_connected := true; event_fd := 4 }})
    []) as [ctx' H].
  - intros h'. vm_compute. discriminate.
  - repeat split. vm_compute. discriminate.
  - vm_compute. discriminate.
  - vm_compute. discriminate.
  - vm_compute. reflexivity.
  - exists ctx'. rewrite H. reflexivity.
Defined.

(** The search for the controller's event node closes every node it opened
    except the one it returns. *)
Theorem nsw_find_no_leak kernel dev_name entries slot h slot' fd h' :
  nsw_find_evdev_device kernel dev_name entries slot h = Some (slot', fd, h') ->
  -1 <= fd /\
  forall fd', opened kernel h' fd' = true ->
    opened kernel h fd' = true \/ (fd' = fd /\ 0 <= fd).
Proof.
  unfold nsw_find_evdev_device. destruct entries as [l|]; [apply nsw_find_loop_fds|].
  intros [= _ <- <-]. split; [lia | auto].
Qed.

Example nsw_find_no_leak_witness :
  exists r, nsw_find_evdev_device good_kernel (fun p => if String.eqb p "/dev/input/event1"
      then "Nintendo Switch Pro Controller" else "Keyboard")%string
      (Some ["event0"; "mouse0"; "event1"]%string) zero_controller [] = Some r /\ r.1.2 = 5 /\
    forall fd', opened good_kernel r.2 fd' = true -> fd' = 5.
Proof.
  eexists. split; [vm_compute; reflexivity|]. split; [reflexivity|]. intros fd' H.
  destruct (nsw_find_no_leak good_kernel (fun p => if String.eqb p "/dev/input/event1"
      then "Nintendo Switch Pro Controller" else "Keyboard")%string
      (Some ["event0"; "mouse0"; "event1"]%string) zero_controller [] _ _ _ eq_refl) as [_ Hf].
  destruct (Hf fd' H) as [Ho|[-> _]]; [discriminate Ho | reflexivity].
Defined.
