(* ===== verification/Settings.v ===== *)
(** * Profiles and the settings thread ([settings.c])

    The profile manager: reading and writing profiles as JSON, copying them to
    and from the shared slots, the requests of the front ends, delayed saving
    and the reload of files edited by others.  The JSON library is an interface
    with laws; the disk is a map from paths to files with their contents. *)

From S2P Require Import Prelude Types Keys Utils Led.
From stdpp Require Import gmap strings pretty.
Local Open Scope Z_scope.

(** ** cJSON

    The calls of the library the code makes, and what it relies on.  An object
    or array the code builds member by member is given by its members; the
    text of a file is whatever [cJSON_Print] produces. *)
Class CJson := {
  json : Type;
  text : Type;
  cJSON_Parse : text -> option json;
  cJSON_Print : json -> option text;
  cJSON_GetObjectItem : json -> string -> option json;
  cJSON_IsNumber : json -> bool;
  cJSON_IsArray : json -> bool;
  cJSON_GetArraySize : json -> Z;
  cJSON_GetArrayItem : json -> Z -> option json;
  valueint : json -> Z;
  cJSON_Object : list (string * json) -> json;
  cJSON_Array : list json -> json;
  cJSON_Number : Z -> json
}.

(** Keys are compared ignoring case. *)
Definition lower_char (c : Ascii.ascii) : Ascii.ascii :=
  let n := Ascii.nat_of_ascii c in
  if ((65 <=? n)%nat && (n <=? 90)%nat)%bool then Ascii.ascii_of_nat (n + 32) else c.
Fixpoint lower (s : string) : string :=
  match s with EmptyString => EmptyString | String c s => String (lower_char c) (lower s) end.
Definition same_key (a b : string) : bool := String.eqb (lower a) (lower b).

Definition INT_MAX : Z := 2147483647.
Definition INT_MIN : Z := -2147483648.

Class CJsonLaws `(C : CJson) : Prop := {
  get_item_object kvs k :
    cJSON_GetObjectItem (cJSON_Object kvs) k = snd <$> find (fun kv => same_key (fst kv) k) kvs;
  is_array_array l : cJSON_IsArray (cJSON_Array l) = true;
  array_size_array l : cJSON_GetArraySize (cJSON_Array l) = Z.of_nat (length l);
  array_item_array l (i : Z) : 0 <= i -> cJSON_GetArrayItem (cJSON_Array l) i = l !! Z.to_nat i;
  is_number_number z : cJSON_IsNumber (cJSON_Number z) = true;
  valueint_number z : valueint (cJSON_Number z) = Z.min INT_MAX (Z.max INT_MIN z);
  valueint_int j : INT_MIN <= valueint j <= INT_MAX;
  parse_print j s : cJSON_Print j = Some s -> cJSON_Parse s = Some j
}.

Section with_cjson.
Context `{C : CJson}.

(** ** State *)

#[projections(primitive)]
Record profile_t := mk_profile {
  p_name : string;
  p_slots : list slot_config_t;
  last_modified : Z;
  version : Z
}.

(** [inotify_wd] is -1 or the file the watch is on: a watch follows the file,
    not its name. *)
#[projections(primitive)]
Record profile_manager_t := mk_pm {
  base_dir : string;
  profiles_dir : string;
  active_profile : profile_t;
  active_name : string;
  profile_dirty : bool;
  last_change : timeval;
  pm_auto_save_enabled : bool;
  pm_auto_save_delay_ms : Z;
  inotify_fd : Z;
  inotify_wd : Z
}.

Definition eta_profile_t (r : profile_t) : profile_t :=
  mk_profile (p_name r) (p_slots r) (last_modified r) (version r).
#[export] Instance set_p_name : Setter p_name. Proof. mk_setter eta_profile_t. Defined.
#[export] Instance set_p_slots : Setter p_slots. Proof. mk_setter eta_profile_t. Defined.
#[export] Instance set_last_modified : Setter last_modified. Proof. mk_setter eta_profile_t. Defined.
#[export] Instance set_version : Setter version. Proof. mk_setter eta_profile_t. Defined.

Definition eta_profile_manager_t (r : profile_manager_t) : profile_manager_t :=
  mk_pm (base_dir r) (profiles_dir r) (active_profile r) (active_name r) (profile_dirty r)
    (last_change r) (pm_auto_save_enabled r) (pm_auto_save_delay_ms r) (inotify_fd r) (inotify_wd r).
#[export] Instance set_active_profile : Setter active_profile. Proof. mk_setter eta_profile_manager_t. Defined.
#[export] Instance set_active_name : Setter active_name. Proof. mk_setter eta_profile_manager_t. Defined.
#[export] Instance set_profile_dirty : Setter profile_dirty. Proof. mk_setter eta_profile_manager_t. Defined.
#[export] Instance set_last_change : Setter last_change. Proof. mk_setter eta_profile_manager_t. Defined.
#[export] Instance set_pm_auto_save_enabled : Setter pm_auto_save_enabled. Proof. mk_setter eta_profile_manager_t. Defined.
#[export] Instance set_pm_auto_save_delay_ms : Setter pm_auto_save_delay_ms. Proof. mk_setter eta_profile_manager_t. Defined.
#[export] Instance set_inotify_fd : Setter inotify_fd. Proof. mk_setter eta_profile_manager_t. Defined.
#[export] Instance set_inotify_wd : Setter inotify_wd. Proof. mk_setter eta_profile_manager_t. Defined.

(** ** The disk *)

Record disk := mk_disk {
  names : gmap string Z;
  contents : gmap Z text;
  next_file : Z
}.

(** Paths name distinct files, and new files are new. *)
Definition disk_ok (d : disk) : Prop :=
  0 <= next_file d /\
  (forall p i, names d !! p = Some i -> 0 <= i < next_file d) /\
  (forall p q i, names d !! p = Some i -> names d !! q = Some i -> p = q).

Definition read_file (d : disk) (path : string) : option text :=
  names d !! path ≫= fun i => contents d !! i.
(** [fopen(path, "w")], [fprintf], [fclose]: an existing file is truncated. *)
Definition write_file (path : string) (s : text) (d : disk) : disk :=
  match names d !! path with
  | Some i => mk_disk (names d) (<[i := s]> (contents d)) (next_file d)
  | None => mk_disk (<[path := next_file d]> (names d)) (<[next_file d := s]> (contents d))
              (next_file d + 1)
  end.
Definition rename_file (from to : string) (d : disk) : disk :=
  match names d !! from with
  | Some i => mk_disk (<[to := i]> (delete from (names d))) (contents d) (next_file d)
  | None => d
  end.
Definition unlink_file (path : string) (d : disk) : disk :=
  mk_disk (delete path (names d)) (contents d) (next_file d).

(** What the system does during one operation: whether a file can be opened,
    created, renamed or removed, what of a text reaches the file (all of it,
    unless the disk is full) and the clocks. *)
Record io_env := mk_io_env {
  can_read : bool; can_create : bool; can_rename : bool; can_unlink : bool;
  wrote : text -> text;
  time_NULL : Z;
  gettimeofday_now : timeval
}.

(** ** Validated reads *)

Definition safe_json_get_int_range (obj : json) (key : string) (min_val max_val default_val : Z)
  : Z * bool :=
  match cJSON_GetObjectItem obj key with
  | None => (default_val, false)
  | Some item =>
      if negb (cJSON_IsNumber item) then (default_val, false)
      else
        let val := valueint item in
        if (val <? min_val) || (max_val <? val) then (default_val, false) else (val, true)
  end.

Definition safe_json_get_bool (obj : json) (key : string) (default_val : bool) : bool * bool :=
  let (val, found) := safe_json_get_int_range obj key 0 1 (if default_val then 1 else 0) in
  (negb (val =? 0), found).

Definition safe_json_get_uint8 (obj : json) (key : string) (min_val max_val default_val : Z)
  : Z * bool :=
  let (tmp, found) := safe_json_get_int_range obj key min_val max_val default_val in
  (u8 tmp, found).

(** ** Loading *)

Definition json_path (pm : profile_manager_t) (name : string) : string :=
  String.append (profiles_dir pm) (String.append "/" (String.append name ".json")).

(** The keymap of a slot: each entry validated on its own. *)
Definition load_keymap_entry (arr : json) (keymap_size k : Z) : Z :=
  let default_map := u8 (k + 1) in
  if k <? keymap_size then
    match cJSON_GetArrayItem arr k with
    | Some item =>
        if cJSON_IsNumber item then
          let val := valueint item in
          if (0 <=? val) && (val <? LOGICAL_BTN_COUNT) then u8 val else default_map
        else default_map
    | None => default_map
    end
  else default_map.

Definition load_keymap (slot : json) (km : list Z) : list Z :=
  match cJSON_GetObjectItem slot "keymap" with
  | Some arr =>
      if cJSON_IsArray arr then
        let keymap_size := cJSON_GetArraySize arr in
        fold_idx (fun k km => aset km k (load_keymap_entry arr keymap_size k)) PHY_BTN_COUNT km
      else keys_get_default_map TYPE_DS4 km
  | None => keys_get_default_map TYPE_DS4 km
  end.

Definition load_slot (slot : json) (cfg : slot_config_t) : slot_config_t :=
  let get_u8 key a b d := (safe_json_get_uint8 slot key a b d).1 in
  let get_bool key d := (safe_json_get_bool slot key d).1 in
  {| cfg_led_r := get_u8 "led_r" 0 255 0; cfg_led_g := get_u8 "led_g" 0 255 0;
     cfg_led_b := get_u8 "led_b" 0 255 255;
     cfg_led_base_r := get_u8 "led_base_r" 0 255 0; cfg_led_base_g := get_u8 "led_base_g" 0 255 0;
     cfg_led_base_b := get_u8 "led_base_b" 0 255 255;
     cfg_rumble_gain := get_u8 "rumble_gain" 0 100 100; cfg_deadzone := get_u8 "deadzone" 0 100 10;
     cfg_global_led_brightness := get_u8 "global_brightness" 0 100 80;
     cfg_player_leds := get_u8 "player_leds" 0 5 0;
     cfg_debounce_enabled := get_bool "debounce" true; cfg_emulate_active := get_bool "emulate" true;
     cfg_is_uhid := get_bool "is_uhid" false; cfg_led_reapply := get_bool "led_reapply" true;
     cfg_rumble_active := get_bool "rumble_active" true; cfg_invert_ly := get_bool "invert_ly" false;
     cfg_invert_ry := get_bool "invert_ry" false;
     cfg_sensitivity_left_preset :=
       get_u8 "sensitivity_left" 0 (SENS_PRESET_COUNT - 1) SENS_PRESET_DEFAULT;
     cfg_sensitivity_right_preset :=
       get_u8 "sensitivity_right" 0 (SENS_PRESET_COUNT - 1) SENS_PRESET_DEFAULT;
     cfg_led_effect := to_uint8 (get_u8 "led_effect" 0 (LEDFX_COUNT - 1) 0);
     cfg_led_effect_speed := get_u8 "led_effect_speed" 1 10 5;
     cfg_led_effect_brightness := get_u8 "led_effect_brightness" 0 100 80;
     cfg_keymap := load_keymap slot (cfg_keymap cfg);
     cfg_treat_triggers_as_digital := get_bool "triggers_digital" false |}%string.

(** The loop over the slots of the file, at most [MAX_SLOTS]. *)
Definition load_slots (slots : json) (cfgs : list slot_config_t) : list slot_config_t :=
  let array_size := cJSON_GetArraySize slots in
  fold_idx (fun i cfgs =>
    if i <? array_size then
      match cJSON_GetArrayItem slots i with
      | None => cfgs
      | Some slot => aset cfgs i (load_slot slot (aget zero_slot_config cfgs i))
      end
    else cfgs) MAX_SLOTS cfgs.

Definition load_profile_from_disk (env : io_env) (d : disk) (pm : profile_manager_t) (name : string)
  : profile_manager_t * bool :=
  match (if can_read env then read_file d (json_path pm name) else None) with
  | None => (pm, false)
  | Some json_str =>
      match cJSON_Parse json_str with
      | None => (pm, false)
      | Some root =>
          match cJSON_GetObjectItem root "version", cJSON_GetObjectItem root "last_modified",
                cJSON_GetObjectItem root "slots" with
          | Some ver, Some last_mod, Some slots =>
              if negb (cJSON_IsArray slots) then (pm, false)
              else
                (pm {{ active_profile :=
                  mk_profile name (load_slots slots (p_slots (active_profile pm)))
                    (u64 (valueint last_mod)) (u32 (valueint ver)) }}, true)
          | _, _, _ => (pm, false)
          end
      end
  end.

(** ** Saving *)

Definition slot_json (cfg : slot_config_t) : json :=
  let num key v := (key, cJSON_Number v) in
  cJSON_Object
    [ num "led_r" (cfg_led_r cfg); num "led_g" (cfg_led_g cfg); num "led_b" (cfg_led_b cfg);
      num "led_base_r" (cfg_led_base_r cfg); num "led_base_g" (cfg_led_base_g cfg);
      num "led_base_b" (cfg_led_base_b cfg); num "rumble_gain" (cfg_rumble_gain cfg);
      num "deadzone" (cfg_deadzone cfg);
      num "global_brightness" (cfg_global_led_brightness cfg);
      num "player_leds" (cfg_player_leds cfg); num "debounce" (b2z (cfg_debounce_enabled cfg));
      num "emulate" (b2z (cfg_emulate_active cfg)); num "is_uhid" (b2z (cfg_is_uhid cfg));
      num "led_reapply" (b2z (cfg_led_reapply cfg));
      num "rumble_active" (b2z (cfg_rumble_active cfg));
      num "invert_ly" (b2z (cfg_invert_ly cfg)); num "invert_ry" (b2z (cfg_invert_ry cfg));
      num "sensitivity_left" (cfg_sensitivity_left_preset cfg);
      num "sensitivity_right" (cfg_sensitivity_right_preset cfg);
      num "led_effect" (cfg_led_effect cfg); num "led_effect_speed" (cfg_led_effect_speed cfg);
      num "led_effect_brightness" (cfg_led_effect_brightness cfg);
      num "triggers_digital" (b2z (cfg_treat_triggers_as_digital cfg));
      ("keymap", cJSON_Array
         (map (fun k => cJSON_Number (aget 0 (cfg_keymap cfg) (Z.of_nat k))) (seq 0 PHY_BTN_COUNT)))
    ]%string.

Definition profile_json (now : Z) (p : profile_t) : json :=
  cJSON_Object
    [ ("version", cJSON_Number (version p)); ("last_modified", cJSON_Number now);
      ("slots", cJSON_Array
         (map (fun i => slot_json (aget zero_slot_config (p_slots p) (Z.of_nat i)))
            (seq 0 MAX_SLOTS))) ]%string.

Definition tmp_path (path : string) : string := String.append path ".tmp".

(** The temporary file is created, filled and renamed; the results of
    [fprintf] and [fclose] are not looked at. *)
Definition save_profile_to_disk (env : io_env) (pm : profile_manager_t) (name : string) (d : disk)
  : disk * bool :=
  let path := json_path pm name in
  match cJSON_Print (profile_json (time_NULL env) (active_profile pm)) with
  | None => (d, false)
  | Some json_str =>
      if negb (can_create env) then (d, false)
      else
        let d := write_file (tmp_path path) (wrote env json_str) d in
        if can_rename env then (rename_file (tmp_path path) path d, true) else (d, false)
  end.

(** ** Watching the active profile *)

Definition profile_update_inotify (d : disk) (pm : profile_manager_t) : profile_manager_t :=
  if inotify_fd pm <? 0 then pm
  else
    let pm := if 0 <=? inotify_wd pm then pm {{ inotify_wd := -1 }} else pm in
    match names d !! json_path pm (active_name pm) with
    | Some file => pm {{ inotify_wd := file }}
    | None => pm {{ inotify_wd := -1 }}
    end.

(** ** The shared memory side *)

Definition profile_sync_auto_save_to_shm (pm : profile_manager_t) (shm : shared_data_t)
  : shared_data_t :=
  shm {{ auto_save_enabled := (if pm_auto_save_enabled pm then 1 else 0);
         auto_save_delay_ms := i32 (pm_auto_save_delay_ms pm) }}.

Definition profile_update_shm_current_name (shm : shared_data_t) (name : string) : shared_data_t :=
  shm {{ current_profile_name := strn (PROFILE_NAME_LEN - 1) name }}.

(** The comparison member by member; the keymaps with [memcmp]. *)
Definition cfg_differs (cfg new_cfg : slot_config_t) : bool :=
  let ne a b := negb (a =? b) in
  let nb a b := negb (Bool.eqb a b) in
  ne (cfg_led_r cfg) (cfg_led_r new_cfg) || ne (cfg_led_g cfg) (cfg_led_g new_cfg) ||
  ne (cfg_led_b cfg) (cfg_led_b new_cfg) || ne (cfg_led_base_r cfg) (cfg_led_base_r new_cfg) ||
  ne (cfg_led_base_g cfg) (cfg_led_base_g new_cfg) ||
  ne (cfg_led_base_b cfg) (cfg_led_base_b new_cfg) ||
  ne (cfg_rumble_gain cfg) (cfg_rumble_gain new_cfg) ||
  ne (cfg_deadzone cfg) (cfg_deadzone new_cfg) ||
  ne (cfg_global_led_brightness cfg) (cfg_global_led_brightness new_cfg) ||
  ne (cfg_player_leds cfg) (cfg_player_leds new_cfg) ||
  nb (cfg_debounce_enabled cfg) (cfg_debounce_enabled new_cfg) ||
  nb (cfg_emulate_active cfg) (cfg_emulate_active new_cfg) ||
  nb (cfg_is_uhid cfg) (cfg_is_uhid new_cfg) || nb (cfg_led_reapply cfg) (cfg_led_reapply new_cfg) ||
  nb (cfg_rumble_active cfg) (cfg_rumble_active new_cfg) ||
  nb (cfg_invert_ly cfg) (cfg_invert_ly new_cfg) || nb (cfg_invert_ry cfg) (cfg_invert_ry new_cfg) ||
  ne (cfg_sensitivity_left_preset cfg) (cfg_sensitivity_left_preset new_cfg) ||
  ne (cfg_sensitivity_right_preset cfg) (cfg_sensitivity_right_preset new_cfg) ||
  ne (cfg_led_effect cfg) (cfg_led_effect new_cfg) ||
  ne (cfg_led_effect_speed cfg) (cfg_led_effect_speed new_cfg) ||
  ne (cfg_led_effect_brightness cfg) (cfg_led_effect_brightness new_cfg) ||
  nb (cfg_treat_triggers_as_digital cfg) (cfg_treat_triggers_as_digital new_cfg) ||
  negb (bool_decide (cfg_keymap cfg = cfg_keymap new_cfg)).

Definition sync_slot (shm : shared_data_t) (i : Z) (acc : list slot_config_t * bool)
  : list slot_config_t * bool :=
  let new_cfg := controller_to_slot_config (get_slot shm i) in
  if cfg_differs (aget zero_slot_config acc.1 i) new_cfg
  then (aset acc.1 i new_cfg, true) else acc.

Definition profile_sync_shm_to_active (env : io_env) (pm : profile_manager_t) (shm : shared_data_t)
  : profile_manager_t :=
  let (cfgs, changed) :=
    fold_idx (sync_slot shm) MAX_SLOTS (p_slots (active_profile pm), false) in
  let prof := (active_profile pm) {{ p_slots := cfgs }} in
  if changed : bool
  then pm {{ active_profile := prof {{ last_modified := u64 (time_NULL env) }};
             profile_dirty := true; last_change := gettimeofday_now env }}
  else pm {{ active_profile := prof }}.

Definition profile_apply_to_shm (pm : profile_manager_t) (shm : shared_data_t) : shared_data_t :=
  fold_idx (fun i shm =>
    let cfg := aget zero_slot_config (p_slots (active_profile pm)) i in
    put_slot shm i ((slot_config_to_controller cfg (get_slot shm i)) {{ led_dirty := true }}))
    MAX_SLOTS shm.

(** ** Delayed saving *)

Definition elapsed_ms (now last : timeval) : Z :=
  (tv_sec now - tv_sec last) * 1000 + Z.quot (tv_usec now - tv_usec last) 1000.

Definition profile_handle_auto_save (env : io_env) (pm : profile_manager_t) (d : disk)
  : profile_manager_t * disk :=
  if negb (pm_auto_save_enabled pm) || negb (profile_dirty pm) then (pm, d)
  else if pm_auto_save_delay_ms pm <=? elapsed_ms (gettimeofday_now env) (last_change pm) then
    let (d, ok) := save_profile_to_disk env pm (active_name pm) d in
    (if ok : bool then pm {{ profile_dirty := false }} else pm, d)
  else (pm, d).

(** One event of the [inotify] descriptor: is it [IN_MODIFY]? *)
Definition handle_inotify_event (env : io_env) (d : disk)
  (s : profile_manager_t * shared_data_t) (in_modify : bool) : profile_manager_t * shared_data_t :=
  let (pm, shm) := s in
  if in_modify then
    if profile_dirty pm then (pm, shm)
    else
      let (pm, ok) := load_profile_from_disk env d pm (active_name pm) in
      if ok : bool
      then (pm, profile_update_shm_current_name
                  (profile_sync_auto_save_to_shm pm (profile_apply_to_shm pm shm)) (active_name pm))
      else (pm, shm)
  else (pm, shm).

Definition profile_handle_inotify (env : io_env) (events : list bool) (d : disk)
  (pm : profile_manager_t) (shm : shared_data_t) : profile_manager_t * shared_data_t :=
  if inotify_fd pm <? 0 then (pm, shm)
  else fold_left (handle_inotify_event env d) events (pm, shm).

(** ** Listing *)

(** The part of a file name before its last dot, when what follows is [json]. *)
Fixpoint strip_json (s : string) : option string :=
  if String.eqb s ".json" then Some EmptyString
  else match s with
       | EmptyString => None
       | String c s => String c <$> strip_json s
       end.

Definition newline : string := String (Ascii.ascii_of_nat 10) EmptyString.

Definition profile_list (entries : option (list (string * bool))) (output_size : Z) : string :=
  match entries with
  | None => EmptyString
  | Some l =>
      fold_left (fun output (ent : string * bool) =>
        if ent.2 then
          match strip_json ent.1 with
          | Some base =>
              if Z.of_nat (String.length output) + Z.of_nat (String.length base) + 2 <? output_size
              then String.append output (String.append base newline) else output
          | None => output
          end
        else output) l EmptyString
  end.

(** ** Requests *)

Definition MSG_SIZE : nat := 512.
Definition RESPONSE_SIZE : nat := 4096.
Definition quoted (before name after : string) : string :=
  strn (MSG_SIZE - 1)
    (String.append before (String.append "'" (String.append name (String.append "'" after)))).

(** Tell the shared memory about the profile just made active. *)
Definition publish (pm : profile_manager_t) (shm : shared_data_t) : shared_data_t :=
  profile_update_shm_current_name
    (profile_sync_auto_save_to_shm pm (profile_apply_to_shm pm shm)) (active_name pm).

(** The [switch (req)]: new state, result and message. *)
Definition handle_request (env : io_env) (entries : option (list (string * bool))) (req : Z)
  (name : string) (pm : profile_manager_t) (shm : shared_data_t) (d : disk)
  : profile_manager_t * shared_data_t * disk * Z * string :=
  match req with
  | 1 =>
      let (pm, ok) := load_profile_from_disk env d pm name in
      if ok : bool then
        let pm := profile_update_inotify d (pm {{ active_name := name }}) in
        (pm, publish pm shm, d, 1, quoted "Profile " name " loaded")
      else (pm, shm, d, -1, quoted "Failed to load profile " name "")
  | 2 =>
      let (d, ok) := save_profile_to_disk env pm name d in
      if ok : bool then
        (if String.eqb name (active_name pm) then pm {{ profile_dirty := false }} else pm,
         shm, d, 1, quoted "Profile " name " saved")
      else (pm, shm, d, -1, quoted "Failed to save profile " name "")
  | 3 =>
      match names d !! json_path pm name with
      | Some _ =>
          if can_unlink env then
            let d := unlink_file (json_path pm name) d in
            if String.eqb name (active_name pm) then
              let (pm, _) := load_profile_from_disk env d pm "Default" in
              let pm := profile_update_inotify d (pm {{ active_name := "Default"%string }}) in
              (pm, publish pm shm, d, 1, quoted "Profile " name " deleted")
            else (pm, shm, d, 1, quoted "Profile " name " deleted")
          else (pm, shm, d, -1, quoted "Failed to delete profile " name "")
      | None => (pm, shm, d, -1, quoted "Failed to delete profile " name "")
      end
  | 4 =>
      (pm, shm {{ profile_response_msg :=
             strn (RESPONSE_SIZE - 1) (profile_list entries (Z.of_nat RESPONSE_SIZE)) }},
       d, 1, EmptyString)
  | 5 =>
      let enabled := auto_save_enabled shm in
      let delay := auto_save_delay_ms shm in
      let pm := if negb (enabled =? -1)
                then pm {{ pm_auto_save_enabled := negb (enabled =? 0) }} else pm in
      let pm := if 0 <? delay then pm {{ pm_auto_save_delay_ms := delay }} else pm in
      (pm, profile_sync_auto_save_to_shm pm shm, d, 1,
       strn (MSG_SIZE - 1)
         (String.append "Auto-save " (String.append
            (if pm_auto_save_enabled pm then "enabled" else "disabled")
            (String.append ", delay=" (String.append (pretty (i32 (pm_auto_save_delay_ms pm))) "ms")))))
  | _ => (pm, shm, d, -1, strn (MSG_SIZE - 1) (String.append "Unknown request: " (pretty req)))
  end.

Definition profile_process_requests (env : io_env) (entries : option (list (string * bool)))
  (pm : profile_manager_t) (shm : shared_data_t) (d : disk)
  : profile_manager_t * shared_data_t * disk :=
  let req := profile_request shm in
  if req =? 0 then (pm, shm, d)
  else
    let name := strn (PROFILE_NAME_LEN - 1) (profile_name shm) in
    let '(pm, shm, d, result, msg) := handle_request env entries req name pm shm d in
    let shm := shm {{ profile_response := result }} in
    let shm := if negb (req =? 4) && negb (String.eqb msg EmptyString)
               then shm {{ profile_response_msg := strn (RESPONSE_SIZE - 1) msg }} else shm in
    (pm, shm {{ profile_request := 0 }}, d).

(** ** Life cycle *)

Definition default_slot_config (km : list Z) : slot_config_t :=
  {| cfg_led_r := 0; cfg_led_g := 0; cfg_led_b := 255;
     cfg_led_base_r := 0; cfg_led_base_g := 0; cfg_led_base_b := 255;
     cfg_rumble_gain := 100; cfg_deadzone := 10; cfg_global_led_brightness := 80;
     cfg_player_leds := 0; cfg_debounce_enabled := true; cfg_emulate_active := true;
     cfg_is_uhid := false; cfg_led_reapply := true; cfg_rumble_active := true;
     cfg_invert_ly := false; cfg_invert_ry := false;
     cfg_sensitivity_left_preset := SENS_PRESET_DEFAULT;
     cfg_sensitivity_right_preset := SENS_PRESET_DEFAULT;
     cfg_led_effect := to_uint8 0; cfg_led_effect_speed := 5; cfg_led_effect_brightness := 80;
     cfg_keymap := keys_get_default_map TYPE_DS4 km; cfg_treat_triggers_as_digital := false |}.

Definition zero_profile : profile_t :=
  mk_profile EmptyString (repeat zero_slot_config MAX_SLOTS) 0 0.

(** [fd] is what [inotify_init1] returns. *)
Definition profile_manager_init (env : io_env) (fd : Z) (d : disk) : profile_manager_t * disk :=
  let pm := mk_pm "/etc/dstx" "/etc/dstx/profiles" zero_profile "Default" false tv_zero
              true 2000 fd 0 in
  let (pm, ok) := load_profile_from_disk env d pm "Default" in
  let (pm, d) :=
    if ok : bool then (pm, d)
    else
      let pm := pm {{ active_profile :=
        mk_profile "Default"
          (fold_idx (fun i cfgs =>
             aset cfgs i (default_slot_config (cfg_keymap (aget zero_slot_config cfgs i))))
             MAX_SLOTS (p_slots (active_profile pm)))
          (u64 (time_NULL env)) 1 }} in
      (pm, (save_profile_to_disk env pm "Default" d).1) in
  (profile_update_inotify d pm, d).

Definition profile_manager_cleanup (env : io_env) (pm : profile_manager_t) (d : disk)
  : profile_manager_t * disk :=
  let d := if profile_dirty pm && pm_auto_save_enabled pm
           then (save_profile_to_disk env pm (active_name pm) d).1 else d in
  (if 0 <=? inotify_fd pm then pm {{ inotify_fd := -1 }} else pm, d).

(** ** The worker

    One turn of the loop: the others act on the shared memory while the thread
    polls, then the four steps run, each with its own clock and faults. *)
Record turn := mk_turn {
  others : shared_data_t -> shared_data_t;
  env_sync : io_env; env_request : io_env; env_save : io_env; env_notify : io_env;
  dir_entries : option (list (string * bool));
  inotify_events : list bool
}.

Definition settings_turn (t : turn) (s : profile_manager_t * shared_data_t * disk)
  : profile_manager_t * shared_data_t * disk :=
  let '(pm, shm, d) := s in
  let shm := others t shm in
  let pm := profile_sync_shm_to_active (env_sync t) pm shm in
  let '(pm, shm, d) := profile_process_requests (env_request t) (dir_entries t) pm shm d in
  let (pm, d) := profile_handle_auto_save (env_save t) pm d in
  let (pm, shm) := profile_handle_inotify (env_notify t) (inotify_events t) d pm shm in
  (pm, shm, d).

(** The thread until [running] is cleared, after as many turns as it had. *)
Definition settings_worker (turns : list turn) (s : profile_manager_t * shared_data_t * disk)
  : profile_manager_t * shared_data_t * disk :=
  let '(pm, shm, d) := s in
  fold_left (fun s t => settings_turn t s) turns (pm, publish pm shm, d).

(** [settings_init] to [settings_shutdown]; [pipe] and [pthread_create] may
    fail, and then no thread runs.  (A shutdown after a failed [pipe] joins a
    thread that was never created, since [running] stays set; that call has no
    defined behaviour and is not modelled.) *)
Definition settings_run (pipe_ok thread_ok : bool) (env_init env_exit : io_env) (fd : Z)
  (turns : list turn) (shm : shared_data_t) (d : disk) : shared_data_t * disk :=
  if negb pipe_ok then (shm, d)
  else
    let (pm, d) := profile_manager_init env_init fd d in
    if negb thread_ok then (shm, d)
    else
      let '(pm, shm, d) := settings_worker turns (pm, shm, d) in
      let (_, d) := profile_manager_cleanup env_exit pm d in
      (shm, d).
End with_cjson.

(** * Specification *)

(** A configuration the loader may produce. *)
Definition cfg_ok (cfg : slot_config_t) : Prop :=
  Forall (fun v => 0 <= v <= 255)
    [cfg_led_r cfg; cfg_led_g cfg; cfg_led_b cfg; cfg_led_base_r cfg; cfg_led_base_g cfg;
     cfg_led_base_b cfg] /\
  Forall (fun v => 0 <= v <= 100)
    [cfg_rumble_gain cfg; cfg_deadzone cfg; cfg_global_led_brightness cfg;
     cfg_led_effect_brightness cfg] /\
  0 <= cfg_player_leds cfg <= 5 /\
  0 <= cfg_sensitivity_left_preset cfg < SENS_PRESET_COUNT /\
  0 <= cfg_sensitivity_right_preset cfg < SENS_PRESET_COUNT /\
  0 <= cfg_led_effect cfg < LEDFX_COUNT /\ 1 <= cfg_led_effect_speed cfg <= 10 /\
  keymap_ok (cfg_keymap cfg).





(** The object of slot [j] of the file, if it has one. *)
Definition file_slot `{C : CJson} (arr : json) (j : Z) : option json :=
  if j <? cJSON_GetArraySize arr then cJSON_GetArrayItem arr j else None.

Definition cfg_at (pm : profile_manager_t) (i : Z) : slot_config_t :=
  aget zero_slot_config (p_slots (active_profile pm)) i.

(** The watch is on the file the active profile's path names. *)
Definition watching `{C : CJson} (pm : profile_manager_t) (d : disk) : Prop :=
  names d !! json_path pm (active_name pm) = Some (inotify_wd pm).

(** ** Validated reads *)

Section load_lemmas.
Context `{C : CJson}.

Lemma int_range_bounds obj key a b dflt :
  a <= dflt <= b -> a <= (safe_json_get_int_range obj key a b dflt).1 <= b.
Proof.
  intros H. unfold safe_json_get_int_range. repeat case_match; simpl; try lia.
Qed.

Lemma uint8_bounds obj key a b dflt :
  0 <= a -> b <= 255 -> a <= dflt <= b -> a <= (safe_json_get_uint8 obj key a b dflt).1 <= b.
Proof.
  intros Ha Hb Hd. pose proof (int_range_bounds obj key a b dflt Hd) as H.
  unfold safe_json_get_uint8. destruct (safe_json_get_int_range _ _ _ _ _). simpl in *.
  rewrite u8_small by lia. done.
Qed.

Lemma load_keymap_entry_range arr n k :
  0 <= k < 18 -> 0 <= load_keymap_entry arr n k < LOGICAL_BTN_COUNT.
Proof.
  intros Hk. unfold load_keymap_entry, LOGICAL_BTN_COUNT. cbv zeta.
  repeat case_match; rewrite ?u8_small; zprop; lia.
Qed.

Lemma length_fold_aset {A} (f : Z -> A) n l :
  length (fold_idx (fun k l => aset l k (f k)) n l) = length l.
Proof.
  apply (fold_idx_ind (fun _ l' => length l' = length l)); [done|].
  intros i l' _ H. by rewrite length_aset.
Qed.

Lemma get_fold_aset {A} (f : Z -> A) dflt n l j :
  (n <= length l)%nat -> 0 <= j < Z.of_nat n ->
  aget dflt (fold_idx (fun k l => aset l k (f k)) n l) j = f j.
Proof.
  intros Hn. induction n as [|n IH]; [lia|]. intros Hj. rewrite fold_idx_S.
  rewrite aget_aset by (rewrite ?length_fold_aset; lia).
  destruct (Z.eqb_spec j (Z.of_nat n)) as [->|]; [done|]. apply IH; lia.
Qed.

(** A list filled by index is the list of the values. *)
Lemma fold_aset_all {A} (f : Z -> A) n l :
  length l = n -> fold_idx (fun k l => aset l k (f k)) n l = map (fun k => f (Z.of_nat k)) (seq 0 n).
Proof.
  intros Hl. apply list_eq. intros i.
  destruct (decide (i < n)%nat) as [Hi|Hi].
  - rewrite list_lookup_fmap, lookup_seq_lt by done. simpl.
    pose proof (get_fold_aset f (f 0) n l (Z.of_nat i) ltac:(lia) ltac:(lia)) as H.
    unfold aget in H. rewrite nth_lookup, Nat2Z.id in H.
    destruct (fold_idx _ n l !! i) eqn:E; simpl in H; [by subst|].
    apply lookup_ge_None in E. rewrite length_fold_aset in E. lia.
  - rewrite !lookup_ge_None_2; [done | rewrite length_map, length_seq; lia |].
    rewrite length_fold_aset. lia.
Qed.

Lemma load_keymap_ok slot km : length km = PHY_BTN_COUNT -> keymap_ok (load_keymap slot km).
Proof.
  intros Hl. unfold load_keymap.
  repeat case_match; try by apply keymap_ok_default.
  rewrite fold_aset_all by done. split; [by rewrite length_map, length_seq|].
  apply List.Forall_forall. intros v Hv. apply in_map_iff in Hv as (k & <- & Hk).
  apply in_seq in Hk. apply load_keymap_entry_range. unfold PHY_BTN_COUNT in Hk. lia.
Qed.

Lemma load_slot_ok slot cfg : length (cfg_keymap cfg) = PHY_BTN_COUNT -> cfg_ok (load_slot slot cfg).
Proof.
  intros Hl. unfold load_slot, cfg_ok. cbv zeta beta.
  cbn [cfg_led_r cfg_led_g cfg_led_b cfg_led_base_r cfg_led_base_g cfg_led_base_b cfg_rumble_gain
       cfg_deadzone cfg_global_led_brightness cfg_led_effect_brightness cfg_player_leds
       cfg_sensitivity_left_preset cfg_sensitivity_right_preset cfg_led_effect
       cfg_led_effect_speed cfg_keymap].
  pose proof (uint8_bounds slot) as B.
  split; [forall_list; apply B; lia|]. split; [forall_list; apply B; lia|].
  unfold SENS_PRESET_COUNT, SENS_PRESET_DEFAULT, LEDFX_COUNT.
  split; [apply B; lia|].
  split; [pose proof (B "sensitivity_left"%string 0 (8 - 1) 0); lia|].
  split; [pose proof (B "sensitivity_right"%string 0 (8 - 1) 0); lia|].
  split; [pose proof (B "led_effect"%string 0 (9 - 1) 0); rewrite to_uint8_small; lia|].
  split; [apply B; lia|]. by apply load_keymap_ok.
Qed.

Definition keymaps_sized (cfgs : list slot_config_t) : Prop :=
  Forall (fun cfg => length (cfg_keymap cfg) = PHY_BTN_COUNT) cfgs.

Lemma cfg_ok_sized cfg : cfg_ok cfg -> length (cfg_keymap cfg) = PHY_BTN_COUNT.
Proof. by intros (_&_&_&_&_&_&_&?&_). Qed.

(** Slot by slot: what the file has of it is loaded, else it stays. *)
Lemma load_slots_at arr cfgs j :
  0 <= j < Z.of_nat MAX_SLOTS -> length cfgs = MAX_SLOTS ->
  length (load_slots arr cfgs) = MAX_SLOTS /\
  aget zero_slot_config (load_slots arr cfgs) j =
    match file_slot arr j with
    | Some slot => load_slot slot (aget zero_slot_config cfgs j)
    | None => aget zero_slot_config cfgs j
    end.
Proof.
  intros Hj Hl. unfold load_slots. cbv zeta.
  enough (forall n, (n <= MAX_SLOTS)%nat ->
    let l := fold_idx (fun i cfgs => if i <? cJSON_GetArraySize arr then
      match cJSON_GetArrayItem arr i with
      | None => cfgs
      | Some slot => aset cfgs i (load_slot slot (aget zero_slot_config cfgs i))
      end else cfgs) n cfgs in
    length l = MAX_SLOTS /\ aget zero_slot_config l j =
      if j <? Z.of_nat n then
        match file_slot arr j with
        | Some slot => load_slot slot (aget zero_slot_config cfgs j)
        | None => aget zero_slot_config cfgs j
        end
      else aget zero_slot_config cfgs j) as H.
  { specialize (H MAX_SLOTS ltac:(lia)). cbv zeta in H.
    by rewrite (proj2 (Z.ltb_lt j (Z.of_nat MAX_SLOTS)) (proj2 Hj)) in H. }
  induction n as [|n IH]; intros Hn; cbv zeta in *.
  { split; [done|]. destruct (Z.ltb_spec j (Z.of_nat 0)); [lia|done]. }
  rewrite fold_idx_S. destruct (IH ltac:(lia)) as [L V]. clear IH.
  set (l := fold_idx _ n cfgs) in *. clearbody l.
  destruct (Z.eq_dec j (Z.of_nat n)) as [->|Hne].
  - rewrite (proj2 (Z.ltb_ge _ _) (Z.le_refl _)) in V.
    destruct (Z.ltb_spec (Z.of_nat n) (Z.of_nat (S n))); [|lia]. unfold file_slot.
    destruct (_ <? cJSON_GetArraySize arr); [|done].
    destruct (cJSON_GetArrayItem arr _) as [slot|]; [|done].
    rewrite length_aset, aget_aset, Z.eqb_refl, V by lia. done.
  - replace (j <? Z.of_nat (S n)) with (j <? Z.of_nat n)
      by (destruct (Z.ltb_spec j (Z.of_nat n)), (Z.ltb_spec j (Z.of_nat (S n))); try done; lia).
    rewrite <- V. destruct (_ <? cJSON_GetArraySize arr); [|done].
    destruct (cJSON_GetArrayItem arr _) as [slot|]; [|done].
    rewrite length_aset, aget_aset by lia. destruct (Z.eqb_spec j (Z.of_nat n)); done.
Qed.

Lemma load_slots_ok arr cfgs :
  length cfgs = MAX_SLOTS -> keymaps_sized cfgs ->
  length (load_slots arr cfgs) = MAX_SLOTS /\ keymaps_sized (load_slots arr cfgs) /\
  forall j, 0 <= j < Z.of_nat MAX_SLOTS ->
    cfg_ok (aget zero_slot_config (load_slots arr cfgs) j) \/
    aget zero_slot_config (load_slots arr cfgs) j = aget zero_slot_config cfgs j.
Proof.
  intros Hl Hs.
  assert (forall j, 0 <= j < Z.of_nat MAX_SLOTS ->
    cfg_ok (aget zero_slot_config (load_slots arr cfgs) j) \/
    aget zero_slot_config (load_slots arr cfgs) j = aget zero_slot_config cfgs j) as H.
  { intros j Hj. destruct (load_slots_at arr cfgs j Hj Hl) as [_ ->].
    destruct (file_slot arr j); [left | by right].
    apply load_slot_ok, (aget_Forall _ _ _ _ Hs). reflexivity. }
  destruct (load_slots_at arr cfgs 0 ltac:(done) Hl) as [L _].
  split; [exact L|]. split; [|exact H]. apply Forall_lookup_2. intros k c Hk.
  pose proof (lookup_lt_Some _ _ _ Hk) as Hlt. rewrite L in Hlt.
  replace c with (aget zero_slot_config (load_slots arr cfgs) (Z.of_nat k))
    by (unfold aget; by rewrite nth_lookup, Nat2Z.id, Hk).
  destruct (H (Z.of_nat k) ltac:(lia)) as [Hc | ->]; [by apply cfg_ok_sized|].
  apply (aget_Forall _ _ _ _ Hs). reflexivity.
Qed.




End load_lemmas.

(** ** The disk *)

Lemma length_append a b : String.length (String.append a b) = (String.length a + String.length b)%nat.
Proof.
  induction a as [|c a IH]; [done|].
  change (S (String.length (String.append a b)) = S (String.length a) + String.length b)%nat. lia.
Qed.

Lemma tmp_path_ne p : tmp_path p <> p.
Proof.
  intros H. apply (f_equal String.length) in H. unfold tmp_path in H.
  rewrite length_append in H. change (String.length ".tmp") with 4%nat in H. lia.
Qed.

Section disk_lemmas.
Context `{C : CJson}.

Lemma write_file_spec path s d :
  disk_ok d ->
  disk_ok (write_file path s d) /\ read_file (write_file path s d) path = Some s /\
  (forall p, p <> path -> names (write_file path s d) !! p = names d !! p) /\
  (forall p, p <> path -> read_file (write_file path s d) p = read_file d p).
Proof.
  intros (H0 & Hr & Hi). unfold write_file. destruct (names d !! path) as [f|] eqn:E.
  - split; [done|]. unfold read_file. cbn [names contents]. rewrite E. cbn [mbind option_bind].
    rewrite lookup_insert_eq. split; [done|]. split; [done|]. intros p Hp.
    destruct (names d !! p) as [f'|] eqn:E'; [|done]. cbn [mbind option_bind].
    rewrite lookup_insert_ne; [done|]. intros <-. apply Hp. by eapply Hi.
  - split; [|unfold read_file; cbn [names contents]; split; [|split]].
    + split; [cbn [next_file]; lia|]. split; cbn [names next_file].
      * intros p f Hp. apply lookup_insert_Some in Hp as [[_ <-]|[_ Hp]]; [lia|].
        specialize (Hr p f Hp). lia.
      * intros p q f Hp Hq.
        apply lookup_insert_Some in Hp as [[<- <-]|[? Hp]];
          apply lookup_insert_Some in Hq as [[<- Hf]|[? Hq]]; try done.
        -- specialize (Hr q _ Hq). lia.
        -- specialize (Hr p _ Hp). lia.
        -- by eapply Hi.
    + rewrite lookup_insert_eq. cbn [mbind option_bind]. by rewrite lookup_insert_eq.
    + intros p Hp. by rewrite lookup_insert_ne.
    + intros p Hp. rewrite lookup_insert_ne by done.
      destruct (names d !! p) as [f'|] eqn:E'; [|done]. cbn [mbind option_bind].
      rewrite lookup_insert_ne; [done|]. specialize (Hr p _ E'). lia.
Qed.

Lemma rename_file_spec from to d f :
  disk_ok d -> names d !! from = Some f -> from <> to ->
  disk_ok (rename_file from to d) /\ names (rename_file from to d) !! to = Some f /\
  read_file (rename_file from to d) to = read_file d from /\
  (forall p, p <> from -> p <> to -> read_file (rename_file from to d) p = read_file d p).
Proof.
  intros (H0 & Hr & Hi) Hf Hne. unfold rename_file. rewrite Hf.
  split; [|unfold read_file; cbn [names contents]; split; [|split]].
  - split; [done|]. split; cbn [names next_file].
    + intros p g Hp. apply lookup_insert_Some in Hp as [[_ <-]|[_ Hp]]; [by eapply Hr|].
      apply lookup_delete_Some in Hp as [_ Hp]. by eapply Hr.
    + intros p q g Hp Hq.
      apply lookup_insert_Some in Hp as [[<- <-]|[? Hp]];
        apply lookup_insert_Some in Hq as [[<- Hg]|[? Hq]]; try done.
      * apply lookup_delete_Some in Hq as [? Hq]. destruct (Hi from q f); done.
      * subst g. apply lookup_delete_Some in Hp as [? Hp]. destruct (Hi from p f); done.
      * apply lookup_delete_Some in Hp as [_ Hp]. apply lookup_delete_Some in Hq as [_ Hq].
        by eapply Hi.
  - by rewrite lookup_insert_eq.
  - rewrite lookup_insert_eq, Hf. done.
  - intros p ? ?. rewrite lookup_insert_ne, lookup_delete_ne by done. done.
Qed.

(** What a save does to the disk, whatever fails. *)
Lemma save_spec env pm name d d' ok :
  disk_ok d -> save_profile_to_disk env pm name d = (d', ok) ->
  let path := json_path pm name in
  disk_ok d' /\
  (forall p, p <> path -> p <> tmp_path path -> read_file d' p = read_file d p) /\
  if ok : bool then
    exists s, cJSON_Print (profile_json (time_NULL env) (active_profile pm)) = Some s /\
      read_file d' path = Some (wrote env s) /\
      names d' !! path <> names d !! path
  else read_file d' path = read_file d path.
Proof.
  intros Hd E path. unfold save_profile_to_disk in E. cbv zeta in E. fold path in E.
  destruct (cJSON_Print _) as [s|] eqn:Es; [|by injection E as <- <-].
  destruct (can_create env); cbn [negb] in E; [|by injection E as <- <-].
  destruct (write_file_spec (tmp_path path) (wrote env s) d Hd) as (Hd1 & Ht & Hn & Ho).
  assert (path <> tmp_path path) as Hne by (intros H; by apply (tmp_path_ne path)).
  destruct (can_rename env); injection E as <- <-; [|split; [done|]; split; [|by apply Ho]].
  - unfold read_file in Ht. destruct (names _ !! tmp_path path) as [f|] eqn:Ef; [|done].
    destruct (rename_file_spec _ path _ f Hd1 Ef ltac:(done)) as (Hd2 & Hp & Hrd & Hoth).
    split; [done|]. split; [intros p Hp1 Hp2; rewrite Hoth by done; by apply Ho|].
    exists s. split; [done|]. split.
    + rewrite Hrd. unfold read_file. by rewrite Ef.
    + rewrite Hp, <- Hn by done. intros Hq. symmetry in Hq. destruct Hd1 as (_ & _ & Hi).
      by specialize (Hi _ _ _ Hq Ef).
  - intros p _ Hp2. by apply Ho.
Qed.
End disk_lemmas.

(** ** Reading back what was written *)

Section roundtrip_lemmas.
Context `{C : CJson} {L : CJsonLaws C}.

Lemma valueint_small z : INT_MIN <= z <= INT_MAX -> valueint (cJSON_Number z) = z.
Proof. intros H. rewrite valueint_number. lia. Qed.

Lemma read_u8_back kvs key k v a b dflt :
  find (fun kv => same_key (fst kv) key) kvs = Some (k, cJSON_Number v) ->
  0 <= a -> b <= 255 -> a <= v <= b ->
  safe_json_get_uint8 (cJSON_Object kvs) key a b dflt = (v, true).
Proof.
  intros Hf Ha Hb Hv. unfold safe_json_get_uint8, safe_json_get_int_range.
  rewrite get_item_object, Hf. cbn [fmap option_fmap option_map snd]. rewrite is_number_number.
  cbn [negb]. unfold INT_MAX in *. rewrite valueint_small by (unfold INT_MIN, INT_MAX; lia).
  destruct (Z.ltb_spec v a), (Z.ltb_spec b v); try lia. cbn [orb]. by rewrite u8_small by lia.
Qed.

Lemma read_bool_back kvs key k (v : bool) dflt :
  find (fun kv => same_key (fst kv) key) kvs = Some (k, cJSON_Number (b2z v)) ->
  safe_json_get_bool (cJSON_Object kvs) key dflt = (v, true).
Proof.
  intros Hf. unfold safe_json_get_bool, safe_json_get_int_range.
  rewrite get_item_object, Hf. cbn [fmap option_fmap option_map snd]. rewrite is_number_number.
  cbn [negb]. rewrite valueint_small by (unfold INT_MIN, INT_MAX; destruct v; simpl; lia).
  by destruct v.
Qed.

Lemma load_keymap_back slot km km0 :
  cJSON_GetObjectItem slot "keymap" = Some (cJSON_Array
    (map (fun k => cJSON_Number (aget 0 km (Z.of_nat k))) (seq 0 PHY_BTN_COUNT))) ->
  keymap_ok km -> length km0 = PHY_BTN_COUNT -> load_keymap slot km0 = km.
Proof.
  intros Hs [Hl Hv] Hl0. unfold load_keymap. rewrite Hs, is_array_array, array_size_array.
  cbv zeta. rewrite length_map, length_seq, fold_aset_all by done.
  apply list_eq. intros i. destruct (decide (i < PHY_BTN_COUNT)%nat) as [Hi|Hi].
  - rewrite list_lookup_fmap, lookup_seq_lt by done. cbn [fmap option_fmap option_map Nat.add].
    unfold load_keymap_entry. destruct (Z.ltb_spec (Z.of_nat i) (Z.of_nat PHY_BTN_COUNT)); [|lia].
    rewrite array_item_array by lia. rewrite Nat2Z.id, list_lookup_fmap, lookup_seq_lt by done.
    cbn [fmap option_fmap option_map Nat.add]. rewrite is_number_number.
    destruct (lookup_lt_is_Some_2 km i ltac:(lia)) as [v E].
    assert (aget 0 km (Z.of_nat i) = v) as ->
      by (unfold aget; rewrite nth_lookup, Nat2Z.id, E; done).
    assert (0 <= v < LOGICAL_BTN_COUNT) as Hr by (by eapply Forall_lookup_1 in Hv).
    unfold LOGICAL_BTN_COUNT in *.
    rewrite valueint_small by (unfold INT_MIN, INT_MAX; lia). cbv zeta.
    destruct (Z.leb_spec 0 v), (Z.ltb_spec v 19); try lia. cbn [andb].
    by rewrite u8_small, E by lia.
  - rewrite !lookup_ge_None_2; [done | lia | rewrite length_map, length_seq; lia].
Qed.

Lemma load_slot_back cfg cfg0 :
  cfg_ok cfg -> length (cfg_keymap cfg0) = PHY_BTN_COUNT -> load_slot (slot_json cfg) cfg0 = cfg.
Proof.
  intros (Hc & Hp & Hpl & Hsl & Hsr & He & Hes & Hk) Hl0.
  repeat match goal with H : Forall _ (_ :: _) |- _ => apply Forall_cons_1 in H as [? H] end.
  unfold load_slot, slot_json, SENS_PRESET_COUNT, SENS_PRESET_DEFAULT, LEDFX_COUNT in *. cbv zeta beta.
  repeat (erewrite read_u8_back; [|reflexivity|lia..]). cbn [fst]. rewrite to_uint8_val.
  repeat (erewrite read_bool_back; [|reflexivity]).
  erewrite load_keymap_back; [cbn [fst]; reflexivity | rewrite get_item_object; reflexivity | done | done].
Qed.

Lemma load_slots_back cfgs cfgs0 :
  length cfgs = MAX_SLOTS -> Forall cfg_ok cfgs -> length cfgs0 = MAX_SLOTS -> keymaps_sized cfgs0 ->
  load_slots (cJSON_Array
    (map (fun i => slot_json (aget zero_slot_config cfgs (Z.of_nat i))) (seq 0 MAX_SLOTS))) cfgs0 = cfgs.
Proof.
  intros Hl Hok Hl0 Hs0. unfold load_slots. rewrite array_size_array. cbv zeta.
  rewrite length_map, length_seq.
  enough (forall n, (n <= MAX_SLOTS)%nat ->
    fold_idx (fun i cfgs' => if i <? Z.of_nat MAX_SLOTS then
      match cJSON_GetArrayItem (cJSON_Array (map (fun i => slot_json
              (aget zero_slot_config cfgs (Z.of_nat i))) (seq 0 MAX_SLOTS))) i with
      | None => cfgs'
      | Some slot => aset cfgs' i (load_slot slot (aget zero_slot_config cfgs' i))
      end else cfgs') n cfgs0 = take n cfgs ++ drop n cfgs0) as H.
  { rewrite H by done. rewrite take_ge, drop_ge by lia. by rewrite app_nil_r. }
  induction n as [|n IH]; intros Hn; [done|].
  rewrite fold_idx_S, IH by lia. destruct (Z.ltb_spec (Z.of_nat n) (Z.of_nat MAX_SLOTS)); [|lia].
  rewrite array_item_array, Nat2Z.id, list_lookup_fmap, lookup_seq_lt by lia.
  cbn [fmap option_fmap option_map Nat.add].
  destruct (lookup_lt_is_Some_2 cfgs n ltac:(lia)) as [c E].
  destruct (lookup_lt_is_Some_2 cfgs0 n ltac:(lia)) as [c0 E0].
  assert (length (take n cfgs) = n) as Ht by (rewrite length_take; lia).
  assert (aget zero_slot_config cfgs (Z.of_nat n) = c) as ->
    by (unfold aget; rewrite nth_lookup, Nat2Z.id, E; done).
  assert (aget zero_slot_config (take n cfgs ++ drop n cfgs0) (Z.of_nat n) = c0) as ->.
  { unfold aget. rewrite nth_lookup, Nat2Z.id, lookup_app_r, Ht by lia.
    rewrite Nat.sub_diag, lookup_drop, Nat.add_0_r, E0. done. }
  rewrite load_slot_back; [|by eapply Forall_lookup_1 in Hok | by eapply Forall_lookup_1 in Hs0].
  unfold aset. rewrite Nat2Z.id, (drop_S cfgs0 c0 n E0), (take_S_r cfgs n c E).
  rewrite insert_app_r_alt, Ht, Nat.sub_diag by lia. cbn [insert list_insert].
  by rewrite <- app_assoc.
Qed.
End roundtrip_lemmas.

(** ** Synchronisation *)

Lemma cfg_differs_spec a b : cfg_differs a b = false <-> a = b.
Proof.
  split.
  - intros H. unfold cfg_differs in H. cbv zeta beta in H.
    repeat match type of H with
    | (_ || _)%bool = false => apply orb_false_elim in H as [H ?]
    end.
    repeat match goal with
    | H : negb _ = false |- _ => apply negb_false_iff in H
    | H : (_ =? _) = true |- _ => apply Z.eqb_eq in H
    | H : Bool.eqb _ _ = true |- _ => apply Bool.eqb_prop in H
    | H : bool_decide _ = true |- _ => apply bool_decide_eq_true in H
    end.
    change (eta_slot_config_t a = eta_slot_config_t b). unfold eta_slot_config_t.
    repeat match goal with
    | H : uint8_val _ = _ |- _ => apply uint8_eq in H
    | H : _ = _ :> _ |- _ => rewrite H; clear H
    end. reflexivity.
  - intros ->. unfold cfg_differs. cbv zeta beta.
    by rewrite !Z.eqb_refl, !Bool.eqb_reflx, bool_decide_true by done.
Qed.

Lemma cfg_differs_true a b : a <> b -> cfg_differs a b = true.
Proof.
  intros H. destruct (cfg_differs a b) eqn:E; [done|]. by apply cfg_differs_spec in E.
Qed.

(** The loop leaves every configuration equal to its slot's and tells whether
    one of them was not. *)
Lemma sync_loop_spec shm cfgs n :
  length cfgs = MAX_SLOTS -> (n <= MAX_SLOTS)%nat ->
  let acc := fold_idx (sync_slot shm) n (cfgs, false) in
  length acc.1 = MAX_SLOTS /\
  (forall j, 0 <= j -> aget zero_slot_config acc.1 j =
     if j <? Z.of_nat n then controller_to_slot_config (get_slot shm j)
     else aget zero_slot_config cfgs j) /\
  (if acc.2 : bool
   then exists j, 0 <= j < Z.of_nat n /\
          aget zero_slot_config cfgs j <> controller_to_slot_config (get_slot shm j)
   else acc.1 = cfgs).
Proof.
  intros Hl. induction n as [|n IH]; intros Hn acc.
  - split; [done|]. split; [|done]. intros j Hj. destruct (Z.ltb_spec j (Z.of_nat 0)); [lia|done].
  - subst acc. rewrite fold_idx_S. destruct (IH ltac:(lia)) as (L & G & Ch). clear IH.
    set (acc := fold_idx (sync_slot shm) n (cfgs, false)) in *. clearbody acc.
    pose proof (G (Z.of_nat n) ltac:(lia)) as Gn.
    destruct (Z.ltb_spec (Z.of_nat n) (Z.of_nat n)); [lia|].
    unfold sync_slot. rewrite Gn. cbv zeta.
    destruct (cfg_differs _ _) eqn:E.
    + cbn [fst snd]. rewrite length_aset. split; [done|]. split.
      * intros j Hj. rewrite aget_aset by lia. rewrite (G j Hj).
        destruct (Z.eqb_spec j (Z.of_nat n)), (Z.ltb_spec j (Z.of_nat n)),
          (Z.ltb_spec j (Z.of_nat (S n))); try lia; try done. by subst j.
      * exists (Z.of_nat n). split; [lia|]. intros Heq. rewrite Heq in E.
        by rewrite (proj2 (cfg_differs_spec _ _) eq_refl) in E.
    + apply cfg_differs_spec in E. split; [done|]. split.
      * intros j Hj. rewrite (G j Hj).
        destruct (Z.ltb_spec j (Z.of_nat n)), (Z.ltb_spec j (Z.of_nat (S n))); try lia; try done.
        replace j with (Z.of_nat n) by lia. done.
      * destruct acc.2; [|done]. destruct Ch as (j & ? & ?). exists j. split; [lia|done].
Qed.

Lemma sync_spec `{C : CJson} env pm shm :
  length (p_slots (active_profile pm)) = MAX_SLOTS ->
  let pm' := profile_sync_shm_to_active env pm shm in
  length (p_slots (active_profile pm')) = MAX_SLOTS /\
  (forall j, 0 <= j < Z.of_nat MAX_SLOTS ->
     cfg_at pm' j = controller_to_slot_config (get_slot shm j)) /\
  (forall j, 0 <= j < Z.of_nat MAX_SLOTS ->
     cfg_at pm j <> controller_to_slot_config (get_slot shm j) ->
     profile_dirty pm' = true /\ last_change pm' = gettimeofday_now env) /\
  ((forall j, 0 <= j < Z.of_nat MAX_SLOTS ->
      cfg_at pm j = controller_to_slot_config (get_slot shm j)) -> pm' = pm) /\
  pm_auto_save_delay_ms pm' = pm_auto_save_delay_ms pm.
Proof.
  intros Hl. pose proof (sync_loop_spec shm _ MAX_SLOTS Hl ltac:(lia)) as (L & G & Ch).
  unfold profile_sync_shm_to_active, cfg_at. cbv zeta in *.
  destruct (fold_idx _ MAX_SLOTS _) as [cfgs ch]. cbn [fst snd] in *.
  assert (forall j, 0 <= j < Z.of_nat MAX_SLOTS ->
    aget zero_slot_config cfgs j = controller_to_slot_config (get_slot shm j)) as G'.
  { intros j Hj. rewrite (G j ltac:(lia)). destruct (Z.ltb_spec j (Z.of_nat MAX_SLOTS)); [done|lia]. }
  destruct ch; (split; [exact L|]); (split; [exact G'|]).
  - split; [done|]. split; [|done]. intros H. destruct Ch as (j & Hj & Hne). by destruct (Hne (H j Hj)).
  - subst cfgs. split; [|split; [|done]].
    + intros j Hj Hne. by destruct (Hne (G' j Hj)).
    + intros _. by destruct pm as [? ? [] ? ? ? ? ? ? ?].
Qed.

Lemma length_apply `{C : CJson} pm shm :
  length (slots (profile_apply_to_shm pm shm)) = length (slots shm).
Proof.
  unfold profile_apply_to_shm.
  apply (fold_idx_ind (fun _ s => length (slots s) = length (slots shm))); [done|].
  intros i s _ H. cbv zeta. by rewrite length_put_slot.
Qed.

Lemma apply_spec `{C : CJson} pm shm j :
  length (slots shm) = MAX_SLOTS -> 0 <= j < Z.of_nat MAX_SLOTS ->
  get_slot (profile_apply_to_shm pm shm) j =
    (slot_config_to_controller (cfg_at pm j) (get_slot shm j)) {{ led_dirty := true }}.
Proof.
  intros Hl Hj. unfold profile_apply_to_shm.
  enough (length (slots (profile_apply_to_shm pm shm)) = MAX_SLOTS /\
    get_slot (profile_apply_to_shm pm shm) j =
    if j <? Z.of_nat MAX_SLOTS
    then (slot_config_to_controller (cfg_at pm j) (get_slot shm j)) {{ led_dirty := true }}
    else get_slot shm j) as [_ H].
  { unfold profile_apply_to_shm in H. rewrite H. destruct (Z.ltb_spec j (Z.of_nat MAX_SLOTS)); [done|lia]. }
  unfold profile_apply_to_shm.
  refine (fold_idx_ind (fun n s => length (slots s) = MAX_SLOTS /\ get_slot s j =
    if j <? Z.of_nat n
    then (slot_config_to_controller (cfg_at pm j) (get_slot shm j)) {{ led_dirty := true }}
    else get_slot shm j) _ _ _ _ _).
  - split; [done|]. destruct (Z.ltb_spec j (Z.of_nat 0)); [lia|done].
  - intros i s Hi [Ls Gs]. cbv zeta. rewrite length_put_slot. split; [done|].
    destruct (Z.eq_dec j (Z.of_nat i)) as [->|Hne].
    + rewrite get_put_slot_eq by lia. rewrite Gs.
      destruct (Z.ltb_spec (Z.of_nat i) (Z.of_nat i)); [lia|].
      destruct (Z.ltb_spec (Z.of_nat i) (Z.of_nat (S i))); [done|lia].
    + rewrite get_put_slot_ne, Gs by lia.
      destruct (Z.ltb_spec j (Z.of_nat i)), (Z.ltb_spec j (Z.of_nat (S i))); try lia; done.
Qed.

(** Publishing a profile makes the slots agree with it. *)
Lemma publish_agrees `{C : CJson} pm shm j :
  length (slots shm) = MAX_SLOTS -> 0 <= j < Z.of_nat MAX_SLOTS ->
  controller_to_slot_config (get_slot (publish pm shm) j) = cfg_at pm j.
Proof.
  intros Hl Hj. change (get_slot (publish pm shm) j) with (get_slot (profile_apply_to_shm pm shm) j).
  rewrite apply_spec by done. generalize (get_slot shm j), (cfg_at pm j). intros c cfg.
  transitivity (controller_to_slot_config (slot_config_to_controller cfg c)); [reflexivity|].
  apply config_of_applied.
Qed.

Lemma update_inotify_profile `{C : CJson} d pm :
  active_profile (profile_update_inotify d pm) = active_profile pm /\
  active_name (profile_update_inotify d pm) = active_name pm.
Proof. unfold profile_update_inotify. repeat case_match; done. Qed.

Lemma load_fails_unchanged `{C : CJson} env d pm name pm' :
  load_profile_from_disk env d pm name = (pm', false) -> pm' = pm.
Proof. unfold load_profile_from_disk. repeat case_match; congruence. Qed.

Lemma load_length `{C : CJson} env d pm name pm' ok :
  length (p_slots (active_profile pm)) = MAX_SLOTS ->
  keymaps_sized (p_slots (active_profile pm)) ->
  load_profile_from_disk env d pm name = (pm', ok) ->
  length (p_slots (active_profile pm')) = length (p_slots (active_profile pm)).
Proof.
  intros Hl Hk H. unfold load_profile_from_disk in H.
  repeat match type of H with context [match ?x with _ => _ end] => destruct x end;
    injection H as <- _; try done. rewrite Hl. by apply load_slots_ok.
Qed.

(** Outcome of the [switch] of the requests. *)
Lemma handle_request_spec `{C : CJson} env entries req name pm shm d pm' shm' d' result msg :
  handle_request env entries req name pm shm d = (pm', shm', d', result, msg) ->
  (result = 1 \/ result = -1) /\ (req < 1 \/ 5 < req -> result = -1) /\
  (result = -1 -> pm' = pm /\ shm' = shm /\ (req <> 2 -> d' = d)) /\
  (req <> 2 -> req <> 3 -> d' = d) /\
  (req <> 1 -> req <> 3 -> slots shm' = slots shm) /\
  (req = 1 -> result = 1 -> shm' = publish pm' shm /\ active_name pm' = name /\
     (length (p_slots (active_profile pm)) = MAX_SLOTS ->
      keymaps_sized (p_slots (active_profile pm)) ->
      length (p_slots (active_profile pm')) = length (p_slots (active_profile pm)))).
Proof.
  unfold handle_request. intros H.
  destruct (Z.eq_dec req 1) as [->|]; [|destruct (Z.eq_dec req 2) as [->|];
    [|destruct (Z.eq_dec req 3) as [->|]; [|destruct (Z.eq_dec req 4) as [->|];
    [|destruct (Z.eq_dec req 5) as [->|]]]]].
  - destruct (load_profile_from_disk _ _ _ _) as [pm1 []] eqn:E; injection H as <- <- <- <- <-.
    + destruct (update_inotify_profile d (pm1 {{ active_name := name }})) as [Hp Hn].
      repeat split; try lia; try done. intros Hl Hk.
      etransitivity; [exact (f_equal (fun p => length (p_slots p)) Hp)|]. exact (load_length _ _ _ _ _ _ Hl Hk E).
    + apply load_fails_unchanged in E as ->. repeat split; try lia; done.
  - destruct (save_profile_to_disk _ _ _ _) as [d1 []]; injection H as <- <- <- <- <-;
      repeat split; try lia; done.
  - destruct (names d !! _); [|injection H as <- <- <- <- <-; repeat split; try lia; done].
    destruct (can_unlink env); [|injection H as <- <- <- <- <-; repeat split; try lia; done].
    destruct (String.eqb name (active_name pm));
      [destruct (load_profile_from_disk _ _ _ _) as [pm1 ?]|];
      injection H as <- <- <- <- <-; repeat split; try lia; done.
  - injection H as <- <- <- <- <-; repeat split; try lia; done.
  - injection H as <- <- <- <- <-; repeat split; try lia; done.
  - assert ((pm', shm', d', result) = (pm, shm, d, -1)) as Heq
      by (destruct req as [|p|p]; [|do 3 (destruct p as [p|p|]; try lia)|]; congruence).
    injection Heq as -> -> -> ->. repeat split; try lia; done.
Qed.

(** ** An effect that keeps changing the colour *)

(** What an effect update does to the shared memory when the colour changed. *)
Definition paint (i : Z) (c : rgb) (shm : shared_data_t) : shared_data_t :=
  let '(r, g, b) := c in
  put_slot shm i ((get_slot shm i) {{ led_r := r; led_g := g; led_b := b; led_dirty := true }}).

Definition slot_colour (slot : controller_t) : rgb := (led_r slot, led_g slot, led_b slot).

(** Turns in which an effect paints the slot while the thread polls, each time
    with another colour, and the turn takes less than the delay. *)
Fixpoint colour_keeps_changing `{C : CJson} (i delay : Z) (c : rgb) (turns : list turn) : Prop :=
  match turns with
  | [] => True
  | t :: turns =>
      exists c', c' <> c /\ others t = paint i c' /\
        elapsed_ms (gettimeofday_now (env_save t)) (gettimeofday_now (env_sync t)) < delay /\
        colour_keeps_changing i delay c' turns
  end.

Lemma paint_spec i c shm :
  length (slots shm) = MAX_SLOTS -> 0 <= i < Z.of_nat MAX_SLOTS ->
  length (slots (paint i c shm)) = MAX_SLOTS /\ slot_colour (get_slot (paint i c shm) i) = c /\
  profile_request (paint i c shm) = profile_request shm.
Proof.
  intros Hl Hi. destruct c as [[r g] b]. unfold paint. rewrite length_put_slot.
  rewrite get_put_slot_eq by lia. done.
Qed.

Lemma inotify_ignored `{C : CJson} env events d pm shm :
  profile_dirty pm = true -> profile_handle_inotify env events d pm shm = (pm, shm).
Proof.
  intros Hd. unfold profile_handle_inotify. destruct (inotify_fd pm <? 0); [done|].
  induction events as [|[] l IH]; [done| |done]. cbn [fold_left handle_inotify_event].
  by rewrite Hd.
Qed.

(** One such turn saves nothing. *)
Lemma busy_turn `{C : CJson} t i c pm shm d :
  length (slots shm) = MAX_SLOTS -> length (p_slots (active_profile pm)) = MAX_SLOTS ->
  0 <= i < Z.of_nat MAX_SLOTS -> profile_request shm = 0 ->
  cfg_at pm i = controller_to_slot_config (get_slot shm i) ->
  c <> slot_colour (get_slot shm i) -> others t = paint i c ->
  elapsed_ms (gettimeofday_now (env_save t)) (gettimeofday_now (env_sync t))
    < pm_auto_save_delay_ms pm ->
  exists pm', settings_turn t (pm, shm, d) = (pm', paint i c shm, d) /\
    length (p_slots (active_profile pm')) = MAX_SLOTS /\ profile_dirty pm' = true /\
    cfg_at pm' i = controller_to_slot_config (get_slot (paint i c shm) i) /\
    pm_auto_save_delay_ms pm' = pm_auto_save_delay_ms pm.
Proof.
  intros Hl Hp Hi Hreq Hsync Hc Ho Ht.
  destruct (paint_spec i c shm Hl Hi) as (Hl' & Hcol & Hreq').
  destruct (sync_spec (env_sync t) pm (paint i c shm) Hp) as (Lp & G & D & _ & Hdel).
  unfold settings_turn. rewrite Ho. cbv zeta in *.
  set (pm1 := profile_sync_shm_to_active _ _ _) in *. clearbody pm1.
  destruct (D i Hi) as [Hdirty Hlast].
  { rewrite Hsync. intros Heq. apply Hc. rewrite <- Hcol.
    change (slot_colour (get_slot (paint i c shm) i)) with
      (let k := controller_to_slot_config (get_slot (paint i c shm) i) in
       (cfg_led_r k, cfg_led_g k, cfg_led_b k)).
    rewrite <- Heq. done. }
  unfold profile_process_requests. rewrite Hreq', Hreq. cbn [Z.eqb].
  unfold profile_handle_auto_save. rewrite Hdirty, Hlast, Hdel.
  destruct (Z.leb_spec (pm_auto_save_delay_ms pm)
    (elapsed_ms (gettimeofday_now (env_save t)) (gettimeofday_now (env_sync t)))); [lia|].
  assert (forall A (x : A) b, (if negb b || negb true then x else x) = x) as Hif by (by intros ? ? []).
  rewrite Hif, inotify_ignored by done. exists pm1. repeat split; try done. by apply G.
Qed.

Lemma busy_turns `{C : CJson} i turns pm shm d :
  length (slots shm) = MAX_SLOTS -> length (p_slots (active_profile pm)) = MAX_SLOTS ->
  0 <= i < Z.of_nat MAX_SLOTS -> profile_request shm = 0 ->
  cfg_at pm i = controller_to_slot_config (get_slot shm i) ->
  colour_keeps_changing i (pm_auto_save_delay_ms pm) (slot_colour (get_slot shm i)) turns ->
  exists pm' shm', fold_left (fun s t => settings_turn t s) turns (pm, shm, d) = (pm', shm', d) /\
    (turns = [] \/ profile_dirty pm' = true).
Proof.
  revert pm shm. induction turns as [|t turns IH]; intros pm shm Hl Hp Hi Hreq Hsync Hc.
  - exists pm, shm. split; [done | by left].
  - destruct Hc as (c & Hne & Ho & Ht & Hc). cbn [fold_left].
    destruct (busy_turn t i c pm shm d Hl Hp Hi Hreq Hsync Hne Ho Ht)
      as (pm1 & -> & Lp & Hdirty & Hsync' & Hdel).
    destruct (paint_spec i c shm Hl Hi) as (Hl' & Hcol & Hreq').
    destruct (IH pm1 (paint i c shm)) as (pm' & shm' & Hf & Hd'); try done.
    { by rewrite Hreq'. } { by rewrite Hcol, Hdel. }
    exists pm', shm'. split; [done|]. right. destruct Hd' as [->|]; [|done].
    cbn [fold_left] in Hf. by injection Hf as <- _.
Qed.

(** ** A concrete JSON library

    Trees as texts: an instance of the interface, with which the witnesses
    evaluate. *)
#[warnings="-register-all"]
Inductive tree : Set :=
| TNum (z : Z)
| TArr (l : list tree)
| TObj (l : list (string * tree)).

#[export] Instance tree_json : CJson := {|
  json := tree; text := tree;
  cJSON_Parse := Some; cJSON_Print := Some;
  cJSON_GetObjectItem j k :=
    match j with TObj l => snd <$> find (fun kv => same_key (fst kv) k) l | _ => None end;
  cJSON_IsNumber j := match j with TNum _ => true | _ => false end;
  cJSON_IsArray j := match j with TArr _ => true | _ => false end;
  cJSON_GetArraySize j := match j with TArr l => Z.of_nat (length l) | _ => 0 end;
  cJSON_GetArrayItem j i :=
    match j with TArr l => if 0 <=? i then l !! Z.to_nat i else None | _ => None end;
  valueint j := match j with TNum z => Z.min INT_MAX (Z.max INT_MIN z) | _ => 0 end;
  cJSON_Object := TObj; cJSON_Array := TArr; cJSON_Number := TNum
|}.

#[export] Instance tree_json_laws : CJsonLaws tree_json.
Proof.
  split; try done.
  - intros l i Hi. cbn. destruct (Z.leb_spec 0 i); [done|lia].
  - intros [z| |]; cbn; unfold INT_MIN, INT_MAX; lia.
Qed.

Definition good_env (t : Z) (now : timeval) : io_env :=
  mk_io_env true true true true (fun s => s) t now.
Definition empty_disk : disk := mk_disk ∅ ∅ 1.
(** The manager as the thread starts it on an empty disk. *)
Definition fresh_pm : profile_manager_t * disk :=
  profile_manager_init (good_env 1700000000 tv_zero) 9 empty_disk.
Definition fresh_shm : shared_data_t :=
  mk_shared_data SHM_MAGIC_VALUE (repeat zero_controller MAX_SLOTS) false 0 0 false 0 0
    EmptyString 0 EmptyString 1 2000 EmptyString.

(** A profile that was saved whole is read back as it was. *)
Lemma saved_loads_back `{C : CJson} {L : CJsonLaws C} env env' pm pm2 name d d' :
  disk_ok d -> length (p_slots (active_profile pm)) = MAX_SLOTS ->
  Forall cfg_ok (p_slots (active_profile pm)) -> 0 <= version (active_profile pm) <= INT_MAX ->
  0 <= time_NULL env -> (forall s, wrote env s = s) ->
  can_read env' = true -> profiles_dir pm2 = profiles_dir pm ->
  length (p_slots (active_profile pm2)) = MAX_SLOTS -> keymaps_sized (p_slots (active_profile pm2)) ->
  save_profile_to_disk env pm name d = (d', true) ->
  load_profile_from_disk env' d' pm2 name =
    (pm2 {{ active_profile := mk_profile name (p_slots (active_profile pm))
              (Z.min INT_MAX (time_NULL env)) (version (active_profile pm)) }}, true).
Proof.
  intros Hd Hl Hok Hv Ht Hw Hr Hdir Hl2 Hk2 Hs.
  destruct (save_spec _ _ _ _ _ _ Hd Hs) as (_ & _ & s & Hp & Hrd & _).
  assert (json_path pm2 name = json_path pm name) as Hpath by (unfold json_path; by rewrite Hdir).
  unfold load_profile_from_disk. rewrite Hr, Hpath, Hrd, Hw.
  rewrite (parse_print _ _ Hp). unfold profile_json.
  rewrite !get_item_object. cbn [find same_key fst]. 
  change (same_key "version" "version") with true. change (same_key "version" "last_modified") with false.
  change (same_key "last_modified" "last_modified") with true. change (same_key "version" "slots") with false.
  change (same_key "last_modified" "slots") with false. change (same_key "slots" "slots") with true.
  cbn [fmap option_fmap option_map snd]. rewrite is_array_array. cbn [negb].
  rewrite load_slots_back by done. rewrite !valueint_number.
  unfold INT_MAX, INT_MIN in *. rewrite u64_small, u32_small by lia.
  repeat f_equal; lia.
Qed.

(** * Properties *)


(** C33: saving a profile and loading it back, by any manager of the same
    directory, gives the same slots and version under that name, if the
    configurations are in range and the text reached the disk whole. *)
Theorem profile_roundtrip `{C : CJson} {L : CJsonLaws C} env env' pm pm2 name d d' :
  disk_ok d -> length (p_slots (active_profile pm)) = MAX_SLOTS ->
  Forall cfg_ok (p_slots (active_profile pm)) -> 0 <= version (active_profile pm) <= INT_MAX ->
  0 <= time_NULL env -> (forall s, wrote env s = s) ->
  can_read env' = true -> profiles_dir pm2 = profiles_dir pm ->
  length (p_slots (active_profile pm2)) = MAX_SLOTS -> keymaps_sized (p_slots (active_profile pm2)) ->
  save_profile_to_disk env pm name d = (d', true) ->
  load_profile_from_disk env' d' pm2 name =
    (pm2 {{ active_profile := mk_profile name (p_slots (active_profile pm))
              (Z.min INT_MAX (time_NULL env)) (version (active_profile pm)) }}, true).
Proof. by apply saved_loads_back. Qed.

(** C37: delayed saving waits for the profile to be left alone, and an effect
    never leaves it alone: while an effect changes the colour of a slot in every
    turn of the thread, the changed colour counts as a change of the profile, so
    the delay starts again each time; nothing is ever written to disk, however
    many turns pass, the profile stays dirty and edits of the file are ignored. *)
Theorem autosave_starved_by_effect `{C : CJson} i turns pm shm d :
  length (slots shm) = MAX_SLOTS -> length (p_slots (active_profile pm)) = MAX_SLOTS ->
  0 <= i < Z.of_nat MAX_SLOTS -> profile_request shm = 0 ->
  colour_keeps_changing i (pm_auto_save_delay_ms pm) (slot_colour (get_slot (publish pm shm) i)) turns ->
  exists pm' shm', settings_worker turns (pm, shm, d) = (pm', shm', d) /\
    (turns = [] \/ profile_dirty pm' = true).
Proof.
  intros Hl Hp Hi Hreq Hc. unfold settings_worker.
  assert (length (slots (publish pm shm)) = MAX_SLOTS) as Hl'
    by (change (slots (publish pm shm)) with (slots (profile_apply_to_shm pm shm));
        by rewrite length_apply).
  assert (profile_request (publish pm shm) = 0) as Hreq'.
  { change (profile_request (publish pm shm)) with (profile_request (profile_apply_to_shm pm shm)).
    rewrite <- Hreq. unfold profile_apply_to_shm.
    by apply (fold_idx_ind (fun _ s => profile_request s = profile_request shm)). }
  apply (busy_turns i); try done. symmetry. by apply publish_agrees.
Qed.

(** C36: what the delayed save does: nothing before the delay has passed since
    the last change, or with saving disabled or nothing to save; otherwise it
    replaces the file of the active profile as a whole (with what of the text
    the disk took), or fails with the old file intact; other files but the
    temporary one stay as they were.  After a successful save the watch is on
    the replaced file, no longer on the profile's, so later edits go unseen. *)
Theorem autosave_outcome `{C : CJson} env pm d pm' d' :
  disk_ok d -> profile_handle_auto_save env pm d = (pm', d') ->
  let path := json_path pm (active_name pm) in
  let due := pm_auto_save_enabled pm && profile_dirty pm &&
             (pm_auto_save_delay_ms pm <=? elapsed_ms (gettimeofday_now env) (last_change pm)) in
  disk_ok d' /\
  (forall p, p <> path -> p <> tmp_path path -> read_file d' p = read_file d p) /\
  if due : bool then
    (pm' = pm /\ read_file d' path = read_file d path) \/
    (pm' = pm {{ profile_dirty := false }} /\
     (exists s, cJSON_Print (profile_json (time_NULL env) (active_profile pm)) = Some s /\
        read_file d' path = Some (wrote env s)) /\
     (watching pm d -> ~ watching pm' d'))
  else pm' = pm /\ d' = d.
Proof.
  intros Hd H path due. unfold profile_handle_auto_save in H.
  subst due. destruct (pm_auto_save_enabled pm), (profile_dirty pm);
    cbn [negb orb andb] in *; try (injection H as <- <-; split; [done | by split]).
  destruct (_ <=? _); [|injection H as <- <-; split; [done | by split]].
  destruct (save_profile_to_disk _ _ _ _) as [d1 ok] eqn:E. injection H as <- <-.
  destruct (save_spec _ _ _ _ _ _ Hd E) as (Hd1 & Ho & Hs). split; [done|]. split; [done|].
  destruct ok; [right|by left]. destruct Hs as (s & Hp & Hr & Hn). split; [done|].
  split; [by exists s|]. unfold watching. intros H1 H2. apply Hn.
  transitivity (Some (inotify_wd pm)); [exact H2 | symmetry; exact H1].
Qed.

(** C35: every request is answered: a pending request is cleared with response
    1 or -1, unknown requests with -1; a refused request leaves the manager and
    the slots alone and writes the disk only if it was a save; only save and
    delete touch the disk, only load and delete the slots; after a successful
    load the slots agree with the profile, so the next synchronisation finds
    nothing to save. *)
Theorem requests_answered `{C : CJson} env env' entries pm shm d pm' shm' d' :
  length (slots shm) = MAX_SLOTS -> length (p_slots (active_profile pm)) = MAX_SLOTS ->
  keymaps_sized (p_slots (active_profile pm)) ->
  profile_request shm <> 0 -> profile_process_requests env entries pm shm d = (pm', shm', d') ->
  let req := profile_request shm in
  profile_request shm' = 0 /\ (profile_response shm' = 1 \/ profile_response shm' = -1) /\
  (req < 1 \/ 5 < req -> profile_response shm' = -1) /\
  (profile_response shm' = -1 -> pm' = pm /\ slots shm' = slots shm /\ (req <> 2 -> d' = d)) /\
  (req <> 2 -> req <> 3 -> d' = d) /\
  (req <> 1 -> req <> 3 -> slots shm' = slots shm) /\
  (req = 1 -> profile_response shm' = 1 ->
     current_profile_name shm' = strn (PROFILE_NAME_LEN - 1) (active_name pm') /\
     forall j, 0 <= j < Z.of_nat MAX_SLOTS ->
       controller_to_slot_config (get_slot shm' j) = cfg_at pm' j /\
       profile_sync_shm_to_active env' pm' shm' = pm').
Proof.
  intros Hl Hp Hk Hreq H req. unfold profile_process_requests in H. cbv zeta in H. fold req in H.
  destruct (Z.eqb_spec req 0) as [|_]; [done|].
  destruct (handle_request _ _ _ _ _ _ _) as [[[[pm1 shm1] d1] result] msg] eqn:E.
  destruct (handle_request_spec _ _ _ _ _ _ _ _ _ _ _ _ E) as (Hr & Hunk & Hrej & Hd & Hsl & Hld).
  set (c := negb (req =? 4) && negb (String.eqb msg EmptyString)) in H. clearbody c.
  assert (exists m, shm' = shm1 {{ profile_response := result; profile_response_msg := m;
    profile_request := 0 }} /\ pm' = pm1 /\ d' = d1) as (m & -> & -> & ->).
  { destruct c; injection H as <- <- <-; [by eexists|].
    by exists (profile_response_msg shm1). }
  split; [done|]. split; [exact Hr|]. split; [exact Hunk|].
  split; [intros Hn; destruct (Hrej Hn) as (-> & -> & ?); done|].
  split; [exact Hd|]. split; [exact Hsl|].
  intros H1 H2. destruct (Hld H1 H2) as (-> & _ & Hlen). specialize (Hlen Hp Hk). rewrite Hp in Hlen.
  split; [done|]. intros j Hj. split; [exact (publish_agrees pm1 shm j Hl Hj)|].
  apply (sync_spec env' pm1 _ Hlen). intros j' Hj'. symmetry.
  exact (publish_agrees pm1 shm j' Hl Hj').
Qed.

(** ** Witnesses *)

Lemma all_repeat {A} (P : A -> Prop) x n : P x -> Forall P (repeat x n).
Proof. intros H. induction n; cbn [repeat]; auto. Qed.

Lemma default_cfg_ok : cfg_ok (default_slot_config (repeat 0 18)).
Proof.
  assert (keymap_ok (cfg_keymap (default_slot_config (repeat 0 18)))) as Hk
    by (apply (keymap_ok_default TYPE_DS4); reflexivity).
  unfold cfg_ok. cbn. split; [forall_list; lia|]. split; [forall_list; lia|].
  unfold SENS_PRESET_DEFAULT, SENS_PRESET_COUNT, LEDFX_COUNT.
  change (u8 0) with 0. repeat (split; [lia|]). exact Hk.
Qed.

Lemma fresh_slots :
  p_slots (active_profile fresh_pm.1) = repeat (default_slot_config (repeat 0 18)) 4.
Proof. vm_compute. reflexivity. Qed.

Lemma fresh_sized : keymaps_sized (p_slots (active_profile fresh_pm.1)).
Proof. rewrite fresh_slots. by apply all_repeat. Qed.

Lemma fresh_disk_ok : disk_ok fresh_pm.2.
Proof.
  unfold fresh_pm, profile_manager_init. 
  destruct (load_profile_from_disk _ _ _ _) as [pm []] eqn:E; [discriminate E|].
  destruct (save_profile_to_disk _ _ _ _) as [d ok] eqn:Es. cbn [fst snd].
  eapply save_spec; [|exact Es]. split; [done|]. split; intros ? **; discriminate.
Qed.



Example profile_roundtrip_witness :
  let pm := fresh_pm.1 in let d := fresh_pm.2 in
  let d' := (save_profile_to_disk (good_env 77 tv_zero) pm "Game" d).1 in
  let pm2 := pm {{ active_profile := zero_profile }} in
  load_profile_from_disk (good_env 0 tv_zero) d' pm2 "Game" =
    (pm2 {{ active_profile := mk_profile "Game" (p_slots (active_profile pm)) 77 1 }}, true).
Proof.
  intros pm d d' pm2.
  apply (profile_roundtrip (good_env 77 tv_zero) (good_env 0 tv_zero) pm pm2 "Game" d d'); try done.
  - exact fresh_disk_ok.
  - unfold pm. rewrite fresh_slots. apply all_repeat, default_cfg_ok.
  - by apply all_repeat.
Defined.

(** A turn in which the effect paints slot 1 red. *)
Definition red_turn (r t : Z) : turn :=
  mk_turn (paint 1 (r, 0, 0)) (good_env t (mk_timeval t 0)) (good_env t (mk_timeval t 0))
    (good_env t (mk_timeval t 500)) (good_env t (mk_timeval t 500)) None [true].

Example autosave_starved_by_effect_witness :
  exists pm' shm', settings_worker [red_turn 10 1000; red_turn 20 5000; red_turn 30 9000]
    (fresh_pm.1, fresh_shm, fresh_pm.2) = (pm', shm', fresh_pm.2) /\ profile_dirty pm' = true.
Proof.
  destruct (autosave_starved_by_effect 1 [red_turn 10 1000; red_turn 20 5000; red_turn 30 9000]
    (fresh_pm.1) fresh_shm (fresh_pm.2)) as (pm' & shm' & E & Hd).
  - reflexivity.
  - rewrite fresh_slots. reflexivity.
  - vm_compute. split; [discriminate | reflexivity].
  - reflexivity.
  - exists (10, 0, 0). split; [vm_compute; congruence|]. split; [done|]. split; [vm_compute; reflexivity|].
    exists (20, 0, 0). split; [congruence|]. split; [done|]. split; [vm_compute; reflexivity|].
    exists (30, 0, 0). split; [congruence|]. split; [done|]. split; [vm_compute; reflexivity|done].
  - exists pm', shm'. split; [exact E|]. by destruct Hd.
Defined.

Lemma fresh_autosave :
  (profile_handle_auto_save (good_env 9 (mk_timeval 9 0)) ((fresh_pm.1) {{ profile_dirty := true }})
     (fresh_pm.2)).1 = (fresh_pm.1) {{ profile_dirty := false }}.
Proof. vm_compute. reflexivity. Qed.

Lemma fresh_load :
  profile_response (profile_process_requests (good_env 3 tv_zero) None (fresh_pm.1)
    (fresh_shm {{ profile_request := 1; profile_name := "Default"%string }}) (fresh_pm.2)).1.2 = 1.
Proof. vm_compute. reflexivity. Qed.

Example autosave_outcome_witness :
  let pm := (fresh_pm.1) {{ profile_dirty := true }} in
  watching pm (fresh_pm.2) /\
  exists d', profile_handle_auto_save (good_env 9 (mk_timeval 9 0)) pm (fresh_pm.2) =
      (pm {{ profile_dirty := false }}, d') /\ ~ watching (pm {{ profile_dirty := false }}) d'.
Proof.
  intros pm. split; [vm_compute; reflexivity|].
  destruct (profile_handle_auto_save (good_env 9 (mk_timeval 9 0)) pm (fresh_pm.2)) as [pm' d'] eqn:E.
  pose proof fresh_autosave as Hpm. fold pm in Hpm. rewrite E in Hpm. cbn [fst] in Hpm.
  exists d'. split; [exact (f_equal (fun p => (p, d')) Hpm)|].
  destruct (autosave_outcome (good_env 9 (mk_timeval 9 0)) pm (fresh_pm.2) pm' d') as (_ & _ & H).
  - exact fresh_disk_ok.
  - exact E.
  - change (_ && _ && _) with true in H. cbv match in H. rewrite Hpm in H.
    destruct H as [[H _]|(_ & _ & H)]; [discriminate (f_equal profile_dirty H)|].
    apply H. vm_compute. reflexivity.
Defined.

Example requests_answered_witness :
  let shm := fresh_shm {{ profile_request := 1; profile_name := "Default"%string }} in
  exists pm' shm', profile_process_requests (good_env 3 tv_zero) None (fresh_pm.1) shm (fresh_pm.2) =
      (pm', shm', fresh_pm.2) /\ profile_response shm' = 1 /\ profile_request shm' = 0.
Proof.
  intros shm.
  destruct (profile_process_requests (good_env 3 tv_zero) None (fresh_pm.1) shm (fresh_pm.2))
    as [[pm' shm'] d'] eqn:E.
  destruct (requests_answered (good_env 3 tv_zero) (good_env 4 tv_zero) None (fresh_pm.1) shm (fresh_pm.2) pm' shm' d'
    eq_refl eq_refl fresh_sized ltac:(discriminate) E) as (H0 & _ & _ & _ & Hd & _).
  exists pm', shm'. rewrite (Hd ltac:(discriminate) ltac:(discriminate)). split; [done|].
  split; [|exact H0]. pose proof fresh_load as H. fold shm in H. rewrite E in H. exact H.
Defined.
