(* ===== verification/Daemon.v ===== *)
(** * The daemon ([daemon.c]): slots, workers and the main loop

    Slot allocation, registration of devices, the start and end of worker
    threads as seen by the main thread, the watchdog, and the management of the
    virtual device inside a worker.  The main thread is the only one that
    registers, watches and joins; the workers and the other processes act
    between its steps, so the whole is a transition system. *)

From S2P Require Import Prelude Types Keys Utils Sys Drivers Uhid Nsw.
Local Open Scope Z_scope.

(** ** The free slot bitmap *)

Definition slot_indices : list Z := map Z.of_nat (seq 0 MAX_SLOTS).

Definition find_free_slot (shm : shared_data_t) : Z :=
  match find (fun i => bit (free_slots_bitmap shm) i) slot_indices with
  | Some i => i
  | None => -1
  end.

Definition mark_slot_busy (shm : shared_data_t) (slot : Z) : shared_data_t :=
  if (0 <=? slot) && (slot <? Z.of_nat MAX_SLOTS)
  then shm {{ free_slots_bitmap :=
                u8 (Z.land (free_slots_bitmap shm) (Z.lnot (Z.shiftl 1 slot))) }}
  else shm.

Definition mark_slot_free (shm : shared_data_t) (slot : Z) : shared_data_t :=
  if (0 <=? slot) && (slot <? Z.of_nat MAX_SLOTS)
  then shm {{ free_slots_bitmap := u8 (Z.lor (free_slots_bitmap shm) (Z.shiftl 1 slot)) }}
  else shm.

(** ** Threads

    A thread handle is 0 ([NoThread]) or the handle of a worker: still
    initialising, in its main loop, or finished and not yet joined. *)
Inductive thread_t : Set := NoThread | Starting | Looping | Finished.
#[export] Instance thread_eq_dec : EqDecision thread_t.
Proof. solve_decision. Defined.

Record daemon_state := mk_daemon { d_shm : shared_data_t; d_threads : list thread_t }.

Definition thread_of (st : daemon_state) (i : Z) : thread_t := aget NoThread (d_threads st) i.
Definition slot_of (st : daemon_state) (i : Z) : controller_t := get_slot (d_shm st) i.
Definition set_thread (st : daemon_state) (i : Z) (t : thread_t) : daemon_state :=
  mk_daemon (d_shm st) (aset (d_threads st) i t).
Definition on_shm (f : shared_data_t -> shared_data_t) (st : daemon_state) : daemon_state :=
  mk_daemon (f (d_shm st)) (d_threads st).

(** The end of a worker that fails while it initialises: the slot keeps its
    path. *)
Definition worker_abort (idx : Z) (shm : shared_data_t) : shared_data_t :=
  mark_slot_free (put_slot shm idx ((get_slot shm idx) {{ connected := false }})) idx.

(** The end of a worker that leaves its main loop. *)
Definition worker_cleanup (idx : Z) (shm : shared_data_t) : shared_data_t :=
  mark_slot_free (put_slot shm idx
    ((get_slot shm idx) {{ connected := false; uinput_fd := -1; uhid_fd := -1;
                           dev_path := EmptyString }})) idx.

(** [pthread_join]: the worker runs to its end; one that is still initialising
    may fail there or go on to its loop and end from it ([aborts]). *)
Definition join_thread (aborts : bool) (i : Z) (st : daemon_state) : daemon_state :=
  let st := match thread_of st i with
            | Starting => on_shm (if aborts then worker_abort i else worker_cleanup i) st
            | Looping => on_shm (worker_cleanup i) st
            | _ => st
            end in
  set_thread st i NoThread.

(** ** Registration *)

Definition device_type (vendor product : Z) : option controller_type_t :=
  if vendor =? 0x054c then
    if (product =? 0x09cc) || (product =? 0x05c4) then Some TYPE_DS4
    else if product =? 0x0ce6 then Some TYPE_DUALSENSE
    else None
  else if (vendor =? 0x057e) && (product =? 0x2009) then Some TYPE_NSW_PRO
  else None.

(** The anti-ghost loop: [None] when the device is registered and present. *)
Fixpoint drop_ghosts (accessible : bool) (path : string) (idxs : list Z) (shm : shared_data_t)
  : option shared_data_t :=
  match idxs with
  | [] => Some shm
  | i :: idxs =>
      if connected (get_slot shm i) && String.eqb (dev_path (get_slot shm i)) path then
        if accessible then None
        else drop_ghosts accessible path idxs
               (mark_slot_free (put_slot shm i ((get_slot shm i) {{ connected := false }})) i)
      else drop_ghosts accessible path idxs shm
  end.

(** The slot of a new connection: zeroed, with the persistent configuration
    restored. *)
Definition registered_slot (path : string) (type : controller_type_t) (bluetooth : bool)
  (old : controller_t) : controller_t :=
  let saved_config := controller_to_slot_config old in
  let c := zero_controller {{ dev_path := strn 127 path; ctype := type; is_bluetooth := bluetooth;
                              connected := true }} in
  (slot_config_to_controller saved_config c)
    {{ active_effect_id := -1; active_effect_type := 0; uinput_fd := -1; uhid_fd := -1;
       external_retry_count := 0; last_external_retry := tv_zero; battery := 100;
       output_seq := 0; writing_output := false; worker_heartbeat := 0; worker_stop := false;
       led_dirty := negb (bool_decide (type = TYPE_NSW_PRO)) }}.

Section registration.
(** What the system answers: the identity of a node (if it can be opened and
    asked), whether a path exists, whether a thread can be created, and how a
    joined thread ends. *)
Context (probe : string -> option (Z * Z * Z)) (access : string -> bool) (thread_ok aborts : bool).

Definition try_register_control (path : string) (st : daemon_state) : daemon_state :=
  match probe path with
  | None => st
  | Some (vendor, product, bustype) =>
      match device_type vendor product with
      | None => st
      | Some type =>
          match drop_ghosts (access path) path slot_indices (d_shm st) with
          | None => st
          | Some shm =>
              let st := mk_daemon shm (d_threads st) in
              let free_slot := find_free_slot shm in
              if negb (free_slot =? -1) then
                let st := if negb (bool_decide (thread_of st free_slot = NoThread))
                          then join_thread aborts free_slot st else st in
                let shm := d_shm st in
                let shm := put_slot shm free_slot
                             (registered_slot path type (bustype =? 5) (get_slot shm free_slot)) in
                let shm := mark_slot_busy shm free_slot in
                if thread_ok
                then mk_daemon shm (aset (d_threads st) free_slot Starting)
                else
                  mk_daemon
                    (mark_slot_free (put_slot shm free_slot
                       ((get_slot shm free_slot) {{ connected := false }})) free_slot)
                    (aset (d_threads st) free_slot NoThread)
              else st
          end
      end
  end.

(** Is a directory entry's name a [hidraw] node's? *)
Definition is_hidraw (name : string) : bool := String.eqb (substring 0 6 name) "hidraw".

Definition scan_existing_devices (entries : option (list string)) (st : daemon_state)
  : daemon_state :=
  match entries with
  | None => st
  | Some l =>
      fold_left (fun st name =>
        if is_hidraw name then try_register_control (String.append "/dev/" name) st else st) l st
  end.

(** ** The watchdog and the lost connections *)

Definition watchdog_slot (now_us : Z) (i : Z) (st : daemon_state) : daemon_state :=
  if bool_decide (thread_of st i = NoThread) then st
  else
    let hb := worker_heartbeat (slot_of st i) in
    if negb (hb =? 0) && (WORKER_HEARTBEAT_TIMEOUT_US <? u64 (now_us - hb)) then
      let st := on_shm (fun shm => put_slot shm i ((get_slot shm i) {{ worker_stop := true }})) st in
      let st := join_thread aborts i st in
      let st := on_shm (fun shm =>
                  mark_slot_free (put_slot shm i
                    ((get_slot shm i) {{ worker_stop := false; connected := false }})) i) st in
      let path := dev_path (slot_of st i) in
      if negb (String.eqb path EmptyString) && access path then try_register_control path st else st
    else st.

Definition lost_slot (i : Z) (st : daemon_state) : daemon_state :=
  if bool_decide (thread_of st i = NoThread) then st
  else if connected (slot_of st i) then st
  else join_thread aborts i st.

(** A hotplug event: up to four attempts to open the node ([opens] tells which
    succeed), and a registration after the first that does. *)
Fixpoint hotplug_attempts (n : nat) (opens : nat -> bool) (k : nat) (path : string)
  (st : daemon_state) : daemon_state :=
  match n with
  | O => st
  | S n => if opens k then try_register_control path st else hotplug_attempts n opens (S k) path st
  end.
Definition HOTPLUG_MAX_RETRIES : nat := 4.
Definition hotplug_event (opens : nat -> bool) (name : string) (st : daemon_state) : daemon_state :=
  if contains "hidraw" name
  then hotplug_attempts HOTPLUG_MAX_RETRIES opens 0 (String.append "/dev/" name) st else st.
End registration.

(** ** The main loop *)

Definition daemon_init_slot (c : controller_t) : controller_t :=
  c {{ connected := false; uinput_fd := -1; uhid_fd := -1; battery := 100; output_seq := 0;
       external_retry_count := 0; last_external_retry := tv_zero; writing_output := false;
       worker_heartbeat := 0; worker_stop := false;
       led_dirty := negb (bool_decide (ctype c = TYPE_NSW_PRO)) }}.

Definition daemon_init (my_pid : Z) (shm : shared_data_t) : daemon_state :=
  let shm := shm {{ daemon_pid := my_pid; heartbeat := 1; free_slots_bitmap := 0xFF }} in
  mk_daemon (fold_idx (fun i shm => put_slot shm i (daemon_init_slot (get_slot shm i))) MAX_SLOTS shm)
    (repeat NoThread MAX_SLOTS).

(** One turn of the main thread, taken as one step: the workers and the other
    processes act between the turns.  In the code they may also act inside one,
    between the watchdog, the joins, the [poll] and the registrations. *)
Definition daemon_turn (probe : string -> option (Z * Z * Z)) (access : string -> bool)
  (thread_ok aborts : bool) (now_us : Z) (events : list ((nat -> bool) * string))
  (st : daemon_state) : daemon_state :=
  let st := on_shm (fun shm => shm {{ heartbeat := u32 (heartbeat shm + 1) }}) st in
  let st := fold_left (fun st i => watchdog_slot probe access thread_ok aborts now_us i st) slot_indices st in
  let st := fold_left (fun st i => lost_slot aborts i st) slot_indices st in
  fold_left (fun st e => hotplug_event probe access thread_ok aborts e.1 e.2 st) events st.

(** The end: every thread joined, the handshake withdrawn. *)
Definition daemon_shutdown (aborts : bool) (st : daemon_state) : daemon_state :=
  let st := fold_left (fun st i => if bool_decide (thread_of st i = NoThread) then st
                                   else join_thread aborts i st) slot_indices st in
  on_shm (fun shm =>
    fold_idx (fun i shm => put_slot shm i ((get_slot shm i) {{ connected := false }})) MAX_SLOTS
      (shm {{ daemon_pid := 0; heartbeat := 0 }})) st.

(** ** Inside a worker *)

(** The one-shot layout requests. *)
Definition layout_requests (slot : controller_t) : controller_t :=
  let slot := if request_switch_layout slot
              then (keys_set_switch_layout (slot {{ request_switch_layout := false }})) {{ led_dirty := true }}
              else slot in
  let slot := if request_xbox_layout slot
              then (keys_set_xbox_layout (slot {{ request_xbox_layout := false }})) {{ led_dirty := true }}
              else slot in
  if request_reset_all_keybinds slot
  then (keys_reset_all_keybinds (slot {{ request_reset_all_keybinds := false }})) {{ led_dirty := true }}
  else slot.

(** The virtual device of a worker: the two descriptors, the one it polls, the
    slot and, for a Switch controller, the context. *)
Record vdev := mk_vdev {
  v_ufd : Z; v_uhid_fd : Z; v_poll_fd : Z; v_slot : controller_t; v_nsw : nsw_context_t
}.

Section virtual_device.
(** The routines that create the two kinds of device, and what the end of a
    [UHID] device writes. *)
Context (kernel : kernel_t) (setup_uinput : Z -> io Z) (create_uhid : controller_t -> Z -> io Z)
  (destroy_uhid : Z -> io unit).

Definition tell_nsw (fd : Z) (v : vdev) : nsw_context_t :=
  if bool_decide (ctype (v_slot v) = TYPE_NSW_PRO) then nsw_set_uhid_fd fd (v_nsw v) else v_nsw v.

Definition close_uinput (v : vdev) : io vdev :=
  if 0 <=? v_ufd v then
    _ ← sys_ kernel (SysIoctl (v_ufd v) "UI_DEV_DESTROY" 0);
    _ ← sys_ kernel (SysClose (v_ufd v));
    mret (mk_vdev (-1) (v_uhid_fd v) (v_poll_fd v) ((v_slot v) {{ uinput_fd := -1 }}) (v_nsw v))
  else mret v.

Definition close_uhid (v : vdev) : io vdev :=
  if 0 <=? v_uhid_fd v then
    _ ← destroy_uhid (v_uhid_fd v);
    mret (mk_vdev (v_ufd v) (-1) (v_poll_fd v) ((v_slot v) {{ uhid_fd := -1 }}) (tell_nsw (-1) v))
  else mret v.

(** Without a device the polled descriptor is reset; only then. *)
Definition unpoll (before : Z) (v : vdev) : vdev :=
  if 0 <=? before then mk_vdev (v_ufd v) (v_uhid_fd v) (-1) (v_slot v) (v_nsw v) else v.

Definition manage_vdev (idx : Z) (emu_req use_uhid : bool) (v : vdev) : io vdev :=
  if emu_req then
    if use_uhid then
      v ← close_uinput v;
      if v_uhid_fd v <? 0 then
        fd ← create_uhid (v_slot v) idx;
        if 0 <=? fd
        then mret (mk_vdev (v_ufd v) fd fd ((v_slot v) {{ uhid_fd := fd }}) (tell_nsw fd v))
        else mret (mk_vdev (v_ufd v) fd (v_poll_fd v) (v_slot v) (v_nsw v))
      else mret v
    else
      v ← close_uhid v;
      if v_ufd v <? 0 then
        fd ← setup_uinput idx;
        if 0 <=? fd
        then mret (mk_vdev fd (v_uhid_fd v) fd ((v_slot v) {{ uinput_fd := fd }}) (v_nsw v))
        else mret (mk_vdev fd (v_uhid_fd v) (v_poll_fd v) (v_slot v) (v_nsw v))
      else mret v
  else
    v1 ← close_uinput v;
    v2 ← close_uhid (unpoll (v_ufd v) v1);
    mret (unpoll (v_uhid_fd v) v2).

(** The end of the worker: the devices closed. *)
Definition worker_close_devices (v : vdev) : io unit :=
  _ ← (if 0 <=? v_ufd v then
         _ ← sys_ kernel (SysIoctl (v_ufd v) "UI_DEV_DESTROY" 0);
         _ ← sys_ kernel (SysClose (v_ufd v)); mret tt
       else mret tt);
  if 0 <=? v_uhid_fd v then destroy_uhid (v_uhid_fd v) else mret tt.
End virtual_device.

(** ** Edits of the device by others *)

(** The [inotify] events of a worker: [in_modify], the time, and what is then
    the time of the retry. *)
Definition external_write (has_led : bool) (last_daemon_write : timeval) (slot : controller_t)
  (ev : bool * timeval * timeval) : controller_t :=
  let '(in_modify, now, now') := ev in
  if in_modify && negb (writing_output slot) && (50000 <? tv_diff_us now last_daemon_write) then
    if negb (led_reapply slot) then slot
    else if has_led && led_static slot
         then slot {{ external_retry_count := 10; last_external_retry := now'; led_dirty := true }}
         else slot
  else slot.

(** * The transition system *)

Definition valid_slot (i : Z) : Prop := 0 <= i < Z.of_nat MAX_SLOTS.

Inductive daemon_step : daemon_state -> daemon_state -> Prop :=
| step_register probe access thread_ok aborts path st :
    (String.length path <= 127)%nat ->
    daemon_step st (try_register_control probe access thread_ok aborts path st)
| step_watchdog probe access thread_ok aborts now i st :
    valid_slot i -> daemon_step st (watchdog_slot probe access thread_ok aborts now i st)
| step_lost aborts i st : valid_slot i -> daemon_step st (lost_slot aborts i st)
| step_worker_abort i st :
    valid_slot i -> thread_of st i = Starting ->
    daemon_step st (set_thread (on_shm (worker_abort i) st) i Finished)
| step_worker_loop i t path st :
    valid_slot i -> thread_of st i = Starting -> 0 < t ->
    (path = dev_path (slot_of st i) \/ ctype (slot_of st i) = TYPE_NSW_PRO) ->
    daemon_step st (set_thread (on_shm (fun shm =>
      put_slot shm i ((get_slot shm i) {{ dev_path := path; worker_heartbeat := t }})) st) i Looping)
| step_worker_beat i t st :
    valid_slot i -> thread_of st i = Looping -> 0 < t ->
    daemon_step st (on_shm (fun shm =>
      put_slot shm i ((get_slot shm i) {{ worker_heartbeat := t }})) st)
| step_worker_exit i st :
    valid_slot i -> thread_of st i = Looping ->
    daemon_step st (set_thread (on_shm (worker_cleanup i) st) i Finished)
| step_other i c st :
    valid_slot i -> same_life (slot_of st i) c ->
    daemon_step st (on_shm (fun shm => put_slot shm i c) st).

Inductive daemon_reachable (pid : Z) (shm : shared_data_t) : daemon_state -> Prop :=
| reach_init : daemon_reachable pid shm (daemon_init pid shm)
| reach_step st st' :
    daemon_reachable pid shm st -> daemon_step st st' -> daemon_reachable pid shm st'.

Definition is_nsw (c : controller_t) : bool := bool_decide (ctype c = TYPE_NSW_PRO).

(** A worker that has not ended. *)
Definition running (t : thread_t) : Prop := t = Starting \/ t = Looping.

(** The invariant.  The slots in [stopped] may have been disconnected by another
    process: such a slot is neither connected nor free until its worker ends. *)
Record slots_ok (stopped : Z -> Prop) (st : daemon_state) : Prop := mk_slots_ok {
  ok_slots : length (slots (d_shm st)) = MAX_SLOTS;
  ok_threads : length (d_threads st) = MAX_SLOTS;
  ok_bitmap : 0 <= free_slots_bitmap (d_shm st) < 256;
  ok_free i : valid_slot i -> bit (free_slots_bitmap (d_shm st)) i = true -> connected (slot_of st i) = false;
  ok_busy i : valid_slot i -> bit (free_slots_bitmap (d_shm st)) i = false ->
    connected (slot_of st i) = true \/ (stopped i /\ running (thread_of st i));
  ok_running i : valid_slot i -> connected (slot_of st i) = true -> running (thread_of st i);
  ok_starting i : valid_slot i -> thread_of st i = Starting -> worker_heartbeat (slot_of st i) = 0;
  ok_ended i : valid_slot i -> thread_of st i = NoThread \/ thread_of st i = Finished ->
    worker_heartbeat (slot_of st i) <> 0 -> dev_path (slot_of st i) = EmptyString;
  ok_paths i j : valid_slot i -> valid_slot j -> i <> j ->
    connected (slot_of st i) = true -> connected (slot_of st j) = true ->
    is_nsw (slot_of st i) = false -> is_nsw (slot_of st j) = false ->
    dev_path (slot_of st i) <> dev_path (slot_of st j)
}.
Arguments ok_slots {stopped st}.
Arguments ok_threads {stopped st}.
Arguments ok_bitmap {stopped st}.
Arguments ok_free {stopped st}.
Arguments ok_busy {stopped st}.
Arguments ok_running {stopped st}.
Arguments ok_starting {stopped st}.
Arguments ok_ended {stopped st}.
Arguments ok_paths {stopped st}.

(** While nobody stops the daemon. *)
Definition nobody_stopped (i : Z) : Prop := False.
Definition daemon_ok : daemon_state -> Prop := slots_ok nobody_stopped.

(** ** Lemmas *)

Lemma bit_u8 x j : valid_slot j -> bit (u8 x) j = bit x j.
Proof. intros [? ?]. unfold bit, u8. apply Z.mod_pow2_bits_low. unfold MAX_SLOTS in *. lia. Qed.

Lemma one_bit i j : 0 <= i -> 0 <= j -> Z.testbit (Z.shiftl 1 i) j = (j =? i).
Proof.
  intros Hi Hj. rewrite Z.shiftl_1_l, Z.pow2_bits_eqb by lia. apply Z.eqb_sym.
Qed.

Lemma free_bit b i j :
  valid_slot i -> valid_slot j ->
  bit (u8 (Z.lor b (Z.shiftl 1 i))) j = if j =? i then true else bit b j.
Proof.
  intros Hi Hj. rewrite bit_u8 by done. unfold bit, valid_slot in *.
  rewrite Z.lor_spec, one_bit by lia. by destruct (j =? i); [rewrite orb_true_r | rewrite orb_false_r].
Qed.

Lemma busy_bit b i j :
  valid_slot i -> valid_slot j ->
  bit (u8 (Z.land b (Z.lnot (Z.shiftl 1 i)))) j = if j =? i then false else bit b j.
Proof.
  intros Hi Hj. rewrite bit_u8 by done. unfold bit, valid_slot in *.
  rewrite Z.land_spec, Z.lnot_spec, one_bit by lia.
  by destruct (j =? i); [rewrite andb_false_r | rewrite andb_true_r].
Qed.

Lemma ok_exact st i :
  daemon_ok st -> valid_slot i -> bit (free_slots_bitmap (d_shm st)) i = negb (connected (slot_of st i)).
Proof.
  intros H Hi. destruct (bit _ i) eqn:E; [by rewrite (ok_free H i Hi E)|].
  by destruct (ok_busy H i Hi E) as [->|[[] _]].
Qed.
Lemma ok_weaken (stopped stopped' : Z -> Prop) st :
  (forall i, valid_slot i -> stopped i -> stopped' i) -> slots_ok stopped st -> slots_ok stopped' st.
Proof. intros Hs []. split; auto. intros i Hi E. destruct (ok_busy0 i Hi E) as [?|[? ?]]; auto. Qed.

Section slots.
Context {stopped : Z -> Prop}.

(** A state with slot [i], its bit and its thread replaced. *)
Definition upd (st : daemon_state) (i : Z) (c : controller_t) (b : Z) (t : thread_t) : daemon_state :=
  mk_daemon ((put_slot (d_shm st) i c) {{ free_slots_bitmap := b }}) (aset (d_threads st) i t).

Lemma upd_slot st i c b t j :
  length (slots (d_shm st)) = MAX_SLOTS -> valid_slot i -> valid_slot j ->
  slot_of (upd st i c b t) j = if j =? i then c else slot_of st j.
Proof.
  intros Hl Hi Hj. unfold slot_of, upd, get_slot, put_slot, valid_slot in *. cbn [d_shm].
  apply (aget_aset zero_controller (slots (d_shm st)) i j c); lia.
Qed.

Lemma upd_thread st i c b t j :
  length (d_threads st) = MAX_SLOTS -> valid_slot i -> valid_slot j ->
  thread_of (upd st i c b t) j = if j =? i then t else thread_of st j.
Proof.
  intros Hl Hi Hj. unfold thread_of, upd, valid_slot in *. cbn [d_threads]. apply aget_aset; lia.
Qed.

Lemma upd_ok st i c b t :
  slots_ok stopped st -> valid_slot i -> 0 <= b < 256 ->
  (forall j, valid_slot j -> j <> i -> bit b j = bit (free_slots_bitmap (d_shm st)) j) ->
  (bit b i = true -> connected c = false) ->
  (bit b i = false -> connected c = true \/ (stopped i /\ running t)) ->
  (connected c = true -> running t) ->
  (t = Starting -> worker_heartbeat c = 0) ->
  (t = NoThread \/ t = Finished -> worker_heartbeat c <> 0 -> dev_path c = EmptyString) ->
  (forall j, valid_slot j -> j <> i -> connected c = true -> is_nsw c = false ->
     connected (slot_of st j) = true -> is_nsw (slot_of st j) = false ->
     dev_path (slot_of st j) <> dev_path c) ->
  slots_ok stopped (upd st i c b t).
Proof.
  intros [Ls Lt Hb Hf Hbu Hr Hst He Hp] Hi Hb' Hbj Hbi Hbi' Hrun Hs Hend Hpath.
  split.
  - unfold upd. cbn [d_shm]. change (slots _) with (aset (slots (d_shm st)) i c). by rewrite length_aset.
  - unfold upd. cbn [d_threads]. by rewrite length_aset.
  - exact Hb'.
  - intros j Hj. rewrite upd_slot by done. change (free_slots_bitmap (d_shm (upd st i c b t))) with b.
    destruct (Z.eqb_spec j i) as [->|]; [done|]. rewrite Hbj by done. by apply Hf.
  - intros j Hj. rewrite upd_slot, upd_thread by done. change (free_slots_bitmap (d_shm (upd st i c b t))) with b.
    destruct (Z.eqb_spec j i) as [->|]; [done|]. rewrite Hbj by done. by apply Hbu.
  - intros j Hj. rewrite upd_slot, upd_thread by done. destruct (j =? i); auto.
  - intros j Hj. rewrite upd_slot, upd_thread by done. destruct (j =? i); auto.
  - intros j Hj. rewrite upd_slot, upd_thread by done. destruct (j =? i); auto.
  - intros j k Hj Hk Hne. rewrite !upd_slot by done.
    destruct (Z.eqb_spec j i) as [->|], (Z.eqb_spec k i) as [->|]; try done; intros ? ? ? ?.
    + apply not_eq_sym. by apply Hpath.
    + by apply Hpath.
    + by apply Hp.
Qed.

Lemma mark_free_eq shm i :
  valid_slot i -> mark_slot_free shm i =
    shm {{ free_slots_bitmap := u8 (Z.lor (free_slots_bitmap shm) (Z.shiftl 1 i)) }}.
Proof.
  intros [? ?]. unfold mark_slot_free.
  by destruct (Z.leb_spec 0 i), (Z.ltb_spec i (Z.of_nat MAX_SLOTS)); try lia.
Qed.

Lemma mark_busy_eq shm i :
  valid_slot i -> mark_slot_busy shm i =
    shm {{ free_slots_bitmap := u8 (Z.land (free_slots_bitmap shm) (Z.lnot (Z.shiftl 1 i))) }}.
Proof.
  intros [? ?]. unfold mark_slot_busy.
  by destruct (Z.leb_spec 0 i), (Z.ltb_spec i (Z.of_nat MAX_SLOTS)); try lia.
Qed.

Lemma aset_same {A} (d : A) l i : 0 <= i < Z.of_nat (length l) -> aset l i (aget d l i) = l.
Proof.
  intros Hi. unfold aset, aget. apply list_insert_id. rewrite nth_lookup.
  destruct (lookup_lt_is_Some_2 l (Z.to_nat i)) as [x E]; [lia|]. by rewrite E.
Qed.

Lemma set_same_thread st i : slots_ok stopped st -> valid_slot i -> aset (d_threads st) i (thread_of st i) = d_threads st.
Proof. intros H [? ?]. apply aset_same. rewrite (ok_threads H). lia. Qed.

(** Slot [i] freed, with its thread in any state. *)
Lemma freed_ok st i c t :
  slots_ok stopped st -> valid_slot i -> connected c = false ->
  (t = Starting -> worker_heartbeat c = 0) ->
  (t = NoThread \/ t = Finished -> worker_heartbeat c <> 0 -> dev_path c = EmptyString) ->
  slots_ok stopped (mk_daemon (mark_slot_free (put_slot (d_shm st) i c) i) (aset (d_threads st) i t)).
Proof.
  intros H Hi Hc Hs He. rewrite mark_free_eq by done.
  apply (upd_ok st i c (u8 (Z.lor (free_slots_bitmap (d_shm st)) (Z.shiftl 1 i))) t); try done.
  - apply u8_range.
  - intros j Hj Hne. rewrite free_bit by done. by destruct (Z.eqb_spec j i).
  - by rewrite free_bit, Z.eqb_refl by done.
  - by rewrite Hc.
  - intros j _ _. by rewrite Hc.
Qed.

(** Slot [i] changed without a change of its life. *)
Lemma kept_ok st i c t :
  slots_ok stopped st -> valid_slot i -> connected c = connected (slot_of st i) ->
  (running (thread_of st i) -> running t) ->
  (t = Starting -> worker_heartbeat c = 0) ->
  (t = NoThread \/ t = Finished -> worker_heartbeat c <> 0 -> dev_path c = EmptyString) ->
  is_nsw c = is_nsw (slot_of st i) -> (dev_path c = dev_path (slot_of st i) \/ is_nsw c = true) ->
  slots_ok stopped (mk_daemon (put_slot (d_shm st) i c) (aset (d_threads st) i t)).
Proof.
  intros H Hi Hc Hr Hs He Ht Hp.
  apply (upd_ok st i c (free_slots_bitmap (d_shm st)) t); try done.
  - apply (ok_bitmap H).
  - rewrite Hc. by apply (ok_free H).
  - rewrite Hc. intros E. destruct (ok_busy H i Hi E) as [?|[? ?]]; auto.
  - rewrite Hc. intros E. by apply Hr, (ok_running H).
  - intros j Hj Hne Hcc Hn Hcj Hnj. destruct Hp as [->|Hp]; [|by rewrite Hp in Hn].
    apply (ok_paths H j i); try done; [by rewrite <- Hc | by rewrite <- Ht].
Qed.

Lemma put_same st i : slots_ok stopped st -> valid_slot i -> put_slot (d_shm st) i (slot_of st i) = d_shm st.
Proof.
  intros H [? ?]. unfold put_slot, slot_of, get_slot.
  rewrite (aset_same zero_controller) by (rewrite (ok_slots H); lia). done.
Qed.

(** The end of a thread, joined or not. *)
Lemma ended_ok st i (f : Z -> shared_data_t -> shared_data_t) t :
  slots_ok stopped st -> valid_slot i -> t = NoThread \/ t = Finished ->
  f = worker_cleanup \/ (f = worker_abort /\ thread_of st i = Starting) ->
  slots_ok stopped (mk_daemon (f i (d_shm st)) (aset (d_threads st) i t)).
Proof.
  intros H Hi Ht [->|[-> Hs]]; apply freed_ok; try done; try (intros ->; by destruct Ht).
  intros _ Hne. by destruct (Hne (ok_starting H i Hi Hs)).
Qed.

Lemma join_ok aborts i st :
  slots_ok stopped st -> valid_slot i -> slots_ok stopped (join_thread aborts i st).
Proof.
  intros H Hi. unfold join_thread, set_thread, on_shm.
  assert (thread_of st i = NoThread \/ thread_of st i = Finished ->
    slots_ok stopped (mk_daemon (d_shm st) (aset (d_threads st) i NoThread))) as Hdead.
  { intros Hd. rewrite <- (put_same st i) by done. apply kept_ok; auto.
    - intros [E|E]; destruct Hd; congruence.
    - done.
    - intros _. by apply (ok_ended H). }
  destruct (thread_of st i) eqn:Et; cbn [d_shm d_threads]; auto.
  - destruct aborts; [apply (ended_ok st i worker_abort) | apply (ended_ok st i worker_cleanup)]; auto.
  - apply (ended_ok st i worker_cleanup); auto.
Qed.

Lemma join_slot aborts i st :
  slots_ok stopped st -> valid_slot i ->
  thread_of (join_thread aborts i st) i = NoThread /\
  connected (slot_of (join_thread aborts i st) i) = false /\
  worker_heartbeat (slot_of (join_thread aborts i st) i) = worker_heartbeat (slot_of st i) /\
  controller_to_slot_config (slot_of (join_thread aborts i st) i) =
    controller_to_slot_config (slot_of st i) /\
  (forall j, valid_slot j -> j <> i ->
     slot_of (join_thread aborts i st) j = slot_of st j /\
     thread_of (join_thread aborts i st) j = thread_of st j).
Proof.
  intros H Hi. pose proof (ok_slots H) as Ls. pose proof (ok_threads H) as Lt.
  pose proof (ok_running H i Hi) as Hr.
  unfold join_thread, set_thread, on_shm, thread_of, slot_of, valid_slot in *.
  cbn [d_shm d_threads].
  assert (forall s, aget NoThread (aset (d_threads st) i NoThread) i = NoThread /\
    (forall j, 0 <= j < Z.of_nat MAX_SLOTS -> j <> i ->
       get_slot s j = get_slot (d_shm st) j) -> forall j, 0 <= j < Z.of_nat MAX_SLOTS -> j <> i ->
       get_slot s j = get_slot (d_shm st) j /\
       aget NoThread (aset (d_threads st) i NoThread) j = aget NoThread (d_threads st) j) as Hj.
  { intros s [_ Hs] j Hj Hne. split; [by apply Hs | apply aget_aset_ne; lia]. }
  assert (forall c, get_slot (mark_slot_free (put_slot (d_shm st) i c) i) i = c /\
    forall j, 0 <= j < Z.of_nat MAX_SLOTS -> j <> i ->
      get_slot (mark_slot_free (put_slot (d_shm st) i c) i) j = get_slot (d_shm st) j) as Hg.
  { intros c. rewrite mark_free_eq by done. split; [apply get_put_slot_eq; lia|].
    intros j Hj' Hne. apply get_put_slot_ne; lia. }
  assert (aget NoThread (aset (d_threads st) i NoThread) i = NoThread) as Hti
    by (apply aget_aset_eq; lia).
  destruct (aget NoThread (d_threads st) i) eqn:Et; cbn [d_shm d_threads].
  1,4: split; [done|]; split;
    [destruct (connected _) eqn:Ec; [destruct (Hr eq_refl); done | done]|]; by auto.
  all: try destruct aborts; (split; [done|]); unfold worker_abort, worker_cleanup;
    destruct (Hg ((get_slot (d_shm st) i) {{ connected := false }})) as [Hg1 Hg2];
    destruct (Hg ((get_slot (d_shm st) i) {{ connected := false; uinput_fd := -1; uhid_fd := -1;
       dev_path := EmptyString }})) as [Hg3 Hg4];
    rewrite ?Hg1, ?Hg3; repeat (split; [done|]); intros j Hj1 Hj2; apply Hj; auto.
Qed.

Lemma slot_indices_valid i : In i slot_indices <-> valid_slot i.
Proof.
  unfold slot_indices, valid_slot. rewrite in_map_iff. split.
  - intros (n & <- & Hn). apply in_seq in Hn. lia.
  - intros Hi. exists (Z.to_nat i). split; [lia|]. apply in_seq. lia.
Qed.

Lemma drop_ghosts_ok accessible path idxs st shm' :
  slots_ok stopped st -> (forall i, In i idxs -> valid_slot i) ->
  drop_ghosts accessible path idxs (d_shm st) = Some shm' ->
  slots_ok stopped (mk_daemon shm' (d_threads st)) /\
  (forall j, valid_slot j ->
     (get_slot shm' j = slot_of st j \/ get_slot shm' j = (slot_of st j) {{ connected := false }}) /\
     (In j idxs -> connected (get_slot shm' j) = true -> dev_path (get_slot shm' j) <> path)).
Proof.
  revert st. induction idxs as [|i idxs IH]; intros st H Hv Hd; cbn [drop_ghosts] in Hd.
  { injection Hd as <-. split; [by destruct st|]. intros j Hj. split; [by left | done]. }
  assert (valid_slot i) as Hi by (apply Hv; by left).
  destruct (connected (get_slot (d_shm st) i) && String.eqb (dev_path (get_slot (d_shm st) i)) path) eqn:Eg.
  - destruct accessible; [done|].
    set (c := (get_slot (d_shm st) i) {{ connected := false }}) in *.
    set (st1 := mk_daemon (mark_slot_free (put_slot (d_shm st) i c) i) (d_threads st)).
    assert (slots_ok stopped st1) as H1.
    { unfold st1. rewrite <- (set_same_thread st i H Hi). apply freed_ok; try done.
      - apply (ok_starting H i Hi).
      - apply (ok_ended H i Hi). }
    destruct (IH st1 H1 ltac:(intros; apply Hv; by right) Hd) as [Hok Hj]. split; [exact Hok|].
    intros j Hjv. destruct (Hj j Hjv) as [Hs Hp].
    assert (slot_of st1 j = if j =? i then c else slot_of st j) as Es.
    { unfold st1, slot_of. cbn [d_shm]. rewrite mark_free_eq by done.
      pose proof (ok_slots H). unfold valid_slot in *.
      exact (aget_aset zero_controller (slots (d_shm st)) i j c ltac:(lia) ltac:(lia)). }
    destruct (Z.eqb_spec j i) as [->|Hne].
    + rewrite Es in Hs. assert (get_slot shm' i = c) as Hc by (by destruct Hs).
      rewrite Hc. split; [by right | done].
    + rewrite Es in Hs. split; [done|]. intros [<-|Hin]; [done | by apply Hp].
  - destruct (IH st H ltac:(intros; apply Hv; by right) Hd) as [Hok Hj]. split; [done|].
    intros j Hjv. destruct (Hj j Hjv) as [Hs Hp]. split; [done|].
    intros [<-|Hin]; [|by apply Hp].
    destruct Hs as [->| ->]; [|done]. intros Hc Heq.
    change (slot_of st i) with (get_slot (d_shm st) i) in *.
    rewrite Hc, Heq, String.eqb_refl in Eg. done.
Qed.

Lemma find_free_slot_spec shm :
  (find_free_slot shm = -1 /\ forall i, valid_slot i -> bit (free_slots_bitmap shm) i = false) \/
  (valid_slot (find_free_slot shm) /\ bit (free_slots_bitmap shm) (find_free_slot shm) = true).
Proof.
  unfold find_free_slot. destruct (find _ slot_indices) as [i|] eqn:E.
  - apply find_some in E as [Hi Hb]. right. split; [by apply slot_indices_valid | done].
  - left. split; [done|]. intros i Hi. apply (find_none _ _ E). by apply slot_indices_valid.
Qed.

Lemma strn_short n s : (String.length s <= n)%nat -> strn n s = s.
Proof.
  unfold strn. revert n. induction s as [|c s IH]; intros n Hn; [by destruct n|].
  destruct n as [|n]; cbn [String.length] in Hn; [lia|].
  change (String c (substring 0 n s) = String c s). by rewrite IH by lia.
Qed.

(** The state before the slot of a new device is filled in: the ghosts dropped,
    a thread left in the slot joined. *)
Definition prepared (aborts : bool) (i : Z) (shm : shared_data_t) (st : daemon_state) : daemon_state :=
  let st := mk_daemon shm (d_threads st) in
  if negb (bool_decide (thread_of st i = NoThread)) then join_thread aborts i st else st.

(** The three outcomes of a registration. *)
Lemma register_cases probe access thread_ok aborts path st :
  let st' := try_register_control probe access thread_ok aborts path st in
  (st' = st /\ forall vendor product bustype type,
     probe path = Some (vendor, product, bustype) -> device_type vendor product = Some type ->
     drop_ghosts (access path) path slot_indices (d_shm st) = None) \/
  exists vendor product bustype type shm,
    probe path = Some (vendor, product, bustype) /\ device_type vendor product = Some type /\
    drop_ghosts (access path) path slot_indices (d_shm st) = Some shm /\
    let i := find_free_slot shm in
    (i = -1 /\ st' = mk_daemon shm (d_threads st)) \/
    (i <> -1 /\
     let st1 := prepared aborts i shm st in
     let c := registered_slot path type (bustype =? 5) (slot_of st1 i) in
     st' = if thread_ok
           then mk_daemon (mark_slot_busy (put_slot (d_shm st1) i c) i) (aset (d_threads st1) i Starting)
           else
             let shm1 := mark_slot_busy (put_slot (d_shm st1) i c) i in
             mk_daemon (mark_slot_free (put_slot shm1 i ((get_slot shm1 i) {{ connected := false }})) i)
               (aset (d_threads st1) i NoThread)).
Proof.
  unfold try_register_control. cbv zeta.
  destruct (probe path) as [[[vendor product] bustype]|]; [|by left].
  destruct (device_type vendor product) as [type|] eqn:Et;
    [|left; split; [done|]; intros ? ? ? ? [= <- <- <-]; by rewrite Et].
  destruct (drop_ghosts _ _ _ _) as [shm|] eqn:Ed; [|by left].
  right. exists vendor, product, bustype, type, shm. repeat (split; [done|]).
  destruct (Z.eqb_spec (find_free_slot shm) (-1)) as [E|E]; cbn [negb]; [by left|].
  right. split; [done|]. by destruct thread_ok.
Qed.

Lemma prepared_spec aborts st shm accessible path :
  let i := find_free_slot shm in
  slots_ok stopped st -> drop_ghosts accessible path slot_indices (d_shm st) = Some shm -> i <> -1 ->
  let st1 := prepared aborts i shm st in
  valid_slot i /\ slots_ok stopped st1 /\ connected (slot_of st1 i) = false /\
  controller_to_slot_config (slot_of st1 i) = controller_to_slot_config (slot_of st i) /\
  (forall j, valid_slot j -> j <> i -> thread_of st1 j = thread_of st j /\
     (slot_of st1 j = slot_of st j \/ slot_of st1 j = (slot_of st j) {{ connected := false }})) /\
  (forall j, valid_slot j -> connected (slot_of st1 j) = true -> dev_path (slot_of st1 j) <> path).
Proof.
  intros i H Hd Hne st1.
  destruct (drop_ghosts_ok _ _ _ _ _ H ltac:(intros; by apply slot_indices_valid) Hd) as [H0 Hg].
  destruct (find_free_slot_spec shm) as [[? _]|[Hi Hb]]; [done|]. fold i in Hi, Hb.
  assert (connected (get_slot shm i) = false) as Hc by exact (ok_free H0 i Hi Hb).
  assert (controller_to_slot_config (get_slot shm i) = controller_to_slot_config (slot_of st i)) as Hcfg
    by (destruct (Hg i Hi) as [[-> | ->] _]; done).
  split; [done|]. subst st1. unfold prepared. cbv zeta.
  set (st0 := mk_daemon shm (d_threads st)) in *.
  destruct (negb _).
  - destruct (join_slot aborts i st0 H0 Hi) as (_ & Jc & _ & Jcfg & Jj).
    split; [by apply join_ok|]. split; [done|]. split; [by rewrite Jcfg|]. split.
    + intros j Hj Hn. destruct (Jj j Hj Hn) as [-> ->]. split; [done|]. by apply Hg.
    + intros j Hj. destruct (Z.eq_dec j i) as [->|Hn]; [by rewrite Jc|].
      destruct (Jj j Hj Hn) as [-> _]. apply Hg; [done|]. by apply slot_indices_valid.
  - split; [done|]. split; [done|]. split; [done|]. split.
    + intros j Hj _. split; [done|]. by apply Hg.
    + intros j Hj. apply Hg; [done|]. by apply slot_indices_valid.
Qed.

(** The state after the slot is filled in and its thread created, or not. *)
Lemma filled_ok st i path type bt old :
  slots_ok stopped st -> valid_slot i -> connected (slot_of st i) = false ->
  (String.length path <= 127)%nat ->
  (forall j, valid_slot j -> connected (slot_of st j) = true -> dev_path (slot_of st j) <> path) ->
  let c := registered_slot path type bt old in
  slots_ok stopped (mk_daemon (mark_slot_busy (put_slot (d_shm st) i c) i) (aset (d_threads st) i Starting)) /\
  let shm1 := mark_slot_busy (put_slot (d_shm st) i c) i in
  slots_ok stopped (mk_daemon (mark_slot_free (put_slot shm1 i ((get_slot shm1 i) {{ connected := false }})) i)
    (aset (d_threads st) i NoThread)).
Proof.
  intros H Hi Hc Hlen Hp c. rewrite mark_busy_eq by done.
  change (free_slots_bitmap (put_slot (d_shm st) i c)) with (free_slots_bitmap (d_shm st)).
  set (b := u8 (Z.land (free_slots_bitmap (d_shm st)) (Z.lnot (Z.shiftl 1 i)))).
  assert (dev_path c = path) as Hpath by (apply strn_short; exact Hlen).
  assert (connected c = true) as Hcc by reflexivity.
  assert (worker_heartbeat c = 0) as Hhb by reflexivity.
  clearbody c.
  assert (forall j, valid_slot j -> bit b j = if j =? i then false else bit (free_slots_bitmap (d_shm st)) j) as Hb
    by (intros j Hj; by apply busy_bit).
  assert (0 <= b < 256) as Hb256 by apply u8_range. clearbody b.
  assert (slots_ok stopped (upd st i c b Starting)) as H1.
  { apply upd_ok; auto.
    - intros j Hj Hn. rewrite Hb by done. by destruct (Z.eqb_spec j i).
    - by rewrite Hb, Z.eqb_refl by done.
    - intros _. by left.
    - intros [?|?]; done.
    - intros j Hj Hn _ _ Hcj _. rewrite Hpath. by apply Hp. }
  split; [exact H1|]. cbv zeta.
  set (shm1 := (put_slot (d_shm st) i c) {{ free_slots_bitmap := b }}) in *.
  assert (get_slot shm1 i = c) as Hg.
  { pose proof (ok_slots H). unfold valid_slot in *.
    exact (get_put_slot_eq (d_shm st) i c ltac:(lia)). }
  rewrite Hg. replace (aset (d_threads st) i NoThread) with (aset (d_threads (upd st i c b Starting)) i NoThread)
    by (unfold upd; cbn [d_threads]; unfold aset; by rewrite list_insert_insert_eq).
  by apply (freed_ok (upd st i c b Starting)).
Qed.

Lemma register_ok probe access thread_ok aborts path st :
  slots_ok stopped st -> (String.length path <= 127)%nat ->
  slots_ok stopped (try_register_control probe access thread_ok aborts path st).
Proof.
  intros H Hlen.
  destruct (register_cases probe access thread_ok aborts path st)
    as [[-> _]|(v & p & bt & ty & shm & _ & _ & Hd & [[_ ->]|[Hne ->]])]; [done| |].
  - by eapply drop_ghosts_ok; [done | intros; by apply slot_indices_valid | exact Hd].
  - destruct (prepared_spec aborts st shm _ _ H Hd Hne) as (Hi & H1 & Hc & _ & _ & Hp).
    destruct (filled_ok _ _ path ty (bt =? 5) (slot_of (prepared aborts (find_free_slot shm) shm st)
      (find_free_slot shm)) H1 Hi Hc Hlen Hp) as [Ha Hb].
    by destruct thread_ok.
Qed.

(** The watchdog never finds a device to register again. *)
Lemma watchdog_spec probe access thread_ok aborts now i st :
  slots_ok stopped st -> valid_slot i ->
  let st' := watchdog_slot probe access thread_ok aborts now i st in
  slots_ok stopped st' /\
  (st' = st \/ (thread_of st' i = NoThread /\ connected (slot_of st' i) = false)) /\
  (thread_of st i <> NoThread -> worker_heartbeat (slot_of st i) <> 0 ->
   WORKER_HEARTBEAT_TIMEOUT_US < u64 (now - worker_heartbeat (slot_of st i)) ->
   thread_of st' i = NoThread /\ connected (slot_of st' i) = false).
Proof.
  intros H Hi. unfold watchdog_slot. cbv zeta.
  destruct (bool_decide_reflect (thread_of st i = NoThread)) as [Ht|Ht].
  { split; [done|]. split; [by left | done]. }
  destruct (Z.eqb_spec (worker_heartbeat (slot_of st i)) 0) as [Hz|Hz]; cbn [negb andb].
  { split; [done|]. split; [by left | done]. }
  destruct (Z.ltb_spec WORKER_HEARTBEAT_TIMEOUT_US (u64 (now - worker_heartbeat (slot_of st i))));
    [|split; [done|]; split; [by left | lia]].
  set (st1 := on_shm _ st).
  assert (slots_ok stopped st1) as H1.
  { unfold st1, on_shm. rewrite <- (set_same_thread st i H Hi). apply kept_ok; auto.
    - apply (ok_starting H i Hi).
    - apply (ok_ended H i Hi). }
  assert (worker_heartbeat (slot_of st1 i) <> 0) as Hz1.
  { unfold st1, on_shm, slot_of. cbn [d_shm]. pose proof (ok_slots H). unfold valid_slot in Hi.
    rewrite get_put_slot_eq by lia. exact Hz. }
  clearbody st1.
  destruct (join_slot aborts i st1 H1 Hi) as (Jt & Jc & Jh & _).
  pose proof (join_ok aborts i st1 H1 Hi) as H2. set (st2 := join_thread aborts i st1) in *.
  clearbody st2. rewrite <- Jh in Hz1.
  pose proof (ok_ended H2 i Hi (or_introl Jt) Hz1) as Hp.
  set (st3 := on_shm _ st2).
  assert (slot_of st3 i = (slot_of st2 i) {{ worker_stop := false; connected := false }}) as E3.
  { unfold st3, on_shm, slot_of. cbn [d_shm]. rewrite mark_free_eq by done.
    pose proof (ok_slots H2). unfold valid_slot in Hi.
    exact (get_put_slot_eq (d_shm st2) i _ ltac:(lia)). }
  assert (slots_ok stopped st3) as H3.
  { unfold st3, on_shm. rewrite <- (set_same_thread st2 i H2 Hi). apply freed_ok; try done.
    rewrite Jt. done. }
  assert (thread_of st3 i = NoThread) as T3 by exact Jt.
  rewrite E3. change (dev_path _) with (dev_path (slot_of st2 i)). rewrite Hp. cbn [String.eqb negb andb].
  rewrite E3, T3. split; [done|]. split; [by right | done].
Qed.

(** A loop over the slots. *)
Lemma fold_put_spec (f : controller_t -> controller_t) n shm :
  (n <= length (slots shm))%nat ->
  let shm' := fold_idx (fun i shm => put_slot shm i (f (get_slot shm i))) n shm in
  length (slots shm') = length (slots shm) /\ free_slots_bitmap shm' = free_slots_bitmap shm /\
  forall j, 0 <= j -> get_slot shm' j = if j <? Z.of_nat n then f (get_slot shm j) else get_slot shm j.
Proof.
  intros Hn. apply (fold_idx_ind (fun k s => length (slots s) = length (slots shm) /\
    free_slots_bitmap s = free_slots_bitmap shm /\
    forall j, 0 <= j -> get_slot s j = if j <? Z.of_nat k then f (get_slot shm j) else get_slot shm j)).
  - split; [done|]. split; [done|]. intros j Hj. by destruct (Z.ltb_spec j (Z.of_nat 0)); [lia|].
  - intros i s Hi (Hl & Hb & Hg). rewrite length_put_slot. split; [done|]. split; [done|].
    intros j Hj. destruct (Z.eq_dec j (Z.of_nat i)) as [->|Hne].
    + rewrite get_put_slot_eq by lia. rewrite Hg by lia.
      destruct (Z.ltb_spec (Z.of_nat i) (Z.of_nat i)), (Z.ltb_spec (Z.of_nat i) (Z.of_nat (S i))); try lia; done.
    + rewrite get_put_slot_ne, Hg by lia.
      destruct (Z.ltb_spec j (Z.of_nat i)), (Z.ltb_spec j (Z.of_nat (S i))); try lia; done.
Qed.

Lemma init_ok pid shm : length (slots shm) = MAX_SLOTS -> slots_ok stopped (daemon_init pid shm).
Proof.
  intros Hl. unfold daemon_init. cbv zeta.
  set (s0 := shm {{ daemon_pid := pid; heartbeat := 1; free_slots_bitmap := 255 }}).
  assert (length (slots s0) = MAX_SLOTS) as Hl0 by exact Hl.
  destruct (fold_put_spec daemon_init_slot MAX_SLOTS s0 ltac:(lia)) as (L & B & G).
  set (s1 := fold_idx _ MAX_SLOTS s0) in *.
  assert (free_slots_bitmap s1 = 255) as B' by exact B.
  assert (forall j, valid_slot j -> get_slot s1 j = daemon_init_slot (get_slot s0 j)) as G'.
  { intros j [? ?]. rewrite G by done. destruct (Z.ltb_spec j (Z.of_nat MAX_SLOTS)); [done|lia]. }
  clearbody s1. clear G B.
  assert (forall j, thread_of (mk_daemon s1 (repeat NoThread MAX_SLOTS)) j = NoThread) as T.
  { intros j. unfold thread_of, aget. cbn [d_threads].
    destruct (nth_in_or_default (Z.to_nat j) (repeat NoThread MAX_SLOTS) NoThread) as [Hin|]; [|done].
    by apply repeat_spec in Hin. }
  split.
  - cbn [d_shm]. by rewrite L.
  - done.
  - cbn [d_shm]. rewrite B'. lia.
  - intros i Hi _. unfold slot_of. cbn [d_shm]. by rewrite G'.
  - intros i [Hi1 Hi2]. cbn [d_shm]. rewrite B'.
    assert (i = 0 \/ i = 1 \/ i = 2 \/ i = 3) as [->|[->|[->| ->]]] by (unfold MAX_SLOTS in Hi2; lia); done.
  - intros i Hi. unfold slot_of. cbn [d_shm]. by rewrite G'.
  - intros i Hi. by rewrite T.
  - intros i Hi _. unfold slot_of. cbn [d_shm]. by rewrite G'.
  - intros i j Hi Hj _. unfold slot_of. cbn [d_shm]. by rewrite G'.
Qed.

Lemma same_life_nsw c c' : same_life c c' -> is_nsw c' = is_nsw c.
Proof. intros (_ & _ & E & _). unfold is_nsw. by rewrite E. Qed.

Lemma step_ok st st' : slots_ok stopped st -> daemon_step st st' -> slots_ok stopped st'.
Proof.
  intros H Hs. destruct Hs as [pr ac ok ab path st Hl|pr ac ok ab now i st Hi|ab i st Hi|i st Hi Ht
    |i t path st Hi Ht Hpos Hp|i t st Hi Ht Hpos|i st Hi Ht|i c st Hi Hc].
  - by apply register_ok.
  - by apply watchdog_spec.
  - unfold lost_slot. case_bool_decide; [done|]. destruct (connected _); [done | by apply join_ok].
  - apply (ended_ok st i worker_abort); auto.
  - unfold set_thread, on_shm. cbn [d_shm d_threads]. apply kept_ok; auto; try done.
    + intros _. by right.
    + intros [?|?]; done.
    + destruct Hp as [->|Hp]; [by left | right; unfold is_nsw; by apply bool_decide_eq_true].
  - unfold on_shm. rewrite <- (set_same_thread st i H Hi). rewrite Ht. apply kept_ok; auto; try done.
    + intros _. by right.
    + intros [?|?]; done.
  - apply (ended_ok st i worker_cleanup); auto.
  - destruct Hc as (E1 & E2 & E3 & E4). unfold on_shm. rewrite <- (set_same_thread st i H Hi).
    apply kept_ok; try done.
    + rewrite E4. by apply (ok_starting H).
    + rewrite E4, E2. by apply (ok_ended H).
    + by apply same_life_nsw.
    + by left.
Qed.

Lemma reachable_ok pid shm st :
  length (slots shm) = MAX_SLOTS -> daemon_reachable pid shm st -> slots_ok stopped st.
Proof. intros Hl Hr. induction Hr; [by apply init_ok | by eapply step_ok]. Qed.

(** A connected slot, and one without a worker, is not in between. *)
Lemma heal st i :
  slots_ok stopped st -> connected (slot_of st i) = true \/ ~ running (thread_of st i) ->
  slots_ok (fun j => stopped j /\ j <> i) st.
Proof.
  intros [] Hi. split; auto. intros j Hj E. destruct (ok_busy0 j Hj E) as [?|[Hs Hr]]; [by left|].
  destruct (decide (j = i)) as [->|]; [|auto]. destruct Hi as [?|[]]; auto.
Qed.

Lemma lost_heals aborts i st :
  slots_ok stopped st -> valid_slot i -> slots_ok (fun j => stopped j /\ j <> i) (lost_slot aborts i st).
Proof.
  intros H Hi. unfold lost_slot. destruct (bool_decide_reflect (thread_of st i = NoThread)) as [E|E].
  - apply heal; [done|]. right. rewrite E. by intros [?|?].
  - destruct (connected (slot_of st i)) eqn:Ec; [apply heal; auto|].
    apply heal; [by apply join_ok|]. right. destruct (join_slot aborts i st H Hi) as [-> _]. by intros [?|?].
Qed.

(** A loop of steps that keep the invariant. *)
Lemma loop_ok {X} (f : daemon_state -> X -> daemon_state) l st :
  (forall x s, In x l -> slots_ok stopped s -> slots_ok stopped (f s x)) ->
  slots_ok stopped st -> slots_ok stopped (fold_left f l st).
Proof.
  revert st. induction l as [|x l IH]; intros st Hf H; [done|]. cbn [fold_left].
  apply IH; [intros; apply Hf; [by right | done] | apply Hf; [by left | done]].
Qed.

Lemma hotplug_ok probe access thread_ok aborts opens name st :
  (String.length name <= 122)%nat -> slots_ok stopped st ->
  slots_ok stopped (hotplug_event probe access thread_ok aborts opens name st).
Proof.
  intros Hl H. unfold hotplug_event. destruct (contains _ _); [|done].
  generalize 0%nat. induction HOTPLUG_MAX_RETRIES as [|n IH]; intros k; [done|]. cbn [hotplug_attempts].
  destruct (opens k); [|apply IH].
  apply register_ok; [done|]. change (String.length (String.append "/dev/" name)) with (5 + String.length name)%nat. lia.
Qed.
End slots.

Lemma lost_loop_heals aborts l stopped st :
  slots_ok stopped st -> (forall i, In i l -> valid_slot i) ->
  slots_ok (fun j => stopped j /\ ~ In j l) (fold_left (fun st i => lost_slot aborts i st) l st).
Proof.
  revert stopped st. induction l as [|i l IH]; intros stopped st H Hv; cbn [fold_left].
  { eapply ok_weaken; [|exact H]. intros j _ ?. split; [done | by intros []]. }
  eapply ok_weaken; [|apply (IH _ (lost_slot aborts i st) (lost_heals aborts i st H (Hv i (or_introl eq_refl))))].
  - intros j _ [[? ?] ?]. split; [done|]. by intros [<-|?].
  - intros j Hj. apply Hv. by right.
Qed.

(** A turn of the main thread ends what is in between. *)
Lemma turn_heals stopped probe access thread_ok aborts now events st :
  slots_ok stopped st -> Forall (fun e => (String.length e.2 <= 122)%nat) events ->
  daemon_ok (daemon_turn probe access thread_ok aborts now events st).
Proof.
  intros H He. unfold daemon_turn. cbv zeta.
  assert (slots_ok stopped (on_shm (fun shm => shm {{ heartbeat := u32 (heartbeat shm + 1) }}) st)) as H0
    by (destruct H; by constructor).
  set (st0 := on_shm _ st) in *. clearbody st0. set (st1 := fold_left _ slot_indices st0).
  assert (slots_ok stopped st1) as H1
    by (apply loop_ok; [intros i s Hi Hs; apply watchdog_spec; [done | by apply slot_indices_valid] | done]).
  clearbody st1. set (st2 := fold_left _ slot_indices st1).
  assert (daemon_ok st2) as H2.
  { eapply ok_weaken; [|apply (lost_loop_heals aborts slot_indices stopped st1 H1); intros; by apply slot_indices_valid].
    intros i Hi [_ Hn]. by apply Hn, slot_indices_valid. }
  clearbody st2. apply loop_ok; [|done]. intros e s Hin Hs. apply hotplug_ok; [|done].
  rewrite List.Forall_forall in He. by apply He.
Qed.

Lemma turn_ok stopped probe access thread_ok aborts now events st :
  slots_ok stopped st -> Forall (fun e => (String.length e.2 <= 122)%nat) events ->
  slots_ok stopped (daemon_turn probe access thread_ok aborts now events st).
Proof. intros H He. eapply ok_weaken; [|by eapply turn_heals]. by intros i _ []. Qed.

Lemma drop_ghosts_total accessible path idxs shm :
  (forall i, In i idxs -> accessible = true -> connected (get_slot shm i) = true ->
     dev_path (get_slot shm i) <> path) ->
  exists shm', drop_ghosts accessible path idxs shm = Some shm'.
Proof.
  revert shm. induction idxs as [|i idxs IH]; intros shm Hn; [by eexists|]. cbn [drop_ghosts].
  destruct (connected (get_slot shm i) && String.eqb (dev_path (get_slot shm i)) path) eqn:E.
  - destruct accessible; [|by apply IH]. apply andb_prop in E as [Ec Ep].
    apply String.eqb_eq in Ep. by destruct (Hn i (or_introl eq_refl) eq_refl Ec).
  - apply IH. intros j Hj. apply Hn. by right.
Qed.

Lemma registered_config path type bt old :
  controller_to_slot_config (registered_slot path type bt old) = controller_to_slot_config old.
Proof. unfold registered_slot. exact (config_of_applied (controller_to_slot_config old) zero_controller). Qed.

Lemma freed_config c : controller_to_slot_config (c {{ connected := false }}) = controller_to_slot_config c.
Proof. reflexivity. Qed.

(** The slots of the filled-in state. *)
Lemma filled_slot stopped st i c (thread_ok : bool) :
  slots_ok stopped st -> valid_slot i ->
  let st' := if thread_ok
             then mk_daemon (mark_slot_busy (put_slot (d_shm st) i c) i) (aset (d_threads st) i Starting)
             else
               let shm1 := mark_slot_busy (put_slot (d_shm st) i c) i in
               mk_daemon (mark_slot_free (put_slot shm1 i ((get_slot shm1 i) {{ connected := false }})) i)
                 (aset (d_threads st) i NoThread) in
  slot_of st' i = (if thread_ok then c else c {{ connected := false }}) /\
  thread_of st' i = (if thread_ok then Starting else NoThread) /\
  forall j, valid_slot j -> j <> i -> slot_of st' j = slot_of st j.
Proof.
  intros H Hi. pose proof (ok_slots H) as Ls. pose proof (ok_threads H) as Lt.
  cbv zeta. rewrite !mark_busy_eq, mark_free_eq by done.
  set (b := u8 _). clearbody b.
  set (s1 := (put_slot (d_shm st) i c) {{ free_slots_bitmap := b }}).
  assert (length (slots s1) = MAX_SLOTS) as L1
    by (change (slots s1) with (slots (put_slot (d_shm st) i c)); by rewrite length_put_slot).
  assert (get_slot s1 i = c) as G1 by (apply (get_put_slot_eq (d_shm st)); unfold valid_slot in *; lia).
  assert (forall j, valid_slot j -> j <> i -> get_slot s1 j = slot_of st j) as G2
    by (intros j ? ?; apply (get_put_slot_ne (d_shm st)); unfold valid_slot in *; lia).
  clearbody s1. unfold valid_slot in *. destruct thread_ok.
  - split; [done|]. split; [unfold thread_of; cbn [d_threads]; apply aget_aset_eq; lia|]. exact G2.
  - rewrite G1. split; [|split].
    + apply (get_put_slot_eq s1). lia.
    + unfold thread_of. cbn [d_threads]. apply aget_aset_eq. lia.
    + intros j Hj Hne. rewrite <- G2 by done. apply (get_put_slot_ne s1); lia.
Qed.

(** ** The virtual device *)

(** What a routine that closes a device promises. *)
Class DeviceCloser (kernel : kernel_t) (close : Z -> io unit) : Prop :=
  device_closer fd h u h' : 0 <= fd -> close fd h = Some (u, h') ->
    forall fd', opened kernel h' fd' = negb (fd' =? fd) && opened kernel h fd'.

#[export] Instance uhid_destroy_closer kernel fuel ub :
  DeviceCloser kernel (uhid_destroy kernel fuel ub).
Proof.
  intros fd h u h' Hfd H. unfold uhid_destroy in H. destruct (Z.ltb_spec fd 0); [lia|].
  apply io_bind_inv in H as (w & h1 & Hw & H).
  apply io_bind_inv in Hw as (r0 & h2 & Hw & [= _ <-]). apply safe_write_fds in Hw.
  apply io_bind_inv in H as (x & h3 & [= _ <-] & [= _ <-]). intros fd'. cbn [opened is_open_step].
  rewrite (Hw fd'). rewrite (Z.eqb_sym fd fd'). by destruct (fd' =? fd).
Qed.

(** The worker's idea of its device is right: at most one descriptor, open and
    polled; and the slot publishes it. *)
Record vdev_open (kernel : kernel_t) (h : list sysop) (v : vdev) : Prop := mk_vdev_open {
  vdev_one : v_ufd v = -1 \/ v_uhid_fd v = -1;
  vdev_ufd : v_ufd v = -1 \/
    (0 <= v_ufd v /\ opened kernel h (v_ufd v) = true /\ v_poll_fd v = v_ufd v);
  vdev_uhid : v_uhid_fd v = -1 \/
    (0 <= v_uhid_fd v /\ opened kernel h (v_uhid_fd v) = true /\ v_poll_fd v = v_uhid_fd v)
}.
Definition vdev_published (v : vdev) : Prop :=
  uinput_fd (v_slot v) = v_ufd v /\ uhid_fd (v_slot v) = v_uhid_fd v.
Definition vdev_ok (kernel : kernel_t) (h : list sysop) (v : vdev) : Prop :=
  vdev_open kernel h v /\ vdev_published v.

(** The descriptors open in [h'] are those of [h] but the devices of [v], and
    the devices of [v']. *)
Definition vdev_fds (kernel : kernel_t) (h h' : list sysop) (v v' : vdev) : Prop :=
  forall fd, opened kernel h' fd = true ->
    (0 <= fd /\ (fd = v_ufd v' \/ fd = v_uhid_fd v')) \/
    (opened kernel h fd = true /\ fd <> v_ufd v /\ fd <> v_uhid_fd v).

Section vdev_lemmas.
Context (kernel : kernel_t) (setup_uinput : Z -> io Z) (create_uhid : controller_t -> Z -> io Z)
  (destroy_uhid : Z -> io unit).
Context `{Hsetup : forall i, DeviceOpener kernel (setup_uinput i)}
  `{Hcreate : forall c i, DeviceOpener kernel (create_uhid c i)} `{Hclose : !DeviceCloser kernel destroy_uhid}.

Lemma close_uinput_spec v h v' h' :
  vdev_open kernel h v -> close_uinput kernel v h = Some (v', h') ->
  v_ufd v' = -1 /\ v_uhid_fd v' = v_uhid_fd v /\ vdev_open kernel h' v' /\
  (vdev_published v -> vdev_published v') /\
  (forall fd, opened kernel h' fd = true -> opened kernel h fd = true /\ fd <> v_ufd v).
Proof.
  intros [H1 H2 H3] E. unfold close_uinput in E. destruct (Z.leb_spec 0 (v_ufd v)) as [Hf|Hf].
  - apply io_bind_inv in E as (x & h1 & [= _ <-] & E).
    apply io_bind_inv in E as (y & h2 & [= _ <-] & [= <- <-]). cbn [v_ufd v_uhid_fd v_poll_fd].
    assert (v_uhid_fd v = -1) as Hu by lia. do 2 (split; [done|]). split; [split; cbn; auto|]. split.
    + by intros [_ ?].
    + intros fd. cbn [opened is_open_step]. destruct (Z.eqb_spec (v_ufd v) fd); [done|]. auto.
  - injection E as <- <-. assert (v_ufd v = -1) as Hu by lia. do 4 (split; [done|]).
    intros fd Hfd. apply opened_nonneg in Hfd as ?. split; [done|lia].
Qed.

Lemma close_uhid_spec v h v' h' :
  vdev_open kernel h v -> close_uhid destroy_uhid v h = Some (v', h') ->
  v_uhid_fd v' = -1 /\ v_ufd v' = v_ufd v /\ vdev_open kernel h' v' /\
  (vdev_published v -> vdev_published v') /\
  (forall fd, opened kernel h' fd = true -> opened kernel h fd = true /\ fd <> v_uhid_fd v).
Proof.
  intros [H1 H2 H3] E. unfold close_uhid in E. destruct (Z.leb_spec 0 (v_uhid_fd v)) as [Hf|Hf].
  - apply io_bind_inv in E as (x & h1 & Ed & [= <- <-]). cbn [v_ufd v_uhid_fd v_poll_fd].
    pose proof (device_closer _ _ _ _ Hf Ed) as Ho.
    assert (v_ufd v = -1) as Hu by lia. do 2 (split; [done|]). split; [split; cbn; auto|]. split.
    + by intros [? _].
    + intros fd. rewrite Ho. destruct (Z.eqb_spec fd (v_uhid_fd v)); [done|]. auto.
  - injection E as <- <-. assert (v_uhid_fd v = -1) as Hu by lia. do 4 (split; [done|]).
    intros fd Hfd. apply opened_nonneg in Hfd as ?. split; [done|lia].
Qed.

(** A created device takes the place of none. *)
Lemma created_spec create fd h h1 (v v' : vdev) :
  DeviceOpener kernel create -> create h = Some (fd, h1) ->
  v_ufd v = -1 -> v_uhid_fd v = -1 ->
  (v_ufd v' = fd /\ v_uhid_fd v' = -1 \/ v_ufd v' = -1 /\ v_uhid_fd v' = fd) ->
  (0 <= fd -> v_poll_fd v' = fd) ->
  vdev_open kernel h1 v' /\ vdev_fds kernel h h1 v v'.
Proof.
  intros Ho E U Uh Hv P. destruct (device_opener _ _ _ _ E) as [[-> Hleak]|(Hpos & Hop & Honly)].
  - split; [destruct Hv as [[? ?]|[? ?]]; split; auto|].
    intros fd Hfd. right. apply opened_nonneg in Hfd as ?. apply Hleak in Hfd. split; [done | lia].
  - specialize (P Hpos). split.
    + destruct Hv as [[E1 E2]|[E1 E2]]; split; rewrite ?E1, ?E2; auto.
    + intros fd' Hfd. destruct (Honly _ Hfd) as [->|Hfd']; [left; split; [done | lia] | right].
      apply opened_nonneg in Hfd' as ?. split; [done | lia].
Qed.

(** Steps before the last one. *)
Lemma vdev_fds_before h h1 h2 v v1 v2 :
  (forall fd, opened kernel h1 fd = true -> opened kernel h fd = true /\ fd <> v_ufd v /\ fd <> v_uhid_fd v) ->
  vdev_fds kernel h1 h2 v1 v2 -> vdev_fds kernel h h2 v v2.
Proof.
  intros H1 H2 fd Hfd. destruct (H2 fd Hfd) as [?|[Ho _]]; [by left | right; by apply H1].
Qed.

(** The polled descriptor does not matter without a device. *)
Lemma unpoll_ok h b v :
  vdev_open kernel h v -> (0 <= b -> v_ufd v = -1 /\ v_uhid_fd v = -1) -> vdev_open kernel h (unpoll b v).
Proof.
  intros [? ? ?] Hb. unfold unpoll. destruct (Z.leb_spec 0 b); [|by split].
  destruct (Hb ltac:(lia)). split; cbn; auto.
Qed.

Lemma unpoll_same b v :
  v_ufd (unpoll b v) = v_ufd v /\ v_uhid_fd (unpoll b v) = v_uhid_fd v /\
  v_slot (unpoll b v) = v_slot v.
Proof. unfold unpoll. by destruct (0 <=? b). Qed.

Lemma unpoll_published b v : vdev_published v -> vdev_published (unpoll b v).
Proof. unfold vdev_published. by destruct (unpoll_same b v) as (-> & -> & ->). Qed.

(** A device of the kind asked for that is kept. *)
Lemma kept_fds h h1 v v1 :
  (forall fd, opened kernel h1 fd = true -> opened kernel h fd = true /\ fd <> v_ufd v \/ fd = v_ufd v1) ->
  v_uhid_fd v1 = v_uhid_fd v -> vdev_fds kernel h h1 v v1.
Proof.
  intros H E fd Hfd. apply opened_nonneg in Hfd as ?. destruct (H fd Hfd) as [[? ?]| ->]; [|left; auto].
  destruct (Z.eq_dec fd (v_uhid_fd v1)); [left; auto | right; split; [done|]; split; [done | lia]].
Qed.

Lemma manage_uhid_spec idx v h v' h' :
  vdev_open kernel h v ->
  manage_vdev kernel setup_uinput create_uhid destroy_uhid idx true true v h = Some (v', h') ->
  vdev_open kernel h' v' /\ (vdev_published v -> vdev_published v') /\ v_ufd v' = -1 /\
  vdev_fds kernel h h' v v'.
Proof.
  intros Hok E. cbn [manage_vdev] in E. apply io_bind_inv in E as (v1 & h1 & E1 & E).
  destruct (close_uinput_spec _ _ _ _ Hok E1) as (U & Uh & Hok1 & Hp1 & Hfd1).
  destruct (Z.ltb_spec (v_uhid_fd v1) 0) as [Hn|Hn].
  - apply io_bind_inv in E as (fd & h2 & Ec & E).
    assert (v_uhid_fd v1 = -1) as Uh1 by (destruct Hok1; lia).
    destruct (device_opener _ _ _ _ Ec) as [[-> _]|(Hpos & _)].
    + injection E as <- <-.
      destruct (created_spec _ _ _ _ v1 (mk_vdev (v_ufd v1) (-1) (v_poll_fd v1) (v_slot v1) (v_nsw v1))
        _ Ec U Uh1 ltac:(by right) ltac:(lia)) as [Ho Hf]. split; [done|]. split; [|split; [done|]].
      * intros Hp. destruct (Hp1 Hp). split; cbn; lia.
      * eapply vdev_fds_before; [|exact Hf]. intros fd Hfd. apply opened_nonneg in Hfd as ?.
        destruct (Hfd1 fd Hfd). split; [done | lia].
    + destruct (Z.leb_spec 0 fd); [|lia]. injection E as <- <-.
      destruct (created_spec _ _ _ _ v1 (mk_vdev (v_ufd v1) fd fd ((v_slot v1) {{ uhid_fd := fd }}) (tell_nsw fd v1))
        _ Ec U Uh1 ltac:(by right) ltac:(done)) as [Ho Hf]. split; [done|]. split; [|split; [done|]].
      * intros Hp. destruct (Hp1 Hp). by split.
      * eapply vdev_fds_before; [|exact Hf]. intros fd' Hfd. apply opened_nonneg in Hfd as ?.
        destruct (Hfd1 fd' Hfd). split; [done | lia].
  - injection E as <- <-. do 3 (split; [done|]). apply kept_fds; [|done]. auto.
Qed.

Lemma manage_uinput_spec idx v h v' h' :
  vdev_open kernel h v ->
  manage_vdev kernel setup_uinput create_uhid destroy_uhid idx true false v h = Some (v', h') ->
  vdev_open kernel h' v' /\ (vdev_published v -> vdev_published v') /\ v_uhid_fd v' = -1 /\
  vdev_fds kernel h h' v v'.
Proof.
  intros Hok E. cbn [manage_vdev] in E. apply io_bind_inv in E as (v1 & h1 & E1 & E).
  destruct (close_uhid_spec _ _ _ _ Hok E1) as (Uh & U & Hok1 & Hp1 & Hfd1).
  assert (forall fd, opened kernel h1 fd = true -> v_ufd v1 = -1 ->
    opened kernel h fd = true /\ fd <> v_ufd v /\ fd <> v_uhid_fd v) as Hb.
  { intros fd Hfd ?. apply opened_nonneg in Hfd as ?. destruct (Hfd1 fd Hfd). split; [done | lia]. }
  destruct (Z.ltb_spec (v_ufd v1) 0) as [Hn|Hn].
  - apply io_bind_inv in E as (fd & h2 & Ec & E).
    assert (v_ufd v1 = -1) as U1 by (destruct Hok1; lia).
    destruct (device_opener _ _ _ _ Ec) as [[-> _]|(Hpos & _)].
    + injection E as <- <-.
      destruct (created_spec _ _ _ _ v1 (mk_vdev (-1) (v_uhid_fd v1) (v_poll_fd v1) (v_slot v1) (v_nsw v1))
        _ Ec U1 Uh ltac:(by left) ltac:(lia)) as [Ho Hf]. split; [done|]. split; [|split; [done|]].
      * intros Hp. destruct (Hp1 Hp). split; cbn; lia.
      * eapply vdev_fds_before; [|exact Hf]. auto.
    + destruct (Z.leb_spec 0 fd); [|lia]. injection E as <- <-.
      destruct (created_spec _ _ _ _ v1 (mk_vdev fd (v_uhid_fd v1) fd ((v_slot v1) {{ uinput_fd := fd }}) (v_nsw v1))
        _ Ec U1 Uh ltac:(by left) ltac:(done)) as [Ho Hf]. split; [done|]. split; [|split; [done|]].
      * intros Hp. destruct (Hp1 Hp). by split.
      * eapply vdev_fds_before; [|exact Hf]. auto.
  - injection E as <- <-. do 3 (split; [done|]). intros fd Hfd. apply opened_nonneg in Hfd as ?.
    destruct (Hfd1 fd Hfd). destruct (Z.eq_dec fd (v_ufd v1)); [left; auto | right; split; [done|]; lia].
Qed.

Lemma manage_none_spec idx uhid v h v' h' :
  vdev_open kernel h v ->
  manage_vdev kernel setup_uinput create_uhid destroy_uhid idx false uhid v h = Some (v', h') ->
  vdev_open kernel h' v' /\ (vdev_published v -> vdev_published v') /\
  (v_ufd v' = -1 /\ v_uhid_fd v' = -1) /\ vdev_fds kernel h h' v v'.
Proof.
  intros Hok E. cbn [manage_vdev] in E.
  apply io_bind_inv in E as (v1 & h1 & E1 & E). apply io_bind_inv in E as (v2 & h2 & E2 & [= <- <-]).
  destruct (close_uinput_spec _ _ _ _ Hok E1) as (U1 & Uh1 & Hok1 & Hp1 & Hfd1).
  destruct (unpoll_same (v_ufd v) v1) as (Ua & Ub & _).
  assert (vdev_open kernel h1 (unpoll (v_ufd v) v1)) as Hok1'.
  { apply unpoll_ok; [done|]. intros. split; [done|]. destruct Hok. lia. }
  destruct (close_uhid_spec _ _ _ _ Hok1' E2) as (U2 & Uh2 & Hok2 & Hp2 & Hfd2).
  destruct (unpoll_same (v_uhid_fd v) v2) as (Uc & Ud & _).
  split; [apply unpoll_ok; [done|]; intros; split; lia|].
  split; [intros; apply unpoll_published, Hp2, unpoll_published; auto|].
  split; [split; lia|]. intros fd Hfd. right.
  destruct (Hfd2 _ Hfd) as [Hf1 ?]. destruct (Hfd1 _ Hf1) as [? ?]. split; [done|]. split; [done|lia].
Qed.

Lemma manage_vdev_spec idx emu uhid v h v' h' :
  vdev_open kernel h v ->
  manage_vdev kernel setup_uinput create_uhid destroy_uhid idx emu uhid v h = Some (v', h') ->
  vdev_open kernel h' v' /\ (vdev_published v -> vdev_published v') /\
  (if emu : bool then if uhid : bool then v_ufd v' = -1 else v_uhid_fd v' = -1
   else v_ufd v' = -1 /\ v_uhid_fd v' = -1) /\
  vdev_fds kernel h h' v v'.
Proof.
  destruct emu; [destruct uhid; [apply manage_uhid_spec | apply manage_uinput_spec] | apply manage_none_spec].
Qed.
End vdev_lemmas.

(** * Properties *)

(** The slots stay consistent whatever the devices, workers and other
    processes do: in every state the daemon reaches, and after a whole turn of
    its main thread, a slot is marked free exactly when nothing is connected to
    it, a connected slot has a live worker, a slot whose worker ended after its
    first heartbeat has no device path, and no two connected DualShock or
    DualSense slots have the same path. *)
Theorem daemon_slots_consistent pid shm st :
  length (slots shm) = MAX_SLOTS -> daemon_reachable pid shm st ->
  daemon_ok st /\
  forall probe access thread_ok aborts now events,
    Forall (fun e : (nat -> bool) * string => (String.length e.2 <= 122)%nat) events ->
    daemon_ok (daemon_turn probe access thread_ok aborts now events st).
Proof.
  intros Hl Hr. pose proof (reachable_ok _ _ _ Hl Hr : daemon_ok st) as H. split; [done|].
  intros. by apply turn_ok.
Qed.

(** C11: registering a device never changes the persistent configuration of any
    slot, the one it takes included; and a supported device that is not already
    registered gets a slot with its path, type and a new worker as long as one
    slot is free and the thread can be created. *)
Theorem register_keeps_config probe access thread_ok aborts path st :
  daemon_ok st -> (String.length path <= 127)%nat ->
  let st' := try_register_control probe access thread_ok aborts path st in
  (forall j, valid_slot j ->
     controller_to_slot_config (slot_of st' j) = controller_to_slot_config (slot_of st j)) /\
  (forall vendor product bustype type k,
     probe path = Some (vendor, product, bustype) -> device_type vendor product = Some type ->
     (forall i, valid_slot i -> access path = true -> connected (slot_of st i) = true ->
        dev_path (slot_of st i) <> path) ->
     valid_slot k -> connected (slot_of st k) = false -> thread_ok = true ->
     exists i, valid_slot i /\ connected (slot_of st' i) = true /\ dev_path (slot_of st' i) = path /\
       ctype (slot_of st' i) = type /\ is_bluetooth (slot_of st' i) = (bustype =? 5) /\
       thread_of st' i = Starting).
Proof.
  intros H Hlen. cbv zeta.
  destruct (register_cases probe access thread_ok aborts path st)
    as [[E Hno]|(v & p & bt & ty & shm & Hpr & Hty & Hd & Hcase)].
  - rewrite E. split; [done|]. intros v p b ty k Hpr Hty Hnp _ _ _.
    destruct (drop_ghosts_total (access path) path slot_indices (d_shm st)) as [shm Hd].
    { intros i Hi. apply Hnp. by apply slot_indices_valid. }
    by rewrite (Hno _ _ _ _ Hpr Hty) in Hd.
  - destruct (drop_ghosts_ok _ _ _ _ _ H ltac:(intros; by apply slot_indices_valid) Hd) as [H0 Hg].
    destruct Hcase as [[Hfull ->]|[Hne ->]].
    + split; [intros j Hj; destruct (Hg j Hj) as [[E|E] _]; unfold slot_of at 1; cbn [d_shm];
              rewrite E; done|].
      intros v' p' b' ty' k _ _ _ Hk Hkc _. exfalso.
      destruct (find_free_slot_spec shm) as [[_ Hb]|[[Hv _] _]]; [|lia].
      pose proof (ok_exact _ k H0 Hk) as Hf. cbn [d_shm] in Hf. rewrite Hb in Hf by done.
      unfold slot_of at 1 in Hf. cbn [d_shm] in Hf.
      destruct (Hg k Hk) as [[E|E] _]; rewrite E in Hf; [by rewrite Hkc in Hf | done].
    + destruct (prepared_spec aborts st shm _ _ H Hd Hne) as (Hi & H1 & Hc & Hcfg & Hj & _).
      set (i := find_free_slot shm) in *. set (st1 := prepared aborts i shm st) in *. clearbody st1 i.
      destruct (filled_slot nobody_stopped st1 i (registered_slot path ty (bt =? 5) (slot_of st1 i)) thread_ok H1 Hi)
        as (Fi & Ft & Fj). cbv zeta in *.
      set (st2 := if thread_ok then _ else _) in *. clearbody st2. split.
      * intros j Hjv. destruct (Z.eq_dec j i) as [->|Hn].
        -- rewrite Fi. destruct thread_ok; rewrite ?freed_config, registered_config; done.
        -- rewrite Fj by done. destruct (Hj j Hjv Hn) as [_ [-> | ->]]; done.
      * intros v' p' b' ty' k Hpr' Hty' _ _ _ ->. rewrite Hpr in Hpr'. injection Hpr' as <- <- <-.
        rewrite Hty in Hty'. injection Hty' as <-. exists i. rewrite Fi, Ft.
        split; [done|]. split; [done|]. split; [apply strn_short; exact Hlen | done].
Qed.

(** C40: the watchdog does not restart workers: a worker whose heartbeat is more
    than five seconds old is stopped and joined, and as it clears its device
    path on the way out there is nothing left to register again: its slot is
    free and has no worker afterwards, whether or not the device is still there. *)
Theorem watchdog_never_recreates probe access thread_ok aborts now i pid shm st :
  length (slots shm) = MAX_SLOTS -> daemon_reachable pid shm st -> valid_slot i ->
  thread_of st i <> NoThread -> worker_heartbeat (slot_of st i) <> 0 ->
  WORKER_HEARTBEAT_TIMEOUT_US < u64 (now - worker_heartbeat (slot_of st i)) ->
  let st' := watchdog_slot probe access thread_ok aborts now i st in
  thread_of st' i = NoThread /\ connected (slot_of st' i) = false /\
  bit (free_slots_bitmap (d_shm st')) i = true.
Proof.
  intros Hl Hr Hi Ht Hz Hw st'.
  destruct (watchdog_spec probe access thread_ok aborts now i st (reachable_ok _ _ _ Hl Hr : daemon_ok st) Hi)
    as (Hok & _ & Hs). destruct (Hs Ht Hz Hw) as [Ht' Hc']. fold st' in Hok, Ht', Hc'.
  split; [done|]. split; [done|]. rewrite (ok_exact _ i Hok Hi). fold st' in Hc'. by rewrite Hc'.
Qed.

(** C12: a worker never has two virtual devices: whatever emulation is asked
    for, the step that manages the device leaves at most one open, of the kind
    asked for, published in the slot and polled; everything else it opened is
    closed again, and with emulation off there is none. *)
Theorem vdev_exclusive kernel setup_uinput create_uhid destroy_uhid idx emu uhid v h v' h'
  `{forall i, DeviceOpener kernel (setup_uinput i)} `{forall c i, DeviceOpener kernel (create_uhid c i)}
  `{!DeviceCloser kernel destroy_uhid} :
  vdev_ok kernel h v ->
  manage_vdev kernel setup_uinput create_uhid destroy_uhid idx emu uhid v h = Some (v', h') ->
  vdev_ok kernel h' v' /\
  (if emu : bool then if uhid : bool then v_ufd v' = -1 else v_uhid_fd v' = -1
   else v_ufd v' = -1 /\ v_uhid_fd v' = -1) /\
  vdev_fds kernel h h' v v'.
Proof.
  intros [Ho Hp] E. destruct (manage_vdev_spec _ _ _ _ _ _ _ _ _ _ _ Ho E) as (H1 & H2 & H3 & H4).
  by split; [split; auto|].
Qed.

(** ** Witnesses *)

(** One DualShock 4 on hidraw0, one Switch controller on hidraw1. *)
Definition demo_probe (path : string) : option (Z * Z * Z) :=
  if String.eqb path "/dev/hidraw0" then Some (0x054c, 0x09cc, 3)
  else if String.eqb path "/dev/hidraw1" then Some (0x057e, 0x2009, 5) else None.
Definition demo_shm : shared_data_t :=
  mk_shared_data SHM_MAGIC_VALUE (repeat (zero_controller {{ deadzone := 7 }}) MAX_SLOTS) false 0 0 false 0 0
    EmptyString 0 EmptyString 1 2000 EmptyString.
Definition demo_init : daemon_state := daemon_init 99 demo_shm.
Definition demo_ds4 : daemon_state :=
  try_register_control demo_probe (fun _ => true) true false "/dev/hidraw0" demo_init.

Lemma demo_ds4_reachable : daemon_reachable 99 demo_shm demo_ds4.
Proof. eapply reach_step; [apply reach_init | apply step_register; cbn; lia]. Qed.

Lemma demo_ds4_thread : thread_of demo_ds4 0 = Starting.
Proof. vm_compute. reflexivity. Qed.

Example daemon_slots_consistent_witness :
  daemon_ok demo_ds4 /\ connected (slot_of demo_ds4 0) = true /\
  bit (free_slots_bitmap (d_shm demo_ds4)) 0 = false.
Proof.
  destruct (daemon_slots_consistent 99 demo_shm demo_ds4 eq_refl demo_ds4_reachable) as [H _].
  split; [exact H|]. vm_compute. by split.
Defined.

Example register_keeps_config_witness :
  exists i, connected (slot_of demo_ds4 i) = true /\ dev_path (slot_of demo_ds4 i) = "/dev/hidraw0"%string /\
    deadzone (slot_of demo_ds4 0) = 7.
Proof.
  destruct (register_keeps_config demo_probe (fun _ => true) true false "/dev/hidraw0" demo_init
    (init_ok 99 demo_shm eq_refl) ltac:(cbn; lia)) as [Hc He].
  destruct (He 0x054c 0x09cc 3 TYPE_DS4 0 eq_refl eq_refl) as (i & _ & H1 & H2 & _).
  - intros i Hi _. assert (connected (slot_of demo_init i) = false) as Hf; [|by rewrite Hf].
    assert (i = 0 \/ i = 1 \/ i = 2 \/ i = 3) as [->|[->|[->| ->]]]
      by (unfold valid_slot, MAX_SLOTS in Hi; lia); vm_compute; reflexivity.
  - unfold valid_slot, MAX_SLOTS. lia.
  - vm_compute. reflexivity.
  - reflexivity.
  - exists i. split; [exact H1|]. split; [exact H2|].
    exact (f_equal cfg_deadzone (Hc 0 ltac:(unfold valid_slot, MAX_SLOTS; lia))).
Defined.

(** The worker of slot 0 in its loop, last seen at 1000. *)
Definition demo_looping : daemon_state :=
  set_thread (on_shm (fun shm => put_slot shm 0
    ((get_slot shm 0) {{ dev_path := dev_path (slot_of demo_ds4 0); worker_heartbeat := 1000 }})) demo_ds4)
    0 Looping.

Lemma demo_looping_reachable : daemon_reachable 99 demo_shm demo_looping.
Proof.
  eapply reach_step; [apply demo_ds4_reachable|]. apply step_worker_loop.
  - unfold valid_slot, MAX_SLOTS. lia.
  - apply demo_ds4_thread.
  - lia.
  - by left.
Qed.

Example watchdog_never_recreates_witness :
  thread_of (watchdog_slot demo_probe (fun _ => true) true false 9000000 0 demo_looping) 0 = NoThread.
Proof.
  apply (watchdog_never_recreates demo_probe (fun _ => true) true false 9000000 0 99 demo_shm demo_looping
    eq_refl demo_looping_reachable).
  - unfold valid_slot, MAX_SLOTS. lia.
  - vm_compute. discriminate.
  - vm_compute. discriminate.
  - vm_compute. reflexivity.
Defined.

Example vdev_exclusive_witness :
  let v := mk_vdev (-1) (-1) (-1) (zero_controller {{ uinput_fd := -1; uhid_fd := -1 }}) zero_nsw_context in
  exists v' h', manage_vdev good_kernel (setup_uinput_indexed good_kernel 9 (fun _ => [1; 2]))
      (fun c i => uhid_create good_kernel 9 (fun _ => [1]) (fun _ _ => Some UHID_START)
         (fun _ => EmptyString) (fun _ => EmptyString) (fun _ _ => EmptyString) 0 (Some c) i)
      (uhid_destroy good_kernel 9 (fun _ => [1])) 0 true true v [] = Some (v', h') /\
    vdev_ok good_kernel h' v' /\ v_ufd v' = -1 /\ v_uhid_fd v' = 5.
Proof.
  intros v.
  destruct (manage_vdev good_kernel (setup_uinput_indexed good_kernel 9 (fun _ => [1; 2]))
      (fun c i => uhid_create good_kernel 9 (fun _ => [1]) (fun _ _ => Some UHID_START)
         (fun _ => EmptyString) (fun _ => EmptyString) (fun _ _ => EmptyString) 0 (Some c) i)
      (uhid_destroy good_kernel 9 (fun _ => [1])) 0 true true v []) as [[v' h']|] eqn:E;
    [|exfalso; revert E; vm_compute; discriminate].
  exists v', h'. split; [done|].
  destruct (vdev_exclusive good_kernel _ _ _ 0 true true v [] v' h'
    (conj (mk_vdev_open good_kernel [] v (or_introl eq_refl) (or_introl eq_refl) (or_introl eq_refl))
       (conj eq_refl eq_refl)) E) as (H1 & H2 & _).
  split; [exact H1|]. split; [exact H2|]. revert E. vm_compute. by intros [= <- _].
Defined.

(** ** Two observations *)

(** The same Switch controller registered twice: once its worker has replaced
    the path of the slot by that of the event node, a second registration of
    the [hidraw] node, as when the first scan and the hotplug event both see it,
    takes another slot. *)
Definition nsw_once : daemon_state :=
  try_register_control demo_probe (fun _ => true) true false "/dev/hidraw1" demo_init.
Definition nsw_looping : daemon_state :=
  set_thread (on_shm (fun shm => put_slot shm 0
    ((get_slot shm 0) {{ dev_path := "/dev/input/event7"%string; worker_heartbeat := 1000 }})) nsw_once)
    0 Looping.
Definition nsw_twice : daemon_state :=
  try_register_control demo_probe (fun _ => true) true false "/dev/hidraw1" nsw_looping.

Lemma nsw_registered_twice :
  daemon_reachable 99 demo_shm nsw_twice /\
  connected (slot_of nsw_twice 0) = true /\ thread_of nsw_twice 0 = Looping /\
  connected (slot_of nsw_twice 1) = true /\ thread_of nsw_twice 1 = Starting.
Proof.
  split; [|vm_compute; by repeat split].
  assert (daemon_reachable 99 demo_shm nsw_once) as H1
    by (eapply reach_step; [apply reach_init | apply step_register; cbn; lia]).
  assert (valid_slot 0 /\ thread_of nsw_once 0 = Starting /\ ctype (slot_of nsw_once 0) = TYPE_NSW_PRO)
    as (Hi & Ht & Hc)
    by (split; [unfold valid_slot, MAX_SLOTS; lia | vm_compute; by split]).
  assert (daemon_reachable 99 demo_shm nsw_looping) as H2
    by exact (reach_step _ _ nsw_once nsw_looping H1
         (step_worker_loop 0 1000 "/dev/input/event7" nsw_once Hi Ht eq_refl (or_intror Hc))).
  eapply reach_step; [exact H2|]. apply step_register. cbn. lia.
Qed.

(** When the switch from uinput to UHID fails, the worker goes on polling the
    descriptor it has closed. *)
Lemma poll_fd_stale :
  let v := mk_vdev 5 (-1) 5 (zero_controller {{ uinput_fd := 5; uhid_fd := -1 }}) zero_nsw_context in
  exists v' h', manage_vdev good_kernel (fun _ => mret (-1)) (fun _ _ => mret (-1)) (fun _ => mret tt)
      0 true true v [SysOpen "/dev/uinput"] = Some (v', h') /\
    v_poll_fd v' = 5 /\ opened good_kernel h' 5 = false /\ v_ufd v' = -1 /\ v_uhid_fd v' = -1.
Proof. do 2 eexists. split; [reflexivity|]. vm_compute. by repeat split. Qed.
