(* ===== verification/Commands.v ===== *)
(** * The command line ([commands.c])

    The parsing of numbers and colours, one handler per slot command, the
    dispatch table, the batch mode and the entry point.  A handler gives the
    slot and the exit code; what it prints is not modelled. *)

From S2P Require Import Prelude Types Keys Axes Utils Led Settings.
From Stdlib Require Import Ascii.
Local Open Scope Z_scope.

(** ** Numbers in the C library *)

Definition chr (c : ascii) : Z := Z.of_nat (nat_of_ascii c).
Definition is_space (c : ascii) : bool := (chr c =? 32) || ((9 <=? chr c) && (chr c <=? 13)).
Definition digit (c : ascii) : option Z :=
  if (48 <=? chr c) && (chr c <=? 57) then Some (chr c - 48) else None.
Definition hex_digit (c : ascii) : option Z :=
  if (48 <=? chr c) && (chr c <=? 57) then Some (chr c - 48)
  else if (97 <=? chr c) && (chr c <=? 102) then Some (chr c - 87)
  else if (65 <=? chr c) && (chr c <=? 70) then Some (chr c - 55)
  else None.
Definition isxdigit (c : ascii) : bool := match hex_digit c with Some _ => true | None => false end.

Fixpoint skip_spaces (s : string) : string :=
  match s with String c s' => if is_space c then skip_spaces s' else s | EmptyString => s end.

(** The value of the digits at the start of a string, and what follows. *)
Fixpoint read_digits (acc : Z) (s : string) : Z * string :=
  match s with
  | String c s' => match digit c with
                   | Some d => read_digits (acc * 10 + d) s'
                   | None => (acc, s)
                   end
  | EmptyString => (acc, s)
  end.

Definition LONG_MAX : Z := 2 ^ 63 - 1.
Definition LONG_MIN : Z := - 2 ^ 63.

(** [strtol(s, &endptr, 10)]: the value and the rest. *)
Definition strtol (s : string) : Z * string :=
  let s1 := skip_spaces s in
  let '(neg, s2) := match s1 with
                    | String c s' => if chr c =? 45 then (true, s')
                                     else if chr c =? 43 then (false, s') else (false, s1)
                    | EmptyString => (false, s1)
                    end in
  match s2 with
  | String c _ =>
      match digit c with
      | Some _ =>
          let (v, rest) := read_digits 0 s2 in
          (Z.min LONG_MAX (Z.max LONG_MIN (if neg : bool then - v else v)), rest)
      | None => (0, s)
      end
  | EmptyString => (0, s)
  end.

Definition atoi (s : string) : Z := i32 (strtol s).1.

(** One [%02x] of [sscanf]: spaces, then at most two characters. *)
Definition scan_hex2 (s : string) : option (Z * string) :=
  match skip_spaces s with
  | EmptyString => None
  | String c s1 =>
      if (chr c =? 45) || (chr c =? 43) then
        match s1 with
        | String d s2 => v ← hex_digit d; Some (if chr c =? 45 then u32 (- v) else v, s2)
        | EmptyString => None
        end
      else
        v ← hex_digit c;
        match s1 with
        | String d s2 =>
            match hex_digit d with
            | Some w => Some (v * 16 + w, s2)
            | None => if (v =? 0) && ((chr d =? 120) || (chr d =? 88)) then None else Some (v, s1)
            end
        | EmptyString => Some (v, s1)
        end
  end.

Definition scan_color (s : string) : option (Z * Z * Z) :=
  '(r, s) ← scan_hex2 s; '(g, s) ← scan_hex2 s; '(b, _) ← scan_hex2 s; Some (r, g, b).

Definition str_to_bool (s : string) : bool := String.eqb s "on" || String.eqb s "1".

(** ** Slot commands *)

Definition result : Type := controller_t * Z.
Definition fail (slot : controller_t) : result := (slot, 1).

Definition cmd_color (slot : controller_t) (argv : list string) : result :=
  match argv with
  | [] => fail slot
  | a :: _ =>
      match scan_color a with
      | None => fail slot
      | Some (r, g, b) =>
          (slot {{ led_base_r := u8 r; led_base_g := u8 g; led_base_b := u8 b;
                   led_r := u8 r; led_g := u8 g; led_b := u8 b;
                   led_static := true; led_request_pending := false; led_dirty := true }}, 0)
      end
  end.

Definition cmd_emulation (slot : controller_t) (argv : list string) : result :=
  match argv with
  | [] => fail slot
  | a :: _ => (slot {{ emulate_active := str_to_bool a }}, 0)
  end.

(** [emulate_active] is stored false, then true. *)
Definition cmd_uhid (slot : controller_t) (argv : list string) : result :=
  match argv with
  | [] => fail slot
  | a :: _ => (slot {{ is_uhid := str_to_bool a; emulate_active := true }}, 0)
  end.

Definition cmd_keybind (slot : controller_t) (argv : list string) : result :=
  match argv with
  | a :: b :: _ =>
      let phy := atoi a in
      let log := atoi b in
      if (phy <? 0) || (Z.of_nat PHY_BTN_COUNT <=? phy) || (log <? 0) || (LOGICAL_BTN_COUNT <=? log)
      then fail slot
      else (slot {{ keymap := aset (keymap slot) phy (u8 log); led_dirty := true }}, 0)
  | _ => fail slot
  end.

Definition cmd_keymap (slot : controller_t) (argv : list string) : result := (slot, 0).

Definition cmd_reset_all_keybinds (slot : controller_t) (argv : list string) : result :=
  (slot {{ request_reset_all_keybinds := true }}, 0).

Definition cmd_invert (slot : controller_t) (argv : list string) : result :=
  match argv with
  | which :: a :: _ =>
      if String.eqb which "status" then (slot, 0)
      else
        let val := str_to_bool a in
        if String.eqb which "ly" then (slot {{ invert_ly := val }}, 0)
        else if String.eqb which "ry" then (slot {{ invert_ry := val }}, 0)
        else fail slot
  | _ => fail slot
  end.

Definition cmd_sensitivity (slot : controller_t) (argv : list string) : result :=
  match argv with
  | [] => fail slot
  | which :: rest =>
      if String.eqb which "status" then (slot, 0)
      else match rest with
           | [] => fail slot
           | a :: _ =>
               let preset := atoi a in
               if (preset <? 0) || (SENS_PRESET_COUNT <=? preset) then fail slot
               else if String.eqb which "left" then (apply_sensitivity_preset_left slot preset, 0)
               else if String.eqb which "right" then (apply_sensitivity_preset_right slot preset, 0)
               else fail slot
           end
  end.

Definition cmd_triggers_digital (slot : controller_t) (argv : list string) : result :=
  match argv with
  | [] => fail slot
  | a :: _ => if String.eqb a "status" then (slot, 0)
              else (slot {{ is_trigger_digital := str_to_bool a }}, 0)
  end.

Definition cmd_ledfx (slot : controller_t) (argv : list string) : result :=
  match argv with
  | [] => fail slot
  | a :: rest =>
      let effect := atoi a in
      if (effect <? 0) || (LEDFX_COUNT <=? effect) then fail slot
      else
        let speed := match rest with s :: _ => u8 (atoi s) | [] => 5 end in
        let brightness := match rest with _ :: b :: _ => u8 (atoi b) | _ => 80 end in
        let speed := if (speed <? 1) || (10 <? speed) then 5 else speed in
        let brightness := if (brightness <? 1) || (100 <? brightness) then 80 else brightness in
        if effect =? 0 then
          (slot {{ led_static := true; led_request_pending := false; led_r := led_base_r slot;
                   led_g := led_base_g slot; led_b := led_base_b slot; led_dirty := true }}, 0)
        else
          (slot {{ led_static := false; led_request_effect := effect; led_request_speed := speed;
                   led_request_brightness := brightness; led_request_pending := true }}, 0)
  end.

(** A percentage: [brightness], [deadzone] and [gain]. *)
Definition cmd_percent (set : Z -> controller_t -> controller_t) (slot : controller_t)
  (argv : list string) : result :=
  match argv with
  | [] => fail slot
  | a :: _ => let v := atoi a in
              if (v <? 0) || (100 <? v) then fail slot else (set (u8 v) slot, 0)
  end.
Definition cmd_brightness : controller_t -> list string -> result :=
  cmd_percent (fun v slot => slot {{ global_led_brightness := v; led_dirty := true }}).
Definition cmd_deadzone : controller_t -> list string -> result :=
  cmd_percent (fun v slot => slot {{ deadzone := v }}).
Definition cmd_gain : controller_t -> list string -> result :=
  cmd_percent (fun v slot => slot {{ rumble_gain := v }}).

Definition cmd_rumble (slot : controller_t) (argv : list string) : result :=
  match argv with
  | [] => fail slot
  | a :: _ =>
      if String.eqb a "status" then (slot, 0)
      else
        let val := str_to_bool a in
        let slot := slot {{ rumble_active := val }} in
        (if negb val then slot {{ rumble_strong := 0; rumble_weak := 0; rumble_dirty := true }} else slot, 0)
  end.

Definition cmd_debounce (slot : controller_t) (argv : list string) : result :=
  match argv with
  | [] => fail slot
  | a :: _ => (slot {{ debounce_enabled := str_to_bool a }}, 0)
  end.

Definition cmd_reapply (slot : controller_t) (argv : list string) : result :=
  match argv with
  | [] => fail slot
  | a :: _ => if String.eqb a "status" then (slot, 0) else (slot {{ led_reapply := str_to_bool a }}, 0)
  end.

Definition cmd_pled (slot : controller_t) (argv : list string) : result :=
  match argv with
  | [] => fail slot
  | a :: _ =>
      let p := atoi a in
      if (p <? 0) || (5 <? p) then fail slot
      else if negb (bool_decide (ctype slot = TYPE_DUALSENSE)) then fail slot
      else (slot {{ player_leds := u8 p; led_dirty := true }}, 0)
  end.

Definition cmd_layout (slot : controller_t) (argv : list string) : result :=
  match argv with
  | [] => fail slot
  | a :: _ =>
      let nsw := bool_decide (ctype slot = TYPE_NSW_PRO) in
      if String.eqb a "switch" then
        if negb nsw then fail slot else (slot {{ request_switch_layout := true }}, 0)
      else if String.eqb a "xbox" then
        if negb nsw then fail slot else (slot {{ request_xbox_layout := true }}, 0)
      else fail slot
  end.

Definition slot_commands : list (string * (controller_t -> list string -> result)) :=
  [ ("color", cmd_color); ("emulation", cmd_emulation); ("uhid", cmd_uhid); ("keybind", cmd_keybind);
    ("keymap", cmd_keymap); ("reset-keybinds", cmd_reset_all_keybinds); ("invert", cmd_invert);
    ("sensitivity", cmd_sensitivity); ("triggers-digital", cmd_triggers_digital);
    ("ledfx", cmd_ledfx); ("brightness", cmd_brightness); ("deadzone", cmd_deadzone);
    ("gain", cmd_gain); ("rumble", cmd_rumble); ("debounce", cmd_debounce);
    ("reapply", cmd_reapply); ("pled", cmd_pled); ("layout", cmd_layout) ]%string.

Definition execute_slot_command (slot : controller_t) (cmd_name : string) (cmd_argv : list string)
  : result :=
  match find (fun sc => String.eqb (fst sc) cmd_name) slot_commands with
  | Some sc => snd sc slot cmd_argv
  | None => fail slot
  end.

(** ** Batch mode *)

Definition is_option (s : string) : bool := String.eqb (substring 0 2 s) "--".
Definition option_name (s : string) : string := substring 2 (String.length s - 2) s.

(** The arguments up to the next option, and the rest. *)
Fixpoint span_args (l : list string) : list string * list string :=
  match l with
  | [] => ([], [])
  | a :: l' => if is_option a then ([], l) else let (x, y) := span_args l' in (a :: x, y)
  end.

(** The loop over the tokens; one unit of fuel per command. *)
Fixpoint batch (fuel : nat) (slot : controller_t) (args : list string) (ret : Z) : option result :=
  match args, fuel with
  | [], _ => Some (slot, ret)
  | _, O => None
  | a :: rest, S fuel =>
      if negb (is_option a) then Some (slot, 1)
      else
        let (cmd_argv, rest) := span_args rest in
        let (slot, cmd_ret) := execute_slot_command slot (option_name a) cmd_argv in
        batch fuel slot rest (if negb (cmd_ret =? 0) then cmd_ret else ret)
  end.

(** The commands given for a slot, after its number. *)
Definition slot_cli (slot : controller_t) (args : list string) : option result :=
  match args with
  | [] => Some (fail slot)
  | [a] =>
      if is_option a then batch 1 slot args 0
      else if (String.length a =? 6)%nat && forallb isxdigit (list_ascii_of_string a)
      then Some (cmd_color slot [a])
      else match find (fun sc => String.eqb (fst sc) a) slot_commands with
           | Some sc => Some (snd sc slot [])
           | None => Some (fail slot)
           end
  | _ => batch (length args) slot args 0
  end.

(** ** Global commands *)

Section global.
(** What the daemon does to the shared memory while a request waits. *)
Context (env : nat -> shared_data_t -> shared_data_t).

Definition cmd_profile (shm : shared_data_t) (argv : list string) : shared_data_t * Z :=
  let send req name :=
    let '(shm, ok, _) := profile_request_sync env req name (-1) (-1) 4096 shm in
    (shm, if ok : bool then 0 else 1) in
  match argv with
  | [] => (shm, 1)
  | sub :: rest =>
      if String.eqb sub "list" then send 4 None
      else if String.eqb sub "load" || String.eqb sub "save" || String.eqb sub "delete" then
        match rest with
        | [] => (shm, 1)
        | name :: _ =>
            send (if String.eqb sub "load" then 1 else if String.eqb sub "save" then 2 else 3) (Some name)
        end
      else (shm, 1)
  end.

Definition cmd_auto_save (shm : shared_data_t) (argv : list string) : shared_data_t * Z :=
  let send enable delay :=
    let '(shm, ok, _) := profile_request_sync env 5 None enable delay 512 shm in
    (shm, if ok : bool then 0 else 1) in
  match argv with
  | [] => (shm, 1)
  | sub :: rest =>
      if String.eqb sub "on" then send 1 (-1)
      else if String.eqb sub "off" then send 0 (-1)
      else if String.eqb sub "delay" then
        match rest with
        | [] => (shm, 1)
        | a :: _ =>
            let delay := atoi a in
            if (delay <? 100) || (10000 <? delay) then (shm, 1) else send (-1) delay
        end
      else (shm, 1)
  end.

(** The slot number the first argument gives, if it does. *)
Definition slot_arg (first : string) : option Z :=
  let (slot_num, rest) := strtol first in
  if String.eqb rest EmptyString && (0 <=? slot_num) && (slot_num <? Z.of_nat MAX_SLOTS)
  then Some slot_num else None.

(** The entry point, with the arguments after the program's name (there is at
    least one); [connects] and [alive] are the results of [try_connect_shm] and
    [is_daemon_alive].  A trailing [--wait] is dropped; the first argument is
    read even if it was that one. *)
Definition process_cli_command (connects alive : bool) (argv : list string) (shm : shared_data_t)
  : option (shared_data_t * Z) :=
  match argv with
  | [] => None
  | first :: _ =>
      let args := if bool_decide (last argv = Some "--wait"%string)
                  then removelast argv else argv in
      if negb connects then Some (shm, 1)
      else if negb (magic shm =? SHM_MAGIC_VALUE) then Some (shm, 1)
      else if negb alive then Some (shm, 1)
      else if String.eqb first "help" || String.eqb first "--help" || String.eqb first "-h"
      then Some (shm, 0)
      else
        match slot_arg first with
        | Some idx =>
            if negb (connected (get_slot shm idx)) then Some (shm, 1)
            else '(slot, ret) ← slot_cli (get_slot shm idx) (tl args); Some (put_slot shm idx slot, ret)
        | None =>
            if String.eqb first "slots" then Some (shm, 0)
            else if String.eqb first "profile" then Some (cmd_profile shm (tl args))
            else if String.eqb first "auto-save" then Some (cmd_auto_save shm (tl args))
            else Some (shm, 1)
        end
  end.
End global.

(** * Specification and lemmas *)

(** The slot's persistent configuration is in range. *)
Definition config_ok (slot : controller_t) : Prop := cfg_ok (controller_to_slot_config slot).

(** A handler keeps the configuration in range, and the life of the slot, and
    answers 0 or 1, 1 only without effect. *)
Definition handler_ok (h : controller_t -> list string -> result) : Prop :=
  forall slot argv,
    let (slot', ret) := h slot argv in
    (config_ok slot -> config_ok slot') /\ same_life slot slot' /\ (ret = 0 \/ (ret = 1 /\ slot' = slot)).

Ltac handler_done :=
  split; [first [done | intros (?&?&?&?&?&?&?&?); repeat (split; [assumption|]); assumption] | by split; [split | auto]].

Ltac handler_cases :=
  repeat match goal with
  | |- context [match ?l with [] => _ | _ :: _ => _ end] => destruct l; cbv beta iota zeta
  | |- context [if ?b then _ else _] => destruct b eqn:?; cbv beta iota zeta
  end.

Lemma scan_color_u8 r g b slot :
  config_ok slot ->
  config_ok (slot {{ led_base_r := u8 r; led_base_g := u8 g; led_base_b := u8 b;
                     led_r := u8 r; led_g := u8 g; led_b := u8 b;
                     led_static := true; led_request_pending := false; led_dirty := true }}).
Proof.
  intros (_ & H). split; [|exact H].
  assert (forall v, 0 <= u8 v <= 255) as U by (intros v; pose proof (u8_range v); lia).
  unfold controller_to_slot_config.
  cbn [cfg_led_r cfg_led_g cfg_led_b cfg_led_base_r cfg_led_base_g cfg_led_base_b].
  forall_list; first [exact (U r) | exact (U g) | exact (U b)].
Qed.

Lemma cmd_color_ok : handler_ok cmd_color.
Proof.
  intros slot argv. unfold cmd_color. destruct argv as [|a argv]; [handler_done|].
  destruct (scan_color a) as [[[r g] b]|]; [|handler_done].
  split; [apply scan_color_u8 | by split; [split | auto]].
Qed.

Lemma flags_ok :
  handler_ok cmd_emulation /\ handler_ok cmd_uhid /\ handler_ok cmd_keymap /\
  handler_ok cmd_reset_all_keybinds /\ handler_ok cmd_invert /\ handler_ok cmd_triggers_digital /\
  handler_ok cmd_rumble /\ handler_ok cmd_debounce /\ handler_ok cmd_reapply /\ handler_ok cmd_layout.
Proof.
  repeat match goal with |- _ /\ _ => split end; intros slot argv;
    unfold cmd_emulation, cmd_uhid, cmd_keymap, cmd_reset_all_keybinds, cmd_invert,
      cmd_triggers_digital, cmd_rumble, cmd_debounce, cmd_reapply, cmd_layout, fail;
    cbv zeta; handler_cases; (split; [exact (fun H => H) | by split; [split | auto]]).
Qed.

Lemma cmd_keybind_ok : handler_ok cmd_keybind.
Proof.
  intros slot argv. unfold cmd_keybind.
  destruct argv as [|a [|b argv]]; [handler_done | handler_done|]. cbv zeta.
  destruct (_ || _) eqn:E; [handler_done|]. zprop.
  split; [|by split; [split | auto]]. intros (C1 & C2 & C3 & C4 & C5 & C6 & C7 & C8).
  do 7 (split; [assumption|]).
  apply (keymap_ok_aset (keymap slot) (atoi a) (u8 (atoi b)) C8).
  unfold LOGICAL_BTN_COUNT in *. rewrite u8_small by lia. lia.
Qed.

Lemma cmd_sensitivity_ok : handler_ok cmd_sensitivity.
Proof.
  intros slot argv. unfold cmd_sensitivity, apply_sensitivity_preset_left, apply_sensitivity_preset_right.
  destruct argv as [|w [|a argv]]; cbv zeta; [handler_done | handler_cases; handler_done |].
  destruct (String.eqb w "status"); [handler_done|].
  destruct (_ || _) eqn:E; [handler_done|]. zprop.
  assert (0 <= u8 (atoi a) < SENS_PRESET_COUNT) as Hu
    by (unfold SENS_PRESET_COUNT in *; rewrite u8_small by lia; lia).
  handler_cases; handler_done.
Qed.

Lemma effect_byte e : 0 <= e < LEDFX_COUNT -> 0 <= to_uint8 e < LEDFX_COUNT.
Proof. intros H. rewrite to_uint8_small by (unfold LEDFX_COUNT in H; lia). exact H. Qed.

Lemma cmd_ledfx_ok : handler_ok cmd_ledfx.
Proof.
  intros slot argv. unfold cmd_ledfx. destruct argv as [|a rest]; [handler_done|]. cbv zeta.
  destruct (_ || _) eqn:E; [handler_done|]. zprop.
  set (sp := match rest with [] => 5 | s :: _ => u8 (atoi s) end). clearbody sp.
  set (br := match rest with _ :: b :: _ => u8 (atoi b) | _ => 80 end). clearbody br.
  set (speed := if (sp <? 1) || (10 <? sp) then 5 else sp).
  assert (1 <= speed <= 10) as Hs by (unfold speed; zcases).
  set (bright := if (br <? 1) || (100 <? br) then 80 else br).
  assert (0 <= bright <= 100) as Hb by (unfold bright; zcases). clearbody speed bright.
  destruct (atoi a =? 0); (split; [|by split; [split | auto]]); intros (C1 & C2 & C3 & C4 & C5 & C6 & C7 & C8).
  - split; [|by repeat (split; [assumption|])].
    repeat match goal with H : Forall _ (_ :: _) |- _ => apply Forall_cons_1 in H as [? H] end.
    forall_list; assumption.
  - split; [exact C1|]. split.
    + repeat match goal with H : Forall _ (_ :: _) |- _ => apply Forall_cons_1 in H as [? H] end.
      forall_list; first [assumption | exact Hb].
    + do 3 (split; [assumption|]). split; [exact (effect_byte (atoi a) ltac:(split; assumption))|]. split; [exact Hs | exact C8].
Qed.

Lemma percent_ok set :
  (forall v slot, 0 <= v <= 100 -> config_ok slot -> config_ok (set v slot)) ->
  (forall v slot, same_life slot (set v slot)) ->
  handler_ok (cmd_percent set).
Proof.
  intros Hc Hl slot argv. unfold cmd_percent. destruct argv as [|a argv]; [handler_done|]. cbv zeta.
  destruct (_ || _) eqn:E; [handler_done|]. zprop.
  split; [apply Hc; rewrite u8_small by lia; lia | by split; [apply Hl | left]].
Qed.

Lemma percents_ok : handler_ok cmd_brightness /\ handler_ok cmd_deadzone /\ handler_ok cmd_gain.
Proof.
  split; [|split]; (apply percent_ok; [|by intros]); intros v slot Hv (C1 & C2 & C3);
    (split; [exact C1|]); (split; [|exact C3]);
    repeat match goal with H : Forall _ (_ :: _) |- _ => apply Forall_cons_1 in H as [? H] end;
    forall_list; first [assumption | exact Hv].
Qed.

Lemma cmd_pled_ok : handler_ok cmd_pled.
Proof.
  intros slot argv. unfold cmd_pled. destruct argv as [|a argv]; [handler_done|]. cbv zeta.
  destruct (_ || _) eqn:E; [handler_done|]. zprop.
  destruct (negb _); [handler_done|]. split; [|by split; [split | auto]].
  intros (C1 & C2 & C3 & C4). split; [exact C1|]. split; [exact C2|]. split; [|exact C4].
  assert (0 <= u8 (atoi a) <= 5) as Hu by (rewrite u8_small by lia; lia). exact Hu.
Qed.

Lemma slot_commands_ok : Forall (fun sc => handler_ok (snd sc)) slot_commands.
Proof.
  destruct flags_ok as (?&?&?&?&?&?&?&?&?&?). destruct percents_ok as (?&?&?).
  unfold slot_commands. forall_list; cbn [snd];
    first [assumption | apply cmd_color_ok | apply cmd_keybind_ok | apply cmd_sensitivity_ok
          | apply cmd_ledfx_ok | apply cmd_pled_ok].
Qed.

(** What a handler keeps, and the exit codes. *)
Definition slot_kept (slot slot' : controller_t) : Prop :=
  (config_ok slot -> config_ok slot') /\ same_life slot slot'.

#[export] Instance slot_kept_refl : Reflexive slot_kept.
Proof. by split. Qed.
#[export] Instance slot_kept_trans : Transitive slot_kept.
Proof. intros a b c [? H1] [? H2]. split; [auto | exact (transitivity H1 H2)]. Qed.
Lemma slot_kept_type a b : slot_kept a b -> ctype b = ctype a.
Proof. by intros (_ & _ & _ & H & _). Qed.

(** An update of members that are not configuration, and one of members that are. *)
Ltac frame_but_config := split; [|repeat split; reflexivity].
Ltac frame_done := frame_but_config; exact id.
Ltac frame_cases := repeat case_match; frame_done.

Lemma command_kept sc slot argv :
  In sc slot_commands ->
  slot_kept slot (snd sc slot argv).1 /\
  ((snd sc slot argv).2 = 0 \/ ((snd sc slot argv).2 = 1 /\ (snd sc slot argv).1 = slot)).
Proof.
  intros Hin. pose proof slot_commands_ok as H. rewrite List.Forall_forall in H.
  specialize (H sc Hin slot argv). destruct (snd sc slot argv) as [slot' ret]. cbn [fst snd].
  destruct H as (? & ? & ?). by split; [split|].
Qed.

Lemma execute_kept slot name argv :
  slot_kept slot (execute_slot_command slot name argv).1 /\
  ((execute_slot_command slot name argv).2 = 0 \/ (execute_slot_command slot name argv).2 = 1).
Proof.
  unfold execute_slot_command. destruct (find _ slot_commands) as [sc|] eqn:E.
  - apply find_some in E as [Hin _]. destruct (command_kept sc slot argv Hin) as [? [?|[? _]]]; auto.
  - split; [apply slot_kept_refl | by right].
Qed.

Lemma span_args_length l : (length (span_args l).2 <= length l)%nat.
Proof.
  induction l as [|a l IH]; [done|]. cbn [span_args]. destruct (is_option a); [done|].
  destruct (span_args l). cbn [snd length] in *. lia.
Qed.

(** The loop ends, with a unit of fuel per token. *)
Lemma batch_total fuel slot args ret :
  (length args <= fuel)%nat -> ret = 0 \/ ret = 1 ->
  exists slot' ret', batch fuel slot args ret = Some (slot', ret') /\ slot_kept slot slot' /\
    (ret' = 0 \/ ret' = 1).
Proof.
  revert slot args ret. induction fuel as [|fuel IH]; intros slot [|a rest] ret Hl Hr;
    try (by exists slot, ret; split; [|split; [apply slot_kept_refl|]]); [cbn in Hl; lia|].
  cbn [batch]. destruct (is_option a); cbn [negb];
    [|by exists slot, 1; split; [|split; [apply slot_kept_refl | right]]].
  pose proof (span_args_length rest) as Hlen. destruct (span_args rest) as [cargs rest'].
  destruct (execute_kept slot (option_name a) cargs) as [Hk Hc].
  destruct (execute_slot_command slot (option_name a) cargs) as [slot1 cr]. cbn [fst snd] in *.
  destruct (IH slot1 rest' (if negb (cr =? 0) then cr else ret)) as (slot' & ret' & Hb & Hk' & Hr').
  - cbn [length] in Hl. lia.
  - destruct (cr =? 0); auto.
  - exists slot', ret'. split; [done|]. split; [by eapply slot_kept_trans | done].
Qed.

Lemma slot_cli_total slot args :
  exists slot' ret, slot_cli slot args = Some (slot', ret) /\ slot_kept slot slot' /\
    (ret = 0 \/ ret = 1).
Proof.
  assert (exists slot' ret, Some (fail slot) = Some (slot', ret) /\ slot_kept slot slot' /\
    (ret = 0 \/ ret = 1)) as Hfail.
  { exists slot, 1. split; [done|]. split; [apply slot_kept_refl | by right]. }
  destruct args as [|a [|b args]]; cbn [slot_cli]; [done | |].
  - destruct (is_option a); [by apply batch_total; [|left]|].
    destruct ((_ =? _)%nat && _).
    + destruct (command_kept ("color"%string, cmd_color) slot [a]) as [Hk Hr]; [by left|]. cbn [snd] in *.
      destruct (cmd_color slot [a]) as [slot' ret]. exists slot', ret.
      split; [done|]. split; [done|]. destruct Hr as [?|[? _]]; auto.
    + destruct (find _ slot_commands) as [sc|] eqn:E; [|done]. apply find_some in E as [Hin _].
      destruct (command_kept sc slot [] Hin) as [Hk Hr]. destruct (snd sc slot []) as [slot' ret].
      exists slot', ret. split; [done|]. split; [done|]. destruct Hr as [?|[? _]]; auto.
  - apply batch_total; [done | by left].
Qed.

(** * Properties *)

(** The command line cannot put a slot out of range: whatever the arguments,
    a command for a slot returns 0 or 1; it leaves every other slot as it was,
    does nothing when the slot is not connected, and if the persistent
    configuration of the slot was in range it still is. *)
Theorem cli_keeps_config_ok env connects alive argv shm idx :
  length (slots shm) = MAX_SLOTS -> slot_arg (hd EmptyString argv) = Some idx -> argv <> [] ->
  exists shm' ret, process_cli_command env connects alive argv shm = Some (shm', ret) /\
    (ret = 0 \/ ret = 1) /\
    (forall j, 0 <= j < Z.of_nat MAX_SLOTS -> j <> idx -> get_slot shm' j = get_slot shm j) /\
    (connected (get_slot shm idx) = false -> shm' = shm) /\
    (config_ok (get_slot shm idx) -> config_ok (get_slot shm' idx)) /\
    connected (get_slot shm' idx) = connected (get_slot shm idx).
Proof.
  intros Hl Hs Hne. destruct argv as [|first rest]; [done|]. cbn [hd] in Hs.
  assert (0 <= idx < Z.of_nat MAX_SLOTS) as Hidx.
  { unfold slot_arg in Hs. destruct (strtol first) as [n s].
    destruct (String.eqb s EmptyString); [|done]. cbn [andb] in Hs.
    destruct (Z.leb_spec 0 n), (Z.ltb_spec n (Z.of_nat MAX_SLOTS)); try done. injection Hs as <-. lia. }
  unfold process_cli_command. rewrite Hs.
  assert (forall r, r = 0 \/ r = 1 -> exists shm' ret, Some (shm, r) = Some (shm', ret) /\
    (ret = 0 \/ ret = 1) /\
    (forall j, 0 <= j < Z.of_nat MAX_SLOTS -> j <> idx -> get_slot shm' j = get_slot shm j) /\
    (connected (get_slot shm idx) = false -> shm' = shm) /\
    (config_ok (get_slot shm idx) -> config_ok (get_slot shm' idx)) /\
    connected (get_slot shm' idx) = connected (get_slot shm idx)) as Hstay
    by (intros r Hr; by exists shm, r).
  destruct connects; cbn [negb]; [|by apply Hstay; right].
  destruct (magic shm =? SHM_MAGIC_VALUE); cbn [negb]; [|by apply Hstay; right].
  destruct alive; cbn [negb]; [|by apply Hstay; right].
  destruct (_ || _ || _); [by apply Hstay; left|].
  destruct (connected (get_slot shm idx)) eqn:Ec; cbn [negb]; [|by apply Hstay; right].
  set (args := tl _). clearbody args.
  destruct (slot_cli_total (get_slot shm idx) args) as (slot' & ret & -> & (Hc & Hk & _) & Hr).
  exists (put_slot shm idx slot'), ret. cbn [mbind option_bind].
  split; [done|]. split; [done|]. split; [intros j Hj Hn; apply get_put_slot_ne; lia|].
  rewrite get_put_slot_eq by lia. split; [done|]. split; [done|]. by rewrite Hk.
Qed.

Definition cli_shm : shared_data_t :=
  mk_shared_data SHM_MAGIC_VALUE
    (repeat (zero_controller {{ connected := true }}) MAX_SLOTS) false 7 9 false 0 0
    EmptyString 0 EmptyString 1 2000 EmptyString.

Example cli_keeps_config_ok_witness :
  exists shm' ret,
    process_cli_command (fun _ s => s) true true ["2"; "--deadzone"; "15"; "--gain"; "300"]%string cli_shm
      = Some (shm', ret) /\ (ret = 0 \/ ret = 1) /\ get_slot shm' 1 = get_slot cli_shm 1.
Proof.
  destruct (cli_keeps_config_ok (fun _ s => s) true true
    ["2"; "--deadzone"; "15"; "--gain"; "300"]%string cli_shm 2 eq_refl eq_refl ltac:(discriminate))
    as (shm' & ret & E & Hr & Hj & _).
  exists shm', ret. split; [exact E|]. split; [exact Hr|].
  apply Hj; [unfold MAX_SLOTS; lia | discriminate].
Defined.

(** The examples of the help text without dashes are refused: with more than one
    word after the slot number the batch mode expects options. *)
Lemma documented_color_refused :
  process_cli_command (fun _ s => s) true true ["0"; "color"; "ff0000"]%string cli_shm =
    Some (put_slot cli_shm 0 (get_slot cli_shm 0), 1) /\
  process_cli_command (fun _ s => s) true true ["1"; "sensitivity"; "left"; "2"]%string cli_shm =
    Some (put_slot cli_shm 1 (get_slot cli_shm 1), 1).
Proof. split; vm_compute; reflexivity. Qed.

(** [invert status] needs another word. *)
Lemma invert_status_refused slot : cmd_invert slot ["status"]%string = (slot, 1).
Proof. reflexivity. Qed.
