(* ===== verification/Bridge.v ===== *)
(** * The D-Bus bridge's view of the daemon ([dbus-utils.c], [dbus-monitor.c])

    Snapshots of the slots, the detection of changes, the rate limits, and the
    turn of the monitor thread that turns them into signals.  Sending a signal
    is an output of the turn. *)

From S2P Require Import Prelude Types Utils.
Local Open Scope Z_scope.

Definition TELEMETRY_MIN_INTERVAL_US : Z := 16666.
Definition BUTTON_MIN_INTERVAL_US : Z := 33333.
Definition AXIS_MIN_INTERVAL_US : Z := 16666.
Definition CONTROLLER_UPDATE_INTERVAL_US : Z := 100000.

(** [should_emit_signal], at the time it reads. *)
Definition should_emit_signal (now_us last_emit min_interval_us : Z) : bool :=
  min_interval_us <=? u64 (now_us - last_emit).

(** ** Snapshots *)

Definition button_fields (c : controller_t) : list Z :=
  [cross c; circle c; square c; triangle c; L1 c; R1 c; L2 c; R2 c; Share c; Options c;
   L3 c; R3 c; PS c; touch_btn c].

Definition pack_buttons (c : controller_t) : Z :=
  fold_left (fun buttons kv => if truthy (snd kv) then Z.lor buttons (Z.shiftl 1 (Z.of_nat (fst kv))) else buttons)
    (combine (seq 0 14) (button_fields c)) 0.

Definition copy_controller_state (dst src : controller_t) : controller_t :=
  dst {{ LX := LX src; LY := LY src; RX := RX src; RY := RY src; LT := LT src; RT := RT src;
         HATX := HATX src; HATY := HATY src;
         square := square src; cross := cross src; circle := circle src; triangle := triangle src;
         L1 := L1 src; R1 := R1 src; L2 := L2 src; R2 := R2 src; Share := Share src;
         Options := Options src; L3 := L3 src; R3 := R3 src; PS := PS src; touch_btn := touch_btn src;
         battery := battery src;
         dpad_up := dpad_up src; dpad_down := dpad_down src; dpad_left := dpad_left src;
         dpad_right := dpad_right src;
         is_bluetooth := is_bluetooth src; ctype := ctype src; uinput_fd := uinput_fd src;
         uhid_fd := uhid_fd src; uhid_output_buf := uhid_output_buf src;
         led_r := led_r src; led_g := led_g src; led_b := led_b src;
         led_base_r := led_base_r src; led_base_g := led_base_g src; led_base_b := led_base_b src;
         rumble_weak := rumble_weak src; rumble_strong := rumble_strong src;
         rumble_gain := rumble_gain src; deadzone := deadzone src;
         debounce_enabled := debounce_enabled src;
         global_led_brightness := global_led_brightness src; output_seq := output_seq src;
         external_retry_count := external_retry_count src;
         last_external_retry := last_external_retry src;
         active_effect_id := active_effect_id src; active_effect_type := active_effect_type src;
         ff_effects := ff_effects src; periodic_effects := periodic_effects src;
         effect_type := effect_type src; debounce := debounce src; keymap := keymap src;
         connected := connected src; emulate_active := emulate_active src; is_uhid := is_uhid src;
         uhid_output_pending := uhid_output_pending src; led_dirty := led_dirty src;
         rumble_dirty := rumble_dirty src; writing_output := writing_output src;
         led_static := led_static src; led_request_pending := led_request_pending src;
         led_reapply := led_reapply src; rumble_active := rumble_active src;
         invert_ly := invert_ly src; invert_ry := invert_ry src;
         is_trigger_digital := is_trigger_digital src;
         sensitivity_left_preset := sensitivity_left_preset src;
         sensitivity_right_preset := sensitivity_right_preset src; player_leds := player_leds src;
         led_request_speed := led_request_speed src;
         led_request_brightness := led_request_brightness src;
         led_request_effect := led_request_effect src; effect_phase := effect_phase src;
         dev_path := strn 127 (dev_path src); product_name := strn 127 (product_name src);
         uniq := strn 63 (uniq src); driver := strn 31 (driver src);
         num_input_nodes := num_input_nodes src;
         input_nodes := take (Z.to_nat (num_input_nodes src)) (input_nodes src) ++
                        drop (Z.to_nat (num_input_nodes src)) (input_nodes dst) }}.

(** ** Comparisons *)

(** The members the code compares, in its order. *)
Definition telemetry (c : controller_t) : list Z :=
  [LX c; LY c; RX c; RY c; LT c; RT c; HATX c; HATY c; square c; cross c; circle c; triangle c;
   L1 c; R1 c; L2 c; R2 c; Share c; Options c; L3 c; R3 c; PS c; touch_btn c;
   dpad_up c; dpad_down c; dpad_left c; dpad_right c].

Definition telemetry_changed (a b : controller_t) : bool :=
  existsb (fun p => negb (fst p =? snd p)) (combine (telemetry a) (telemetry b)).

Definition config_numbers (c : controller_t) : list Z :=
  [led_r c; led_g c; led_b c; rumble_gain c; deadzone c; global_led_brightness c; player_leds c;
   b2z (debounce_enabled c); b2z (emulate_active c); b2z (is_uhid c); b2z (led_reapply c);
   b2z (rumble_active c); b2z (invert_ly c); b2z (invert_ry c); b2z (is_trigger_digital c);
   sensitivity_left_preset c; sensitivity_right_preset c].

Definition config_changed (a b : controller_t) : bool :=
  if existsb (fun p => negb (fst p =? snd p)) (combine (config_numbers a) (config_numbers b))
  then true
  else if negb (bool_decide (keymap a = keymap b)) then true
  else false.

(** ** The monitor *)

Record rate_limit_t := mk_rate_limit {
  last_telemetry_us : Z; last_button_us : Z; last_axis_us : Z; last_controller_update_us : Z
}.
Definition zero_rate : rate_limit_t := mk_rate_limit 0 0 0 0.

Inductive bridge_signal : Set :=
| ControllerConnected (slot : Z)
| ControllerDisconnected (slot : Z)
| ControllerUpdated (slot : Z)
| TelemetryUpdate (slot : Z) (axes : list Z) (buttons : Z)
| ButtonUpdate (slot : Z) (buttons : Z)
| AxisUpdate (slot : Z) (axes : list Z)
| DaemonStatusChanged (alive : bool).

Definition axes_of (c : controller_t) : list Z :=
  [LX c; LY c; RX c; RY c; LT c; RT c; HATX c; HATY c].

(** The bridge's copy of a slot, the copy of the previous turn and the times of
    the last signals. *)
Record slot_view := mk_view { view_dst : controller_t; view_prev : controller_t; view_rate : rate_limit_t }.

(** The part of a turn for slot [i].  [clk k] is the time of the [k]th reading
    of the clock in the text of the loop body. *)
Definition monitor_slot (clk : nat -> Z) (i : Z) (src : controller_t) (v : slot_view)
  : slot_view * list bridge_signal :=
  let dst := copy_controller_state (view_dst v) src in
  let prev := view_prev v in
  let rate := view_rate v in
  let out_conn :=
    if negb (Bool.eqb (connected dst) (connected prev))
    then [if connected dst then ControllerConnected i else ControllerDisconnected i] else [] in
  let '(rate, out_conf) :=
    if connected dst && config_changed dst prev &&
       should_emit_signal (clk 1%nat) (last_controller_update_us rate) CONTROLLER_UPDATE_INTERVAL_US
    then (mk_rate_limit (last_telemetry_us rate) (last_button_us rate) (last_axis_us rate) (clk 0%nat),
          [ControllerUpdated i])
    else (rate, []) in
  let '(rate, out_tele) :=
    if connected dst then
      let buttons := pack_buttons dst in
      let buttons_changed := negb (buttons =? pack_buttons prev) in
      let axes_changed := telemetry_changed dst prev in
      if buttons_changed || axes_changed then
        let now_us := clk 2%nat in
        let '(rate, o1) :=
          if should_emit_signal (clk 3%nat) (last_telemetry_us rate) TELEMETRY_MIN_INTERVAL_US
          then (mk_rate_limit now_us (last_button_us rate) (last_axis_us rate)
                  (last_controller_update_us rate), [TelemetryUpdate i (axes_of dst) buttons])
          else (rate, []) in
        let '(rate, o2) :=
          if buttons_changed &&
             should_emit_signal (clk 4%nat) (last_button_us rate) BUTTON_MIN_INTERVAL_US
          then (mk_rate_limit (last_telemetry_us rate) now_us (last_axis_us rate)
                  (last_controller_update_us rate), [ButtonUpdate i buttons])
          else (rate, []) in
        let '(rate, o3) :=
          if axes_changed &&
             should_emit_signal (clk 5%nat) (last_axis_us rate) AXIS_MIN_INTERVAL_US
          then (mk_rate_limit (last_telemetry_us rate) (last_button_us rate) now_us
                  (last_controller_update_us rate), [AxisUpdate i (axes_of dst)])
          else (rate, []) in
        (rate, o1 ++ o2 ++ o3)
      else (rate, [])
    else (rate, []) in
  (mk_view dst (copy_controller_state prev dst) rate, out_conn ++ out_conf ++ out_tele).

Definition zero_view : slot_view := mk_view zero_controller zero_controller zero_rate.

Record monitor_state := mk_monitor {
  m_views : list slot_view;
  daemon_alive : bool;
  prev_daemon_alive : bool;
  last_alive_state : bool;
  mapped : bool;
  last_heartbeat : Z;
  last_heartbeat_time : timeval
}.

(** The slots of an online turn. *)
Definition monitor_slots (clk : Z -> nat -> Z) (shm : shared_data_t) (views : list slot_view)
  : list slot_view * list bridge_signal :=
  fold_idx (fun i acc =>
    let (v, out) := monitor_slot (clk i) i (get_slot shm i) (aget zero_view (fst acc) i) in
    (aset (fst acc) i v, snd acc ++ out)) MAX_SLOTS (views, []).

(** Is the daemon online: the heartbeat moved within a second and the process
    exists. *)
Definition heartbeat_alive (m : monitor_state) (now : timeval) (shm : shared_data_t) (pid_exists : bool)
  : monitor_state * bool :=
  let hb := heartbeat shm in
  let '(m, alive) :=
    if negb (hb =? last_heartbeat m)
    then (mk_monitor (m_views m) (daemon_alive m) (prev_daemon_alive m) (last_alive_state m) (mapped m) hb now, true)
    else
      let diff_ms := (tv_sec now - tv_sec (last_heartbeat_time m)) * 1000 +
                     Z.quot (tv_usec now - tv_usec (last_heartbeat_time m)) 1000 in
      (m, diff_ms <=? 1000) in
  (m, alive && negb ((daemon_pid shm <=? 0) || negb pid_exists)).

(** One turn.  [memory] is the shared memory if it can be mapped and is valid,
    which a monitor that has it mapped keeps. *)
Definition monitor_turn (clk : Z -> nat -> Z) (now : timeval) (pid_exists : bool)
  (memory : option shared_data_t) (m : monitor_state) : monitor_state * list bridge_signal :=
  match memory with
  | Some shm =>
      let (m, alive) := heartbeat_alive m now shm pid_exists in
      if alive then
        let (views, out) := monitor_slots clk shm (m_views m) in
        let first := negb (last_alive_state m) && negb (prev_daemon_alive m) in
        (mk_monitor views true (if first then true else prev_daemon_alive m) true true
           (last_heartbeat m) (last_heartbeat_time m),
         out ++ (if first then [DaemonStatusChanged true] else []))
      else
        let down := last_alive_state m && prev_daemon_alive m in
        (mk_monitor
           (if last_alive_state m
            then map (fun v => mk_view (view_dst v) zero_controller zero_rate) (m_views m)
            else m_views m)
           false (if down then false else prev_daemon_alive m) false false
           (last_heartbeat m) (last_heartbeat_time m),
         if down then [DaemonStatusChanged false] else [])
  | None =>
      let down := last_alive_state m && prev_daemon_alive m in
      (mk_monitor (m_views m) false (if down then false else prev_daemon_alive m) false false
         (last_heartbeat m) (last_heartbeat_time m),
       if down then [DaemonStatusChanged false] else [])
  end.

(** * Specification *)

(** A run of online turns. *)
Fixpoint monitor_run (turns : list ((Z -> nat -> Z) * shared_data_t)) (views : list slot_view)
  : list slot_view * list bridge_signal :=
  match turns with
  | [] => (views, [])
  | (clk, shm) :: turns =>
      let (views, out) := monitor_slots clk shm views in
      let (views, out') := monitor_run turns views in
      (views, out ++ out')
  end.

(** The connection signals of slot [i] a listener should see. *)
Fixpoint edges (i : Z) (before : bool) (l : list bool) : list bridge_signal :=
  match l with
  | [] => []
  | c :: l =>
      (if Bool.eqb c before then [] else [if c then ControllerConnected i else ControllerDisconnected i]) ++
      edges i c l
  end.

Definition is_connection (i : Z) (s : bridge_signal) : bool :=
  match s with ControllerConnected j | ControllerDisconnected j => j =? i | _ => false end.

Definition is_telemetry (i : Z) (s : bridge_signal) : bool :=
  match s with TelemetryUpdate j _ _ => j =? i | _ => false end.

(** When slot [i]'s telemetry was sent during a run: the reading of the clock
    just before each signal ([now_us]). *)
Fixpoint telemetry_times (i : Z) (turns : list ((Z -> nat -> Z) * shared_data_t)) (views : list slot_view)
  : list Z :=
  match turns with
  | [] => []
  | (clk, shm) :: turns =>
      let (views, out) := monitor_slots clk shm views in
      (if existsb (is_telemetry i) out then [clk i 2%nat] else []) ++ telemetry_times i turns views
  end.

Definition view_at (views : list slot_view) (i : Z) : slot_view := aget zero_view views i.

(** ** Lemmas *)

Lemma pair_changed l l' :
  length l = length l' ->
  existsb (fun p : Z * Z => negb (fst p =? snd p)) (combine l l') = false <-> l = l'.
Proof.
  revert l'. induction l as [|x l IH]; intros [|y l'] Hl; try done.
  cbn [combine existsb fst snd]. injection Hl as Hl. rewrite orb_false_iff, (IH l' Hl).
  destruct (Z.eqb_spec x y) as [->|Hne]; cbn [negb]; split.
  - by intros [_ ->].
  - by intros [= ->].
  - by intros [? _].
  - by intros [= ? _].
Qed.

Lemma telemetry_changed_false a b : telemetry_changed a b = false <-> telemetry a = telemetry b.
Proof. by apply pair_changed. Qed.

(** The packed buttons are a function of the telemetry. *)
Lemma pack_telemetry a b : telemetry a = telemetry b -> pack_buttons a = pack_buttons b.
Proof.
  intros H. unfold pack_buttons. f_equal. f_equal. unfold telemetry in H. unfold button_fields.
  injection H as ? ? ? ? ? ? ? ? ? ? ? ? ? ? ? ? ? ? ? ? ? ? ? ? ? ?. congruence.
Qed.

Lemma copy_telemetry dst src : telemetry (copy_controller_state dst src) = telemetry src.
Proof. reflexivity. Qed.
Lemma copy_config dst src :
  controller_to_slot_config (copy_controller_state dst src) = controller_to_slot_config src.
Proof. reflexivity. Qed.
Lemma copy_connected dst src : connected (copy_controller_state dst src) = connected src.
Proof. reflexivity. Qed.

(** The signals of one slot in one turn, and the view afterwards. *)
Lemma monitor_slot_view clk i src v :
  telemetry (view_dst (monitor_slot clk i src v).1) = telemetry src /\
  controller_to_slot_config (view_dst (monitor_slot clk i src v).1) = controller_to_slot_config src /\
  connected (view_dst (monitor_slot clk i src v).1) = connected src /\
  connected (view_prev (monitor_slot clk i src v).1) = connected src /\
  telemetry (view_prev (monitor_slot clk i src v).1) = telemetry src.
Proof.
  unfold monitor_slot. cbv zeta.
  set (dst := copy_controller_state (view_dst v) src).
  pose proof (copy_telemetry (view_dst v) src : telemetry dst = _) as H1.
  pose proof (copy_config (view_dst v) src : controller_to_slot_config dst = _) as H2.
  pose proof (copy_connected (view_dst v) src : connected dst = _) as H3.
  clearbody dst.
  set (p := if connected dst && config_changed dst (view_prev v) && _ then _ else _).
  destruct p as [rate o]. set (q := if connected dst then _ else _). destruct q as [rate' o'].
  cbn [fst view_dst view_prev]. rewrite copy_connected, copy_telemetry. done.
Qed.

(** Which signals of a slot are connection signals, and whose they are. *)
Lemma monitor_slot_connections clk i j src v :
  List.filter (is_connection j) (monitor_slot clk i src v).2 =
  if i =? j then (if Bool.eqb (connected src) (connected (view_prev v)) then []
                  else [if connected src then ControllerConnected i else ControllerDisconnected i])
  else [].
Proof.
  unfold monitor_slot. cbv zeta.
  set (dst := copy_controller_state (view_dst v) src).
  pose proof (copy_connected (view_dst v) src : connected dst = _) as H3. rewrite <- H3. clear H3.
  set (p := if connected dst && config_changed dst (view_prev v) && _ then _ else _).
  assert (List.filter (is_connection j) p.2 = []) as Hp by (subst p; by case_match).
  destruct p as [rate o]. cbn [snd] in Hp.
  set (q := if connected dst then _ else _).
  assert (List.filter (is_connection j) q.2 = []) as Hq
    by (subst q; cbv zeta; repeat case_match; simplify_eq; reflexivity).
  destruct q as [rate' o']. cbn [snd] in *. rewrite !List.filter_app, Hp, Hq, !app_nil_r.
  destruct (Bool.eqb (connected dst) (connected (view_prev v))); cbn [negb List.filter];
    [by destruct (i =? j)|].
  destruct (connected dst); cbn [is_connection]; by destruct (i =? j).
Qed.

(** A turn slot by slot, for signals [P] that only slot [j] sends. *)
Lemma monitor_slots_spec (P : bridge_signal -> bool) clk shm views n j :
  (forall i v, i <> j -> List.filter P (monitor_slot (clk i) i (get_slot shm i) v).2 = []) ->
  length views = MAX_SLOTS -> 0 <= j < Z.of_nat MAX_SLOTS -> (n <= MAX_SLOTS)%nat ->
  let r := fold_idx (fun i acc =>
      let (v, out) := monitor_slot (clk i) i (get_slot shm i) (aget zero_view (fst acc) i) in
      (aset (fst acc) i v, snd acc ++ out)) n (views, []) in
  length r.1 = MAX_SLOTS /\
  view_at r.1 j = (if j <? Z.of_nat n then (monitor_slot (clk j) j (get_slot shm j) (view_at views j)).1
                   else view_at views j) /\
  List.filter P r.2 =
    (if j <? Z.of_nat n
     then List.filter P (monitor_slot (clk j) j (get_slot shm j) (view_at views j)).2
     else []).
Proof.
  intros Hfor Hl Hj. induction n as [|n IH]; intros Hn r.
  { subst r. cbn [fold_idx seq fold_left fst snd]. destruct (Z.ltb_spec j (Z.of_nat 0)); [lia | auto]. }
  subst r. rewrite fold_idx_S. destruct (IH ltac:(lia)) as (L & V & F). clear IH.
  set (acc := fold_idx _ n _) in *. clearbody acc. fold (view_at acc.1 (Z.of_nat n)).
  pose proof (Hfor (Z.of_nat n) (view_at acc.1 (Z.of_nat n))) as Hc.
  destruct (monitor_slot (clk (Z.of_nat n)) _ _ _) as [v out] eqn:E. cbn [fst snd] in *.
  rewrite length_aset, List.filter_app, F. split; [done|].
  destruct (Z.eq_dec j (Z.of_nat n)) as [->|Hne].
  - destruct (Z.ltb_spec (Z.of_nat n) (Z.of_nat n)); [lia|].
    destruct (Z.ltb_spec (Z.of_nat n) (Z.of_nat (S n))); [|lia].
    rewrite V in E. rewrite E. cbn [fst snd]. unfold view_at. rewrite aget_aset_eq by lia. done.
  - unfold view_at. rewrite aget_aset_ne by lia. fold (view_at acc.1 j). rewrite V, Hc by lia.
    rewrite app_nil_r.
    destruct (Z.ltb_spec j (Z.of_nat n)), (Z.ltb_spec j (Z.of_nat (S n))); try lia; done.
Qed.

Lemma monitor_slots_at (P : bridge_signal -> bool) clk shm views j :
  (forall i v, i <> j -> List.filter P (monitor_slot (clk i) i (get_slot shm i) v).2 = []) ->
  length views = MAX_SLOTS -> 0 <= j < Z.of_nat MAX_SLOTS ->
  length (monitor_slots clk shm views).1 = MAX_SLOTS /\
  view_at (monitor_slots clk shm views).1 j =
    (monitor_slot (clk j) j (get_slot shm j) (view_at views j)).1 /\
  List.filter P (monitor_slots clk shm views).2 =
    List.filter P (monitor_slot (clk j) j (get_slot shm j) (view_at views j)).2.
Proof.
  intros Hf Hl Hj. pose proof (monitor_slots_spec P clk shm views MAX_SLOTS j Hf Hl Hj ltac:(lia)) as H.
  cbv zeta in H. destruct (Z.ltb_spec j (Z.of_nat MAX_SLOTS)); [exact H | lia].
Qed.

Lemma connections_foreign clk i j src v :
  i <> j -> List.filter (is_connection j) (monitor_slot clk i src v).2 = [].
Proof. intros H. rewrite monitor_slot_connections. by destruct (Z.eqb_spec i j). Qed.

(** Is the slot's telemetry due, [prev] being what it last looked like and
    [sent] when it was last sent. *)
Definition telemetry_due (clk : nat -> Z) (src : controller_t) (prev : list Z) (sent : Z) : bool :=
  connected src && negb (bool_decide (telemetry src = prev)) &&
  (TELEMETRY_MIN_INTERVAL_US <=? u64 (clk 3%nat - sent)).

(** The telemetry signal of one slot in one turn, and the time it leaves. *)
Lemma monitor_slot_telemetry clk i j src v :
  let due := telemetry_due clk src (telemetry (view_prev v)) (last_telemetry_us (view_rate v)) in
  let r := monitor_slot clk i src v in
  List.filter (is_telemetry j) r.2 =
    (if due && (i =? j) then [TelemetryUpdate i (axes_of src) (pack_buttons src)] else []) /\
  last_telemetry_us (view_rate r.1) = (if due then clk 2%nat else last_telemetry_us (view_rate v)).
Proof.
  unfold monitor_slot, telemetry_due. cbv zeta.
  set (dst := copy_controller_state (view_dst v) src).
  pose proof (copy_telemetry (view_dst v) src : telemetry dst = _) as H1.
  pose proof (copy_connected (view_dst v) src : connected dst = _) as H3.
  assert (axes_of dst = axes_of src) as H4 by reflexivity.
  rewrite <- H1, <- H3, <- H4, <- (pack_telemetry _ _ H1). clear H1 H3 H4. clearbody dst.
  set (p := if connected dst && config_changed dst (view_prev v) && _ then _ else _).
  assert (last_telemetry_us p.1 = last_telemetry_us (view_rate v) /\ List.filter (is_telemetry j) p.2 = [])
    as [Hr Hp] by (subst p; by case_match).
  destruct p as [rate o]. cbn [fst snd] in *.
  set (oc := if negb (Bool.eqb (connected dst) (connected (view_prev v))) then _ else _).
  assert (List.filter (is_telemetry j) oc = []) as Hoc by (subst oc; repeat case_match; done).
  clearbody oc. set (B := pack_buttons dst). set (A := axes_of dst).
  destruct (connected dst); cbn [andb]; [|cbn [fst snd view_rate]; by rewrite !List.filter_app, Hoc, Hp].
  destruct (telemetry_changed dst (view_prev v)) eqn:Et.
  - rewrite orb_true_r. rewrite bool_decide_false
      by (intros Heq; apply telemetry_changed_false in Heq; congruence).
    cbn [negb andb]. rewrite Hr.
    change (TELEMETRY_MIN_INTERVAL_US <=? u64 (clk 3%nat - last_telemetry_us (view_rate v))) with
      (should_emit_signal (clk 3%nat) (last_telemetry_us (view_rate v)) TELEMETRY_MIN_INTERVAL_US).
    destruct (should_emit_signal (clk 3%nat) _ _); cbv beta iota zeta; cbn [andb];
    (repeat match goal with |- context [if ?c then (mk_rate_limit _ _ _ _, _) else _] =>
       destruct c; cbv beta iota zeta end;
     cbn [fst snd view_rate last_telemetry_us]; rewrite !List.filter_app, Hoc, Hp;
     cbn [List.filter is_telemetry app]; by destruct (i =? j)).
  - apply telemetry_changed_false in Et. subst B. rewrite (pack_telemetry _ _ Et), Z.eqb_refl.
    rewrite bool_decide_true by exact Et. cbn [negb orb andb fst snd view_rate].
    by rewrite !List.filter_app, Hoc, Hp.
Qed.

Lemma telemetry_foreign clk i j src v :
  i <> j -> List.filter (is_telemetry j) (monitor_slot clk i src v).2 = [].
Proof.
  intros H. rewrite (proj1 (monitor_slot_telemetry clk i j src v)).
  destruct (Z.eqb_spec i j); [done|]. by rewrite andb_false_r.
Qed.

Lemma exists_filter {A} (f : A -> bool) l : existsb f l = negb (bool_decide (List.filter f l = [])).
Proof.
  induction l as [|x l IH]; [done|]. cbn [existsb List.filter]. destruct (f x); [done | exact IH].
Qed.

Lemma monitor_run_edges i turns views :
  length views = MAX_SLOTS -> 0 <= i < Z.of_nat MAX_SLOTS ->
  length (monitor_run turns views).1 = MAX_SLOTS /\
  List.filter (is_connection i) (monitor_run turns views).2 =
    edges i (connected (view_prev (view_at views i))) (map (fun t => connected (get_slot (snd t) i)) turns).
Proof.
  revert views. induction turns as [|[clk shm] turns IH]; intros views Hl Hi; [done|].
  cbn [monitor_run map edges snd].
  destruct (monitor_slots_at (is_connection i) clk shm views i ltac:(intros; by apply connections_foreign) Hl Hi)
    as (L & V & F).
  destruct (monitor_slots clk shm views) as [views1 out]. cbn [fst snd] in *.
  destruct (IH views1 L Hi) as [L' F']. destruct (monitor_run turns views1) as [views2 out'].
  cbn [fst snd] in *. split; [done|]. rewrite List.filter_app, F, F', V.
  destruct (monitor_slot_view (clk i) i (get_slot shm i) (view_at views i)) as (_ & _ & _ & -> & _).
  rewrite monitor_slot_connections, Z.eqb_refl. done.
Qed.

(** One turn's telemetry of slot [i] among the signals of all slots. *)
Lemma monitor_slots_telemetry i clk shm views :
  length views = MAX_SLOTS -> 0 <= i < Z.of_nat MAX_SLOTS ->
  let v := view_at views i in
  let due := telemetry_due (clk i) (get_slot shm i) (telemetry (view_prev v)) (last_telemetry_us (view_rate v)) in
  let r := monitor_slots clk shm views in
  length r.1 = MAX_SLOTS /\ view_at r.1 i = (monitor_slot (clk i) i (get_slot shm i) v).1 /\
  List.filter (is_telemetry i) r.2 =
    (if due then [TelemetryUpdate i (axes_of (get_slot shm i)) (pack_buttons (get_slot shm i))] else []) /\
  last_telemetry_us (view_rate (view_at r.1 i)) = (if due then clk i 2%nat else last_telemetry_us (view_rate v)).
Proof.
  intros Hl Hi v due r.
  destruct (monitor_slots_at (is_telemetry i) clk shm views i ltac:(intros; by apply telemetry_foreign) Hl Hi)
    as (L & V & F).
  destruct (monitor_slot_telemetry (clk i) i i (get_slot shm i) v) as [F' T].
  rewrite Z.eqb_refl, andb_true_r in F'. subst r. split; [exact L|]. split; [exact V|].
  split; [exact (eq_trans F F')|]. rewrite V. exact T.
Qed.

(** After a run: the time of the last signal sent, the last telemetry seen. *)
Lemma monitor_run_telemetry i turns views :
  length views = MAX_SLOTS -> 0 <= i < Z.of_nat MAX_SLOTS ->
  let v := view_at (monitor_run turns views).1 i in
  last_telemetry_us (view_rate v) =
    List.last (telemetry_times i turns views) (last_telemetry_us (view_rate (view_at views i))) /\
  telemetry (view_prev v) =
    List.last (map (fun t => telemetry (get_slot (snd t) i)) turns) (telemetry (view_prev (view_at views i))).
Proof.
  revert views. induction turns as [|[clk shm] turns IH]; intros views Hl Hi; [done|].
  cbn [monitor_run telemetry_times map snd].
  destruct (monitor_slots_telemetry i clk shm views Hl Hi) as (L & V & F & T).
  destruct (monitor_slots clk shm views) as [views1 out]. cbn [fst snd] in *.
  pose proof (IH views1 L Hi) as [H1 H2]. destruct (monitor_run turns views1) as [views2 out'].
  cbn [fst snd] in *. rewrite exists_filter, F. rewrite T in H1. rewrite V in H2.
  destruct (monitor_slot_view (clk i) i (get_slot shm i) (view_at views i)) as (_ & _ & _ & _ & Hp).
  rewrite Hp in H2. split; [|exact (eq_trans H2 (eq_sym (last_cons _ _ _)))].
  destruct (telemetry_due _ _ _ _); cbn [app]; [|exact H1]. rewrite bool_decide_false by done.
  exact (eq_trans H1 (eq_sym (last_cons _ _ _))).
Qed.

(** * Properties *)

(** C39: while the daemon is online, a listener learns of every connection and
    nothing else: over any number of turns the connected and disconnected
    signals of a slot are exactly the edges of its state, in order.  And a turn
    after any such run sends the slot's telemetry exactly once if it is
    connected, its sticks, triggers or buttons differ from those of the turn
    before, and a sixtieth of a second (16 666 us) has passed since the clock
    was read for the last telemetry signal of the slot that was sent in the
    run, with the values of that turn; otherwise it sends none.  The bridge's
    copy has the slot's inputs and configuration afterwards. *)
Theorem monitor_signals_exact i turns views clk shm :
  length views = MAX_SLOTS -> 0 <= i < Z.of_nat MAX_SLOTS ->
  List.filter (is_connection i) (monitor_run turns views).2 =
    edges i (connected (view_prev (view_at views i)))
      (map (fun t => connected (get_slot (snd t) i)) turns) /\
  let prev := List.last (map (fun t => telemetry (get_slot (snd t) i)) turns)
                (telemetry (view_prev (view_at views i))) in
  let sent := List.last (telemetry_times i turns views) (last_telemetry_us (view_rate (view_at views i))) in
  let '(views', out) := monitor_slots clk shm (monitor_run turns views).1 in
  let src := get_slot shm i in
  List.filter (is_telemetry i) out =
    (if connected src && negb (bool_decide (telemetry src = prev)) &&
        (TELEMETRY_MIN_INTERVAL_US <=? u64 (clk i 3%nat - sent))
     then [TelemetryUpdate i (axes_of src) (pack_buttons src)] else []) /\
  telemetry (view_dst (view_at views' i)) = telemetry src /\
  controller_to_slot_config (view_dst (view_at views' i)) = controller_to_slot_config src.
Proof.
  intros Hl Hi. destruct (monitor_run_edges i turns views Hl Hi) as [L F]. split; [exact F|]. cbv zeta.
  destruct (monitor_run_telemetry i turns views Hl Hi) as [Ht Hp].
  set (w := (monitor_run turns views).1) in *. clearbody w.
  destruct (monitor_slots_telemetry i clk shm w L Hi) as (_ & V & S & _).
  destruct (monitor_slots clk shm w) as [views' out]. cbn [fst snd] in *. rewrite <- Ht, <- Hp.
  split; [exact S|]. rewrite V.
  by destruct (monitor_slot_view (clk i) i (get_slot shm i) (view_at w i)) as (? & ? & _).
Qed.

Definition bridge_shm (c : bool) (x : Z) : shared_data_t :=
  mk_shared_data SHM_MAGIC_VALUE (repeat (zero_controller {{ connected := c; LX := x }}) MAX_SLOTS)
    false 7 9 false 0 0 EmptyString 0 EmptyString 1 2000 EmptyString.
Definition at_time (t : Z) : Z -> nat -> Z := fun _ _ => t.

(** Sent at 100 ms; 16 ms later it waits, 17 ms later it is sent again. *)
Example monitor_signals_exact_witness :
  let before := repeat zero_view 4 in let turns := [(at_time 100000, bridge_shm true 5)] in
  List.filter (is_connection 2)
    (monitor_run (turns ++ [(at_time 100005, bridge_shm false 5)]) before).2 =
    [ControllerConnected 2; ControllerDisconnected 2] /\
  (let '(_, out) := monitor_slots (at_time 116000) (bridge_shm true 9) (monitor_run turns before).1 in
   List.filter (is_telemetry 2) out = []) /\
  (let '(_, out) := monitor_slots (at_time 117000) (bridge_shm true 9) (monitor_run turns before).1 in
   List.filter (is_telemetry 2) out = [TelemetryUpdate 2 [9; 0; 0; 0; 0; 0; 0; 0] 0]).
Proof.
  intros before turns. assert (0 <= 2 < Z.of_nat MAX_SLOTS) as Hi by (unfold MAX_SLOTS; lia).
  split; [|split].
  - rewrite (proj1 (monitor_signals_exact 2 (turns ++ [(at_time 100005, bridge_shm false 5)]) before
      (at_time 0) (bridge_shm true 5) eq_refl Hi)). reflexivity.
  - destruct (monitor_signals_exact 2 turns before (at_time 116000) (bridge_shm true 9) eq_refl Hi) as [_ H].
    cbv zeta in H. destruct (monitor_slots _ _ _) as [views out]. destruct H as [-> _]. vm_compute. reflexivity.
  - destruct (monitor_signals_exact 2 turns before (at_time 117000) (bridge_shm true 9) eq_refl Hi) as [_ H].
    cbv zeta in H. destruct (monitor_slots _ _ _) as [views out]. destruct H as [-> _]. vm_compute. reflexivity.
Defined.
