(* ===== verification/Mutex.v ===== *)
(** * The mutex of the shared memory

    [main.c] makes [proc_mutex] shared between processes, robust and recursive.
    This file models such a mutex as POSIX documents it, the two ways the
    program takes it ([safe_shm_lock] of [dstx.h], and the plain
    [pthread_mutex_lock] of the D-Bus service in [dbus-utils.c] and
    [dbus-monitor.c]), and the threads that are between their lock and their
    unlock. *)

From S2P Require Import Prelude.
Local Open Scope Z_scope.

Definition EOWNERDEAD : Z := 130.
Definition ENOTRECOVERABLE : Z := 131.

(** A robust recursive mutex: free; held by a thread with a number of nested
    locks; left by a holder that died; taken over from a dead holder and not yet
    declared consistent; lost for good. *)
Inductive mutex_t : Set :=
| Free
| Held (owner depth : nat)
| OwnerDead
| Inconsistent (owner depth : nat)
| NotRecoverable.

(** The new state and the result; [None] when the caller has to wait. *)
Definition pthread_mutex_lock (t : nat) (m : mutex_t) : option (mutex_t * Z) :=
  match m with
  | Free => Some (Held t 0, 0)
  | Held o d => if (o =? t)%nat then Some (Held o (S d), 0) else None
  | OwnerDead => Some (Inconsistent t 0, EOWNERDEAD)
  | Inconsistent o d => if (o =? t)%nat then Some (Inconsistent o (S d), 0) else None
  | NotRecoverable => Some (NotRecoverable, ENOTRECOVERABLE)
  end.

Definition pthread_mutex_consistent (t : nat) (m : mutex_t) : mutex_t :=
  match m with
  | Inconsistent o d => if (o =? t)%nat then Held o d else m
  | _ => m
  end.

(** Only the owner unlocks; an inconsistent mutex is lost when it is given
    back. *)
Definition pthread_mutex_unlock (t : nat) (m : mutex_t) : mutex_t :=
  match m with
  | Held o d => if (o =? t)%nat then match d with O => Free | S d => Held o d end else m
  | Inconsistent o d =>
      if (o =? t)%nat then match d with O => NotRecoverable | S d => Inconsistent o d end else m
  | _ => m
  end.

(** The holder's thread ends without unlocking. *)
Definition holder_dies (t : nat) (m : mutex_t) : mutex_t :=
  match m with
  | Held o _ | Inconsistent o _ => if (o =? t)%nat then OwnerDead else m
  | _ => m
  end.

Definition safe_shm_lock (t : nat) (m : mutex_t) : option mutex_t :=
  '(m, rc) ← pthread_mutex_lock t m;
  Some (if rc =? EOWNERDEAD then pthread_mutex_consistent t m else m).

(** The lock of the D-Bus service, which does not look at the result. *)
Definition bridge_shm_lock (t : nat) (m : mutex_t) : option mutex_t :=
  '(m, _) ← pthread_mutex_lock t m; Some m.

(** ** Threads and sections

    The mutex and the threads that are inside a section it protects. *)
Definition lock_state : Type := mutex_t * list nat.

(** [plain] tells whether the D-Bus service takes part. *)
Inductive lock_step (plain : bool) : lock_state -> lock_state -> Prop :=
| enter_safe t m m' inside :
    t ∉ inside -> safe_shm_lock t m = Some m' ->
    lock_step plain (m, inside) (m', t :: inside)
| enter_plain t m m' inside :
    plain = true -> t ∉ inside -> bridge_shm_lock t m = Some m' ->
    lock_step plain (m, inside) (m', t :: inside)
| leave t m l1 l2 :
    lock_step plain (m, l1 ++ t :: l2) (pthread_mutex_unlock t m, l1 ++ l2)
| die t m l1 l2 :
    lock_step plain (m, l1 ++ t :: l2) (holder_dies t m, l1 ++ l2).

(** The [memset] and [pthread_mutex_init] of a daemon that finds the one before it
    dead ([main.c]): the mutex is new, whoever is inside.  It is no [lock_step]:
    what follows is about the time between two starts of the daemon. *)
Definition mutex_made_new (s : lock_state) : lock_state := (Free, s.2).

(** What the mutex says agrees with who is inside. *)
Definition exclusive (s : lock_state) : Prop :=
  match s.1 with
  | Free | OwnerDead => s.2 = []
  | Held o d => d = O /\ s.2 = [o]
  | Inconsistent _ _ | NotRecoverable => False
  end.

Lemma one_inside {A} (x o : A) l1 l2 : l1 ++ x :: l2 = [o] -> x = o /\ l1 ++ l2 = [].
Proof.
  destruct l1 as [|y l1]; simpl; [by intros [= -> ->]|]. intros [= _ H]. by destruct l1.
Qed.

Lemma exclusive_step s s' : exclusive s -> lock_step false s s' -> exclusive s'.
Proof.
  intros Hs Hstep. destruct Hstep as [t m m' inside Hin Hl|t m m' inside Hp|t m l1 l2|t m l1 l2];
    unfold exclusive in *; cbn [fst snd] in *.
  - destruct m as [|o d| |o d|]; cbn in Hl; try done.
    + injection Hl as <-. by rewrite Hs.
    + destruct Hs as [-> ->]. destruct (Nat.eqb_spec o t) as [->|]; [|done]. set_solver.
    + rewrite Nat.eqb_refl in Hl. injection Hl as <-. by rewrite Hs.
  - done.
  - destruct m as [|o d| |o d|]; cbn; try done; [by destruct l1 | | by destruct l1].
    destruct Hs as [-> H]. apply one_inside in H as [-> H]. by rewrite Nat.eqb_refl.
  - destruct m as [|o d| |o d|]; cbn; try done; [by destruct l1 | | by destruct l1].
    destruct Hs as [-> H]. apply one_inside in H as [-> H]. by rewrite Nat.eqb_refl.
Qed.

Lemma exclusive_steps s s' : rtc (lock_step false) s s' -> exclusive s -> exclusive s'.
Proof. induction 1; eauto using exclusive_step. Qed.

(** A lost mutex keeps nobody out. *)
Lemma lost_admits plain l l0 :
  NoDup (l ++ l0) -> rtc (lock_step plain) (NotRecoverable, l0) (NotRecoverable, l ++ l0).
Proof.
  induction l as [|t l IH]; intros Hn; [done|]. apply NoDup_cons in Hn as [Ht Hn].
  eapply rtc_r; [by apply IH|]. by apply enter_safe.
Qed.

(** C23: while every lock goes through [safe_shm_lock], at most one thread is
    inside a section in every reachable state, whichever threads die holding the
    mutex; and when nobody is inside, any thread can enter. *)
Theorem safe_lock_excludes s :
  rtc (lock_step false) (Free, []) s ->
  (length s.2 <= 1)%nat /\
  (s.2 = [] -> forall t, lock_step false s (Held t 0, [t])).
Proof.
  intros Hr. assert (exclusive s) as Hs by (by eapply exclusive_steps).
  destruct s as [m inside]. unfold exclusive in Hs. cbn [fst snd] in *. split.
  - destruct m; try done; [| destruct Hs as [_ Hs] |]; rewrite Hs; simpl; lia.
  - intros -> t. apply enter_safe; [apply not_elem_of_nil|].
    destruct m as [|o d| |o d|]; cbn; try done; [by destruct Hs|]. by rewrite Nat.eqb_refl.
Qed.

(** Thread 3 dies inside, thread 4 is let in, alone. *)
Example safe_lock_excludes_witness :
  exists s, rtc (lock_step false) (Free, []) s /\ s.2 = [4%nat] /\ (length s.2 <= 1)%nat.
Proof.
  assert (rtc (lock_step false) (Free, []) (Held 4 0, [4%nat])) as H.
  { eapply rtc_l; [apply (enter_safe false 3%nat Free (Held 3 0) []); [apply not_elem_of_nil | reflexivity]|].
    eapply rtc_l; [apply (die false 3%nat (Held 3 0) [] [])|].
    eapply rtc_l; [apply (enter_safe false 4%nat OwnerDead (Held 4 0) []); [apply not_elem_of_nil | reflexivity]|].
    apply rtc_refl. }
  exists (Held 4 0, [4%nat]). split; [exact H|]. split; [reflexivity | exact (proj1 (safe_lock_excludes (Held 4 0, [4%nat]) H))].
Defined.

(** That start of a daemon lets a second thread in beside the first. *)
Lemma made_new_admits t u :
  t <> u ->
  rtc (lock_step false) (Free, []) (Held t 0, [t]) /\
  lock_step false (mutex_made_new (Held t 0, [t])) (Held u 0, [u; t]).
Proof.
  intros Hne. split.
  - eapply rtc_l; [by apply (enter_safe false t Free (Held t 0) []); [apply not_elem_of_nil|]|]. apply rtc_refl.
  - apply enter_safe; [|done]. intros H. apply list_elem_of_singleton in H. by subst.
Qed.

(** C24: one section of the D-Bus service after a holder died loses the mutex:
    it is not recoverable, and since [safe_shm_lock] ignores that result too any
    set of threads can be inside their sections at once. *)
Theorem bridge_lock_loses_mutex t l :
  NoDup l ->
  rtc (lock_step true) (OwnerDead, []) (NotRecoverable, l) /\
  bridge_shm_lock t OwnerDead = Some (Inconsistent t 0) /\
  pthread_mutex_unlock t (Inconsistent t 0) = NotRecoverable /\
  safe_shm_lock t NotRecoverable = Some NotRecoverable.
Proof.
  intros Hn. repeat split; [|cbn; by rewrite Nat.eqb_refl].
  eapply rtc_l; [by apply (enter_plain true t OwnerDead (Inconsistent t 0) []); [|apply not_elem_of_nil|]|].
  eapply rtc_l; [apply (leave true t (Inconsistent t 0) [] [])|]. cbn. rewrite Nat.eqb_refl.
  pose proof (lost_admits true l []) as H. rewrite app_nil_r in H. by apply H.
Qed.

Example bridge_lock_loses_mutex_witness :
  rtc (lock_step true) (OwnerDead, []) (NotRecoverable, [1; 2; 3]%nat).
Proof.
  refine (proj1 (bridge_lock_loses_mutex 7 [1; 2; 3]%nat _)).
  apply (bool_decide_unpack (NoDup [1; 2; 3]%nat)). vm_compute. exact I.
Defined.
