(* ===== verification/Bus.v ===== *)
(** * The D-Bus service: library, state, signals and systemd calls

    [libdbus] is the class [DBus] (what a received message holds) and a stream
    of answers (whether the n-th call that can fail succeeds); [world] is what
    the handlers of the service work on.  On top of it: the replies and signals
    ([dbus-handlers.c] 26-51, [dbus-signals.c]) and the calls to systemd
    ([dbus-systemd.c]). *)

From S2P Require Import Prelude Types Sys Bridge.
Local Open Scope Z_scope.

(** ** Values on the bus *)

Inductive dbus_type : Set :=
| DBUS_TYPE_BYTE | DBUS_TYPE_BOOLEAN | DBUS_TYPE_INT16 | DBUS_TYPE_UINT16
| DBUS_TYPE_INT32 | DBUS_TYPE_UINT32 | DBUS_TYPE_STRING | DBUS_TYPE_OBJECT_PATH
| DBUS_TYPE_ARRAY | DBUS_TYPE_STRUCT | DBUS_TYPE_VARIANT.
#[export] Instance dbus_type_eq_dec : EqDecision dbus_type.
Proof. solve_decision. Defined.

#[warnings="-register-all"]
Inductive dbus_value : Type :=
| DByte (z : Z) | DBool (b : bool) | DInt16 (z : Z) | DUint16 (z : Z)
| DInt32 (z : Z) | DUint32 (z : Z) | DString (s : string) | DObjectPath (s : string)
| DArray (l : list dbus_value) | DStruct (l : list dbus_value) | DVariant (v : dbus_value).

Definition type_of (v : dbus_value) : dbus_type :=
  match v with
  | DByte _ => DBUS_TYPE_BYTE | DBool _ => DBUS_TYPE_BOOLEAN | DInt16 _ => DBUS_TYPE_INT16
  | DUint16 _ => DBUS_TYPE_UINT16 | DInt32 _ => DBUS_TYPE_INT32 | DUint32 _ => DBUS_TYPE_UINT32
  | DString _ => DBUS_TYPE_STRING | DObjectPath _ => DBUS_TYPE_OBJECT_PATH
  | DArray _ => DBUS_TYPE_ARRAY | DStruct _ => DBUS_TYPE_STRUCT | DVariant _ => DBUS_TYPE_VARIANT
  end.

(** The values a number of a type can have. *)
Definition value_ok (v : dbus_value) : Prop :=
  match v with
  | DByte z => 0 <= z < 2 ^ 8
  | DInt16 z => - 2 ^ 15 <= z < 2 ^ 15
  | DUint16 z => 0 <= z < 2 ^ 16
  | DInt32 z => - 2 ^ 31 <= z < 2 ^ 31
  | DUint32 z => 0 <= z < 2 ^ 32
  | _ => True
  end.

(** What a received message answers, and what the library documents of it: the
    arguments have the types that were asked for. *)
Class DBus := {
  dbus_message_t : Type;
  dbus_message_get_interface : dbus_message_t -> option string;
  dbus_message_get_member : dbus_message_t -> option string;
  dbus_message_get_args : dbus_message_t -> list dbus_type -> option (list dbus_value);
  dbus_message_first : dbus_message_t -> option dbus_value
}.
Class DBusLaws (B : DBus) : Prop :=
  dbus_args_typed m ts vs : dbus_message_get_args m ts = Some vs ->
    map type_of vs = ts /\ Forall value_ok vs.

(** ** The state of the service *)

(** What is put on the connection. *)
Inductive dbus_out : Type :=
| MethodReturn (args : list dbus_value)
| ErrorReply (name text : string)
| SignalOut (name : string) (args : list dbus_value).

Definition DBUS_ERROR_FAILED : string := "org.freedesktop.DBus.Error.Failed".
Definition DBUS_ERROR_INVALID_ARGS : string := "org.freedesktop.DBus.Error.InvalidArgs".

(** The bridge's copies of the slots, the shared memory object, the system
    calls made, the library calls made, the messages the service holds a
    reference to, what was sent, and the counters. *)
#[projections(primitive)]
Record world := mk_world {
  w_monitor : monitor_state;
  w_shm : shared_data_t;
  w_hist : list sysop;
  w_calls : nat;
  w_live : Z;
  w_sent : list dbus_out;
  g_methods_called : Z;
  g_errors_occurred : Z;
  g_signals_sent : Z
}.
Definition eta_world (w : world) : world := {|
  w_monitor := w_monitor w; w_shm := w_shm w; w_hist := w_hist w; w_calls := w_calls w;
  w_live := w_live w; w_sent := w_sent w; g_methods_called := g_methods_called w;
  g_errors_occurred := g_errors_occurred w; g_signals_sent := g_signals_sent w |}.
#[export] Instance set_w_monitor : Setter w_monitor. Proof. mk_setter eta_world. Defined.
#[export] Instance set_w_shm : Setter w_shm. Proof. mk_setter eta_world. Defined.
#[export] Instance set_w_hist : Setter w_hist. Proof. mk_setter eta_world. Defined.
#[export] Instance set_w_calls : Setter w_calls. Proof. mk_setter eta_world. Defined.
#[export] Instance set_w_live : Setter w_live. Proof. mk_setter eta_world. Defined.
#[export] Instance set_w_sent : Setter w_sent. Proof. mk_setter eta_world. Defined.
#[export] Instance set_g_methods_called : Setter g_methods_called. Proof. mk_setter eta_world. Defined.
#[export] Instance set_g_errors_occurred : Setter g_errors_occurred. Proof. mk_setter eta_world. Defined.
#[export] Instance set_g_signals_sent : Setter g_signals_sent. Proof. mk_setter eta_world. Defined.

Definition svc (A : Type) : Type := world -> A * world.
#[export] Instance svc_ret : MRet svc := fun A x w => (x, w).
#[export] Instance svc_bind : MBind svc :=
  fun A B f m w => let (x, w) := m w in f x w.

(** [c;; k]: a statement, then the rest. *)
Notation "c ';;;' k" := (@mbind svc svc_bind _ _ (fun _ => k) c)
  (at level 100, right associativity, format "c ';;;' '//' k").

Definition gets {A} (f : world -> A) : svc A := fun w => (f w, w).
Definition modify (f : world -> world) : svc unit := fun w => (tt, f w).

Section library.
Context (kernel : kernel_t) (answers : nat -> bool).

Definition ask : svc bool := fun w =>
  (answers (w_calls w), w {{ w_calls := S (w_calls w) }}).
Definition call (op : sysop) : svc Z := fun w =>
  ((kernel (w_hist w) op).1, w {{ w_hist := op :: w_hist w }}).
Definition call_ (op : sysop) : svc unit := _ ← call op; mret tt.

(** [dbus_message_new_*] and [dbus_message_unref]. *)
Definition new_message : svc bool :=
  ok ← ask;
  if ok : bool then modify (fun w => w {{ w_live := w_live w + 1 }});;; mret true else mret false.
Definition unref : svc unit := modify (fun w => w {{ w_live := w_live w - 1 }}).

(** [dbus_connection_send]: the message is queued or there is no memory. *)
Definition connection_send (m : dbus_out) : svc bool :=
  ok ← ask;
  if ok : bool then modify (fun w => w {{ w_sent := w_sent w ++ [m] }});;; mret true else mret false.

Definition count_method : svc unit :=
  modify (fun w => w {{ g_methods_called := u64 (g_methods_called w + 1) }}).
Definition count_error : svc unit :=
  modify (fun w => w {{ g_errors_occurred := u64 (g_errors_occurred w + 1) }}).
Definition count_signal : svc unit :=
  modify (fun w => w {{ g_signals_sent := u64 (g_signals_sent w + 1) }}).

(** ** Replies *)

Definition send_error (name text : string) : svc unit :=
  count_error;;;
  reply ← new_message;
  if reply : bool then
    _ ← connection_send (ErrorReply name text);
    unref
  else mret tt.

Definition send_basic_reply : svc bool :=
  reply ← new_message;
  if negb reply then send_error DBUS_ERROR_FAILED "Failed to create reply";;; mret false
  else
    ok ← connection_send (MethodReturn []);
    if negb ok then send_error DBUS_ERROR_FAILED "Failed to send reply";;; unref;;; mret false
    else unref;;; count_method;;; mret true.

(** ** Signals *)

(** The body the five functions share: [connected] tells whether there is a
    connection. *)
Definition emit_signal (connected : bool) (name : string) (args : list dbus_value) : svc unit :=
  if negb connected then mret tt
  else
    msg ← new_message;
    if negb msg then count_error
    else
      appended ← ask;
      (if appended : bool then
         sent ← connection_send (SignalOut name args);
         if sent : bool then count_signal else count_error
       else count_error);;;
      unref.

Definition emit_controller_signal (connected : bool) (signal_name : string) (slot : Z) : svc unit :=
  emit_signal connected signal_name [DByte slot].
Definition emit_daemon_status_signal (connected : bool) (alive : bool) : svc unit :=
  emit_signal connected "DaemonStatusChanged" [DBool alive].
Definition emit_telemetry_signal (connected : bool) (slot : Z) (axes : list Z) (buttons : Z) : svc unit :=
  emit_signal connected "TelemetryUpdate" (DByte slot :: map DInt16 axes ++ [DUint16 buttons]).
Definition emit_button_signal (connected : bool) (slot buttons : Z) : svc unit :=
  emit_signal connected "ButtonUpdate" [DByte slot; DUint16 buttons].
Definition emit_axis_signal (connected : bool) (slot : Z) (axes : list Z) : svc unit :=
  emit_signal connected "AxisUpdate" (DByte slot :: map DInt16 axes).

(** The signals of a turn of the monitor, in order. *)
Definition emit_one (connected : bool) (s : bridge_signal) : svc unit :=
  match s with
  | ControllerConnected i => emit_controller_signal connected "ControllerConnected" i
  | ControllerDisconnected i => emit_controller_signal connected "ControllerDisconnected" i
  | ControllerUpdated i => emit_controller_signal connected "ControllerUpdated" i
  | TelemetryUpdate i axes buttons => emit_telemetry_signal connected i axes buttons
  | ButtonUpdate i buttons => emit_button_signal connected i buttons
  | AxisUpdate i axes => emit_axis_signal connected i axes
  | DaemonStatusChanged alive => emit_daemon_status_signal connected alive
  end.
Fixpoint emit_all (connected : bool) (l : list bridge_signal) : svc unit :=
  match l with
  | [] => mret tt
  | s :: l => emit_one connected s;;; emit_all connected l
  end.

(** ** systemd *)

Section systemd.
Context `{B : DBus}.
(** [dbus_connection_send_with_reply_and_block] on a method of an object: the
    reply, or [None] with the error set. *)
Context (bus_call : string -> string -> string -> list dbus_value -> option dbus_message_t).

Definition SYSTEMD_PATH : string := "/org/freedesktop/systemd1".
Definition SYSTEMD_MANAGER : string := "org.freedesktop.systemd1.Manager".

(** The blocking send: a reply comes with a reference. *)
Definition send_and_block (path iface method : string) (args : list dbus_value)
  : svc (option dbus_message_t) :=
  match bus_call path iface method args with
  | None => mret None
  | Some reply => modify (fun w => w {{ w_live := w_live w + 1 }});;; mret (Some reply)
  end.

(** A method call with arguments; [None] when it cannot be made or fails. *)
Definition blocking_call (path iface method : string) (args : list dbus_value)
  : svc (option dbus_message_t) :=
  msg ← new_message;
  if negb msg then mret None
  else
    appended ← ask;
    if negb appended then unref;;; mret None
    else
      reply ← send_and_block path iface method args;
      unref;;; mret reply.

Definition send_simple_unit_method (method unit mode : string) : svc Z :=
  reply ← blocking_call SYSTEMD_PATH SYSTEMD_MANAGER method [DString unit; DString mode];
  match reply with
  | None => mret (-1)
  | Some reply =>
      match dbus_message_get_args reply [DBUS_TYPE_OBJECT_PATH] with
      | None => unref;;; mret (-1)
      | Some _ => unref;;; mret 0
      end
  end.

Definition systemd_start_unit (unit mode : string) : svc Z := send_simple_unit_method "StartUnit" unit mode.
Definition systemd_stop_unit (unit mode : string) : svc Z := send_simple_unit_method "StopUnit" unit mode.
Definition systemd_restart_unit (unit mode : string) : svc Z := send_simple_unit_method "RestartUnit" unit mode.

Definition systemd_unit_is_active (unit : string) : svc bool :=
  reply ← blocking_call SYSTEMD_PATH SYSTEMD_MANAGER "GetUnit" [DString unit];
  match reply with
  | None => mret false
  | Some reply =>
      match dbus_message_get_args reply [DBUS_TYPE_OBJECT_PATH] with
      | Some [DObjectPath unit_path] =>
          unref;;;
          reply ← blocking_call unit_path "org.freedesktop.DBus.Properties" "Get"
                    [DString "org.freedesktop.systemd1.Unit"; DString "ActiveState"];
          match reply with
          | None => mret false
          | Some reply =>
              match dbus_message_first reply with
              | Some (DVariant v) =>
                  let active := match v with DString state => String.eqb state "active" | _ => false end in
                  unref;;; mret active
              | _ => unref;;; mret false
              end
          end
      | _ => unref;;; mret false
      end
  end.

Definition systemd_unit_is_enabled (unit : string) : svc bool :=
  reply ← blocking_call SYSTEMD_PATH SYSTEMD_MANAGER "GetUnitFileState" [DString unit];
  match reply with
  | None => mret false
  | Some reply =>
      match dbus_message_get_args reply [DBUS_TYPE_STRING] with
      | Some [DString state] =>
          unref;;; mret (String.eqb state "enabled" || String.eqb state "enabled-runtime")
      | _ => unref;;; mret false
      end
  end.

(** The appends of this one go through an iterator and are not checked. *)
Definition systemd_enable_unit (unit : string) (enable : bool) : svc Z :=
  let method := if enable then "EnableUnitFiles"%string else "DisableUnitFiles"%string in
  let args := DArray [DString unit] :: DBool false :: (if enable then [DBool false] else []) in
  msg ← new_message;
  if negb msg then mret (-1)
  else
    reply ← send_and_block SYSTEMD_PATH SYSTEMD_MANAGER method args;
    unref;;;
    match reply with
    | None => mret (-1)
    | Some reply =>
        let ret :=
          if enable
          then match dbus_message_first reply with Some (DBool _) => 0 | _ => -1 end
          else match dbus_message_get_args reply [DBUS_TYPE_BOOLEAN] with Some _ => 0 | None => -1 end in
        unref;;; mret ret
    end.
End systemd.
End library.

(** * Specification *)

(** Every run of a computation relates its worlds by [R]. *)
Definition respects {A} (R : world -> world -> Prop) (m : svc A) : Prop := forall w, R w (m w).2.

Lemma respects_ret {A} R `{!Reflexive R} (x : A) : respects R (mret x).
Proof. intros w. done. Qed.
Lemma respects_bind {A B} R `{!Transitive R} (m : svc A) (f : A -> svc B) :
  respects R m -> (forall x, respects R (f x)) -> respects R (m ≫= f).
Proof.
  intros Hm Hf w. unfold mbind, svc_bind. specialize (Hm w). destruct (m w) as [x w1].
  etransitivity; [exact Hm | apply Hf].
Qed.
Lemma respects_gets {A} R `{!Reflexive R} (f : world -> A) : respects R (gets f).
Proof. intros w. done. Qed.
#[export] Hint Resolve respects_ret respects_bind respects_gets : dstx.

(** A computation that only talks on the bus: no system call, nothing kept, the
    memory and the copies untouched, what was sent before still there. *)
Record silent (w w' : world) : Prop := mk_silent {
  silent_monitor : w_monitor w' = w_monitor w;
  silent_shm : w_shm w' = w_shm w;
  silent_hist : w_hist w' = w_hist w;
  silent_live : w_live w' = w_live w;
  silent_sent : w_sent w `prefix_of` w_sent w'
}.
(** One that does not even talk. *)
Record mute (w w' : world) : Prop := mk_mute {
  mute_monitor : w_monitor w' = w_monitor w;
  mute_shm : w_shm w' = w_shm w;
  mute_hist : w_hist w' = w_hist w;
  mute_live : w_live w' = w_live w;
  mute_sent : w_sent w' = w_sent w
}.
#[export] Instance silent_refl : Reflexive silent.
Proof. by intros w. Qed.
#[export] Instance silent_trans : Transitive silent.
Proof. intros a b c [] []. split; try congruence. by etransitivity. Qed.

(** Run the code symbolically: unfold the monad and the library, split on the
    library's answers. *)
Ltac svc_unfold :=
  cbv [mbind svc_bind mret svc_ret ask call call_ new_message unref connection_send modify gets
       count_method count_error count_signal send_error send_basic_reply emit_signal];
  cbn [fst snd negb].
Ltac svc_run :=
  svc_unfold;
  repeat match goal with
  | |- context [if ?b then _ else _] => destruct b eqn:?; cbn [fst snd negb]
  end.
Ltac silent_done :=
  split; cbn; cbv [constant]; try done; try lia; try (by apply prefix_app_r); try (by eexists).

Section silent_lemmas.
Context (answers : nat -> bool).

Lemma send_error_silent name text : respects silent (send_error answers name text).
Proof. intros w. svc_run; silent_done. Qed.
Lemma send_basic_reply_silent : respects silent (send_basic_reply answers).
Proof. intros w. svc_run; silent_done. Qed.
Lemma emit_signal_silent c name args : respects silent (emit_signal answers c name args).
Proof. intros w. svc_run; silent_done. Qed.
Lemma emit_one_silent c s : respects silent (emit_one answers c s).
Proof. destruct s; apply emit_signal_silent. Qed.
Lemma emit_all_silent c l : respects silent (emit_all answers c l).
Proof.
  induction l as [|s l IH]; cbn [emit_all]; [apply respects_ret, _|].
  apply respects_bind; [apply _ | apply emit_one_silent | by intros].
Qed.

(** The counters of a signal: one of the two moves, by one. *)
Lemma emit_signal_counted name args w :
  let w' := (emit_signal answers true name args w).2 in
  (w_sent w' = w_sent w ++ [SignalOut name args] /\
   g_signals_sent w' = u64 (g_signals_sent w + 1) /\ g_errors_occurred w' = g_errors_occurred w) \/
  (w_sent w' = w_sent w /\ g_signals_sent w' = g_signals_sent w /\
   g_errors_occurred w' = u64 (g_errors_occurred w + 1)).
Proof. cbv zeta. svc_run; cbn; cbv [constant]; auto. Qed.

(** When nothing fails. *)
Context (Hok : forall n, answers n = true).

Lemma send_error_sends name text w :
  w_sent (send_error answers name text w).2 = w_sent w ++ [ErrorReply name text].
Proof. svc_unfold. by rewrite !Hok. Qed.
Lemma send_basic_reply_sends w :
  w_sent (send_basic_reply answers w).2 = w_sent w ++ [MethodReturn []].
Proof. svc_unfold. rewrite !Hok. cbn [negb]. cbv iota. by rewrite !Hok. Qed.
End silent_lemmas.

Section systemd_lemmas.
Context (answers : nat -> bool) `{B : DBus}
  (bus_call : string -> string -> string -> list dbus_value -> option dbus_message_t).

(** The outcome of a blocking call: the message made for it is gone, the reply,
    if there is one, is held. *)
Lemma blocking_call_silent path iface method args w :
  let (reply, w') := blocking_call answers bus_call path iface method args w in
  w_monitor w' = w_monitor w /\ w_shm w' = w_shm w /\ w_hist w' = w_hist w /\
  w_sent w' = w_sent w /\
  w_live w' = w_live w + match reply with Some _ => 1 | None => 0 end.
Proof.
  cbv [blocking_call send_and_block]. svc_run; try (cbn; cbv [constant]; auto using Z.add_0_r; lia).
  all: destruct (bus_call path iface method args); cbn; cbv [constant]; repeat split; lia.
Qed.

Ltac after_call :=
  match goal with
  | |- context [blocking_call ?a ?c ?p ?i ?m ?l ?w] =>
      let H := fresh "H" in
      pose proof (blocking_call_silent p i m l w) as H;
      destruct (blocking_call a c p i m l w) as [[?|] ?]; destruct H as (? & ? & ? & ? & ?)
  end.
Ltac after_calls :=
  svc_unfold; after_call;
  repeat (case_match; svc_unfold; try after_call); svc_unfold;
  split; cbn in *; cbv [constant] in *;
  try congruence; try lia.

Lemma send_simple_unit_method_mute method unit mode :
  respects mute (send_simple_unit_method answers bus_call method unit mode).
Proof. intros w. unfold send_simple_unit_method. after_calls. Qed.
Lemma systemd_unit_is_active_mute unit :
  respects mute (systemd_unit_is_active answers bus_call unit).
Proof. intros w. unfold systemd_unit_is_active. after_calls. Qed.
Lemma systemd_unit_is_enabled_mute unit :
  respects mute (systemd_unit_is_enabled answers bus_call unit).
Proof. intros w. unfold systemd_unit_is_enabled. after_calls. Qed.
End systemd_lemmas.

(** ** A concrete library

    A message is its header and its arguments; [dbus_message_get_args] gives the
    first arguments when they have the types asked for and are in range. *)
Record plain_message := mk_message {
  msg_interface : option string; msg_member : option string; msg_args : list dbus_value
}.
Definition value_in_range (v : dbus_value) : bool :=
  match v with
  | DByte z => (0 <=? z) && (z <? 2 ^ 8)
  | DInt16 z => (- 2 ^ 15 <=? z) && (z <? 2 ^ 15)
  | DUint16 z => (0 <=? z) && (z <? 2 ^ 16)
  | DInt32 z => (- 2 ^ 31 <=? z) && (z <? 2 ^ 31)
  | DUint32 z => (0 <=? z) && (z <? 2 ^ 32)
  | _ => true
  end.
Definition plain_args (m : plain_message) (ts : list dbus_type) : option (list dbus_value) :=
  let vs := take (length ts) (msg_args m) in
  if bool_decide (map type_of vs = ts) && forallb value_in_range vs then Some vs else None.
#[export] Instance plain_bus : DBus := {|
  dbus_message_t := plain_message;
  dbus_message_get_interface := msg_interface;
  dbus_message_get_member := msg_member;
  dbus_message_get_args := plain_args;
  dbus_message_first m := head (msg_args m) |}.
#[export] Instance plain_bus_laws : DBusLaws plain_bus.
Proof.
  intros m ts vs. cbn. unfold plain_args. set (l := take _ _).
  destruct (bool_decide_reflect (map type_of l = ts)); cbn [andb]; [|done].
  destruct (forallb value_in_range l) eqn:E; [|done]. intros [= <-]. split; [done|].
  apply List.Forall_forall. intros v Hv. rewrite forallb_forall in E. specialize (E v Hv).
  destruct v; cbn in *; zprop; auto.
Qed.
