(* ===== verification/Handles.v ===== *)
(** * The shared memory handles of the D-Bus service ([dbus-utils.c] 228-368)

    Opening the shared memory for a slot, under the lock, or for the whole
    daemon, without; closing; and the synchronous request. *)

From S2P Require Import Prelude Types Sys Utils Bridge Bus.
Local Open Scope Z_scope.

Definition SHM_PATH : string := "/dstx_shared_mem".

(** The two mutexes: of the bridge's own state, and of the shared memory. *)
Definition g_state_lock : string := "g_state.lock".
Definition proc_mutex : string := "proc_mutex".

(** Is [shm] set, and the descriptor. *)
Record shm_handle_t := mk_handle { h_shm : bool; h_fd : Z }.
Definition no_handle : shm_handle_t := mk_handle false (-1).

(** The slot as the bridge copied it. *)
Definition copied_slot (w : world) (slot : Z) : controller_t := view_dst (view_at (m_views (w_monitor w)) slot).

Section handles.
Context (kernel : kernel_t) (sizeof_shared_data : Z).

Definition bridge_alive : svc bool :=
  call_ kernel (SysLock g_state_lock);;;
  alive ← gets (fun w => daemon_alive (w_monitor w));
  call_ kernel (SysUnlock g_state_lock);;;
  mret alive.

Definition open_shm_handle (slot : Z) : svc shm_handle_t :=
  alive ← bridge_alive;
  if negb alive then mret no_handle
  else if Z.of_nat MAX_SLOTS <=? slot then mret no_handle
  else
    fd ← call kernel (SysShmOpen SHM_PATH);
    if fd =? -1 then mret (mk_handle false fd)
    else
      size ← call kernel (SysFstat fd);
      if (size =? -1) || (size <? sizeof_shared_data)
      then call_ kernel (SysClose fd);;; mret no_handle
      else
        map ← call kernel (SysMmap fd);
        if map =? -1 then call_ kernel (SysClose fd);;; mret no_handle
        else
          m ← gets (fun w => magic (w_shm w));
          if negb (m =? SHM_MAGIC_VALUE) then
            call_ kernel SysMunmap;;; call_ kernel (SysClose fd);;; mret no_handle
          else
            call_ kernel (SysLock proc_mutex);;;
            slot_connected ← gets (fun w => connected (get_slot (w_shm w) slot));
            if negb slot_connected then
              call_ kernel (SysUnlock proc_mutex);;; call_ kernel SysMunmap;;;
              call_ kernel (SysClose fd);;; mret no_handle
            else mret (mk_handle true fd).

Definition close_shm_handle (h : shm_handle_t) : svc unit :=
  (if h_shm h then call_ kernel (SysUnlock proc_mutex);;; call_ kernel SysMunmap else mret tt);;;
  if negb (h_fd h =? -1) then call_ kernel (SysClose (h_fd h)) else mret tt.

(** The pointer only: the descriptor is a local of the function. *)
Definition open_shm_handle_any : svc bool :=
  alive ← bridge_alive;
  if negb alive then mret false
  else
    fd ← call kernel (SysShmOpen SHM_PATH);
    if fd =? -1 then mret false
    else
      size ← call kernel (SysFstat fd);
      if (size =? -1) || (size <? sizeof_shared_data)
      then call_ kernel (SysClose fd);;; mret false
      else
        map ← call kernel (SysMmap fd);
        if map =? -1 then call_ kernel (SysClose fd);;; mret false
        else
          m ← gets (fun w => magic (w_shm w));
          if negb (m =? SHM_MAGIC_VALUE) then
            call_ kernel SysMunmap;;; call_ kernel (SysClose fd);;; mret false
          else mret true.

Definition close_shm_handle_any (shm : bool) : svc unit :=
  if shm then call_ kernel SysMunmap else mret tt.

(** ** Requests *)

(** What the other processes do to the shared memory during the k-th wait. *)
Context (env : nat -> shared_data_t -> shared_data_t).

Definition on_shm (f : shared_data_t -> shared_data_t) : svc unit :=
  modify (fun w => w {{ w_shm := f (w_shm w) }}).

Fixpoint await_response (n : nat) (i : nat) (msg_size : nat) : svc (bool * string) :=
  match n with
  | O => mret (false, strn (msg_size - 1) "Timeout waiting for daemon response")
  | S n =>
      on_shm (env i);;;
      resp ← gets (fun w => profile_response (w_shm w));
      if negb (resp =? 0) then
        call_ kernel (SysLock proc_mutex);;;
        msg ← gets (fun w => strn (msg_size - 1) (profile_response_msg (w_shm w)));
        on_shm (fun shm => shm {{ profile_response := 0 }});;;
        call_ kernel (SysUnlock proc_mutex);;;
        mret (resp =? 1, msg)
      else await_response n (S i) msg_size
  end.

Definition shm_request_sync (request : Z) (name : option string) (auto_enable auto_delay : Z)
  (msg_size : nat) : svc (bool * string) :=
  call_ kernel (SysLock proc_mutex);;;
  on_shm (fun shm =>
    let shm := shm {{ profile_request := request }} in
    let shm := match name with
               | Some n => shm {{ profile_name := strn (PROFILE_NAME_LEN - 1) n }}
               | None => shm {{ profile_name := EmptyString }}
               end in
    let shm := if 0 <=? auto_enable then shm {{ auto_save_enabled := auto_enable }} else shm in
    let shm := if 0 <=? auto_delay then shm {{ auto_save_delay_ms := auto_delay }} else shm in
    shm {{ profile_response := 0; profile_response_msg := EmptyString }});;;
  call_ kernel (SysUnlock proc_mutex);;;
  await_response (Z.to_nat (1000 / 20)) 0 msg_size.
End handles.

(** * Specification

    What a history holds: nested locks of a mutex, and mappings. *)
Fixpoint lock_depth (mu : string) (h : list sysop) : Z :=
  match h with
  | [] => 0
  | SysLock m :: h => lock_depth mu h + b2z (String.eqb m mu)
  | SysUnlock m :: h => lock_depth mu h - b2z (String.eqb m mu)
  | _ :: h => lock_depth mu h
  end.

Fixpoint mappings (kernel : kernel_t) (h : list sysop) : Z :=
  match h with
  | [] => 0
  | op :: h =>
      match op with
      | SysMmap _ => mappings kernel h + b2z (negb ((kernel h op).1 =? -1))
      | SysMunmap => mappings kernel h - 1
      | _ => mappings kernel h
      end
  end.

(** The locks, mappings and messages a handler holds are those it began with. *)
Record balanced (kernel : kernel_t) (w w' : world) : Prop := mk_balanced {
  bal_state : lock_depth g_state_lock (w_hist w') = lock_depth g_state_lock (w_hist w);
  bal_proc : lock_depth proc_mutex (w_hist w') = lock_depth proc_mutex (w_hist w);
  bal_map : mappings kernel (w_hist w') = mappings kernel (w_hist w);
  bal_live : w_live w' = w_live w
}.
#[export] Instance balanced_refl kernel : Reflexive (balanced kernel).
Proof. by intros w. Qed.
#[export] Instance balanced_trans kernel : Transitive (balanced kernel).
Proof. intros a b c [] []. split; congruence. Qed.

Lemma silent_balanced kernel w w' : silent w w' -> balanced kernel w w'.
Proof. intros [? ? Hh ? ?]. by split; rewrite ?Hh. Qed.

(** No descriptor is open that was not. *)
Definition fds_kept (kernel : kernel_t) (w w' : world) : Prop := no_leak kernel (w_hist w) (w_hist w').
#[export] Instance fds_kept_refl kernel : Reflexive (fds_kept kernel).
Proof. by intros w fd. Qed.
#[export] Instance fds_kept_trans kernel : Transitive (fds_kept kernel).
Proof. intros a b c H1 H2 fd H. by apply H1, H2. Qed.
Lemma silent_fds_kept kernel w w' : silent w w' -> fds_kept kernel w w'.
Proof. intros [? ? Hh ? ?] fd. by rewrite Hh. Qed.

(** ** Lemmas *)

(** What opening a handle changes: only the history. *)
Record only_calls (w w' : world) : Prop := mk_only_calls {
  oc_monitor : w_monitor w' = w_monitor w;
  oc_shm : w_shm w' = w_shm w;
  oc_live : w_live w' = w_live w;
  oc_calls : w_calls w' = w_calls w;
  oc_sent : w_sent w' = w_sent w;
  oc_methods : g_methods_called w' = g_methods_called w;
  oc_errors : g_errors_occurred w' = g_errors_occurred w
}.

Ltac handles_unfold :=
  cbv [open_shm_handle open_shm_handle_any bridge_alive close_shm_handle close_shm_handle_any no_handle];
  svc_unfold.
Ltac handles_run :=
  handles_unfold;
  repeat match goal with
  | |- context [if ?b then _ else _] => destruct b eqn:?; cbn [fst snd negb h_shm h_fd]
  end.

Section handle_lemmas.
Context (kernel : kernel_t) (sizeof_shared_data : Z).
Abbreviation open := (open_shm_handle kernel sizeof_shared_data).
Abbreviation open_any := (open_shm_handle_any kernel sizeof_shared_data).

(** A shared memory object opened and closed again leaves nothing open. *)
Lemma shm_open_close_no_leak h0 h h1 path :
  fds_same kernel h0 h -> fds_same kernel (SysShmOpen path :: h) h1 ->
  no_leak kernel h0 (SysClose (kernel h (SysShmOpen path)).1 :: h1).
Proof.
  intros H0 H1 fd. simpl. destruct (Z.eqb_spec (kernel h (SysShmOpen path)).1 fd) as [E|E]; [done|].
  rewrite (H1 fd). simpl. apply Z.eqb_neq in E. rewrite E, andb_false_r. by rewrite (H0 fd).
Qed.

(** A handle in hand: the lock and the mapping are held and the only descriptor
    that is new is the handle's. *)
Definition handle_held (h : shm_handle_t) (w w' : world) : Prop :=
  h_shm h = true /\ h_fd h <> -1 /\
  lock_depth g_state_lock (w_hist w') = lock_depth g_state_lock (w_hist w) /\
  lock_depth proc_mutex (w_hist w') = lock_depth proc_mutex (w_hist w) + 1 /\
  mappings kernel (w_hist w') = mappings kernel (w_hist w) + 1 /\
  (forall l, (forall fd, opened kernel (l ++ w_hist w') fd = opened kernel (w_hist w') fd) ->
     no_leak kernel (w_hist w) (SysClose (h_fd h) :: l ++ w_hist w')).

Ltac failed_open :=
  right; split; [done|]; split; [split; cbn; cbv [constant]; zcases; lia|]; unfold fds_kept; cbn; cbv [constant];
  first [ by intros fd
        | by apply (shm_open_close_no_leak (w_hist _))
        | zprop; intros fd; cbn; match goal with |- context [0 <=? ?r] => destruct (Z.leb_spec 0 r) end;
          [lia | by cbn] ].

Lemma open_shm_handle_spec slot w :
  let (h, w') := open slot w in
  only_calls w w' /\
  ((handle_held h w w' /\ slot < Z.of_nat MAX_SLOTS /\ daemon_alive (w_monitor w) = true /\
    magic (w_shm w) = SHM_MAGIC_VALUE /\ connected (get_slot (w_shm w) slot) = true) \/
   (h_shm h = false /\ balanced kernel w w' /\ fds_kept kernel w w')).
Proof.
  handles_run; cbn in *; cbv [constant] in *; (split; [by split|]); try failed_open.
  left. zprop. cbn in *. cbv [constant] in *. split; [|split; [lia | by repeat split]].
  split; [done|]. split; [done|]. cbn. cbv [constant]. repeat split; try lia.
  { match goal with |- context [?a =? -1] => destruct (Z.eqb_spec a (-1)); [done | cbn; lia] end. }
  intros l Hl. apply (shm_open_close_no_leak (w_hist _)); [done|]. intros fd. by rewrite (Hl fd).
Qed.

(** Closing it gives everything back. *)
Lemma close_shm_handle_spec h w w1 w2 :
  handle_held h w w1 -> w_hist w2 = w_hist w1 -> w_live w2 = w_live w ->
  let w3 := (close_shm_handle kernel h w2).2 in
  only_calls w2 w3 /\ balanced kernel w w3 /\ fds_kept kernel w w3.
Proof.
  intros (Hs & Hfd & H1 & H2 & H3 & H4) Hh Hl. handles_unfold. rewrite Hs. apply Z.eqb_neq in Hfd.
  cbn [fst snd]. rewrite Hfd. cbn. cbv [constant]. rewrite Hh. split; [by split|]. split.
  - split; cbn; [lia | lia | lia | exact Hl].
  - exact (H4 [SysMunmap; SysUnlock proc_mutex] (fun fd => eq_refl)).
Qed.

(** The handle without a slot: the mapping is held, and a descriptor that
    nothing refers to any more. *)
Definition any_held (fd : Z) (w w' : world) : Prop :=
  fd <> -1 /\ (0 <= fd -> opened kernel (w_hist w') fd = true) /\
  lock_depth g_state_lock (w_hist w') = lock_depth g_state_lock (w_hist w) /\
  lock_depth proc_mutex (w_hist w') = lock_depth proc_mutex (w_hist w) /\
  mappings kernel (w_hist w') = mappings kernel (w_hist w) + 1.

Lemma open_shm_handle_any_spec w :
  let (shm, w') := open_any w in
  only_calls w w' /\
  ((shm = true /\ daemon_alive (w_monitor w) = true /\ magic (w_shm w) = SHM_MAGIC_VALUE /\
    any_held (kernel (SysUnlock g_state_lock :: SysLock g_state_lock :: w_hist w)
                (SysShmOpen SHM_PATH)).1 w w') \/
   (shm = false /\ balanced kernel w w' /\ fds_kept kernel w w')).
Proof.
  handles_run; cbn in *; cbv [constant] in *; (split; [by split|]); try failed_open.
  left. zprop. split; [done|]. split; [done|]. split; [done|]. split; [done|]. split.
  - intros Hfd. cbn. destruct (Z.leb_spec 0 (kernel (SysUnlock g_state_lock :: SysLock g_state_lock ::
      w_hist w) (SysShmOpen SHM_PATH)).1); [|lia]. by rewrite Z.eqb_refl.
  - cbn. repeat split; try lia.
    match goal with |- context [?a =? -1] => destruct (Z.eqb_spec a (-1)); [done | cbn; lia] end.
Qed.

(** ** The synchronous request *)

Section request.
Context (env : nat -> shared_data_t -> shared_data_t).

(** What a request leaves alone. *)
Record request_frame (w w' : world) : Prop := mk_request_frame {
  rf_monitor : w_monitor w' = w_monitor w;
  rf_sent : w_sent w' = w_sent w;
  rf_calls : w_calls w' = w_calls w;
  rf_methods : g_methods_called w' = g_methods_called w;
  rf_errors : g_errors_occurred w' = g_errors_occurred w;
  rf_balanced : balanced kernel w w';
  rf_fds : fds_same kernel (w_hist w) (w_hist w')
}.
#[export] Instance request_frame_trans : Transitive request_frame.
Proof.
  intros a b c [] []. split; try congruence; first [by etransitivity | by eapply fds_same_trans].
Qed.

Ltac frame_done :=
  split; cbn; cbv [constant]; try done; try (split; cbn; cbv [constant]; lia); try (by intros fd).

(** The same text, but for the one after a timeout. *)
Definition same_message (msg_size : nat) (msg msg0 : string) : Prop :=
  msg = msg0 \/
  (msg = strn (msg_size - 1) "Timeout waiting for daemon response" /\
   msg0 = strn (msg_size - 1) "Timeout waiting for daemon").

Lemma await_response_agrees n i msg_size w :
  let '(ok, msg, w') := await_response kernel env n i msg_size w in
  let '(shm, ok0, msg0) := wait_response n env i msg_size (w_shm w) in
  w_shm w' = shm /\ ok = ok0 /\ same_message msg_size msg msg0 /\
  request_frame w w'.
Proof.
  revert i w. induction n as [|n IH]; intros i w; cbn [await_response wait_response].
  { svc_unfold. repeat (split; [done|]). split; [by right | frame_done]. }
  cbv [on_shm]. svc_unfold. cbn. cbv [constant].
  destruct (profile_response (env i (w_shm w)) =? 0); cbn [negb].
  - specialize (IH (S i) (w {{ w_shm := env i (w_shm w) }})). cbn in IH. cbv [constant] in IH.
    destruct (await_response _ _ _ _ _ _) as [[ok msg] w']. destruct (wait_response _ _ _ _ _) as [[shm ok0] msg0].
    destruct IH as (? & ? & ? & Hf). repeat (split; [done|]). destruct Hf as [? ? ? ? ? [? ? ? ?] ?]. by split.
  - repeat (split; [done|]). split; [by left | frame_done].
Qed.

Lemma shm_request_sync_agrees request name auto_enable auto_delay msg_size w :
  let '(ok, msg, w') := shm_request_sync kernel env request name auto_enable auto_delay msg_size w in
  let '(shm, ok0, msg0) := profile_request_sync env request name auto_enable auto_delay msg_size (w_shm w) in
  w_shm w' = shm /\ ok = ok0 /\ same_message msg_size msg msg0 /\
  request_frame w w'.
Proof.
  unfold shm_request_sync, profile_request_sync. cbv [on_shm]. svc_unfold.
  match goal with |- context [await_response _ _ ?n ?i ?s ?w1] =>
    pose proof (await_response_agrees n i s w1) as H; destruct (await_response kernel env n i s w1) as [[ok msg] w'] end.
  cbn in H. cbv [constant] in H.
  change (wait_response _ env 0 msg_size _) with
    (wait_response (Z.to_nat (1000 / 20)) env 0 msg_size
       (profile_request_post request name auto_enable auto_delay (w_shm w))) in H.
  destruct (wait_response _ _ _ _ _) as [[shm ok0] msg0]. destruct H as (? & ? & ? & Hf).
  repeat (split; [done|]). destruct Hf as [? ? ? ? ? [B1 B2 B3 B4] F]. cbn in *. cbv [constant] in *.
  split; try done. split; lia.
Qed.
End request.
End handle_lemmas.

(** * Property *)

(** C22: a request the D-Bus service makes on the mapped memory leaves it as the
    command line's request does, with the same answer and the same message but
    for the wording of a timeout; it gives its locks back and touches nothing
    else of the service. *)
Theorem bridge_request_equiv kernel env request name auto_enable auto_delay msg_size w :
  let '(ok, msg, w') := shm_request_sync kernel env request name auto_enable auto_delay msg_size w in
  let '(shm, ok0, msg0) := profile_request_sync env request name auto_enable auto_delay msg_size (w_shm w) in
  w_shm w' = shm /\ ok = ok0 /\
  (msg = msg0 \/
   msg = strn (msg_size - 1) "Timeout waiting for daemon response" /\
   msg0 = strn (msg_size - 1) "Timeout waiting for daemon") /\
  lock_depth g_state_lock (w_hist w') = lock_depth g_state_lock (w_hist w) /\
  lock_depth proc_mutex (w_hist w') = lock_depth proc_mutex (w_hist w) /\
  w_monitor w' = w_monitor w /\ w_sent w' = w_sent w.
Proof.
  pose proof (shm_request_sync_agrees kernel env request name auto_enable auto_delay msg_size w) as H.
  destruct (shm_request_sync _ _ _ _ _ _ _ _) as [[ok msg] w'].
  destruct (profile_request_sync _ _ _ _ _ _ _) as [[shm ok0] msg0].
  destruct H as (E1 & E2 & E3 & [E4 E5 _ _ _ [E6 E7 _ _] _]). exact (conj E1 (conj E2 (conj E3 (conj E6 (conj E7 (conj E4 E5)))))).
Qed.
