(* ===== verification/Handlers.v ===== *)
(** * The D-Bus method handlers ([dbus-handlers.c])

    One definition per handler, with its replies, and the table that dispatches
    a call.  A read goes to the bridge's copies of the slots or to the shared
    memory, as in the code; a write goes to the shared memory, under its
    lock. *)

From S2P Require Import Prelude Types Sys Keys Utils Led Settings Commands Bridge Bus Handles.
Local Open Scope Z_scope.

Definition DSTX_CORE_VERSION : string := "0.8.0".
Definition DSTX_UNIT : string := "dstx-daemon.service".

Section handlers.
Context (kernel : kernel_t) (answers : nat -> bool) `{B : DBus}
  (bus_call : string -> string -> string -> list dbus_value -> option dbus_message_t)
  (sizeof_shared_data : Z) (env : nat -> shared_data_t -> shared_data_t).
(** The wait status [system] returns for a command. *)
Context (system : string -> Z).

Abbreviation send_error := (send_error answers).
Abbreviation send_basic_reply := (send_basic_reply answers).
Abbreviation new_message := (new_message answers).
Abbreviation lock := (fun mu => call_ kernel (SysLock mu)).
Abbreviation unlock := (fun mu => call_ kernel (SysUnlock mu)).
Abbreviation open_shm_handle := (open_shm_handle kernel sizeof_shared_data).
Abbreviation close_shm_handle := (close_shm_handle kernel).
Abbreviation open_shm_handle_any := (open_shm_handle_any kernel sizeof_shared_data).
Abbreviation close_shm_handle_any := (close_shm_handle_any kernel).
Abbreviation shm_request_sync := (shm_request_sync kernel env).

(** The end of a handler that has a reply: sent, released, counted. *)
Definition reply_with (args : list dbus_value) : svc unit :=
  _ ← connection_send answers (MethodReturn args);
  unref;;; count_method.
Definition failed (text : string) : svc unit := send_error DBUS_ERROR_FAILED text.
Definition invalid (text : string) : svc unit := send_error DBUS_ERROR_INVALID_ARGS text.
Definition no_reply : svc unit := failed "Failed to create reply".

(** The check every handler of a slot begins with. *)
Definition in_range (slot : Z) (k : svc unit) : svc unit :=
  if Z.of_nat MAX_SLOTS <=? slot then invalid "Slot out of range" else k.

(** ** Getters *)

Definition handle_get_core_version (msg : dbus_message_t) : svc unit :=
  reply ← new_message;
  if negb reply then no_reply
  else
    appended ← ask answers;
    if negb appended then failed "Failed to append version";;; unref
    else reply_with [DString DSTX_CORE_VERSION].

Definition connected_slots (w : world) : list dbus_value :=
  if daemon_alive (w_monitor w)
  then map (fun i => DByte (Z.of_nat i))
         (List.filter (fun i => connected (copied_slot w (Z.of_nat i))) (seq 0 MAX_SLOTS))
  else [].

Definition handle_get_controllers (msg : dbus_message_t) : svc unit :=
  reply ← new_message;
  if negb reply then no_reply
  else
    opened ← ask answers;
    if negb opened then failed "Failed to open array container";;; unref
    else
      lock g_state_lock;;;
      l ← gets connected_slots;
      unlock g_state_lock;;;
      reply_with [DArray l].

(** The guards of a getter of a slot, under the lock of the bridge's state; [k]
    runs with the lock held. *)
Definition with_copy (msg : dbus_message_t) (k : Z -> svc unit) : svc unit :=
  match dbus_message_get_args msg [DBUS_TYPE_BYTE] with
  | Some [DByte slot] =>
      in_range slot
        (lock g_state_lock;;;
         alive ← gets (fun w => daemon_alive (w_monitor w));
         if negb alive then unlock g_state_lock;;; failed "Daemon not connected"
         else
           c ← gets (fun w => connected (copied_slot w slot));
           if negb c then unlock g_state_lock;;; failed "Controller not connected"
           else k slot)
  | _ => invalid "Expected slot number"
  end.

Definition type_value (t : controller_type_t) : Z :=
  match t with TYPE_DS4 => 0 | TYPE_DUALSENSE => 1 | TYPE_NSW_PRO => 2 end.

Definition controller_info (c : controller_t) : list dbus_value :=
  let current_effect := u32 (led_request_effect c) in
  let current_effect := if 8 <? current_effect then 0 else current_effect in
  let effect_speed := if led_request_speed c <? 1 then 5 else led_request_speed c in
  map DUint32
    [type_value (ctype c); b2z (is_bluetooth c); led_r c; led_g c; led_b c;
     led_base_r c; led_base_g c; led_base_b c; u32 (battery c); rumble_gain c; deadzone c;
     global_led_brightness c; player_leds c; b2z (emulate_active c); b2z (is_uhid c);
     b2z (is_trigger_digital c); b2z (debounce_enabled c); b2z (led_reapply c);
     b2z (rumble_active c); b2z (invert_ly c); b2z (invert_ry c);
     sensitivity_left_preset c; sensitivity_right_preset c; b2z (led_static c);
     current_effect; effect_speed] ++
  map DInt32 [LX c; LY c; RX c; RY c; LT c; RT c; HATX c; HATY c] ++
  map (fun z => DUint32 (u32 z))
    [square c; cross c; circle c; triangle c; L1 c; R1 c; L2 c; R2 c; Share c; Options c;
     PS c; L3 c; R3 c; touch_btn c; dpad_up c; dpad_down c; dpad_left c; dpad_right c].

Definition handle_get_controller_info (msg : dbus_message_t) : svc unit :=
  with_copy msg (fun slot =>
    reply ← new_message;
    if negb reply then unlock g_state_lock;;; no_reply
    else
      args ← gets (fun w => controller_info (copied_slot w slot));
      unlock g_state_lock;;;
      reply_with args).

Definition telemetry_reply (c : controller_t) : list dbus_value :=
  let dpad := if truthy (dpad_up c) then 1 else if truthy (dpad_down c) then 2
              else if truthy (dpad_left c) then 3 else if truthy (dpad_right c) then 4 else 0 in
  map (fun z => DInt16 (i16 z)) (axes_of c) ++ [DUint16 (pack_buttons c); DByte dpad].

(** A getter that copies its values under the lock and makes its reply after. *)
Definition copy_then_reply (msg : dbus_message_t) (f : controller_t -> list dbus_value) : svc unit :=
  with_copy msg (fun slot =>
    args ← gets (fun w => f (copied_slot w slot));
    unlock g_state_lock;;;
    reply ← new_message;
    if negb reply then no_reply else reply_with args).

Definition handle_get_telemetry (msg : dbus_message_t) : svc unit := copy_then_reply msg telemetry_reply.

Definition detailed_info (c : controller_t) : list dbus_value :=
  [DString (product_name c); DString (uniq c); DString (driver c);
   DArray (map (fun n => DStruct [DString (node_path n); DString (node_name n)])
             (take (Nat.min (Z.to_nat (num_input_nodes c)) MAX_INPUT_NODES) (input_nodes c)))].

Definition handle_get_detailed_info (msg : dbus_message_t) : svc unit :=
  with_copy msg (fun slot =>
    reply ← new_message;
    if negb reply then unlock g_state_lock;;; no_reply
    else
      args ← gets (fun w => detailed_info (copied_slot w slot));
      unlock g_state_lock;;;
      reply_with args).

Definition handle_get_invert_status (msg : dbus_message_t) : svc unit :=
  copy_then_reply msg (fun c => [DBool (invert_ly c); DBool (invert_ry c)]).
Definition handle_get_sensitivity_preset (msg : dbus_message_t) : svc unit :=
  copy_then_reply msg (fun c => [DByte (sensitivity_left_preset c); DByte (sensitivity_right_preset c)]).

Definition handle_get_keymap (msg : dbus_message_t) : svc unit :=
  match dbus_message_get_args msg [DBUS_TYPE_BYTE] with
  | Some [DByte slot] =>
      in_range slot
        (h ← open_shm_handle slot;
         if negb (h_shm h) then failed "Controller not connected"
         else
           reply ← new_message;
           if negb reply then no_reply;;; close_shm_handle h
           else
             l ← gets (fun w => map DByte (take PHY_BTN_COUNT (keymap (get_slot (w_shm w) slot))));
             _ ← connection_send answers (MethodReturn [DArray l]);
             unref;;; close_shm_handle h;;; count_method)
  | _ => invalid "Expected slot number"
  end.

Definition handle_get_triggers_digital (msg : dbus_message_t) : svc unit :=
  match dbus_message_get_args msg [DBUS_TYPE_BYTE] with
  | Some [DByte slot] =>
      in_range slot
        (h ← open_shm_handle slot;
         if negb (h_shm h) then failed "Controller not connected"
         else
           enabled ← gets (fun w => is_trigger_digital (get_slot (w_shm w) slot));
           close_shm_handle h;;;
           reply ← new_message;
           if negb reply then no_reply
           else
             appended ← ask answers;
             if negb appended then failed "Failed to append arguments";;; unref
             else reply_with [DBool enabled])
  | _ => invalid "Expected slot number"
  end.
(** ** Setters

    Under the handle of the slot the members are stored; then the empty reply.
    Without a handle the handler returns. *)
Definition store (slot : Z) (f : controller_t -> controller_t) : svc unit :=
  h ← open_shm_handle slot;
  if negb (h_shm h) then mret tt
  else
    on_shm (fun shm => put_slot shm slot (f (get_slot shm slot)));;;
    close_shm_handle h;;;
    _ ← send_basic_reply;
    mret tt.

Definition handle_set_led (msg : dbus_message_t) : svc unit :=
  match dbus_message_get_args msg [DBUS_TYPE_BYTE; DBUS_TYPE_BYTE; DBUS_TYPE_BYTE; DBUS_TYPE_BYTE] with
  | Some [DByte slot; DByte r; DByte g; DByte b] =>
      in_range slot (store slot (fun c =>
        c {{ led_static := true; led_request_pending := false;
             led_base_r := r; led_base_g := g; led_base_b := b;
             led_r := r; led_g := g; led_b := b; led_dirty := true }}))
  | _ => invalid "Expected slot,r,g,b"
  end.

Definition handle_set_effect (msg : dbus_message_t) : svc unit :=
  match dbus_message_get_args msg [DBUS_TYPE_BYTE; DBUS_TYPE_BYTE; DBUS_TYPE_BYTE; DBUS_TYPE_BYTE] with
  | Some [DByte slot; DByte effect; DByte speed; DByte brightness] =>
      in_range slot (store slot (fun c =>
        c {{ led_static := false; led_request_effect := effect; led_request_speed := speed;
             led_request_brightness := brightness; led_request_pending := true }}))
  | _ => invalid "Expected slot,effect,speed,brightness"
  end.

(** A setter of one byte. *)
Definition set_byte (expected : string) (k : Z -> Z -> svc unit) (msg : dbus_message_t) : svc unit :=
  match dbus_message_get_args msg [DBUS_TYPE_BYTE; DBUS_TYPE_BYTE] with
  | Some [DByte slot; DByte v] => in_range slot (k slot v)
  | _ => invalid expected
  end.

Definition handle_set_gain : dbus_message_t -> svc unit :=
  set_byte "Expected slot,gain" (fun slot gain =>
    let gain := if 100 <? gain then 100 else gain in
    store slot (fun c => c {{ rumble_gain := gain }})).
Definition handle_set_deadzone : dbus_message_t -> svc unit :=
  set_byte "Expected slot,deadzone" (fun slot dz =>
    let dz := if 100 <? dz then 100 else dz in
    store slot (fun c => c {{ deadzone := dz }})).
Definition handle_set_global_brightness : dbus_message_t -> svc unit :=
  set_byte "Expected slot,brightness" (fun slot brightness =>
    let brightness := if 100 <? brightness then 100 else brightness in
    store slot (fun c => c {{ global_led_brightness := brightness; led_dirty := true }})).
Definition handle_set_player_leds : dbus_message_t -> svc unit :=
  set_byte "Expected slot,mode" (fun slot mode =>
    let mode := if 5 <? mode then 5 else mode in
    store slot (fun c => c {{ player_leds := mode; led_dirty := true }})).

(** A setter of one flag. *)
Definition set_flag (expected : string) (f : bool -> controller_t -> controller_t)
  (msg : dbus_message_t) : svc unit :=
  match dbus_message_get_args msg [DBUS_TYPE_BYTE; DBUS_TYPE_BOOLEAN] with
  | Some [DByte slot; DBool enable] => in_range slot (store slot (f enable))
  | _ => invalid expected
  end.

Definition handle_set_emulate : dbus_message_t -> svc unit :=
  set_flag "Expected slot,enable" (fun v c => c {{ emulate_active := v }}).
Definition handle_set_uhid : dbus_message_t -> svc unit :=
  set_flag "Expected slot,enable" (fun v c =>
    if negb (Bool.eqb (is_uhid c) v)
    then (c {{ is_uhid := v; emulate_active := false }}) {{ emulate_active := true }} else c).
Definition handle_set_debounce : dbus_message_t -> svc unit :=
  set_flag "Expected slot,enable" (fun v c => c {{ debounce_enabled := v }}).
Definition handle_set_invert_ly : dbus_message_t -> svc unit :=
  set_flag "Expected slot,enable" (fun v c => c {{ invert_ly := v }}).
Definition handle_set_invert_ry : dbus_message_t -> svc unit :=
  set_flag "Expected slot,enable" (fun v c => c {{ invert_ry := v }}).
Definition handle_set_led_reapply : dbus_message_t -> svc unit :=
  set_flag "Expected slot,enable" (fun v c => c {{ led_reapply := v }}).
Definition handle_set_rumble_active : dbus_message_t -> svc unit :=
  set_flag "Expected slot,enable" (fun v c =>
    if negb (Bool.eqb (rumble_active c) v) then
      let c := c {{ rumble_active := v }} in
      if negb v then c {{ rumble_strong := 0; rumble_weak := 0; rumble_dirty := true }} else c
    else c).
Definition handle_set_triggers_digital : dbus_message_t -> svc unit :=
  set_flag "Expected slot, enable" (fun v c => c {{ is_trigger_digital := v }}).
Definition handle_set_switch_layout_legacy : dbus_message_t -> svc unit :=
  set_flag "Expected slot, enable" (fun v c =>
    if v then c {{ request_switch_layout := true }} else c {{ request_xbox_layout := true }}).

Definition handle_set_sensitivity_preset_left : dbus_message_t -> svc unit :=
  set_byte "Expected slot,preset" (fun slot preset =>
    if SENS_PRESET_COUNT <=? preset then invalid "Preset out of range"
    else store slot (fun c => c {{ sensitivity_left_preset := preset }})).
Definition handle_set_sensitivity_preset_right : dbus_message_t -> svc unit :=
  set_byte "Expected slot,preset" (fun slot preset =>
    if SENS_PRESET_COUNT <=? preset then invalid "Preset out of range"
    else store slot (fun c => c {{ sensitivity_right_preset := preset }})).

Definition handle_set_keybind (msg : dbus_message_t) : svc unit :=
  match dbus_message_get_args msg [DBUS_TYPE_BYTE; DBUS_TYPE_BYTE; DBUS_TYPE_BYTE] with
  | Some [DByte slot; DByte physical; DByte logical] =>
      in_range slot
        (if Z.of_nat PHY_BTN_COUNT <=? physical then invalid "Physical button out of range"
         else if LOGICAL_BTN_COUNT <=? logical then invalid "Logical button out of range"
         else store slot (fun c =>
           c {{ keymap := aset (keymap c) physical logical; led_dirty := true }}))
  | _ => invalid "Expected slot, physical, logical"
  end.

(** A setter without a value. *)
Definition set_slot (f : controller_t -> controller_t) (msg : dbus_message_t) : svc unit :=
  match dbus_message_get_args msg [DBUS_TYPE_BYTE] with
  | Some [DByte slot] => in_range slot (store slot f)
  | _ => invalid "Expected slot number"
  end.

Definition handle_reset_keybinds : dbus_message_t -> svc unit :=
  set_slot (fun c => c {{ keymap := keys_get_default_map (ctype c) (keymap c); led_dirty := true }}).
Definition handle_reset_all_keybinds : dbus_message_t -> svc unit :=
  set_slot (fun c => c {{ request_reset_all_keybinds := true }}).
Definition handle_apply_switch_layout : dbus_message_t -> svc unit :=
  set_slot (fun c => c {{ request_switch_layout := true }}).
Definition handle_apply_xbox_layout : dbus_message_t -> svc unit :=
  set_slot (fun c => c {{ request_xbox_layout := true }}).

(** ** Control of the core service *)

(** A reply with one value after an action. *)
Definition answer (v : dbus_value) : svc unit :=
  reply ← new_message;
  if negb reply then no_reply else reply_with [v].

Definition unit_action (act : string -> string -> svc Z) : svc unit :=
  ret ← act DSTX_UNIT "replace"%string;
  answer (DInt32 (if ret =? 0 then 0 else -1)).

Definition handle_start_core_service (msg : dbus_message_t) : svc unit :=
  unit_action (systemd_start_unit answers bus_call).
Definition handle_stop_core_service (msg : dbus_message_t) : svc unit :=
  unit_action (systemd_stop_unit answers bus_call).
Definition handle_restart_core_service (msg : dbus_message_t) : svc unit :=
  unit_action (systemd_restart_unit answers bus_call).
Definition handle_is_core_service_active (msg : dbus_message_t) : svc unit :=
  active ← systemd_unit_is_active answers bus_call DSTX_UNIT;
  answer (DBool active).
Definition handle_is_core_service_enabled (msg : dbus_message_t) : svc unit :=
  enabled ← systemd_unit_is_enabled answers bus_call DSTX_UNIT;
  answer (DBool enabled).

(** [WIFEXITED(status) ? WEXITSTATUS(status) : -1]. *)
Definition exit_status (status : Z) : Z :=
  if Z.land status 0x7f =? 0 then Z.shiftr (Z.land status 0xff00) 8 else -1.
Definition handle_enable_core_service (msg : dbus_message_t) : svc unit :=
  answer (DInt32 (exit_status (system "systemctl enable dstx-daemon.service"))).
Definition handle_disable_core_service (msg : dbus_message_t) : svc unit :=
  answer (DInt32 (exit_status (system "systemctl disable dstx-daemon.service"))).

(** ** Profiles *)

(** A read of the shared memory without its lock; the mapping is held until the
    reply is sent. *)
Definition read_any (f : shared_data_t -> list dbus_value) : svc unit :=
  shm ← open_shm_handle_any;
  if negb shm then failed "Daemon not connected"
  else
    args ← gets (fun w => f (w_shm w));
    reply ← new_message;
    if negb reply then no_reply;;; close_shm_handle_any shm
    else
      _ ← connection_send answers (MethodReturn args);
      unref;;; close_shm_handle_any shm;;; count_method.

Definition handle_get_auto_save_status (msg : dbus_message_t) : svc unit :=
  read_any (fun shm => [DBool (negb (auto_save_enabled shm =? 0)); DInt32 (auto_save_delay_ms shm)]).
Definition handle_get_current_profile (msg : dbus_message_t) : svc unit :=
  read_any (fun shm =>
    [DString (if String.eqb (current_profile_name shm) EmptyString then "default"
              else current_profile_name shm)]).

(** A request to the settings thread: [k] is given the outcome. *)
Definition request_any (request : Z) (name : option string) (enable delay : Z) (size : nat)
  (k : bool -> string -> svc unit) : svc unit :=
  shm ← open_shm_handle_any;
  if negb shm then failed "Daemon not connected"
  else
    r ← shm_request_sync request name enable delay size;
    close_shm_handle_any shm;;;
    k r.1 r.2.

Definition handle_list_profiles (msg : dbus_message_t) : svc unit :=
  request_any 4 None (-1) (-1) 4096 (fun ok resp_msg =>
    if ok then
      reply ← new_message;
      if negb reply then no_reply
      else
        appended ← ask answers;
        if negb appended then failed "Failed to append list";;; unref
        else reply_with [DString resp_msg]
    else failed resp_msg;;; count_method).

Definition named_request (request : Z) (msg : dbus_message_t) : svc unit :=
  match dbus_message_get_args msg [DBUS_TYPE_STRING] with
  | Some [DString name] =>
      request_any request (Some name) (-1) (-1) 512 (fun ok resp_msg =>
        if ok then _ ← send_basic_reply; mret tt else failed resp_msg)
  | _ => invalid "Expected profile name"
  end.
Definition handle_load_profile : dbus_message_t -> svc unit := named_request 1.
Definition handle_save_profile : dbus_message_t -> svc unit := named_request 2.
Definition handle_delete_profile : dbus_message_t -> svc unit := named_request 3.

Definition handle_set_auto_save (msg : dbus_message_t) : svc unit :=
  match dbus_message_get_args msg [DBUS_TYPE_BOOLEAN; DBUS_TYPE_INT32] with
  | Some [DBool enable; DInt32 delay_ms] =>
      let delay_ms := if delay_ms <? 100 then 100 else delay_ms in
      let delay_ms := if 10000 <? delay_ms then 10000 else delay_ms in
      request_any 5 None (b2z enable) delay_ms 512 (fun ok resp_msg =>
        (if ok then
           reply ← new_message;
           if reply : bool then
             _ ← connection_send answers (MethodReturn [DString resp_msg]);
             unref
           else no_reply
         else failed resp_msg);;;
        count_method)
  | _ => invalid "Expected enable (bool) and delay_ms (int32)"
  end.

(** ** Dispatch *)

Definition methods : list (string * (dbus_message_t -> svc unit)) :=
  [ ("GetCoreVersion", handle_get_core_version); ("GetControllers", handle_get_controllers);
    ("GetControllerInfo", handle_get_controller_info); ("GetTelemetry", handle_get_telemetry);
    ("GetDetailedInfo", handle_get_detailed_info); ("GetInvertStatus", handle_get_invert_status);
    ("GetSensitivityPreset", handle_get_sensitivity_preset); ("GetKeymap", handle_get_keymap);
    ("SetLED", handle_set_led); ("SetEffect", handle_set_effect); ("SetGain", handle_set_gain);
    ("SetDeadzone", handle_set_deadzone); ("SetGlobalBrightness", handle_set_global_brightness);
    ("SetPlayerLEDs", handle_set_player_leds); ("SetEmulate", handle_set_emulate);
    ("SetUHID", handle_set_uhid); ("SetDebounce", handle_set_debounce);
    ("SetLEDReapply", handle_set_led_reapply); ("SetRumbleActive", handle_set_rumble_active);
    ("SetInvertLY", handle_set_invert_ly); ("SetInvertRY", handle_set_invert_ry);
    ("SetSensitivityPresetLeft", handle_set_sensitivity_preset_left);
    ("SetSensitivityPresetRight", handle_set_sensitivity_preset_right);
    ("SetKeybind", handle_set_keybind); ("ResetKeybinds", handle_reset_keybinds);
    ("ResetAllKeybinds", handle_reset_all_keybinds);
    ("SetTriggersDigital", handle_set_triggers_digital);
    ("GetTriggersDigital", handle_get_triggers_digital);
    ("ApplySwitchLayout", handle_apply_switch_layout); ("ApplyXboxLayout", handle_apply_xbox_layout);
    ("SetSwitchLayout", handle_set_switch_layout_legacy);
    ("StartCoreService", handle_start_core_service); ("StopCoreService", handle_stop_core_service);
    ("RestartCoreService", handle_restart_core_service);
    ("IsCoreServiceActive", handle_is_core_service_active);
    ("IsCoreServiceEnabled", handle_is_core_service_enabled);
    ("EnableCoreService", handle_enable_core_service);
    ("DisableCoreService", handle_disable_core_service);
    ("GetAutoSaveStatus", handle_get_auto_save_status);
    ("GetCurrentProfile", handle_get_current_profile); ("ListProfiles", handle_list_profiles);
    ("LoadProfile", handle_load_profile); ("SaveProfile", handle_save_profile);
    ("DeleteProfile", handle_delete_profile); ("SetAutoSave", handle_set_auto_save) ]%string.

Definition BRIDGE_INTERFACE : string := "org.dstx.Bridge".

(** [true] is [DBUS_HANDLER_RESULT_HANDLED]. *)
Definition message_handler (msg : dbus_message_t) : svc bool :=
  match dbus_message_get_interface msg, dbus_message_get_member msg with
  | Some interface, Some member =>
      if negb (String.eqb interface BRIDGE_INTERFACE) then mret false
      else
        match find (fun h => String.eqb (fst h) member) methods with
        | Some h => snd h msg;;; mret true
        | None => mret false
        end
  | _, _ => mret false
  end.
End handlers.

(** * Specification *)

(** One reply was sent. *)
Definition answered (w w' : world) : Prop :=
  exists r, w_sent w' = w_sent w ++ [r] /\ match r with SignalOut _ _ => False | _ => True end.

(** The methods that map the memory without a slot. *)
Definition any_methods : list string :=
  ["GetAutoSaveStatus"; "GetCurrentProfile"; "ListProfiles"; "LoadProfile"; "SaveProfile";
   "DeleteProfile"; "SetAutoSave"]%string.

(** The methods that store into a slot. *)
Definition setter_methods : list string :=
  ["SetLED"; "SetEffect"; "SetGain"; "SetDeadzone"; "SetGlobalBrightness"; "SetPlayerLEDs";
   "SetEmulate"; "SetUHID"; "SetDebounce"; "SetLEDReapply"; "SetRumbleActive"; "SetInvertLY";
   "SetInvertRY"; "SetSensitivityPresetLeft"; "SetSensitivityPresetRight"; "SetKeybind";
   "ResetKeybinds"; "ResetAllKeybinds"; "SetTriggersDigital"; "ApplySwitchLayout";
   "ApplyXboxLayout"; "SetSwitchLayout"]%string.

Definition mem (s : string) (l : list string) : bool := existsb (String.eqb s) l.

(** Unfold the monad, not the library. *)
Ltac monad_unfold := cbv [mbind svc_bind mret svc_ret on_shm modify gets].

Section lemmas.
Context (kernel : kernel_t) (answers : nat -> bool) `{B : DBus}
  (bus_call : string -> string -> string -> list dbus_value -> option dbus_message_t)
  (sizeof_shared_data : Z) (env : nat -> shared_data_t -> shared_data_t) (system : string -> Z).

Abbreviation open := (open_shm_handle kernel sizeof_shared_data).

(** What a handler keeps: locks, mappings and messages; the descriptors, unless
    it is one that leaks; and, when the library does not fail, whether it
    answers.  A setter may not, and then it did nothing. *)
Record handled (leaks quiet : bool) (m : svc unit) (w : world) : Prop := mk_handled {
  hd_balanced : balanced kernel w (m w).2;
  hd_fds : leaks = false -> fds_kept kernel w (m w).2;
  hd_answer : (forall n, answers n = true) ->
    answered w (m w).2 \/
    (quiet = true /\ w_sent (m w).2 = w_sent w /\ w_shm (m w).2 = w_shm w /\
     exists slot, h_shm (open slot w).1 = false)
}.

Lemma handled_silent leaks quiet m w :
  silent w (m w).2 -> ((forall n, answers n = true) -> answered w (m w).2) -> handled leaks quiet m w.
Proof. intros Hs Ha. split; auto using silent_balanced, silent_fds_kept. Qed.

Lemma send_error_handled leaks quiet name text w : handled leaks quiet (send_error answers name text) w.
Proof.
  apply handled_silent; [apply send_error_silent|]. intros Hok. eexists.
  split; [by apply send_error_sends | done].
Qed.

Ltac handler_unfold :=
  cbv [reply_with failed invalid no_reply answer copied_slot]; svc_unfold.
(** When the library does not fail: run the code and find the reply. *)
Ltac run_answer Hok :=
  handler_unfold; repeat (rewrite Hok; cbn [fst snd negb]); cbn; cbv [constant];
  eexists; split; [reflexivity | exact I].
Ltac run_silent := handler_unfold; svc_run; silent_done.
Ltac handle_silently :=
  apply handled_silent; [run_silent | intros Hok; run_answer Hok].

Definition reply_new (args : list dbus_value) : svc unit :=
  reply ← new_message answers; if negb reply then no_reply answers else reply_with answers args.
Lemma reply_new_handled leaks quiet args w : handled leaks quiet (reply_new args) w.
Proof. unfold reply_new. handle_silently. Qed.

Lemma version_handled leaks quiet msg w : handled leaks quiet (handle_get_core_version answers msg) w.
Proof. unfold handle_get_core_version. handle_silently. Qed.

(** System calls before a handler that leave what is held as it is. *)
Lemma handled_after leaks quiet (m m0 : svc unit) w w0 :
  m w = m0 w0 -> w_sent w0 = w_sent w -> w_shm w0 = w_shm w -> balanced kernel w w0 ->
  fds_kept kernel w w0 -> quiet = false -> handled leaks quiet m0 w0 -> handled leaks quiet m w.
Proof.
  intros E Hs Hm Hb Hf -> [H1 H2 H3]. split; rewrite E; [by etransitivity | |].
  - intros Hl. etransitivity; eauto.
  - intros Hok. destruct (H3 Hok) as [(r & Hr & ?)|[? _]]; [|done]. left. exists r. by rewrite Hr, Hs.
Qed.

(** The arguments of a message: all cases but the expected one are answered with
    an error. *)
Ltac args_cases :=
  repeat match goal with
  | |- handled _ _ (match ?x with _ => _ end) _ => destruct x; try apply send_error_handled
  end.

(** A section of the bridge's lock before a handler. *)
Definition locked (w : world) : world :=
  w {{ w_hist := SysUnlock g_state_lock :: SysLock g_state_lock :: w_hist w }}.
Lemma locked_handled leaks (m m0 : svc unit) w :
  m w = m0 (locked w) -> handled leaks false m0 (locked w) -> handled leaks false m w.
Proof.
  intros E H. apply (handled_after _ _ m m0 w (locked w)); try done; [|by intros fd].
  split; cbn; cbv [constant]; lia.
Qed.

(** The three parts by running the code. *)
Ltac handle_run :=
  split;
  [ handler_unfold; svc_run; (split; cbn; cbv [constant]; lia)
  | intros _; handler_unfold; svc_run; (intros ?; done)
  | intros Hok; left; run_answer Hok ].

Lemma controllers_handled leaks msg w : handled leaks false (handle_get_controllers kernel answers msg) w.
Proof. unfold handle_get_controllers. handle_run. Qed.

Lemma in_range_handled leaks quiet slot k w :
  (slot < Z.of_nat MAX_SLOTS -> handled leaks quiet k w) -> handled leaks quiet (in_range answers slot k) w.
Proof.
  intros H. unfold in_range. destruct (Z.leb_spec (Z.of_nat MAX_SLOTS) slot); [apply send_error_handled | auto].
Qed.

Lemma with_copy_handled leaks msg k w :
  (forall slot, handled leaks false (fun w => k slot (w {{ w_hist := SysLock g_state_lock :: w_hist w }})) w) ->
  handled leaks false (with_copy kernel answers msg k) w.
Proof.
  intros Hk. unfold with_copy.
  args_cases.
  apply in_range_handled. intros _.
  set (m := _;;; _). destruct (daemon_alive (w_monitor w)) eqn:Ea.
  - destruct (connected (copied_slot w z)) eqn:Ec.
    + destruct (Hk z) as [H1 H2 H3].
      assert (m w = k z (w {{ w_hist := SysLock g_state_lock :: w_hist w }})) as E.
      { unfold m. svc_unfold. cbn in *. cbv [constant]. rewrite Ea. cbn. change (copied_slot _ z) with (copied_slot w z).
        by rewrite Ec. }
      split; by rewrite E.
    + apply (locked_handled leaks m (failed answers "Controller not connected")); [|apply send_error_handled].
      unfold m. svc_unfold. cbn. cbv [constant]. rewrite Ea. cbn. change (copied_slot _ z) with (copied_slot w z).
      by rewrite Ec.
  - apply (locked_handled leaks m (failed answers "Daemon not connected")); [|apply send_error_handled].
    unfold m. svc_unfold. cbn. cbv [constant]. by rewrite Ea.
Qed.

Lemma copy_then_reply_handled leaks msg f w : handled leaks false (copy_then_reply kernel answers msg f) w.
Proof.
  apply with_copy_handled. intros slot.
  apply (locked_handled leaks _ (reply_new (f (copied_slot w slot)))); [done | apply reply_new_handled].
Qed.

Lemma info_handled leaks msg w :
  handled leaks false (handle_get_controller_info kernel answers msg) w /\
  handled leaks false (handle_get_detailed_info kernel answers msg) w.
Proof. split; apply with_copy_handled; intros slot; handle_run. Qed.

(** A handle opened, used and closed, with talk on the bus after. *)
Lemma closed_handled leaks quiet h w w1 w2 (m : svc unit) :
  handle_held kernel h w w1 -> w_hist w2 = w_hist w1 -> w_live w2 = w_live w ->
  silent (close_shm_handle kernel h w2).2 (m w).2 ->
  ((forall n, answers n = true) -> answered w (m w).2) -> handled leaks quiet m w.
Proof.
  intros Hh Hi Hl Hs Ha. destruct (close_shm_handle_spec kernel h w w1 w2 Hh Hi Hl) as (_ & Hb & Hf).
  split; [| |auto].
  - etransitivity; [exact Hb | by apply silent_balanced].
  - intros _. etransitivity; [exact Hf | by apply silent_fds_kept].
Qed.

Lemma store_handled leaks slot f w :
  handled leaks true (store kernel answers sizeof_shared_data slot f) w.
Proof.
  pose proof (open_shm_handle_spec kernel sizeof_shared_data slot w) as Ho. unfold store.
  destruct (open slot w) as [h w1] eqn:E. destruct Ho as [Hc [(Hh & _)|(Hh & Hb & Hf)]].
  - pose proof Hh as (Hs & _).
    set (w2 := w1 {{ w_shm := put_slot (w_shm w1) slot (f (get_slot (w_shm w1) slot)) }}).
    pose proof (close_shm_handle_spec kernel h w w1 w2 Hh eq_refl (oc_live _ _ Hc)) as (Hcl & _ & _).
    set (m := _ ≫= _). assert ((m w).2 = (send_basic_reply answers (close_shm_handle kernel h w2).2).2) as Em.
    { unfold m. monad_unfold. rewrite E, Hs. cbn [negb]. fold w2. monad_unfold.
      destruct (close_shm_handle kernel h w2) as [? w3]. cbn [snd]. by destruct (send_basic_reply answers w3). }
    apply (closed_handled leaks true h w w1 w2); try done; [apply (oc_live _ _ Hc) | |].
    + rewrite Em. apply send_basic_reply_silent.
    + intros Hok. rewrite Em. exists (MethodReturn []). split; [|exact I].
      rewrite (send_basic_reply_sends answers Hok), (oc_sent _ _ Hcl). f_equal. exact (oc_sent _ _ Hc).
  - set (m := _ ≫= _). assert ((m w).2 = w1) as Em by (unfold m; monad_unfold; by rewrite E, Hh).
    split; rewrite Em; auto. intros _. right. split; [done|].
    split; [apply (oc_sent _ _ Hc)|]. split; [apply (oc_shm _ _ Hc)|]. exists slot. by rewrite E.
Qed.

(** Opening fails: the handler goes on with the history of the attempt. *)
Lemma unopened_handled leaks (m m0 : svc unit) w w1 :
  only_calls w w1 -> balanced kernel w w1 -> fds_kept kernel w w1 ->
  m w = m0 w1 -> handled leaks false m0 w1 -> handled leaks false m w.
Proof.
  intros [] Hb Hf E H. by apply (handled_after leaks false m m0 w w1).
Qed.

Lemma keymap_handled leaks msg w :
  handled leaks false (handle_get_keymap kernel answers sizeof_shared_data msg) w.
Proof.
  unfold handle_get_keymap. args_cases. rename z into slot.
  apply in_range_handled. intros _.
  pose proof (open_shm_handle_spec kernel sizeof_shared_data slot w) as Ho.
  set (m := _ ≫= _). destruct (open slot w) as [h w1] eqn:E. destruct Ho as [Hc [(Hh & _)|(Hh & Hb & Hf)]].
  2:{ apply (unopened_handled leaks m (failed answers "Controller not connected") w w1); try done;
      [unfold m; monad_unfold; by rewrite E, Hh | apply send_error_handled]. }
  pose proof Hh as (Hs & _). destruct Hc as [_ _ Hl _ Hsent _ _].
  destruct (new_message answers w1) as [reply w2] eqn:En.
  assert (w_hist w2 = w_hist w1 /\ w_sent w2 = w_sent w1 /\ w_live w2 = w_live w1 + b2z reply) as (N1 & N2 & N3).
  { revert En. svc_unfold. destruct (answers _); intros [= <- <-]; cbn; cbv [constant]; repeat split; lia. }
  destruct reply.
  - set (l := map DByte (take PHY_BTN_COUNT (keymap (get_slot (w_shm w2) slot)))).
    set (w3 := (unref (connection_send answers (MethodReturn [DArray l]) w2).2).2).
    assert (w_hist w3 = w_hist w1 /\ w_live w3 = w_live w) as [S1 S2].
    { unfold w3. svc_unfold. destruct (answers _); cbn; cbv [constant]; split; first [done | cbn in N3; lia]. }
    assert ((m w).2 = (count_method (close_shm_handle kernel h w3).2).2) as Em.
    { unfold m. monad_unfold. rewrite E, Hs. cbn [negb]. rewrite En. cbn [negb]. fold l. unfold w3.
      destruct (connection_send answers (MethodReturn [DArray l]) w2) as [? w4]. cbn [snd]. cbv [unref modify snd].
      by destruct (close_shm_handle kernel h _). }
    destruct (close_shm_handle_spec kernel h w w1 w3 Hh S1 S2) as ([_ _ _ _ Hcs _ _] & _ & _).
    apply (closed_handled leaks false h w w1 w3); try done; [by rewrite Em|].
    intros Hok. rewrite Em. exists (MethodReturn [DArray l]). split; [|exact I].
    change (w_sent (close_shm_handle kernel h w3).2 = w_sent w ++ [MethodReturn [DArray l]]).
    rewrite Hcs. unfold w3. svc_unfold. rewrite Hok. cbn. cbv [constant]. by rewrite N2, Hsent.
  - set (w3 := (no_reply answers w2).2).
    pose proof (send_error_silent answers DBUS_ERROR_FAILED "Failed to create reply" w2) as [_ _ S1 S2 _].
    fold (failed answers "Failed to create reply" w2) in S1, S2.
    assert ((m w).2 = (close_shm_handle kernel h w3).2) as Em.
    { unfold m. monad_unfold. rewrite E, Hs. cbn [negb]. rewrite En. cbn [negb]. unfold w3.
      by destruct (no_reply answers w2). }
    apply (closed_handled leaks false h w w1 w3); [done | by rewrite <- N1, <- S1 | cbn in N3; rewrite <- Hl; rewrite <- (Z.add_0_r (w_live w1)), <- N3; exact S2 | by rewrite Em |].
    intros Hok. exfalso. revert En. svc_unfold. by rewrite Hok.
Qed.

Lemma triggers_handled leaks msg w :
  handled leaks false (handle_get_triggers_digital kernel answers sizeof_shared_data msg) w.
Proof.
  unfold handle_get_triggers_digital. args_cases. rename z into slot.
  apply in_range_handled. intros _.
  pose proof (open_shm_handle_spec kernel sizeof_shared_data slot w) as Ho.
  set (m := _ ≫= _). destruct (open slot w) as [h w1] eqn:E. destruct Ho as [Hc [(Hh & _)|(Hh & Hb & Hf)]].
  2:{ apply (unopened_handled leaks m (failed answers "Controller not connected") w w1); try done;
      [unfold m; monad_unfold; by rewrite E, Hh | apply send_error_handled]. }
  pose proof Hh as (Hs & _).
  destruct (close_shm_handle_spec kernel h w w1 w1 Hh eq_refl (oc_live _ _ Hc)) as (Hc2 & Hb & Hf).
  set (w2 := (close_shm_handle kernel h w1).2) in *.
  set (m0 := reply ← new_message answers;
             if negb reply then no_reply answers
             else
               appended ← ask answers;
               if negb appended then failed answers "Failed to append arguments";;; unref
               else reply_with answers [DBool (is_trigger_digital (get_slot (w_shm w1) slot))]).
  assert (only_calls w w2) as Hc3 by (destruct Hc, Hc2; split; congruence).
  apply (unopened_handled leaks m m0 w w2); try done.
  - unfold m, w2. monad_unfold. rewrite E, Hs. cbn [negb]. by destruct (close_shm_handle kernel h w1).
  - clearbody m w2. unfold m0. handle_silently.
Qed.

(** The methods of the whole daemon: they leave a descriptor open, nothing
    else. *)
Lemma any_handled quiet (m m0 : svc unit) w fd w1 w2 w3 :
  only_calls w w1 -> any_held kernel fd w w1 ->
  w_sent w2 = w_sent w1 -> balanced kernel w1 w2 -> w3 = (call_ kernel SysMunmap w2).2 ->
  m w = m0 w3 -> handled true quiet m0 w3 -> quiet = false -> handled true quiet m w.
Proof.
  intros Hc (_ & _ & A1 & A2 & A3) Hs [B1 B2 B3 B4] -> E [H1 _ H3] ->.
  assert (balanced kernel w (call_ kernel SysMunmap w2).2) as Hb.
  { svc_unfold. split; cbn; cbv [constant]; [lia | lia | lia |]. rewrite B4. apply (oc_live _ _ Hc). }
  split; rewrite E; [by etransitivity | done |].
  intros Hok. left. destruct (H3 Hok) as [(r & Hr & ?)|[? _]]; [|done]. exists r. split; [|done].
  rewrite Hr. f_equal. svc_unfold. cbn. cbv [constant]. rewrite Hs. apply (oc_sent _ _ Hc).
Qed.

Lemma request_any_handled request name enable delay size k w :
  (forall ok msg w, handled true false (k ok msg) w) ->
  handled true false (request_any kernel answers sizeof_shared_data env request name enable delay size k) w.
Proof.
  intros Hk. unfold request_any. pose proof (open_shm_handle_any_spec kernel sizeof_shared_data w) as Ho.
  set (m := _ ≫= _). destruct (open_shm_handle_any kernel sizeof_shared_data w) as [shm w1] eqn:E.
  destruct Ho as [Hc [(-> & _ & _ & Hh)|(-> & Hb & Hf)]].
  2:{ apply (handled_after true false m (failed answers "Daemon not connected") w w1); try done;
      [unfold m; monad_unfold; by rewrite E | by destruct Hc | by destruct Hc | apply send_error_handled]. }
  pose proof (shm_request_sync_agrees kernel env request name enable delay size w1) as Hr.
  destruct (shm_request_sync kernel env request name enable delay size w1) as [[ok msg] w2] eqn:Er.
  destruct (profile_request_sync _ _ _ _ _ _ _) as [[? ?] ?]. destruct Hr as (_ & _ & _ & [_ Hsent _ _ _ Hbal _]).
  eapply (any_handled false m (k ok msg) w _ w1 w2 (call_ kernel SysMunmap w2).2); try done.
  unfold m. monad_unfold. rewrite E. cbn [negb]. by rewrite Er.
Qed.

Lemma read_any_handled f w : handled true false (read_any kernel answers sizeof_shared_data f) w.
Proof.
  unfold read_any. pose proof (open_shm_handle_any_spec kernel sizeof_shared_data w) as Ho.
  set (m := _ ≫= _). destruct (open_shm_handle_any kernel sizeof_shared_data w) as [shm w1] eqn:E.
  destruct Ho as [Hc [(-> & _ & _ & Hh)|(-> & Hb & Hf)]].
  2:{ apply (handled_after true false m (failed answers "Daemon not connected") w w1); try done;
      [unfold m; monad_unfold; by rewrite E | by destruct Hc | by destruct Hc | apply send_error_handled]. }
  destruct Hh as (_ & _ & A1 & A2 & A3). destruct Hc as [_ _ Hl _ Hs _ _].
  set (m1 := reply ← new_message answers;
             if negb reply then no_reply answers;;; close_shm_handle_any kernel true
             else
               _ ← connection_send answers (MethodReturn (f (w_shm w1)));
               unref;;; close_shm_handle_any kernel true;;; count_method).
  assert (m w = m1 w1) as Em by (unfold m; monad_unfold; by rewrite E).
  split; rewrite Em; [| done |].
  - unfold m1. cbv [close_shm_handle_any]. handler_unfold. svc_run; (split; cbn; cbv [constant]; lia).
  - intros Hok. left. exists (MethodReturn (f (w_shm w1))). split; [|done].
    unfold m1. cbv [close_shm_handle_any]. handler_unfold. rewrite Hok. cbn [negb fst snd]. rewrite Hok.
    cbn. cbv [constant]. by rewrite Hs.
Qed.

Lemma named_request_handled request msg w :
  handled true false (named_request kernel answers sizeof_shared_data env request msg) w.
Proof.
  unfold named_request. args_cases.
  apply request_any_handled. intros [] m w'; [|apply send_error_handled]. handle_silently.
Qed.

Lemma profiles_handled msg w :
  handled true false (handle_list_profiles kernel answers sizeof_shared_data env msg) w /\
  handled true false (handle_set_auto_save kernel answers sizeof_shared_data env msg) w.
Proof.
  split.
  - apply request_any_handled. intros [] m w'; handle_silently.
  - unfold handle_set_auto_save.
    args_cases.
    apply request_any_handled. intros [] m w'; handle_silently.
Qed.

(** ** The service control and the table *)

Lemma mute_handled leaks (m m0 : svc unit) w w0 :
  mute w w0 -> m w = m0 w0 -> handled leaks false m0 w0 -> handled leaks false m w.
Proof.
  intros [H1 H2 H3 H4 H5] E H. apply (handled_after leaks false m m0 w w0); try done.
  - split; by rewrite ?H3.
  - intros fd. by rewrite H3.
Qed.

Lemma unit_action_handled leaks act w :
  (forall a b, respects mute (act a b)) -> handled leaks false (unit_action answers act) w.
Proof.
  intros Ha. unfold unit_action. specialize (Ha DSTX_UNIT "replace"%string w).
  set (m := _ ≫= _). destruct (act DSTX_UNIT "replace"%string w) as [ret w1] eqn:E.
  eapply (mute_handled leaks m _ w w1 Ha); [unfold m; monad_unfold; by rewrite E | apply reply_new_handled].
Qed.

Lemma service_handled leaks msg w :
  handled leaks false (handle_start_core_service answers bus_call msg) w /\
  handled leaks false (handle_stop_core_service answers bus_call msg) w /\
  handled leaks false (handle_restart_core_service answers bus_call msg) w /\
  handled leaks false (handle_is_core_service_active answers bus_call msg) w /\
  handled leaks false (handle_is_core_service_enabled answers bus_call msg) w /\
  handled leaks false (handle_enable_core_service answers system msg) w /\
  handled leaks false (handle_disable_core_service answers system msg) w.
Proof.
  do 3 (split; [apply unit_action_handled; intros a b; apply send_simple_unit_method_mute|]).
  split; [|split]; [| |split; apply reply_new_handled].
  - unfold handle_is_core_service_active. set (m := _ ≫= _).
    pose proof (systemd_unit_is_active_mute answers bus_call DSTX_UNIT w) as H.
    destruct (systemd_unit_is_active answers bus_call DSTX_UNIT w) as [r w1] eqn:E.
    eapply (mute_handled leaks m _ w w1 H); [unfold m; monad_unfold; by rewrite E | apply reply_new_handled].
  - unfold handle_is_core_service_enabled. set (m := _ ≫= _).
    pose proof (systemd_unit_is_enabled_mute answers bus_call DSTX_UNIT w) as H.
    destruct (systemd_unit_is_enabled answers bus_call DSTX_UNIT w) as [r w1] eqn:E.
    eapply (mute_handled leaks m _ w w1 H); [unfold m; monad_unfold; by rewrite E | apply reply_new_handled].
Qed.

Lemma set_flag_handled expected f msg w :
  handled false true (set_flag kernel answers sizeof_shared_data expected f msg) w.
Proof.
  unfold set_flag. args_cases.
  apply in_range_handled. intros _. apply store_handled.
Qed.
Lemma set_slot_handled f msg w :
  handled false true (set_slot kernel answers sizeof_shared_data f msg) w.
Proof.
  unfold set_slot. args_cases.
  apply in_range_handled. intros _. apply store_handled.
Qed.
Lemma set_byte_handled expected k msg w :
  (forall slot v w, handled false true (k slot v) w) -> handled false true (set_byte answers expected k msg) w.
Proof.
  intros Hk. unfold set_byte.
  args_cases.
  apply in_range_handled. intros _. apply Hk.
Qed.
Lemma set_bytes_handled msg w :
  handled false true (handle_set_led kernel answers sizeof_shared_data msg) w /\
  handled false true (handle_set_effect kernel answers sizeof_shared_data msg) w /\
  handled false true (handle_set_keybind kernel answers sizeof_shared_data msg) w.
Proof.
  unfold handle_set_led, handle_set_effect, handle_set_keybind. split; [|split].
  1, 2: args_cases;
    apply in_range_handled; intros _; apply store_handled.
  args_cases.
  apply in_range_handled. intros _. do 2 (case_match; [apply send_error_handled|]). apply store_handled.
Qed.

Lemma handled_weaken leaks m w : handled false false m w -> handled leaks false m w.
Proof. intros [H1 H2 H3]. by split; auto. Qed.

Lemma method_handled name h msg w :
  In (name, h) (methods kernel answers bus_call sizeof_shared_data env system) ->
  handled (mem name any_methods) (mem name setter_methods) (h msg) w.
Proof.
  destruct (service_handled false msg w) as (?&?&?&?&?&?&?).
  destruct (set_bytes_handled msg w) as (?&?&?). destruct (profiles_handled msg w) as [? ?].
  destruct (info_handled false msg w) as [? ?].
  unfold methods. intros Hin. cbn [In] in Hin.
  repeat destruct Hin as [[= <- <-]|Hin]; try done;
    match goal with |- handled ?a ?b _ _ =>
      let a' := eval vm_compute in a in let b' := eval vm_compute in b in change a with a'; change b with b'
    end;
    first
    [ assumption | apply version_handled | apply controllers_handled | apply copy_then_reply_handled
    | apply keymap_handled | apply triggers_handled | apply set_flag_handled | apply set_slot_handled
    | apply read_any_handled | apply named_request_handled
    | apply set_byte_handled; intros; repeat case_match; first [apply send_error_handled | apply store_handled] ].
Qed.

(** ** What handlers do to the slots *)

(** The slots of a memory after, against before: the configurations stay in
    range, the lives of the slots and the bitmap are not touched, and a slot that
    is not connected is left alone. *)
Definition shm_keeps (shm shm' : shared_data_t) : Prop :=
  length (slots shm') = length (slots shm) /\ free_slots_bitmap shm' = free_slots_bitmap shm /\
  (length (slots shm) = MAX_SLOTS -> forall j, 0 <= j < Z.of_nat MAX_SLOTS ->
    slot_kept (get_slot shm j) (get_slot shm' j) /\
    (connected (get_slot shm j) = false -> get_slot shm' j = get_slot shm j)).
Definition world_keeps (w w' : world) : Prop := shm_keeps (w_shm w) (w_shm w').

Lemma shm_keeps_same shm shm' :
  slots shm' = slots shm -> free_slots_bitmap shm' = free_slots_bitmap shm -> shm_keeps shm shm'.
Proof.
  intros E Eb. split; [by rewrite E|]. split; [done|]. intros Hl j Hj. unfold get_slot. rewrite E. split; [apply slot_kept_refl | done].
Qed.
#[local] Instance world_keeps_refl : Reflexive world_keeps.
Proof. intros w. by apply shm_keeps_same. Qed.
Lemma shm_keeps_trans a b c : shm_keeps a b -> shm_keeps b c -> shm_keeps a c.
Proof.
  intros (L1 & B1 & H1) (L2 & B2 & H2). split; [congruence|]. split; [congruence|]. intros Hl j Hj.
  destruct (H1 Hl j Hj) as [K1 D1]. destruct (H2 ltac:(congruence) j Hj) as [K2 D2].
  split; [by eapply slot_kept_trans|]. intros Hc. pose proof (D1 Hc) as E. rewrite <- E in Hc.
  by rewrite (D2 Hc).
Qed.
#[local] Instance world_keeps_trans : Transitive world_keeps.
Proof. intros a b c. apply shm_keeps_trans. Qed.

Lemma same_shm_keeps w w' : w_shm w' = w_shm w -> world_keeps w w'.
Proof. intros E. by apply shm_keeps_same; rewrite E. Qed.

Lemma silent_keeps {A} (m : svc A) : respects silent m -> respects world_keeps m.
Proof. intros H w. destruct (H w) as [_ E _ _ _]. by apply same_shm_keeps. Qed.

Lemma call_keeps op : respects world_keeps (call kernel op).
Proof. intros w. (apply same_shm_keeps; reflexivity). Qed.
Lemma call__keeps op : respects world_keeps (call_ kernel op).
Proof. intros w. (apply same_shm_keeps; reflexivity). Qed.
Lemma ask_keeps : respects world_keeps (ask answers).
Proof. intros w. (apply same_shm_keeps; reflexivity). Qed.
Lemma new_message_keeps : respects world_keeps (new_message answers).
Proof. intros w. svc_run; (apply same_shm_keeps; reflexivity). Qed.
Lemma unref_keeps : respects world_keeps unref.
Proof. intros w. (apply same_shm_keeps; reflexivity). Qed.
Lemma count_method_keeps : respects world_keeps count_method.
Proof. intros w. (apply same_shm_keeps; reflexivity). Qed.
Lemma connection_send_keeps m : respects world_keeps (connection_send answers m).
Proof. intros w. svc_run; (apply same_shm_keeps; reflexivity). Qed.
Lemma send_error_keeps name text : respects world_keeps (send_error answers name text).
Proof. apply silent_keeps, send_error_silent. Qed.
Lemma basic_reply_keeps : respects world_keeps (send_basic_reply answers).
Proof. apply silent_keeps, send_basic_reply_silent. Qed.
Lemma open_keeps slot : respects world_keeps (open slot).
Proof.
  intros w. pose proof (open_shm_handle_spec kernel sizeof_shared_data slot w) as H.
  destruct (open slot w) as [h w']. destruct H as [[_ E _ _ _ _ _] _]. by apply same_shm_keeps.
Qed.
Lemma open_any_keeps : respects world_keeps (open_shm_handle_any kernel sizeof_shared_data).
Proof.
  intros w. pose proof (open_shm_handle_any_spec kernel sizeof_shared_data w) as H.
  destruct (open_shm_handle_any kernel sizeof_shared_data w) as [h w']. destruct H as [[_ E _ _ _ _ _] _].
  by apply same_shm_keeps.
Qed.
Lemma close_keeps h : respects world_keeps (close_shm_handle kernel h).
Proof.
  intros w. unfold close_shm_handle. destruct (h_shm h), (negb _); apply same_shm_keeps; reflexivity.
Qed.
Lemma close_any_keeps b : respects world_keeps (close_shm_handle_any kernel b).
Proof. intros w. unfold close_shm_handle_any. destruct b; (apply same_shm_keeps; reflexivity). Qed.
Lemma mute_keeps {A} (m : svc A) : respects mute m -> respects world_keeps m.
Proof. intros H w. destruct (H w) as [_ E _ _ _]. by apply same_shm_keeps. Qed.

(** The daemon's side while a request waits. *)
Context (Henv : forall k shm, shm_keeps shm (env k shm)).

Lemma wait_response_keeps n i size shm : shm_keeps shm (wait_response n env i size shm).1.1.
Proof.
  revert i shm. induction n as [|n IH]; intros i shm; cbn [wait_response]; [by apply shm_keeps_same|].
  destruct (negb _); [|eapply shm_keeps_trans; [apply Henv | apply IH]].
  eapply shm_keeps_trans; [apply Henv | by apply shm_keeps_same].
Qed.

Lemma request_keeps request name enable delay size :
  respects world_keeps (shm_request_sync kernel env request name enable delay size).
Proof.
  intros w. pose proof (shm_request_sync_agrees kernel env request name enable delay size w) as H.
  pose proof (wait_response_keeps (Z.to_nat (1000 / 20)) 0 size
    (profile_request_post request name enable delay (w_shm w))) as Hw.
  fold (profile_request_sync env request name enable delay size (w_shm w)) in Hw.
  destruct (shm_request_sync _ _ _ _ _ _ _ _) as [[ok msg] w'].
  destruct (profile_request_sync _ _ _ _ _ _ _) as [[shm ok0] msg0]. destruct H as (E & _). cbn [fst snd] in *.
  unfold world_keeps. cbn [snd]. rewrite E.
  assert (slots (profile_request_post request name enable delay (w_shm w)) = slots (w_shm w)) as Es
    by (unfold profile_request_post; cbv zeta; destruct name, (0 <=? enable), (0 <=? delay); done).
  assert (free_slots_bitmap (profile_request_post request name enable delay (w_shm w)) =
          free_slots_bitmap (w_shm w)) as Eb
    by (unfold profile_request_post; cbv zeta; destruct name, (0 <=? enable), (0 <=? delay); done).
  eapply shm_keeps_trans; [by apply (shm_keeps_same _ _ Es Eb) | exact Hw].
Qed.

Ltac keeps :=
  repeat match goal with
  | |- respects _ (_ ≫= _) => apply respects_bind; [apply _ | | intros ?]
  | |- respects _ (mret _) => apply respects_ret, _
  | |- respects _ (gets _) => apply respects_gets, _
  | |- respects _ (call_ _ _) => apply call__keeps
  | |- respects _ (ask _) => apply ask_keeps
  | |- respects _ (Bus.new_message _) => apply new_message_keeps
  | |- respects _ unref => apply unref_keeps
  | |- respects _ count_method => apply count_method_keeps
  | |- respects _ (connection_send _ _) => apply connection_send_keeps
  | |- respects _ (Bus.send_error _ _ _) => apply send_error_keeps
  | |- respects _ (Bus.send_basic_reply _) => apply basic_reply_keeps
  | |- respects _ (Handles.open_shm_handle _ _ _) => apply open_keeps
  | |- respects _ (Handles.open_shm_handle_any _ _) => apply open_any_keeps
  | |- respects _ (Handles.close_shm_handle _ _) => apply close_keeps
  | |- respects _ (Handles.close_shm_handle_any _ _) => apply close_any_keeps
  | |- respects _ (Handles.shm_request_sync _ _ _ _ _ _ _) => apply request_keeps
  | |- respects _ (match ?x with _ => _ end) => destruct x
  end.

(** A store, under the condition that the slot exists. *)
Lemma store_keeps slot f :
  0 <= slot < Z.of_nat MAX_SLOTS -> (forall c, slot_kept c (f c)) ->
  respects world_keeps (store kernel answers sizeof_shared_data slot f).
Proof.
  intros Hslot Hf w. unfold store.
  pose proof (open_shm_handle_spec kernel sizeof_shared_data slot w) as Ho. monad_unfold.
  destruct (open slot w) as [h w1]. destruct Ho as [[_ Es _ _ _ _ _] [((Hh & _) & _ & _ & _ & Hc)|(Hh & _)]];
    rewrite Hh; cbn [negb]; [|by apply same_shm_keeps].
  set (w2 := w1 {{ w_shm := _ }}).
  assert (world_keeps w w2) as H2.
  { unfold world_keeps. change (w_shm w2) with (put_slot (w_shm w1) slot (f (get_slot (w_shm w1) slot))).
    rewrite Es. split; [apply length_put_slot|]. split; [reflexivity|]. intros Hl j Hj.
    destruct (decide (slot = j)) as [<-|Hne].
    - rewrite get_put_slot_eq by lia. split; [apply Hf | congruence].
    - rewrite get_put_slot_ne by lia. split; [apply slot_kept_refl | done]. }
  etransitivity; [exact H2|].
  pose proof (close_keeps h w2) as H3. destruct (close_shm_handle kernel h w2) as [? w3]. cbn [snd] in H3.
  etransitivity; [exact H3|].
  pose proof (basic_reply_keeps w3) as H4. by destruct (send_basic_reply answers w3).
Qed.

(** The parts of [config_ok] one by one: as before, or by the range of what is
    stored. *)
Ltac part :=
  first
  [ assumption
  | repeat match goal with H : Forall _ (_ :: _) |- _ => apply Forall_cons_1 in H as [? H] end;
    forall_list; first [assumption | cbn; cbv [constant]; lia]
  | cbn; cbv [constant SENS_PRESET_COUNT LEDFX_COUNT] in *; rewrite ?u8_small by lia; lia ].
Ltac kept :=
  split; [|by split];
  intros (C1 & C2 & C3 & C4 & C5 & C6 & C7 & C8);
  split; [part|]; split; [part|]; split; [part|]; split; [part|]; split; [part|]; split; [part|];
  split; [part | assumption].

Lemma in_range_keeps slot k :
  (slot < Z.of_nat MAX_SLOTS -> respects world_keeps k) -> respects world_keeps (in_range answers slot k).
Proof.
  intros H. unfold in_range. destruct (Z.leb_spec (Z.of_nat MAX_SLOTS) slot); [apply send_error_keeps | auto].
Qed.

Context (HB : DBusLaws B).

(** The bytes of a message are bytes. *)
Lemma byte_args msg ts vs v : dbus_message_get_args msg ts = Some vs -> In (DByte v) vs -> 0 <= v < 256.
Proof.
  intros H Hin. apply HB in H as [_ H]. rewrite List.Forall_forall in H. apply (H _ Hin).
Qed.

(** The cases of the arguments, each byte in range. *)
Ltac args_keep :=
  match goal with |- respects _ (match dbus_message_get_args ?m ?ts with _ => _ end) =>
    let E := fresh "E" in
    destruct (dbus_message_get_args m ts) as [?|] eqn:E; [|apply send_error_keeps];
    repeat match goal with
    | |- respects _ (match ?x with _ => _ end) => is_var x; destruct x; try apply send_error_keeps
    end;
    repeat match type of E with _ = Some ?vs =>
      match vs with context [DByte ?v] =>
        lazymatch goal with H : 0 <= v < 256 |- _ => fail | _ =>
          assert (0 <= v < 256) by (eapply byte_args; [exact E | cbn; tauto]) end
      end
    end
  end.

Lemma set_flag_keeps expected f msg :
  (forall v c, slot_kept c (f v c)) ->
  respects world_keeps (set_flag kernel answers sizeof_shared_data expected f msg).
Proof.
  intros Hf. unfold set_flag. args_keep. apply in_range_keeps. intros. apply store_keeps; [lia | auto].
Qed.
Lemma set_slot_keeps f msg :
  (forall c, slot_kept c (f c)) ->
  respects world_keeps (set_slot kernel answers sizeof_shared_data f msg).
Proof.
  intros Hf. unfold set_slot. args_keep. apply in_range_keeps. intros. apply store_keeps; [lia | auto].
Qed.
Lemma set_byte_keeps expected k msg :
  (forall slot v, 0 <= slot < Z.of_nat MAX_SLOTS -> 0 <= v < 256 -> respects world_keeps (k slot v)) ->
  respects world_keeps (set_byte answers expected k msg).
Proof. intros Hk. unfold set_byte. args_keep. apply in_range_keeps. intros. apply Hk; lia. Qed.

(** The arguments of [SetEffect] are the ones the daemon can play. *)
Definition effect_args_ok (msg : dbus_message_t) : Prop :=
  forall slot e s b,
    dbus_message_get_args msg [DBUS_TYPE_BYTE; DBUS_TYPE_BYTE; DBUS_TYPE_BYTE; DBUS_TYPE_BYTE] =
      Some [DByte slot; DByte e; DByte s; DByte b] ->
    e < LEDFX_COUNT /\ 1 <= s <= 10 /\ b <= 100.

Lemma set_led_keeps msg : respects world_keeps (handle_set_led kernel answers sizeof_shared_data msg).
Proof.
  unfold handle_set_led. args_keep. apply in_range_keeps. intros. apply store_keeps; [lia|]. intros c. kept.
Qed.
Lemma set_effect_keeps msg :
  effect_args_ok msg -> respects world_keeps (handle_set_effect kernel answers sizeof_shared_data msg).
Proof.
  intros Hargs. unfold handle_set_effect. args_keep. destruct (Hargs _ _ _ _ E) as (? & ? & ?).
  apply in_range_keeps. intros. apply store_keeps; [lia|]. intros c. kept.
Qed.
Lemma set_keybind_keeps msg : respects world_keeps (handle_set_keybind kernel answers sizeof_shared_data msg).
Proof.
  unfold handle_set_keybind. args_keep. apply in_range_keeps. intros.
  destruct (_ <=? _); [apply send_error_keeps|]. destruct (Z.leb_spec LOGICAL_BTN_COUNT z1); [apply send_error_keeps|].
  apply store_keeps; [lia|]. intros c. split; [|by split].
  intros (C1 & C2 & C3 & C4 & C5 & C6 & C7 & C8). do 7 (split; [assumption|]).
  apply keymap_ok_aset; [exact C8 | lia].
Qed.
Lemma reset_keybinds_keeps msg : respects world_keeps (handle_reset_keybinds kernel answers sizeof_shared_data msg).
Proof.
  apply set_slot_keeps. intros c. split; [|by split].
  intros (C1 & C2 & C3 & C4 & C5 & C6 & C7 & C8). do 7 (split; [assumption|]).
  apply keymap_ok_default. apply C8.
Qed.

Lemma bytes_keep msg :
  respects world_keeps (handle_set_gain kernel answers sizeof_shared_data msg) /\
  respects world_keeps (handle_set_deadzone kernel answers sizeof_shared_data msg) /\
  respects world_keeps (handle_set_global_brightness kernel answers sizeof_shared_data msg) /\
  respects world_keeps (handle_set_player_leds kernel answers sizeof_shared_data msg) /\
  respects world_keeps (handle_set_sensitivity_preset_left kernel answers sizeof_shared_data msg) /\
  respects world_keeps (handle_set_sensitivity_preset_right kernel answers sizeof_shared_data msg).
Proof.
  repeat match goal with |- _ /\ _ => split end; apply set_byte_keeps; intros slot v Hs Hv; cbv zeta;
    try (destruct (Z.leb_spec SENS_PRESET_COUNT v); [apply send_error_keeps|]);
    apply store_keeps; try done; intros c.
  1, 2, 3: (destruct (Z.ltb_spec 100 v); kept).
  - destruct (Z.ltb_spec 5 v); kept.
  - kept.
  - kept.
Qed.

Lemma flags_keep msg :
  respects world_keeps (handle_set_emulate kernel answers sizeof_shared_data msg) /\
  respects world_keeps (handle_set_uhid kernel answers sizeof_shared_data msg) /\
  respects world_keeps (handle_set_debounce kernel answers sizeof_shared_data msg) /\
  respects world_keeps (handle_set_led_reapply kernel answers sizeof_shared_data msg) /\
  respects world_keeps (handle_set_rumble_active kernel answers sizeof_shared_data msg) /\
  respects world_keeps (handle_set_invert_ly kernel answers sizeof_shared_data msg) /\
  respects world_keeps (handle_set_invert_ry kernel answers sizeof_shared_data msg) /\
  respects world_keeps (handle_set_triggers_digital kernel answers sizeof_shared_data msg) /\
  respects world_keeps (handle_set_switch_layout_legacy kernel answers sizeof_shared_data msg) /\
  respects world_keeps (handle_reset_all_keybinds kernel answers sizeof_shared_data msg) /\
  respects world_keeps (handle_apply_switch_layout kernel answers sizeof_shared_data msg) /\
  respects world_keeps (handle_apply_xbox_layout kernel answers sizeof_shared_data msg).
Proof.
  repeat match goal with |- _ /\ _ => split end; first [apply set_flag_keeps; intros v c | apply set_slot_keeps; intros c];
    repeat case_match; (split; [exact (fun H => H) | by split]).
Qed.

Lemma getters_keep msg :
  respects world_keeps (handle_get_core_version answers msg) /\
  respects world_keeps (handle_get_controllers kernel answers msg) /\
  respects world_keeps (handle_get_controller_info kernel answers msg) /\
  respects world_keeps (handle_get_detailed_info kernel answers msg) /\
  (forall f, respects world_keeps (copy_then_reply kernel answers msg f)) /\
  respects world_keeps (handle_get_keymap kernel answers sizeof_shared_data msg) /\
  respects world_keeps (handle_get_triggers_digital kernel answers sizeof_shared_data msg).
Proof.
  repeat match goal with |- _ /\ _ => split end; intros;
    unfold handle_get_core_version, handle_get_controllers, handle_get_controller_info,
      handle_get_detailed_info, handle_get_keymap, handle_get_triggers_digital, copy_then_reply, with_copy,
      in_range, reply_with, no_reply, failed, invalid; keeps.
Qed.

Lemma service_keep msg :
  respects world_keeps (handle_start_core_service answers bus_call msg) /\
  respects world_keeps (handle_stop_core_service answers bus_call msg) /\
  respects world_keeps (handle_restart_core_service answers bus_call msg) /\
  respects world_keeps (handle_is_core_service_active answers bus_call msg) /\
  respects world_keeps (handle_is_core_service_enabled answers bus_call msg) /\
  respects world_keeps (handle_enable_core_service answers system msg) /\
  respects world_keeps (handle_disable_core_service answers system msg).
Proof.
  pose proof (fun m u o => mute_keeps _ (send_simple_unit_method_mute answers bus_call m u o)).
  pose proof (fun u => mute_keeps _ (systemd_unit_is_active_mute answers bus_call u)).
  pose proof (fun u => mute_keeps _ (systemd_unit_is_enabled_mute answers bus_call u)).
  repeat match goal with |- _ /\ _ => split end;
    unfold handle_start_core_service, handle_stop_core_service, handle_restart_core_service,
      handle_is_core_service_active, handle_is_core_service_enabled, handle_enable_core_service,
      handle_disable_core_service, unit_action, answer, reply_with, no_reply, failed, systemd_start_unit,
      systemd_stop_unit, systemd_restart_unit; keeps; auto.
Qed.

Lemma profiles_keep msg :
  (forall f, respects world_keeps (read_any kernel answers sizeof_shared_data f)) /\
  (forall r, respects world_keeps (named_request kernel answers sizeof_shared_data env r msg)) /\
  respects world_keeps (handle_list_profiles kernel answers sizeof_shared_data env msg) /\
  respects world_keeps (handle_set_auto_save kernel answers sizeof_shared_data env msg).
Proof.
  repeat match goal with |- _ /\ _ => split end; intros;
    unfold read_any, named_request, handle_list_profiles, handle_set_auto_save, request_any, reply_with,
      no_reply, failed, invalid; cbv zeta; keeps.
Qed.

Lemma method_keeps name h msg :
  In (name, h) (methods kernel answers bus_call sizeof_shared_data env system) ->
  (name = "SetEffect"%string -> effect_args_ok msg) -> respects world_keeps (h msg).
Proof.
  destruct (bytes_keep msg) as (?&?&?&?&?&?).
  destruct (flags_keep msg) as (?&?&?&?&?&?&?&?&?&?&?&?).
  destruct (getters_keep msg) as (?&?&?&?&Hcopy&?&?).
  destruct (service_keep msg) as (?&?&?&?&?&?&?). destruct (profiles_keep msg) as (Hread&Hnamed&?&?).
  unfold methods. intros Hin He. cbn [In] in Hin.
  repeat destruct Hin as [[= <- <-]|Hin]; try done;
    first [ assumption | apply set_led_keeps | apply set_effect_keeps, He; reflexivity | apply set_keybind_keeps
          | apply reset_keybinds_keeps | apply Hcopy | apply Hread | apply Hnamed ].
Qed.

(** ** The descriptor of the methods of the whole daemon *)

(** Everything after the successful opening leaves the descriptors alone. *)
Definition leaks_after (m : svc unit) (w : world) : Prop :=
  let '(shm, w1) := open_shm_handle_any kernel sizeof_shared_data w in
  shm = true -> fds_same kernel (w_hist w1) (w_hist (m w).2).

Lemma read_any_leaks f w : leaks_after (read_any kernel answers sizeof_shared_data f) w.
Proof.
  unfold leaks_after, read_any. set (m := _ ≫= _).
  destruct (open_shm_handle_any kernel sizeof_shared_data w) as [shm w1] eqn:E. intros ->.
  unfold m. monad_unfold. rewrite E. cbn [negb]. cbv [close_shm_handle_any]. handler_unfold.
  svc_run; intros fd; reflexivity.
Qed.

Lemma request_any_leaks request name enable delay size k w :
  (forall ok msg, respects silent (k ok msg)) ->
  leaks_after (request_any kernel answers sizeof_shared_data env request name enable delay size k) w.
Proof.
  intros Hk. unfold leaks_after, request_any. set (m := _ ≫= _).
  destruct (open_shm_handle_any kernel sizeof_shared_data w) as [shm w1] eqn:E. intros ->.
  pose proof (shm_request_sync_agrees kernel env request name enable delay size w1) as Hr.
  destruct (shm_request_sync kernel env request name enable delay size w1) as [[ok msg] w2] eqn:Er.
  destruct (profile_request_sync _ _ _ _ _ _ _) as [[? ?] ?]. destruct Hr as (_ & _ & _ & [_ _ _ _ _ _ Hf]).
  assert ((m w).2 = (k ok msg (call_ kernel SysMunmap w2).2).2) as ->.
  { unfold m. monad_unfold. rewrite E. cbn [negb]. rewrite Er. reflexivity. }
  destruct (Hk ok msg (call_ kernel SysMunmap w2).2) as [_ _ Hh _ _].
  intros fd. rewrite Hh. apply Hf.
Qed.

(** The arguments each of them asks for. *)
Definition any_args (name : string) : list dbus_type :=
  if mem name ["LoadProfile"; "SaveProfile"; "DeleteProfile"]%string then [DBUS_TYPE_STRING]
  else if String.eqb name "SetAutoSave" then [DBUS_TYPE_BOOLEAN; DBUS_TYPE_INT32] else [].

Lemma method_leaks name h msg w :
  In (name, h) (methods kernel answers bus_call sizeof_shared_data env system) ->
  mem name any_methods = true ->
  (any_args name <> [] -> dbus_message_get_args msg (any_args name) <> None) -> leaks_after (h msg) w.
Proof.
  assert (forall r, dbus_message_get_args msg [DBUS_TYPE_STRING] <> None ->
    leaks_after (named_request kernel answers sizeof_shared_data env r msg) w) as Hnamed.
  { intros r Ha. unfold named_request.
    destruct (dbus_message_get_args msg [DBUS_TYPE_STRING]) as [vs|] eqn:Ea; [|done].
    apply HB in Ea as [Ht _]. destruct vs as [|[] [|]]; try done.
    apply request_any_leaks. intros [] m w'; [run_silent | apply send_error_silent]. }
  unfold methods. intros Hin Hany Ha. cbn [In] in Hin.
  repeat destruct Hin as [[= <- <-]|Hin]; try done; try (apply Hnamed, Ha; done); try apply read_any_leaks.
  - apply request_any_leaks. intros [] m w'; run_silent.
  - cbv [any_args mem existsb String.eqb] in Ha. cbn in Ha. specialize (Ha ltac:(done)).
    unfold handle_set_auto_save.
    destruct (dbus_message_get_args msg [DBUS_TYPE_BOOLEAN; DBUS_TYPE_INT32]) as [vs|] eqn:Ea; [|done].
    apply HB in Ea as [Ht _].
    destruct vs as [|[] vs]; try done; destruct vs as [|[] vs]; try done; destruct vs; try done.
    apply request_any_leaks. intros [] m w'; run_silent.
Qed.

(** ** The whole handler *)

Abbreviation handler := (message_handler kernel answers bus_call sizeof_shared_data env system).

(** Either nothing happens, or the message goes to one method of the table. *)
Lemma handler_cases msg w :
  handler msg w = (false, w) \/
  (exists name h, In (name, h) (methods kernel answers bus_call sizeof_shared_data env system) /\
     dbus_message_get_interface msg = Some BRIDGE_INTERFACE /\
     dbus_message_get_member msg = Some name /\ handler msg w = (true, (h msg w).2)).
Proof.
  unfold message_handler. destruct (dbus_message_get_interface msg) as [i|]; [|by left].
  destruct (dbus_message_get_member msg) as [name|]; [|by left].
  destruct (String.eqb_spec i BRIDGE_INTERFACE) as [->|]; cbn [negb]; [|by left].
  destruct (find _ _) as [[n h]|] eqn:E; [|by left]. right. apply find_some in E as [Hin Hn].
  cbn [fst] in Hn. apply String.eqb_eq in Hn as ->. exists name, h. repeat (split; [done|]).
  monad_unfold. cbn [snd]. by destruct (h msg w).
Qed.
End lemmas.

(** A setter that opened the memory stores, and the slot was in range. *)
Lemma store_writes kernel answers sizeof_shared_data slot f w :
  h_shm (open_shm_handle kernel sizeof_shared_data slot w).1 = true ->
  slot < Z.of_nat MAX_SLOTS /\
  w_shm (store kernel answers sizeof_shared_data slot f w).2 =
    put_slot (w_shm w) slot (f (get_slot (w_shm w) slot)).
Proof.
  intros Ho. pose proof (open_shm_handle_spec kernel sizeof_shared_data slot w) as Hspec.
  unfold store. monad_unfold. destruct (open_shm_handle _ _ slot w) as [h1 w1]. cbn [fst] in Ho.
  destruct Hspec as [[_ Es _ _ _ _ _] [(Hh & Hslot & _)|(? & _)]]; [|congruence].
  split; [done|]. rewrite Ho. cbn [negb]. set (w2 := w1 {{ w_shm := _ }}).
  assert (w_shm (close_shm_handle kernel h1 w2).2 = w_shm w2) as E2.
  { unfold close_shm_handle. by destruct (h_shm h1), (negb _). }
  destruct (close_shm_handle kernel h1 w2) as [u w3]. cbn [snd] in E2.
  pose proof (send_basic_reply_silent answers w3) as [_ E3 _ _ _].
  destruct (send_basic_reply answers w3) as [? w4]. cbn [snd] in E3 |- *. rewrite E3, E2. cbn. cbv [constant].
  by rewrite Es.
Qed.

(** * Properties *)

(** No call on the bus but [SetEffect] with bad arguments puts a slot out of
    range: whatever the message, every configuration that was in range still is,
    no connection and no path changes, and slots that are not connected are left
    alone. *)
Theorem dbus_keeps_config kernel answers `{B : DBus} bus_call sizeof_shared_data env system msg w :
  DBusLaws B -> (forall k shm, shm_keeps shm (env k shm)) ->
  (dbus_message_get_member msg = Some "SetEffect"%string -> effect_args_ok msg) ->
  let shm' := w_shm (message_handler kernel answers bus_call sizeof_shared_data env system msg w).2 in
  length (slots (w_shm w)) = MAX_SLOTS -> forall j, 0 <= j < Z.of_nat MAX_SLOTS ->
    (config_ok (get_slot (w_shm w) j) -> config_ok (get_slot shm' j)) /\
    connected (get_slot shm' j) = connected (get_slot (w_shm w) j) /\
    dev_path (get_slot shm' j) = dev_path (get_slot (w_shm w) j) /\
    (connected (get_slot (w_shm w) j) = false -> get_slot shm' j = get_slot (w_shm w) j).
Proof.
  intros HB Henv He shm' Hl j Hj.
  assert (shm_keeps (w_shm w) shm') as (_ & _ & H).
  { unfold shm'. destruct (handler_cases kernel answers bus_call sizeof_shared_data env system msg w)
      as [->|(name & h & Hin & _ & Hm & ->)]; [by apply shm_keeps_same|].
    apply (method_keeps kernel answers bus_call sizeof_shared_data env system Henv HB name h msg Hin).
    intros ->. auto. }
  destruct (H Hl j Hj) as [(? & ? & ? & _) ?]. auto.
Qed.

(** A daemon with four connected controllers, as the bridge sees it. *)
Definition demo_world : world :=
  mk_world (mk_monitor (repeat (mk_view (zero_controller {{ connected := true }}) zero_controller zero_rate) MAX_SLOTS)
              true true true true 9 tv_zero) cli_shm [] 0 0 [] 0 0 0.
Definition plain_call (member : string) (args : list dbus_value) : plain_message :=
  mk_message (Some BRIDGE_INTERFACE) (Some member) args.
Definition plain_handler (msg : plain_message) : svc bool :=
  message_handler (B := plain_bus) good_kernel (fun _ => true) (fun _ _ _ _ => None) 1 (fun _ shm => shm)
    (fun _ => 0) msg.

Example dbus_keeps_config_witness :
  rumble_gain (get_slot (w_shm (plain_handler (plain_call "SetGain" [DByte 2; DByte 250]) demo_world).2) 2) = 100 /\
  connected (get_slot (w_shm (plain_handler (plain_call "SetGain" [DByte 2; DByte 250]) demo_world).2) 2) = true.
Proof.
  destruct (dbus_keeps_config (B := plain_bus) good_kernel (fun _ => true) (fun _ _ _ _ => None) 1 (fun _ shm => shm)
    (fun _ => 0) (plain_call "SetGain" [DByte 2; DByte 250]) demo_world plain_bus_laws
    (fun _ shm => shm_keeps_same shm shm eq_refl eq_refl) ltac:(discriminate) eq_refl 2 ltac:(unfold MAX_SLOTS; lia))
    as (_ & H & _).
  split; [vm_compute; reflexivity | exact H].
Defined.

(** C17: every call gives back what it took (locks, mappings, messages), whatever
    fails; and it leaves no descriptor open, but for the seven methods that map
    the whole memory. *)
Theorem dbus_gives_back kernel answers `{B : DBus} bus_call sizeof_shared_data env system msg w :
  let w' := (message_handler kernel answers bus_call sizeof_shared_data env system msg w).2 in
  lock_depth g_state_lock (w_hist w') = lock_depth g_state_lock (w_hist w) /\
  lock_depth proc_mutex (w_hist w') = lock_depth proc_mutex (w_hist w) /\
  mappings kernel (w_hist w') = mappings kernel (w_hist w) /\
  w_live w' = w_live w /\
  ((forall name, dbus_message_get_member msg = Some name -> mem name any_methods = false) ->
   no_leak kernel (w_hist w) (w_hist w')).
Proof.
  cbv zeta. destruct (handler_cases kernel answers bus_call sizeof_shared_data env system msg w)
    as [->|(name & h & Hin & _ & Hm & ->)]; cbn [snd].
  - do 4 (split; [done|]). by intros _ fd.
  - destruct (method_handled kernel answers bus_call sizeof_shared_data env system name h msg w Hin)
      as [[? ? ? ?] Hf _].
    do 4 (split; [done|]). intros Ha. by apply Hf, Ha.
Qed.

(** C18: as long as the library does not fail, a call of a method of the table is
    answered with exactly one message; the one exception is a setter that could
    not open the memory for its slot: it does nothing and the caller waits until
    its timeout. *)
Theorem dbus_answered_once kernel answers `{B : DBus} bus_call sizeof_shared_data env system msg w name :
  (forall n, answers n = true) ->
  dbus_message_get_interface msg = Some BRIDGE_INTERFACE -> dbus_message_get_member msg = Some name ->
  let r := message_handler kernel answers bus_call sizeof_shared_data env system msg w in
  (r.1 = false /\ r.2 = w /\
   mem name (map fst (methods kernel answers bus_call sizeof_shared_data env system)) = false) \/
  (r.1 = true /\
   (answered w r.2 \/
    (mem name setter_methods = true /\ w_sent r.2 = w_sent w /\ w_shm r.2 = w_shm w /\
     exists slot, h_shm (open_shm_handle kernel sizeof_shared_data slot w).1 = false))).
Proof.
  intros Hok Hi Hm. cbv zeta. unfold message_handler. rewrite Hi, Hm, String.eqb_refl. cbn [negb].
  destruct (find _ _) as [[n h]|] eqn:E.
  - right. apply find_some in E as [Hin Hn]. cbn [fst] in Hn. apply String.eqb_eq in Hn as ->.
    destruct (method_handled kernel answers bus_call sizeof_shared_data env system name h msg w Hin)
      as [_ _ Ha].
    monad_unfold. cbn [snd]. destruct (h msg w) as [u w1]. split; [done|]. by apply Ha.
  - left. split; [done|]. split; [done|]. unfold mem. apply not_true_is_false. intros Hx.
    apply existsb_exists in Hx as (x & Hx & Hn). apply in_map_iff in Hx as ([y h] & <- & Hin).
    pose proof (find_none _ _ E _ Hin) as Hf. cbn [fst] in *. apply String.eqb_eq in Hn as ->.
    by rewrite String.eqb_refl in Hf.
Qed.

Definition unplugged : world :=
  demo_world {{ w_shm := cli_shm {{ slots := repeat zero_controller MAX_SLOTS }} }}.

(** A setter for a controller that is not there is not answered, the getter of
    the same slot is. *)
Example dbus_answered_once_witness :
  w_sent (plain_handler (plain_call "SetGain" [DByte 1; DByte 50]) unplugged).2 = [] /\
  w_sent (plain_handler (plain_call "GetKeymap" [DByte 1]) unplugged).2 =
    [ErrorReply DBUS_ERROR_FAILED "Controller not connected"] /\
  answered demo_world (plain_handler (plain_call "SetGain" [DByte 1; DByte 50]) demo_world).2.
Proof.
  split; [vm_compute; reflexivity|]. split; [vm_compute; reflexivity|].
  destruct (dbus_answered_once (B := plain_bus) good_kernel (fun _ => true) (fun _ _ _ _ => None) 1 (fun _ shm => shm)
    (fun _ => 0) (plain_call "SetGain" [DByte 1; DByte 50]) demo_world "SetGain" (fun _ => eq_refl) eq_refl eq_refl)
    as [(H & _)|(_ & [H|(_ & H & _)])].
  - exfalso. revert H. vm_compute. discriminate.
  - exact H.
  - exfalso. revert H. vm_compute. discriminate.
Defined.

(** Each successful call of the seven methods that map the whole memory
    leaves the descriptor it opened open: [close_shm_handle_any] only unmaps. *)
Theorem dbus_any_leaks_fd kernel answers `{B : DBus} bus_call sizeof_shared_data env system msg w name :
  DBusLaws B ->
  dbus_message_get_interface msg = Some BRIDGE_INTERFACE -> dbus_message_get_member msg = Some name ->
  mem name any_methods = true ->
  (any_args name <> [] -> dbus_message_get_args msg (any_args name) <> None) ->
  (open_shm_handle_any kernel sizeof_shared_data w).1 = true ->
  let fd := (kernel (SysUnlock g_state_lock :: SysLock g_state_lock :: w_hist w) (SysShmOpen SHM_PATH)).1 in
  0 <= fd ->
  opened kernel
    (w_hist (message_handler kernel answers bus_call sizeof_shared_data env system msg w).2) fd = true.
Proof.
  intros HB Hi Hm Hn Ha Ho fd Hfd.
  unfold message_handler. rewrite Hi, Hm, String.eqb_refl. cbn [negb].
  destruct (find _ _) as [[n h]|] eqn:E.
  - apply find_some in E as [Hin Hx]. cbn [fst] in Hx. apply String.eqb_eq in Hx as ->.
    pose proof (method_leaks kernel answers bus_call sizeof_shared_data env system HB name h msg w Hin Hn Ha) as Hl.
    pose proof (open_shm_handle_any_spec kernel sizeof_shared_data w) as Hs. unfold leaks_after in Hl.
    destruct (open_shm_handle_any kernel sizeof_shared_data w) as [shm w1]. cbn [fst] in Ho. subst shm.
    destruct Hs as [_ [(_ & _ & _ & (_ & Hopen & _))|(H & _)]]; [|done].
    monad_unfold. cbn [snd]. destruct (h msg w) as [u w2]. cbn [snd] in *. rewrite (Hl eq_refl fd). by apply Hopen.
  - exfalso. unfold mem, any_methods in Hn. apply existsb_exists in Hn as (x & Hx & Hn).
    apply String.eqb_eq in Hn as <-. cbn [In] in Hx.
    repeat destruct Hx as [<-|Hx]; try done; revert E; cbn; discriminate.
Qed.

Example dbus_any_leaks_fd_witness :
  opened good_kernel (w_hist (plain_handler (plain_call "GetCurrentProfile" []) demo_world).2) 5 = true.
Proof.
  exact (dbus_any_leaks_fd (B := plain_bus) good_kernel (fun _ => true) (fun _ _ _ _ => None) 1 (fun _ shm => shm)
    (fun _ => 0) (plain_call "GetCurrentProfile" []) demo_world "GetCurrentProfile" plain_bus_laws
    eq_refl eq_refl eq_refl (fun H => False_ind _ (H eq_refl)) eq_refl ltac:(cbn; lia)).
Defined.

(** [SetEffect] stores its three bytes as they come.  So one call can put the
    configuration of a slot out of range, and it stays in range exactly when the
    bytes are an effect, a speed and a brightness. *)
Theorem set_effect_unchecked kernel answers `{B : DBus} bus_call sizeof_shared_data env system msg w slot e s b :
  dbus_message_get_interface msg = Some BRIDGE_INTERFACE ->
  dbus_message_get_member msg = Some "SetEffect"%string ->
  dbus_message_get_args msg [DBUS_TYPE_BYTE; DBUS_TYPE_BYTE; DBUS_TYPE_BYTE; DBUS_TYPE_BYTE] =
    Some [DByte slot; DByte e; DByte s; DByte b] ->
  0 <= e < 256 -> 0 <= b -> 0 <= slot -> length (slots (w_shm w)) = MAX_SLOTS ->
  h_shm (open_shm_handle kernel sizeof_shared_data slot w).1 = true ->
  config_ok (get_slot (w_shm w) slot) ->
  let c := get_slot (w_shm (message_handler kernel answers bus_call sizeof_shared_data env system msg w).2) slot in
  led_request_effect c = e /\ led_request_speed c = s /\ led_request_brightness c = b /\
  led_request_pending c = true /\
  (config_ok c <-> e < LEDFX_COUNT /\ 1 <= s <= 10 /\ b <= 100).
Proof.
  intros Hi Hm Ha He Hb Hs Hl Ho Hok. unfold message_handler. rewrite Hi, Hm, String.eqb_refl. cbn [negb].
  set (h := find _ _). assert (h = Some ("SetEffect"%string, handle_set_effect kernel answers sizeof_shared_data)) as ->
    by reflexivity.
  monad_unfold. cbn [snd]. unfold handle_set_effect. rewrite Ha. unfold in_range.
  set (f := fun c : controller_t => _).
  destruct (store_writes kernel answers sizeof_shared_data slot f w Ho) as [Hslot E].
  destruct (Z.leb_spec (Z.of_nat MAX_SLOTS) slot); [lia|].
  destruct (store kernel answers sizeof_shared_data slot f w) as [u w']. cbn [snd] in *. rewrite E, get_put_slot_eq by lia.
  do 4 (split; [done|]). unfold config_ok, cfg_ok, controller_to_slot_config in *. rewrite !Forall_cons, !Forall_nil in *.
  cbn in *. cbv [constant LEDFX_COUNT] in *. rewrite (u8_small e) by lia. split; [lia|]. intros (? & ? & ?). tauto || intuition lia.
Qed.

Example set_effect_unchecked_witness :
  ~ config_ok (get_slot (w_shm (plain_handler (plain_call "SetEffect" [DByte 0; DByte 9; DByte 0; DByte 200])
                 (demo_world {{ w_shm := cli_shm {{ slots := repeat
                    ((slot_config_to_controller (default_slot_config (repeat 0 18)) zero_controller)
                      {{ connected := true }}) MAX_SLOTS }} }})).2) 0).
Proof.
  set (w := demo_world {{ w_shm := _ }}). intros H.
  destruct (set_effect_unchecked (B := plain_bus) good_kernel (fun _ => true) (fun _ _ _ _ => None) 1 (fun _ shm => shm)
    (fun _ => 0) (plain_call "SetEffect" [DByte 0; DByte 9; DByte 0; DByte 200]) w 0 9 0 200
    eq_refl eq_refl eq_refl ltac:(lia) ltac:(lia) ltac:(lia) eq_refl eq_refl) as (_ & _ & _ & _ & Hiff).
  - unfold config_ok. replace (controller_to_slot_config _) with (default_slot_config (repeat 0 18))
      by (vm_compute; reflexivity). exact default_cfg_ok.
  - apply Hiff in H. unfold LEDFX_COUNT in H. lia.
Defined.
