(* ===== verification/Service.v ===== *)
(** * The D-Bus service process ([dbus-main.c], and the thread of [dbus-monitor.c])

    The monitor thread maps the shared memory, makes the turns of [Bridge] on
    it and sends their signals; the main thread takes the name on the bus,
    dispatches the calls to the handlers of [Handlers], reconnects, and ends the
    process on a signal.  The two threads share [world]. *)

From S2P Require Import Prelude Types Sys Utils Commands Bridge Bus Handles Handlers.
Local Open Scope Z_scope.

(** ** The monitor thread *)

(** The thread's own pointer and descriptor. *)
Record monitor_fds := mk_fds { shm_ptr : bool; shm_fd : Z }.
Definition unmapped : monitor_fds := mk_fds false (-1).

Section monitor.
Context (kernel : kernel_t) (answers : nat -> bool) (sizeof_shared_data : Z).

Definition map_memory (f : monitor_fds) : svc monitor_fds :=
  if shm_ptr f then mret f
  else
    fd ← call kernel (SysShmOpen SHM_PATH);
    if negb (fd =? -1) then
      size ← call kernel (SysFstat fd);
      if negb (size =? -1) && (sizeof_shared_data <=? size) then
        map ← call kernel (SysMmap fd);
        if map =? -1 then call_ kernel (SysClose fd);;; mret unmapped
        else
          m ← gets (fun w => magic (w_shm w));
          if negb (m =? SHM_MAGIC_VALUE) then
            call_ kernel SysMunmap;;; call_ kernel (SysClose fd);;; mret unmapped
          else mret (mk_fds true fd)
      else call_ kernel (SysClose fd);;; mret unmapped
    else mret (mk_fds false fd).

(** [kill(pid, 0)], of which only [ESRCH] counts. *)
Definition process_exists (pid : Z) : svc bool :=
  r ← (fun w => (kernel (w_hist w) (SysKill pid 0), w {{ w_hist := SysKill pid 0 :: w_hist w }}));
  mret (negb (negb (r.1 =? 0) && (r.2 =? ESRCH))).

Definition is_status (s : bridge_signal) : bool :=
  match s with DaemonStatusChanged _ => true | _ => false end.

Definition with_state_lock (m : svc unit) : svc unit :=
  call_ kernel (SysLock g_state_lock);;; m;;; call_ kernel (SysUnlock g_state_lock).

(** The body of the loop after the mapping.  [connected]: there is a
    connection. *)
Definition monitor_pass (clk : Z -> nat -> Z) (now : timeval) (connected : bool) (f : monitor_fds)
  : svc monitor_fds :=
  m ← gets w_monitor;
  shm ← gets w_shm;
  if shm_ptr f then
    pid_exists ← (if (heartbeat_alive m now shm true).2 then process_exists (daemon_pid shm) else mret true);
    let (m', out) := monitor_turn clk now pid_exists (Some shm) m in
    if (heartbeat_alive m now shm pid_exists).2 then
      call_ kernel (SysLock proc_mutex);;;
      with_state_lock (
        emit_all answers connected (List.filter (fun s => negb (is_status s)) out);;;
        modify (fun w => w {{ w_monitor := m' }}));;;
      call_ kernel (SysUnlock proc_mutex);;;
      emit_all answers connected (List.filter is_status out);;;
      mret f
    else
      emit_all answers connected out;;;
      with_state_lock (modify (fun w => w {{ w_monitor := m' }}));;;
      call_ kernel SysMunmap;;;
      (if negb (shm_fd f =? -1) then call_ kernel (SysClose (shm_fd f)) else mret tt);;;
      mret unmapped
  else
    let (m', out) := monitor_turn clk now true None m in
    emit_all answers connected out;;;
    with_state_lock (modify (fun w => w {{ w_monitor := m' }}));;;
    mret f.

(** What a turn of the loop reads: the clock, the connection, and what the
    other threads and processes did since the last one. *)
Record turn_env := mk_turn {
  t_clk : Z -> nat -> Z; t_now : timeval; t_connected : bool; t_others : world -> world
}.

(** One turn per time that [worker_running] is found true. *)
Fixpoint monitor_loop (turns : list turn_env) (f : monitor_fds) : svc monitor_fds :=
  match turns with
  | [] => mret f
  | t :: turns =>
      modify (t_others t);;;
      f ← map_memory f;
      f ← monitor_pass (t_clk t) (t_now t) (t_connected t) f;
      monitor_loop turns f
  end.

Definition daemon_monitor (turns : list turn_env) : svc unit :=
  f ← monitor_loop turns unmapped;
  (if shm_ptr f then call_ kernel SysMunmap else mret tt);;;
  (if negb (shm_fd f =? -1) then call_ kernel (SysClose (shm_fd f)) else mret tt).
End monitor.

(** ** The main thread *)

Definition SIGINT : Z := 2.
Definition SIGTERM : Z := 15.

(** The answers of [dbus_bus_request_name]. *)
Definition DBUS_REQUEST_NAME_REPLY_PRIMARY_OWNER : Z := 1.
Definition DBUS_REQUEST_NAME_REPLY_IN_QUEUE : Z := 2.
Definition DBUS_REQUEST_NAME_REPLY_ALREADY_OWNER : Z := 4.

(** The process: what it shares with the monitor thread, whether [dbus_conn] is
    set, the references to connections it took and not dropped, the flags, the
    counter, the statistics it logged; and how many times it read the flag,
    asked for the name, dispatched, and did something else the environment
    answers. *)
#[projections(primitive)]
Record bridge := mk_bridge {
  b_world : world;
  dbus_conn : bool;
  b_refs : Z;
  keep_running : bool;
  worker_running : bool;
  g_reconnections : Z;
  last_stats_log : Z;
  b_stats : list (list Z);
  b_reads : nat;
  b_requests : nat;
  b_dispatches : nat;
  b_ticks : nat
}.
Definition eta_bridge (b : bridge) : bridge := {|
  b_world := b_world b; dbus_conn := dbus_conn b; b_refs := b_refs b; keep_running := keep_running b;
  worker_running := worker_running b; g_reconnections := g_reconnections b;
  last_stats_log := last_stats_log b; b_stats := b_stats b; b_reads := b_reads b;
  b_requests := b_requests b; b_dispatches := b_dispatches b; b_ticks := b_ticks b |}.
#[export] Instance set_b_world : Setter b_world. Proof. mk_setter eta_bridge. Defined.
#[export] Instance set_dbus_conn : Setter dbus_conn. Proof. mk_setter eta_bridge. Defined.
#[export] Instance set_b_refs : Setter b_refs. Proof. mk_setter eta_bridge. Defined.
#[export] Instance set_b_keep_running : Setter keep_running. Proof. mk_setter eta_bridge. Defined.
#[export] Instance set_worker_running : Setter worker_running. Proof. mk_setter eta_bridge. Defined.
#[export] Instance set_g_reconnections : Setter g_reconnections. Proof. mk_setter eta_bridge. Defined.
#[export] Instance set_last_stats_log : Setter last_stats_log. Proof. mk_setter eta_bridge. Defined.
#[export] Instance set_b_stats : Setter b_stats. Proof. mk_setter eta_bridge. Defined.
#[export] Instance set_b_reads : Setter b_reads. Proof. mk_setter eta_bridge. Defined.
#[export] Instance set_b_requests : Setter b_requests. Proof. mk_setter eta_bridge. Defined.
#[export] Instance set_b_dispatches : Setter b_dispatches. Proof. mk_setter eta_bridge. Defined.
#[export] Instance set_b_ticks : Setter b_ticks. Proof. mk_setter eta_bridge. Defined.

(** One [dbus_connection_read_write_dispatch]: the calls it dispatched, and
    whether the connection is still there; or the library ended the process. *)
Inductive dispatched (msg : Type) : Type :=
| Dispatched (msgs : list msg) | Disconnected (msgs : list msg) | Exits.
Arguments Dispatched {msg}. Arguments Disconnected {msg}. Arguments Exits {msg}.

(** The environment: does [pthread_create] succeed; does the n-th [dbus_bus_get]
    succeed; the n-th answer about the name; the n-th dispatch; the signal that
    was caught before the n-th reading of [keep_running]; the time; and what
    others did to the shared state in the n-th sleep. *)
Record bus_env (msg : Type) := mk_bus_env {
  be_thread : bool;
  be_get : nat -> bool;
  be_request : nat -> Z;
  be_dispatch : nat -> dispatched msg;
  be_signal : nat -> option Z;
  be_time : nat -> Z;
  be_others : nat -> world -> world
}.
Arguments be_thread {msg}. Arguments be_get {msg}. Arguments be_request {msg}.
Arguments be_dispatch {msg}. Arguments be_signal {msg}. Arguments be_time {msg}. Arguments be_others {msg}.

Section service.
Context (kernel : kernel_t) (answers : nat -> bool) `{B : DBus}
        (bus_call : string -> string -> string -> list dbus_value -> option dbus_message_t)
        (sizeof_shared_data : Z) (env : nat -> shared_data_t -> shared_data_t)
        (system : string -> Z) (e : bus_env dbus_message_t).

Definition signal_handler (sig : Z) (b : bridge) : bridge :=
  if (sig =? SIGINT) || (sig =? SIGTERM)
  then b {{ keep_running := false; worker_running := false }} else b.

(** A reading of [keep_running], after the signals so far. *)
Definition read_keep_running (b : bridge) : bool * bridge :=
  let b := match be_signal e (b_reads b) with Some sig => signal_handler sig b | None => b end in
  (keep_running b, b {{ b_reads := S (b_reads b) }}).

Definition pause (b : bridge) : bridge :=
  b {{ b_world := be_others e (b_ticks b) (b_world b); b_ticks := S (b_ticks b) }}.

Definition dbus_cleanup (b : bridge) : bridge :=
  if dbus_conn b then b {{ b_refs := b_refs b - 1; dbus_conn := false }} else b.

Definition setup_dbus (b : bridge) : bool * bridge :=
  let got := be_get e (b_ticks b) in
  let b := b {{ dbus_conn := got; b_ticks := S (b_ticks b) }} in
  if negb got then (false, b)
  else
    let b := b {{ b_refs := b_refs b + 1 }} in
    let ret := be_request e (b_requests b) in
    let b := b {{ b_requests := S (b_requests b) }} in
    if negb (ret =? DBUS_REQUEST_NAME_REPLY_PRIMARY_OWNER)
    then (false, b {{ b_refs := b_refs b - 1; dbus_conn := false }})
    else (true, b).

(** The first loop of [main]. *)
Fixpoint setup_loop (fuel : nat) (b : bridge) : option bridge :=
  match fuel with
  | O => None
  | S fuel =>
      let (go, b) := read_keep_running b in
      if negb go then Some b
      else
        let (ok, b) := setup_dbus b in
        if ok then Some b else setup_loop fuel (pause b)
  end.

(** The [for] loop of a reconnection. *)
Fixpoint reconnect (retries : nat) (b : bridge) : bool * bridge :=
  match retries with
  | O => (false, b)
  | S retries =>
      let (go, b) := read_keep_running b in
      if negb go then (false, b)
      else
        let (ok, b) := setup_dbus (pause b) in
        if ok then (true, b) else reconnect retries b
  end.

Definition handle_all (msgs : list dbus_message_t) (b : bridge) : bridge :=
  b {{ b_world := fold_left (fun w msg =>
         (message_handler kernel answers bus_call sizeof_shared_data env system msg w).2) msgs (b_world b) }}.

Definition log_stats (b : bridge) : bridge :=
  let now := be_time e (b_ticks b) in
  let b := b {{ b_ticks := S (b_ticks b) }} in
  if 60 <=? now - last_stats_log b
  then b {{ b_stats := b_stats b ++ [[g_signals_sent (b_world b); g_methods_called (b_world b);
                                       g_errors_occurred (b_world b); g_reconnections b]];
            last_stats_log := now }}
  else b.

(** How a turn of the second loop ends. *)
Inductive serve_result : Type := Goes (b : bridge) | Breaks (b : bridge) | Exited (b : bridge).

Definition serve_turn (b : bridge) : serve_result :=
  let d := be_dispatch e (b_dispatches b) in
  let b := b {{ b_dispatches := S (b_dispatches b) }} in
  match d with
  | Exits => Exited b
  | Dispatched msgs => Goes (pause (log_stats (handle_all msgs b)))
  | Disconnected msgs =>
      let b := dbus_cleanup (handle_all msgs b) in
      let b := b {{ g_reconnections := u64 (g_reconnections b + 1) }} in
      let (reconnected, b) := reconnect 10 b in
      if reconnected then Goes (pause (log_stats b)) else Breaks b
  end.

Fixpoint serve (fuel : nat) (b : bridge) : option serve_result :=
  match fuel with
  | O => None
  | S fuel =>
      let (go, b) := read_keep_running b in
      if negb go then Some (Breaks b)
      else match serve_turn b with
           | Goes b => serve fuel b
           | r => Some r
           end
  end.

(** [pthread_join] of the monitor thread, which ends when it is told to. *)
Definition join (b : bridge) : option bridge := if worker_running b then None else Some b.

(** [main], from the process as it is loaded, with its exit code. *)
Definition service_main (fuel : nat) (b : bridge) : option (Z * bridge) :=
  if negb (be_thread e) then Some (1, b)
  else
    b ← setup_loop fuel b;
    let (go, b) := read_keep_running b in
    if negb go then b ← join b; Some (0, b)
    else
      let b := b {{ last_stats_log := be_time e (b_ticks b); b_ticks := S (b_ticks b) }} in
      r ← serve fuel b;
      match r with
      | Exited b => Some (1, b)
      | Goes b | Breaks b =>
          b ← join (b {{ worker_running := false }});
          Some (0, dbus_cleanup b)
      end.
End service.

Definition loaded (w : world) : bridge := mk_bridge w false 0 true true 0 0 [] 0 0 0 0.

(** * Specification *)

(** ** What the monitor thread holds *)

Section monitor_lemmas.
Context (kernel : kernel_t) (answers : nat -> bool) (sizeof_shared_data : Z).

(** Since [w0]: the locks are as they were, and there is one mapping and one
    descriptor more exactly when the thread has the memory. *)
Record held (w0 : world) (f : monitor_fds) (w : world) : Prop := mk_held {
  held_state : lock_depth g_state_lock (w_hist w) = lock_depth g_state_lock (w_hist w0);
  held_proc : lock_depth proc_mutex (w_hist w) = lock_depth proc_mutex (w_hist w0);
  held_map : mappings kernel (w_hist w) = mappings kernel (w_hist w0) + b2z (shm_ptr f);
  held_live : w_live w = w_live w0;
  held_ptr : shm_ptr f = negb (shm_fd f =? -1);
  held_fds : if shm_ptr f then opened_only kernel (w_hist w0) (w_hist w) (shm_fd f)
             else no_leak kernel (w_hist w0) (w_hist w)
}.

(** What the thread does while it keeps what it has. *)
Definition keeping (w w' : world) : Prop := balanced kernel w w' /\ fds_same kernel (w_hist w) (w_hist w').
#[export] Instance keeping_refl : Reflexive keeping.
Proof. intros w. by split. Qed.
#[export] Instance keeping_trans : Transitive keeping.
Proof. intros a b c [H1 F1] [H2 F2]. split; [by etransitivity | by eapply fds_same_trans]. Qed.

Lemma silent_keeping w w' : silent w w' -> keeping w w'.
Proof. intros H. split; [by apply silent_balanced|]. destruct H as [? ? Hh ? ?]. intros fd. by rewrite Hh. Qed.
Lemma emit_keeping c l : respects keeping (emit_all answers c l).
Proof. intros w. apply silent_keeping, emit_all_silent. Qed.

Lemma held_keeping w0 f w w' : held w0 f w -> keeping w w' -> held w0 f w'.
Proof.
  intros [H1 H2 H3 H4 H5 H6] [[B1 B2 B3 B4] F]. split; try congruence.
  destruct (shm_ptr f); intros x; rewrite (F x); apply H6.
Qed.

Lemma process_exists_keeping pid : respects keeping (process_exists kernel pid).
Proof. intros w. by split. Qed.

Lemma with_state_lock_keeping m : respects keeping m -> respects keeping (with_state_lock kernel m).
Proof.
  intros Hm w. unfold with_state_lock. svc_unfold.
  set (w1 := w {{ w_hist := SysLock g_state_lock :: w_hist w }}). specialize (Hm w1).
  destruct (m w1) as [u w2]. cbn [snd] in *. destruct Hm as [[B1 B2 B3 B4] F].
  cbn in B1, B2, B3, B4, F. cbv [constant] in *.
  split; [split; cbn; cbv [constant]; lia|]. intros x. exact (F x).
Qed.

Lemma set_monitor_keeping m : respects keeping (modify (fun w => w {{ w_monitor := m }})).
Proof. intros w. by split. Qed.

(** Giving the memory back. *)
Lemma release_held w0 f w :
  held w0 f w -> shm_ptr f = true ->
  let w' := (call_ kernel SysMunmap;;;
             (if negb (shm_fd f =? -1) then call_ kernel (SysClose (shm_fd f)) else mret tt)) w in
  held w0 unmapped w'.2.
Proof.
  intros [H1 H2 H3 H4 H5 H6] Hp. rewrite Hp in *. rewrite <- H5. cbv zeta. svc_unfold.
  cbn. cbv [constant]. split; cbn; cbv [constant]; try done; try lia. cbn [b2z] in H3. 1: lia.
  intros x. cbn. destruct (Z.eqb_spec (shm_fd f) x) as [|Hne]; [done|].
  intros Hx. destruct (H6 x Hx) as [->|]; [done|done].
Qed.

(** [ends w0 f k]: begun with [f] held, [k] ends holding what it returns. *)
Definition ends (w0 : world) (f : monitor_fds) (k : svc monitor_fds) : Prop :=
  forall w, held w0 f w -> held w0 (k w).1 (k w).2.

Lemma ends_ret w0 f : ends w0 f (mret f).
Proof. by intros w. Qed.
Lemma ends_bind w0 f g (k : monitor_fds -> svc monitor_fds) :
  ends w0 f g -> (forall f', ends w0 f' (k f')) -> ends w0 f (g ≫= k).
Proof.
  intros Hg Hk w Hw. unfold mbind, svc_bind. specialize (Hg w Hw). destruct (g w) as [f' w']. by apply Hk.
Qed.
Lemma ends_gets {A} w0 f (g : world -> A) k : (forall x, ends w0 f (k x)) -> ends w0 f (gets g ≫= k).
Proof. intros Hk w Hw. by apply Hk. Qed.
Lemma ends_keep {A} w0 f (m : svc A) k :
  respects keeping m -> (forall x, ends w0 f (k x)) -> ends w0 f (m ≫= k).
Proof.
  intros Hm Hk w Hw. unfold mbind, svc_bind. specialize (Hm w). destruct (m w) as [x w'].
  apply Hk. by eapply held_keeping.
Qed.

Lemma map_memory_ends w0 f : ends w0 f (map_memory kernel sizeof_shared_data f).
Proof.
  intros w Hh. unfold map_memory. destruct (shm_ptr f) eqn:Hp; [exact Hh|].
  destruct Hh as [H1 H2 H3 H4 H5 H6]. rewrite Hp in *. cbn [b2z] in H3.
  set (fd := (kernel (w_hist w) (SysShmOpen SHM_PATH)).1).
  assert (fd = -1 -> no_leak kernel (w_hist w0) (SysShmOpen SHM_PATH :: w_hist w)) as Hneg.
  { intros E x. cbn. fold fd. rewrite E. cbn. apply H6. }
  assert (opened_only kernel (w_hist w0) (SysShmOpen SHM_PATH :: w_hist w) fd) as Hopen.
  { intros x. cbn. fold fd. destruct (Z.eqb_spec fd x) as [->|]; [by left|].
    rewrite andb_false_r. intros Hx. right. by apply H6. }
  assert (forall h, fds_same kernel (SysShmOpen SHM_PATH :: w_hist w) h ->
    no_leak kernel (w_hist w0) (SysClose fd :: h)) as Hclose.
  { intros h Hs x. cbn. destruct (Z.eqb_spec fd x) as [|Hne]; [done|]. rewrite (Hs x).
    intros Hx. by destruct (Hopen x Hx) as [->|]. }
  svc_unfold. cbn. cbv [constant]. fold fd.
  repeat match goal with |- context [if ?b then _ else _] => destruct b eqn:?; cbn [fst snd negb] end;
    zprop; (split; cbn; cbv [constant]; try done; try lia);
    fold fd; try (by apply (Hclose (_ :: _))); try (by apply (Hclose (_ :: _ :: _)));
    try (by apply (Hclose (_ :: _ :: _ :: _))); try (by apply Hneg);
    match goal with |- context [b2z (negb (?r =? -1))] => destruct (Z.eqb_spec r (-1)) end; cbn [negb b2z]; first [lia | done].
Qed.

(** The locked part of an online turn. *)
Lemma locked_keeping (m : svc unit) :
  respects keeping m ->
  respects keeping (call_ kernel (SysLock proc_mutex);;; m;;; call_ kernel (SysUnlock proc_mutex)).
Proof.
  intros Hm w. svc_unfold.
  set (w1 := w {{ w_hist := SysLock proc_mutex :: w_hist w }}). specialize (Hm w1).
  destruct (m w1) as [u w2]. cbn [snd] in *. destruct Hm as [[B1 B2 B3 B4] F].
  cbn in B1, B2, B3, B4, F. cbv [constant] in *.
  split; [split; cbn; cbv [constant]; lia|]. intros x. exact (F x).
Qed.

Lemma monitor_pass_ends w0 clk now connected f :
  ends w0 f (monitor_pass kernel answers clk now connected f).
Proof.
  unfold monitor_pass. apply ends_gets. intros m. apply ends_gets. intros shm.
  destruct (shm_ptr f) eqn:Hp.
  - apply ends_keep; [case_match; [apply process_exists_keeping | by apply respects_ret, _]|].
    intros pid_exists. destruct (monitor_turn _ _ _ _ _) as [m' out]. case_match.
    + set (slots_part := with_state_lock kernel _).
      assert (respects keeping slots_part) as Hs.
      { apply with_state_lock_keeping, respects_bind; [apply _ | apply emit_keeping |].
        intros _. apply set_monitor_keeping. }
      intros w Hw. apply locked_keeping in Hs. specialize (Hs w).
      revert Hs. svc_unfold. destruct (slots_part _) as [u w1]. cbn [snd]. intros Hs.
      pose proof (emit_keeping connected (List.filter is_status out)
        (w1 {{ w_hist := SysUnlock proc_mutex :: w_hist w1 }})) as He.
      destruct (emit_all _ _ _ _) as [u' w2]. cbn [fst snd] in *.
      eapply held_keeping; [exact Hw | by etransitivity].
    + apply ends_keep; [apply emit_keeping|]. intros _.
      apply ends_keep; [apply with_state_lock_keeping, set_monitor_keeping|]. intros _ w Hw.
      pose proof (release_held w0 f w Hw Hp) as Hr. revert Hr. svc_unfold. by case_match.
  - destruct (monitor_turn _ _ _ _ _) as [m' out].
    apply ends_keep; [apply emit_keeping|]. intros _.
    apply ends_keep; [apply with_state_lock_keeping, set_monitor_keeping|]. intros _. apply ends_ret.
Qed.

(** The others change no call and no message of this thread. *)
Definition others_ok (t : turn_env) : Prop :=
  forall w, w_hist (t_others t w) = w_hist w /\ w_live (t_others t w) = w_live w.

Lemma monitor_loop_ends w0 turns f :
  Forall others_ok turns -> ends w0 f (monitor_loop kernel answers sizeof_shared_data turns f).
Proof.
  intros Ht. revert f. induction Ht as [|t turns Ht _ IH]; intros f; cbn [monitor_loop]; [apply ends_ret|].
  apply ends_keep.
  - intros w. unfold modify. cbn [snd]. destruct (Ht w) as [Hh Hl]. split; [split; rewrite ?Hh; done|].
    intros x. by rewrite Hh.
  - intros _. apply ends_bind; [apply map_memory_ends|]. intros f1.
    apply ends_bind; [apply monitor_pass_ends | exact IH].
Qed.
End monitor_lemmas.

(** C20: whatever the calls answer and whenever the thread is stopped, the monitor
    thread ends with the locks, the mappings, the messages and the descriptors
    it began with. *)
Theorem monitor_gives_back kernel answers sizeof_shared_data turns w :
  Forall others_ok turns ->
  let w' := (daemon_monitor kernel answers sizeof_shared_data turns w).2 in
  balanced kernel w w' /\ no_leak kernel (w_hist w) (w_hist w').
Proof.
  intros Ht. cbv zeta. unfold daemon_monitor.
  match goal with |- context [(?m ≫= ?k) w] => change ((m ≫= k) w) with (let (x, w) := m w in k x w) end.
  assert (held kernel w unmapped w) as H0 by (split; try done; [cbn; lia | by intros x]).
  pose proof (monitor_loop_ends kernel answers sizeof_shared_data w turns unmapped Ht w H0) as Hl.
  destruct (monitor_loop _ _ _ _ _ w) as [f w1]. cbn [fst snd] in Hl.
  destruct (shm_ptr f) eqn:Hp.
  - destruct (release_held kernel w f w1 Hl Hp) as [? ? Hm ? _ Hf]. cbn [shm_ptr unmapped b2z] in *.
    split; [split; try done; lia | exact Hf].
  - destruct Hl as [? ? Hm ? Hs Hf]. rewrite Hp in *. rewrite <- Hs. cbn [b2z] in Hm. svc_unfold.
    split; [split; try done; lia | exact Hf].
Qed.

(** ** The life of the process *)

Section service_lemmas.
Context (kernel : kernel_t) (answers : nat -> bool) `{B : DBus}
        (bus_call : string -> string -> string -> list dbus_value -> option dbus_message_t)
        (sizeof_shared_data : Z) (env : nat -> shared_data_t -> shared_data_t)
        (system : string -> Z) (e : bus_env dbus_message_t).
Abbreviation loop := (setup_loop e).
Abbreviation turn := (serve_turn kernel answers bus_call sizeof_shared_data env system e).
Abbreviation serving := (serve kernel answers bus_call sizeof_shared_data env system e).
Abbreviation main := (service_main kernel answers bus_call sizeof_shared_data env system e).

(** [dbus_conn] is the one reference held; the thread is told to stop with the
    process; and a reading after the [k]th finds the flag down. *)
Record service_ok (k : nat) (b : bridge) : Prop := mk_service_ok {
  ok_refs : b_refs b = b2z (dbus_conn b);
  ok_flags : keep_running b = false -> worker_running b = false;
  ok_told : (k < b_reads b)%nat -> keep_running b = false
}.

Lemma pause_ok k b : service_ok k b -> service_ok k (pause e b).
Proof. by intros [? ? ?]. Qed.
Lemma handle_ok k msgs b :
  service_ok k b -> service_ok k (handle_all kernel answers bus_call sizeof_shared_data env system msgs b).
Proof. by intros [? ? ?]. Qed.
Lemma log_ok k b : service_ok k b -> service_ok k (log_stats e b) /\ b_reads (log_stats e b) = b_reads b.
Proof. intros [? ? ?]. unfold log_stats. by case_match. Qed.

Lemma cleanup_ok k b :
  service_ok k b ->
  service_ok k (dbus_cleanup b) /\ dbus_conn (dbus_cleanup b) = false /\
  b_reads (dbus_cleanup b) = b_reads b /\ b_dispatches (dbus_cleanup b) = b_dispatches b /\
  worker_running (dbus_cleanup b) = worker_running b.
Proof.
  intros [H1 H2 H3]. unfold dbus_cleanup. destruct (dbus_conn b) eqn:E; cbn [b2z] in H1.
  - split; [|done]. split; cbn; cbv [constant b2z]; first [lia | done].
  - split; [split; rewrite ?E; done | done].
Qed.

Lemma setup_dbus_ok k b :
  service_ok k b -> dbus_conn b = false ->
  let (ok, b') := setup_dbus e b in
  service_ok k b' /\ dbus_conn b' = ok /\ b_reads b' = b_reads b /\ b_dispatches b' = b_dispatches b.
Proof.
  intros [H1 H2 H3] Hc. rewrite Hc in H1. cbn [b2z] in H1. unfold setup_dbus.
  destruct (be_get e (b_ticks b)); cbn; cbv [constant]; [destruct (_ =? _); cbn [negb]|];
    (split; [split; cbn; cbv [constant b2z]; first [lia | done] | done]).
Qed.

Context (k : nat) (sig : Z).
Context (Hk : be_signal e k = Some sig) (Hsig : sig = SIGINT \/ sig = SIGTERM).

Lemma read_ok b :
  service_ok k b ->
  let (go, b') := read_keep_running e b in
  service_ok k b' /\ go = keep_running b' /\ b_reads b' = S (b_reads b) /\
  dbus_conn b' = dbus_conn b /\ b_dispatches b' = b_dispatches b.
Proof.
  intros [H1 H2 H3]. unfold read_keep_running.
  assert (forall s b0, b0 = signal_handler s b ->
    b_refs b0 = b_refs b /\ dbus_conn b0 = dbus_conn b /\ b_reads b0 = b_reads b /\
    b_dispatches b0 = b_dispatches b /\ (keep_running b0 = false -> worker_running b0 = false) /\
    (keep_running b = false -> keep_running b0 = false) /\ (s = sig -> keep_running b0 = false)) as Hs.
  { intros s b0 ->. unfold signal_handler. destruct (_ || _) eqn:E; [done|]. repeat (split; [done|]).
    intros ->. by destruct Hsig as [-> | ->]. }
  destruct (be_signal e (b_reads b)) as [s|] eqn:E.
  - destruct (Hs s _ eq_refl) as (E1 & E2 & E3 & E4 & E5 & E6 & E7).
    set (b0 := signal_handler s b) in *. clearbody b0. cbn. cbv [constant].
    split; [|split; [done|]; split; [lia | done]].
    split; cbn; cbv [constant]; [by rewrite E1, E2 | done |]. intros Hlt.
    destruct (decide (k = b_reads b)) as [->|]; [apply E7; congruence | apply E6, H3; lia].
  - cbn. cbv [constant]. split; [|done]. split; cbn; cbv [constant]; [done | done |]. intros Hlt.
    apply H3. destruct (decide (k = b_reads b)) as [->|]; [congruence | lia].
Qed.

Lemma setup_loop_returns fuel b :
  service_ok k b -> dbus_conn b = false -> (0 < fuel)%nat -> (k < b_reads b + fuel)%nat ->
  exists b', loop fuel b = Some b' /\ service_ok k b' /\ (b_reads b <= b_reads b')%nat /\
    b_dispatches b' = b_dispatches b /\ (keep_running b' = true -> dbus_conn b' = true).
Proof.
  revert b. induction fuel as [|fuel IH]; intros b Hb Hc Hf Hr; [lia|]. cbn [setup_loop].
  pose proof (read_ok b Hb) as H. destruct (read_keep_running e b) as [go b1].
  destruct H as (H1 & -> & Hr1 & Hc1 & Hd1). destruct (keep_running b1) eqn:Ek; cbn [negb].
  2: { exists b1. split; [done|]. split; [done|]. split; [lia|]. split; [done|]. congruence. }
  rewrite Hc in Hc1. pose proof (setup_dbus_ok k b1 H1 Hc1) as H.
  destruct (setup_dbus e b1) as [ok b2]. destruct H as (H2 & Hc2 & Hr2 & Hd2).
  destruct ok; [exists b2; split; [done|]; split; [done|]; split; [lia|]; split; [congruence | done]|].
  assert (b_reads b1 <= k)%nat as Hle.
  { destruct (decide (k < b_reads b1)%nat) as [Hlt|]; [|lia]. pose proof (ok_told _ _ H1 Hlt). congruence. }
  destruct (IH (pause e b2)) as (b' & -> & H' & Hr' & Hd' & Hk'); [by apply pause_ok | done | lia
    | unfold pause; cbn; cbv [constant]; lia |].
  exists b'. split; [done|]. split; [done|]. unfold pause in *. cbn in *. cbv [constant] in *.
  split; [lia|]. split; [congruence | done].
Qed.

Lemma reconnect_ok n b :
  service_ok k b -> dbus_conn b = false ->
  let (r, b') := reconnect e n b in
  service_ok k b' /\ dbus_conn b' = r /\ (b_reads b <= b_reads b')%nat.
Proof.
  revert b. induction n as [|n IH]; intros b Hb Hc; cbn [reconnect]; [done|].
  pose proof (read_ok b Hb) as H. destruct (read_keep_running e b) as [go b1].
  destruct H as (H1 & -> & Hr1 & Hc1 & _). rewrite Hc in Hc1.
  destruct (keep_running b1); cbn [negb]; [|split; [done|]; split; [done | lia]].
  pose proof (setup_dbus_ok k (pause e b1) (pause_ok k b1 H1) Hc1) as H.
  destruct (setup_dbus e (pause e b1)) as [ok b2]. destruct H as (H2 & Hc2 & Hr2 & _).
  change (b_reads (pause e b1)) with (b_reads b1) in Hr2.
  destruct ok; [split; [done|]; split; [done | lia]|].
  specialize (IH b2 H2 Hc2). destruct (reconnect e n b2) as [r b3].
  destruct IH as (? & ? & ?). split; [done|]. split; [done | lia].
Qed.

Definition result_ok (b : bridge) (r : serve_result) : Prop :=
  match r with
  | Goes b' | Breaks b' => service_ok k b' /\ (b_reads b <= b_reads b')%nat
  | Exited _ => exists n, be_dispatch e n = Exits
  end.

Lemma serve_turn_ok b : service_ok k b -> result_ok b (turn b).
Proof.
  intros Hb. unfold serve_turn. destruct (be_dispatch e (b_dispatches b)) as [msgs|msgs|] eqn:Ed; [| |by eexists].
  all: set (b1 := b {{ b_dispatches := S (b_dispatches b) }}).
  all: assert (service_ok k b1) as H1 by (by destruct Hb).
  all: apply (handle_ok k msgs) in H1; set (b2 := handle_all _ _ _ _ _ _ _ _) in *.
  all: assert (b_reads b2 = b_reads b) as Hr2 by done.
  - destruct (log_ok k b2 H1) as [H2 Hr]. split; [by apply pause_ok|].
    change (b_reads (pause e (log_stats e b2))) with (b_reads (log_stats e b2)). lia.
  - destruct (cleanup_ok k b2 H1) as (H2 & Hc & Hr3 & _). set (b3 := dbus_cleanup b2) in *. clearbody b3.
    set (b4 := b3 {{ g_reconnections := _ }}). assert (service_ok k b4) as H4 by (by destruct H2).
    pose proof (reconnect_ok 10 b4 H4 Hc) as H. destruct (reconnect e 10 b4) as [r b5].
    destruct H as (H5 & _ & Hr5). change (b_reads b4) with (b_reads b3) in Hr5.
    destruct r; [|split; [done | lia]].
    destruct (log_ok k b5 H5) as [H6 Hr6]. split; [by apply pause_ok|].
    change (b_reads (pause e (log_stats e b5))) with (b_reads (log_stats e b5)). lia.
Qed.

Lemma serve_returns fuel b :
  service_ok k b -> (0 < fuel)%nat -> (k < b_reads b + fuel)%nat ->
  exists r, serving fuel b = Some r /\ result_ok b r.
Proof.
  revert b. induction fuel as [|fuel IH]; intros b Hb Hf Hr; [lia|]. cbn [serve].
  pose proof (read_ok b Hb) as H. destruct (read_keep_running e b) as [go b1].
  destruct H as (H1 & -> & Hr1 & _). destruct (keep_running b1) eqn:Ek; cbn [negb].
  2: { eexists. split; [done|]. split; [done | lia]. }
  pose proof (serve_turn_ok b1 H1) as Ht. destruct (turn b1) as [b2|b2|b2].
  - destruct Ht as [H2 Hr2]. assert (b_reads b1 <= k)%nat as Hle.
    { destruct (decide (k < b_reads b1)%nat) as [Hlt|]; [|lia]. pose proof (ok_told _ _ H1 Hlt). congruence. }
    destruct (IH b2 H2) as (r & -> & Hres); [lia | lia |]. exists r. split; [done|].
    destruct r; cbn in *; [| |done]; destruct Hres; (split; [done | lia]).
  - eexists. split; [done|]. destruct Ht. split; [done | lia].
  - by eexists.
Qed.
End service_lemmas.

(** C19: a caught SIGINT or SIGTERM ends the process, in whichever loop it is:
    [main] returns 0, the monitor thread was told to stop and joined, and the
    connection is given back, unless the process is still in its first loop; the
    only exit code 1 is that of a thread that could not be created or of the
    library. *)
Theorem service_stops kernel answers `{B : DBus} bus_call sizeof_shared_data env system e w k sig fuel :
  be_signal e k = Some sig -> sig = SIGINT \/ sig = SIGTERM -> (k + 1 < fuel)%nat ->
  exists r b, service_main kernel answers bus_call sizeof_shared_data env system e fuel (loaded w) = Some (r, b) /\
    ((r = 0 /\ worker_running b = false /\ b_refs b = b2z (dbus_conn b) /\
      (dbus_conn b = true -> b_dispatches b = O)) \/
     (r = 1 /\ (be_thread e = false \/ exists n, be_dispatch e n = Exits))).
Proof.
  intros Hk Hsig Hf. unfold service_main. destruct (be_thread e); cbn [negb]; [|by do 2 eexists; split; [done|]; auto].
  assert (service_ok k (loaded w)) as H0 by (split; cbn; [done | done | lia]).
  destruct (setup_loop_returns e k sig Hk Hsig fuel (loaded w) H0 eq_refl) as (b1 & -> & H1 & Hr1 & Hd1 & _);
    [lia | cbn; lia |]. cbn [mbind option_bind].
  pose proof (read_ok e k sig Hk Hsig b1 H1) as H. destruct (read_keep_running e b1) as [go b2].
  destruct H as (H2 & -> & Hr2 & _ & Hd2).
  destruct (keep_running b2) eqn:Ek; cbn [negb].
  - set (b3 := b2 {{ last_stats_log := _; b_ticks := _ }}).
    assert (service_ok k b3) as H3 by (by destruct H2).
    destruct (serve_returns kernel answers bus_call sizeof_shared_data env system e k sig Hk Hsig fuel b3 H3)
      as (r & -> & Hres); [lia | cbn in *; lia |]. cbn [mbind option_bind].
    destruct r as [b4|b4|b4]; cbn [result_ok] in Hres; [| |by do 2 eexists; split; [done|]; auto];
      destruct Hres as [[Hx Hy Hz] _]; cbn [join worker_running mbind option_bind];
      set (b5 := b4 {{ worker_running := false }});
      assert (service_ok k b5) as H5 by (by split);
      destruct (cleanup_ok k b5 H5) as ([Hp _ _] & Hq & _ & _ & Hw);
      exists 0, (dbus_cleanup b5); (split; [done|]); left;
      (split; [done|]); (split; [exact Hw|]); (split; [exact Hp | congruence]).
  - destruct H2 as [Ha Hb Hc]. unfold join. rewrite (Hb Ek). cbn [mbind option_bind]. exists 0, b2. split; [done|]. left.
    split; [done|]. split; [by apply Hb|]. split; [done|]. intros _. rewrite Hd2, Hd1. done.
Qed.

(** ** A service started behind another

    What the bus documents of a name that another connection owns and does not
    give up: the request is queued; asked again, the connection, which the
    library keeps, is still in the queue or has become the owner, and is told
    so. *)
Definition queue_law {msg} (e : bus_env msg) : Prop :=
  forall n, let reply n := be_request e n in
  reply n = DBUS_REQUEST_NAME_REPLY_IN_QUEUE \/ reply n = DBUS_REQUEST_NAME_REPLY_ALREADY_OWNER ->
  reply (S n) = DBUS_REQUEST_NAME_REPLY_IN_QUEUE \/ reply (S n) = DBUS_REQUEST_NAME_REPLY_ALREADY_OWNER.

Section queued.
Context `{B : DBus} (e : bus_env dbus_message_t).
Context (Hlaw : queue_law e) (Hfirst : be_request e 0 = DBUS_REQUEST_NAME_REPLY_IN_QUEUE).

Lemma queued_setup b :
  (setup_dbus e b).1 = false /\ b_dispatches (setup_dbus e b).2 = b_dispatches b /\
  keep_running (setup_dbus e b).2 = keep_running b.
Proof.
  assert (forall n, be_request e n = DBUS_REQUEST_NAME_REPLY_IN_QUEUE \/
                    be_request e n = DBUS_REQUEST_NAME_REPLY_ALREADY_OWNER) as Hn
    by (induction n as [|n IH]; [by left | by apply Hlaw]).
  unfold setup_dbus. destruct (be_get e (b_ticks b)); cbn; cbv [constant]; [|done].
  by destruct (Hn (b_requests b)) as [-> | ->].
Qed.

Lemma read_dispatches b :
  let (go, b') := read_keep_running e b in
  go = keep_running b' /\ b_dispatches b' = b_dispatches b /\
  (keep_running b = false -> keep_running b' = false) /\
  ((forall n, be_signal e n = None) -> keep_running b' = keep_running b).
Proof.
  unfold read_keep_running, signal_handler. destruct (be_signal e (b_reads b)) as [s|] eqn:E; [case_match|];
    cbn; cbv [constant]; repeat (split; [done|]); try done; intros Hs; by rewrite Hs in E.
Qed.

Lemma queued_loop fuel b b' :
  setup_loop e fuel b = Some b' ->
  keep_running b' = false /\ b_dispatches b' = b_dispatches b /\
  ~ (keep_running b = true /\ forall n, be_signal e n = None).
Proof.
  revert b. induction fuel as [|fuel IH]; intros b; cbn [setup_loop]; [done|].
  pose proof (read_dispatches b) as H. destruct (read_keep_running e b) as [go b1].
  destruct H as (-> & Hd & _ & Hn). destruct (keep_running b1) eqn:Ek; cbn [negb].
  - destruct (queued_setup b1) as (E1 & E2 & E3). destruct (setup_dbus e b1) as [ok b2].
    cbn [fst snd] in *. subst ok. intros H. apply IH in H as (? & Hd' & Hnot).
    unfold pause in *. cbn in *. cbv [constant] in *. split; [done|]. split; [congruence|].
    intros [Hb Hs]. apply Hnot. split; [congruence | done].
  - intros [= <-]. split; [done|]. split; [done|]. intros [Hb Hs]. specialize (Hn Hs). congruence.
Qed.
End queued.

(** C21: a service that was queued for its name behind another never serves a
    call, not even once the bus has made it the owner: [setup_dbus] takes only
    PRIMARY_OWNER for success, so the process repeats its first loop until it is
    stopped. *)
Theorem queued_service_never_serves kernel answers `{B : DBus} bus_call sizeof_shared_data env system e w :
  queue_law e -> be_thread e = true -> be_request e 0 = DBUS_REQUEST_NAME_REPLY_IN_QUEUE ->
  let main fuel := service_main kernel answers bus_call sizeof_shared_data env system e fuel (loaded w) in
  ((forall n, be_signal e n = None) -> forall fuel, main fuel = None) /\
  (forall fuel r b, main fuel = Some (r, b) -> b_dispatches b = O).
Proof.
  intros Hlaw Ht Hfirst main. subst main. cbn beta. split.
  - intros Hs fuel. unfold service_main. rewrite Ht. cbn [negb].
    destruct (setup_loop e fuel (loaded w)) as [b|] eqn:E; [|done].
    apply (queued_loop e Hlaw Hfirst) in E as (_ & _ & Hn). by destruct Hn.
  - intros fuel r b. unfold service_main. rewrite Ht. cbn [negb].
    destruct (setup_loop e fuel (loaded w)) as [b1|] eqn:E; [|done].
    apply (queued_loop e Hlaw Hfirst) in E as (Hk & Hd & _). cbn [mbind option_bind].
    pose proof (read_dispatches e b1) as H. destruct (read_keep_running e b1) as [go b2].
    destruct H as (-> & Hd2 & Hk2 & _). rewrite (Hk2 Hk). cbn [negb]. unfold join.
    destruct (worker_running b2); cbn [mbind option_bind]; [done|]. intros [= _ <-]. by rewrite Hd2, Hd.
Qed.

(** ** Witnesses *)

(** A bus that gives the name at once, one call, and then SIGTERM. *)
Definition plain_env : bus_env plain_message :=
  mk_bus_env _ true (fun _ => true) (fun _ => 1)
    (fun n => if Nat.eqb n 1 then Dispatched [plain_call "SetGain" [DByte 2; DByte 250]] else Dispatched [])
    (fun n => if Nat.eqb n 6 then Some SIGTERM else None) (fun n => 20 * Z.of_nat n) (fun _ w => w).
Definition plain_main (e : bus_env plain_message) (fuel : nat) : option (Z * bridge) :=
  service_main (B := plain_bus) good_kernel (fun _ => true) (fun _ _ _ _ => None) 1 (fun _ shm => shm)
    (fun _ => 0) e fuel (loaded demo_world).

Example service_stops_witness :
  (exists r b, plain_main plain_env 20 = Some (r, b) /\ worker_running b = false) /\
  option_map (fun rb => (rb.1, b_dispatches rb.2, b_refs rb.2, b_stats rb.2,
     rumble_gain (get_slot (w_shm (b_world rb.2)) 2))) (plain_main plain_env 20) =
  Some (0, 4%nat, 0, [[0; 1; 0; 0]; [0; 1; 0; 0]], 100).
Proof.
  split; [|vm_compute; reflexivity].
  destruct (service_stops (B := plain_bus) good_kernel (fun _ => true) (fun _ _ _ _ => None) 1 (fun _ shm => shm)
    (fun _ => 0) plain_env demo_world 6 SIGTERM 20 eq_refl (or_intror eq_refl) ltac:(lia))
    as (r & b & E & [(_ & H & _)|(_ & [H|(n & H)])]).
  - exists r, b. exact (conj E H).
  - discriminate H.
  - exfalso. cbn in H. destruct n as [|[|n]]; discriminate H.
Defined.

(** The other service leaves after the third request; this one owns the name
    from then on, and still dispatches nothing until it is stopped. *)
Definition queued_env : bus_env plain_message :=
  mk_bus_env _ true (fun _ => true) (fun n => if Nat.ltb n 3 then 2 else 4) (fun _ => Dispatched [])
    (fun n => if Nat.eqb n 9 then Some SIGINT else None) (fun _ => 0) (fun _ w => w).

Example queued_service_never_serves_witness :
  queue_law queued_env /\ be_request queued_env 5 = DBUS_REQUEST_NAME_REPLY_ALREADY_OWNER /\
  exists r b, plain_main queued_env 20 = Some (r, b) /\ b_requests b = 9%nat /\ b_dispatches b = O.
Proof.
  assert (queue_law queued_env) as Hlaw.
  { intros n. cbn [be_request queued_env]. intros _. destruct (Nat.ltb (S n) 3); [by left | by right]. }
  split; [exact Hlaw|]. split; [reflexivity|].
  assert (option_map (fun rb => b_requests rb.2) (plain_main queued_env 20) = Some 9%nat) as Hr
    by (vm_compute; reflexivity).
  pose proof (proj2 (queued_service_never_serves (B := plain_bus) good_kernel (fun _ => true) (fun _ _ _ _ => None) 1
    (fun _ shm => shm) (fun _ => 0) queued_env demo_world Hlaw eq_refl eq_refl) 20%nat) as Hd.
  cbv beta zeta in Hd. fold (plain_main queued_env 20) in Hd. revert Hr Hd.
  generalize (plain_main queued_env 20). intros [[r b]|] Hr Hd; [|discriminate Hr].
  exists r, b. injection Hr as Hr. split; [reflexivity|]. split; [exact Hr | exact (Hd r b eq_refl)].
Defined.

(** A daemon that is there for two turns and gone in the third. *)
Definition plain_turn (heartbeat_now : Z) : turn_env :=
  mk_turn (fun _ _ => 0) (mk_timeval heartbeat_now 0) true
    (fun w => w {{ w_shm := (w_shm w) {{ heartbeat := heartbeat_now }} }}).
Definition plain_turns : list turn_env :=
  [plain_turn 1; plain_turn 2; mk_turn (fun _ _ => 0) (mk_timeval 90 0) true (fun w => w)].

Definition plain_monitor (turns : list turn_env) : world :=
  (daemon_monitor good_kernel (fun _ => true) 1 turns demo_world).2.

(** Stopped while it has the memory, it gives it back too. *)
Example monitor_gives_back_witness :
  no_leak good_kernel (w_hist demo_world) (w_hist (plain_monitor plain_turns)) /\
  balanced good_kernel demo_world (plain_monitor (take 2 plain_turns)) /\
  daemon_alive (w_monitor (plain_monitor (take 2 plain_turns))) = true /\
  daemon_alive (w_monitor (plain_monitor plain_turns)) = false /\
  mappings good_kernel (tl (tl (w_hist (plain_monitor (take 2 plain_turns))))) = 1.
Proof.
  assert (Forall others_ok plain_turns) as Ht by (repeat constructor).
  split; [exact (proj2 (monitor_gives_back good_kernel (fun _ => true) 1 plain_turns demo_world Ht))|].
  split; [exact (proj1 (monitor_gives_back good_kernel (fun _ => true) 1 (take 2 plain_turns) demo_world
    (Forall_take _ 2 _ Ht)))|].
  split; [vm_compute; reflexivity|]. split; vm_compute; reflexivity.
Defined.
