(* ===== verification/Display.v ===== *)
(** * What the terminal interface draws ([display.c])

    The choice of the controller shown, of the screen, and the layout of the
    screens: text with the row and column it is written at.  How it is drawn, with
    labels, colours and the frame, is in [Screen]. *)

From S2P Require Import Prelude Types Utils.
From Stdlib Require Import Ascii.
Local Open Scope Z_scope.

Definition MIN_COLS : Z := 77.
Definition MIN_ROWS : Z := 25.
Definition TOTAL_HELP_PAGES : Z := 4.

(** [winsize] is what the terminal answers, [None] if it does not. *)
Definition check_window_sanity (winsize : option (Z * Z)) : bool :=
  match winsize with
  | None => true
  | Some (ws_row, ws_col) => negb ((ws_col <? MIN_COLS) || (ws_row <? MIN_ROWS))
  end.

(** ** The controller shown *)

(** The first slot from [i] on that satisfies the test. *)
Fixpoint find_slot (test : controller_t -> bool) (l : list controller_t) (i : Z) : option Z :=
  match l with
  | [] => None
  | c :: l => if test c then Some i else find_slot test l (i + 1)
  end.

(** The new [selected_dev_path] and the slot, -1 for none. *)
Definition update_and_get_slot_idx (selected_dev_path : string) (shm : shared_data_t) : string * Z :=
  let l := take MAX_SLOTS (slots shm) in
  let same := if String.eqb selected_dev_path "" then None
              else find_slot (fun c => connected c && String.eqb (dev_path c) selected_dev_path) l 0 in
  match same with
  | Some i => (selected_dev_path, i)
  | None =>
      match find_slot (fun c => connected c && negb (String.eqb (dev_path c) "")) l 0 with
      | Some i => (strn 127 (dev_path (get_slot shm i)), i)
      | None => (selected_dev_path, -1)
      end
  end.

(** ** Text in lines *)

Definition newline : ascii := ascii_of_nat 10.

(** What precedes the first newline, and what follows it. *)
Fixpoint until_newline (s : string) : string * option string :=
  match s with
  | EmptyString => (EmptyString, None)
  | String c s' => if Ascii.eqb c newline then (EmptyString, Some s')
                   else let (l, r) := until_newline s' in (String c l, r)
  end.

(** One turn of the loop of the screens: the line, at most 255 characters of it,
    and the text that is left. *)
Definition next_line (ptr : string) : string * string :=
  let (l, rest) := until_newline ptr in
  (strn 255 l, match rest with Some s => s | None => EmptyString end).

(** Text written at a row and a column. *)
Definition drawn : Type := Z * Z * string.

(** [render_list_screen], from a row on. *)
Fixpoint list_rows (fuel : nat) (ptr : string) (row : Z) : option (list drawn) :=
  match fuel with
  | O => None
  | S fuel =>
      if negb (String.eqb ptr "") && (row <=? 21) then
        let (line, ptr) := next_line ptr in
        if negb (String.eqb line "")
        then l ← list_rows fuel ptr (row + 1); Some ((row, 3, line) :: l)
        else list_rows fuel ptr row
      else Some []
  end.

Definition render_list_screen (fuel : nat) (g_profiles_list : string) : option (list drawn) :=
  l ← list_rows fuel g_profiles_list 5;
  Some ([(3, 3, "Available Profiles"%string)] ++ l ++ [(22, 2, "Press any key to return"%string)]).

(** ** The help pages *)

Definition nl : string := String newline EmptyString.
Definition lines (l : list string) : string := String.concat "" (map (fun s => s ++ nl)%string l).

Definition help_pages : list string := map lines [
  ["DSTX TUI HELP - PAGE 1/4: GENERAL COMMANDS"; "";
   "  exit, q            - Quit the TUI";
   "  info               - Show device information screen";
   "  profiles           - List available profiles";
   "  start              - Start the DSTX daemon service";
   "  stop               - Stop the DSTX daemon service";
   "  setup              - Run infrastructure setup script";
   "  help               - Show this help (navigate with ← / → )";
   ""; ""; ""; ""; ""; ""; ""; ""; "";
   "Press LEFT/RIGHT arrows to change page. Any other key exits help."];
  ["DSTX TUI HELP - PAGE 2/4: SLOT COMMANDS (1/3)"; "";
   "  ::LED::";
   "  <RRGGBB>                      - Set LED color (e.g., ff00aa)";
   "  ledfx <effect> [speed]        - LED effect (0=static, 1-8 effects, 1-10 speed)";
   "  brightness <0-100>            - Global LED brightness";
   "  reapply on|off|status         - Auto-reapply LED on external changes";
   "  pled <0-5>                    - Player LED indicator (DualSense only)"; "";
   "  ::EMULATION::";
   "  emulation on|off              - Enable/disable virtual device emulation";
   "  uhid on|off                   - Use UHID instead of uinput"; "";
   "  ::KEYBINDS::";
   "  keybind <phy> <log>           - Map physical button to logical button";
   "  keymap                        - Show current button mapping";
   "  reset-keybinds                - Reset all button mappings to identity"; "";
   "Press LEFT/RIGHT arrows to change page. Any other key exits help."];
  ["DSTX TUI HELP - PAGE 3/4: SLOT COMMANDS (2/3)"; "";
   "  ::RUMBLE::";
   "  rumble on|off|status          - Enable/disable rumble feedback";
   "  gain <0-100>                  - Rumble gain (strength)"; "";
   "  ::STICKS::";
   "  invert ly|ry on|off           - Invert Y axis for left/right stick";
   "  invert status                 - Show inversion status";
   "  sensitivity left|right <0-7>  - Set stick sensitivity preset";
   "  sensitivity status            - Show current sensitivity";
   "  deadzone <0-100>              - Stick deadzone percentage"; "";
   "  ::BUTTONS::";
   "  triggers-digital on|off|status- Digital trigger mode (L2/R2 as buttons)";
   "  debounce on|off               - Enable/disable button debounce";
   "  layout switch|xbox            - Button layout (Nintendo Switch Pro only)"; "";
   "Press LEFT/RIGHT arrows to change page. Any other key exits help."];
  ["DSTX TUI HELP - PAGE 4/4: SLOT COMMANDS (3/3) & EXAMPLES"; "";
   "  ::PROFILES::";
   "  profile save|load|delete <name>   - Manage profiles";
   "  profile list                      - List available profiles";
   "  auto-save on|off                  - Enable/disable profile auto-save"; "";
   "  ::EXAMPLES::";
   "  color ff0000                      - Set LED to red";
   "  brightness 80                     - Set brightness to 80%";
   "  sensitivity left 2                - Set left stick sensitivity preset 2";
   "  triggers-digital on               - Make L2/R2 act as digital buttons";
   "  ledfx 3 7                         - Start effect 3, speed 7";
   "  profile load myprofile            - Load profile 'myprofile'";
   ""; ""; ""; "";
   "Press LEFT/RIGHT arrows to change page. Any other key exits help."]]%string.

Inductive help_style : Set := StyleTitle | StylePress | StyleSection | StylePlain.
Definition style_of (line : string) : help_style :=
  if contains "DSTX TUI HELP" line then StyleTitle
  else if contains "Press LEFT/RIGHT" line then StylePress
  else if (String.prefix " " line || String.prefix (String (ascii_of_nat 9) "") line) && contains "::" line
  then StyleSection
  else StylePlain.

Fixpoint help_rows (fuel : nat) (ptr : string) (row : Z) : option (list (drawn * help_style)) :=
  match fuel with
  | O => None
  | S fuel =>
      if negb (String.eqb ptr "") && (row <=? 22) then
        let (line, ptr) := next_line ptr in
        l ← help_rows fuel ptr (row + 1); Some ((row, 3, line, style_of line) :: l)
      else Some []
  end.

(** [None] is also a page that does not exist. *)
Definition render_help_screen (fuel : nat) (page : Z) : option (list (drawn * help_style)) :=
  if (page <? 0) || (TOTAL_HELP_PAGES <=? page) then None
  else help_rows fuel (aget EmptyString help_pages page) 3.

(** ** The information screen *)

Definition text_or_na (s : string) : string := if String.eqb s "" then "N/A"%string else s.

(** The nodes, two rows each, down to row 20. *)
Fixpoint node_rows (l : list input_node_info_t) (row : Z) : list drawn :=
  match l with
  | [] => []
  | n :: l =>
      if 20 <? row then []
      else (row, 3, node_path n) ::
        if 20 <? row + 1 then []
        else (row + 1, 3, strn 63 (node_name n)) :: node_rows l (row + 2)
  end.

(** The labels are left out: a row holds the value.  The slot number and the
    battery are [inl]. *)
Definition render_info_screen (shm : shared_data_t) (idx : Z) : list (Z * Z * (Z + string)) :=
  if (idx <? 0) || (Z.of_nat MAX_SLOTS <=? idx) || negb (connected (get_slot shm idx))
  then [(10, 21, inr "No controller connected"%string); (12, 22, inr "Press any key"%string)]
  else
    let s := get_slot shm idx in
    [(3, 3, inl idx); (5, 3, inr (dev_path s)); (6, 3, inr (text_or_na (product_name s)));
     (7, 3, inr (text_or_na (driver s))); (8, 3, inr (text_or_na (uniq s)));
     (9, 3, inr (if is_bluetooth s then "Bluetooth" else "USB")%string); (10, 3, inl (battery s))] ++
    (if 0 <? num_input_nodes s
     then map (fun d => (fst d, inr (snd d)))
            (node_rows (take (Nat.min (Z.to_nat (num_input_nodes s)) MAX_INPUT_NODES) (input_nodes s)) 12)
     else [(12, 3, inr "No input nodes found"%string)]) ++
    [(22, 2, inr "Press any key to return"%string)].

(** ** The drawings of the controller screen *)

(** A cell of the stick's picture. *)
Inductive cell : Set := CellStick | CellCentre | CellBlank.

Definition stick_cell (x y : Z) : Z * Z :=
  let DEADZONE := 3000 in
  let fx := if (- DEADZONE <? x) && (x <? DEADZONE) then 0 else x in
  let fy := if (- DEADZONE <? y) && (y <? DEADZONE) then 0 else y in
  let gx := Z.quot (i32 ((fx + 32768) * 12)) 65535 in
  let gy := Z.quot (i32 ((fy + 32768) * 6)) 65535 in
  (if fx =? 0 then 6 else gx, if fy =? 0 then 3 else gy).

(** The cells by rows, and whether the border is bright. *)
Definition draw_stick_mockup (x y : Z) : list (list cell) * bool :=
  let (gx, gy) := stick_cell x y in
  (map (fun i => map (fun j =>
      if (Z.of_nat i =? gy) && (Z.of_nat j =? gx) then CellStick
      else if (i =? 3)%nat && (j =? 6)%nat then CellCentre else CellBlank) (seq 0 13)) (seq 0 7),
   (16384 <? Z.abs x) || (16384 <? Z.abs y)).

(** The boxes of a trigger's bar, filled or not. *)
Definition draw_mockup_bar (value : Z) : list bool :=
  let filled := Z.quot (value * 15) 255 in
  map (fun i => Z.of_nat i <? filled) (seq 0 15).

(** The symbols of the face buttons and whether each is lit. *)
Definition render_face_buttons (s : controller_t) : list (string * bool) :=
  let b z := truthy z in
  (if bool_decide (ctype s = TYPE_NSW_PRO)
   then [("X", b (square s)); ("Y", b (triangle s)); ("B", b (circle s)); ("A", b (cross s))]
   else [(if b (square s) then "■" else "□", b (square s));
         (if b (triangle s) then "▲" else "△", b (triangle s));
         (if b (circle s) then "●" else "○", b (circle s)); ("⨉", b (cross s))])%string.

Definition render_system_buttons (s : controller_t) : list (string * bool) :=
  let b z := truthy z in
  (if bool_decide (ctype s = TYPE_NSW_PRO)
   then [("-", b (Share s)); ("⌂", b (PS s)); ("+", b (Options s))]
   else [(if b (Share s) then "◧" else "◨", b (Share s)); (if b (PS s) then "◈" else "◇", b (PS s));
         (if b (Options s) then "◨" else "◧", b (Options s))])%string.

(** ** The screen *)

Inductive screen : Set :=
| ScreenOffline | ScreenProfiles | ScreenInfo (idx : Z) | ScreenWaiting | ScreenController (idx : Z).

Definition screen_of (list_mode info_mode alive : bool) (idx : Z) : screen :=
  if negb alive then ScreenOffline
  else if list_mode then ScreenProfiles
  else if info_mode then ScreenInfo idx
  else if idx =? -1 then ScreenWaiting
  else ScreenController idx.

(** The dots of the header: highlighted, filled. *)
Definition header_dots (shm : shared_data_t) (alive : bool) (idx : Z) : list (bool * bool) :=
  map (fun i => (Z.of_nat i =? idx, connected (get_slot shm (Z.of_nat i)) && alive)) (seq 0 MAX_SLOTS).

(** The check boxes and numbers under the pictures, rows 20 to 22. *)
Definition status_fields (s : controller_t) : list (list (string * (bool + Z))) :=
  ([[("UHID", inl (is_uhid s)); ("Rumble", inl (rumble_active s)); ("L-Inversion", inl (invert_ly s));
     ("L-Sens", inr (sensitivity_left_preset s))];
    [("Digital L/R", inl (is_trigger_digital s)); ("Gain", inr (rumble_gain s));
     ("R-Inversion", inl (invert_ry s)); ("R-Sens", inr (sensitivity_right_preset s))];
    ("Deadzone", inr (deadzone s)) ::
    (if bool_decide (ctype s = TYPE_NSW_PRO) then []
     else [("Debounce", inl (debounce_enabled s)); ("Brightness", inr (global_led_brightness s));
           ("Effect", inr (i32 (led_request_effect s)))])])%string.

(** * Specification and lemmas *)

(** The lines of a text; a last newline does not begin another. *)
Fixpoint split_lines (s : string) : list string :=
  match s with
  | EmptyString => []
  | String c s' =>
      if Ascii.eqb c newline then EmptyString :: split_lines s'
      else match split_lines s' with
           | [] => [String c EmptyString]
           | l :: ls => if String.eqb s' "" then [String c EmptyString] else String c l :: ls
           end
  end.

Lemma strn_all n s : (String.length s <= n)%nat -> strn n s = s.
Proof.
  unfold strn. revert n. induction s as [|c s IH]; intros [|n] H; cbn in *; try done; [lia|].
  by rewrite IH by lia.
Qed.
Lemma strn_length n s : (String.length (strn n s) <= n)%nat.
Proof.
  unfold strn. revert n. induction s as [|c s IH]; intros [|n]; cbn; try lia.
  specialize (IH n). lia.
Qed.

Lemma until_newline_length s l r :
  until_newline s = (l, Some r) -> (String.length r < String.length s)%nat.
Proof.
  revert l r. induction s as [|c s IH]; intros l r; cbn [until_newline String.length]; [done|].
  destruct (Ascii.eqb c newline); [intros [= <- <-]; lia|].
  destruct (until_newline s) as [l' r'] eqn:E. intros [= <- ->]. specialize (IH _ _ eq_refl). lia.
Qed.

(** The first line and the rest, by the reference. *)
Lemma split_lines_step s : s <> EmptyString ->
  split_lines s = (until_newline s).1 ::
    split_lines (match (until_newline s).2 with Some r => r | None => EmptyString end).
Proof.
  induction s as [|c s IH]; intros Hs; [done|]. cbn [split_lines until_newline].
  destruct (Ascii.eqb c newline) eqn:E; [done|].
  destruct s as [|d s]; [done|]. specialize (IH ltac:(done)). rewrite IH.
  destruct (until_newline (String d s)) as [l r]. reflexivity.
Qed.

Lemma next_line_shrinks s : s <> EmptyString -> (String.length (next_line s).2 < String.length s)%nat.
Proof.
  intros Hs. unfold next_line. destruct (until_newline s) as [l [r|]] eqn:E; cbn [snd].
  - by eapply until_newline_length.
  - destruct s; [done|]. cbn. lia.
Qed.
Lemma next_line_split s : s <> EmptyString ->
  map (strn 255) (split_lines s) = (next_line s).1 :: map (strn 255) (split_lines (next_line s).2).
Proof.
  intros Hs. rewrite split_lines_step by done. unfold next_line.
  by destruct (until_newline s) as [l r].
Qed.

Definition nonempty (s : string) : bool := negb (String.eqb s "").
Definition place (row : Z) (l : list string) : list drawn :=
  imap (fun k s => (row + Z.of_nat k, 3, s)) l.
Lemma place_cons row s l : place row (s :: l) = (row, 3, s) :: place (row + 1) l.
Proof.
  unfold place. cbn. f_equal; [by rewrite Z.add_0_r|]. apply imap_ext. intros i x _. cbn.
  replace (row + Z.of_nat (S i)) with (row + 1 + Z.of_nat i) by lia. done.
Qed.

Lemma list_rows_spec fuel ptr row : (String.length ptr < fuel)%nat ->
  list_rows fuel ptr row =
    Some (place row (take (Z.to_nat (22 - row)) (List.filter nonempty (map (strn 255) (split_lines ptr))))).
Proof.
  revert ptr row. induction fuel as [|fuel IH]; intros ptr row Hf; [lia|]. cbn [list_rows].
  destruct (String.eqb_spec ptr "") as [->|Hp]; cbn [negb andb]; [by rewrite firstn_nil|].
  destruct (Z.leb_spec row 21) as [Hr|Hr]; [|by replace (Z.to_nat (22 - row)) with O by lia].
  pose proof (next_line_shrinks ptr Hp). rewrite next_line_split by done. cbn [List.filter].
  destruct (next_line ptr) as [line rest]. cbn [fst snd] in *. unfold nonempty at 1.
  destruct (String.eqb line "") eqn:E; cbn [negb]; rewrite IH by lia; [done|]. cbn [mbind option_bind].
  replace (Z.to_nat (22 - row)) with (S (Z.to_nat (22 - (row + 1)))) by lia.
  cbn [take]. by rewrite place_cons.
Qed.

Lemma find_slot_spec test l i :
  match find_slot test l i with
  | Some j => exists c, i <= j < i + Z.of_nat (length l) /\ l !! Z.to_nat (j - i) = Some c /\ test c = true
  | None => forall c, In c l -> test c = false
  end.
Proof.
  revert i. induction l as [|c l IH]; intros i; cbn [find_slot]; [by intros c|].
  destruct (test c) eqn:E.
  - exists c. rewrite Z.sub_diag. cbn [length]. split; [lia | done].
  - specialize (IH (i + 1)). destruct (find_slot test l (i + 1)) as [j|].
    + destruct IH as (d & Hj & Hd & Ht). exists d. cbn [length]. split; [lia|]. split; [|done].
      by replace (Z.to_nat (j - i)) with (S (Z.to_nat (j - (i + 1)))) by lia.
    + intros d [<-|Hd]; auto.
Qed.

(** Every help page is drawn to its last line, inside the frame. *)
Lemma help_pages_fit :
  forallb (fun page => match render_help_screen 40 page with
    | Some l =>
        (if List.list_eq_dec String.string_dec (map (fun d => snd (fst d)) l)
              (split_lines (aget EmptyString help_pages page)) then true else false) &&
        forallb (fun d => fst (fst (fst d)) <=? 22) l
    | None => false
    end) [0; 1; 2; 3] = true.
Proof. vm_compute. reflexivity. Qed.

Lemma node_rows_range l row : Forall (fun d => row <= d.1.1 <= 20) (node_rows l row).
Proof.
  revert row. induction l as [|n l IH]; intros row; cbn [node_rows]; [constructor|].
  destruct (Z.ltb_spec 20 row); [constructor|]. constructor; [cbn; lia|].
  destruct (Z.ltb_spec 20 (row + 1)); [constructor|]. constructor; [cbn; lia|].
  eapply Forall_impl; [apply IH|]. cbn. lia.
Qed.

(** * Properties *)

(** The profile screen shows the first seventeen lines of the daemon's answer
    that are not empty, cut at 255 characters, one per row from row 5; the loop
    that walks the text ends, whatever the text. *)
Theorem list_screen_shows text :
  render_list_screen (S (String.length text)) text =
    Some ([(3, 3, "Available Profiles"%string)] ++
          place 5 (take 17 (List.filter nonempty (map (strn 255) (split_lines text)))) ++
          [(22, 2, "Press any key to return"%string)]).
Proof. unfold render_list_screen. by rewrite list_rows_spec by lia. Qed.

Lemma stick_cell_range x y : is_i16 x -> is_i16 y ->
  0 <= (stick_cell x y).1 <= 12 /\ 0 <= (stick_cell x y).2 <= 6.
Proof.
  unfold is_i16. intros Hx Hy. unfold stick_cell.
  set (fx := if _ && _ then 0 else x). set (fy := if (_ <? y) && _ then 0 else y).
  assert (-32768 <= fx < 32768) as Hfx by (unfold fx; bcase; lia).
  assert (-32768 <= fy < 32768) as Hfy by (unfold fy; bcase; lia).
  clearbody fx fy. cbv zeta. cbn [fst snd]. rewrite !i32_small by lia.
  rewrite !Z.quot_div_nonneg by lia.
  assert (0 <= (fx + 32768) * 12 / 65535 <= 12)
    by (split; [apply Z.div_pos; lia | apply Z.div_le_upper_bound; lia]).
  assert (0 <= (fy + 32768) * 6 / 65535 <= 6)
    by (split; [apply Z.div_pos; lia | apply Z.div_le_upper_bound; lia]).
  split; bcase; lia.
Qed.

Lemma lookup_map_seq {A} (f : nat -> A) n i : (i < n)%nat -> map f (seq 0 n) !! i = Some (f i).
Proof. intros Hi. change (map f (seq 0 n)) with (f <$> seq 0 n). by rewrite list_lookup_fmap, lookup_seq_lt. Qed.

(** For every position of a stick its picture shows the stick in exactly one
    of the 13 by 7 cells; in the dead zone of the drawing that is the centre. *)
Theorem stick_drawn_once x y (Hx : is_i16 x) (Hy : is_i16 y) :
  let (gx, gy) := stick_cell x y in
  (0 <= gx <= 12 /\ 0 <= gy <= 6) /\
  (forall i j, (i < 7)%nat -> (j < 13)%nat ->
     (c ← (draw_stick_mockup x y).1 !! i; c !! j) = Some CellStick <->
     Z.of_nat i = gy /\ Z.of_nat j = gx) /\
  (-3000 < x < 3000 -> gx = 6) /\ (-3000 < y < 3000 -> gy = 3).
Proof.
  pose proof (stick_cell_range x y Hx Hy) as Hr. unfold draw_stick_mockup.
  destruct (stick_cell x y) as [gx gy] eqn:E. cbn [fst snd] in *. split; [exact Hr|]. split; [|split].
  - intros i j Hi Hj. rewrite lookup_map_seq by lia. cbn [mbind option_bind]. rewrite lookup_map_seq by lia.
    destruct (Z.eqb_spec (Z.of_nat i) gy), (Z.eqb_spec (Z.of_nat j) gx); cbn [andb];
      try (destruct (_ && _)); split; intros H; first [done | lia | by injection H].
  - intros H. unfold stick_cell in E. injection E as <- _.
    replace ((_ <? x) && (x <? 3000)) with true by lia. done.
  - intros H. unfold stick_cell in E. injection E as _ <-.
    replace ((_ <? y) && (y <? 3000)) with true by lia. done.
Qed.

Example stick_drawn_once_witness :
  stick_cell (-32768) 32767 = (0, 6) /\ stick_cell 100 0 = (6, 3) /\
  (0 <= 0 <= 12 /\ 0 <= 6 <= 6).
Proof.
  split; [vm_compute; reflexivity|]. split; [vm_compute; reflexivity|].
  exact (proj1 (stick_drawn_once (-32768) 32767 ltac:(unfold is_i16; lia) ltac:(unfold is_i16; lia))).
Defined.

(** C32: the terminal shows a connected controller with a path if there is one and
    nothing (-1) otherwise; the controller shown is the one whose path is
    remembered; and while that one stays connected the choice does not move. *)
Theorem slot_shown sel shm :
  length (slots shm) = MAX_SLOTS ->
  Forall (fun c => (String.length (dev_path c) <= 127)%nat) (slots shm) ->
  let (sel', idx) := update_and_get_slot_idx sel shm in
  ((idx = -1 /\ sel' = sel /\
    forall j, 0 <= j < Z.of_nat MAX_SLOTS ->
      connected (get_slot shm j) = true -> dev_path (get_slot shm j) = EmptyString) \/
   (0 <= idx < Z.of_nat MAX_SLOTS /\ connected (get_slot shm idx) = true /\
    dev_path (get_slot shm idx) = sel' /\ sel' <> EmptyString)) /\
  (forall j, 0 <= j < Z.of_nat MAX_SLOTS -> connected (get_slot shm j) = true ->
     dev_path (get_slot shm j) = sel -> sel <> EmptyString -> sel' = sel /\ idx <> -1).
Proof.
  intros Hl Hp. unfold update_and_get_slot_idx.
  rewrite (firstn_all2 (n := MAX_SLOTS) (slots shm)) by lia.
  assert (forall j c, slots shm !! Z.to_nat j = Some c -> get_slot shm j = c) as Hget.
  { intros j c Hc. unfold get_slot, aget. by apply nth_lookup_Some. }
  assert (forall j, 0 <= j < Z.of_nat MAX_SLOTS -> In (get_slot shm j) (slots shm)) as Hin.
  { intros j Hj. unfold get_slot, aget. apply nth_In. lia. }
  set (t1 := fun c => connected c && String.eqb (dev_path c) sel).
  set (t2 := fun c => connected c && negb (String.eqb (dev_path c) "")).
  pose proof (find_slot_spec t1 (slots shm) 0) as H1. pose proof (find_slot_spec t2 (slots shm) 0) as H2.
  assert (sel <> EmptyString -> forall i, find_slot t1 (slots shm) 0 = Some i ->
    0 <= i < Z.of_nat MAX_SLOTS /\ connected (get_slot shm i) = true /\ dev_path (get_slot shm i) = sel) as Hsame.
  { intros _ i E. rewrite E in H1. destruct H1 as (c & Hi & Hc & Ht). rewrite Z.sub_0_r in Hc.
    rewrite (Hget i c Hc). unfold t1 in Ht. apply andb_prop in Ht as [? Ht%String.eqb_eq].
    split; [lia | done]. }
  set (same := if String.eqb sel "" then None else find_slot t1 (slots shm) 0).
  destruct same as [i|] eqn:Es; unfold same in Es.
  - destruct (String.eqb_spec sel "") as [|Hs]; [done|].
    destruct (Hsame Hs i Es) as (? & ? & ?). split; [right; auto|]. intros; split; [done | lia].
  - assert (forall j, 0 <= j < Z.of_nat MAX_SLOTS -> connected (get_slot shm j) = true ->
      dev_path (get_slot shm j) = sel -> sel <> EmptyString -> False) as Hno.
    { intros j Hj Hc Hd Hs. destruct (String.eqb_spec sel ""); [done|]. rewrite Es in H1.
      specialize (H1 _ (Hin j Hj)). unfold t1 in H1. by rewrite Hc, Hd, String.eqb_refl in H1. }
    destruct (find_slot t2 (slots shm) 0) as [i|] eqn:E2.
    + destruct H2 as (c & Hi & Hc & Ht). rewrite Z.sub_0_r in Hc. rewrite (Hget i c Hc).
      unfold t2 in Ht. apply andb_prop in Ht as [Ht Hd]. apply negb_true_iff, String.eqb_neq in Hd.
      assert (strn 127 (dev_path c) = dev_path c) as ->.
      { apply strn_all. rewrite List.Forall_forall in Hp. apply Hp. by eapply list_elem_of_In, list_elem_of_lookup_2. }
      split; [right; split; [lia | done]|]. intros j Hj H3 H4 H5. by destruct (Hno j Hj H3 H4 H5).
    + split.
      * left. split; [done|]. split; [done|]. intros j Hj Hc. specialize (H2 _ (Hin j Hj)).
        unfold t2 in H2. rewrite Hc in H2. cbn in H2. by apply negb_false_iff, String.eqb_eq in H2.
      * intros j Hj H3 H4 H5. by destruct (Hno j Hj H3 H4 H5).
Qed.

Definition two_pads : shared_data_t :=
  mk_shared_data SHM_MAGIC_VALUE
    [zero_controller; zero_controller {{ connected := true; dev_path := "/dev/hidraw1" }};
     zero_controller {{ connected := true; dev_path := "/dev/hidraw4" }}; zero_controller]%string
    false 7 9 false 0 0 EmptyString 0 EmptyString 1 2000 EmptyString.

Example slot_shown_witness :
  update_and_get_slot_idx EmptyString two_pads = ("/dev/hidraw1"%string, 1) /\
  (update_and_get_slot_idx "/dev/hidraw4" two_pads).1 = "/dev/hidraw4"%string.
Proof.
  split; [vm_compute; reflexivity|].
  pose proof (slot_shown "/dev/hidraw4" two_pads eq_refl ltac:(cbn; forall_list; cbn; lia)) as H.
  destruct (update_and_get_slot_idx "/dev/hidraw4" two_pads) as [sel' idx]. destruct H as [_ H].
  refine (proj1 (H 2 _ eq_refl eq_refl _)); [unfold MAX_SLOTS; lia | discriminate].
Defined.
