(* ===== verification/Screen.v ===== *)
(** * The drawing of the terminal interface, glyph by glyph

    What [render_full_ui] and [render_help_screen] ([display.c]) and the turn of
    [run_ui_loop] ([ui.c]) write to the terminal: moves of the cursor, colours and
    text, with the values of [Display] put in place.  The strings of devices,
    profiles and messages are taken as printable, each code point one column wide. *)

From S2P Require Import Prelude Types Utils Display.
From stdpp Require Import pretty.
From Stdlib Require Import Ascii.
Local Open Scope Z_scope.

(** ** Output

    [Put] moves the cursor by the width of its text; the other operations have no
    width. *)
Inductive op : Set :=
| Goto (row col : Z) | Put (s : string) | Style (sgr : string) | ClearLine | ClearScreen | NewLine.

Definition CLR_RESET : op := Style "[0m".
Definition CLR_GREEN : op := Style "[1;32m".
Definition CLR_RED : op := Style "[1;31m".
Definition CLR_YELLOW : op := Style "[1;33m".
Definition CLR_CYAN : op := Style "[1;36m".
Definition CLR_BLUE : op := Style "[1;34m".
Definition CLR_PURPLE : op := Style "[1;35m".
Definition CLR_GRAY : op := Style "[90m".
Definition CLR_BOLD : op := Style "[1m".
Definition CLR_LABEL : op := Style "[38;2;170;150;255m".
Definition HOME : op := Goto 1 1.

(** *** UTF-8 *)

Definition continues (c : ascii) : bool := let n := N_of_ascii c in (128 <=? n)%N && (n <? 192)%N.
(** The bytes that continue the glyph before, and the glyphs. *)
Fixpoint cut_glyphs (s : string) : string * list string :=
  match s with
  | EmptyString => (EmptyString, [])
  | String c s =>
      let (pending, l) := cut_glyphs s in
      if continues c then (String c pending, l) else (EmptyString, String c pending :: l)
  end.
Definition glyphs (s : string) : list string := (cut_glyphs s).2.
Fixpoint width (s : string) : Z :=
  match s with EmptyString => 0 | String c s => (if continues c then 0 else 1) + width s end.

(** *** [printf] *)

Fixpoint spaces (n : nat) : string := match n with O => EmptyString | S n => String " " (spaces n) end.
(** The conversions [%*s], [%3d] and [%-10s] pad by bytes. *)
Definition pad_left (n : nat) (s : string) : string := (spaces (n - String.length s) ++ s)%string.
Definition pad_right (n : nat) (s : string) : string := (s ++ spaces (n - String.length s))%string.
Definition printf_d (z : Z) : string := pretty z.
Fixpoint times (n : nat) (s : string) : string := match n with O => EmptyString | S n => (s ++ times n s)%string end.

(** ** The parts of the screen *)

Definition draw_border (r1 c1 r2 c2 : Z) (color : op) : list op :=
  let bar := times (Z.to_nat (c2 - c1 - 1)) "─" in
  [color; Goto r1 c1; Put "╭"; Put bar; Put "╮"; Goto r2 c1; Put "╰"; Put bar; Put "╯"] ++
  concat (map (fun k => let i := r1 + 1 + Z.of_nat k in [Goto i c1; Put "│"; Goto i c2; Put "│"])
            (seq 0 (Z.to_nat (r2 - r1 - 1)))) ++
  [CLR_RESET].

(** [proc] tells whether [/proc/<pid>] is there. *)
Definition header_ops (shm : shared_data_t) (idx : Z) (alive proc : bool) : list op :=
  [HOME; CLR_BOLD; CLR_CYAN; Put " ◈ DSTX 0.7.0 "; CLR_RESET; Put "│ "] ++
  (if alive then [CLR_GREEN; Put "● "; CLR_RESET; CLR_GRAY; Put ("(" ++ printf_d (daemon_pid shm) ++ ")")%string; CLR_RESET]
   else if (0 <? daemon_pid shm) && proc then [CLR_YELLOW; Put "● "; CLR_RESET]
   else [CLR_RED; Put "●"; CLR_RESET]) ++
  [Put (spaces 38)] ++
  concat (map (fun d : bool * bool =>
    [if d.1 then CLR_LABEL else CLR_GRAY; Put (if d.2 then "●" else "○"); Put "  "; CLR_RESET])
    (header_dots shm alive idx)) ++
  [ClearLine; NewLine].

Definition border_color (alive : bool) (idx : Z) : op :=
  if negb alive then CLR_RED else if idx =? -1 then CLR_GREEN else CLR_PURPLE.

Definition render_offline_screen (is_frozen : bool) : list op :=
  let col := 20 in
  [CLR_RED;
   Goto 11 col; Put (spaces 12); Put (pad_right 38 (if is_frozen then "SERVICE FROZEN" else "SERVICE STOPPED")); Put "  ";
   Goto 12 col; Put (spaces 43);
   Goto 13 col; Put "   ";
   Put (pad_right 38 (if is_frozen then "The daemon is not responding." else "Type 'start' to run the service")); Put "    "] ++
  (if is_frozen then [Goto 14 col; Put "  "; Put (pad_right 38 "Try: sudo systemctl restart"); Put "    "]
   else [Goto 14 col; Put (spaces 44)]) ++
  [Goto 15 col; Put (spaces 44); Goto 16 col; CLR_RESET].

(** Rows 3 to 22, from column 2. *)
Definition clear_inner : list op :=
  concat (map (fun k => [Goto (3 + Z.of_nat k) 2; Put (spaces 63)]) (seq 0 20)).

Definition list_ops (g_profiles_list : string) : option (list op) :=
  l ← list_rows (S (String.length g_profiles_list)) g_profiles_list 5;
  Some ([Goto 3 3; CLR_BOLD; Put "Available Profiles"; CLR_RESET] ++
        concat (map (fun d : drawn => [Goto d.1.1 d.1.2; Put "  "; Put d.2]) l) ++
        [Goto 22 2; CLR_GRAY; Put "Press any key to return"; CLR_RESET]).

Fixpoint node_ops (l : list input_node_info_t) (row : Z) : list op :=
  match l with
  | [] => []
  | n :: l =>
      if 20 <? row then []
      else [Goto row 3; Put "  "; Put (node_path n)] ++
        if 20 <? row + 1 then []
        else [CLR_GRAY; Goto (row + 1) 3; Put "    "; Put (strn 63 (node_name n)); CLR_RESET] ++ node_ops l (row + 2)
  end.

Definition info_ops (shm : shared_data_t) (idx : Z) : list op :=
  if (idx <? 0) || (Z.of_nat MAX_SLOTS <=? idx) || negb (connected (get_slot shm idx))
  then [Goto 10 21; Put "No controller connected"; CLR_RESET; Goto 12 22; CLR_GRAY; Put "Press any key"; CLR_RESET]
  else
    let s := get_slot shm idx in
    let field row label value := [Goto row 3; CLR_LABEL; Put label; CLR_RESET; Put value] in
    [Goto 3 3; CLR_BOLD; Put ("Device Information - Slot " ++ printf_d idx)%string; CLR_RESET] ++
    field 5 "HIDRAW:   " (dev_path s) ++ field 6 "Product:  " (text_or_na (product_name s)) ++
    field 7 "Driver:   " (text_or_na (driver s)) ++ field 8 "Address:   " (text_or_na (uniq s)) ++
    field 9 "Connection:" (if is_bluetooth s then " Bluetooth" else " USB") ++
    field 10 "Battery:  " (printf_d (battery s) ++ "%")%string ++ [Goto 11 3; CLR_LABEL; Put "evdev nodes:"; CLR_RESET] ++
    (if 0 <? num_input_nodes s
     then node_ops (take (Nat.min (Z.to_nat (num_input_nodes s)) MAX_INPUT_NODES) (input_nodes s)) 12
     else [Goto 12 3; Put "  No input nodes found"]) ++
    [Goto 22 2; CLR_GRAY; Put "Press any key to return"; CLR_RESET].

Definition braille : list string := ["⠋"; "⠙"; "⠹"; "⠸"; "⠼"; "⠴"; "⠦"; "⠧"]%string.
Definition waiting_ops (spin : Z) : list op :=
  clear_inner ++
  [Goto 12 24; CLR_CYAN; Put (aget EmptyString braille spin); Put " "; CLR_GRAY; Put " [ WAITING FOR CONNECTION... ]"; CLR_RESET].

(** *** The controller *)

Definition type_str (s : controller_t) : string :=
  match ctype s with TYPE_DS4 => "DUALSHOCK4" | TYPE_DUALSENSE => "DUALSENSE" | TYPE_NSW_PRO => "NINTENDO SWITCH PRO" end.
Definition nsw_pad (s : controller_t) : bool := bool_decide (ctype s = TYPE_NSW_PRO).

(** [col] is what the code counts, and what it fills the line by. *)
Definition status_line (s : controller_t) : list op :=
  let name_len := Z.of_nat (String.length (type_str s)) in
  let short := name_len <? 10 in
  let col := 2 + (if short then 1 + 10 else 1 + name_len) in
  let col := col + 3 + (if is_bluetooth s then 2 else 3) in
  let col := if negb (nsw_pad s) then col + 8 + 4 else col in
  let col := col + 8 + 3 + 7 + 4 in
  [Goto 3 2; Put " "; Put (if short then pad_right 10 (type_str s) else type_str s); CLR_RESET; Put " │ ";
   CLR_YELLOW; Put (if is_bluetooth s then "BT" else "USB"); CLR_RESET] ++
  (if negb (nsw_pad s)
   then [Put " │ LED: ";
         Style ("[48;2;" ++ printf_d (led_r s) ++ ";" ++ printf_d (led_g s) ++ ";" ++ printf_d (led_b s) ++ "m")%string;
         Put "    "; CLR_RESET]
   else []) ++
  [Put " │ Emulation: "; if emulate_active s then CLR_GREEN else CLR_GRAY;
   Put (if emulate_active s then "ON " else "OFF"); CLR_RESET;
   Put "│ Bat: "; Put (pad_left 3 (printf_d (battery s)) ++ "%")%string; CLR_RESET] ++
  (if 0 <? 64 - col then [Put (spaces (Z.to_nat (64 - col)))] else []).

Definition path_line (s : controller_t) : list op :=
  let truncated := strn 62 (dev_path s) in
  [Goto 4 2; CLR_GRAY; Put " "; Put truncated; CLR_RESET;
   Put (spaces (Z.to_nat (64 - (2 + Z.of_nat (String.length truncated)))))].

Definition stick_ops (x y : Z) (label : string) (row col : Z) : list op :=
  let (picture, bright) := draw_stick_mockup x y in
  let border := if bright : bool then CLR_LABEL else CLR_GRAY in
  let cell_ops c := match c with
    | CellStick => [CLR_BOLD; CLR_CYAN; Put "⦿"; CLR_RESET; border]
    | CellCentre => [Put "·"] | CellBlank => [Put " "] end in
  [Goto row col; CLR_LABEL; Put label; CLR_RESET; Goto (row + 1) col; border; Put "╭─────────────╮"] ++
  concat (imap (fun i line => [Goto (row + 2 + Z.of_nat i) col; Put "│"] ++ concat (map cell_ops line) ++ [Put "│"]) picture) ++
  [Goto (row + 9) col; Put "╰─────────────╯"; CLR_RESET;
   Goto (row + 10) (col + 1); CLR_GRAY; Put "X:"; Put (pad_right 6 (printf_d x)); Put " Y:"; Put (pad_right 6 (printf_d y)); CLR_RESET].

Definition bar_ops (value row col : Z) (label : string) : list op :=
  [Goto row col; Put " "; CLR_LABEL; Put label; CLR_RESET; Put " "; CLR_GRAY] ++
  concat (map (fun filled : bool => if filled then [CLR_CYAN; Put "▰"] else [Put "▱"]) (draw_mockup_bar value)) ++ [CLR_RESET].

Definition shoulder_ops (row col : Z) (l r : string) (left right : Z) : list op :=
  let box v := if truthy v then [CLR_CYAN; Put "▰▰"] else [Put "▱▱"] in
  [Goto row col; Put " "; CLR_LABEL; Put l; CLR_RESET; Put "   "; CLR_GRAY] ++ box left ++
  [CLR_RESET; Put "     "; CLR_LABEL; Put r; CLR_RESET; Put "   "; CLR_GRAY] ++ box right ++ [CLR_RESET].

(** Symbols three columns apart, each with the colour it has when lit. *)
Fixpoint button_row (l : list ((string * bool) * op)) : list op :=
  match l with
  | [] => []
  | ((symbol, lit), color) :: l =>
      [if lit : bool then color else CLR_GRAY; Put symbol] ++
      match l with [] => [CLR_RESET] | _ => [CLR_GRAY; Put "   "] ++ button_row l end
  end.

Definition pad_symbols (s : controller_t) : list (string * bool) :=
  let dir (b : bool) (on off : string) := (if b then on else off, b) in
  [dir (HATX s <? 0) "◀" "◁"; dir (HATY s <? 0) "▲" "△"; dir (0 <? HATY s) "▼" "▽"; dir (0 <? HATX s) "▶" "▷"].
Definition pad_ops (s : controller_t) (row col : Z) : list op :=
  [Goto row col; Put " "; CLR_LABEL; Put "PAD:"; CLR_RESET; Put " "; CLR_GRAY; Put " "] ++
  button_row (zip (pad_symbols s) (repeat CLR_CYAN 4)).
Definition face_ops (s : controller_t) (row col : Z) : list op :=
  [Goto row col; Put " "; CLR_LABEL; Put "BTN:"; CLR_RESET; Put " "; CLR_GRAY; Put " "] ++
  button_row (zip (render_face_buttons s)
    (if nsw_pad s then [CLR_BLUE; CLR_YELLOW; CLR_RED; CLR_GREEN] else [CLR_PURPLE; CLR_GREEN; CLR_RED; CLR_CYAN])).
Definition system_ops (s : controller_t) (row col : Z) : list op :=
  [Goto row col; Put " "; CLR_LABEL; Put "SYS:"; CLR_RESET; Put " "; CLR_GRAY; Put "   "] ++
  button_row (zip (render_system_buttons s) (repeat CLR_CYAN 3)).

Definition check_box (b : bool) (label : string) : list op :=
  [CLR_LABEL; Put "["; Put (if b then "X" else " "); Put "] "; Put label; CLR_RESET].
Definition sep : op := Put " │ ".
Definition number (label : string) (v : Z) : list op := [CLR_LABEL; Put label; Put (printf_d v); CLR_RESET].
Definition percent (label : string) (v : Z) : list op :=
  [CLR_LABEL; Put label; Put (pad_left 3 (printf_d v)); Put "%"; CLR_RESET].
Definition status_row_20 (s : controller_t) : list op :=
  [Goto 20 7] ++ check_box (is_uhid s) "UHID" ++ [Put (spaces 7); sep] ++
  check_box (rumble_active s) "Rumble" ++ [Put (spaces 2); sep] ++
  check_box (invert_ly s) "L-Inversion" ++ [Put (spaces 1); sep] ++ number "L-Sens: " (sensitivity_left_preset s).
Definition status_row_21 (s : controller_t) : list op :=
  [Goto 21 7] ++ check_box (is_trigger_digital s) "Digital L/R" ++ [sep] ++
  percent "Gain: " (rumble_gain s) ++ [Put (spaces 2); sep] ++
  check_box (invert_ry s) "R-Inversion" ++ [Put (spaces 1); sep] ++ number "R-Sens: " (sensitivity_right_preset s).
Definition status_row_22 (s : controller_t) : list op :=
  [Goto 22 7] ++ percent "Deadzone: " (deadzone s) ++ [Put (spaces 1); sep] ++
  (if negb (nsw_pad s)
   then check_box (debounce_enabled s) "Debounce" ++ [sep] ++
        percent "Brightness: " (global_led_brightness s) ++ [sep] ++ number "Effect: " (i32 (led_request_effect s))
   else [Put (spaces 12); sep; Put (spaces 16); sep]).
Definition status_ops (s : controller_t) : list op := status_row_20 s ++ status_row_21 s ++ status_row_22 s.

Definition controller_ops (s : controller_t) : list op :=
  status_line s ++ path_line s ++
  stick_ops (LX s) (LY s) "   LS ANALOG" 7 7 ++ stick_ops (RX s) (RY s) "   RS ANALOG" 7 27 ++
  shoulder_ops 7 50 "L1" "R1" (L1 s) (R1 s) ++ shoulder_ops 8 50 "L3" "R3" (L3 s) (R3 s) ++
  bar_ops (LT s) 10 50 "L2  " ++ bar_ops (RT s) 11 50 "R2  " ++
  pad_ops s 13 50 ++ face_ops s 15 50 ++ system_ops s 17 50 ++ status_ops s.

(** ** The whole *)

Definition content_ops (shm : shared_data_t) (profiles : string) (spin : Z) (scr : screen) : option (list op) :=
  match scr with
  | ScreenOffline => Some (render_offline_screen false)
  | ScreenProfiles => l ← list_ops profiles; Some (clear_inner ++ l)
  | ScreenInfo idx => Some (info_ops shm idx)
  | ScreenWaiting => Some (waiting_ops spin)
  | ScreenController idx => Some (controller_ops (get_slot shm idx))
  end.

Definition command_ops (cmd_line : string) : list op :=
  [Goto 25 1; CLR_BOLD; Put " command "; CLR_CYAN; Put "❯ "; CLR_RESET; Put cmd_line; ClearLine].

Record view := mk_view {
  v_shm : shared_data_t; v_idx : Z; v_cmd_line : string; v_alive : bool; v_info_mode : bool; v_list_mode : bool;
  v_profiles : string; v_proc : bool }.
Definition view_screen (v : view) : screen := screen_of (v_list_mode v) (v_info_mode v) (v_alive v) (v_idx v).

(** The drawing, and the new [spin]. *)
Definition render_full_ui (v : view) (spin : Z) : option (list op * Z) :=
  content ← content_ops (v_shm v) (v_profiles v) spin (view_screen v);
  Some (header_ops (v_shm v) (v_idx v) (v_alive v) (v_proc v) ++
        draw_border 2 1 23 77 (border_color (v_alive v) (v_idx v)) ++ content ++ command_ops (v_cmd_line v),
        match view_screen v with ScreenWaiting => Z.rem (spin + 1) 8 | _ => spin end).

Definition help_line (d : drawn * help_style) : list op :=
  let '(row, col, line, style) := d in
  match style with
  | StyleTitle => [CLR_BOLD; CLR_CYAN; Goto row col; Put line; CLR_RESET]
  | StylePress => [CLR_YELLOW; Goto row col; Put line; CLR_RESET]
  | StyleSection => [CLR_LABEL; Goto row col; Put line; CLR_RESET]
  | StylePlain => [Goto row col; Put line]
  end.
Definition help_ops (page : Z) : option (list op) :=
  l ← render_help_screen (S (String.length (aget EmptyString help_pages page))) page;
  Some ([HOME; ClearScreen] ++ draw_border 2 1 23 77 CLR_CYAN ++ concat (map help_line l) ++
        [CLR_GRAY; Goto 23 30; Put ("Page " ++ printf_d (page + 1) ++ "/" ++ printf_d TOTAL_HELP_PAGES)%string; CLR_RESET;
         Goto 25 1; Put (spaces 70)]).

(** *** The rest of a turn of [run_ui_loop] *)

Definition notification_ops (message : option string) : list op :=
  match message with
  | None => [Goto 24 3; Put (spaces 62)]
  | Some message =>
      let msg := strn 59 message in
      let len := Z.of_nat (String.length msg) in
      [Goto 24 3; CLR_GREEN; Put msg; CLR_RESET] ++
      (if len <? 62 then [Goto 24 (3 + len); Put (spaces (Z.to_nat (62 - len)))] else [])
  end.

Definition prompt_ops (cmd_line : string) : list op :=
  [Goto 25 1; CLR_BOLD; Put " command "; CLR_CYAN; Put "❯ "; CLR_RESET;
   Put (if (59 <? String.length cmd_line)%nat then strn 59 cmd_line ++ "..." else pad_right 59 cmd_line)%string;
   CLR_GRAY; Goto 25 71; Put "[help]"; CLR_RESET; Goto 25 78; ClearLine].

(** [help] is the page shown instead, [changed] whether another controller or state
    is shown than before, [message] the notification that is active. *)
Definition turn_ops (v : view) (help : option Z) (changed : bool) (message : option string) (spin : Z)
  : option (list op * Z) :=
  '(l, spin) ← match help with
               | Some page => l ← help_ops page; Some (l, spin)
               | None => render_full_ui v spin
               end;
  Some ((if changed then [ClearScreen] else []) ++ l ++ notification_ops message ++ prompt_ops (v_cmd_line v), spin).

(** * Specification

    The cells a drawing writes, with the glyph, if no line were ever too long. *)
Definition cell_of : Type := Z * Z * string.
Fixpoint cells (l : list op) (row col : Z) : list cell_of :=
  match l with
  | [] => []
  | Goto r c :: l => cells l r c
  | Put s :: l => imap (fun k g => (row, col + Z.of_nat k, g)) (glyphs s) ++ cells l row (col + width s)
  | NewLine :: l => cells l (row + 1) 1
  | (Style _ | ClearLine | ClearScreen) :: l => cells l row col
  end.

(** A rectangle; a drawing that stays in it, wherever the cursor is before. *)
Definition inside (r1 c1 r2 c2 : Z) (x : cell_of) : Prop := r1 <= x.1.1 <= r2 /\ c1 <= x.1.2 <= c2.

(** The numbers shown: the members have the range of their types, and the battery
    and the effect, which are [int]s, have at most three digits and ten
    characters. *)
Definition shown_ok (s : controller_t) : Prop :=
  (is_i16 (LX s) /\ is_i16 (LY s) /\ is_i16 (RX s) /\ is_i16 (RY s)) /\ 0 <= battery s < 1000 /\
  (is_u8 (sensitivity_left_preset s) /\ is_u8 (sensitivity_right_preset s) /\ is_u8 (rumble_gain s) /\
   is_u8 (deadzone s) /\ is_u8 (global_led_brightness s)) /\ -1000000000 < i32 (led_request_effect s).
Definition numbers_ok (shm : shared_data_t) (scr : screen) : Prop :=
  match scr with
  | ScreenOffline | ScreenWaiting | ScreenProfiles => True
  | ScreenInfo idx => 0 <= battery (get_slot shm idx) < 1000
  | ScreenController idx => shown_ok (get_slot shm idx)
  end.

(** The texts shown, with the columns there are for them.  A controller's screen
    has none that could be too long. *)
Definition info_texts (s : controller_t) : list (string * Z) :=
  [(dev_path s, 64); (text_or_na (product_name s), 64); (text_or_na (driver s), 64); (text_or_na (uniq s), 63)] ++
  (if 0 <? num_input_nodes s
   then map (fun n => (node_path n, 72))
          (take 5 (take (Nat.min (Z.to_nat (num_input_nodes s)) MAX_INPUT_NODES) (input_nodes s)))
   else []).
Definition profile_rows (profiles : string) : list string :=
  take 17 (List.filter nonempty (map (strn 255) (split_lines profiles))).
Definition texts_shown (shm : shared_data_t) (profiles : string) (scr : screen) : list (string * Z) :=
  match scr with
  | ScreenOffline | ScreenWaiting | ScreenController _ => []
  | ScreenProfiles => map (fun line => (line, 72)) (profile_rows profiles)
  | ScreenInfo idx =>
      if (idx <? 0) || (Z.of_nat MAX_SLOTS <=? idx) || negb (connected (get_slot shm idx))
      then [] else info_texts (get_slot shm idx)
  end.
Definition screen_fits (shm : shared_data_t) (profiles : string) (scr : screen) : Prop :=
  Forall (fun t : string * Z => width t.1 <= t.2) (texts_shown shm profiles scr).

(** The drawing puts something at this place. *)
Definition writes (l : list op) (row col : Z) : Prop := exists g, forall r c, In (row, col, g) (cells l r c).

(** * Lemmas *)

(** ** Widths *)

Lemma width_nonneg s : 0 <= width s.
Proof. induction s as [|c s IH]; cbn; [lia|]. destruct (continues c); lia. Qed.
Lemma width_app a b : width (a ++ b)%string = width a + width b.
Proof. induction a as [|c a IH]; [done|]. change (String c a ++ b)%string with (String c (a ++ b))%string. cbn [width]. rewrite IH. lia. Qed.
Lemma width_length s : width s <= Z.of_nat (String.length s).
Proof. induction s as [|c s IH]; cbn; [lia|]. destruct (continues c); lia. Qed.
Lemma width_spaces n : width (spaces n) = Z.of_nat n.
Proof.
  induction n as [|n IH]; [done|]. change (width (spaces (S n))) with (1 + width (spaces n)). rewrite IH. lia.
Qed.
Lemma width_strn n s : width (strn n s) <= width s.
Proof.
  unfold strn. revert n. induction s as [|c s IH]; intros [|n]; cbn; try lia.
  - pose proof (width_nonneg s). destruct (continues c); lia.
  - specialize (IH n). lia.
Qed.
Lemma width_times n s : width (times n s) = Z.of_nat n * width s.
Proof. induction n as [|n IH]; cbn [times]; [done|]. rewrite width_app, IH. lia. Qed.
Lemma width_pad_left n s : width (pad_left n s) <= Z.max (Z.of_nat n) (Z.of_nat (String.length s)).
Proof. unfold pad_left. rewrite width_app, width_spaces. pose proof (width_length s). lia. Qed.
Lemma width_pad_right n s : width (pad_right n s) <= Z.max (Z.of_nat n) (Z.of_nat (String.length s)).
Proof. unfold pad_right. rewrite width_app, width_spaces. pose proof (width_length s). lia. Qed.

Lemma glyphs_width s : Z.of_nat (length (glyphs s)) = width s.
Proof.
  unfold glyphs. induction s as [|c s IH]; [done|]. cbn [cut_glyphs width].
  destruct (cut_glyphs s) as [pending l]. cbn [snd] in IH. destruct (continues c); cbn [snd length]; lia.
Qed.

Lemma pretty_go_length k x s :
  (x < 10 ^ N.of_nat k)%N -> (String.length (pretty_N_go x s) <= k + String.length s)%nat.
Proof.
  revert x s. induction k as [|k IH]; intros x s Hx.
  - assert (x = 0)%N as -> by (cbn in Hx; lia). rewrite pretty_N_go_0. lia.
  - destruct (N.eq_dec x 0%N) as [->|Hn]; [rewrite pretty_N_go_0; lia|].
    rewrite pretty_N_go_step by lia. rewrite Nat2N.inj_succ, N.pow_succ_r' in Hx.
    etransitivity; [apply IH, N.Div0.div_lt_upper_bound; lia|]. cbn. lia.
Qed.
Lemma printf_d_length k z : (0 < k)%nat -> Z.abs z < 10 ^ Z.of_nat k ->
  (String.length (printf_d z) <= k + (if (z <? 0)%Z then 1 else 0))%nat.
Proof.
  intros Hk Hz.
  assert (forall p, Z.pos p < 10 ^ Z.of_nat k -> (String.length (pretty (N.pos p)) <= k)%nat) as Hp.
  { intros p Hp. unfold pretty, pretty_N. case_decide; [cbn; lia|].
    etransitivity; [apply (pretty_go_length k)|]; [|cbn; lia].
    apply N2Z.inj_lt. rewrite N2Z.inj_pow, nat_N_Z. exact Hp. }
  unfold printf_d, pretty, pretty_Z. destruct z as [|p|p]; cbn [Z.ltb Z.compare].
  - cbn. lia.
  - specialize (Hp p Hz). change (String.length (pretty (N.pos p)) <= k + 0)%nat. lia.
  - specialize (Hp p Hz). change (S (String.length (pretty (N.pos p))) <= k + 1)%nat. lia.
Qed.
Lemma width_dec k z : (0 < k)%nat -> Z.abs z < 10 ^ Z.of_nat k ->
  width (printf_d z) <= Z.of_nat k + (if z <? 0 then 1 else 0).
Proof. intros Hk Hz. pose proof (printf_d_length k z Hk Hz). pose proof (width_length (printf_d z)). destruct (z <? 0); lia. Qed.
Lemma width_dec3 z : 0 <= z < 1000 -> width (printf_d z) <= 3.
Proof. intros Hz. pose proof (width_dec 3 z ltac:(lia) ltac:(cbn; lia)). destruct (Z.ltb_spec z 0); lia. Qed.
Lemma width_pad3 z : 0 <= z < 1000 -> width (pad_left 3 (printf_d z)) <= 3.
Proof.
  intros Hz. pose proof (width_pad_left 3 (printf_d z)). pose proof (printf_d_length 3 z ltac:(lia) ltac:(cbn; lia)).
  destruct (Z.ltb_spec z 0); lia.
Qed.
Lemma width_pad6 z : is_i16 z -> width (pad_right 6 (printf_d z)) <= 6.
Proof.
  unfold is_i16. intros Hz. pose proof (width_pad_right 6 (printf_d z)).
  pose proof (printf_d_length 5 z ltac:(lia) ltac:(cbn; lia)). destruct (z <? 0); lia.
Qed.

(** ** Drawings in a rectangle *)

Section draws.
Context (r1 c1 r2 c2 : Z).
Definition draws (l : list op) : Prop := forall row col, Forall (inside r1 c1 r2 c2) (cells l row col).

(** A line: text and colours, no move. *)
Definition still (o : op) : bool := match o with Goto _ _ | NewLine => false | _ => true end.
Definition plain (l : list op) : bool := forallb still l.
Fixpoint text_width (l : list op) : Z :=
  match l with [] => 0 | Put s :: l => width s + text_width l | _ :: l => text_width l end.

Lemma text_width_app l l' : text_width (l ++ l') = text_width l + text_width l'.
Proof. induction l as [|o l IH]; [done|]. cbn [app text_width]. rewrite IH. destruct o; lia. Qed.
Lemma text_width_nonneg l : 0 <= text_width l.
Proof. induction l as [|[] l IH]; cbn [text_width]; try pose proof (width_nonneg s); lia. Qed.
Lemma plain_app l l' : plain (l ++ l') = plain l && plain l'.
Proof. apply forallb_app. Qed.

Lemma cells_app l l' row col :
  exists row' col', cells (l ++ l') row col = cells l row col ++ cells l' row' col'.
Proof.
  revert row col. induction l as [|o l IH]; intros row col; [by exists row, col|].
  destruct o; cbn [app cells]; try apply IH.
  destruct (IH row (col + width s)) as (row' & col' & ->). exists row', col'. by rewrite app_assoc.
Qed.

Lemma draws_nil : draws [].
Proof. intros row col. constructor. Qed.
Lemma draws_app l l' : draws l -> draws l' -> draws (l ++ l').
Proof.
  intros H H' row col. destruct (cells_app l l' row col) as (row' & col' & ->). apply Forall_app. by split.
Qed.
Lemma draws_concat {A} (f : A -> list op) l : (forall x, In x l -> draws (f x)) -> draws (concat (map f l)).
Proof.
  induction l as [|x l IH]; intros H; [apply draws_nil|]. cbn [map concat].
  apply draws_app; [apply H; by left | apply IH; intros y Hy; apply H; by right].
Qed.
Lemma draws_imap {A} (f : nat -> A -> list op) l :
  (forall i x, l !! i = Some x -> draws (f i x)) -> draws (concat (imap f l)).
Proof.
  revert f. induction l as [|x l IH]; intros f H; [apply draws_nil|]. rewrite imap_cons. cbn [concat].
  apply draws_app; [by apply (H 0%nat) | apply IH; intros i y Hy; by apply (H (S i))].
Qed.
Lemma draws_style s l : draws l -> draws (Style s :: l).
Proof. intros H row col. apply H. Qed.
Lemma draws_clear l : draws l -> draws (ClearScreen :: l).
Proof. intros H row col. apply H. Qed.

Lemma line_cells l row col :
  plain l = true -> r1 <= row <= r2 -> c1 <= col -> col + text_width l <= c2 + 1 ->
  Forall (inside r1 c1 r2 c2) (cells l row col).
Proof.
  revert col. induction l as [|o l IH]; intros col Hp Hr Hc Hw; [constructor|].
  unfold plain in Hp. cbn [forallb] in Hp. apply andb_prop in Hp as [Ho Hp].
  pose proof (text_width_nonneg l). destruct o as [| s | | | |]; try discriminate Ho; cbn [cells text_width] in *; try by apply IH.
  pose proof (width_nonneg s). apply Forall_app. split; [|apply IH; [done | done | lia | lia]].
  apply Forall_lookup. intros k x Hk. rewrite list_lookup_imap in Hk.
  destruct (glyphs s !! k) as [g|] eqn:Eg; [|discriminate Hk]. injection Hk as <-.
  apply lookup_lt_Some in Eg. pose proof (glyphs_width s). unfold inside. cbn [fst snd]. lia.
Qed.

(** One line after a move. *)
Lemma draws_line row col l w :
  plain l = true -> text_width l <= w -> r1 <= row <= r2 -> c1 <= col -> col + w <= c2 + 1 -> draws (Goto row col :: l).
Proof. intros Hp Hw Hr Hc Hb r c. cbn [cells]. apply line_cells; try done. lia. Qed.
End draws.

Lemma draws_weaken r1 c1 r2 c2 r1' c1' r2' c2' l :
  draws r1 c1 r2 c2 l -> r1' <= r1 -> c1' <= c1 -> r2 <= r2' -> c2 <= c2' -> draws r1' c1' r2' c2' l.
Proof.
  intros H H1 H2 H3 H4 row col. eapply Forall_impl; [apply H|]. intros x [? ?]. unfold inside. lia.
Qed.

(** An explicit list of moves and text, with one choice after the other. *)
Lemma draws_goto r1 c1 r2 c2 row col l : forall line rest w,
  l = line ++ rest -> plain line = true -> text_width line <= w ->
  r1 <= row <= r2 -> c1 <= col -> col + w <= c2 + 1 -> draws r1 c1 r2 c2 rest -> draws r1 c1 r2 c2 (Goto row col :: l).
Proof.
  intros line rest w -> Hp Hw Hr Hc Hb H. change (Goto row col :: line ++ rest) with ((Goto row col :: line) ++ rest).
  apply draws_app; [by eapply draws_line | done].
Qed.

(** ** Automation *)

Definition insideb (r1 c1 r2 c2 : Z) (x : cell_of) : bool :=
  (r1 <=? x.1.1) && (x.1.1 <=? r2) && (c1 <=? x.1.2) && (x.1.2 <=? c2).
Lemma insideb_all r1 c1 r2 c2 l : forallb (insideb r1 c1 r2 c2) l = true -> Forall (inside r1 c1 r2 c2) l.
Proof.
  intros H. apply List.Forall_forall. intros x Hx. rewrite forallb_forall in H. specialize (H x Hx).
  unfold insideb, inside in *. lia.
Qed.

(** A drawing without a variable, from its first move on. *)
Ltac draw_closed :=
  intros ? ?;
  match goal with |- Forall _ (cells ?l ?row ?col) => change (cells l row col) with (cells l 1 1) end;
  apply insideb_all; vm_compute; reflexivity.

(** The widths of constants, and of choices between constants of one width. *)
Ltac vm_width s := let n := eval vm_compute in (width s) in lazymatch n with Z0 => n | Zpos _ => n end.
Ltac const_width s :=
  lazymatch s with String _ _ => vm_width s | EmptyString => vm_width s | spaces _ => vm_width s
  | pad_right _ (String _ _) => vm_width s end.
Ltac widths :=
  repeat first
    [ progress cbn [app text_width CLR_RESET CLR_GREEN CLR_RED CLR_YELLOW CLR_CYAN CLR_BLUE CLR_PURPLE CLR_GRAY
                      CLR_BOLD CLR_LABEL sep]
    | rewrite text_width_app | rewrite width_app
    | match goal with
      | |- context [text_width (if ?b then _ else _)] => destruct b
      | |- context [width (if ?b then ?x else ?y)] =>
          let n := const_width x in replace (width (if b then x else y)) with n by (by destruct b)
      | |- context [width ?s] => let n := const_width s in change (width s) with n
      | |- context [width (if ?b then _ else _)] => destruct b
      end ].
(** One line: it is plain, and its text is not too long. *)
Ltac plain_line := rewrite ?plain_app; repeat case_match; reflexivity.
Ltac as_line :=
  try match goal with |- draws ?a ?b ?c ?d ((Goto ?row ?col :: ?h) ++ ?t) =>
    change (draws a b c d (Goto row col :: (h ++ t))) end.
Ltac draw_line w :=
  as_line; apply (draws_line _ _ _ _ _ _ _ w); [plain_line | widths; try lia | lia | lia | lia].

(** ** The parts *)

Abbreviation in_frame := (draws 3 2 22 76).

Lemma offline_in_frame b : in_frame (render_offline_screen b).
Proof. destruct b; draw_closed. Qed.
Lemma clear_in_frame : in_frame clear_inner.
Proof. draw_closed. Qed.
Lemma waiting_in_frame spin : in_frame (waiting_ops spin).
Proof.
  apply draws_app; [apply clear_in_frame|].
  assert (width (aget EmptyString braille spin) <= 1) as Hb
    by (apply (aget_Forall (fun s => width s <= 1)); [repeat constructor; discriminate | discriminate]).
  draw_line 40.
Qed.

Lemma node_ops_in_frame l row :
  Forall (fun n => width (node_path n) <= 72) (take (Z.to_nat ((22 - row) / 2)) l) -> 3 <= row ->
  in_frame (node_ops l row).
Proof.
  revert row. induction l as [|n l IH]; intros row Hl Hr; cbn [node_ops]; [apply draws_nil|].
  destruct (Z.ltb_spec 20 row); [apply draws_nil|].
  replace (Z.to_nat ((22 - row) / 2)) with (S (Z.to_nat ((22 - (row + 2)) / 2))) in Hl.
  2: { replace (22 - row) with (22 - (row + 2) + 1 * 2) by lia. rewrite Z.div_add by lia.
       assert (0 <= (22 - (row + 2)) / 2) by (apply Z.div_pos; lia). lia. }
  cbn [take] in Hl. apply Forall_cons in Hl as [Hn Hl].
  apply draws_app; [draw_line 74|]. destruct (Z.ltb_spec 20 (row + 1)); [apply draws_nil|].
  apply draws_app; [|apply IH; [done | lia]]. apply draws_style.
  assert (width (strn 63 (node_name n)) <= 63).
  { pose proof (width_length (strn 63 (node_name n))). pose proof (strn_length 63 (node_name n)). lia. }
  draw_line 67.
Qed.

Lemma info_in_frame shm profiles idx :
  screen_fits shm profiles (ScreenInfo idx) -> numbers_ok shm (ScreenInfo idx) -> in_frame (info_ops shm idx).
Proof.
  unfold screen_fits, info_ops. cbn [texts_shown numbers_ok]. destruct (_ || _) eqn:E; [intros; draw_closed|].
  apply orb_false_iff in E as [E _]. apply orb_false_iff in E as [E1%Z.ltb_ge E2%Z.leb_gt].
  set (s := get_slot shm idx) in *. cbv zeta. unfold info_texts. intros H Hb. cbn [app] in H.
  do 4 (apply Forall_cons in H as [? H]). cbn [fst snd] in *.
  assert (width (printf_d idx) <= 3) as Hi by (apply width_dec3; unfold MAX_SLOTS in E2; lia). pose proof (width_dec3 (battery s) Hb).
  repeat (apply draws_app; [draw_line 74|]).
  apply draws_app; [|draw_line 74]. destruct (0 <? num_input_nodes s); [|draw_line 74].
  apply node_ops_in_frame; [exact (proj1 (Forall_map _ _ _) H) | lia].
Qed.

(** *** The profiles *)

Lemma place_draws l row : Forall (fun s => width s <= 72) l -> 3 <= row -> row + Z.of_nat (length l) <= 23 ->
  in_frame (concat (map (fun d : drawn => [Goto d.1.1 d.1.2; Put "  "; Put d.2]) (place row l))).
Proof.
  intros Hl Hr Hn. apply draws_concat. intros d Hd. unfold place in Hd.
  apply list_elem_of_In, elem_of_lookup_imap in Hd as (i & s & -> & Hi). cbn [fst snd].
  rewrite List.Forall_forall in Hl. specialize (Hl s ltac:(by eapply list_elem_of_In, list_elem_of_lookup_2)).
  apply lookup_lt_Some in Hi. draw_line 74.
Qed.

Lemma list_in_frame shm profiles :
  exists l, list_ops profiles = Some l /\ (screen_fits shm profiles ScreenProfiles -> in_frame l).
Proof.
  unfold list_ops. rewrite list_rows_spec by lia. cbn [mbind option_bind]. eexists. split; [reflexivity|].
  change (take (Z.to_nat (22 - 5)) _) with (profile_rows profiles). intros H.
  apply draws_app; [draw_line 74|]. apply draws_app; [|draw_line 74].
  apply place_draws; [exact (proj1 (Forall_map _ _ _) H) | lia | unfold profile_rows; rewrite length_take; lia].
Qed.

(** *** The controller *)

Lemma button_row_plain l : Forall (fun x => still x.2 = true) l -> plain (button_row l) = true.
Proof.
  induction l as [|[[g lit] c] l IH]; intros H; [done|]. apply Forall_cons in H as [Hc H]. cbn [snd] in Hc.
  cbn [button_row]. rewrite plain_app. destruct l as [|x l].
  - destruct lit; cbn; by rewrite ?Hc.
  - rewrite plain_app, (IH H). destruct lit; cbn; by rewrite ?Hc.
Qed.
Lemma button_row_width l :
  Forall (fun x => width x.1.1 <= 1 /\ (forall s, x.2 <> Put s)) l -> text_width (button_row l) <= 4 * Z.of_nat (length l).
Proof.
  induction l as [|[[g lit] c] l IH]; intros H; [done|]. apply Forall_cons in H as [[Hg Hc] H]. cbn [fst snd] in *.
  cbn [button_row]. rewrite text_width_app. specialize (IH H).
  assert (text_width [if lit then c else CLR_GRAY; Put g] <= 1) as H1.
  { destruct lit; widths; [|lia]. destruct c; try lia. by destruct (Hc s). }
  destruct l as [|x l]; [change (text_width [CLR_RESET]) with 0; cbn [length]; lia|]. rewrite text_width_app.
  change (text_width [CLR_GRAY; Put "   "]) with 3. cbn [length] in *. lia.
Qed.

Lemma buttons_in_frame row label gap l :
  3 <= row <= 22 -> width label <= 4 -> width gap <= 3 -> (length l <= 4)%nat ->
  Forall (fun x => width x.1.1 <= 1) l -> Forall (fun x => exists sgr, x.2 = Style sgr) l ->
  in_frame ([Goto row 50; Put " "; CLR_LABEL; Put label; CLR_RESET; Put " "; CLR_GRAY; Put gap] ++ button_row l).
Proof.
  intros Hr Hl Hg Hn Hw Hs. as_line. apply (draws_line _ _ _ _ _ _ _ 26); [| |lia..].
  - rewrite plain_app, button_row_plain; [reflexivity|]. eapply Forall_impl; [exact Hs|]. by intros x [sgr ->].
  - widths.
    enough (text_width (button_row l) <= 4 * Z.of_nat (length l)) by lia. apply button_row_width.
    apply Forall_and. split; [exact Hw|]. eapply Forall_impl; [exact Hs|]. by intros x [sgr ->].
Qed.

Lemma pad_in_frame s : in_frame (pad_ops s 13 50).
Proof.
  apply buttons_in_frame; [lia | discriminate | discriminate | cbn; lia | |].
  - repeat constructor; cbn; case_match; discriminate.
  - repeat constructor; by eexists.
Qed.
Lemma face_in_frame s : in_frame (face_ops s 15 50).
Proof.
  apply buttons_in_frame; [lia | discriminate | discriminate | | |];
    unfold render_face_buttons, nsw_pad; case_bool_decide; cbn [zip zip_with length]; try lia;
    repeat constructor; cbn; try (by eexists); repeat case_match; discriminate.
Qed.
Lemma system_in_frame s : in_frame (system_ops s 17 50).
Proof.
  apply buttons_in_frame; [lia | discriminate | discriminate | | |];
    unfold render_system_buttons; case_bool_decide; cbn [zip zip_with length repeat]; try lia;
    repeat constructor; cbn; try (by eexists); repeat case_match; discriminate.
Qed.

Lemma bar_in_frame v row label : 3 <= row <= 22 -> width label <= 4 -> in_frame (bar_ops v row 50 label).
Proof.
  intros Hr Hl. unfold bar_ops.
  assert (forall l, plain (concat (map (fun b : bool => if b then [CLR_CYAN; Put "▰"] else [Put "▱"]) l)) = true /\
    text_width (concat (map (fun b : bool => if b then [CLR_CYAN; Put "▰"] else [Put "▱"]) l)) = Z.of_nat (length l))
    as H.
  { induction l as [|b l [IH1 IH2]]; [done|]. cbn [map concat]. rewrite plain_app, text_width_app, IH1, IH2.
    destruct b; (split; [done|]); widths; cbn [length]; lia. }
  destruct (H (draw_mockup_bar v)) as [H1 H2]. as_line.
  apply (draws_line _ _ _ _ _ _ _ 26); [| |lia..].
  - by rewrite !plain_app, H1.
  - rewrite !text_width_app, H2. unfold draw_mockup_bar. rewrite length_map, length_seq. widths. lia.
Qed.

Lemma shoulder_in_frame row l r a b :
  3 <= row <= 22 -> width l <= 2 -> width r <= 2 -> in_frame (shoulder_ops row 50 l r a b).
Proof. intros Hr Hl Hr'. unfold shoulder_ops. destruct (truthy a), (truthy b); draw_line 26. Qed.

Definition cell_ops (border : op) (c : cell) : list op :=
  match c with
  | CellStick => [CLR_BOLD; CLR_CYAN; Put "⦿"; CLR_RESET; border]
  | CellCentre => [Put "·"]
  | CellBlank => [Put " "]
  end.
Lemma cells_line sgr line :
  plain (concat (map (cell_ops (Style sgr)) line)) = true /\
  text_width (concat (map (cell_ops (Style sgr)) line)) = Z.of_nat (length line).
Proof.
  induction line as [|c line [IH1 IH2]]; [done|]. cbn [map concat]. rewrite plain_app, text_width_app, IH1, IH2.
  destruct c; (split; [done|]); unfold cell_ops; widths; cbn [length]; lia.
Qed.

Lemma picture_shape x y :
  length (draw_stick_mockup x y).1 = 7%nat /\
  (forall i line, (draw_stick_mockup x y).1 !! i = Some line -> length line = 13%nat).
Proof.
  unfold draw_stick_mockup. destruct (stick_cell x y) as [gx gy]. cbn [fst].
  split; [by rewrite length_map, length_seq|]. intros i line Hi.
  pose proof (lookup_lt_Some _ _ _ Hi) as Hl. rewrite length_map, length_seq in Hl.
  rewrite lookup_map_seq in Hi by done. apply (inj Some) in Hi as <-. by rewrite length_map, length_seq.
Qed.

Lemma stick_in_frame x y label col :
  is_i16 x -> is_i16 y -> width label <= 15 -> 2 <= col <= 50 -> in_frame (stick_ops x y label 7 col).
Proof.
  intros Hx Hy Hl Hc. pose proof (width_pad6 x Hx). pose proof (width_pad6 y Hy).
  unfold stick_ops. destruct (draw_stick_mockup x y) as [picture bright] eqn:E.
  assert (exists sgr, (if bright then CLR_LABEL else CLR_GRAY) = Style sgr) as [sgr ->]
    by (destruct bright; by eexists).
  destruct (picture_shape x y) as [Hn Hp]. rewrite E in Hn, Hp. cbn [fst] in Hn, Hp.
  clear E. cbv zeta. change (fun c : cell => _) with (cell_ops (Style sgr)).
  apply draws_app; [|apply draws_app].
  - apply (draws_goto _ _ _ _ _ _ _ [CLR_LABEL; Put label; CLR_RESET] [Goto (7 + 1) col; Style sgr; Put "╭─────────────╮"] 15);
      [done | done | widths; lia | lia | lia | lia | draw_line 15].
  - apply draws_imap. intros i line Hi. pose proof (lookup_lt_Some _ _ _ Hi). specialize (Hp i line Hi).
    destruct (cells_line sgr line) as [P1 P2]. as_line. apply (draws_line _ _ _ _ _ _ _ 15); [| |lia..].
    + by rewrite !plain_app, P1.
    + widths. rewrite P2. lia.
  - apply (draws_goto _ _ _ _ _ _ _ [Put "╰─────────────╯"; CLR_RESET]
      [Goto (7 + 10) (col + 1); CLR_GRAY; Put "X:"; Put (pad_right 6 (printf_d x)); Put " Y:"; Put (pad_right 6 (printf_d y)); CLR_RESET] 15);
      [done | done | widths; lia | lia | lia | lia | draw_line 17].
Qed.

Lemma status_in_frame s : shown_ok s -> in_frame (status_ops s).
Proof.
  intros (_ & _ & (H1 & H2 & H3 & H4 & H5) & H6). unfold is_u8 in *.
  pose proof (width_dec3 _ (ltac:(lia) : 0 <= sensitivity_left_preset s < 1000)).
  pose proof (width_dec3 _ (ltac:(lia) : 0 <= sensitivity_right_preset s < 1000)).
  pose proof (width_pad3 _ (ltac:(lia) : 0 <= rumble_gain s < 1000)).
  pose proof (width_pad3 _ (ltac:(lia) : 0 <= deadzone s < 1000)).
  pose proof (width_pad3 _ (ltac:(lia) : 0 <= global_led_brightness s < 1000)).
  assert (width (printf_d (i32 (led_request_effect s))) <= 10).
  { assert (i32 (led_request_effect s) < 2 ^ 31)
      by (unfold i32; pose proof (Z.mod_pos_bound (led_request_effect s + 2 ^ 31) (2 ^ 32)); lia).
    set (e := i32 _) in *.
    destruct (Z.ltb_spec e 0).
    - pose proof (width_dec 9 e ltac:(lia) ltac:(cbn; lia)). destruct (Z.ltb_spec e 0); lia.
    - pose proof (width_dec 10 e ltac:(lia) ltac:(cbn; lia)). destruct (Z.ltb_spec e 0); lia. }
  unfold status_ops. apply draws_app; [|apply draws_app].
  - unfold status_row_20, check_box, number. draw_line 69.
  - unfold status_row_21, check_box, number, percent. draw_line 69.
  - unfold status_row_22, check_box, number, percent. draw_line 70.
Qed.

Lemma status_line_in_frame s : 0 <= battery s < 1000 -> in_frame (status_line s).
Proof.
  intros Hb. pose proof (width_pad3 _ Hb). unfold status_line, type_str, nsw_pad. 
  destruct (ctype s), (is_bluetooth s), (emulate_active s); cbv zeta;
    repeat match goal with
      | |- context [?a <? ?b] => let t := eval vm_compute in (a <? b) in change (a <? b) with t; cbv iota
      | |- context [bool_decide ?p] => let t := eval vm_compute in (bool_decide p) in change (bool_decide p) with t; cbn [negb]; cbv iota
      end; draw_line 75.
Qed.
Lemma path_line_in_frame s : in_frame (path_line s).
Proof.
  unfold path_line. set (t := strn 62 (dev_path s)). pose proof (strn_length 62 (dev_path s)) as H. fold t in H.
  pose proof (width_length t). cbv zeta. apply (draws_line _ _ _ _ _ _ _ 63); [done | | lia..].
  cbn [text_width CLR_GRAY CLR_RESET]. rewrite width_spaces. change (width " ") with 1. lia.
Qed.

Lemma controller_in_frame s : shown_ok s -> in_frame (controller_ops s).
Proof.
  intros H. pose proof H as ((? & ? & ? & ?) & Hb & _). unfold controller_ops.
  repeat (apply draws_app; [first
    [ by apply status_line_in_frame | apply path_line_in_frame
    | by (apply stick_in_frame; first [done | lia]) | by (apply shoulder_in_frame; first [done | lia])
    | by (apply bar_in_frame; first [done | lia]) | apply pad_in_frame | apply face_in_frame | apply system_in_frame ]|]).
  by apply status_in_frame.
Qed.

(** ** Around the content *)

Abbreviation on_screen := (draws 1 1 25 77).

Lemma content_in_frame shm profiles spin scr : numbers_ok shm scr ->
  exists l, content_ops shm profiles spin scr = Some l /\ (screen_fits shm profiles scr -> in_frame l).
Proof.
  intros H. destruct scr as [| |idx| |idx]; cbn [content_ops].
  - eexists. split; [reflexivity | intros; apply offline_in_frame].
  - destruct (list_in_frame shm profiles) as (l & -> & Hl). eexists. split; [reflexivity|]. intros Hf.
    apply draws_app; [apply clear_in_frame | by apply Hl].
  - eexists. split; [reflexivity | intros; by eapply info_in_frame].
  - eexists. split; [reflexivity | intros; apply waiting_in_frame].
  - eexists. split; [reflexivity | intros; by apply controller_in_frame].
Qed.

(** ** A text that is too long *)

Lemma writes_app_l l l' row col : writes l row col -> writes (l ++ l') row col.
Proof.
  intros [g H]. exists g. intros r c. destruct (cells_app l l' r c) as (r' & c' & ->).
  apply in_or_app. left. apply H.
Qed.
Lemma writes_app_r l l' row col : writes l' row col -> writes (l ++ l') row col.
Proof.
  intros [g H]. exists g. intros r c. destruct (cells_app l l' r c) as (r' & c' & ->).
  apply in_or_app. right. apply H.
Qed.
(** A text on a line reaches as far as it is wide. *)
Lemma writes_line row col l s l' k :
  plain l = true -> 0 <= k < width s -> writes (Goto row col :: l ++ Put s :: l') row (col + text_width l + k).
Proof.
  intros Hp Hk. pose proof (glyphs_width s) as Hg.
  destruct (lookup_lt_is_Some_2 (glyphs s) (Z.to_nat k) ltac:(lia)) as [g Hl]. exists g. intros r c. cbn [cells].
  clear r c. revert col. induction l as [|o l IH]; intros col.
  - cbn [app cells text_width]. apply in_or_app. left. apply list_elem_of_In, elem_of_lookup_imap.
    exists (Z.to_nat k), g. split; [|exact Hl]. do 2 f_equal. lia.
  - unfold plain in Hp. cbn [forallb] in Hp. apply andb_prop in Hp as [Ho Hp]. specialize (IH Hp).
    destruct o as [| t | | | |]; try discriminate Ho; cbn [app cells text_width]; try apply IH.
    apply in_or_app. right. rewrite Z.add_assoc. apply IH.
Qed.
Lemma writes_field row label value k :
  0 <= k < width value ->
  writes [Goto row 3; CLR_LABEL; Put label; CLR_RESET; Put value] row (3 + width label + k).
Proof.
  intros Hk. pose proof (writes_line row 3 [CLR_LABEL; Put label; CLR_RESET] value [] k eq_refl Hk) as H.
  cbn [text_width CLR_LABEL CLR_RESET] in H. by rewrite Z.add_0_r in H.
Qed.

Lemma nodes_overflow l row :
  Exists (fun n => 72 < width (node_path n)) (take (Z.to_nat ((22 - row) / 2)) l) -> 3 <= row ->
  exists row', 3 <= row' <= 22 /\ writes (node_ops l row) row' 77.
Proof.
  revert row. induction l as [|n l IH]; intros row Hl Hr; [rewrite firstn_nil in Hl; inversion Hl|]. cbn [node_ops].
  destruct (Z.ltb_spec 20 row) as [H20|H20].
  { replace (Z.to_nat ((22 - row) / 2)) with O in Hl; [inversion Hl|].
    enough ((22 - row) / 2 < 1) by lia. apply Z.div_lt_upper_bound; lia. }
  replace (Z.to_nat ((22 - row) / 2)) with (S (Z.to_nat ((22 - (row + 2)) / 2))) in Hl.
  2: { replace (22 - row) with (22 - (row + 2) + 1 * 2) by lia. rewrite Z.div_add by lia.
       assert (0 <= (22 - (row + 2)) / 2) by (apply Z.div_pos; lia). lia. }
  cbn [take] in Hl. apply Exists_cons in Hl as [Hn|Hl].
  - exists row. split; [lia|]. apply writes_app_l.
    exact (writes_line row 3 [Put "  "] (node_path n) [] 72 eq_refl (conj (ltac:(lia) : 0 <= 72) Hn)).
  - destruct (Z.ltb_spec 20 (row + 1)) as [H21|H21].
    { replace (Z.to_nat ((22 - (row + 2)) / 2)) with O in Hl; [inversion Hl|].
      enough ((22 - (row + 2)) / 2 < 1) by lia. apply Z.div_lt_upper_bound; lia. }
    destruct (IH (row + 2) Hl ltac:(lia)) as (row' & Hr' & H). exists row'. split; [done|].
    by do 2 apply writes_app_r.
Qed.

Lemma not_fits_exists (l : list (string * Z)) :
  ~ Forall (fun t : string * Z => width t.1 <= t.2) l -> Exists (fun t : string * Z => t.2 < width t.1) l.
Proof.
  intros H. apply not_Forall_Exists in H; [|intros; apply _]. eapply Exists_impl; [exact H|]. intros t Ht. cbn in Ht. lia.
Qed.

Lemma info_overflows shm profiles idx :
  ~ screen_fits shm profiles (ScreenInfo idx) -> exists row, 3 <= row <= 22 /\ writes (info_ops shm idx) row 77.
Proof.
  intros H. apply not_fits_exists in H. revert H. unfold info_ops. cbn [texts_shown].
  destruct (_ || _); [intros H; inversion H|]. set (s := get_slot shm idx). cbv zeta. unfold info_texts.
  intros H. cbn [app] in H.
  apply Exists_cons in H as [H|H]; [exists 5; split; [lia|]; apply writes_app_r, writes_app_l;
    exact (writes_field 5 "HIDRAW:   " _ 64 (conj (ltac:(lia) : 0 <= 64) H))|].
  apply Exists_cons in H as [H|H]; [exists 6; split; [lia|]; do 2 apply writes_app_r; apply writes_app_l;
    exact (writes_field 6 "Product:  " _ 64 (conj (ltac:(lia) : 0 <= 64) H))|].
  apply Exists_cons in H as [H|H]; [exists 7; split; [lia|]; do 3 apply writes_app_r; apply writes_app_l;
    exact (writes_field 7 "Driver:   " _ 64 (conj (ltac:(lia) : 0 <= 64) H))|].
  apply Exists_cons in H as [H|H]; [exists 8; split; [lia|]; do 4 apply writes_app_r; apply writes_app_l;
    exact (writes_field 8 "Address:   " _ 63 (conj (ltac:(lia) : 0 <= 63) H))|].
  destruct (0 <? num_input_nodes s); [|inversion H].
  destruct (nodes_overflow (take (Nat.min (Z.to_nat (num_input_nodes s)) MAX_INPUT_NODES) (input_nodes s)) 12
    (proj1 (Exists_map _ _ _) H) ltac:(lia)) as (row & Hr & Hw).
  exists row. split; [done|]. do 8 apply writes_app_r. by apply writes_app_l.
Qed.

Lemma list_overflows shm profiles l :
  ~ screen_fits shm profiles ScreenProfiles -> list_ops profiles = Some l ->
  exists row, 3 <= row <= 22 /\ writes l row 77.
Proof.
  intros H. apply not_fits_exists in H. cbn [texts_shown] in H. apply (proj1 (Exists_map _ _ _)) in H.
  unfold list_ops. rewrite list_rows_spec by lia. cbn [mbind option_bind]. intros E.
  apply (inj Some) in E as <-. change (take (Z.to_nat (22 - 5)) _) with (profile_rows profiles).
  apply Exists_exists in H as (line & Hin & Hw). cbn [fst snd] in Hw.
  apply list_elem_of_lookup in Hin as (i & Hi). pose proof (lookup_lt_Some _ _ _ Hi) as Hl.
  unfold profile_rows in Hl. rewrite length_take in Hl. exists (5 + Z.of_nat i). split; [lia|].
  apply writes_app_r, writes_app_l.
  assert ((place 5 (profile_rows profiles)) !! i = Some (5 + Z.of_nat i, 3, line)) as Hp
    by (unfold place; by rewrite list_lookup_imap, Hi).
  revert Hp. generalize (place 5 (profile_rows profiles)). intros ds Hp.
  rewrite <- (take_drop_middle ds i _ Hp), map_app, concat_app. apply writes_app_r. cbn [map concat fst snd].
  apply writes_app_l. exact (writes_line _ 3 [Put "  "] line [] 72 eq_refl (conj (ltac:(lia) : 0 <= 72) Hw)).
Qed.

Lemma content_overflows shm profiles spin scr l :
  ~ screen_fits shm profiles scr -> content_ops shm profiles spin scr = Some l ->
  exists row, 3 <= row <= 22 /\ writes l row 77.
Proof.
  intros H. destruct scr as [| |idx| |idx]; cbn [content_ops]; try (by destruct H; constructor).
  - destruct (list_ops profiles) as [l'|] eqn:E; [|discriminate]. cbn [mbind option_bind].
    intros El. apply (inj Some) in El as <-. destruct (list_overflows _ _ _ H E) as (row & Hr & Hw). exists row. split; [done|]. by apply writes_app_r.
  - intros [= <-]. by eapply info_overflows.
Qed.

Lemma border_on_screen color : on_screen (draw_border 2 1 23 77 (Style color)).
Proof. draw_closed. Qed.
Lemma border_color_style alive idx : exists sgr, border_color alive idx = Style sgr.
Proof. unfold border_color. destruct (negb alive), (idx =? -1); by eexists. Qed.

(** The frame is on the border of its rectangle, so the content leaves it alone. *)
Lemma border_not_in_frame color :
  forall row col, Forall (fun x => ~ inside 3 2 22 76 x) (cells (draw_border 2 1 23 77 (Style color)) row col).
Proof.
  intros row col. change (cells _ row col) with (cells (draw_border 2 1 23 77 (Style color)) 1 1).
  assert (forallb (fun x => negb (insideb 3 2 22 76 x)) (cells (draw_border 2 1 23 77 (Style color)) 1 1) = true) as H
    by (vm_compute; reflexivity).
  apply List.Forall_forall. intros x Hx [H1 H2]. rewrite forallb_forall in H. specialize (H x Hx).
  unfold insideb in H. lia.
Qed.

Definition dot_ops (d : bool * bool) : list op :=
  [if d.1 then CLR_LABEL else CLR_GRAY; Put (if d.2 then "●" else "○"); Put "  "; CLR_RESET].
Lemma dots_line l :
  plain (concat (map dot_ops l)) = true /\ text_width (concat (map dot_ops l)) = 3 * Z.of_nat (length l).
Proof.
  induction l as [|[a b] l [IH1 IH2]]; [done|]. cbn [map concat]. rewrite plain_app, text_width_app, IH1, IH2.
  split; [by destruct a|]. destruct a, b; unfold dot_ops; cbn [fst snd]; widths; cbn [length]; lia.
Qed.

Lemma header_on_screen shm idx alive proc :
  -1000000 < daemon_pid shm < 10000000 -> on_screen (header_ops shm idx alive proc).
Proof.
  intros Hp.
  assert (width (printf_d (daemon_pid shm)) <= 7) as Hd.
  { destruct (Z.ltb_spec (daemon_pid shm) 0) as [Hn|Hn].
    - pose proof (width_dec 6 (daemon_pid shm) ltac:(lia) ltac:(cbn; lia)) as H. destruct (Z.ltb_spec (daemon_pid shm) 0); lia.
    - pose proof (width_dec 7 (daemon_pid shm) ltac:(lia) ltac:(cbn; lia)) as H. destruct (Z.ltb_spec (daemon_pid shm) 0); lia. }
  unfold header_ops. change (fun d : bool * bool => _) with dot_ops.
  destruct (dots_line (header_dots shm alive idx)) as [P1 P2].
  assert (length (header_dots shm alive idx) = 4%nat) as Hl by (unfold header_dots; by rewrite length_map, length_seq).
  rewrite Hl in P2. set (dots := concat _) in *. clearbody dots.
  rewrite !app_assoc. apply draws_app; [|intros ? ?; constructor].
  rewrite <- !app_assoc. destruct alive; [|destruct ((0 <? daemon_pid shm) && proc)]; unfold HOME; as_line;
    (apply (draws_line _ _ _ _ _ _ _ 77); [by rewrite !plain_app, P1 | widths; rewrite P2; lia | lia..]).
Qed.

Lemma command_on_screen cmd : width cmd <= 66 -> on_screen (command_ops cmd).
Proof. intros Hw. unfold command_ops. draw_line 77. Qed.

Lemma notification_on_screen message : on_screen (notification_ops message).
Proof.
  destruct message as [message|]; cbn [notification_ops]; [|draw_line 62].
  set (msg := strn 59 message). pose proof (strn_length 59 message) as Hl. fold msg in Hl.
  pose proof (width_length msg). cbv zeta. apply draws_app; [draw_line 59|].
  destruct (Z.ltb_spec (Z.of_nat (String.length msg)) 62); [|apply draws_nil].
  apply (draws_line _ _ _ _ _ _ _ (62 - Z.of_nat (String.length msg))); [done | | lia..].
  cbn [text_width]. rewrite width_spaces. lia.
Qed.

Lemma prompt_on_screen cmd : on_screen (prompt_ops cmd).
Proof.
  unfold prompt_ops. set (shown := if (59 <? String.length cmd)%nat then _ else _).
  assert (width shown <= 62) as Hs.
  { unfold shown. destruct (Nat.ltb_spec 59 (String.length cmd)).
    - rewrite width_app. pose proof (width_length (strn 59 cmd)). pose proof (strn_length 59 cmd).
      change (width "...") with 3. lia.
    - pose proof (width_pad_right 59 cmd). lia. }
  clearbody shown.
  apply (draws_goto _ _ _ _ _ _ _ [CLR_BOLD; Put " command "; CLR_CYAN; Put "❯ "; CLR_RESET; Put shown; CLR_GRAY]
    [Goto 25 71; Put "[help]"; CLR_RESET; Goto 25 78; ClearLine] 77);
    [done | done | widths; lia | lia | lia | lia | draw_closed].
Qed.

Definition cell_eqb (x y : cell_of) : bool := (x.1.1 =? y.1.1) && (x.1.2 =? y.1.2) && String.eqb x.2 y.2.
Lemma existsb_in x l : existsb (cell_eqb x) l = true -> In x l.
Proof.
  intros H. apply existsb_exists in H as ([[r c] g] & Hin & H). destruct x as [[r' c'] g'].
  unfold cell_eqb in H. cbn [fst snd] in H. apply andb_prop in H as [H ->%String.eqb_eq].
  apply andb_prop in H as [->%Z.eqb_eq ->%Z.eqb_eq]. done.
Qed.

Lemma help_draws page : 0 <= page < TOTAL_HELP_PAGES -> exists l, help_ops page = Some l /\
  (page <> 1 -> on_screen l) /\ (page = 1 -> In (7, 82, ")"%string) (cells l 1 1)).
Proof.
  intros Hp. unfold TOTAL_HELP_PAGES in Hp.
  assert (page = 0 \/ page = 1 \/ page = 2 \/ page = 3) as [->|[->|[->| ->]]] by lia;
    (eexists; split; [vm_compute; reflexivity|]; split; [|try done]); try (intros _; draw_closed); [done|].
  intros _. apply (existsb_in (7, 82, ")"%string)). vm_compute. reflexivity.
Qed.

Lemma command_overflows cmd row col :
  66 < width cmd -> exists g, In (25, 78, g) (cells (command_ops cmd) row col).
Proof.
  intros Hw. pose proof (glyphs_width cmd) as Hg.
  destruct (lookup_lt_is_Some_2 (glyphs cmd) 66 ltac:(lia)) as [g Hl]. exists g.
  unfold command_ops. cbn [cells]. apply in_or_app. right. apply in_or_app. right. apply in_or_app. left.
  apply list_elem_of_In, elem_of_lookup_imap. exists 66%nat, g. split; [reflexivity | exact Hl].
Qed.

#[export] Instance screen_fits_dec shm profiles scr : Decision (screen_fits shm profiles scr).
Proof. unfold screen_fits. apply _. Defined.

(** A turn around a content that [fits]. *)
Lemma turn_inside v help changed message spin top spin1 (fits : Prop) :
  render_full_ui v spin = Some (top ++ command_ops (v_cmd_line v), spin1) -> (fits -> on_screen top) ->
  0 <= spin1 < 8 -> 0 <= spin < 8 -> (forall page, help = Some page -> 0 <= page < TOTAL_HELP_PAGES) ->
  exists l spin', turn_ops v help changed message spin = Some (l, spin') /\ 0 <= spin' < 8 /\
    (match help with None => fits /\ width (v_cmd_line v) <= 66 | Some page => page <> 1 end -> on_screen l) /\
    (help = Some 1 -> In (7, 82, ")"%string) (cells l 1 1)).
Proof.
  intros Er Ht Hs1 Hs Hh.
  assert (exists l spin', match help with Some page => l ← help_ops page; Some (l, spin) | None => render_full_ui v spin end
      = Some (l, spin') /\ 0 <= spin' < 8 /\
      (match help with None => fits /\ width (v_cmd_line v) <= 66 | Some page => page <> 1 end -> on_screen l) /\
      (help = Some 1 -> In (7, 82, ")"%string) (cells l 1 1))) as (l & spin' & El & Hsp & Hl & H1).
  { destruct help as [page|].
    - destruct (help_draws page (Hh page eq_refl)) as (l & -> & Hl & H1). exists l, spin.
      split; [done|]. split; [done|]. split; [exact Hl|]. intros [= ->]. by apply H1.
    - exists (top ++ command_ops (v_cmd_line v)), spin1. split; [exact Er|]. split; [done|]. split; [|done].
      intros [Hf Hw]. apply draws_app; [by apply Ht | by apply command_on_screen]. }
  unfold turn_ops. rewrite El. cbn [mbind option_bind]. do 2 eexists. split; [reflexivity|]. split; [done|]. split.
  - intros Hw. apply draws_app; [destruct changed; [apply draws_clear|]; apply draws_nil|].
    apply draws_app; [by apply Hl|]. apply draws_app; [apply notification_on_screen | apply prompt_on_screen].
  - intros Hpage. specialize (H1 Hpage). destruct changed; cbn [app cells];
      (destruct (cells_app l (notification_ops message ++ prompt_ops (v_cmd_line v)) 1 1) as (r & c & ->);
       apply in_or_app; by left).
Qed.

(** * Properties *)

(** C31: what the interface draws.  The content of a screen stays inside the
    frame if every text it shows fits the columns there are for it, and a text
    that does not is written over the frame's right border: device texts of the
    information screen (64 columns for the product name, of which the program
    keeps 127 bytes) and profile names (72 columns, of 255 bytes).  The screen of
    a controller, the waiting and the offline screen show no such text, so they
    stay inside whatever the sticks, triggers, buttons and settings are (with a
    battery of at most three digits).  If the content fits, the pid has at most
    seven digits and the command line at most 66 columns, all of a turn's drawing
    stays in the 25 rows and 77 columns the program asks for.  A longer command
    line, which the line editor allows, is drawn past the last column of the last
    row, and the second page of the help reaches column 82.  There is a drawing
    in each case. *)
Theorem screen_inside_frame v help changed message spin :
  let shm := v_shm v in let scr := view_screen v in
  -1000000 < daemon_pid shm < 10000000 -> numbers_ok shm scr ->
  (forall page, help = Some page -> 0 <= page < TOTAL_HELP_PAGES) -> 0 <= spin < 8 ->
  (exists content, content_ops shm (v_profiles v) spin scr = Some content /\
     (screen_fits shm (v_profiles v) scr <-> forall row col, Forall (inside 3 2 22 76) (cells content row col)) /\
     (~ screen_fits shm (v_profiles v) scr -> exists row, 3 <= row <= 22 /\ writes content row 77)) /\
  match scr with ScreenOffline | ScreenWaiting | ScreenController _ => screen_fits shm (v_profiles v) scr | _ => True end /\
  (exists l spin', turn_ops v help changed message spin = Some (l, spin') /\ 0 <= spin' < 8 /\
     (match help with
      | None => screen_fits shm (v_profiles v) scr /\ width (v_cmd_line v) <= 66
      | Some page => page <> 1
      end -> forall row col, Forall (inside 1 1 25 77) (cells l row col)) /\
     (help = Some 1 -> In (7, 82, ")"%string) (cells l 1 1))) /\
  (66 < width (v_cmd_line v) -> exists l spin', render_full_ui v spin = Some (l, spin') /\
     exists g, In (25, 78, g) (cells l 1 1)).
Proof.
  intros shm scr Hp Hf Hh Hs. destruct (content_in_frame shm (v_profiles v) spin scr Hf) as (content & Ec & Hc).
  pose proof (content_overflows shm (v_profiles v) spin scr content) as Hover.
  destruct (border_color_style (v_alive v) (v_idx v)) as [sgr Eb].
  set (spin1 := match scr with ScreenWaiting => Z.rem (spin + 1) 8 | _ => spin end).
  assert (0 <= spin1 < 8) as Hs1.
  { unfold spin1. case_match; try done. rewrite Z.rem_mod_nonneg by lia. apply Z.mod_pos_bound. lia. }
  set (top := header_ops shm (v_idx v) (v_alive v) (v_proc v) ++
    draw_border 2 1 23 77 (border_color (v_alive v) (v_idx v)) ++ content).
  assert (render_full_ui v spin = Some (top ++ command_ops (v_cmd_line v), spin1)) as Er.
  { unfold render_full_ui. fold shm scr. rewrite Ec. cbn [mbind option_bind]. unfold top. by rewrite <- !app_assoc. }
  assert (screen_fits shm (v_profiles v) scr -> on_screen top) as Ht.
  { intros Hfit. unfold top. apply draws_app; [by apply header_on_screen|].
    apply draws_app; [rewrite Eb; apply border_on_screen|]. eapply draws_weaken; [by apply Hc | lia..]. }
  split; [|split; [|split]].
  - exists content. split; [done|]. split; [|intros H; by apply Hover]. split; [exact Hc|]. intros H.
    destruct (decide (screen_fits shm (v_profiles v) scr)) as [|Hn]; [done|].
    destruct (Hover Hn Ec) as (row & _ & g & Hg).
    specialize (H 1 1). rewrite List.Forall_forall in H. specialize (H _ (Hg 1 1)). unfold inside in H. cbn in H. lia.
  - case_match; try done; constructor.
  - by apply turn_inside with (top := top) (spin1 := spin1).
  - intros Hw. do 2 eexists. split; [exact Er|].
    destruct (cells_app top (command_ops (v_cmd_line v)) 1 1) as (r & c & ->).
    destruct (command_overflows (v_cmd_line v) r c Hw) as [g Hg]. exists g. apply in_or_app. by right.
Qed.

Definition demo_view : view :=
  mk_view (put_slot two_pads 1 ((get_slot two_pads 1) {{ LX := -32768; LY := 32767; battery := 100; rumble_gain := 255;
             led_request_effect := 8; is_uhid := true }}))
    1 "gain 50" true false false "" true.

(** The information screen of a controller with a name of 70 letters. *)
Definition long_name_view : view :=
  mk_view (put_slot two_pads 1 ((get_slot two_pads 1) {{ product_name := times 70 "x" }})) 1 "" true true false "" true.

Example screen_inside_frame_witness :
  view_screen demo_view = ScreenController 1 /\
  (exists l spin', turn_ops demo_view None true (Some "✓ Service started"%string) 3 = Some (l, spin') /\
    Forall (inside 1 1 25 77) (cells l 1 1) /\ In (3, 3, "D"%string) (cells l 1 1)) /\
  exists content, content_ops (v_shm long_name_view) "" 0 (ScreenInfo 1) = Some content /\
    exists row, 3 <= row <= 22 /\ writes content row 77.
Proof.
  split; [reflexivity|]. split.
  - destruct (screen_inside_frame demo_view None true (Some "✓ Service started"%string) 3)
      as (_ & Hf & (l & spin' & E & _ & H & _) & _).
    + split; reflexivity.
    + cbn. unfold shown_ok, is_i16, is_u8. vm_compute. repeat split; discriminate.
    + discriminate.
    + lia.
    + exists l, spin'. split; [exact E|]. split; [apply H; split; [exact Hf | vm_compute; discriminate]|].
      vm_compute in E. injection E as <- <-. apply existsb_in. vm_compute. reflexivity.
  - destruct (screen_inside_frame long_name_view None false None 0) as ((content & E & _ & Hover) & _).
    + split; reflexivity.
    + vm_compute. split; [discriminate | reflexivity].
    + discriminate.
    + lia.
    + exists content. split; [exact E|]. apply Hover. intros Hf.
      apply (Forall_lookup_1 _ _ 1%nat (times 70 "x", 64)) in Hf; [by vm_compute in Hf | reflexivity].
Defined.
