(* ===== verification/Tui.v ===== *)
(** * The terminal interface ([ui.c])

    The line editor, the keys, the commands and one turn of the loop.  The text
    of a notification is not modelled, its time is. *)

From S2P Require Import Prelude Types Keys Axes Utils Led Settings Commands Display.
From Stdlib Require Import Ascii.
Local Open Scope Z_scope.

Definition MY_MAX_INPUT : nat := 256.

(** ** Conversions of [sscanf] *)

(** [%d]; a number that does not fit is cut to [int]. *)
Definition scan_int (s : string) : option (Z * string) :=
  let (v, rest) := strtol s in
  if (String.length rest =? String.length s)%nat then None else Some (i32 v, rest).

(** [%d %d] and [%d %d %d]: the values converted. *)
Definition scan_ints (s : string) : list Z :=
  match scan_int s with
  | None => []
  | Some (a, s) =>
      a :: match scan_int s with
           | None => []
           | Some (b, s) => b :: match scan_int s with None => [] | Some (c, _) => [c] end
           end
  end.

Fixpoint take_word (n : nat) (s : string) : string * string :=
  match n, s with
  | S n, String c s' => if is_space c then (EmptyString, s)
                        else let (w, r) := take_word n s' in (String c w, r)
  | _, _ => (EmptyString, s)
  end.
(** [%Ns]. *)
Definition scan_word (n : nat) (s : string) : option (string * string) :=
  let (w, r) := take_word n (skip_spaces s) in
  if String.eqb w "" then None else Some (w, r).

(** A word of the format, and the text after it. *)
Definition scan_literal (lit s : string) : option string :=
  if String.prefix lit s
  then Some (substring (String.length lit) (String.length s - String.length lit) s) else None.

(** [cmd_line + n]. *)
Definition after (n : nat) (s : string) : string := substring n (String.length s - n) s.

(** ** Slot commands

    The new slot, and whether a notification is shown. *)

Definition tui_result : Type := controller_t * bool.

Definition set_color (c : controller_t) (r g b : Z) : controller_t :=
  c {{ led_static := true; led_request_pending := false; led_request_effect := 0;
       led_base_r := u8 r; led_base_g := u8 g; led_base_b := u8 b;
       led_r := u8 r; led_g := u8 g; led_b := u8 b; led_dirty := true }}.

Definition tui_sensitivity (apply : controller_t -> Z -> controller_t) (c : controller_t) (arg : string)
  : tui_result :=
  let preset := atoi arg in
  if (0 <=? preset) && (preset <? SENS_PRESET_COUNT) then (apply c preset, true) else (c, true).

Definition tui_layout (c : controller_t) (c' : controller_t) : tui_result :=
  if bool_decide (ctype c = TYPE_NSW_PRO) then (c', true) else (c, true).

Definition tui_keybind (c : controller_t) (arg : string) : tui_result :=
  match scan_ints arg with
  | physical :: logical :: _ =>
      if (0 <=? physical) && (physical <? Z.of_nat PHY_BTN_COUNT) &&
         (0 <=? logical) && (logical <? LOGICAL_BTN_COUNT)
      then (c {{ keymap := aset (keymap c) physical (u8 logical); led_dirty := true }}, true)
      else (c, true)
  | _ => (c, true)
  end.

Definition tui_percent (set : Z -> controller_t -> controller_t) (c : controller_t) (arg : string)
  : tui_result :=
  let v := atoi arg in
  if (0 <=? v) && (v <=? 100) then (set (u8 v) c, true) else (c, true).

Definition tui_pled (c : controller_t) (arg : string) : tui_result :=
  let mode := atoi arg in
  if negb (bool_decide (ctype c = TYPE_DUALSENSE)) then (c, true)
  else if (0 <=? mode) && (mode <=? 5)
  then (c {{ player_leds := u8 mode; led_static := true; led_dirty := true }}, true)
  else (c, true).

Definition tui_ledfx (c : controller_t) (arg : string) : tui_result :=
  match scan_ints arg with
  | [] => (c, true)
  | effect_num :: rest =>
      let speed := match rest with s :: _ => s | [] => 5 end in
      let brightness := match rest with _ :: b :: _ => b | _ => 80 end in
      if (0 <=? effect_num) && (effect_num <? LEDFX_COUNT) then
        if effect_num =? 0 then
          (c {{ led_static := true; led_request_pending := false; led_r := led_base_r c;
                led_g := led_base_g c; led_b := led_base_b c; led_dirty := true }}, true)
        else
          (c {{ led_static := false; led_request_effect := effect_num; led_request_speed := u8 speed;
                led_request_brightness := u8 brightness; led_request_pending := true }}, true)
      else (c, true)
  end.

(** The commands that are one fixed line, with what they store. *)
Definition fixed_commands : list (string * (controller_t -> tui_result)) :=
  [ ("uhid on", fun c => (c {{ is_uhid := true; emulate_active := true }}, true));
    ("uhid off", fun c => (c {{ is_uhid := false; emulate_active := true }}, true));
    ("invert ly on", fun c => (c {{ invert_ly := true }}, true));
    ("invert ly off", fun c => (c {{ invert_ly := false }}, true));
    ("invert ry on", fun c => (c {{ invert_ry := true }}, true));
    ("invert ry off", fun c => (c {{ invert_ry := false }}, true));
    ("invert status", fun c => (c, true));
    ("triggers-digital on", fun c => (c {{ is_trigger_digital := true }}, true));
    ("triggers-digital off", fun c => (c {{ is_trigger_digital := false }}, true));
    ("triggers-digital status", fun c => (c, true));
    ("sensitivity status", fun c => (c, true)); ("sensitivity", fun c => (c, true));
    ("layout switch", fun c => tui_layout c (c {{ request_switch_layout := true }}));
    ("layout xbox", fun c => tui_layout c (c {{ request_xbox_layout := true }}));
    ("reset-keybinds", fun c => (c {{ request_reset_all_keybinds := true }}, true));
    ("keymap", fun c => (c, true));
    ("emulation on", fun c => (c {{ emulate_active := true }}, true));
    ("emulation off", fun c => (c {{ emulate_active := false }}, true));
    ("debounce on", fun c => (c {{ debounce_enabled := true }}, true));
    ("debounce off", fun c => (c {{ debounce_enabled := false }}, true));
    ("rumble on", fun c => (c {{ rumble_active := true }}, true));
    ("rumble off", fun c =>
       (c {{ rumble_active := false; rumble_strong := 0; rumble_weak := 0; rumble_dirty := true }}, true));
    ("rumble status", fun c => (c, true));
    ("reapply on", fun c => (c {{ led_reapply := true }}, true));
    ("reapply off", fun c => (c {{ led_reapply := false }}, true));
    ("reapply status", fun c => (c, true)) ]%string.

(** The commands with an argument after a prefix, in the order of the code;
    none of the fixed lines has one of these prefixes but [sensitivity], whose
    prefixes are longer than its fixed lines. *)
Definition prefix_commands : list (string * (controller_t -> string -> tui_result)) :=
  [ ("sensitivity left ", tui_sensitivity apply_sensitivity_preset_left);
    ("sensitivity right ", tui_sensitivity apply_sensitivity_preset_right);
    ("keybind ", tui_keybind);
    ("gain ", tui_percent (fun v c => c {{ rumble_gain := v }}));
    ("deadzone ", tui_percent (fun v c => c {{ deadzone := v }}));
    ("pled ", tui_pled);
    ("color ", fun c arg => match scan_color arg with
                            | Some (r, g, b) => (set_color c r g b, true)
                            | None => (c, true)
                            end) ]%string.
Definition late_prefix_commands : list (string * (controller_t -> string -> tui_result)) :=
  [ ("ledfx", tui_ledfx);
    ("brightness ", tui_percent (fun v c => c {{ global_led_brightness := v; led_dirty := true }})) ]%string.

Definition is_hex_color (s : string) : bool :=
  (String.length s =? 6)%nat && forallb isxdigit (list_ascii_of_string s).

Definition find_prefix (l : list (string * (controller_t -> string -> tui_result))) (line : string)
  : option (controller_t -> tui_result) :=
  match find (fun p => String.prefix (fst p) line) l with
  | Some p => Some (fun c => snd p c (after (String.length (fst p)) line))
  | None => None
  end.

Definition tui_slot_command (line : string) (c : controller_t) : tui_result :=
  match find (fun p => String.eqb (fst p) line) fixed_commands with
  | Some p => snd p c
  | None =>
      match find_prefix prefix_commands line with
      | Some f => f c
      | None =>
          if is_hex_color line then
            match scan_color line with
            | Some (r, g, b) => (set_color c r g b, true)
            | None => (c, false)
            end
          else
            match find_prefix late_prefix_commands line with
            | Some f => f c
            | None => (c, false)
            end
      end
  end.

(** ** The state of the interface *)

Record ui_state := mk_ui {
  cmd_line : list ascii; cmd_len : Z;
  info_mode : bool; help_mode : bool; help_page : Z;
  list_mode : bool; g_profiles_list : string;
  selected_dev_path : string; keep_running : bool; was_insane : bool;
  conn : shm_conn;
  last_heartbeat : Z; last_heartbeat_time : timeval; hb_is_moving : bool; last_reconnect : timeval;
  notification : option (Z * Z) }.

Definition eta_ui (u : ui_state) : ui_state := {|
  cmd_line := cmd_line u; cmd_len := cmd_len u; info_mode := info_mode u; help_mode := help_mode u;
  help_page := help_page u; list_mode := list_mode u; g_profiles_list := g_profiles_list u;
  selected_dev_path := selected_dev_path u; keep_running := keep_running u; was_insane := was_insane u;
  conn := conn u; last_heartbeat := last_heartbeat u; last_heartbeat_time := last_heartbeat_time u;
  hb_is_moving := hb_is_moving u; last_reconnect := last_reconnect u; notification := notification u |}.
#[export] Instance set_cmd_line : Setter cmd_line. Proof. mk_setter eta_ui. Defined.
#[export] Instance set_cmd_len : Setter cmd_len. Proof. mk_setter eta_ui. Defined.
#[export] Instance set_info_mode : Setter info_mode. Proof. mk_setter eta_ui. Defined.
#[export] Instance set_help_mode : Setter help_mode. Proof. mk_setter eta_ui. Defined.
#[export] Instance set_help_page : Setter help_page. Proof. mk_setter eta_ui. Defined.
#[export] Instance set_list_mode : Setter list_mode. Proof. mk_setter eta_ui. Defined.
#[export] Instance set_g_profiles_list : Setter g_profiles_list. Proof. mk_setter eta_ui. Defined.
#[export] Instance set_selected_dev_path : Setter selected_dev_path. Proof. mk_setter eta_ui. Defined.
#[export] Instance set_keep_running : Setter keep_running. Proof. mk_setter eta_ui. Defined.
#[export] Instance set_was_insane : Setter was_insane. Proof. mk_setter eta_ui. Defined.
#[export] Instance set_conn : Setter conn. Proof. mk_setter eta_ui. Defined.
#[export] Instance set_last_heartbeat : Setter last_heartbeat. Proof. mk_setter eta_ui. Defined.
#[export] Instance set_last_heartbeat_time : Setter last_heartbeat_time. Proof. mk_setter eta_ui. Defined.
#[export] Instance set_hb_is_moving : Setter hb_is_moving. Proof. mk_setter eta_ui. Defined.
#[export] Instance set_last_reconnect : Setter last_reconnect. Proof. mk_setter eta_ui. Defined.
#[export] Instance set_notification : Setter notification. Proof. mk_setter eta_ui. Defined.

Definition no_input : list ascii := repeat zero MY_MAX_INPUT.

(** The state at the start of [run_ui_loop]. *)
Definition ui_start (c : shm_conn) (now : timeval) : ui_state :=
  mk_ui no_input 0 false false 0 false EmptyString EmptyString true false c 0 now true tv_zero None.

(** The C string in a buffer. *)
Fixpoint text_of (l : list ascii) : string :=
  match l with
  | [] => EmptyString
  | c :: l => if Ascii.eqb c zero then EmptyString else String c (text_of l)
  end.

(** What a command does besides changing the state and the memory. *)
Inductive ui_action := UiService (a : svc_action) | UiSetup.

(** What a turn of the loop meets. *)
Record ui_turn_input := mk_turn {
  (** the size of the window; the times of the clock, in the order it is read *)
  t_winsize : option (Z * Z); t_now : nat -> timeval; t_mono : Z * Z;
  (** the system calls of [try_connect_shm], of [is_daemon_alive] with what
      happens before its lock, and the two tests for a process *)
  t_connect : connect_env; t_kill : Z -> Z * Z; t_kill_env : shared_data_t -> shared_data_t;
  t_proc_exists : Z -> bool; t_kill0 : Z -> bool;
  (** what other processes do before the key is handled, and in requests *)
  t_wait : shared_data_t -> shared_data_t; t_env : nat -> shared_data_t -> shared_data_t;
  (** the bytes on the terminal *)
  t_input : list ascii;
  (** is the set-up script executable; [start_service]: whether the daemon is
      alive, the answers of its attempts, and the connection they leave *)
  t_script : bool; t_alive : bool; t_conn : nat -> bool; t_ready : nat -> bool; t_started : shm_conn;
  (** what stack buffers hold that nobody wrote *)
  t_stale_subcmd : string; t_stale_resp : string }.

Section turn.
Context (sizeof_shared_data : Z) (t : ui_turn_input).

Definition show_notification (u : ui_state) : ui_state :=
  let (sec, nsec) := t_mono t in u {{ notification := Some (sec + 5, nsec) }}.

(** The new state, and whether it is on the screen. *)
Definition render_notification (u : ui_state) : ui_state * bool :=
  match notification u with
  | None => (u, false)
  | Some (sec, nsec) =>
      let (now_sec, now_nsec) := t_mono t in
      if (sec <? now_sec) || ((now_sec =? sec) && (nsec <? now_nsec))
      then (u {{ notification := None }}, false) else (u, true)
  end.

Definition display_show_profiles (list : string) (u : ui_state) : ui_state :=
  u {{ g_profiles_list := strn 4095 list; list_mode := true }}.

(** [profile_request_sync] on the connection: the answer, and the message, if
    one was written. *)
Definition ui_request (request : Z) (name : option string) (enable delay : Z) (size : nat) (u : ui_state)
  : ui_state * bool * option string :=
  match shm_ptr (conn u) with
  | None => (u, false, None)
  | Some shm =>
      let '(shm, ok, msg) := profile_request_sync (t_env t) request name enable delay size shm in
      (u {{ conn := mk_conn (Some shm) (shm_fd (conn u)) }}, ok, Some msg)
  end.
Definition ui_request_shown (request : Z) (name : option string) (enable delay : Z) (u : ui_state)
  : ui_state :=
  let '(u, _, _) := ui_request request name enable delay 512 u in show_notification u.

Definition cmd_profiles (u : ui_state) : ui_state :=
  let '(u, ok, msg) := ui_request 4 None (-1) (-1) 4096 u in
  let resp_msg := match msg with Some m => m | None => t_stale_resp t end in
  if (ok : bool) && negb (String.eqb resp_msg "") then display_show_profiles resp_msg u
  else show_notification u.

Definition tui_profile_list (u : ui_state) : ui_state :=
  let '(u, _, msg) := ui_request 4 None (-1) (-1) 512 u in
  let resp_msg := match msg with Some m => m | None => t_stale_resp t end in
  if negb (String.eqb resp_msg "") then display_show_profiles resp_msg u else show_notification u.

Definition tui_profile (arg : string) (u : ui_state) : ui_state :=
  let word := scan_word 31 arg in
  let subcmd := match word with Some (w, _) => w | None => t_stale_subcmd t end in
  let name := match word with Some (_, rest) => scan_word 63 rest | None => None end in
  match name with
  | Some (n, _) =>
      if String.eqb subcmd "load" then ui_request_shown 1 (Some n) (-1) (-1) u
      else if String.eqb subcmd "save" then ui_request_shown 2 (Some n) (-1) (-1) u
      else if String.eqb subcmd "delete" then ui_request_shown 3 (Some n) (-1) (-1) u
      else if String.eqb subcmd "list" then tui_profile_list u
      else show_notification u
  | None => if String.eqb subcmd "list" then tui_profile_list u else show_notification u
  end.

(** [sscanf(cmd_line, "auto-save delay %d", &delay)]: a space of the format
    stands for any number of them. *)
Definition scan_delay (line : string) : option Z :=
  s ← scan_literal "auto-save" line; s ← scan_literal "delay" (skip_spaces s);
  '(v, _) ← scan_int s; Some v.

Definition tui_auto_save (line : string) (u : ui_state) : ui_state :=
  if String.eqb line "auto-save on" then ui_request_shown 5 None 1 (-1) u
  else if String.eqb line "auto-save off" then ui_request_shown 5 None 0 (-1) u
  else
    match scan_delay line with
    | Some delay => if (100 <=? delay) && (delay <=? 10000)
                    then ui_request_shown 5 None (-1) delay u else show_notification u
    | None => show_notification u
    end.

(** A command on the slot shown, under the lock. *)
Definition tui_on_slot (line : string) (current_idx : Z) (u : ui_state) : ui_state :=
  match shm_ptr (conn u) with
  | None => u
  | Some shm =>
      let (c, shown) := tui_slot_command line (get_slot shm current_idx) in
      let u := u {{ conn := mk_conn (Some (put_slot shm current_idx c)) (shm_fd (conn u)) }} in
      if shown : bool then show_notification u else u
  end.

Definition tui_start (u : ui_state) : ui_state * list ui_action :=
  let acts := start_service (shm_ptr (conn u)) (t_alive t) (t_conn t) (t_ready t) in
  let connects := existsb (fun a => match a with SvcConnect => true | _ => false end) acts in
  (show_notification (if connects then u {{ conn := t_started t }} else u), map UiService acts).

Definition tui_stop (u : ui_state) : ui_state * list ui_action :=
  let acts := snd (stop_service (shm_ptr (conn u))) in
  let u := if match shm_ptr (conn u) with Some _ => true | None => false end
           then u {{ conn := disconnect_shm (conn u) }} else u in
  (show_notification (u {{ selected_dev_path := EmptyString }}), map UiService acts).

(** A line, when Enter is pressed. *)
Definition run_line (line : string) (current_idx : Z) (u : ui_state) : ui_state * list ui_action :=
  if String.eqb line "exit" || String.eqb line "q" then (u {{ keep_running := false }}, [])
  else if String.eqb line "info" then (u {{ info_mode := true }}, [])
  else if String.eqb line "profiles" then (cmd_profiles u, [])
  else if String.eqb line "start" then tui_start u
  else if String.eqb line "stop" then tui_stop u
  else if String.eqb line "setup" then
    if negb (t_script t) then (show_notification u, []) else (u, [UiSetup])
  else if String.eqb line "help" then (u {{ help_mode := true; help_page := 0 }}, [])
  else if String.prefix "profile " line then (tui_profile (after 8 line) u, [])
  else if String.prefix "auto-save" line then (tui_auto_save line u, [])
  else if negb (current_idx =? -1) then (tui_on_slot line current_idx u, [])
  else (u, []).

(** ** Keys *)

Definition ESC : Z := 27.
Definition isprint (c : ascii) : bool := (32 <=? chr c) && (chr c <=? 126).

(** The two bytes after the escape, if they come. *)
Definition read_seq (input : list ascii) : option (Z * Z) :=
  match input with a :: b :: _ => Some (chr a, chr b) | _ => None end.

(** An arrow: the next controller in its direction.  [None] is a read outside
    the copy of the memory: there is none, or the index is negative. *)
Fixpoint arrow_loop (n : nat) (i : Z) (snap : option shared_data_t) (current_idx step : Z)
  (u : ui_state) : option ui_state :=
  match n with
  | O => Some u
  | S n =>
      let j := Z.rem (current_idx + step * i + Z.of_nat MAX_SLOTS) (Z.of_nat MAX_SLOTS) in
      s ← snap;
      if j <? 0 then None
      else
        let c := get_slot s j in
        if connected c then Some (u {{ selected_dev_path := strn 127 (dev_path c) }})
        else arrow_loop n (i + 1) snap current_idx step u
  end.

Definition key_escape (snap : option shared_data_t) (current_idx : Z) (input : list ascii) (u : ui_state)
  : option ui_state :=
  match read_seq input with
  | Some (_, b) =>
      if (b =? 67) || (b =? 68) then
        match shm_ptr (conn u) with
        | None => Some u
        | Some _ => arrow_loop MAX_SLOTS 1 snap current_idx (if b =? 67 then 1 else -1) u
        end
      else Some u
  | None => Some u
  end.

Definition key_help (c : ascii) (input : list ascii) (u : ui_state) : ui_state :=
  if chr c =? ESC then
    match read_seq input with
    | Some (a, b) =>
        if a =? 91 then
          if b =? 67 then
            if help_page u + 1 <? TOTAL_HELP_PAGES then u {{ help_page := help_page u + 1 }} else u
          else if b =? 68 then
            if 0 <? help_page u then u {{ help_page := help_page u - 1 }} else u
          else u
        else u
    | None => u
    end
  else u {{ help_mode := false }}.

Definition ui_key (snap : option shared_data_t) (current_idx : Z) (u : ui_state)
  : option (ui_state * list ui_action) :=
  match t_input t with
  | [] => Some (u, [])
  | c :: input =>
      if help_mode u then Some (key_help c input u, [])
      else if info_mode u then Some (u {{ info_mode := false }}, [])
      else if list_mode u then Some (u {{ list_mode := false }}, [])
      else if chr c =? ESC then u ← key_escape snap current_idx input u; Some (u, [])
      else if (chr c =? 10) || (chr c =? 13) then
        if 0 <? cmd_len u then
          let (u, acts) := run_line (text_of (aset (cmd_line u) (cmd_len u) zero)) current_idx
                             (u {{ cmd_line := aset (cmd_line u) (cmd_len u) zero }}) in
          Some (u {{ cmd_len := 0; cmd_line := no_input }}, acts)
        else Some (u, [])
      else if ((chr c =? 127) || (chr c =? 8)) && (0 <? cmd_len u) then
        Some (u {{ cmd_len := cmd_len u - 1; cmd_line := aset (cmd_line u) (cmd_len u - 1) zero }}, [])
      else if (cmd_len u <? Z.of_nat MY_MAX_INPUT - 1) && isprint c then
        Some (u {{ cmd_line := aset (aset (cmd_line u) (cmd_len u) c) (cmd_len u + 1) zero;
                   cmd_len := cmd_len u + 1 }}, [])
      else Some (u, [])
  end.

(** ** One turn of the loop *)

(** Reconnection, at most every half second. *)
Definition ui_reconnect (u : ui_state) : ui_state :=
  match shm_ptr (conn u) with
  | Some _ => u
  | None =>
      let elapsed := tv_diff_us (t_now t 0) (last_reconnect u) in
      if (tv_sec (last_reconnect u) =? 0) || (500000 <? elapsed)
      then u {{ conn := (try_connect_shm sizeof_shared_data (t_connect t) (conn u)).1;
                last_reconnect := t_now t 1 }}
      else u
  end.

(** Does the heartbeat move?  If not and the daemon is gone, disconnect. *)
Definition ui_heartbeat (shm : shared_data_t) (u : ui_state) : ui_state :=
  let now := t_now t 2 in
  let u :=
    if negb (heartbeat shm =? last_heartbeat u)
    then u {{ last_heartbeat := heartbeat shm; last_heartbeat_time := now; hb_is_moving := true }}
    else
      let diff_ms := (tv_sec now - tv_sec (last_heartbeat_time u)) * 1000 +
                     Z.quot (tv_usec now - tv_usec (last_heartbeat_time u)) 1000 in
      if 1000 <? diff_ms then u {{ hb_is_moving := false }} else u in
  if negb (hb_is_moving u) then
    let (shm', alive) := is_daemon_alive (t_kill t) (t_kill_env t) (Some shm) in
    let u := u {{ conn := mk_conn shm' (shm_fd (conn u)) }} in
    if negb alive then u {{ conn := disconnect_shm (conn u) }} else u
  else u.

(** The copy of the memory, whether the daemon is alive, and the slot shown. *)
Definition ui_look (u : ui_state) : ui_state * option shared_data_t * bool * Z :=
  match shm_ptr (conn u) with
  | None => (u, None, false, -1)
  | Some shm =>
      if negb (magic shm =? SHM_MAGIC_VALUE) then (u, None, false, -1)
      else
        let u := ui_heartbeat shm u in
        match shm_ptr (conn u) with
        | None => (u, None, false, -1)
        | Some snap =>
            let pid := daemon_pid snap in
            if (0 <? pid) && (t_proc_exists t pid || t_kill0 t pid || hb_is_moving u) then
              let (sel, idx) := update_and_get_slot_idx (selected_dev_path u) snap in
              (u {{ selected_dev_path := sel }}, Some snap, true, idx)
            else (u, Some snap, false, -1)
        end
  end.

(** Other processes, before the key. *)
Definition ui_waited (u : ui_state) : ui_state :=
  match shm_ptr (conn u) with
  | None => u
  | Some shm => u {{ conn := mk_conn (Some (t_wait t shm)) (shm_fd (conn u)) }}
  end.

Definition ui_turn (u : ui_state) : option (ui_state * list ui_action) :=
  if negb (check_window_sanity (t_winsize t)) then Some (u {{ was_insane := true }}, [])
  else
    let u := u {{ was_insane := false }} in
    let '(u, snap, alive, current_idx) := ui_look (ui_reconnect u) in
    let (u, _) := render_notification u in
    ui_key snap current_idx (ui_waited u).
End turn.

(** The loop, over the turns it meets. *)
Fixpoint run_ui_loop (sizeof_shared_data : Z) (l : list ui_turn_input) (u : ui_state)
  : option (ui_state * list ui_action) :=
  match l with
  | [] => Some (u, [])
  | t :: l =>
      if negb (keep_running u) then Some (u, [])
      else
        '(u, a) ← ui_turn sizeof_shared_data t u;
        '(u, b) ← run_ui_loop sizeof_shared_data l u;
        Some (u, a ++ b)
  end.

(** * Specification and lemmas *)

(** The state is well formed: what is typed fits its buffer, is printable and is
    followed by zeros only; the page exists; the strings fit their arrays. *)
Record ui_ok (u : ui_state) : Prop := mk_ui_ok {
  ok_size : length (cmd_line u) = MY_MAX_INPUT;
  ok_len : 0 <= cmd_len u < Z.of_nat MY_MAX_INPUT;
  ok_text : forall i, 0 <= i < cmd_len u -> isprint (aget zero (cmd_line u) i) = true;
  ok_rest : forall i, cmd_len u <= i < Z.of_nat MY_MAX_INPUT -> aget zero (cmd_line u) i = zero;
  ok_page : 0 <= help_page u < TOTAL_HELP_PAGES;
  ok_list : (String.length (g_profiles_list u) <= 4095)%nat;
  ok_path : (String.length (selected_dev_path u) <= 127)%nat
}.

(** The state but for what [ui_ok] looks at. *)
Definition same_text (u u' : ui_state) : Prop := cmd_line u' = cmd_line u /\ cmd_len u' = cmd_len u.
Definition screens_ok (u : ui_state) : Prop :=
  0 <= help_page u < TOTAL_HELP_PAGES /\ (String.length (g_profiles_list u) <= 4095)%nat /\
  (String.length (selected_dev_path u) <= 127)%nat.
Definition calm (u u' : ui_state) : Prop := same_text u u' /\ (screens_ok u -> screens_ok u').

#[export] Instance calm_refl : Reflexive calm.
Proof. by intros u. Qed.
#[export] Instance calm_trans : Transitive calm.
Proof. intros a b c [[? ?] ?] [[? ?] ?]. split; [split; congruence | auto]. Qed.

Lemma calm_ok u u' : calm u u' -> ui_ok u -> ui_ok u'.
Proof.
  intros [[El Ec] Hs] [? ? ? ? ? ? ?]. destruct Hs as (? & ? & ?); [by split; [|split]|].
  split; rewrite ?El, ?Ec; assumption.
Qed.

(** A step that changes nothing [ui_ok] looks at, or the screens within bounds. *)
Ltac calm_done :=
  split; [by split|]; unfold screens_ok, TOTAL_HELP_PAGES in *; cbn in *; cbv [constant] in *;
  intros (? & ? & ?); split; [lia|]; split;
  first [assumption | apply strn_length | cbn; lia].

Create HintDb calm.
Section calm.
Context (sizeof_shared_data : Z) (t : ui_turn_input).

Lemma show_notification_calm u : calm u (show_notification t u).
Proof. unfold show_notification. destruct (t_mono t). by split. Qed.
Lemma display_show_profiles_calm list u : calm u (display_show_profiles list u).
Proof. unfold display_show_profiles. calm_done. Qed.
Lemma ui_request_calm request name enable delay size u :
  calm u (ui_request t request name enable delay size u).1.1.
Proof.
  unfold ui_request. destruct (shm_ptr (conn u)); [|done].
  destruct (profile_request_sync _ _ _ _ _ _ _) as [[shm ok] msg]. by split.
Qed.
Lemma ui_request_shown_calm request name enable delay u :
  calm u (ui_request_shown t request name enable delay u).
Proof.
  unfold ui_request_shown. pose proof (ui_request_calm request name enable delay 512 u) as H.
  destruct (ui_request t request name enable delay 512 u) as [[u1 ok] msg]. cbn [fst] in H.
  etransitivity; [exact H | apply show_notification_calm].
Qed.
Lemma request_then_calm (request : Z) (size : nat) (k : bool -> option string -> bool) (f : option string -> string) u :
  calm u (let '(u, ok, msg) := ui_request t request None (-1) (-1) size u in
          if k ok msg then display_show_profiles (f msg) u else show_notification t u).
Proof.
  pose proof (ui_request_calm request None (-1) (-1) size u) as H.
  destruct (ui_request t request None (-1) (-1) size u) as [[u1 ok] msg]. cbn [fst] in H.
  etransitivity; [exact H|]. destruct (k ok msg); [apply display_show_profiles_calm | apply show_notification_calm].
Qed.
Lemma cmd_profiles_calm u : calm u (cmd_profiles t u).
Proof.
  apply (request_then_calm 4 4096 (fun ok msg => ok && negb (String.eqb
    (match msg with Some m => m | None => t_stale_resp t end) ""))
    (fun msg => match msg with Some m => m | None => t_stale_resp t end)).
Qed.
Lemma tui_profile_list_calm u : calm u (tui_profile_list t u).
Proof.
  apply (request_then_calm 4 512 (fun _ msg => negb (String.eqb
    (match msg with Some m => m | None => t_stale_resp t end) ""))
    (fun msg => match msg with Some m => m | None => t_stale_resp t end)).
Qed.

Hint Resolve show_notification_calm ui_request_shown_calm cmd_profiles_calm tui_profile_list_calm : calm.

Lemma tui_profile_calm arg u : calm u (tui_profile t arg u).
Proof. unfold tui_profile. cbv zeta. repeat case_match; auto with calm. Qed.
Lemma tui_auto_save_calm line u : calm u (tui_auto_save t line u).
Proof. unfold tui_auto_save. repeat case_match; auto with calm. Qed.
Lemma tui_on_slot_calm line idx u : calm u (tui_on_slot t line idx u).
Proof.
  unfold tui_on_slot. destruct (shm_ptr (conn u)) as [shm|]; [|done].
  destruct (tui_slot_command line _) as [c []]; [|by split].
  etransitivity; [|apply show_notification_calm]. by split.
Qed.
Lemma tui_start_calm u : calm u (tui_start t u).1.
Proof.
  unfold tui_start. cbn [fst]. etransitivity; [|apply show_notification_calm]. destruct (existsb _ _); by split.
Qed.
Lemma tui_stop_calm u : calm u (tui_stop t u).1.
Proof.
  unfold tui_stop. cbn [fst]. etransitivity; [|apply show_notification_calm].
  destruct (shm_ptr (conn u)); calm_done.
Qed.
Hint Resolve tui_profile_calm tui_auto_save_calm tui_on_slot_calm tui_start_calm tui_stop_calm : calm.

Lemma run_line_calm line idx u : calm u (run_line t line idx u).1.
Proof.
  unfold run_line. repeat bcase; cbn [fst]; auto with calm; first [by split | calm_done].
Qed.
End calm.

Lemma ui_ok_screens u : ui_ok u -> screens_ok u.
Proof. by intros [? ? ? ? ? ? ?]. Qed.

Lemma aget_no_input i : aget zero no_input i = zero.
Proof. unfold aget, no_input. apply nth_repeat. Qed.

Lemma fresh_line_ok u : screens_ok u -> ui_ok (u {{ cmd_len := 0; cmd_line := no_input }}).
Proof.
  intros (? & ? & ?). split; cbn -[no_input aget]; cbv [constant]; try assumption.
  - apply repeat_length.
  - unfold MY_MAX_INPUT. lia.
  - intros; lia.
  - intros. apply aget_no_input.
Qed.

Lemma typed_ok u c : ui_ok u -> isprint c = true -> cmd_len u < Z.of_nat MY_MAX_INPUT - 1 ->
  ui_ok (u {{ cmd_line := aset (aset (cmd_line u) (cmd_len u) c) (cmd_len u + 1) zero;
              cmd_len := cmd_len u + 1 }}).
Proof.
  intros [Hs Hl Ht Hr ? ? ?] Hc Hn. split; cbn -[aget aset]; cbv [constant]; try assumption; try lia.
  - by rewrite !length_aset.
  - intros i Hi. rewrite aget_aset by (rewrite ?length_aset; lia). destruct (Z.eqb_spec i (cmd_len u + 1)); [lia|].
    rewrite aget_aset by lia. destruct (Z.eqb_spec i (cmd_len u)); [done | apply Ht; lia].
  - intros i Hi. rewrite aget_aset by (rewrite ?length_aset; lia). destruct (i =? cmd_len u + 1); [done|].
    rewrite aget_aset by lia. destruct (Z.eqb_spec i (cmd_len u)); [lia | apply Hr; lia].
Qed.

Lemma erased_ok u : ui_ok u -> 0 < cmd_len u ->
  ui_ok (u {{ cmd_len := cmd_len u - 1; cmd_line := aset (cmd_line u) (cmd_len u - 1) zero }}).
Proof.
  intros [Hs Hl Ht Hr ? ? ?] Hn. split; cbn -[aget aset]; cbv [constant]; try assumption; try lia.
  - by rewrite length_aset.
  - intros i Hi. rewrite aget_aset by lia. destruct (Z.eqb_spec i (cmd_len u - 1)); [lia | apply Ht; lia].
  - intros i Hi. rewrite aget_aset by lia. destruct (Z.eqb_spec i (cmd_len u - 1)); [done | apply Hr; lia].
Qed.

Lemma key_help_ok c input u : ui_ok u -> ui_ok (key_help c input u).
Proof.
  intros Hu. unfold key_help. pose proof (ok_page _ Hu) as Hp.
  repeat (case_match; zprop); apply (calm_ok u); try done;
    (split; [by split|]); unfold screens_ok; cbn; cbv [constant]; intros (? & ? & ?); repeat split; try assumption; lia.
Qed.

Lemma arrow_loop_calm n i snap idx step u u' :
  arrow_loop n i snap idx step u = Some u' -> calm u u'.
Proof.
  revert i. induction n as [|n IH]; intros i; cbn [arrow_loop]; [by intros [= <-]|].
  destruct snap as [s|]; [|done]. cbn [mbind option_bind].
  destruct (_ <? 0); [done|]. destruct (connected _); [intros [= <-]; calm_done | apply IH].
Qed.
Lemma key_escape_calm snap idx input u u' : key_escape snap idx input u = Some u' -> calm u u'.
Proof.
  unfold key_escape. repeat case_match; try (by intros [= <-]); apply arrow_loop_calm.
Qed.

Section ok.
Context (sizeof_shared_data : Z) (t : ui_turn_input).

Lemma ui_key_ok snap idx u u' acts :
  ui_ok u -> ui_key t snap idx u = Some (u', acts) -> ui_ok u'.
Proof.
  intros Hu. unfold ui_key. destruct (t_input t) as [|c input]; [by intros [= <- <-]|].
  destruct (help_mode u); [intros [= <- <-]; by apply key_help_ok|].
  destruct (info_mode u); [intros [= <- <-]; by apply (calm_ok u)|].
  destruct (list_mode u); [intros [= <- <-]; by apply (calm_ok u)|].
  destruct (chr c =? ESC).
  { destruct (key_escape _ _ _ _) as [u1|] eqn:E; [|done]. intros [= <- <-].
    eapply calm_ok; [by eapply key_escape_calm | done]. }
  destruct (_ || _).
  { destruct (Z.ltb_spec 0 (cmd_len u)); [|by intros [= <- <-]].
    set (line := text_of _). set (u0 := u {{ cmd_line := _ }}).
    pose proof (run_line_calm t line idx u0) as [_ Hs].
    destruct (run_line t line idx u0) as [u1 a]. intros [= <- <-]. cbn [fst] in Hs.
    apply fresh_line_ok, Hs. apply ui_ok_screens in Hu. exact Hu. }
  destruct (_ && _) eqn:E1; [intros [= <- <-]; zprop; by apply erased_ok|].
  destruct (_ && isprint c) eqn:E2; [|by intros [= <- <-]].
  apply andb_prop in E2 as [E2 ?]. zprop. intros [= <- <-]. by apply typed_ok.
Qed.

Lemma ui_reconnect_calm u : calm u (ui_reconnect sizeof_shared_data t u).
Proof. unfold ui_reconnect. repeat case_match; by split. Qed.
Lemma ui_heartbeat_calm shm u : calm u (ui_heartbeat t shm u).
Proof.
  unfold ui_heartbeat. cbv zeta. destruct (is_daemon_alive _ _ _) as [shm' alive].
  repeat case_match; by split.
Qed.

Lemma find_slot_range test l i j : find_slot test l i = Some j -> i <= j < i + Z.of_nat (length l).
Proof. intros E. pose proof (find_slot_spec test l i) as H. rewrite E in H. by destruct H as (? & ? & _). Qed.

Lemma update_idx_range sel shm :
  let (sel', idx) := update_and_get_slot_idx sel shm in
  -1 <= idx < Z.of_nat MAX_SLOTS /\
  ((String.length sel <= 127)%nat -> (String.length sel' <= 127)%nat).
Proof.
  unfold update_and_get_slot_idx. cbv zeta.
  assert (length (take MAX_SLOTS (slots shm)) <= MAX_SLOTS)%nat by (rewrite length_firstn; lia).
  destruct (if String.eqb sel "" then None else find_slot _ _ 0) as [i|] eqn:E.
  - destruct (String.eqb sel ""); [done|]. apply find_slot_range in E. split; [lia | done].
  - destruct (find_slot (fun c => _ && negb _) _ 0) as [i|] eqn:E2.
    + apply find_slot_range in E2. split; [lia|]. intros _. apply strn_length.
    + split; [unfold MAX_SLOTS; lia | done].
Qed.

Lemma ui_look_calm u :
  calm u (ui_look t u).1.1.1 /\ -1 <= (ui_look t u).2 < Z.of_nat MAX_SLOTS.
Proof.
  assert (-1 <= -1 < Z.of_nat MAX_SLOTS) by (unfold MAX_SLOTS; lia).
  unfold ui_look. destruct (shm_ptr (conn u)) as [shm|]; [|by split].
  destruct (negb _); [by split|]. pose proof (ui_heartbeat_calm shm u) as Hc. cbv zeta.
  set (u1 := ui_heartbeat t shm u) in *. destruct (shm_ptr (conn u1)) as [snap|]; [|by split].
  destruct (_ && _); [|by split].
  pose proof (update_idx_range (selected_dev_path u1) snap) as Hi.
  destruct (update_and_get_slot_idx _ snap) as [sel idx]. destruct Hi as [Hi Hp]. split; [|done].
  etransitivity; [exact Hc|]. split; [by split|]. unfold screens_ok. cbn. cbv [constant]. intuition.
Qed.

Lemma render_notification_calm u : calm u (render_notification t u).1.
Proof. unfold render_notification. repeat case_match; by split. Qed.
Lemma ui_waited_calm u : calm u (ui_waited t u).
Proof. unfold ui_waited. case_match; by split. Qed.

Lemma ui_turn_ok u u' acts :
  ui_ok u -> ui_turn sizeof_shared_data t u = Some (u', acts) -> ui_ok u'.
Proof.
  intros Hu. unfold ui_turn. destruct (negb _); [intros [= <- <-]; by apply (calm_ok u)|].
  set (u0 := u {{ was_insane := false }}).
  assert (calm u (ui_reconnect sizeof_shared_data t u0)) as H0
    by (etransitivity; [|apply ui_reconnect_calm]; by split).
  pose proof (proj1 (ui_look_calm (ui_reconnect sizeof_shared_data t u0))) as H1.
  destruct (ui_look t _) as [[[u1 snap] alive] idx]. cbn [fst] in H1.
  pose proof (render_notification_calm u1) as H2. destruct (render_notification t u1) as [u2 shown].
  cbn [fst] in H2. apply ui_key_ok. eapply calm_ok; [|exact Hu].
  etransitivity; [exact H0|]. etransitivity; [exact H1|]. etransitivity; [exact H2|]. apply ui_waited_calm.
Qed.
End ok.

(** ** Slot commands keep the configuration in range *)

Lemma keybind_keeps c phy log :
  0 <= log < LOGICAL_BTN_COUNT ->
  slot_kept c (c {{ keymap := aset (keymap c) phy (u8 log); led_dirty := true }}).
Proof.
  intros Hl. split; [|by split]. intros (C1 & C2 & C3 & C4 & C5 & C6 & C7 & C8). do 7 (split; [assumption|]).
  apply keymap_ok_aset; [exact C8|]. unfold LOGICAL_BTN_COUNT in *. rewrite u8_small by lia. lia.
Qed.

Lemma set_color_keeps c r g b : slot_kept c (set_color c r g b).
Proof.
  split; [|by split]. intros H. pose proof (scan_color_u8 r g b c H) as (C1 & C2 & C3 & C4 & C5 & C6 & C7 & C8).
  split; [exact C1|]. split; [exact C2|]. do 3 (split; [assumption|]).
  split; [by unfold LEDFX_COUNT|]. split; [exact C7 | exact C8].
Qed.

Lemma sensitivity_keeps c preset :
  slot_kept c (apply_sensitivity_preset_left c preset) /\
  slot_kept c (apply_sensitivity_preset_right c preset).
Proof.
  unfold apply_sensitivity_preset_left, apply_sensitivity_preset_right.
  destruct (_ || _) eqn:E; [split; apply slot_kept_refl|]. zprop.
  assert (0 <= u8 preset < SENS_PRESET_COUNT) as Hu
    by (unfold SENS_PRESET_COUNT in *; rewrite u8_small by lia; lia).
  split; (destruct (negb _); [|apply slot_kept_refl]);
    (split; [intros (?&?&?&?&?&?&?&?); repeat (split; [assumption|]); assumption | by split]).
Qed.

Lemma percent_keeps set c arg :
  (forall v, 0 <= v <= 100 -> slot_kept c (set v c)) -> slot_kept c (tui_percent set c arg).1.
Proof.
  intros H. unfold tui_percent. cbv zeta. destruct (_ && _) eqn:E; [|apply slot_kept_refl]. zprop.
  cbn [fst]. rewrite u8_small by lia. apply H. lia.
Qed.
Ltac percent_kept :=
  apply percent_keeps; intros v Hv; (split; [|by split]);
  intros (C1 & C2 & C3); (split; [exact C1|]); (split; [|exact C3]);
  repeat match goal with H : Forall _ (_ :: _) |- _ => apply Forall_cons_1 in H as [? H] end;
  forall_list; first [assumption | exact Hv].

Lemma pled_keeps c arg : slot_kept c (tui_pled c arg).1.
Proof.
  unfold tui_pled. cbv zeta. destruct (negb _); [apply slot_kept_refl|].
  destruct (_ && _) eqn:E; [|apply slot_kept_refl]. zprop. cbn [fst]. split; [|by split].
  intros (C1 & C2 & C3 & C4). split; [exact C1|]. split; [exact C2|]. split; [|exact C4].
  assert (0 <= u8 (atoi arg) <= 5) as Hu by (rewrite u8_small by lia; lia). exact Hu.
Qed.

Lemma fixed_keeps : Forall (fun p => forall c, slot_kept c (snd p c).1) fixed_commands.
Proof.
  unfold fixed_commands, tui_layout. forall_list; cbn [snd]; intros c; try case_match;
    (split; [exact (fun H => H) | by split]).
Qed.
Lemma prefix_keeps : Forall (fun p => forall c arg, slot_kept c (snd p c arg).1) prefix_commands.
Proof.
  unfold prefix_commands. forall_list; cbn [snd]; intros c arg.
  - unfold tui_sensitivity. cbv zeta. case_match; [apply (sensitivity_keeps c _) | apply slot_kept_refl].
  - unfold tui_sensitivity. cbv zeta. case_match; [apply (sensitivity_keeps c _) | apply slot_kept_refl].
  - unfold tui_keybind. destruct (scan_ints arg) as [|p [|l rest]]; try apply slot_kept_refl.
    destruct (_ && _) eqn:E; [|apply slot_kept_refl]. zprop. apply keybind_keeps. lia.
  - percent_kept.
  - percent_kept.
  - apply pled_keeps.
  - destruct (scan_color arg) as [[[r g] b]|]; [apply set_color_keeps | apply slot_kept_refl].
Qed.

(** The numbers of a [ledfx] line that are given are a speed and a brightness. *)
Definition ledfx_arg_ok (arg : string) : Prop :=
  match scan_ints arg with
  | _ :: rest =>
      match rest with s :: _ => 1 <= u8 s <= 10 | [] => True end /\
      match rest with _ :: b :: _ => u8 b <= 100 | _ => True end
  | [] => True
  end.

Lemma ledfx_keeps c arg : ledfx_arg_ok arg -> slot_kept c (tui_ledfx c arg).1.
Proof.
  unfold ledfx_arg_ok, tui_ledfx. destruct (scan_ints arg) as [|e rest]; [intros; apply slot_kept_refl|].
  cbv zeta. set (sp := match rest with [] => 5 | s :: _ => s end).
  set (br := match rest with _ :: b :: _ => b | _ => 80 end). intros [Hs Hb].
  assert (1 <= u8 sp <= 10) as Hsp by (unfold sp; destruct rest; [by vm_compute | done]).
  assert (0 <= u8 br <= 100) as Hbr.
  { split; [apply u8_range|]. unfold br. destruct rest as [|x [|y rest]]; [by vm_compute | by vm_compute | done]. }
  clearbody sp br. destruct (_ && _) eqn:E; [|apply slot_kept_refl]. zprop.
  destruct (Z.eqb_spec e 0); cbn [fst]; (split; [|by split]); intros (C1 & C2 & C3 & C4 & C5 & C6 & C7 & C8).
  - split; [|by repeat (split; [assumption|])].
    repeat match goal with H : Forall _ (_ :: _) |- _ => apply Forall_cons_1 in H as [? H] end.
    forall_list; assumption.
  - split; [exact C1|]. split.
    + repeat match goal with H : Forall _ (_ :: _) |- _ => apply Forall_cons_1 in H as [? H] end.
      forall_list; first [assumption | exact Hbr].
    + do 3 (split; [assumption|]). split; [exact (effect_byte e ltac:(split; assumption))|]. split; [exact Hsp | exact C8].
Qed.

(** The argument of the line, if it is a [ledfx] line. *)
Definition ledfx_line_ok (line : string) : Prop :=
  String.prefix "ledfx" line = true -> ledfx_arg_ok (after 5 line).

Lemma find_prefix_keeps (l : list (string * (controller_t -> string -> tui_result))) line :
  Forall (fun p => forall c arg, slot_kept c (snd p c arg).1) l ->
  forall f c, find_prefix l line = Some f -> slot_kept c (f c).1.
Proof.
  intros Hl f c. unfold find_prefix. destruct (find (fun p => String.prefix (fst p) line) l) as [p|] eqn:E; [|done]. intros [= <-].
  apply find_some in E as [Hin _]. rewrite List.Forall_forall in Hl. by apply Hl.
Qed.

Lemma late_prefix_keeps line f c :
  ledfx_line_ok line -> find_prefix late_prefix_commands line = Some f -> slot_kept c (f c).1.
Proof.
  intros Hok. unfold find_prefix, late_prefix_commands. cbn [find fst].
  destruct (String.prefix "ledfx" line) eqn:E1.
  - intros [= <-]. cbn [fst snd]. by apply ledfx_keeps, Hok.
  - destruct (String.prefix "brightness " line); [|done]. intros [= <-]. cbn [fst snd]. percent_kept.
Qed.

Lemma tui_slot_command_keeps line c : ledfx_line_ok line -> slot_kept c (tui_slot_command line c).1.
Proof.
  intros Hok. unfold tui_slot_command.
  destruct (find _ fixed_commands) as [p|] eqn:E1.
  { apply find_some in E1 as [Hin _]. pose proof fixed_keeps as H. rewrite List.Forall_forall in H. by apply H. }
  destruct (find_prefix prefix_commands line) as [f|] eqn:E2; [by eapply find_prefix_keeps; [apply prefix_keeps|]|].
  destruct (is_hex_color line).
  - destruct (scan_color line) as [[[r g] b]|]; [apply set_color_keeps | apply slot_kept_refl].
  - destruct (find_prefix late_prefix_commands line) as [f|] eqn:E3;
      [by eapply late_prefix_keeps | apply slot_kept_refl].
Qed.

(** ** Arrows *)

(** From [i] on, an arrow reads outside the copy exactly when it goes left from
    no controller and none of the slots it looks at is connected. *)
Lemma arrow_loop_none n i s idx step u :
  -1 <= idx < Z.of_nat MAX_SLOTS -> step = 1 \/ step = -1 -> 1 <= i ->
  i + Z.of_nat n = Z.of_nat MAX_SLOTS + 1 ->
  arrow_loop n i (Some s) idx step u = None <->
  step = -1 /\ idx = -1 /\ (0 < n)%nat /\
  forall j, 0 <= j < Z.of_nat MAX_SLOTS - i -> connected (get_slot s j) = false.
Proof.
  unfold MAX_SLOTS. intros Hidx Hst. revert i. induction n as [|n IH]; intros i Hi Hn; cbn [arrow_loop].
  { split; [done | lia]. }
  cbn [mbind option_bind]. change (Z.of_nat 4) with 4 in *. set (j := Z.rem _ _).
  change (Z.of_nat MAX_SLOTS) with 4 in j.
  destruct (Z.ltb_spec j 0) as [Hj|Hj].
  - split; [|done]. intros _. destruct (decide (0 <= idx + step * i + 4)).
    { exfalso. unfold j in Hj. pose proof (Z.rem_nonneg (idx + step * i + 4) 4). lia. }
    destruct Hst as [-> | ->]; [lia|]. split; [done|]. split; [lia|]. split; [lia|]. intros k Hk. lia.
  - destruct (connected (get_slot s j)) eqn:Ec.
    + split; [done|]. intros (-> & -> & _ & H). rewrite H in Ec; [done|].
      unfold j in *. destruct (decide (i = 4)) as [->|]; [done|].
      rewrite Z.rem_small by lia. lia.
    + rewrite IH by lia. split; intros (-> & -> & ? & H); (do 2 (split; [done|])).
      * split; [lia|]. intros k Hk. destruct (decide (k = 3 - i)) as [->|]; [|apply H; lia].
        unfold j in Ec. rewrite Z.rem_small in Ec by lia. by replace (-1 + -1 * i + 4) with (3 - i) in Ec by lia.
      * assert (i < 4). { destruct (decide (i = 4)) as [->|]; [done | lia]. }
        split; [lia|]. intros k Hk. apply H. lia.
Qed.

(** * Properties *)

(** C29: the state of the interface stays well formed over any run, whatever is
    typed and whatever the daemon does: the line never outgrows its buffer, holds
    printable characters only and is terminated, the help page exists, and the
    texts fit their arrays. *)
Theorem tui_well_formed sizeof_shared_data l u u' acts :
  ui_ok u -> run_ui_loop sizeof_shared_data l u = Some (u', acts) -> ui_ok u'.
Proof.
  revert u u' acts. induction l as [|t l IH]; intros u u' acts Hu; cbn [run_ui_loop]; [by intros [= <- <-]|].
  destruct (negb (keep_running u)); [by intros [= <- <-]|].
  destruct (ui_turn sizeof_shared_data t u) as [[u1 a]|] eqn:E1; [|done]. cbn [mbind option_bind].
  destruct (run_ui_loop sizeof_shared_data l u1) as [[u2 b]|] eqn:E2; [|done]. intros [= <- <-].
  eapply IH; [|exact E2]. by eapply ui_turn_ok.
Qed.

Lemma ui_start_ok c now : ui_ok (ui_start c now).
Proof.
  apply (fresh_line_ok (ui_start c now)). split; [by vm_compute|]. split; cbn; lia.
Qed.

(** A turn that finds no daemon, with the given bytes on the terminal. *)
Definition quiet_turn (input : list ascii) : ui_turn_input :=
  mk_turn None (fun _ => mk_timeval 9 0) (9, 0) (mk_connect_env (-1) None None (fun _ shm => shm) (fun _ => (0, 0)))
    (fun _ => (0, 0)) (fun shm => shm) (fun _ => true) (fun _ => true) (fun shm => shm) (fun _ shm => shm)
    input false false (fun _ => false) (fun _ => false) (mk_conn None (-1)) EmptyString EmptyString.
Definition keys (s : string) : list ui_turn_input :=
  map (fun c => quiet_turn [c]) (list_ascii_of_string s).
Definition offline : ui_state := ui_start (mk_conn None (-1)) (mk_timeval 9 0).

Example tui_well_formed_witness :
  exists u acts, run_ui_loop 1 (keys "help") offline = Some (u, acts) /\
    text_of (cmd_line u) = "help"%string /\ ui_ok u.
Proof.
  destruct (run_ui_loop 1 (keys "help") offline) as [[u acts]|] eqn:E; [|exfalso; revert E; by vm_compute].
  exists u, acts. split; [done|]. split; [revert E; vm_compute; by intros [= <- <-]|].
  exact (tui_well_formed 1 (keys "help") offline u acts (ui_start_ok _ _) E).
Defined.

(** C30: a key press is handled without a read outside the copy of the memory, but
    for one: the left arrow when no controller is shown and none of the first
    three slots is connected computes the slot number -1. *)
Theorem tui_left_arrow_out_of_bounds t s idx u :
  -1 <= idx < Z.of_nat MAX_SLOTS ->
  ui_key t (Some s) idx u = None <->
  help_mode u = false /\ info_mode u = false /\ list_mode u = false /\ shm_ptr (conn u) <> None /\
  (exists c a b rest, t_input t = c :: a :: b :: rest /\ chr c = ESC /\ chr b = 68) /\
  idx = -1 /\ (forall j, 0 <= j < 3 -> connected (get_slot s j) = false).
Proof.
  intros Hidx. unfold ui_key. destruct (t_input t) as [|c input] eqn:Ei;
    [split; [done | intros (_ & _ & _ & _ & (? & ? & ? & ? & ? & _) & _); done]|].
  destruct (help_mode u); [by split; [|intros (? & _)]|].
  destruct (info_mode u); [by split; [|intros (_ & ? & _)]|].
  destruct (list_mode u); [by split; [|intros (_ & _ & ? & _)]|].
  destruct (Z.eqb_spec (chr c) ESC) as [Hc|Hc].
  2:{ split; [by repeat case_match|].
      intros (_ & _ & _ & _ & (x & y & z & r & E & Hx & _) & _). congruence. }
  unfold key_escape. destruct input as [|a [|b rest]]; cbn [read_seq].
  1,2: split; [done|]; intros (_ & _ & _ & _ & (? & ? & ? & ? & ? & _) & _); done.
  destruct (Z.eqb_spec (chr b) 68) as [Hb|Hb].
  - rewrite Hb. cbn [Z.eqb Pos.eqb orb]. destruct (shm_ptr (conn u)); [|by split; [|intros (_ & _ & _ & ? & _)]].
    pose proof (arrow_loop_none 4 1 s idx (-1) u Hidx ltac:(by right) ltac:(lia) ltac:(unfold MAX_SLOTS; lia)) as H.
    change MAX_SLOTS with 4%nat. destruct (arrow_loop 4 1 (Some s) idx (-1) u) as [u'|]; cbn [mbind option_bind].
    + split; [done|]. intros (_ & _ & _ & _ & _ & Hi & Hs).
      enough (Some u' = None) by done. apply H. split; [done|]. split; [done|]. split; [lia | exact Hs].
    + split; [|done]. intros _. destruct (proj1 H eq_refl) as (_ & Hi & _ & Hs). do 4 (split; [done|]).
      split; [by exists c, a, b, rest|]. by split.
  - split.
    + destruct (chr b =? 67) eqn:E; cbn [orb]; [|by destruct (Z.eqb_spec (chr b) 68)].
      destruct (shm_ptr (conn u)); [|done].
      pose proof (arrow_loop_none 4 1 s idx 1 u Hidx ltac:(by left) ltac:(lia) ltac:(unfold MAX_SLOTS; lia)) as H.
      change MAX_SLOTS with 4%nat. destruct (arrow_loop 4 1 (Some s) idx 1 u); [done|].
      by destruct (proj1 H eq_refl).
    + intros (_ & _ & _ & _ & (x & y & z & r & E & _ & Hx) & _). congruence.
Qed.

Definition left_arrow : list ascii := [ascii_of_nat 27; "["; "D"]%char.

Example tui_left_arrow_out_of_bounds_witness :
  ui_key (quiet_turn left_arrow) (Some (two_pads {{ slots := repeat zero_controller MAX_SLOTS }})) (-1)
    (ui_start (mk_conn (Some two_pads) 3) (mk_timeval 9 0)) = None /\
  ui_key (quiet_turn left_arrow) (Some two_pads) 1 (ui_start (mk_conn (Some two_pads) 3) (mk_timeval 9 0)) <> None.
Proof.
  split.
  - apply tui_left_arrow_out_of_bounds; [unfold MAX_SLOTS; lia|]. do 3 (split; [done|]). split; [done|].
    split; [by exists (ascii_of_nat 27), "["%char, "D"%char, []|]. split; [done|].
    intros j Hj. assert (j = 0 \/ j = 1 \/ j = 2) as [-> | [-> | ->]] by lia; done.
  - intros H. apply tui_left_arrow_out_of_bounds in H; [|unfold MAX_SLOTS; lia]. by destruct H as (_ & _ & _ & _ & _ & ? & _).
Defined.

(** No line typed for a slot puts its configuration out of range, connects or
    disconnects it or changes its path or type, but [ledfx] with a speed or a brightness
    out of range, which are stored as bytes without a check. *)
Theorem tui_keeps_config_ok line c :
  (String.prefix "ledfx" line = true -> ledfx_arg_ok (after 5 line)) ->
  let c' := (tui_slot_command line c).1 in
  (config_ok c -> config_ok c') /\ same_life c c'.
Proof. apply tui_slot_command_keeps. Qed.

Definition demo_pad : controller_t :=
  slot_config_to_controller (default_slot_config (repeat 0 18)) (zero_controller {{ connected := true }}).
Lemma demo_pad_ok : config_ok demo_pad.
Proof.
  unfold config_ok. replace (controller_to_slot_config demo_pad) with (default_slot_config (repeat 0 18))
    by (vm_compute; reflexivity). exact default_cfg_ok.
Qed.

(** The brightness 200 of the last line is stored. *)
Example tui_keeps_config_ok_witness :
  config_ok (tui_slot_command "ledfx 3 7" demo_pad).1 /\
  led_request_brightness (tui_slot_command "ledfx 3 7 200" demo_pad).1 = 200 /\
  ~ config_ok (tui_slot_command "ledfx 3 7 200" demo_pad).1.
Proof.
  split; [|split; [vm_compute; reflexivity|]].
  - refine (proj1 (tui_keeps_config_ok "ledfx 3 7" demo_pad _) demo_pad_ok).
    intros _. vm_compute. repeat split; discriminate.
  - intros (_ & H & _). rewrite List.Forall_forall in H. specialize (H 200 ltac:(vm_compute; tauto)). cbn in H. lia.
Defined.
