(* ===== verification/Frontends.v ===== *)
(** * The three front ends against one specification

    A change of a setting is a [request]; [apply_request] says what it means for
    the slot.  The command line ([commands.c]), the terminal ([ui.c]) and the
    D-Bus service ([dbus-handlers.c]) each have their own words for it and their
    own code; the theorems say that they implement the specification, and where
    they do not do the same. *)

From S2P Require Import Prelude Float Types Sys Keys Axes Utils Led Settings Commands Bridge Bus Handles Handlers Display Tui.
From Stdlib Require Import Ascii.
Local Open Scope Z_scope.

(** ** The specification *)

Inductive request : Set :=
| SetColor (r g b : Z) | SetEmulation (v : bool) | SetUhid (v : bool) | SetKeybind (phy log : Z)
| ResetKeybinds | SetInvertLy (v : bool) | SetInvertRy (v : bool)
| SetSensitivityLeft (preset : Z) | SetSensitivityRight (preset : Z) | SetTriggersDigital (v : bool)
| SetEffect (effect speed brightness : Z) | SetBrightness (v : Z) | SetDeadzone (v : Z) | SetGain (v : Z)
| SetRumble (v : bool) | SetDebounce (v : bool) | SetReapply (v : bool) | SetPlayerLeds (mode : Z)
| SwitchLayout | XboxLayout.

(** An effect asked for, for the daemon to start, and a light that is static. *)
Definition effect_asked (effect speed brightness : Z) (c : controller_t) : controller_t :=
  c {{ led_static := false; led_request_effect := effect; led_request_speed := speed;
       led_request_brightness := brightness; led_request_pending := true }}.
Definition made_static (c : controller_t) : controller_t :=
  c {{ led_static := true; led_request_pending := false;
       led_r := led_base_r c; led_g := led_base_g c; led_b := led_base_b c; led_dirty := true }}.

Definition apply_request (q : request) (c : controller_t) : controller_t :=
  match q with
  | SetColor r g b =>
      c {{ led_base_r := r; led_base_g := g; led_base_b := b; led_r := r; led_g := g; led_b := b;
           led_static := true; led_request_pending := false; led_dirty := true }}
  | SetEmulation v => c {{ emulate_active := v }}
  | SetUhid v => c {{ is_uhid := v; emulate_active := true }}
  | SetKeybind phy log => c {{ keymap := aset (keymap c) phy log; led_dirty := true }}
  | ResetKeybinds => c {{ request_reset_all_keybinds := true }}
  | SetInvertLy v => c {{ invert_ly := v }}
  | SetInvertRy v => c {{ invert_ry := v }}
  | SetSensitivityLeft preset => c {{ sensitivity_left_preset := preset }}
  | SetSensitivityRight preset => c {{ sensitivity_right_preset := preset }}
  | SetTriggersDigital v => c {{ is_trigger_digital := v }}
  | SetEffect effect speed brightness =>
      if effect =? 0 then made_static c else effect_asked effect speed brightness c
  | SetBrightness v => c {{ global_led_brightness := v; led_dirty := true }}
  | SetDeadzone v => c {{ deadzone := v }}
  | SetGain v => c {{ rumble_gain := v }}
  | SetRumble v =>
      let c := c {{ rumble_active := v }} in
      if v then c else c {{ rumble_strong := 0; rumble_weak := 0; rumble_dirty := true }}
  | SetDebounce v => c {{ debounce_enabled := v }}
  | SetReapply v => c {{ led_reapply := v }}
  | SetPlayerLeds mode => c {{ player_leds := mode; led_dirty := true }}
  | SwitchLayout => c {{ request_switch_layout := true }}
  | XboxLayout => c {{ request_xbox_layout := true }}
  end.

(** The values a request may have for a controller, as the help and the README
    give them. *)
Definition request_ok (q : request) (c : controller_t) : Prop :=
  match q with
  | SetColor r g b => 0 <= r < 256 /\ 0 <= g < 256 /\ 0 <= b < 256
  | SetKeybind phy log => 0 <= phy < Z.of_nat PHY_BTN_COUNT /\ 0 <= log < LOGICAL_BTN_COUNT
  | SetSensitivityLeft p | SetSensitivityRight p => 0 <= p < SENS_PRESET_COUNT
  | SetEffect e s b => 0 <= e < LEDFX_COUNT /\ 1 <= s <= 10 /\ 0 <= b <= 100
  | SetBrightness v | SetDeadzone v | SetGain v => 0 <= v <= 100
  | SetPlayerLeds mode => 0 <= mode <= 5 /\ ctype c = TYPE_DUALSENSE
  | SwitchLayout | XboxLayout => ctype c = TYPE_NSW_PRO
  | _ => True
  end.

(** ** The words of each front end *)

Definition digit_char (d : Z) : ascii := ascii_of_nat (48 + Z.to_nat d).
(** A number below 1000 in decimal. *)
Definition dec (v : Z) : string :=
  if v <? 10 then String (digit_char v) ""
  else if v <? 100 then String (digit_char (v / 10)) (String (digit_char (v mod 10)) "")
  else String (digit_char (v / 100))
         (String (digit_char (v / 10 mod 10)) (String (digit_char (v mod 10)) "")).
Definition hex_char (d : Z) : ascii :=
  ascii_of_nat (if d <? 10 then 48 + Z.to_nat d else 87 + Z.to_nat d).
Definition hex2 (v : Z) (rest : string) : string := String (hex_char (v / 16)) (String (hex_char (v mod 16)) rest).
Definition hex_color (r g b : Z) : string := hex2 r (hex2 g (hex2 b "")).
Definition on_off (v : bool) : string := if v then "on" else "off".

(** A command of [commands.c] and its words. *)
Definition cli_words (q : request) : string * list string :=
  (match q with
  | SetColor r g b => ("color", [hex_color r g b])
  | SetEmulation v => ("emulation", [on_off v])
  | SetUhid v => ("uhid", [on_off v])
  | SetKeybind phy log => ("keybind", [dec phy; dec log])
  | ResetKeybinds => ("reset-keybinds", [])
  | SetInvertLy v => ("invert", ["ly"; on_off v])
  | SetInvertRy v => ("invert", ["ry"; on_off v])
  | SetSensitivityLeft p => ("sensitivity", ["left"; dec p])
  | SetSensitivityRight p => ("sensitivity", ["right"; dec p])
  | SetTriggersDigital v => ("triggers-digital", [on_off v])
  | SetEffect e s b => ("ledfx", [dec e; dec s; dec b])
  | SetBrightness v => ("brightness", [dec v])
  | SetDeadzone v => ("deadzone", [dec v])
  | SetGain v => ("gain", [dec v])
  | SetRumble v => ("rumble", [on_off v])
  | SetDebounce v => ("debounce", [on_off v])
  | SetReapply v => ("reapply", [on_off v])
  | SetPlayerLeds mode => ("pled", [dec mode])
  | SwitchLayout => ("layout", ["switch"])
  | XboxLayout => ("layout", ["xbox"])
  end)%string.

(** The line of the terminal: the words of the command line, with spaces. *)
Definition tui_line (q : request) : string :=
  let (name, args) := cli_words q in String.concat " " (name :: args).

(** The call on the bus. *)
Definition bus_method (q : request) (slot : Z) : string * list dbus_value :=
  let s := DByte slot in
  (match q with
  | SetColor r g b => ("SetLED", [s; DByte r; DByte g; DByte b])
  | SetEmulation v => ("SetEmulate", [s; DBool v])
  | SetUhid v => ("SetUHID", [s; DBool v])
  | SetKeybind phy log => ("SetKeybind", [s; DByte phy; DByte log])
  | ResetKeybinds => ("ResetAllKeybinds", [s])
  | SetInvertLy v => ("SetInvertLY", [s; DBool v])
  | SetInvertRy v => ("SetInvertRY", [s; DBool v])
  | SetSensitivityLeft p => ("SetSensitivityPresetLeft", [s; DByte p])
  | SetSensitivityRight p => ("SetSensitivityPresetRight", [s; DByte p])
  | SetTriggersDigital v => ("SetTriggersDigital", [s; DBool v])
  | SetEffect e sp b => ("SetEffect", [s; DByte e; DByte sp; DByte b])
  | SetBrightness v => ("SetGlobalBrightness", [s; DByte v])
  | SetDeadzone v => ("SetDeadzone", [s; DByte v])
  | SetGain v => ("SetGain", [s; DByte v])
  | SetRumble v => ("SetRumbleActive", [s; DBool v])
  | SetDebounce v => ("SetDebounce", [s; DBool v])
  | SetReapply v => ("SetLEDReapply", [s; DBool v])
  | SetPlayerLeds mode => ("SetPlayerLEDs", [s; DByte mode])
  | SwitchLayout => ("ApplySwitchLayout", [s])
  | XboxLayout => ("ApplyXboxLayout", [s])
  end)%string.

(** What each front end makes of the slot. *)

(** The command line takes a brightness of 0 for one that is missing. *)
Definition cli_slot (q : request) (c : controller_t) : controller_t :=
  match q with
  | SetEffect e s b => apply_request (SetEffect e s (if b =? 0 then 80 else b)) c
  | _ => apply_request q c
  end.

(** The terminal clears the effect with a colour and makes the light static with
    the player's. *)
Definition tui_slot (q : request) (c : controller_t) : controller_t :=
  match q with
  | SetColor _ _ _ => (apply_request q c) {{ led_request_effect := 0 }}
  | SetPlayerLeds _ => (apply_request q c) {{ led_static := true }}
  | _ => apply_request q c
  end.

(** The service leaves alone a mode that is the one asked for, and asks for the
    effect 0 like for any other. *)
Definition bus_slot (q : request) (c : controller_t) : controller_t :=
  match q with
  | SetUhid v => if Bool.eqb (is_uhid c) v then c else apply_request q c
  | SetRumble v => if Bool.eqb (rumble_active c) v then c else apply_request q c
  | SetEffect e s b => effect_asked e s b c
  | _ => apply_request q c
  end.

(** The requests all three carry out as the specification says. *)
Definition agreed (q : request) (c : controller_t) : bool :=
  match q with
  | SetColor _ _ _ => led_request_effect c =? 0
  | SetPlayerLeds _ => led_static c
  | SetUhid v => negb (Bool.eqb (is_uhid c) v) || emulate_active c
  | SetRumble v =>
      negb (Bool.eqb (rumble_active c) v) || v ||
      ((rumble_strong c =? 0) && (rumble_weak c =? 0) && rumble_dirty c)
  | SetEffect e _ b => negb (e =? 0) && negb (b =? 0)
  | _ => true
  end.

(** * Lemmas *)

(** A claim about the numbers below a bound, by trying them. *)
Lemma all_below (f : Z -> bool) n :
  forallb (fun k => f (Z.of_nat k)) (seq 0 n) = true -> forall v, 0 <= v < Z.of_nat n -> f v = true.
Proof.
  intros H v Hv. rewrite forallb_forall in H. specialize (H (Z.to_nat v)).
  rewrite Z2Nat.id in H by lia. apply H, in_seq. lia.
Qed.

Lemma atoi_dec v : 0 <= v < 256 -> atoi (dec v) = v.
Proof.
  intros Hv. apply Z.eqb_eq. apply (all_below (fun v => atoi (dec v) =? v) 256); [by vm_compute | exact Hv].
Qed.
(** Scanning a decimal stops at the space after it, or at the end. *)
Lemma scan_pairs v : 0 <= v < 18 -> forall w, 0 <= w < 19 ->
  scan_ints (dec v ++ " " ++ dec w) = [v; w].
Proof.
  intros Hv w Hw.
  pose (f := fun v w => match scan_ints (dec v ++ " " ++ dec w) with [a; b] => (a =? v) && (b =? w) | _ => false end).
  assert (f v w = true) as H.
  { pose proof (all_below (fun v => forallb (fun w => f v (Z.of_nat w)) (seq 0 19)) 18 ltac:(by vm_compute) v Hv) as H.
    cbv beta in H. exact (all_below (f v) 19 H w Hw). }
  unfold f in H. repeat case_match; try done. zprop. by subst.
Qed.
Lemma scan_triples e s b : 0 <= e < 9 -> 1 <= s <= 10 -> 0 <= b <= 100 ->
  scan_ints (" " ++ dec e ++ " " ++ dec s ++ " " ++ dec b) = [e; s; b].
Proof.
  intros He Hs Hb.
  pose (f := fun e s b => match scan_ints (" " ++ dec e ++ " " ++ dec s ++ " " ++ dec b) with
    [x; y; z] => (x =? e) && (y =? s) && (z =? b) | _ => false end).
  assert (f e s b = true) as H.
  { pose proof (all_below (fun e => forallb (fun s => forallb (fun b => f e (Z.of_nat s) (Z.of_nat b)) (seq 0 101))
      (seq 0 11)) 9 ltac:(by vm_compute) e ltac:(lia)) as H1. cbv beta in H1.
    pose proof (all_below (fun s => forallb (fun b => f e s (Z.of_nat b)) (seq 0 101)) 11 H1 s ltac:(lia)) as H2.
    cbv beta in H2. exact (all_below (f e s) 101 H2 b ltac:(lia)). }
  unfold f in H. repeat case_match; try done. zprop. by subst.
Qed.

Lemma hex_char_ok d : 0 <= d < 16 ->
  is_space (hex_char d) = false /\ (chr (hex_char d) =? 45) || (chr (hex_char d) =? 43) = false /\
  hex_digit (hex_char d) = Some d /\ isxdigit (hex_char d) = true.
Proof.
  intros Hd. pose proof (all_below (fun d => negb (is_space (hex_char d)) &&
    negb ((chr (hex_char d) =? 45) || (chr (hex_char d) =? 43)) &&
    match hex_digit (hex_char d) with Some x => x =? d | None => false end) 16 ltac:(by vm_compute) d Hd) as H.
  cbv beta in H. apply andb_prop in H as [H H3]. apply andb_prop in H as [H1 H2].
  apply negb_true_iff in H1, H2. split; [done|]. split; [done|]. unfold isxdigit.
  destruct (hex_digit (hex_char d)); [|done]. apply Z.eqb_eq in H3 as ->. done.
Qed.

Lemma scan_hex2_hex2 v rest : 0 <= v < 256 -> scan_hex2 (hex2 v rest) = Some (v, rest).
Proof.
  intros Hv. unfold hex2.
  assert (0 <= v / 16 < 16) as Ha by (split; [apply Z.div_pos; lia | apply Z.div_lt_upper_bound; lia]).
  assert (0 <= v mod 16 < 16) as Hb by (apply Z.mod_pos_bound; lia).
  destruct (hex_char_ok _ Ha) as (S1 & N1 & D1 & _). destruct (hex_char_ok _ Hb) as (_ & _ & D2 & _).
  unfold scan_hex2. cbn [skip_spaces]. rewrite S1, N1, D1. cbn [mbind option_bind]. rewrite D2.
  f_equal. f_equal. pose proof (Z.div_mod v 16). lia.
Qed.
Lemma scan_color_hex r g b : 0 <= r < 256 -> 0 <= g < 256 -> 0 <= b < 256 ->
  scan_color (hex_color r g b) = Some (r, g, b).
Proof.
  intros. unfold scan_color, hex_color. rewrite scan_hex2_hex2 by done. cbn [mbind option_bind].
  rewrite scan_hex2_hex2 by done. cbn [mbind option_bind]. by rewrite scan_hex2_hex2 by done.
Qed.

Lemma str_to_bool_on_off v : str_to_bool (on_off v) = v.
Proof. by destruct v. Qed.

Lemma substring_all t : substring 0 (String.length t) t = t.
Proof. induction t as [|c t IH]; [done|]. cbn [substring String.length]. by rewrite IH. Qed.
Lemma substring_app s t : substring (String.length s) (String.length t) (s ++ t) = t.
Proof. induction s as [|c s IH]; [apply substring_all | exact IH]. Qed.
Lemma string_length_app s t : String.length (s ++ t) = (String.length s + String.length t)%nat.
Proof. induction s as [|c s IH]; [done|]. exact (f_equal S IH). Qed.
Lemma after_app s t : after (String.length s) (s ++ t) = t.
Proof.
  unfold after. rewrite string_length_app. replace (_ + _ - _)%nat with (String.length t) by lia. apply substring_app.
Qed.

(** Storing what is there. *)
Lemma store_same_left c : c {{ sensitivity_left_preset := sensitivity_left_preset c }} = c.
Proof. reflexivity. Qed.
Lemma store_same_right c : c {{ sensitivity_right_preset := sensitivity_right_preset c }} = c.
Proof. reflexivity. Qed.
Lemma apply_left c p : 0 <= p < SENS_PRESET_COUNT ->
  apply_sensitivity_preset_left c p = c {{ sensitivity_left_preset := p }}.
Proof.
  unfold SENS_PRESET_COUNT. intros Hp. unfold apply_sensitivity_preset_left, SENS_PRESET_COUNT.
  replace ((p <? 0) || (8 <=? p)) with false by lia. rewrite u8_small by lia.
  destruct (Z.eqb_spec (sensitivity_left_preset c) p) as [<-|]; cbn [negb]; [by rewrite store_same_left | done].
Qed.
Lemma apply_right c p : 0 <= p < SENS_PRESET_COUNT ->
  apply_sensitivity_preset_right c p = c {{ sensitivity_right_preset := p }}.
Proof.
  unfold SENS_PRESET_COUNT. intros Hp. unfold apply_sensitivity_preset_right, SENS_PRESET_COUNT.
  replace ((p <? 0) || (8 <=? p)) with false by lia. rewrite u8_small by lia.
  destruct (Z.eqb_spec (sensitivity_right_preset c) p) as [<-|]; cbn [negb]; [by rewrite store_same_right | done].
Qed.

Lemma percent_cli set v c : 0 <= v <= 100 -> cmd_percent set c [dec v] = (set v c, 0).
Proof.
  intros Hv. unfold cmd_percent. rewrite atoi_dec, u8_small by lia. cbv zeta.
  by replace ((v <? 0) || (100 <? v)) with false by lia.
Qed.

(** What the command line does. *)
Lemma cli_implements q c : request_ok q c ->
  execute_slot_command c (cli_words q).1 (cli_words q).2 = (cli_slot q c, 0).
Proof.
  intros Hq. destruct q; cbn [cli_words fst snd] in *;
    unfold execute_slot_command; cbn [find slot_commands fst snd String.eqb Ascii.eqb Bool.eqb];
    cbn [request_ok apply_request cli_slot] in *.
  - destruct Hq as (? & ? & ?). unfold cmd_color. rewrite scan_color_hex, !u8_small by lia. done.
  - unfold cmd_emulation. by rewrite str_to_bool_on_off.
  - unfold cmd_uhid. by rewrite str_to_bool_on_off.
  - unfold cmd_keybind, LOGICAL_BTN_COUNT, PHY_BTN_COUNT in *. rewrite !atoi_dec by lia. cbv zeta.
    change (Z.of_nat 18) with 18 in *.
    replace ((phy <? 0) || (18 <=? phy) || (log <? 0) || (19 <=? log)) with false by lia. by rewrite u8_small by lia.
  - done.
  - unfold cmd_invert. cbn. by rewrite str_to_bool_on_off.
  - unfold cmd_invert. cbn. by rewrite str_to_bool_on_off.
  - unfold cmd_sensitivity. cbn -[dec atoi Z.leb Z.ltb SENS_PRESET_COUNT apply_sensitivity_preset_left]. rewrite !atoi_dec by (unfold SENS_PRESET_COUNT in *; lia).
    destruct (_ || _) eqn:E; [lia|]. by rewrite apply_left.
  - unfold cmd_sensitivity. cbn -[dec atoi Z.leb Z.ltb SENS_PRESET_COUNT apply_sensitivity_preset_right]. rewrite !atoi_dec by (unfold SENS_PRESET_COUNT in *; lia).
    destruct (_ || _) eqn:E; [lia|]. by rewrite apply_right.
  - unfold cmd_triggers_digital. by destruct v.
  - unfold cmd_ledfx, LEDFX_COUNT in *. cbv zeta. rewrite !atoi_dec by lia.
    replace ((effect <? 0) || (9 <=? effect)) with false by lia. rewrite !u8_small by lia.
    replace ((speed <? 1) || (10 <? speed)) with false by lia.
    replace ((brightness <? 1) || (100 <? brightness)) with (brightness =? 0) by lia.
    by destruct (effect =? 0).
  - unfold cmd_brightness. by rewrite percent_cli.
  - unfold cmd_deadzone. by rewrite percent_cli.
  - unfold cmd_gain. by rewrite percent_cli.
  - unfold cmd_rumble. by destruct v.
  - unfold cmd_debounce. by rewrite str_to_bool_on_off.
  - unfold cmd_reapply. by destruct v.
  - destruct Hq as [Hm Ht]. unfold cmd_pled. cbv zeta. rewrite !atoi_dec by lia. rewrite Ht, u8_small by lia.
    replace ((mode <? 0) || (5 <? mode)) with false by lia. done.
  - unfold cmd_layout. by rewrite Hq.
  - unfold cmd_layout. by rewrite Hq.
Qed.

(** A line that is a prefix of the table and its argument. *)
Ltac tui_prefixed f p arg :=
  match goal with |- context [tui_slot_command ?l ?c] =>
    change l with (p ++ arg)%string;
    assert (forall a, tui_slot_command (p ++ a) c = f c a) as ->
      by (intros a; transitivity (f c (after (String.length p) (p ++ a)));
          [by destruct a | by rewrite after_app])
  end.

Lemma percent_tui set v c : 0 <= v <= 100 -> tui_percent set c (dec v) = (set v c, true).
Proof.
  intros Hv. unfold tui_percent. rewrite atoi_dec, u8_small by lia. cbv zeta.
  by replace ((0 <=? v) && (v <=? 100)) with true by lia.
Qed.
Lemma sensitivity_tui apply p c : 0 <= p < SENS_PRESET_COUNT ->
  tui_sensitivity apply c (dec p) = (apply c p, true).
Proof.
  unfold SENS_PRESET_COUNT, tui_sensitivity. intros Hp. rewrite atoi_dec by lia. cbv zeta. unfold SENS_PRESET_COUNT.
  by replace ((0 <=? p) && (p <? 8)) with true by lia.
Qed.

Lemma not_hex_color s : is_hex_color (String "l" s) = false.
Proof. unfold is_hex_color. cbn [list_ascii_of_string forallb]. by rewrite andb_false_r. Qed.

Lemma tui_ledfx_line a c : tui_slot_command ("ledfx" ++ a) c = tui_ledfx c a.
Proof.
  pose proof (not_hex_color ("edfx" ++ a) : is_hex_color ("ledfx" ++ a) = false) as E.
  transitivity (if is_hex_color ("ledfx" ++ a) then tui_slot_command ("ledfx" ++ a) c
                else tui_ledfx c (after (String.length "ledfx") ("ledfx" ++ a))).
  - unfold tui_slot_command at 1. rewrite E. by destruct a.
  - by rewrite E, (after_app "ledfx" a).
Qed.

(** What the terminal does. *)
Lemma tui_implements q c : request_ok q c ->
  tui_slot_command (tui_line q) c = (tui_slot q c, true).
Proof.
  intros Hq. destruct q; unfold tui_line; cbn [cli_words String.concat]; cbn [request_ok] in Hq.
  - destruct Hq as (? & ? & ?).
    tui_prefixed (fun c arg => match scan_color arg with
      | Some (r, g, b) => (Tui.set_color c r g b, true) | None => (c, true) end) "color "%string (hex_color r g b).
    rewrite scan_color_hex by done. unfold Tui.set_color. by rewrite !u8_small by lia.
  - by destruct v.
  - by destruct v.
  - tui_prefixed tui_keybind "keybind "%string (dec phy ++ " " ++ dec log)%string.
    unfold tui_keybind, LOGICAL_BTN_COUNT, PHY_BTN_COUNT in *. change (Z.of_nat 18) with 18 in *.
    rewrite scan_pairs by lia.
    replace ((0 <=? phy) && (phy <? 18) && (0 <=? log) && (log <? 19)) with true by lia. by rewrite u8_small by lia.
  - done.
  - by destruct v.
  - by destruct v.
  - tui_prefixed (tui_sensitivity apply_sensitivity_preset_left) "sensitivity left "%string (dec preset).
    by rewrite sensitivity_tui, apply_left.
  - tui_prefixed (tui_sensitivity apply_sensitivity_preset_right) "sensitivity right "%string (dec preset).
    by rewrite sensitivity_tui, apply_right.
  - by destruct v.
  - change ("ledfx" ++ " " ++ dec effect ++ " " ++ dec speed ++ " " ++ dec brightness)%string
      with ("ledfx" ++ (" " ++ dec effect ++ " " ++ dec speed ++ " " ++ dec brightness))%string.
    rewrite tui_ledfx_line. unfold tui_ledfx, LEDFX_COUNT in *. rewrite scan_triples by lia. cbv zeta.
    replace ((0 <=? effect) && (effect <? 9)) with true by lia.
    rewrite !u8_small by lia. cbn [tui_slot apply_request]. by destruct (effect =? 0).
  - tui_prefixed (tui_percent (fun v c => c {{ global_led_brightness := v; led_dirty := true }}))
      "brightness "%string (dec v). by rewrite percent_tui.
  - tui_prefixed (tui_percent (fun v c => c {{ deadzone := v }})) "deadzone "%string (dec v). by rewrite percent_tui.
  - tui_prefixed (tui_percent (fun v c => c {{ rumble_gain := v }})) "gain "%string (dec v). by rewrite percent_tui.
  - by destruct v.
  - by destruct v.
  - by destruct v.
  - destruct Hq as [Hm Ht]. tui_prefixed tui_pled "pled "%string (dec mode).
    unfold tui_pled. cbv zeta. rewrite atoi_dec, Ht, u8_small by lia.
    by replace ((0 <=? mode) && (mode <=? 5)) with true by lia.
  - change (tui_layout c (c {{ request_switch_layout := true }}) = (c {{ request_switch_layout := true }}, true)).
    unfold tui_layout. by rewrite Hq.
  - change (tui_layout c (c {{ request_xbox_layout := true }}) = (c {{ request_xbox_layout := true }}, true)).
    unfold tui_layout. by rewrite Hq.
Qed.

Section bus.
Context (kernel : kernel_t) (answers : nat -> bool) `{B : DBus}
  (bus_call : string -> string -> string -> list dbus_value -> option dbus_message_t)
  (sizeof_shared_data : Z) (env : nat -> shared_data_t -> shared_data_t) (system : string -> Z).

Abbreviation handler := (message_handler kernel answers bus_call sizeof_shared_data env system).

Lemma call_handler msg w name h :
  dbus_message_get_interface msg = Some BRIDGE_INTERFACE -> dbus_message_get_member msg = Some name ->
  find (fun h => String.eqb (fst h) name) (methods kernel answers bus_call sizeof_shared_data env system) =
    Some (name, h) ->
  (handler msg w).2 = (h msg w).2.
Proof.
  intros Hi Hm Hf. unfold message_handler. rewrite Hi, Hm, String.eqb_refl, Hf. cbn [negb snd].
  monad_unfold. by destruct (h msg w).
Qed.

Lemma in_range_store slot f w :
  h_shm (open_shm_handle kernel sizeof_shared_data slot w).1 = true ->
  w_shm (in_range answers slot (store kernel answers sizeof_shared_data slot f) w).2 =
    put_slot (w_shm w) slot (f (get_slot (w_shm w) slot)).
Proof.
  intros Ho. destruct (store_writes kernel answers sizeof_shared_data slot f w Ho) as [Hs <-].
  unfold in_range. by destruct (Z.leb_spec (Z.of_nat MAX_SLOTS) slot); [lia|].
Qed.

(** What the service does. *)
Lemma bus_implements q slot msg w :
  request_ok q (get_slot (w_shm w) slot) ->
  dbus_message_get_interface msg = Some BRIDGE_INTERFACE ->
  dbus_message_get_member msg = Some (bus_method q slot).1 ->
  dbus_message_get_args msg (map type_of (bus_method q slot).2) = Some (bus_method q slot).2 ->
  h_shm (open_shm_handle kernel sizeof_shared_data slot w).1 = true ->
  w_shm (handler msg w).2 =
    put_slot (w_shm w) slot (bus_slot q (get_slot (w_shm w) slot)).
Proof.
  intros Hq Hi Hm Ha Ho. pose proof (in_range_store slot) as Hst.
  destruct q; cbn [bus_method fst snd map type_of] in Hm, Ha; cbn [request_ok] in Hq; cbn [bus_slot apply_request];
    (rewrite (call_handler _ _ _ _ Hi Hm eq_refl);
     cbv delta [handle_set_led handle_set_effect handle_set_gain handle_set_deadzone handle_set_global_brightness
       handle_set_player_leds handle_set_emulate handle_set_uhid handle_set_debounce handle_set_invert_ly
       handle_set_invert_ry handle_set_led_reapply handle_set_rumble_active handle_set_triggers_digital
       handle_set_sensitivity_preset_left handle_set_sensitivity_preset_right handle_set_keybind
       handle_reset_all_keybinds handle_apply_switch_layout handle_apply_xbox_layout set_byte set_flag set_slot] beta;
     rewrite Ha; cbv beta iota).
  all: try (rewrite Hst by assumption; reflexivity).
  - rewrite Hst by assumption. by destruct (Bool.eqb _ v).
  - unfold PHY_BTN_COUNT, LOGICAL_BTN_COUNT in *. change (Z.of_nat 18) with 18 in *.
    replace (18 <=? phy) with false by lia. replace (19 <=? log) with false by lia. by rewrite Hst.
  - unfold SENS_PRESET_COUNT in *. replace (8 <=? preset) with false by lia. by rewrite Hst.
  - unfold SENS_PRESET_COUNT in *. replace (8 <=? preset) with false by lia. by rewrite Hst.
  - replace (100 <? v) with false by lia. by rewrite Hst.
  - replace (100 <? v) with false by lia. by rewrite Hst.
  - replace (100 <? v) with false by lia. by rewrite Hst.
  - rewrite Hst by assumption. destruct (Bool.eqb _ v); [done | by destruct v].
  - replace (5 <? mode) with false by lia. by rewrite Hst.
Qed.
End bus.

(** ** Where they agree *)

Lemma effect_differs e s b c c' : effect_asked e s b c <> made_static c'.
Proof. intros H. discriminate (f_equal led_static H). Qed.

Lemma agreed_exactly q c :
  agreed q c = true <->
  cli_slot q c = apply_request q c /\ tui_slot q c = apply_request q c /\ bus_slot q c = apply_request q c.
Proof.
  destruct q; cbn [agreed cli_slot tui_slot bus_slot]; try done.
  - split; [|intros (_ & H & _); apply (f_equal led_request_effect) in H; by apply Z.eqb_eq].
    intros H. apply Z.eqb_eq in H. split; [done|]. split; [|done].
    cbn [apply_request]. transitivity (apply_request (SetColor r g b) (c {{ led_request_effect := 0 }})); [done|].
    by rewrite <- H.
  - destruct (Bool.eqb_spec (is_uhid c) v) as [E|]; cbn [negb orb]; [|done].
    cbn [apply_request]. split.
    + intros H. do 2 (split; [done|]). rewrite <- E, <- H. done.
    + intros (_ & _ & H). by apply (f_equal emulate_active) in H.
  - destruct (Z.eqb_spec effect 0) as [->|He]; cbn [negb andb].
    + split; [done|]. intros (_ & _ & H). by destruct (effect_differs _ _ _ _ _ H).
    + cbn [apply_request]. replace (effect =? 0) with false by lia.
      destruct (Z.eqb_spec brightness 0) as [->|]; cbn [negb]; [|done].
      split; [done|]. intros (H & _ & _). discriminate (f_equal led_request_brightness H).
  - destruct (Bool.eqb_spec (rumble_active c) v) as [E|]; cbn [negb orb]; [|done].
    cbn [apply_request]. destruct v; cbn [orb].
    + split; [|done]. intros _. do 2 (split; [done|]). rewrite <- E. done.
    + split.
      * intros H. apply andb_prop in H as [H H3]. apply andb_prop in H as [H1 H2].
        apply Z.eqb_eq in H1, H2. do 2 (split; [done|]).
        transitivity (c {{ rumble_active := rumble_active c; rumble_strong := rumble_strong c;
                           rumble_weak := rumble_weak c; rumble_dirty := rumble_dirty c }}); [done|].
        by rewrite H1, H2, H3, E.
      * intros (_ & _ & H). apply andb_true_intro. split; [|exact (f_equal rumble_dirty H)].
        apply andb_true_intro. split; apply Z.eqb_eq; [exact (f_equal rumble_strong H) | exact (f_equal rumble_weak H)].
  - split; [|intros (_ & H & _); exact (eq_sym (f_equal led_static H))].
    intros H. split; [done|]. split; [|done]. cbn [apply_request].
    transitivity (c {{ player_leds := mode; led_dirty := true; led_static := led_static c }}); [by rewrite H | done].
Qed.

(** What the daemon makes of an effect that was asked for: it starts it, and a
    brightness of 0 counts as one that is missing. *)
Definition effect_started (sec : float) (tv : timeval) (e s b : Z) (st : led_slot_state_t) : led_slot_state_t :=
  st {{ active := true; current_effect := e; speed := s; brightness := (if b =? 0 then 80 else b);
        start_time_sec := sec; last_write := tv; last_r := 0; last_g := 0; last_b := 0 }}.
Definition shows_base (c : controller_t) : Prop :=
  led_static c = true /\ led_request_pending c = false /\
  led_r c = led_base_r c /\ led_g c = led_base_g c /\ led_b c = led_base_b c.

Lemma effect_starts sec tv e s b c st :
  connected c = true -> 0 < e < LEDFX_COUNT -> 1 <= s <= 10 -> 0 <= b <= 100 ->
  (led_request_slot sec tv (effect_asked e s b c) st).2 = effect_started sec tv e s b st.
Proof.
  unfold LEDFX_COUNT. intros Hc He Hs Hb. unfold led_request_slot. 
  change (connected (effect_asked e s b c)) with (connected c). rewrite Hc. cbn [negb].
  change (led_request_pending (effect_asked e s b c)) with true. cbn [negb].
  change (led_request_effect (effect_asked e s b c)) with e.
  change (led_request_speed (effect_asked e s b c)) with s.
  change (led_request_brightness (effect_asked e s b c)) with b. cbv zeta.
  unfold MIN_SPEED, MAX_SPEED, MIN_BRIGHTNESS, MAX_BRIGHTNESS, LEDFX_COUNT.
  replace ((s <? 1) || (10 <? s)) with false by lia. replace ((b <? 1) || (100 <? b)) with (b =? 0) by lia.
  replace (e =? 0) with false by lia. by replace ((0 <? e) && (e <? 9)) with true by lia.
Qed.

Lemma effects_meet sec tv e s b c st :
  request_ok (SetEffect e s b) c -> connected c = true ->
  Forall (fun c' => let '(c', st') := led_request_slot sec tv c' st in
      if e =? 0 then shows_base c' else st' = effect_started sec tv e s b st)
    [cli_slot (SetEffect e s b) c; tui_slot (SetEffect e s b) c; bus_slot (SetEffect e s b) c].
Proof.
  intros (He & Hs & Hb) Hc. cbn [cli_slot tui_slot bus_slot apply_request]. destruct (Z.eqb_spec e 0) as [->|Hne].
  - forall_list; unfold led_request_slot.
    1-2: change (connected (made_static c)) with (connected c); rewrite Hc; by repeat split.
    change (connected (effect_asked 0 s b c)) with (connected c). rewrite Hc. by repeat split.
  - assert (forall b', 0 <= b' <= 100 -> (if b' =? 0 then 80 else b') = (if b =? 0 then 80 else b) ->
      let '(c', st') := led_request_slot sec tv (effect_asked e s b' c) st in
      st' = effect_started sec tv e s b st) as H.
    { intros b' Hb' E. pose proof (effect_starts sec tv e s b' c st Hc ltac:(lia) Hs Hb') as H.
      destruct (led_request_slot _ _ _ _). cbn [snd] in H. rewrite H. unfold effect_started. by rewrite E. }
    destruct (Z.eqb_spec b 0) as [->|Hb0]; forall_list; apply H; try lia; try done;
      by replace (b =? 0) with false by lia.
Qed.

(** The effect 0 of the command line and the terminal is not kept: the slot's
    configuration still names the effect that ran, so a slot that is given that
    configuration, as at the next start, asks for it again.  The service's is
    kept. *)
Lemma static_not_kept s b c c0 :
  1 <= led_request_effect c < LEDFX_COUNT ->
  (let c' := slot_config_to_controller (controller_to_slot_config (cli_slot (SetEffect 0 s b) c)) c0 in
   led_static c' = false /\ led_request_pending c' = true /\ led_request_effect c' = led_request_effect c) /\
  tui_slot (SetEffect 0 s b) c = cli_slot (SetEffect 0 s b) c /\
  led_static (slot_config_to_controller (controller_to_slot_config (bus_slot (SetEffect 0 s b) c)) c0) = true.
Proof.
  intros He. pose proof (to_uint8_small (led_request_effect c) ltac:(unfold LEDFX_COUNT in He; lia)) as E.
  split; [|split; [reflexivity | reflexivity]]. cbv zeta.
  split; [|split; [reflexivity | exact E]].
  change ((uint8_val (to_uint8 (led_request_effect c)) =? 0) = false). rewrite E. lia.
Qed.

(** * Properties *)

(** C16: the three front ends against one specification, for every setting and
    every value in the range the help and the README give it.  Each ends in
    exactly the slot [cli_slot], [tui_slot] and [bus_slot] say, and these are all
    three the specified slot if and only if the request is none of the
    exceptions of [agreed]: a colour while an effect is asked for (the terminal
    forgets the effect), the player's light while the light is not static (the
    terminal makes it static), a mode that is already the one asked for and whose
    other members are not what the command would store (the service leaves the
    slot alone), the effect 0 (which the service asks for like any other) and the
    effect brightness 0 (which only the command line replaces, by 80).  In the
    last two cases the daemon makes them meet again: after its next look at a
    connected slot the light shows the base colour, for effect 0, and else the
    same effect runs, with brightness 80 for a 0. *)
Theorem front_ends_agree kernel answers `{B : DBus} bus_call sizeof_shared_data env system q slot msg w :
  let c := get_slot (w_shm w) slot in
  request_ok q c ->
  dbus_message_get_interface msg = Some BRIDGE_INTERFACE ->
  dbus_message_get_member msg = Some (bus_method q slot).1 ->
  dbus_message_get_args msg (map type_of (bus_method q slot).2) = Some (bus_method q slot).2 ->
  h_shm (open_shm_handle kernel sizeof_shared_data slot w).1 = true ->
  execute_slot_command c (cli_words q).1 (cli_words q).2 = (cli_slot q c, 0) /\
  tui_slot_command (tui_line q) c = (tui_slot q c, true) /\
  w_shm (message_handler kernel answers bus_call sizeof_shared_data env system msg w).2 =
    put_slot (w_shm w) slot (bus_slot q c) /\
  (agreed q c = true <->
     cli_slot q c = apply_request q c /\ tui_slot q c = apply_request q c /\ bus_slot q c = apply_request q c) /\
  (forall e s b sec tv st, q = SetEffect e s b -> connected c = true ->
     Forall (fun c' => let '(c', st') := led_request_slot sec tv c' st in
         if e =? 0 then shows_base c' else st' = effect_started sec tv e s b st)
       [cli_slot q c; tui_slot q c; bus_slot q c]).
Proof.
  intros c Hq Hi Hm Ha Ho. split; [by apply cli_implements|]. split; [by apply tui_implements|].
  split; [by apply bus_implements|]. split; [apply agreed_exactly|].
  intros e s b sec tv st -> Hc. by apply effects_meet.
Qed.

Example front_ends_agree_witness :
  let c := get_slot (w_shm demo_world) 2 in
  execute_slot_command c "keybind" ["0"; "18"]%string = (apply_request (SetKeybind 0 18) c, 0) /\
  tui_slot_command "keybind 0 18" c = (apply_request (SetKeybind 0 18) c, true) /\
  w_shm (plain_handler (plain_call "SetKeybind" [DByte 2; DByte 0; DByte 18]) demo_world).2 =
    put_slot (w_shm demo_world) 2 (apply_request (SetKeybind 0 18) c) /\
  execute_slot_command c "ledfx" ["3"; "7"; "0"]%string = (cli_slot (SetEffect 3 7 0) c, 0) /\
  agreed (SetEffect 3 7 0) c = false.
Proof.
  intros c.
  destruct (front_ends_agree (B := plain_bus) good_kernel (fun _ => true) (fun _ _ _ _ => None) 1 (fun _ shm => shm)
    (fun _ => 0) (SetKeybind 0 18) 2 (plain_call "SetKeybind" [DByte 2; DByte 0; DByte 18]) demo_world
    ltac:(cbn [request_ok]; unfold PHY_BTN_COUNT, LOGICAL_BTN_COUNT; lia) eq_refl eq_refl eq_refl eq_refl)
    as (H1 & H2 & H3 & _).
  destruct (front_ends_agree (B := plain_bus) good_kernel (fun _ => true) (fun _ _ _ _ => None) 1 (fun _ shm => shm)
    (fun _ => 0) (SetEffect 3 7 0) 2 (plain_call "SetEffect" [DByte 2; DByte 3; DByte 7; DByte 0]) demo_world
    ltac:(cbn [request_ok]; unfold LEDFX_COUNT; lia) eq_refl eq_refl eq_refl eq_refl) as (H4 & _).
  split; [exact H1|]. split; [exact H2|]. split; [exact H3|]. split; [exact H4|]. reflexivity.
Defined.

(** The case of one percentage. *)
Ltac percent_differs Hp Hst Hi Hm Ha h p set v :=
  split; [by apply (Hp set)|]; split;
  [ unfold tui_line; cbn [cli_words String.concat]; tui_prefixed (tui_percent set) p (dec v); by apply (Hp set)
  | rewrite (call_handler _ _ _ _ _ _ _ _ _ _ Hi Hm eq_refl); unfold h, set_byte;
    cbn [bus_method fst snd map type_of] in Ha; rewrite Ha; cbv beta iota;
    replace (100 <? v) with true by lia; rewrite Hst by done; by replace (Z.min v 100) with 100 by lia ].

(** A setting in percent. *)
Definition percent_request (q : Z -> request) : Prop := q = SetBrightness \/ q = SetDeadzone \/ q = SetGain.

(** Out of range the front ends do not do the same.  A percentage above 100 is
    refused by the command line, ignored by the terminal and cut to 100 by the
    service; and the player's light of a controller that has none is refused by
    the first two and stored by the service. *)
Theorem front_ends_differ kernel answers `{B : DBus} bus_call sizeof_shared_data env system q v slot msg w :
  let c := get_slot (w_shm w) slot in
  dbus_message_get_interface msg = Some BRIDGE_INTERFACE ->
  dbus_message_get_member msg = Some (bus_method (q v) slot).1 ->
  dbus_message_get_args msg (map type_of (bus_method (q v) slot).2) = Some (bus_method (q v) slot).2 ->
  h_shm (open_shm_handle kernel sizeof_shared_data slot w).1 = true ->
  (percent_request q /\ 100 < v < 256) \/ (q = SetPlayerLeds /\ 0 <= v <= 5 /\ ctype c <> TYPE_DUALSENSE) ->
  execute_slot_command c (cli_words (q v)).1 (cli_words (q v)).2 = (c, 1) /\
  tui_slot_command (tui_line (q v)) c = (c, true) /\
  w_shm (message_handler kernel answers bus_call sizeof_shared_data env system msg w).2 =
    put_slot (w_shm w) slot (apply_request (q (Z.min v 100)) c).
Proof.
  intros c Hi Hm Ha Ho Hcase. pose proof (in_range_store kernel answers sizeof_shared_data slot) as Hst.
  assert (forall set, 100 < v < 256 -> cmd_percent set c [dec v] = (c, 1) /\ tui_percent set c (dec v) = (c, true)) as Hp.
  { intros set Hv. unfold cmd_percent, tui_percent. rewrite atoi_dec by lia. cbv zeta.
    replace ((v <? 0) || (100 <? v)) with true by lia. by replace ((0 <=? v) && (v <=? 100)) with false by lia. }
  destruct Hcase as [[[-> | [-> | ->]] Hv] | (-> & Hv & Ht)].
  - percent_differs Hp Hst Hi Hm Ha handle_set_global_brightness "brightness "%string
      (fun v c => c {{ global_led_brightness := v; led_dirty := true }}) v.
  - percent_differs Hp Hst Hi Hm Ha handle_set_deadzone "deadzone "%string (fun v c => c {{ deadzone := v }}) v.
  - percent_differs Hp Hst Hi Hm Ha handle_set_gain "gain "%string (fun v c => c {{ rumble_gain := v }}) v.
  - apply (bool_decide_eq_false_2 (ctype c = TYPE_DUALSENSE)) in Ht. split; [|split].
    + cbn [cli_words fst snd]. unfold execute_slot_command.
      cbn [find slot_commands fst snd String.eqb Ascii.eqb Bool.eqb]. unfold cmd_pled. cbv zeta.
      rewrite atoi_dec, Ht by lia. by replace ((v <? 0) || (5 <? v)) with false by lia.
    + unfold tui_line. cbn [cli_words String.concat]. tui_prefixed tui_pled "pled "%string (dec v).
      unfold tui_pled. by rewrite Ht.
    + rewrite (call_handler _ _ _ _ _ _ _ _ _ _ Hi Hm eq_refl). unfold handle_set_player_leds, set_byte.
      cbn [bus_method fst snd map type_of] in Ha. rewrite Ha.
      replace (5 <? v) with false by lia. rewrite Hst by done. by replace (Z.min v 100) with v by lia.
Qed.

Example front_ends_differ_witness :
  let c := get_slot (w_shm demo_world) 1 in
  execute_slot_command c "gain" ["250"]%string = (c, 1) /\ tui_slot_command "gain 250" c = (c, true) /\
  w_shm (plain_handler (plain_call "SetGain" [DByte 1; DByte 250]) demo_world).2 =
    put_slot (w_shm demo_world) 1 (apply_request (SetGain 100) c).
Proof.
  refine (front_ends_differ (B := plain_bus) good_kernel (fun _ => true) (fun _ _ _ _ => None) 1 (fun _ shm => shm)
    (fun _ => 0) SetGain 250 1 (plain_call "SetGain" [DByte 1; DByte 250]) demo_world eq_refl eq_refl eq_refl eq_refl
    (or_introl (conj _ _))); [by right; right | lia].
Defined.
