(* ===== verification/Worker.v ===== *)
(** * The worker thread ([controller_worker] of [daemon.c])

    From the device node to the running worker, one turn of its loop, and its
    end: the composition of the readers, the virtual device, the effects and the
    pipelines of the other files, with every descriptor the thread opens. *)

From S2P Require Import Prelude Settings Commands Float Types Keys Axes Utils Sys Drivers Uhid Output Led Nsw Daemon Display.
Local Open Scope Z_scope.

Definition BT_HANDSHAKE_TIMEOUT_MS : Z := 100.
Definition BT_CONNECT_MAX_RETRIES : nat := 20.
Definition POLLIN : Z := 1.
Definition POLLERR : Z := 8.
Definition POLLHUP : Z := 16.
Definition EAGAIN : Z := 11.
Definition POLL_TIMEOUT_MS : Z := 100.
Definition BT_POLL_TIMEOUT_MS : Z := 100.
Definition LEDFX_UPDATE_INTERVAL_US : Z := 16000.

(** ** The start *)

(** What the thread is told besides the results of its calls: the bus type and
    the two texts of the [hidraw] node, whether a poll ended with POLLIN, the
    lines of the driver's [uevent] file, the directories at the k-th attempt to
    find the input nodes and their names, and the inputs of [nsw_init]. *)
Record start_env := mk_start_env {
  se_bustype : Z; se_rawname : string; se_rawuniq : string;
  se_pollin : list sysop -> bool; se_uevent : option (list string);
  se_fs : nat -> sysfs; se_node_name : string -> string;
  se_pid : Z; se_now : timeval; se_entries : option (list string); se_link : option string;
  se_has_rumble : bool }.

Section start.
Context (kernel : kernel_t) (fuel : nat) (e : start_env).

Definition revents_pollin : io bool := fun h => Some (se_pollin e h, h).

Definition is_bt_ready (fd : Z) : io bool :=
  ret ← sys_ kernel (SysPoll fd BT_HANDSHAKE_TIMEOUT_MS);
  pollin ← revents_pollin;
  if (0 <? ret) && pollin then r ← sys_ kernel (SysRead fd); mret (0 <? r) else mret false.

Fixpoint bt_handshake (n : nat) (fd : Z) : io bool :=
  match n with
  | O => mret false
  | S n => ok ← is_bt_ready fd; if ok : bool then mret true else bt_handshake n fd
  end.

(** The buffer is read until nothing comes; one unit of fuel per [read]. *)
Fixpoint bt_flush (n : nat) (fd : Z) : io unit :=
  match n with
  | O => fun _ => None
  | S n => r ← sys_ kernel (SysRead fd); if 0 <? r then bt_flush n fd else mret tt
  end.

(** The text of a line up to its newline. *)
Definition driver_of (lines : list string) : option string :=
  match find (fun l => String.prefix "DRIVER=" l) lines with
  | Some l => Some (until_newline (substring 7 (String.length l - 7) l)).1
  | None => None
  end.

Definition read_metadata (fd : Z) (slot : controller_t) : io controller_t :=
  r1 ← sys_ kernel (SysIoctl fd "HIDIOCGRAWNAME" 256);
  let slot := if 0 <=? r1 then slot {{ product_name := strn 127 (strn 255 (se_rawname e)) }} else slot in
  r2 ← sys_ kernel (SysIoctl fd "HIDIOCGRAWUNIQ" 64);
  let slot := if 0 <=? r2 then slot {{ uniq := strn 63 (se_rawuniq e) }} else slot in
  mret (match se_uevent e with
        | Some lines => match driver_of lines with
                        | Some d => slot {{ driver := strn 31 d }}
                        | None => slot
                        end
        | None => slot
        end).

(** The attempts to find input nodes. *)
Fixpoint discover_attempts (n : nat) (k : nat) : list string :=
  match n with
  | O => []
  | S n => match discover_all_input_nodes (se_fs e k) MAX_INPUT_NODES with
           | [] => discover_attempts n (S k)
           | l => l
           end
  end.

(** The nodes with the names their devices give. *)
Fixpoint store_input_nodes (paths : list string) (i : Z) (slot : controller_t) : io controller_t :=
  match paths with
  | [] => mret slot
  | p :: paths =>
      ev_fd ← sys_ kernel (SysOpen p);
      name ← (if 0 <=? ev_fd then
                r ← sys_ kernel (SysIoctl ev_fd "EVIOCGNAME" 128);
                _ ← sys_ kernel (SysClose ev_fd);
                mret (if 0 <=? r then strn 127 (se_node_name e p) else "Unknown"%string)
              else mret "Inaccessible"%string);
      store_input_nodes paths (i + 1)
        (slot {{ input_nodes := aset (input_nodes slot) i (mk_input_node p name);
                 num_input_nodes := num_input_nodes slot + 1 }})
  end.

Definition discover_input_nodes_with_retry (path : string) (max_retries : nat) (slot : controller_t)
  : io (controller_t * bool) :=
  match discover_attempts max_retries 0 with
  | [] => mret (slot, false)
  | l => slot ← store_input_nodes (take MAX_INPUT_NODES l) 0 (slot {{ num_input_nodes := 0 }});
         mret (slot, true)
  end.

(** The first node of the list that passes the test and opens; -1 for none. *)
Fixpoint open_event (test : input_node_info_t -> bool) (l : list input_node_info_t) : io Z :=
  match l with
  | [] => mret (-1)
  | n :: l =>
      if test n then
        fd ← sys_ kernel (SysOpen (node_path n));
        if 0 <=? fd then mret fd else open_event test l
      else open_event test l
  end.
Definition is_event_node (n : input_node_info_t) : bool := contains "event" (node_path n).
Definition is_main_node (n : input_node_info_t) : bool :=
  is_event_node n && negb (contains "IMU" (node_name n)).

Definition known_nodes (slot : controller_t) : list input_node_info_t :=
  take (Z.to_nat (num_input_nodes slot)) (input_nodes slot).

(** The event device of a Switch controller in the place of its [hidraw] node. *)
Definition start_nsw (idx : Z) (path : string) (fd : Z) (slot : controller_t) (ctx : nsw_context_t)
  : io (controller_t * nsw_context_t * option Z) :=
  r ← discover_input_nodes_with_retry path 20 slot;
  let '(slot, found) := r in
  if negb found then _ ← sys_ kernel (SysClose fd); mret (slot, ctx, None)
  else
    r ← nsw_init kernel fuel (se_node_name e) idx (se_pid e) (se_now e) (se_entries e) (se_link e)
          (se_has_rumble e) slot ctx;
    let '(slot, ctx, ok) := r in
    if negb ok then _ ← sys_ kernel (SysClose fd); mret (slot, ctx, None)
    else
      _ ← sys_ kernel (SysClose fd);
      event_fd ← open_event is_main_node (known_nodes slot);
      event_fd ← (if event_fd <? 0 then open_event is_event_node (known_nodes slot) else mret event_fd);
      if event_fd <? 0 then mret (slot, ctx, None)
      else
        let slot := match find is_event_node (known_nodes slot) with
                    | Some n => slot {{ dev_path := strn 127 (node_path n) }}
                    | None => slot
                    end in
        mret (slot, ctx, Some event_fd).

(** The DualShock and the DualSense keep their node. *)
Definition start_ds (path : string) (slot : controller_t) : io controller_t :=
  store_input_nodes (take MAX_INPUT_NODES (discover_attempts 10 0)) 0 (slot {{ num_input_nodes := 0 }}).

(** The watch for writes of others: the descriptor, -1 without it. *)
Definition start_watch (path : string) : io Z :=
  fd ← sys_ kernel SysInotifyInit;
  if 0 <=? fd then
    wd ← sys_ kernel (SysInotifyWatch fd path);
    if wd <? 0 then _ ← sys_ kernel (SysClose fd); mret (-1) else mret fd
  else mret fd.

(** Up to the loop: the slot, the context of a Switch controller, and the
    descriptors of the device and of the watch; none when the thread gives up. *)
Definition worker_start (idx : Z) (path : string) (slot : controller_t) (ctx : nsw_context_t)
  : io (controller_t * nsw_context_t * option (Z * Z)) :=
  fd ← sys_ kernel (SysOpen path);
  if fd <? 0 then mret (slot, ctx, None)
  else
    r ← sys_ kernel (SysIoctl fd "HIDIOCGRAWINFO" 0);
    let slot := if r =? 0 then slot {{ is_bluetooth := (se_bustype e =? 5) }} else slot in
    handshake_ok ← (if is_bluetooth slot then bt_handshake BT_CONNECT_MAX_RETRIES fd else mret true);
    if negb handshake_ok then _ ← sys_ kernel (SysClose fd); mret (slot, ctx, None)
    else
      _ ← (if is_bluetooth slot then bt_flush fuel fd else mret tt);
      slot ← read_metadata fd slot;
      if bool_decide (ctype slot = TYPE_NSW_PRO) then
        r ← start_nsw idx path fd slot ctx;
        let '(slot, ctx, fd) := r in
        mret (slot, ctx, match fd with Some fd => Some (fd, -1) | None => None end)
      else
        slot ← start_ds path slot;
        ino ← start_watch path;
        mret (slot, ctx, Some (fd, ino)).
End start.


(** ** The state of a running worker

    The slot is in [w_dev]; [w_shm] holds the other slots. *)
#[projections(primitive)]
Record worker := mk_worker {
  w_fd : Z; w_ino : Z; w_dev : vdev; w_drv : drv_state; w_shm : shared_data_t; w_led : ledfx_state;
  w_last_rumble_out : timeval; w_last_led_out : timeval; w_last_daemon_write : timeval;
  w_last_effects_update : timeval }.
Definition eta_worker (w : worker) : worker :=
  mk_worker (w_fd w) (w_ino w) (w_dev w) (w_drv w) (w_shm w) (w_led w) (w_last_rumble_out w)
    (w_last_led_out w) (w_last_daemon_write w) (w_last_effects_update w).
#[export] Instance set_w_dev : Setter w_dev. Proof. mk_setter eta_worker. Defined.
#[export] Instance set_w_drv : Setter w_drv. Proof. mk_setter eta_worker. Defined.
#[export] Instance set_w_shm : Setter w_shm. Proof. mk_setter eta_worker. Defined.
#[export] Instance set_w_led : Setter w_led. Proof. mk_setter eta_worker. Defined.
#[export] Instance set_w_last_rumble_out : Setter w_last_rumble_out. Proof. mk_setter eta_worker. Defined.
#[export] Instance set_w_last_led_out : Setter w_last_led_out. Proof. mk_setter eta_worker. Defined.
#[export] Instance set_w_last_daemon_write : Setter w_last_daemon_write. Proof. mk_setter eta_worker. Defined.
#[export] Instance set_w_last_effects_update : Setter w_last_effects_update. Proof. mk_setter eta_worker. Defined.

Definition w_slot (w : worker) : controller_t := v_slot (w_dev w).
Definition w_nsw (w : worker) : nsw_context_t := v_nsw (w_dev w).
Definition put_wslot (s : controller_t) (w : worker) : worker :=
  let v := w_dev w in w {{ w_dev := mk_vdev (v_ufd v) (v_uhid_fd v) (v_poll_fd v) s (v_nsw v) }}.
Definition put_wnsw (c : nsw_context_t) (w : worker) : worker :=
  let v := w_dev w in w {{ w_dev := mk_vdev (v_ufd v) (v_uhid_fd v) (v_poll_fd v) (v_slot v) c }}.

(** The whole shared memory, and back. *)
Definition worker_memory (idx : Z) (w : worker) : shared_data_t := put_slot (w_shm w) idx (w_slot w).
Definition load_memory (idx : Z) (shm : shared_data_t) (w : worker) : worker :=
  put_wslot (get_slot shm idx) (w {{ w_shm := shm }}).

(** What the world contributes to a turn: what the other threads and processes
    have made of the shared memory since the last one, the clocks, the answers
    of [poll] (the [revents] of the three descriptors), what the descriptors
    deliver, and the outcomes of the force feedback calls. *)
Record turn_env := mk_turn_env {
  te_others : shared_data_t -> shared_data_t;
  te_time_us : Z; te_nsw_inotify : list (Z * bool * string);
  te_effects : timeval; te_trylock : bool; te_request_sec : Z -> float; te_request_tv : Z -> timeval;
  te_time_sec : float; te_led_tv : timeval;
  te_revents : Z -> Z; te_ino_events : list (bool * timeval * timeval);
  te_buf : list Z; te_times : Z -> Z; te_clock : list sysop -> timeval; te_stack : list Z;
  te_nsw_reads : list nsw_read; te_nsw_now : timeval;
  te_ff_event : input_event; te_ff_begin : Z -> option (Z * ff_effect_u); te_ff_now : timeval;
  te_uhid : Z -> list sysop -> option uhid_event;
  te_hup : bool; te_rumble_now : timeval; te_upload : Z -> Z -> option Z;
  te_rumble : timeval; te_led : timeval; te_write : timeval }.

(** A pure step with no result, an access out of bounds, has none here. *)
Definition io_opt {A} (o : option A) : io A := fun h => match o with Some x => Some (x, h) | None => None end.

Section turn.
Context (kernel : kernel_t) (fuel : nat).
(** The C library, zlib, and the layouts of the kernel's structures. *)
Context (powf : float -> float -> float) (cosf sinf sin : float -> float)
  (fmod fmodf : float -> float -> float) (crc32 : Z -> list Z -> Z)
  (user_dev : Z -> list Z) (uhid_bytes : uhid_event -> list Z)
  (fmt_name fmt_phys : Z -> string) (fmt_uniq : Z -> Z -> string) (time_now : Z) (idx : Z).

(** *** Output *)

Definition send_output (w : worker) : io worker :=
  _ ← send_output_report crc32 kernel fuel (w_fd w) (w_slot w);
  mret (put_wslot ((w_slot w) {{ writing_output := false }}) w).

(** The four reports a DualShock or DualSense starts with. *)
Fixpoint initial_output (n : nat) (w : worker) : io worker :=
  match n with
  | O => mret w
  | S n => w ← send_output w; initial_output n w
  end.

(** *** The parts of a turn *)

Section turn_parts.
Context (e : turn_env).

Definition turn_vdev (emu_req use_uhid : bool) (w : worker) : io worker :=
  v ← manage_vdev kernel (setup_uinput_indexed kernel fuel user_dev)
        (fun c i => uhid_create kernel fuel uhid_bytes (te_uhid e) fmt_name fmt_phys fmt_uniq time_now (Some c) i)
        (uhid_destroy kernel fuel uhid_bytes) idx emu_req use_uhid (w_dev w);
  mret (w {{ w_dev := v }}).

Definition turn_effects (has_led : bool) (w : worker) : io worker :=
  if has_led && (LEDFX_UPDATE_INTERVAL_US <=? tv_diff_us (te_effects e) (w_last_effects_update w)) then
    let (shm, led) :=
      if te_trylock e
      then ledfx_process_requests (te_request_sec e) (te_request_tv e) (worker_memory idx w) (w_led w)
      else (worker_memory idx w, w_led w) in
    r ← io_opt (ledfx_update_slot cosf sinf fmod fmodf idx (te_time_sec e) (te_led_tv e) shm led);
    let '(shm, led, _) := r in
    mret ((load_memory idx shm w) {{ w_led := led; w_last_effects_update := te_effects e }})
  else mret w.

(** A force feedback record from uinput. *)
Definition turn_uinput (w : worker) : io worker :=
  r ← sys_ kernel (SysRead (v_ufd (w_dev w)));
  mret (if 0 <? r then
          let ev := te_ff_event e in
          if (ev_type ev =? EV_UINPUT) && (ev_code ev =? UI_FF_UPLOAD)
          then put_wslot (rumble_handle_ff_upload (te_ff_begin e) ev (w_slot w)).1 w
          else put_wslot (rumble_handle_ff_event sin (te_ff_now e) ev (w_slot w)) w
        else w).

Definition turn_uhid (w : worker) : io worker :=
  slot ← uhid_handle_events kernel fuel uhid_bytes (te_uhid e) fuel (v_uhid_fd (w_dev w)) (w_slot w);
  mret (put_wslot slot w).

(** What [nsw_read_events] sends on the way. *)
Fixpoint send_nsw (ufd uhid_fd : Z) (l : list nsw_sent) : io unit :=
  match l with
  | [] => mret tt
  | SentUinput evs :: l =>
      _ ← emit_all kernel fuel (fun _ => te_nsw_now e) ufd evs; send_nsw ufd uhid_fd l
  | SentUhid rep :: l =>
      _ ← uhid_send_input kernel fuel uhid_bytes uhid_fd rep; send_nsw ufd uhid_fd l
  end.

Definition turn_nsw_read (use_uhid : bool) (w : worker) : io worker :=
  let target := if use_uhid then v_uhid_fd (w_dev w) else v_ufd (w_dev w) in
  r ← io_opt (nsw_read_events powf (te_stack e) (te_nsw_reads e) (te_nsw_now e) target
                (drv_axes (w_drv w)) (w_slot w) (w_nsw w));
  let '(ax, slot, ctx, sent, _) := r in
  _ ← send_nsw target (ctx_uhid_fd (w_nsw w)) sent;
  mret ((put_wnsw ctx (put_wslot slot w)) {{ w_drv := mk_drv ax (drv_debounce (w_drv w)) }}).

Definition has_revent (k event : Z) : bool := negb (Z.land (te_revents e k) event =? 0).

(** The Switch controller: its events, the virtual device's, and the end. *)
Definition turn_poll_nsw (use_uhid : bool) (w : worker) : io (worker * bool) :=
  p ← sys_ kernel (SysPoll (w_fd w) 0);
  if 0 <? p then
    w ← (if has_revent 0 POLLIN then turn_nsw_read use_uhid w else mret w);
    w ← (if has_revent 1 POLLIN && (0 <=? v_ufd (w_dev w)) then turn_uinput w else mret w);
    w ← (if has_revent 1 POLLIN && (0 <=? v_uhid_fd (w_dev w)) then turn_uhid w else mret w);
    mret (w, negb (has_revent 0 (POLLHUP + POLLERR)))
  else mret (w, true).

Definition turn_external (has_led : bool) (w : worker) : io worker :=
  r ← sys_ kernel (SysRead (w_ino w));
  mret (if 0 <? r
        then put_wslot (fold_left (external_write has_led (w_last_daemon_write w)) (te_ino_events e) (w_slot w)) w
        else w).

Definition translate (w : worker) (target : Z) : option (drv_state * controller_t * list input_event) :=
  match ctype (w_slot w) with
  | TYPE_DS4 => translate_ds4 powf (te_buf e) idx (te_times e) target (w_drv w) (w_slot w)
  | TYPE_DUALSENSE => translate_dualsense powf (te_buf e) idx (te_times e) target (w_drv w) (w_slot w)
  | TYPE_NSW_PRO => Some (w_drv w, w_slot w, [])
  end.

(** A report of the device: translated, and passed on to the UHID device. *)
Definition turn_report (use_uhid : bool) (w : worker) : io (worker * bool) :=
  r ← sys kernel (SysRead (w_fd w));
  if 0 <? r.1 then
    let uhid_fd := v_uhid_fd (w_dev w) in
    let target := if use_uhid then uhid_fd else v_ufd (w_dev w) in
    t ← io_opt (translate w target);
    let '(d, slot, evs) := t in
    _ ← emit_all kernel fuel (te_clock e) target evs;
    let w := (put_wslot slot w) {{ w_drv := d }} in
    if use_uhid && (0 <=? uhid_fd) then
      rep ← io_opt (uhid_build_input_report slot (te_stack e));
      _ ← (if 0 <? rep.2
           then uhid_send_input kernel fuel uhid_bytes uhid_fd (take (Z.to_nat rep.2) rep.1)
           else mret (-1));
      mret (w, true)
    else mret (w, true)
  else mret (w, negb ((r.1 =? 0) || negb (r.2 =? EAGAIN))).

(** The DualShock and the DualSense, after a [poll] that found something. *)
Definition turn_ready_ds (has_led use_uhid : bool) (w : worker) : io (worker * bool) :=
  w ← (if (0 <=? w_ino w) && has_revent 2 POLLIN then turn_external has_led w else mret w);
  r ← (if has_revent 0 (POLLIN + POLLHUP + POLLERR) then turn_report use_uhid w else mret (w, true));
  let '(w, go) := r in
  if negb go then mret (w, false)
  else
    w ← (if has_revent 1 POLLIN && (0 <=? v_ufd (w_dev w)) then turn_uinput w else mret w);
    w ← (if has_revent 1 POLLIN && (0 <=? v_uhid_fd (w_dev w)) then turn_uhid w else mret w);
    mret (w, true).

(** The two pipelines; the colour of the light bar only if it was to be sent
    when the turn began. *)
Definition turn_output (has_led local_led_dirty : bool) (w : worker) : io worker :=
  r ← rumble_process_pipeline sin
        (fun slot ctx =>
           if bool_decide (ctype slot = TYPE_NSW_PRO) then
             ctx ← nsw_send_rumble kernel fuel (te_hup e) (te_rumble_now e) (te_upload e) slot ctx; mret (slot, ctx)
           else _ ← send_output_report crc32 kernel fuel (w_fd w) slot; mret (slot, ctx))
        (te_rumble e) (w_slot w) (w_nsw w) (w_last_rumble_out w);
  let '(slot, ctx, last_rumble, rumble_wrote) := r in
  let w := (put_wnsw ctx (put_wslot slot w)) {{ w_last_rumble_out := last_rumble }} in
  r ← (if has_led && local_led_dirty then
         led_process_pipeline
           (fun slot => _ ← send_output_report crc32 kernel fuel (w_fd w) slot; mret slot)
           (te_led e) (w_slot w) (w_last_led_out w)
       else mret (w_slot w, w_last_led_out w, false));
  let '(slot, last_led, led_wrote) := r in
  let w := (put_wslot slot w) {{ w_last_led_out := last_led }} in
  mret (if (rumble_wrote : bool) || led_wrote then w {{ w_last_daemon_write := te_write e }} else w).

(** *** One turn: the new state, and whether the loop goes on *)

(** The poll and what follows it in the turn. *)
Definition turn_poll (has_led use_uhid local_led_dirty : bool) (w : worker) : io (worker * bool) :=
  if bool_decide (ctype (w_slot w) = TYPE_NSW_PRO) then
    r ← turn_poll_nsw use_uhid w;
    let '(w, go) := r in
    if go : bool then w ← turn_output has_led local_led_dirty w; mret (w, true) else mret (w, false)
  else
    p ← sys kernel (SysPoll (w_fd w) (if is_bluetooth (w_slot w) then BT_POLL_TIMEOUT_MS else POLL_TIMEOUT_MS));
    if p.1 <? 0 then mret (w, p.2 =? EINTR)
    else
      r ← (if 0 <? p.1 then turn_ready_ds has_led use_uhid w else mret (w, true));
      let '(w, go) := r in
      if go : bool then w ← turn_output has_led local_led_dirty w; mret (w, true) else mret (w, false).

(** The checks a turn begins with: the slot after them, and whether to go on. *)
Definition turn_checks (slot : controller_t) (ctx : nsw_context_t) : controller_t * nsw_context_t * bool :=
  if worker_stop slot || negb (connected slot) then (slot, ctx, false)
  else
    let slot := layout_requests slot in
    if bool_decide (ctype slot = TYPE_NSW_PRO) then
      let (ctx, ok) := nsw_monitor (te_nsw_inotify e) ctx in (slot, ctx, ok)
    else (slot, ctx, true).

Definition worker_turn (has_led : bool) (w : worker) : io (worker * bool) :=
  let w := load_memory idx (te_others e (worker_memory idx w)) w in
  let slot := (w_slot w) {{ worker_heartbeat := te_time_us e }} in
  let emu_req := emulate_active slot in
  let use_uhid := is_uhid slot in
  let local_led_dirty := has_led && led_dirty slot in
  let '(slot, ctx, go) := turn_checks slot (w_nsw w) in
  let w := put_wnsw ctx (put_wslot slot w) in
  if negb go then mret (w, false)
  else
    w ← turn_vdev emu_req use_uhid w;
    w ← turn_effects has_led w;
    turn_poll has_led use_uhid local_led_dirty w.
End turn_parts.

(** The loop: the turns until [keep_running] is cleared, one or the end of them
    leaves it. *)
Fixpoint worker_loop (turns : list turn_env) (has_led : bool) (w : worker) : io worker :=
  match turns with
  | [] => mret w
  | e :: turns =>
      r ← worker_turn e has_led w;
      let '(w, go) := r in
      if go : bool then worker_loop turns has_led w else mret w
  end.

(** The clean-up; the slot is then given back by [worker_cleanup]. *)
Definition worker_exit (w : worker) : io worker :=
  w ← (if bool_decide (ctype (w_slot w) = TYPE_NSW_PRO)
       then ctx ← nsw_cleanup kernel fuel (w_nsw w); mret (put_wnsw ctx w) else mret w);
  _ ← (if 0 <=? w_ino w then _ ← sys_ kernel (SysClose (w_ino w)); mret tt else mret tt);
  _ ← worker_close_devices kernel (uhid_destroy kernel fuel uhid_bytes) (w_dev w);
  _ ← sys_ kernel (SysClose (w_fd w));
  mret w.

(** The thread, from its start to its end: the shared memory it leaves and the
    context of a Switch controller. *)
Definition controller_worker (se : start_env) (turns : list turn_env) (path : string) (now : timeval)
  (d : drv_state) (led : ledfx_state) (shm : shared_data_t) (ctx : nsw_context_t)
  : io (shared_data_t * nsw_context_t) :=
  r ← worker_start kernel fuel se idx path (get_slot shm idx) ctx;
  let '(slot, ctx, fds) := r in
  match fds with
  | None => mret (worker_abort idx (put_slot shm idx slot), ctx)
  | Some (fd, ino) =>
      let w := mk_worker fd ino (mk_vdev (-1) (-1) (-1) slot ctx) d shm led now now now now in
      let has_led := negb (bool_decide (ctype slot = TYPE_NSW_PRO)) in
      w ← (if has_led then initial_output 4 w else mret w);
      w ← worker_loop turns has_led w;
      w ← worker_exit w;
      mret (worker_cleanup idx (worker_memory idx w), w_nsw w)
  end.
End turn.

(** * Lemmas *)

(** ** What the operations on a slot leave alone

    As a front end does, a worker keeps the life of a slot, and its configuration
    in range. *)

(** The whole memory. *)
Definition shm_same (shm shm' : shared_data_t) : Prop :=
  length (slots shm') = length (slots shm) /\ free_slots_bitmap shm' = free_slots_bitmap shm /\
  forall j, slot_kept (get_slot shm j) (get_slot shm' j).
#[export] Instance shm_same_refl : Reflexive shm_same.
Proof. by split. Qed.
#[export] Instance shm_same_trans : Transitive shm_same.
Proof.
  intros a b c (? & ? & H1) (? & ? & H2). split; [congruence|]. split; [congruence|].
  intros j. exact (transitivity (H1 j) (H2 j)).
Qed.

(** The descriptors in the context of a Switch controller. *)
Definition nsw_fds (ctx : nsw_context_t) : bool * Z * Z := (initialized ctx, event_fd ctx, inotify_fd ctx).

Lemma keys_apply_map_same s km raw : slot_kept s (keys_apply_map s km raw).
Proof. unfold keys_apply_map. rewrite keys_apply_loop, keys_recalc_hat_spec. frame_done. Qed.

Lemma put_keymap_same s km b :
  (keymap_ok (keymap s) -> keymap_ok km) -> slot_kept s (s {{ keymap := km; led_dirty := b }}).
Proof.
  intros H. frame_but_config. intros (H1 & H2 & H3 & H4 & H5 & H6 & H7 & H8).
  repeat (split; [assumption|]). exact (H H8).
Qed.

Lemma layout_requests_same s : slot_kept s (layout_requests s).
Proof.
  unfold layout_requests. cbv zeta.
  set (s1 := if request_switch_layout s then _ else _).
  assert (slot_kept s s1) as H1.
  { subst s1. destruct (request_switch_layout s); [|reflexivity].
    etransitivity; [|apply (put_keymap_same (s {{ request_switch_layout := false }}))]; [frame_done|].
    apply keymap_ok_set_face. }
  clearbody s1. set (s2 := if request_xbox_layout s1 then _ else _).
  assert (slot_kept s1 s2) as H2.
  { subst s2. destruct (request_xbox_layout s1); [|reflexivity].
    etransitivity; [|apply (put_keymap_same (s1 {{ request_xbox_layout := false }}))]; [frame_done|].
    apply keymap_ok_set_face. }
  clearbody s2. etransitivity; [exact H1|]. etransitivity; [exact H2|].
  destruct (request_reset_all_keybinds s2); [|reflexivity].
  etransitivity; [|apply (put_keymap_same (s2 {{ request_reset_all_keybinds := false }}))]; [frame_done|].
  intros [Hl _]. by apply keymap_ok_default.
Qed.

Lemma put_battery_same s b : slot_kept s (s {{ battery := b }}).
Proof. frame_done. Qed.
Lemma put_sticks_same s a b c d : slot_kept s (s {{ LX := a; LY := b; RX := c; RY := d }}).
Proof. frame_done. Qed.
Lemma put_triggers_same s a b : slot_kept s (s {{ LT := a; RT := b }}).
Proof. frame_done. Qed.

Lemma translate_rest_same buf lt b1 b2 b3 bat idx times ufd g s :
  slot_kept s (translate_rest buf lt b1 b2 b3 bat idx times ufd g s).1.2.
Proof.
  unfold translate_rest, translate_deadzone. cbv zeta.
  destruct (apply_deadzone _ _ _), (apply_deadzone _ _ _), (translate_debounce _ _ _ _ _).
  cbn [fst snd]. etransitivity; [|apply put_battery_same]. etransitivity; [|apply keys_apply_map_same].
  etransitivity; [|apply put_sticks_same]. apply put_triggers_same.
Qed.

Lemma translate_sticks_same powf buf off ax s ax' s' :
  translate_sticks powf buf off ax s = (ax', Some s') -> slot_kept s s'.
Proof.
  unfold translate_sticks. cbv zeta. destruct (apply_sensitivity_left _ _ _ _ _) as [ax1 [[lx ly]|]];
    destruct (apply_sensitivity_right _ _ _ _ _) as [ax2 [[rx ry]|]]; cbn; try discriminate.
  intros [= _ <-]. frame_done.
Qed.

Lemma nsw_apply_transforms_same powf ax s ctx ax' s' :
  nsw_apply_transforms powf ax s ctx = (ax', Some s') -> slot_kept s s'.
Proof.
  unfold nsw_apply_transforms. cbv zeta. destruct (apply_sensitivity_left _ _ _ _ _) as [ax1 [[lx ly]|]];
    destruct (apply_sensitivity_right _ _ _ _ _) as [ax2 [[rx ry]|]]; cbn; try discriminate.
  repeat case_match; intros [= _ <-]; frame_done.
Qed.

Lemma nsw_event_keeps ev s :
  slot_kept s.1 (nsw_event ev s).1 /\ nsw_fds (nsw_event ev s).2 = nsw_fds s.2.
Proof.
  destruct s as [s c]. unfold nsw_event, nsw_key_event, nsw_abs_event. cbn [fst snd].
  repeat bcase; (split; [frame_done | reflexivity]).
Qed.

Lemma nsw_read_loop_keeps reads s n :
  let r := (nsw_read_loop reads s n).1.1 in slot_kept s.1 r.1 /\ nsw_fds r.2 = nsw_fds s.2.
Proof.
  revert s n. induction reads as [|[ev| | |] reads IH]; intros s n; cbn; try by split.
  - destruct (nsw_event_keeps ev s) as [H1 <-]. destruct (IH (nsw_event ev s) (n + 1)) as [H2 H3].
    split; [by etransitivity | done].
  - apply IH.
Qed.

Lemma nsw_put_keeps ch v c : In ch all_channels -> nsw_fds (ch_put ch v c) = nsw_fds c.
Proof.
  intros H. revert ch H. apply List.Forall_forall.
  unfold all_channels, channels_common, channels_analog, channels_digital, channels_hat.
  cbn [app]. forall_list; reflexivity.
Qed.

Lemma nsw_forward_keeps s c : nsw_fds (nsw_forward s c).1 = nsw_fds c.
Proof.
  unfold nsw_forward.
  assert (forall chs c evs, Forall (fun ch => In ch all_channels) chs ->
    nsw_fds (fold_left (forward_one s) chs (c, evs)).1 = nsw_fds c) as H.
  { induction chs as [|ch chs IH]; intros c0 evs Hin; [done|]. apply Forall_cons in Hin as [Hc Hin].
    cbn [fold_left]. unfold forward_one at 2. cbn [fst snd]. bcase; rewrite IH by done; [|done].
    by apply nsw_put_keeps. }
  specialize (H (nsw_channels (is_trigger_digital s)) c []).
  destruct (fold_left _ _ _) as [c1 evs]. cbn [fst] in *. apply H.
  apply List.Forall_forall. intros ch. apply nsw_channels_incl.
Qed.

Lemma nsw_read_events_keeps powf stack reads now ufd ax s ctx ax' s' ctx' sent n :
  nsw_read_events powf stack reads now ufd ax s ctx = Some (ax', s', ctx', sent, n) ->
  slot_kept s s' /\ nsw_fds ctx' = nsw_fds ctx.
Proof.
  unfold nsw_read_events. destruct (_ || _ || _); [by intros [= _ <- <- _ _]|].
  pose proof (nsw_read_loop_keeps reads (s, ctx) 0) as Hr. cbv zeta in *.
  destruct (nsw_read_loop _ _ _) as [[[s1 c1] k] failed]. cbn [fst snd] in Hr. destruct Hr as [H1 <-].
  destruct failed; [by intros [= _ <- <- _ _]|].
  destruct (nsw_apply_transforms powf ax s1 c1) as [ax1 [s2|]] eqn:Et; [|done].
  apply nsw_apply_transforms_same in Et as H2. cbn [mbind option_bind].
  pose proof (keys_apply_map_same s2 (keymap s2) (phy_raw c1)) as Hk.
  set (s3 := keys_apply_map s2 (keymap s2) (phy_raw c1)) in *. clearbody s3.
  assert (slot_kept s s3) as H3 by (etransitivity; [exact H1|]; by etransitivity).
  destruct (_ && _); [|by intros [= _ <- <- _ _]].
  pose proof (nsw_forward_keeps s3 c1) as Hf.
  destruct (_ && _); [destruct (nsw_forward _ _) as [c2 evs]; cbn [fst] in Hf|].
  all: destruct (0 <=? _); [destruct (uhid_build_input_report _ _) as [[rep size]|]; [|done]|];
    cbn [mbind option_bind]; by intros [= _ <- <- _ _].
Qed.

Lemma external_write_same b t s ev : slot_kept s (external_write b t s ev).
Proof. destruct ev as [[m n] n']. unfold external_write. repeat bcase; frame_done. Qed.
Lemma external_writes_same b t l s : slot_kept s (fold_left (external_write b t) l s).
Proof.
  revert s. induction l as [|e l IH]; intros s; [done|]. cbn.
  etransitivity; [apply external_write_same | apply IH].
Qed.

Lemma ff_upload_same begin ev s : slot_kept s (rumble_handle_ff_upload begin ev s).1.
Proof. unfold rumble_handle_ff_upload. frame_cases. Qed.
Lemma ff_event_same sin now ev s : slot_kept s (rumble_handle_ff_event sin now ev s).
Proof. unfold rumble_handle_ff_event, apply_wave_to_rumble. frame_cases. Qed.
Lemma pipeline_periodic_same sin now s : slot_kept s (pipeline_periodic sin now s).
Proof. unfold pipeline_periodic, apply_wave_to_rumble. frame_cases. Qed.
Lemma only_rumble_same s s' : only_rumble s s' -> slot_kept s s'.
Proof. intros H. rewrite H. frame_done. Qed.

(** The colour of the light bar is configuration too. *)
Lemma put_colour_same s r g b d :
  Forall (fun v => 0 <= v <= 255) [r; g; b] ->
  slot_kept s (s {{ led_r := r; led_g := g; led_b := b; led_dirty := d }}).
Proof.
  intros Hc. frame_but_config. intros (H1 & H). split; [|exact H].
  repeat match goal with H : Forall _ (_ :: _) |- _ => apply Forall_cons in H as [? H] end.
  forall_list; assumption.
Qed.
Lemma base_colour_ok s : config_ok s -> Forall (fun v => 0 <= v <= 255) [led_base_r s; led_base_g s; led_base_b s].
Proof.
  intros (H & _). repeat match goal with H : Forall _ (_ :: _) |- _ => apply Forall_cons in H as [? H] end.
  forall_list; assumption.
Qed.

Lemma led_request_slot_same sec tv s st : slot_kept s (led_request_slot sec tv s st).1.
Proof.
  unfold led_request_slot. cbv zeta. destruct (negb _); [reflexivity|]. destruct (negb _); [reflexivity|].
  set (s1 := s {{ led_request_pending := false }}).
  assert (slot_kept s s1) as H1 by frame_done. clearbody s1. etransitivity; [exact H1|].
  destruct (_ =? 0).
  - frame_but_config. intros H. pose proof (base_colour_ok _ H) as Hb.
    exact (proj1 (put_colour_same s1 _ _ _ true Hb) H).
  - destruct (_ && _); [|reflexivity]. destruct (_ || _); [|frame_done].
    frame_but_config. intros H.
    refine (proj1 (put_colour_same s1 0 0 0 true _) H). forall_list; lia.
Qed.

Lemma byte_range f : 0 <= u8_of_float f <= 255.
Proof. pose proof (u8_of_float_range f). lia. Qed.

Lemma effect_update_range cosf sinf fmod fmodf e st s phase r g b :
  effect_update cosf sinf fmod fmodf e st s phase = Some (r, g, b) -> Forall (fun v => 0 <= v <= 255) [r; g; b].
Proof.
  assert (forall c : rgb, Forall (fun v => 0 <= v <= 255) [c.1.1; c.1.2; c.2] -> Some c = Some (r, g, b) ->
    Forall (fun v => 0 <= v <= 255) [r; g; b]) as Hdone by (intros c H [= ->]; exact H).
  assert (forall k, Forall (fun v => 0 <= v <= 255) [(base_times s k).1.1; (base_times s k).1.2; (base_times s k).2]) as Hbase
    by (intros k; unfold base_times; forall_list; apply byte_range).
  unfold effect_update, effect_static, effect_breath, effect_rainbow, effect_pulse, effect_strobe, effect_wave,
    effect_battery, effect_trigger, effect_button.
  destruct e; cbv zeta; repeat case_match; unfold mbind, option_bind;
    try destruct (easing_apply _ _ _); try done; apply Hdone; cbn [fst snd]; try apply Hbase;
    forall_list; first [apply byte_range | lia].
Qed.

Lemma led_update_same cosf sinf fmod fmodf t tv s st s' st' c :
  led_update cosf sinf fmod fmodf t tv s st = Some (s', st', c) -> slot_kept s s'.
Proof.
  unfold led_update. cbv zeta. destruct (_ || _ || _); [by intros [= <- _ _]|].
  destruct (_ && _ && _); [by intros [= <- _ _]|].
  destruct (led_effect_of _) as [e|]; [|done]. cbn [mbind option_bind].
  destruct (effect_update _ _ _ _ _ _ _ _) as [[[r g] b]|] eqn:E; [|done]. apply effect_update_range in E. cbn.
  destruct (_ || _ || _); intros [= <- _ _]; [by apply put_colour_same | reflexivity].
Qed.

Lemma nsw_monitor_fds events ctx : nsw_fds (nsw_monitor events ctx).1 = nsw_fds ctx.
Proof. unfold nsw_monitor. repeat bcase; reflexivity. Qed.

(** A slot stored in the place of one like it. *)
Lemma put_slot_same shm i s : slot_kept (get_slot shm i) s -> shm_same shm (put_slot shm i s).
Proof.
  intros H. split; [apply length_put_slot|]. split; [reflexivity|]. intros j.
  destruct (get_put_slot_or shm i j) as [->|[-> ->]]; [reflexivity | exact H].
Qed.

Lemma process_requests_same sec tv shm st : shm_same shm (ledfx_process_requests sec tv shm st).1.
Proof.
  unfold ledfx_process_requests. destruct (negb _); [done|].
  pose proof (fold_idx_ind (fun (_ : nat) (acc : shared_data_t * list led_slot_state_t) => shm_same shm acc.1)
    (fun i acc =>
      let (slot, state) := led_request_slot (sec i) (tv i) (get_slot acc.1 i) (led_get acc.2 i) in
      (put_slot acc.1 i slot, aset acc.2 i state)) MAX_SLOTS (shm, g_slot_state st)) as H.
  destruct (fold_idx _ _ _) as [shm' states]. cbn [fst snd] in *. apply H; [done|].
  intros k [shm1 st1] _ H1. cbn [fst snd] in *.
  pose proof (led_request_slot_same (sec (Z.of_nat k)) (tv (Z.of_nat k)) (get_slot shm1 (Z.of_nat k))
    (led_get st1 (Z.of_nat k))) as Ht.
  destruct (led_request_slot _ _ _ _) as [slot state]. cbn [fst snd] in *.
  etransitivity; [exact H1 | by apply put_slot_same].
Qed.

Lemma update_slot_same cosf sinf fmod fmodf i t tv shm st shm' st' c :
  ledfx_update_slot cosf sinf fmod fmodf i t tv shm st = Some (shm', st', c) -> shm_same shm shm'.
Proof.
  unfold ledfx_update_slot. destruct (negb _); [by intros [= <- _ _]|].
  destruct (_ || _); [by intros [= <- _ _]|].
  destruct (led_update _ _ _ _ _ _ _ _) as [[[s1 st1] ch]|] eqn:E; [|done].
  apply led_update_same in E. cbn. intros [= <- _ _]. by apply put_slot_same.
Qed.

(** ** The parts of a turn open and close nothing

    [same_fds idx w w']: the descriptors and the states of the effects of [w] are
    those of [w'], and the slots are as [slot_kept] says. *)
Record same_fds (idx : Z) (w w' : worker) : Prop := mk_same_fds {
  sf_fd : w_fd w' = w_fd w; sf_ino : w_ino w' = w_ino w;
  sf_ufd : v_ufd (w_dev w') = v_ufd (w_dev w); sf_uhid : v_uhid_fd (w_dev w') = v_uhid_fd (w_dev w);
  sf_poll : v_poll_fd (w_dev w') = v_poll_fd (w_dev w);
  sf_slot : slot_kept (w_slot w) (w_slot w');
  sf_nsw : nsw_fds (w_nsw w') = nsw_fds (w_nsw w);
  sf_mem : shm_same (worker_memory idx w) (worker_memory idx w');
  sf_led : w_led w' = w_led w }.

#[export] Instance same_fds_refl idx : Reflexive (same_fds idx).
Proof. by split. Qed.
#[export] Instance same_fds_trans idx : Transitive (same_fds idx).
Proof.
  intros a b c [? ? ? ? ? H1 ? M1 ?] [? ? ? ? ? H2 ? M2 ?]. split; by etransitivity.
Qed.

Lemma sf_len idx w w' : same_fds idx w w' -> length (slots (w_shm w')) = length (slots (w_shm w)).
Proof. intros [? ? ? ? ? ? ? [Hl _] _]. unfold worker_memory in Hl. by rewrite !length_put_slot in Hl. Qed.

(** The other slots, whatever is in this one. *)
Lemma put_slot_mono shm i s s' : slot_kept s s' -> shm_same (put_slot shm i s) (put_slot shm i s').
Proof.
  intros H. split; [by rewrite !length_put_slot|]. split; [reflexivity|]. intros j.
  destruct (get_put_slot_or shm i j) as [E|[E _]]; rewrite !E; [reflexivity | exact H].
Qed.

Lemma same_fds_slot idx w w0 s :
  same_fds idx w0 w -> slot_kept (w_slot w) s -> same_fds idx w0 (put_wslot s w).
Proof.
  intros [? ? ? ? ? Ht ? Hm ?] E. split; try assumption; [exact (transitivity Ht E)|].
  exact (transitivity Hm (put_slot_mono (w_shm w) idx _ _ E)).
Qed.
Lemma same_fds_nsw idx w w0 c :
  same_fds idx w0 w -> nsw_fds c = nsw_fds (w_nsw w) -> same_fds idx w0 (put_wnsw c w).
Proof. intros [? ? ? ? ? ? Hn ? ?] E. split; try assumption. exact (eq_trans E Hn). Qed.
Lemma same_fds_drv idx w w0 d : same_fds idx w0 w -> same_fds idx w0 (w {{ w_drv := d }}).
Proof. intros []. by split. Qed.
Lemma same_fds_times idx w w0 a b c d :
  same_fds idx w0 w ->
  same_fds idx w0 (w {{ w_last_rumble_out := a }}) /\ same_fds idx w0 (w {{ w_last_led_out := b }}) /\
  same_fds idx w0 (w {{ w_last_daemon_write := c }}) /\ same_fds idx w0 (w {{ w_last_effects_update := d }}).
Proof. intros []. split; [|split; [|split]]; by split. Qed.
Lemma same_fds_led idx w w0 l :
  same_fds idx w0 w -> same_fds idx (w0 {{ w_led := l }}) (w {{ w_led := l }}).
Proof. intros []. by split. Qed.

Definition memory_ok (idx : Z) (w : worker) : Prop :=
  valid_slot idx /\ length (slots (w_shm w)) = MAX_SLOTS.

Lemma worker_memory_slot idx w : memory_ok idx w -> get_slot (worker_memory idx w) idx = w_slot w.
Proof. intros [[? ?] Hl]. unfold worker_memory. by rewrite get_put_slot_eq by lia. Qed.

Lemma same_fds_load idx shm w :
  memory_ok idx w -> shm_same (worker_memory idx w) shm -> same_fds idx w (load_memory idx shm w).
Proof.
  intros Hm Hs. split; try reflexivity.
  - change (slot_kept (w_slot w) (get_slot shm idx)). rewrite <- (worker_memory_slot idx w Hm). apply Hs.
  - exact (transitivity Hs (put_slot_same shm idx _ (reflexivity _))).
Qed.

Section quiet_turn.
Context (kernel : kernel_t) (fuel : nat).
Context (powf : float -> float -> float) (cosf sinf sin : float -> float)
  (fmod fmodf : float -> float -> float) (crc32 : Z -> list Z -> Z)
  (user_dev : Z -> list Z) (uhid_bytes : uhid_event -> list Z)
  (fmt_name fmt_phys : Z -> string) (fmt_uniq : Z -> Z -> string) (time_now : Z) (idx : Z).
Context (e : turn_env).
Local Notation "'quiet' m Q" := (quietly kernel m Q) (at level 10, m at level 9, Q at level 9).

Lemma quiet_emit_all clock fd l : quiet (emit_all kernel fuel clock fd l) (fun _ => True).
Proof.
  induction l as [|ev l IH]; cbn [emit_all]; [by apply quietly_ret|].
  eapply quietly_bind; [|intros; exact IH]. unfold emit.
  destruct (fd <? 0); [by apply (quietly_ret kernel tt (fun _ => True))|].
  intros h x h' E. revert h x h' E.
  assert (forall b, quiet (r ← safe_write kernel fuel fd b; mret tt) (fun _ : () => True)) as Hw
    by (intros; repeat quiet_step; done).
  intros h x h' E. exact (Hw _ _ _ _ E).
Qed.

Lemma quiet_send_input fd data : quiet (uhid_send_input kernel fuel uhid_bytes fd data) (fun _ => True).
Proof. unfold uhid_send_input, uhid_write_event. repeat quiet_step; done. Qed.

Lemma quiet_uhid_events reads n fd s :
  quiet (uhid_handle_events kernel fuel uhid_bytes reads n fd s) (slot_kept s).
Proof.
  intros h s' h' E. apply uhid_handle_events_spec in E as [H ?]. split; [by apply only_rumble_same | done].
Qed.

Lemma quiet_send_report fd s : quiet (send_output_report crc32 kernel fuel fd s) (fun _ => True).
Proof. unfold send_output_report. repeat quiet_step; done. Qed.

Lemma quiet_io_opt {A B} (o : option A) (f : A -> io B) (Q : B -> Prop) :
  (forall x, o = Some x -> quiet (f x) Q) -> quiet (io_opt o ≫= f) Q.
Proof.
  intros H h y h' E. apply io_bind_inv in E as (x & h1 & E1 & E). unfold io_opt in E1.
  destruct o as [z|]; [|done]. injection E1 as -> <-. by eapply H.
Qed.

Lemma quiet_ff_write ctx id v : quiet (nsw_ff_write kernel fuel ctx id v) (fun _ => True).
Proof. unfold nsw_ff_write. repeat quiet_step; done. Qed.

Lemma quiet_stop_effect ctx :
  quiet (nsw_stop_effect kernel fuel ctx) (fun r => nsw_fds r.1 = nsw_fds ctx).
Proof.
  unfold nsw_stop_effect. eapply quietly_bind; [apply quiet_ff_write|]. intros ok _.
  by repeat quiet_step.
Qed.

Lemma should_log_fds now ctx : nsw_fds (should_log_rumble now ctx).1 = nsw_fds ctx.
Proof. unfold should_log_rumble. repeat bcase; reflexivity. Qed.

Lemma quiet_stop_active ctx :
  quiet (if 0 <=? effect_id ctx then r ← nsw_stop_effect kernel fuel ctx; mret r.1 else mret ctx)
    (fun c => nsw_fds c = nsw_fds ctx).
Proof.
  destruct (0 <=? _); [|by apply quietly_ret].
  eapply quietly_bind; [apply quiet_stop_effect|]. intros r Hr. by apply quietly_ret.
Qed.

Lemma quiet_send_rumble hup now upload s ctx :
  quiet (nsw_send_rumble kernel fuel hup now upload s ctx) (fun c => nsw_fds c = nsw_fds ctx).
Proof.
  unfold nsw_send_rumble. cbv zeta.
  repeat first [apply quiet_stop_active | apply quiet_stop_effect | apply quiet_ff_write | quiet_step].
  all: try bcase; rewrite ?should_log_fds; first [reflexivity | assumption].
Qed.

(** *** Each part *)

Lemma quiet_send_output w : quiet (send_output kernel fuel crc32 w) (same_fds idx w).
Proof.
  unfold send_output. eapply quietly_bind; [apply quiet_send_report|]. intros _ _.
  apply quietly_ret. apply same_fds_slot; [reflexivity | frame_done].
Qed.

Lemma quiet_initial_output n w : quiet (initial_output kernel fuel crc32 n w) (same_fds idx w).
Proof.
  revert w. induction n as [|n IH]; intros w; cbn [initial_output]; [by apply quietly_ret|].
  eapply quietly_bind; [apply quiet_send_output|]. intros w1 H1.
  eapply quietly_mono; [apply IH|]. intros w2 H2. by etransitivity.
Qed.

Lemma quiet_effects has_led w :
  memory_ok idx w ->
  quiet (turn_effects cosf sinf fmod fmodf idx e has_led w) (fun w' => same_fds idx (w {{ w_led := w_led w' }}) w').
Proof.
  intros Hm. unfold turn_effects. destruct (_ && _); [|by apply quietly_ret].
  assert (forall shm led, shm_same (worker_memory idx w) shm ->
    quiet (r ← io_opt (ledfx_update_slot cosf sinf fmod fmodf idx (te_time_sec e) (te_led_tv e) shm led);
           let '(shm, led, _) := r in
           mret ((load_memory idx shm w) {{ w_led := led; w_last_effects_update := te_effects e }}))
      (fun w' => same_fds idx (w {{ w_led := w_led w' }}) w')) as H.
  { intros shm led S. apply quiet_io_opt. intros [[shm' led'] c] E%update_slot_same. apply quietly_ret.
    apply (same_fds_times idx _ _ tv_zero tv_zero tv_zero), same_fds_led, same_fds_load; [done|].
    exact (transitivity S E). }
  destruct (te_trylock e); [|by apply H].
  pose proof (process_requests_same (te_request_sec e) (te_request_tv e) (worker_memory idx w) (w_led w)) as S.
  destruct (ledfx_process_requests _ _ _ _) as [shm led]. by apply H.
Qed.

Lemma quiet_uinput w : quiet (turn_uinput kernel sin e w) (same_fds idx w).
Proof.
  unfold turn_uinput. quiet_step; [quiet_step|]. quiet_step. cbv zeta.
  repeat bcase; try reflexivity; apply same_fds_slot; try reflexivity;
    [apply ff_upload_same | apply ff_event_same].
Qed.

Lemma quiet_uhid w : quiet (turn_uhid kernel fuel uhid_bytes e w) (same_fds idx w).
Proof.
  unfold turn_uhid. eapply quietly_bind; [apply quiet_uhid_events|]. intros s Hs.
  apply quietly_ret. by apply same_fds_slot.
Qed.

Lemma quiet_send_nsw ufd fd l : quiet (send_nsw kernel fuel uhid_bytes e ufd fd l) (fun _ => True).
Proof.
  induction l as [|[evs|rep] l IH]; cbn [send_nsw]; [by apply quietly_ret| |];
    (eapply quietly_bind; [first [apply quiet_emit_all | apply quiet_send_input] | intros; exact IH]).
Qed.

Lemma quiet_nsw_read use_uhid w : quiet (turn_nsw_read kernel fuel powf uhid_bytes e use_uhid w) (same_fds idx w).
Proof.
  unfold turn_nsw_read. cbv zeta. apply quiet_io_opt. intros [[[[ax s] ctx] sent] n] E.
  destruct (nsw_read_events_keeps _ _ _ _ _ _ _ _ _ _ _ _ _ E) as [T F].
  eapply quietly_bind; [apply quiet_send_nsw|]. intros _ _.
  apply quietly_ret, same_fds_drv, same_fds_nsw; [by apply same_fds_slot | done].
Qed.

Lemma quiet_external has_led w : quiet (turn_external kernel e has_led w) (same_fds idx w).
Proof.
  unfold turn_external. quiet_step; [quiet_step|]. quiet_step. bcase; [|reflexivity].
  apply same_fds_slot; [reflexivity | apply external_writes_same].
Qed.

Lemma translate_same w target d s evs :
  translate powf idx e w target = Some (d, s, evs) -> slot_kept (w_slot w) s.
Proof.
  unfold translate. destruct (ctype (w_slot w)) eqn:E; [unfold translate_ds4 | unfold translate_dualsense |];
    [| |by intros [= _ <- _]]; cbv zeta;
    (destruct (translate_sticks _ _ _ _ _) as [ax [s1|]] eqn:Es; [|done]); cbn [mbind option_bind];
    apply translate_sticks_same in Es;
    match goal with |- context [translate_rest ?a ?b ?c ?d ?f ?g ?h ?i ?j ?k ?l] =>
      pose proof (translate_rest_same a b c d f g h i j k l) as Hr;
      destruct (translate_rest a b c d f g h i j k l) as [[g' s'] evs'] end;
    intros [= _ <- _]; exact (transitivity Es Hr).
Qed.

Lemma quiet_report use_uhid w :
  quiet (turn_report kernel fuel powf uhid_bytes idx e use_uhid w) (fun r => same_fds idx w r.1).
Proof.
  unfold turn_report. quiet_step; [quiet_step|]. destruct (0 <? _); [|by apply quietly_ret]. cbv zeta.
  apply quiet_io_opt. intros [[d s] evs] T%translate_same.
  eapply quietly_bind; [apply quiet_emit_all|]. intros _ _.
  assert (same_fds idx w ((put_wslot s w) {{ w_drv := d }})) as Hs
    by (apply same_fds_drv; by apply same_fds_slot).
  destruct (_ && _); [|by apply quietly_ret].
  apply quiet_io_opt. intros [rep size] _.
  eapply quietly_bind; [|intros; by apply quietly_ret].
  destruct (0 <? _); [apply quiet_send_input | by apply quietly_ret].
Qed.

Lemma quiet_if {A} (b : bool) (m1 m2 : io A) (Q : A -> Prop) : quiet m1 Q -> quiet m2 Q -> quiet (if b then m1 else m2) Q.
Proof. by destruct b. Qed.

(** Parts in a row. *)
Lemma quiet_then w (b : bool) (m : worker -> io worker) {B} (f : worker -> io B) (Q : B -> Prop) w0 :
  same_fds idx w0 w -> (forall w, quiet (m w) (same_fds idx w)) ->
  (forall w', same_fds idx w0 w' -> quiet (f w') Q) ->
  quiet ((if b then m w else mret w) ≫= f) Q.
Proof.
  intros H0 Hm Hf. eapply quietly_bind with (P := same_fds idx w0); [|exact Hf].
  apply quiet_if; [|by apply quietly_ret].
  eapply quietly_mono; [apply Hm|]. intros. by etransitivity.
Qed.

Lemma quiet_poll_nsw use_uhid w :
  quiet (turn_poll_nsw kernel fuel powf sin uhid_bytes e use_uhid w) (fun r => same_fds idx w r.1).
Proof.
  unfold turn_poll_nsw. quiet_step; [quiet_step|]. destruct (0 <? _); [|by apply quietly_ret].
  apply (quiet_then w _ _ _ _ w); [done | apply quiet_nsw_read |]. intros w1 H1.
  apply (quiet_then w1 _ _ _ _ w); [done | apply quiet_uinput |]. intros w2 H2.
  apply (quiet_then w2 _ _ _ _ w); [done | apply quiet_uhid |]. intros w3 H3. by apply quietly_ret.
Qed.

Lemma quiet_ready_ds has_led use_uhid w :
  quiet (turn_ready_ds kernel fuel powf sin uhid_bytes idx e has_led use_uhid w) (fun r => same_fds idx w r.1).
Proof.
  unfold turn_ready_ds. apply (quiet_then w _ _ _ _ w); [done | apply quiet_external |]. intros w1 H1.
  eapply quietly_bind with (P := fun r => same_fds idx w r.1).
  - apply quiet_if; [|by apply quietly_ret]. eapply quietly_mono; [apply quiet_report|].
    intros r Hr. by etransitivity.
  - intros [w2 go] H2. cbn [fst] in H2. destruct (negb go); [by apply quietly_ret|].
    apply (quiet_then w2 _ _ _ _ w); [done | apply quiet_uinput |]. intros w3 H3.
    apply (quiet_then w3 _ _ _ _ w); [done | apply quiet_uhid |]. intros w4 H4. by apply quietly_ret.
Qed.

(** What the pipelines send keeps the type, and the descriptors of the context. *)
Lemma quiet_rumble_pipeline (send : controller_t -> nsw_context_t -> io (controller_t * nsw_context_t)) now s ctx last :
  (forall s c, quiet (send s c) (fun r => slot_kept s r.1 /\ nsw_fds r.2 = nsw_fds c)) ->
  quiet (rumble_process_pipeline sin send now s ctx last)
    (fun r => let '(s', c', _, _) := r in slot_kept s s' /\ nsw_fds c' = nsw_fds ctx).
Proof.
  intros Hs. unfold rumble_process_pipeline. cbv zeta. pose proof (pipeline_periodic_same sin now s) as Hp.
  set (s1 := pipeline_periodic sin now s) in *. clearbody s1. destruct (_ && _); [|by apply quietly_ret].
  eapply quietly_bind; [apply Hs|]. intros [s2 c2] [T F]. apply quietly_ret. split; [|done].
  exact (transitivity Hp T).
Qed.

Lemma quiet_led_pipeline (send : controller_t -> io controller_t) now s last :
  (forall s, quiet (send s) (slot_kept s)) ->
  quiet (led_process_pipeline send now s last) (fun r => slot_kept s r.1.1).
Proof.
  intros Hs. unfold led_process_pipeline. cbv zeta. destruct (_ && _); [by apply quietly_ret|].
  destruct (_ <=? _); [|by apply quietly_ret].
  eapply quietly_bind; [apply Hs|]. intros s1 T. apply quiet_if; apply quietly_ret; exact T.
Qed.

Lemma quiet_output has_led dirty w :
  quiet (turn_output kernel fuel sin crc32 e has_led dirty w) (same_fds idx w).
Proof.
  unfold turn_output. cbv zeta. eapply quietly_bind; [apply quiet_rumble_pipeline|].
  - intros s c. apply quiet_if.
    + eapply quietly_bind; [apply quiet_send_rumble|]. intros c' Hc. by apply quietly_ret.
    + eapply quietly_bind; [apply quiet_send_report|]. intros _ _. by apply quietly_ret.
  - intros [[[s1 c1] t1] wrote] [T F].
    set (w1 := (put_wnsw c1 (put_wslot s1 w)) {{ w_last_rumble_out := t1 }}).
    assert (same_fds idx w w1) as H1.
    { apply (same_fds_times idx _ w t1 t1 t1 t1), same_fds_nsw; [by apply same_fds_slot | done]. }
    clearbody w1. eapply quietly_bind with (P := fun r => slot_kept (w_slot w1) r.1.1).
    + apply quiet_if; [|by apply quietly_ret]. apply quiet_led_pipeline.
      intros s. eapply quietly_bind; [apply quiet_send_report|]. intros _ _. by apply quietly_ret.
    + intros [[s2 t2] lwrote] T2. apply quietly_ret. cbn [fst] in T2.
      set (w2 := (put_wslot s2 w1) {{ w_last_led_out := t2 }}).
      assert (same_fds idx w w2) as H2 by (apply (same_fds_times idx _ w t2 t2 t2 t2), same_fds_slot; done).
      clearbody w2. destruct (wrote || lwrote); [|done].
      apply (same_fds_times idx w2 w tv_zero tv_zero (te_write e) tv_zero). done.
Qed.

Lemma quiet_finish has_led dirty w0 r :
  same_fds idx w0 r.1 ->
  quiet (let '(w, go) := r in
         if go : bool then w ← turn_output kernel fuel sin crc32 e has_led dirty w; mret (w, true)
         else mret (w, false)) (fun r => same_fds idx w0 r.1).
Proof.
  destruct r as [w go]. intros H. apply quiet_if; [|by apply quietly_ret].
  eapply quietly_bind; [apply quiet_output|]. intros w' H'. apply quietly_ret. by etransitivity.
Qed.

Lemma quiet_poll has_led use_uhid dirty w :
  quiet (turn_poll kernel fuel powf sin crc32 uhid_bytes idx e has_led use_uhid dirty w) (fun r => same_fds idx w r.1).
Proof.
  unfold turn_poll. apply quiet_if.
  - eapply quietly_bind; [apply quiet_poll_nsw|]. intros r Hr. by apply quiet_finish.
  - quiet_step; [quiet_step|]. apply quiet_if; [by apply quietly_ret|].
    eapply quietly_bind with (P := fun r => same_fds idx w r.1).
    + apply quiet_if; [apply quiet_ready_ds | by apply quietly_ret].
    + intros r Hr. by apply quiet_finish.
Qed.
End quiet_turn.

(** ** What a worker holds *)

Definition ctx_fds (ctx : nsw_context_t) : list Z :=
  if initialized ctx then [event_fd ctx; inotify_fd ctx] else [].
Definition worker_fds (w : worker) : list Z :=
  [w_fd w; w_ino w; v_ufd (w_dev w); v_uhid_fd (w_dev w)] ++ ctx_fds (w_nsw w).

Lemma ctx_fds_same c c' : nsw_fds c' = nsw_fds c -> ctx_fds c' = ctx_fds c.
Proof. unfold nsw_fds, ctx_fds. by intros [= -> -> ->]. Qed.
Lemma worker_fds_same idx w w' : same_fds idx w w' -> worker_fds w' = worker_fds w.
Proof.
  intros [? ? ? ? ? ? Hn ? ?]. unfold worker_fds. rewrite (ctx_fds_same _ _ Hn). congruence.
Qed.

(** A Switch context is in use for a Switch controller only. *)
Definition ctx_of_type (t : controller_type_t) (c : nsw_context_t) : Prop :=
  t <> TYPE_NSW_PRO -> initialized c = false.
Lemma ctx_of_type_same t c c' : nsw_fds c' = nsw_fds c -> ctx_of_type t c -> ctx_of_type t c'.
Proof. unfold nsw_fds, ctx_of_type. by intros [= -> _ _]. Qed.

(** The others never change the type of a slot that has a worker. *)
Definition others_ok (idx : Z) (e : turn_env) : Prop :=
  forall shm, length (slots (te_others e shm)) = length (slots shm) /\
    ctype (get_slot (te_others e shm) idx) = ctype (get_slot shm idx).

Section life.
Context (kernel : kernel_t) (fuel : nat).
Context (powf : float -> float -> float) (cosf sinf sin : float -> float)
  (fmod fmodf : float -> float -> float) (crc32 : Z -> list Z -> Z)
  (user_dev : Z -> list Z) (uhid_bytes : uhid_event -> list Z)
  (fmt_name fmt_phys : Z -> string) (fmt_uniq : Z -> Z -> string) (time_now : Z) (idx : Z).

(** The invariant of the loop: what has been opened since [h0] is held, the
    virtual device is as the worker thinks. *)
Record worker_inv (h0 h : list sysop) (w : worker) : Prop := mk_worker_inv {
  wi_holds : holds kernel h0 h (worker_fds w);
  wi_vdev : vdev_open kernel h (w_dev w);
  wi_memory : memory_ok idx w;
  wi_ctx : ctx_of_type (ctype (w_slot w)) (w_nsw w) }.

Lemma vdev_open_same h h' v v' :
  fds_same kernel h h' -> v_ufd v' = v_ufd v -> v_uhid_fd v' = v_uhid_fd v -> v_poll_fd v' = v_poll_fd v ->
  vdev_open kernel h v -> vdev_open kernel h' v'.
Proof. intros Hs E1 E2 E3 [? ? ?]. split; rewrite ?E1, ?E2, ?E3, ?(Hs _); done. Qed.

Lemma inv_same h0 h h' w w' :
  same_fds idx w w' -> fds_same kernel h h' -> worker_inv h0 h w -> worker_inv h0 h' w'.
Proof.
  intros Hs Hf [H1 H2 [H3 H3'] H4]. pose proof (worker_fds_same _ _ _ Hs) as Ew.
  pose proof (sf_len _ _ _ Hs) as Hl. destruct Hs as [? ? ? ? ? Et%slot_kept_type Hn _ _]. split.
  - rewrite Ew. by eapply holds_same.
  - by eapply vdev_open_same.
  - split; [done | congruence].
  - rewrite Et. by eapply ctx_of_type_same.
Qed.

Lemma inv_quietly {A} (m : io A) (f : A -> worker) w h0 h x h' :
  quietly kernel m (fun r => same_fds idx w (f r)) -> m h = Some (x, h') ->
  worker_inv h0 h w -> worker_inv h0 h' (f x) /\ same_fds idx w (f x).
Proof. intros Hm E H. destruct (Hm _ _ _ E) as [Hs Hf]. split; [by eapply inv_same | done]. Qed.

(** After the others. *)
Lemma inv_load h0 h w shm :
  length (slots shm) = length (slots (w_shm w)) -> ctype (get_slot shm idx) = ctype (w_slot w) ->
  worker_inv h0 h w -> worker_inv h0 h (load_memory idx shm w).
Proof.
  intros Hl Ht [H1 H2 [H3 H3'] H4]. split; [exact H1 | by destruct H2 | | ].
  - split; [done | exact (eq_trans Hl H3')].
  - unfold ctx_of_type in *. intros Hn. apply H4. by rewrite <- Ht.
Qed.

(** *** The virtual device *)

Lemma manage_vdev_keeps setup create destroy emu uhid v h v' h' :
  manage_vdev kernel setup create destroy idx emu uhid v h = Some (v', h') ->
  slot_kept (v_slot v) (v_slot v') /\ nsw_fds (v_nsw v') = nsw_fds (v_nsw v).
Proof.
  assert (forall fd v, nsw_fds (tell_nsw fd v) = nsw_fds (v_nsw v)) as Ht.
  { intros fd v0. unfold tell_nsw, nsw_set_uhid_fd. repeat bcase; reflexivity. }
  unfold manage_vdev, close_uinput, close_uhid, unpoll, mbind, io_bind, mret, io_ret, sys_.
  repeat case_match; intros; simplify_eq; cbn; rewrite ?Ht; (split; [frame_done | reflexivity]).
Qed.

Lemma turn_vdev_inv e emu uhid h0 w h w' h' :
  turn_vdev kernel fuel user_dev uhid_bytes fmt_name fmt_phys fmt_uniq time_now idx e emu uhid w h = Some (w', h') ->
  worker_inv h0 h w -> worker_inv h0 h' w' /\ slot_kept (w_slot w) (w_slot w') /\
    shm_same (worker_memory idx w) (worker_memory idx w') /\
    (if emu : bool then if uhid : bool then v_ufd (w_dev w') = -1 else v_uhid_fd (w_dev w') = -1
     else v_ufd (w_dev w') = -1 /\ v_uhid_fd (w_dev w') = -1).
Proof.
  unfold turn_vdev. intros E [H1 H2 H3 H4]. apply io_bind_inv in E as (v & h1 & Ev & [= <- <-]).
  destruct (manage_vdev_keeps _ _ _ _ _ _ _ _ _ Ev) as [Es En].
  destruct (fun Hs Hc => manage_vdev_spec kernel _ _ _ (Hsetup := Hs) (Hcreate := Hc) idx emu uhid _ _ _ _ H2 Ev)
    as (Hv & _ & Hk & Hfd); [intros; apply _ | intros; apply _ |].
  split; [|split; [exact Es|]; split; [exact (put_slot_mono (w_shm w) idx _ _ Es) | done]].
  split; [|done|done|].
  - cut (holds kernel h0 h1 ([w_fd w; w_ino w; v_ufd v; v_uhid_fd v] ++ ctx_fds (v_nsw v))); [exact id|].
    rewrite (ctx_fds_same _ _ En).
    intros fd Hfd'. destruct (Hfd fd Hfd') as [[_ [->| ->]]|(Ho & N1 & N2)].
    1,2: right; cbn; auto.
    destruct (H1 fd Ho) as [?|Hin]; [by left|]. right. unfold worker_fds, w_nsw in *.
    cbn [app] in *. destruct Hin as [?|[?|[?|[?|?]]]]; cbn; auto; congruence.
  - cut (ctx_of_type (ctype (v_slot v)) (v_nsw v)); [exact id|]. rewrite (slot_kept_type _ _ Es). by eapply ctx_of_type_same.
Qed.

(** *** The loop *)

Lemma turn_checks_keeps e s c s' c' go :
  turn_checks e s c = (s', c', go) -> slot_kept s s' /\ nsw_fds c' = nsw_fds c.
Proof.
  unfold turn_checks. destruct (_ || _); [by intros [= <- <- _]|]. cbv zeta.
  pose proof (layout_requests_same s) as Ht. set (s1 := layout_requests s) in *. clearbody s1.
  destruct (bool_decide _); [|by intros [= <- <- _]].
  pose proof (nsw_monitor_fds (te_nsw_inotify e) c). destruct (nsw_monitor _ _).
  by intros [= <- <- _].
Qed.

(** The sign of life a turn begins with. *)
Definition beat (i t : Z) (shm : shared_data_t) : shared_data_t :=
  put_slot shm i ((get_slot shm i) {{ worker_heartbeat := t }}).

(** One turn after the others have acted. *)
Lemma worker_turn_spec e has_led h0 w h w' go h' :
  others_ok idx e ->
  worker_turn kernel fuel powf cosf sinf sin fmod fmodf crc32 user_dev uhid_bytes fmt_name fmt_phys fmt_uniq
    time_now idx e has_led w h = Some ((w', go), h') ->
  worker_inv h0 h w ->
  worker_inv h0 h' w' /\ ctype (w_slot w') = ctype (w_slot w) /\
  shm_same (beat idx (te_time_us e) (te_others e (worker_memory idx w))) (worker_memory idx w').
Proof.
  intros Hoth E Hinv. unfold worker_turn in E. cbv zeta in E.
  pose proof (worker_memory_slot idx w (wi_memory _ _ _ Hinv)) as Ms.
  destruct (Hoth (worker_memory idx w)) as [Ol Ot]. rewrite Ms in Ot.
  unfold worker_memory in Ol at 2. rewrite length_put_slot in Ol.
  pose proof (inv_load h0 h w _ Ol Ot Hinv) as I1.
  set (w1 := load_memory idx _ w) in *. set (shm1 := te_others e _) in *.
  set (b := (w_slot w1) {{ worker_heartbeat := te_time_us e }}) in E. set (wb := put_wslot b w1).
  assert (worker_inv h0 h wb) as Ib
    by (destruct I1 as [A D M Ct]; split; [exact A | by destruct D | exact M | exact Ct]).
  assert (ctype (w_slot wb) = ctype (w_slot w)) as T1 by exact Ot.
  assert (shm_same (beat idx (te_time_us e) shm1) (worker_memory idx wb)) as M1 by reflexivity.
  destruct (turn_checks _ _ _) as [[s2 c2] ok] eqn:Ec. apply turn_checks_keeps in Ec as [Ts Tc].
  assert (same_fds idx wb (put_wnsw c2 (put_wslot s2 w1))) as H2.
  { change (put_wslot s2 w1) with (put_wslot s2 wb). apply same_fds_nsw; [by apply same_fds_slot | done]. }
  set (w2 := put_wnsw c2 (put_wslot s2 w1)) in *.
  clearbody w2 wb. pose proof (inv_same _ _ _ _ _ H2 (fds_same_refl kernel h) Ib) as I2.
  pose proof (slot_kept_type _ _ (sf_slot _ _ _ H2)) as T2. pose proof (sf_mem _ _ _ H2) as M2.
  destruct (negb ok).
  { injection E as <- _ <-. split; [done|]. split; [congruence | exact (transitivity M1 M2)]. }
  apply io_bind_inv in E as (w3 & h3 & E3 & E).
  destruct (turn_vdev_inv _ _ _ _ _ _ _ _ E3 I2) as (I3 & T3%slot_kept_type & M3 & _).
  apply io_bind_inv in E as (w4 & h4 & E4 & E).
  destruct (quiet_effects kernel _ _ _ _ _ _ _ _ (wi_memory _ _ _ I3) _ _ _ E4) as [H4 F4].
  assert (worker_inv h0 h3 (w3 {{ w_led := w_led w4 }})) as I3' by (by destruct I3).
  pose proof (inv_same _ _ _ _ _ H4 F4 I3') as I4.
  change (shm_same (worker_memory idx w2) (worker_memory idx (w3 {{ w_led := w_led w4 }}))) in M3.
  change (ctype (w_slot (w3 {{ w_led := w_led w4 }})) = ctype (w_slot w2)) in T3.
  destruct (inv_quietly _ fst _ _ _ _ _ (quiet_poll _ _ _ _ _ _ _ _ _ _ _ _) E I4) as [I5 H5].
  cbn [fst] in *. pose proof (transitivity H4 H5) as H45. split; [done|].
  split; [pose proof (slot_kept_type _ _ (sf_slot _ _ _ H45)); congruence|].
  exact (transitivity M1 (transitivity M2 (transitivity M3 (sf_mem _ _ _ H45)))).
Qed.

Lemma worker_loop_inv turns has_led h0 w h w' h' :
  Forall (others_ok idx) turns ->
  worker_loop kernel fuel powf cosf sinf sin fmod fmodf crc32 user_dev uhid_bytes fmt_name fmt_phys fmt_uniq
    time_now idx turns has_led w h = Some (w', h') ->
  worker_inv h0 h w -> worker_inv h0 h' w' /\ ctype (w_slot w') = ctype (w_slot w).
Proof.
  intros Ho. revert w h. induction Ho as [|e turns He Ho IH]; intros w h; cbn [worker_loop].
  - by intros [= <- <-].
  - intros E H. apply io_bind_inv in E as ([w1 go] & h1 & E1 & E).
    destruct (worker_turn_spec _ _ _ _ _ _ _ _ He E1 H) as (I1 & T1 & _).
    destruct go; [|by injection E as <- <-]. destruct (IH _ _ E I1). split; [done | congruence].
Qed.

End life.

(** *** The end *)

Section exit_life.
Context (kernel : kernel_t) (fuel : nat) (uhid_bytes : uhid_event -> list Z) (idx : Z).

Lemma sys_close_holds fd h0 h l r h' :
  sys_ kernel (SysClose fd) h = Some (r, h') -> holds kernel h0 h (fd :: l) -> holds kernel h0 h' l.
Proof. intros [= _ <-]. apply holds_close. Qed.

Lemma close_if_holds fd h0 h l u h' :
  (if 0 <=? fd then _ ← sys_ kernel (SysClose fd); mret tt else mret tt) h = Some (u, h') ->
  holds kernel h0 h (fd :: l) -> holds kernel h0 h' l.
Proof.
  destruct (Z.leb_spec 0 fd) as [Hp|Hn].
  - intros E. apply io_bind_inv in E as (r & h1 & E & [= _ <-]). by eapply sys_close_holds.
  - intros [= _ <-]. apply holds_incl. intros fd' ? [<-|?]; [lia | done].
Qed.

Lemma nsw_cleanup_holds ctx h0 h l ctx' h' :
  nsw_cleanup kernel fuel ctx h = Some (ctx', h') ->
  holds kernel h0 h (l ++ ctx_fds ctx) -> holds kernel h0 h' l /\ initialized ctx' = false.
Proof.
  unfold nsw_cleanup, ctx_fds. destruct (initialized ctx) eqn:Ei; cbn [negb].
  2:{ intros [= <- <-]. by rewrite app_nil_r. }
  intros E H. cbv zeta in E. set (c0 := ctx {{ is_active := false }}) in E.
  change (event_fd ctx) with (event_fd c0) in H. change (inotify_fd ctx) with (inotify_fd c0) in H.
  clearbody c0. apply io_bind_inv in E as (c1 & h1 & E1 & E).
  destruct (quiet_stop_active kernel fuel c0 _ _ _ E1) as [[= _ Ee Eino] F1].
  rewrite <- Ee, <- Eino in H.
  assert (holds kernel h0 h1 (inotify_fd c1 :: event_fd c1 :: l)) as H1.
  { eapply holds_same; [exact F1|]. eapply holds_incl; [|exact H].
    intros fd _ Hin. apply in_app_iff in Hin. cbn in *. tauto. }
  apply io_bind_inv in E as (c2 & h2 & E2 & E). apply io_bind_inv in E as (c3 & h3 & E3 & [= <- <-]).
  split; [|done].
  assert (holds kernel h0 h2 (event_fd c1 :: l) /\ event_fd c2 = event_fd c1) as [H2 Ee2].
  { destruct (Z.leb_spec 0 (inotify_fd c1)).
    - apply io_bind_inv in E2 as (r & hx & Er & [= <- <-]). split; [|done]. by eapply sys_close_holds.
    - injection E2 as <- <-. split; [|done]. eapply holds_incl; [|exact H1].
      intros fd ? [<-|?]; [lia | done]. }
  rewrite <- Ee2 in H2. destruct (Z.leb_spec 0 (event_fd c2)).
  - apply io_bind_inv in E3 as (r & hx & Er & [= <- <-]). by eapply sys_close_holds.
  - injection E3 as <- <-. eapply holds_incl; [|exact H2]. intros fd ? [<-|?]; [lia | done].
Qed.

Lemma close_devices_holds v h0 h l u h' :
  worker_close_devices kernel (uhid_destroy kernel fuel uhid_bytes) v h = Some (u, h') ->
  holds kernel h0 h (v_ufd v :: v_uhid_fd v :: l) -> holds kernel h0 h' l.
Proof.
  unfold worker_close_devices. intros E H. apply io_bind_inv in E as (u1 & h1 & E1 & E).
  assert (holds kernel h0 h1 (v_uhid_fd v :: l)) as H1.
  { destruct (Z.leb_spec 0 (v_ufd v)).
    - apply io_bind_inv in E1 as (a & hx & [= _ <-] & E1).
      apply (close_if_holds (v_ufd v) h0 (SysIoctl (v_ufd v) "UI_DEV_DESTROY" 0 :: h) _ u1).
      + destruct (Z.leb_spec 0 (v_ufd v)); [exact E1 | lia].
      + eapply holds_same, H. by apply keeps_fds_same.
    - injection E1 as _ <-. eapply holds_incl; [|exact H]. intros fd ? [<-|?]; [lia | done]. }
  destruct (Z.leb_spec 0 (v_uhid_fd v)) as [Hp|].
  - intros fd Hfd. rewrite (device_closer _ _ _ _ Hp E) in Hfd. apply andb_prop in Hfd as [Hn Ho].
    destruct (H1 fd Ho) as [?|[?|?]]; [by left | zprop; congruence | by right].
  - injection E as _ <-. eapply holds_incl; [|exact H1]. intros fd ? [<-|?]; [lia | done].
Qed.

Lemma worker_exit_holds h0 w h w' h' :
  worker_exit kernel fuel uhid_bytes w h = Some (w', h') -> worker_inv kernel idx h0 h w ->
  no_leak kernel h0 h' /\ initialized (w_nsw w') = false /\ w_shm w' = w_shm w.
Proof.
  unfold worker_exit. intros E [H _ _ Hc]. apply io_bind_inv in E as (w1 & h1 & E1 & E).
  assert (holds kernel h0 h1 [w_ino w1; v_ufd (w_dev w1); v_uhid_fd (w_dev w1); w_fd w1] /\
    initialized (w_nsw w1) = false /\ w_shm w1 = w_shm w) as (H1 & Hi & Hw).
  { assert (holds kernel h0 h ([w_ino w; v_ufd (w_dev w); v_uhid_fd (w_dev w); w_fd w] ++ ctx_fds (w_nsw w))) as H0.
    { eapply holds_incl; [|exact H]. unfold worker_fds. cbn. tauto. }
    destruct (bool_decide_reflect (ctype (w_slot w) = TYPE_NSW_PRO)) as [Ht|Ht].
    - apply io_bind_inv in E1 as (c & hx & Ec & [= <- <-]). by destruct (nsw_cleanup_holds _ _ _ _ _ _ Ec H0).
    - injection E1 as <- <-. specialize (Hc Ht). split; [|by split].
      unfold ctx_fds in H0. by rewrite Hc, app_nil_r in H0. }
  apply io_bind_inv in E as (u & h2 & E2 & E). pose proof (close_if_holds _ _ _ _ _ _ E2 H1) as H2.
  apply io_bind_inv in E as (u' & h3 & E3 & E). pose proof (close_devices_holds _ _ _ _ _ _ E3 H2) as H3.
  apply io_bind_inv in E as (r & h4 & E4 & [= <- <-]).
  split; [|by split]. apply holds_no_leak. by eapply sys_close_holds.
Qed.

Lemma given_back_spec shm c :
  valid_slot idx -> length (slots shm) = MAX_SLOTS -> connected c = false ->
  let shm' := mark_slot_free (put_slot shm idx c) idx in
  connected (get_slot shm' idx) = false /\ bit (free_slots_bitmap shm') idx = true.
Proof.
  intros Hi Hl Hc. cbv zeta. rewrite mark_free_eq by done. split.
  - cut (connected (get_slot (put_slot shm idx c) idx) = false); [exact id|].
    destruct Hi. by rewrite get_put_slot_eq by lia.
  - cut (bit (u8 (Z.lor (free_slots_bitmap (put_slot shm idx c)) (Z.shiftl 1 idx))) idx = true); [exact id|].
    by rewrite free_bit, Z.eqb_refl.
Qed.

End exit_life.

(** *** The start *)

Section start_life.
Context (kernel : kernel_t) (fuel : nat) (idx : Z) (se : start_env).

Lemma setup_inotify_holds ctx h0 h l r h' :
  nsw_setup_inotify kernel ctx h = Some (r, h') -> holds kernel h0 h l ->
  holds kernel h0 h' (inotify_fd r.1 :: l) /\ event_fd r.1 = event_fd ctx.
Proof.
  unfold nsw_setup_inotify. intros E H. apply io_bind_inv in E as (fd & h1 & E1 & E).
  pose proof (holds_sys_ _ _ _ _ _ _ _ E1 H) as H1. destruct (fd <? 0); [by injection E as <- <-|].
  cbv zeta in E. apply io_bind_inv in E as (wd & h2 & [= _ <-] & E).
  assert (holds kernel h0 (SysInotifyWatch fd (default "/dev/input"%string (before_last_slash (event_path ctx))) :: h1)
    (fd :: l)) as H2 by (eapply holds_same, H1; by apply keeps_fds_same).
  destruct (wd <? 0).
  - apply io_bind_inv in E as (u & h3 & E3 & [= <- <-]). split; [|done].
    eapply holds_incl; [|by eapply sys_close_holds]. intros; by right.
  - injection E as <- <-. by split.
Qed.

Lemma nsw_find_type dev_name l s h s' fd h' :
  nsw_find_loop kernel dev_name l s h = Some ((s', fd), h') -> ctype s' = ctype s.
Proof.
  revert h. induction l as [|en l IH]; intros h; cbn [nsw_find_loop]; [by intros [= <- _ _]|].
  destruct (negb _); [apply IH|]. unfold mbind, io_bind, sys_. cbv beta iota.
  destruct (_ <? 0); [apply IH|]. destruct (_ <? 0); [apply IH|].
  destruct (is_pro_controller _); [by intros [= <- _ _] | apply IH].
Qed.

Lemma nsw_init_holds name pid now entries link rumble s ctx h0 h l s' ctx' ok h' :
  nsw_init kernel fuel name idx pid now entries link rumble s ctx h = Some ((s', ctx', ok), h') ->
  initialized ctx = false -> holds kernel h0 h l ->
  ctype s' = ctype s /\ holds kernel h0 h' (ctx_fds ctx' ++ l) /\ (ok = false -> initialized ctx' = false).
Proof.
  unfold nsw_init. intros E Hi H. rewrite Hi in E. apply io_bind_inv in E as ([s1 fd] & h1 & E1 & E).
  assert (ctype s1 = ctype s /\ holds kernel h0 h1 (fd :: l)) as [Ht H1].
  { unfold nsw_find_evdev_device in E1. destruct entries as [es|].
    - split; [by eapply nsw_find_type|]. apply nsw_find_loop_fds in E1 as [_ Hf].
      intros fd' Hfd. destruct (Hf fd' Hfd) as [Ho|[-> _]]; [|right; by left].
      destruct (H fd' Ho); [by left | right; by right].
    - injection E1 as <- <- <-. split; [done|]. eapply holds_incl, H. intros; by right. }
  destruct (Z.ltb_spec fd 0) as [Hn|Hp].
  { injection E as <- <- <- <-. split; [done|]. split; [|done].
    eapply holds_incl; [|exact H1]. intros fd' ? [<-|?]; [lia | done]. }
  apply io_bind_inv in E as ([c2 b2] & h2 & E2 & E).
  destruct (setup_inotify_holds _ _ _ _ _ _ E2 H1) as [H2 Ee]. cbn [fst] in *.
  apply io_bind_inv in E as (bits & h3 & [= _ <-] & E). apply io_bind_inv in E as (x & h4 & E4 & [= <- <- <- <-]).
  split; [done|]. split; [|done].
  assert (fds_same kernel h2 h4) as F.
  { eapply fds_same_trans; [by apply (keeps_fds_same kernel (SysIoctl fd "EVIOCGBIT" EV_FF))|].
    destruct (_ && _); [by eapply safe_write_fds | by injection E4 as _ <-]. }
  assert (event_fd c2 = fd) as Ef by (rewrite Ee; by destruct link).
  cut (holds kernel h0 h4 ([event_fd c2; inotify_fd c2] ++ l)); [exact id|]. rewrite Ef.
  eapply holds_same; [exact F|]. eapply holds_incl; [|exact H2]. intros fd' _. cbn. tauto.
Qed.

Lemma store_nodes_holds paths i s h0 h l s' h' :
  store_input_nodes kernel se paths i s h = Some (s', h') -> holds kernel h0 h l ->
  ctype s' = ctype s /\ holds kernel h0 h' l.
Proof.
  revert i s h. induction paths as [|p paths IH]; intros i s h; cbn [store_input_nodes]; [by intros [= <- <-]|].
  intros E H. apply io_bind_inv in E as (fd & h1 & E1 & E).
  pose proof (holds_sys_ _ _ _ _ _ _ _ E1 H) as H1. apply io_bind_inv in E as (nm & h2 & E2 & E).
  destruct (fun Hh => IH _ _ _ E Hh) as [Ht Hh]; [|by split].
  destruct (Z.leb_spec 0 fd).
  - apply io_bind_inv in E2 as (r & h3 & [= _ <-] & E2). apply io_bind_inv in E2 as (u & h4 & E4 & [= _ <-]).
    eapply sys_close_holds; [exact E4|]. eapply holds_same, H1. by apply keeps_fds_same.
  - injection E2 as _ <-. eapply holds_incl, H1. intros fd' ? [<-|?]; [lia | done].
Qed.

Lemma open_event_holds test nodes h0 h l fd h' :
  open_event kernel test nodes h = Some (fd, h') -> holds kernel h0 h l -> holds kernel h0 h' (fd :: l).
Proof.
  revert h. induction nodes as [|n nodes IH]; intros h; cbn [open_event].
  { intros [= <- <-] H. eapply holds_incl, H. intros; by right. }
  destruct (test n); [|apply IH]. intros E H. apply io_bind_inv in E as (f & h1 & E1 & E).
  pose proof (holds_sys_ _ _ _ _ _ _ _ E1 H) as H1. destruct (Z.leb_spec 0 f).
  - by injection E as <- <-.
  - eapply IH; [exact E|]. eapply holds_incl, H1. intros fd' ? [<-|?]; [lia | done].
Qed.

Lemma start_watch_holds path h0 h l ino h' :
  start_watch kernel path h = Some (ino, h') -> holds kernel h0 h l -> holds kernel h0 h' (ino :: l).
Proof.
  unfold start_watch. intros E H. apply io_bind_inv in E as (fd & h1 & E1 & E).
  pose proof (holds_sys_ _ _ _ _ _ _ _ E1 H) as H1. destruct (0 <=? fd); [|by injection E as <- <-].
  apply io_bind_inv in E as (wd & h2 & E2 & E).
  assert (holds kernel h0 h2 (fd :: l)) as H2.
  { injection E2 as _ <-. eapply holds_same, H1. by apply keeps_fds_same. }
  destruct (wd <? 0); [|by injection E as <- <-].
  apply io_bind_inv in E as (u & h3 & E3 & [= <- <-]).
  eapply holds_incl; [|by eapply sys_close_holds]. intros; by right.
Qed.

Lemma quiet_revents : quietly kernel (revents_pollin se) (fun _ => True).
Proof. intros h b h' [= <- <-]. by split. Qed.

Lemma quiet_handshake n fd : quietly kernel (bt_handshake kernel se n fd) (fun _ => True).
Proof.
  induction n as [|n IH]; cbn [bt_handshake]; [by apply quietly_ret|].
  eapply quietly_bind with (P := fun _ => True); [|intros [] _; [by apply quietly_ret | exact IH]].
  unfold is_bt_ready. repeat first [apply quiet_revents | quiet_step]; done.
Qed.

Lemma quiet_flush n fd : quietly kernel (bt_flush kernel n fd) (fun _ => True).
Proof.
  induction n as [|n IH]; cbn [bt_flush]; [done|]. quiet_step; [quiet_step|].
  destruct (0 <? _); [exact IH | by apply quietly_ret].
Qed.

Lemma quiet_metadata fd s : quietly kernel (read_metadata kernel se fd s) (fun s' => ctype s' = ctype s).
Proof. unfold read_metadata. cbv zeta. repeat quiet_step. repeat case_match; reflexivity. Qed.

(** What the thread holds when its start is over, one way or the other. *)
Definition start_holds (h0 h : list sysop) (ctx : nsw_context_t) (fds : option (Z * Z)) : Prop :=
  holds kernel h0 h (match fds with Some (fd, ino) => [fd; ino] | None => [] end ++ ctx_fds ctx).

Lemma give_up_holds {A} fd h0 h (l : list Z) (x y : A) h' :
  (_ ← sys_ kernel (SysClose fd); mret x) h = Some (y, h') ->
  holds kernel h0 h (fd :: l) -> y = x /\ holds kernel h0 h' l.
Proof.
  intros E H. apply io_bind_inv in E as (u & h1 & E1 & [= <- <-]). split; [done | by eapply sys_close_holds].
Qed.

Lemma start_nsw_holds path fd s ctx h0 h s' ctx' r h' :
  start_nsw kernel fuel se idx path fd s ctx h = Some ((s', ctx', r), h') ->
  initialized ctx = false -> holds kernel h0 h [fd] ->
  ctype s' = ctype s /\
  holds kernel h0 h' (match r with Some fd => [fd] | None => [] end ++ ctx_fds ctx').
Proof.
  unfold start_nsw. intros E Hi H. apply io_bind_inv in E as ([s1 found] & h1 & E1 & E).
  assert (ctype s1 = ctype s /\ holds kernel h0 h1 [fd]) as [T1 H1].
  { unfold discover_input_nodes_with_retry in E1. destruct (discover_attempts _ _ _) as [|p ps].
    - by injection E1 as <- _ <-.
    - apply io_bind_inv in E1 as (s2 & h2 & E2 & [= <- _ <-]).
      by destruct (store_nodes_holds _ _ _ _ _ _ _ _ E2 H). }
  assert (forall hx cx s2 s' ctx' r h', ctype s2 = ctype s -> initialized cx = false -> holds kernel h0 hx [fd] ->
    (_ ← sys_ kernel (SysClose fd); mret (s2, cx, None)) hx = Some ((s', ctx', r), h') ->
    ctype s' = ctype s /\ holds kernel h0 h' (match r with Some fd => [fd] | None => [] end ++ ctx_fds ctx')) as Hup.
  { intros hx cx s2 sa ca ra ha Ht Hc Hh Ex.
    destruct (give_up_holds _ _ _ _ _ _ _ Ex Hh) as [[= -> -> ->] ?].
    split; [done|]. unfold ctx_fds. by rewrite Hc. }
  destruct (negb found); [by eapply Hup|].
  apply io_bind_inv in E as ([[s2 c2] ok] & h2 & E2 & E).
  destruct (nsw_init_holds _ _ _ _ _ _ _ _ _ _ _ _ _ _ _ E2 Hi H1) as (T2 & H2 & Hok).
  destruct (negb ok) eqn:Eo.
  { apply negb_true_iff in Eo. specialize (Hok Eo). unfold ctx_fds in H2. rewrite Hok in H2.
    eapply Hup; [| |exact H2|exact E]; [congruence | done]. }
  clear Hup. apply io_bind_inv in E as (u & h3 & E3 & E).
  assert (holds kernel h0 h3 (ctx_fds c2)) as H3.
  { eapply sys_close_holds; [exact E3|]. eapply holds_incl, H2. intros fd' _ [?|?]%in_app_iff; cbn in *; tauto. }
  apply io_bind_inv in E as (f1 & h4 & E4 & E). pose proof (open_event_holds _ _ _ _ _ _ _ E4 H3) as H4.
  apply io_bind_inv in E as (f2 & h5 & E5 & E).
  assert (holds kernel h0 h5 (f2 :: ctx_fds c2)) as H5.
  { destruct (Z.ltb_spec f1 0); [|by injection E5 as <- <-].
    eapply open_event_holds; [exact E5|]. eapply holds_incl, H4. intros fd' ? [<-|?]; [lia | done]. }
  destruct (Z.ltb_spec f2 0).
  - injection E as <- <- <- <-. split; [congruence|]. eapply holds_incl, H5. intros fd' ? [<-|?]; [lia | done].
  - injection E as <- <- <- <-. split; [|exact H5]. destruct (find _ _); [exact (eq_trans T2 T1) | congruence].
Qed.

Lemma worker_start_holds path s ctx h0 h s' ctx' fds h' :
  worker_start kernel fuel se idx path s ctx h = Some ((s', ctx', fds), h') ->
  initialized ctx = false -> holds kernel h0 h [] ->
  ctype s' = ctype s /\ start_holds h0 h' ctx' fds /\ ctx_of_type (ctype s) ctx'.
Proof.
  unfold worker_start, start_holds. intros E Hi H. apply io_bind_inv in E as (fd & h1 & E1 & E).
  pose proof (holds_sys_ _ _ _ _ _ _ _ E1 H) as H1.
  assert (ctx_fds ctx = []) as Hnil by (unfold ctx_fds; by rewrite Hi).
  destruct (Z.ltb_spec fd 0) as [Hn|Hp].
  { injection E as <- <- <- <-. rewrite Hnil. split; [done|]. split; [|by intros _].
    eapply holds_incl, H1. intros fd' ? [<-|?]; [lia | done]. }
  apply io_bind_inv in E as (r & h2 & [= _ <-] & E). cbv zeta in E.
  set (s1 := if r =? 0 then _ else s) in E.
  assert (ctype s1 = ctype s) as T1 by (subst s1; by destruct (r =? 0)). clearbody s1.
  assert (holds kernel h0 (SysIoctl fd "HIDIOCGRAWINFO" 0 :: h1) [fd]) as H2
    by (eapply holds_same, H1; by apply keeps_fds_same).
  apply io_bind_inv in E as (okk & h3 & E3 & E).
  assert (holds kernel h0 h3 [fd]) as H3.
  { destruct (is_bluetooth s1); [|by injection E3 as _ <-].
    eapply holds_quietly; [apply quiet_handshake | exact E3 | done]. }
  destruct (negb okk).
  { destruct (give_up_holds _ _ _ _ _ _ _ E H3) as [[= -> -> ->] H4].
    rewrite Hnil. split; [done|]. split; [done | by intros _]. }
  apply io_bind_inv in E as (u & h4 & E4 & E).
  assert (holds kernel h0 h4 [fd]) as H4.
  { destruct (is_bluetooth s1); [|by injection E4 as _ <-].
    eapply holds_quietly; [apply quiet_flush | exact E4 | done]. }
  apply io_bind_inv in E as (s2 & h5 & E5 & E). destruct (quiet_metadata _ _ _ _ _ E5) as [T2 F5].
  assert (holds kernel h0 h5 [fd]) as H5 by (by eapply holds_same).
  destruct (bool_decide_reflect (ctype s2 = TYPE_NSW_PRO)) as [Ht|Ht].
  - apply io_bind_inv in E as ([[s3 c3] rf] & h6 & E6 & [= <- <- <- <-]).
    destruct (start_nsw_holds _ _ _ _ _ _ _ _ _ _ E6 Hi H5) as [T3 H6].
    split; [congruence|]. split; [|intros Hne; congruence].
    destruct rf; [|exact H6]. eapply holds_incl, H6. intros fd' _. cbn. tauto.
  - apply io_bind_inv in E as (s3 & h6 & E6 & E). apply io_bind_inv in E as (ino & h7 & E7 & [= <- <- <- <-]).
    destruct (store_nodes_holds _ _ _ _ _ _ _ _ E6 H5) as [T3 H6].
    pose proof (start_watch_holds _ _ _ _ _ _ E7 H6) as H7. rewrite Hnil.
    split; [exact (eq_trans T3 (eq_trans T2 T1))|]. split; [|by intros _].
    eapply holds_incl, H7. intros fd' _. cbn. tauto.
Qed.
End start_life.

(** ** The start returns *)

Section start_returns.
Context (kernel : kernel_t) (fuel : nat) (idx : Z) (se : start_env).

Lemma returns_handshake n fd : returns (bt_handshake kernel se n fd).
Proof.
  induction n as [|n IH]; cbn [bt_handshake]; [apply returns_ret|].
  apply returns_bind; [|intros []; [apply returns_ret | exact IH]].
  unfold is_bt_ready. apply returns_bind; [apply returns_sys_|]. intros r.
  apply returns_bind; [|intros b; by repeat returns_step]. intros h. by eexists _, _.
Qed.

(** The flush ends when the device has nothing more. *)
Lemma flush_returns fd j n h :
  (forall h', reads_of fd h' = (reads_of fd h + j)%nat -> (kernel h' (SysRead fd)).1 <= 0) ->
  (j < n)%nat -> exists h', bt_flush kernel n fd h = Some (tt, h').
Proof.
  revert j h. induction n as [|n IH]; intros j h Hj Hn; [lia|]. cbn [bt_flush].
  unfold mbind, io_bind, sys_. cbv beta iota. destruct (Z.ltb_spec 0 (kernel h (SysRead fd)).1); [|by eexists].
  destruct j as [|j]; [specialize (Hj h ltac:(lia)); lia|].
  apply (IH j); [|lia]. intros h' Hh'. apply Hj. cbn [reads_of] in Hh'. rewrite Z.eqb_refl in Hh'. lia.
Qed.

Lemma returns_flush N fd : drains kernel N fd -> (N < fuel)%nat -> returns (bt_flush kernel fuel fd).
Proof.
  intros HN Hf h. destruct (HN h) as (j & Hj & Hr).
  destruct (flush_returns fd j fuel h Hr) as [h' E]; [lia|]. by exists tt, h'.
Qed.

Lemma returns_store_nodes paths i s : returns (store_input_nodes kernel se paths i s).
Proof.
  revert i s. induction paths as [|p paths IH]; intros i s; cbn [store_input_nodes]; [apply returns_ret|].
  returns_step; [returns_step|]. apply returns_bind; [by repeat returns_step|]. intros nm. apply IH.
Qed.

Lemma returns_open_event test nodes : returns (open_event kernel test nodes).
Proof. induction nodes as [|n nodes IH]; cbn [open_event]; by repeat first [exact IH | returns_step]. Qed.

Lemma returns_nsw_find name l s : returns (nsw_find_loop kernel name l s).
Proof. induction l as [|n l IH]; cbn [nsw_find_loop]; cbv zeta; by repeat first [exact IH | returns_step]. Qed.

Lemma returns_nsw_init k name pid now entries link rumble s ctx :
  write_bounded kernel -> eintr_bounded kernel k -> (24 * S k <= fuel)%nat ->
  returns (nsw_init kernel fuel name idx pid now entries link rumble s ctx).
Proof.
  intros Hb He Hf. unfold nsw_init, nsw_find_evdev_device, nsw_setup_inotify. cbv zeta.
  repeat first [apply returns_nsw_find | apply (returns_safe_write kernel k); [done | done | exact Hf] | returns_step].
Qed.

Lemma worker_start_total k N path s ctx :
  write_bounded kernel -> eintr_bounded kernel k ->
  (forall fd, drains kernel N fd) ->
  (N < fuel)%nat -> (24 * S k <= fuel)%nat -> returns (worker_start kernel fuel se idx path s ctx).
Proof.
  intros Hb He HN HNf Hf.
  unfold worker_start, start_nsw, start_ds, start_watch, discover_input_nodes_with_retry, read_metadata. cbv zeta.
  repeat first [apply returns_handshake | apply (returns_flush N); [apply HN | done]
    | apply returns_store_nodes | apply returns_open_event | by apply (returns_nsw_init k) | returns_step].
Qed.
End start_returns.

(** A handshake without an answer is so many polls. *)
Lemma handshake_silent kernel se n fd h :
  (forall h, (kernel h (SysPoll fd BT_HANDSHAKE_TIMEOUT_MS)).1 <= 0) ->
  bt_handshake kernel se n fd h = Some (false, repeat (SysPoll fd BT_HANDSHAKE_TIMEOUT_MS) n ++ h).
Proof.
  intros Hp. revert h. induction n as [|n IH]; intros h; [done|]. cbn [bt_handshake].
  unfold is_bt_ready, mbind, io_bind, sys_, revents_pollin, mret, io_ret. cbv beta iota.
  destruct (Z.ltb_spec 0 (kernel h (SysPoll fd BT_HANDSHAKE_TIMEOUT_MS)).1) as [Hc|_];
    [specialize (Hp h); lia|]. cbn [andb]. rewrite IH. by rewrite repeat_shift.
Qed.

(** * Properties *)

(** A worker gives everything back: when the thread ends, whatever the
    kernel answered, whatever the other threads and processes did to the slot
    and however many turns it made, no descriptor it opened is still open, its
    slot is disconnected and marked free.  The one exception is a Switch
    controller whose context was initialised but none of whose event nodes could
    be opened: the thread then gives up before its loop, and the two descriptors
    of the context stay open. *)
Theorem worker_gives_back kernel fuel powf cosf sinf sin fmod fmodf crc32 user_dev uhid_bytes
  fmt_name fmt_phys fmt_uniq time_now idx se turns path now d led shm ctx h shm' ctx' h' :
  valid_slot idx -> length (slots shm) = MAX_SLOTS -> Forall (others_ok idx) turns ->
  initialized ctx = false ->
  controller_worker kernel fuel powf cosf sinf sin fmod fmodf crc32 user_dev uhid_bytes
    fmt_name fmt_phys fmt_uniq time_now idx se turns path now d led shm ctx h = Some ((shm', ctx'), h') ->
  holds kernel h h' (ctx_fds ctx') /\
  (initialized ctx' = true -> ctype (get_slot shm idx) = TYPE_NSW_PRO /\
     exists slot, worker_start kernel fuel se idx path (get_slot shm idx) ctx h = Some ((slot, ctx', None), h')) /\
  connected (get_slot shm' idx) = false /\ bit (free_slots_bitmap shm') idx = true.
Proof.
  intros Hi Hl Ho Hc E. unfold controller_worker in E.
  apply io_bind_inv in E as ([[s1 c1] fds] & h1 & E1 & E).
  pose proof E1 as E0. eapply worker_start_holds in E1 as (T1 & H1 & O1); [|exact Hc | apply holds_refl].
  unfold start_holds in H1. destruct fds as [[fd ino]|].
  - apply io_bind_inv in E as (w1 & h2 & E2 & E).
    apply io_bind_inv in E as (w2 & h3 & E3 & E).
    apply io_bind_inv in E as (w3 & h4 & E4 & [= <- <- <-]).
    set (w0 := mk_worker _ _ _ _ _ _ _ _ _ _) in E2.
    assert (worker_inv kernel idx h h1 w0) as I0.
    { split; [|split; auto|by split|by rewrite <- T1 in O1].
      eapply holds_incl, H1. intros fd' _. cbn. tauto. }
    assert (worker_inv kernel idx h h2 w1) as I1.
    { destruct (negb _); [|by injection E2 as <- <-].
      eapply (inv_quietly kernel idx _ (fun x => x)); [apply quiet_initial_output | exact E2 | exact I0]. }
    eapply worker_loop_inv in E3 as [I2 _]; [|exact Ho | exact I1].
    destruct (wi_memory _ _ _ _ _ I2) as [_ Hl2].
    eapply worker_exit_holds in E4 as (Hleak & Hni & Hw); [|exact I2].
    unfold ctx_fds. rewrite Hni. split; [by apply holds_no_leak|]. split; [done|].
    apply given_back_spec; [done | unfold worker_memory; rewrite length_put_slot; congruence | done].
  - injection E as <- <- <-. split; [done|]. split.
    + intros Hini. split; [|by exists s1].
      destruct (decide (ctype (get_slot shm idx) = TYPE_NSW_PRO)) as [?|Hn]; [done|].
      specialize (O1 Hn). congruence.
    + apply given_back_spec; [done | by rewrite length_put_slot | done].
Qed.

(** C15: a worker never hangs while it starts: if of [N + 1] reads
    of a device in a row one finds nothing and the same write is interrupted at most [k]
    times in a row, the start returns, with a device or without.  A Bluetooth
    controller that does not answer is given up after twenty polls, its
    descriptor closed. *)
Theorem worker_start_returns kernel fuel se idx path slot ctx k N h :
  write_bounded kernel -> eintr_bounded kernel k ->
  (forall fd, drains kernel N fd) ->
  (N < fuel)%nat -> (24 * S k <= fuel)%nat ->
  (exists slot' ctx' fds h', worker_start kernel fuel se idx path slot ctx h = Some ((slot', ctx', fds), h')) /\
  let fd := (kernel h (SysOpen path)).1 in
  let info := SysIoctl fd "HIDIOCGRAWINFO" 0 in
  (0 <= fd -> (kernel (SysOpen path :: h) info).1 = 0 -> se_bustype se = 5 ->
   (forall h, (kernel h (SysPoll fd BT_HANDSHAKE_TIMEOUT_MS)).1 <= 0) ->
   worker_start kernel fuel se idx path slot ctx h =
     Some ((slot {{ is_bluetooth := true }}, ctx, None),
           SysClose fd :: repeat (SysPoll fd BT_HANDSHAKE_TIMEOUT_MS) 20 ++ [info; SysOpen path] ++ h)).
Proof.
  intros Hb He HN HNf Hf. split.
  - destruct (worker_start_total kernel fuel idx se k N path slot ctx Hb He HN HNf Hf h) as ([[s c] f] & h' & E).
    by exists s, c, f, h'.
  - cbv zeta. intros Hfd Hi Ht Hp. unfold worker_start.
    set (fd := (kernel h (SysOpen path)).1) in *. set (info := SysIoctl fd "HIDIOCGRAWINFO" 0) in *.
    rewrite (io_bind_Some _ _ _ fd (SysOpen path :: h) eq_refl). destruct (Z.ltb_spec fd 0); [lia|].
    rewrite (io_bind_Some _ _ _ (kernel (SysOpen path :: h) info).1 (info :: SysOpen path :: h) eq_refl).
    rewrite Hi, Ht. cbv zeta.
    change (is_bluetooth (if 0 =? 0 then slot {{ is_bluetooth := 5 =? 5 }} else slot)) with true. cbv iota.
    by rewrite (io_bind_Some _ _ _ _ _ (handshake_silent kernel se _ fd _ Hp)).
Qed.

(** ** Witnesses *)

(** A kernel on which everything succeeds and every descriptor is new. *)
Definition fresh_kernel : kernel_t := fun h op =>
  match op with
  | SysOpen _ | SysInotifyInit => (3 + Z.of_nat (length h), 0)
  | SysWrite _ data => (Z.of_nat (length data), 0)
  | SysInotifyWatch _ _ => (1, 0)
  | _ => (0, 0)
  end.
Definition no_sysfs : sysfs := mk_sysfs None None (fun _ => None).
Definition demo_start : start_env :=
  mk_start_env 3 "Wireless Controller" "00:11" (fun _ => true) (Some ["DRIVER=sony"%string])
    (fun _ => no_sysfs) (fun _ => EmptyString) 1 tv_zero None None false.
Definition demo_turn : turn_env :=
  mk_turn_env id 10 [] tv_zero true (fun _ => f64_of_Z 0) (fun _ => tv_zero) (f64_of_Z 0) tv_zero (fun _ => 0) []
    [] (fun _ => 0) (fun _ => tv_zero) [] [] tv_zero (mk_event 0 0 0) (fun _ => None) tv_zero (fun _ _ => None)
    false tv_zero (fun _ _ => None) tv_zero tv_zero tv_zero.
Definition demo_worker_shm : shared_data_t :=
  demo_shm {{ slots := repeat (zero_controller {{ ctype := TYPE_DS4; connected := true; emulate_active := true }}) MAX_SLOTS }}.
Definition demo_life := controller_worker fresh_kernel 100 (fun x _ => x) id id id (fun x _ => x) (fun x _ => x)
  (fun _ _ => 0) (fun _ => [1; 2]) (fun _ => [1]) (fun _ => EmptyString) (fun _ => EmptyString)
  (fun _ _ => EmptyString) 0 0 demo_start [demo_turn; demo_turn] "/dev/hidraw0" tv_zero
  (mk_drv axes_start g_phy_debounce_init) (mk_ledfx [] false) demo_worker_shm zero_nsw_context [].

Example worker_gives_back_witness :
  exists shm' ctx' h', demo_life = Some ((shm', ctx'), h') /\ take 4 h' = [SysClose 3; SysClose 13; SysIoctl 13 "UI_DEV_DESTROY" 0; SysClose 7] /\
    (forall fd, opened fresh_kernel h' fd = false) /\ connected (get_slot shm' 0) = false.
Proof.
  destruct demo_life as [[[shm' ctx'] h']|] eqn:E; [|exfalso; revert E; vm_compute; discriminate].
  exists shm', ctx', h'. split; [done|].
  assert (take 4 h' = [SysClose 3; SysClose 13; SysIoctl 13 "UI_DEV_DESTROY" 0; SysClose 7] /\ initialized ctx' = false) as [Hh Hi].
  { revert E. vm_compute. intros [= <- <- <-]. by split. }
  split; [exact Hh|].
  destruct (worker_gives_back _ _ _ _ _ _ _ _ _ _ _ _ _ _ _ 0 _ _ _ _ _ _ demo_worker_shm zero_nsw_context []
    shm' ctx' h' ltac:(unfold valid_slot, MAX_SLOTS; lia) eq_refl
    (ltac:(repeat constructor) : Forall (others_ok 0) [demo_turn; demo_turn]) eq_refl E) as (Hf & _ & Hc & _).
  split; [|exact Hc]. intros fd. unfold ctx_fds in Hf. rewrite Hi in Hf.
  clear -Hf. destruct (opened fresh_kernel h' fd) eqn:Eo; [|reflexivity].
  destruct (Hf fd Eo) as [Ho|Hin]; [discriminate Ho | destruct Hin].
Defined.

(** A kernel on which no device ever answers. *)
Definition silent_kernel : kernel_t := fun h op =>
  match op with
  | SysRead _ | SysPoll _ _ => (0, 0)
  | _ => fresh_kernel h op
  end.
Example worker_start_returns_witness :
  exists h', worker_start silent_kernel 100 (mk_start_env 5 "Wireless Controller" "00:11" (fun _ => true) None
      (fun _ => no_sysfs) (fun _ => EmptyString) 1 tv_zero None None false) 0 "/dev/hidraw0" zero_controller
      zero_nsw_context [] = Some ((zero_controller {{ is_bluetooth := true }}, zero_nsw_context, None), h') /\
    length h' = 23%nat.
Proof.
  eexists. split; [|shelve].
  apply (worker_start_returns silent_kernel 100 _ 0 "/dev/hidraw0" zero_controller zero_nsw_context 0 0 []).
  - intros h fd data. apply Z.le_refl.
  - intros h fd data. exists O. split; [lia|]. cbn. lia.
  - intros fd h. exists O. split; [lia|]. intros h' _. apply Z.le_refl.
  - lia.
  - lia.
  - cbn. lia.
  - reflexivity.
  - reflexivity.
  - intros h. apply Z.le_refl.
  Unshelve. reflexivity.
Defined.

(** *** The exception

    A Switch controller whose event node is found by [nsw_init] and cannot be
    opened again: the thread gives up, the two descriptors of the context stay
    open, and as the context says that it is initialised the next [nsw_init] of
    the slot keeps it as it is. *)
Definition once_kernel : kernel_t := fun h op =>
  match op with
  | SysOpen p => if contains "event" p && existsb (fun o => match o with SysInotifyInit => true | _ => false end) h
                 then (-1, 2) else (3 + Z.of_nat (length h), 0)
  | _ => fresh_kernel h op
  end.
Definition nsw_start_env : start_env :=
  mk_start_env 3 "Pro Controller" "00:11" (fun _ => true) None
    (fun _ => mk_sysfs (Some [("input7"%string, true)]) None (fun _ => Some ["event5"%string]))
    (fun _ => "Pro Controller"%string) 1 tv_zero (Some ["event5"%string]) None false.

Lemma nsw_start_leaks :
  exists s ctx h, worker_start once_kernel 100 nsw_start_env 0 "/dev/hidraw1"
      (zero_controller {{ ctype := TYPE_NSW_PRO; connected := true }}) zero_nsw_context [] = Some ((s, ctx, None), h) /\
    opened once_kernel h (event_fd ctx) = true /\ opened once_kernel h (inotify_fd ctx) = true /\
    forall kernel fuel name pid now entries link rumble slot h2,
      nsw_init kernel fuel name 0 pid now entries link rumble slot ctx h2 = Some ((slot, ctx, true), h2).
Proof. do 3 eexists. split; [vm_compute; reflexivity|]. split; [reflexivity|]. by split. Qed.
