(* ===== verification/Returns.v ===== *)
(** * A worker comes back

    The thread returns from every turn and from its end: the loops that wait for
    the kernel are bounded by what the kernel and the host deliver, and the
    look-ups of the readers, the effects and the reports are in bounds.  [Worker] says in what state it then leaves things. *)

From S2P Require Import Prelude Settings Commands Float Types Keys Axes Utils Sys Drivers Uhid Output Led Nsw Daemon Display Worker.
Local Open Scope Z_scope.

(** ** Computations that return a result that satisfies [Q] *)

Definition total {A} (m : io A) (Q : A -> Prop) : Prop := forall h, exists x h', m h = Some (x, h') /\ Q x.

Lemma total_ret {A} (x : A) (Q : A -> Prop) : Q x -> total (mret x) Q.
Proof. intros HQ h. by exists x, h. Qed.
Lemma total_bind {A B} (m : io A) (f : A -> io B) (P : A -> Prop) (Q : B -> Prop) :
  total m P -> (forall x, P x -> total (f x) Q) -> total (m ≫= f) Q.
Proof.
  intros Hm Hf h. destruct (Hm h) as (x & h1 & E & HP). rewrite (io_bind_Some _ _ _ _ _ E). by apply Hf.
Qed.
Lemma total_mono {A} (m : io A) (P Q : A -> Prop) : total m P -> (forall x, P x -> Q x) -> total m Q.
Proof. intros Hm HPQ h. destruct (Hm h) as (x & h' & E & HP). exists x, h'. auto. Qed.
Lemma total_if {A} (b : bool) (m1 m2 : io A) Q : total m1 Q -> total m2 Q -> total (if b then m1 else m2) Q.
Proof. by destruct b. Qed.

(** What returns and, when it does, satisfies [Q]. *)
Lemma total_returns {A} (m : io A) : returns m -> total m (fun _ => True).
Proof. intros Hm h. destruct (Hm h) as (x & h' & E). by exists x, h'. Qed.
Lemma total_quietly {A} kernel (m : io A) Q : returns m -> quietly kernel m Q -> total m Q.
Proof. intros Hm Hq h. destruct (Hm h) as (x & h' & E). exists x, h'. split; [done|]. by eapply Hq. Qed.
Lemma returns_total {A} (m : io A) Q : total m Q -> returns m.
Proof. intros Hm h. destruct (Hm h) as (x & h' & E & _). by exists x, h'. Qed.

Lemma returns_io_opt {A B} (x : A) (f : A -> io B) : returns (f x) -> returns (io_opt (Some x) ≫= f).
Proof. intros Hf h. apply Hf. Qed.

(** ** Effects in bounds *)

Section effects.
Context (cosf sinf : float -> float) (fmod fmodf : float -> float -> float).
(** The readings of the clock. *)
Context (clock_ok : float -> Prop).

(** What is relied on of [fmod]: between two readings of the clock the phase of
    an effect is a number. *)
Definition phase_of (now start : float) (speed : Z) (effect : led_effect_t) : float :=
  fmod (f64_mul (f64_mul (f64_sub now start)
     (f64_of_f32 (f32_mul (get_base_speed_multiplier speed) (get_speed_multiplier_for_effect effect))))
     (f64_of_Z 360)) (f64_of_Z 360).
Definition fmod_ok : Prop :=
  forall now start speed effect, clock_ok now -> clock_ok start -> 1 <= speed <= 10 ->
  let c := cycle_of fmod (phase_of now start speed effect) in
  valid_binary 24 128 c = true /\ is_nan c = false.

(** The state of a slot's effect; of all. *)
Definition led_good (s : led_slot_state_t) : Prop :=
  active s = true -> 1 <= current_effect s < LEDFX_COUNT /\ 1 <= speed s <= 10 /\ clock_ok (start_time_sec s).
Definition leds_good (st : ledfx_state) : Prop := forall i, led_good (led_get (g_slot_state st) i).

Lemma led_get_aset_good st i s j :
  led_good s -> (forall i, led_good (led_get st i)) -> led_good (led_get (aset st i s) j).
Proof.
  intros Hs Hst. unfold led_get, aget, aset. rewrite nth_lookup.
  destruct (decide (Z.to_nat i = Z.to_nat j)) as [E|E].
  - rewrite E. destruct (decide (Z.to_nat j < length st)%nat).
    + by rewrite list_lookup_insert_eq.
    + rewrite list_insert_ge by lia. rewrite <- nth_lookup. apply (Hst j).
  - rewrite list_lookup_insert_ne by done. rewrite <- nth_lookup. apply (Hst j).
Qed.

Lemma led_request_good sec tv slot s : clock_ok sec -> led_good s -> led_good (led_request_slot sec tv slot s).2.
Proof.
  intros Hc H. unfold led_request_slot. cbv zeta.
  destruct (negb (connected slot)); [done|]. destruct (negb (led_request_pending slot)); [done|].
  destruct (led_request_effect slot =? 0); [by intros ?|].
  destruct ((0 <? led_request_effect slot) && (led_request_effect slot <? LEDFX_COUNT)) eqn:E; [|done].
  zprop. intros _.
  change (1 <= led_request_effect slot < LEDFX_COUNT /\
    1 <= (if (led_request_speed slot <? MIN_SPEED) || (MAX_SPEED <? led_request_speed slot) then 5
          else led_request_speed slot) <= 10 /\ clock_ok sec).
  split; [lia|]. split; [|done].
  destruct ((led_request_speed slot <? MIN_SPEED) || (MAX_SPEED <? led_request_speed slot)) eqn:Es; [lia|].
  unfold MIN_SPEED, MAX_SPEED in Es. zprop. lia.
Qed.

Lemma led_requests_good sec tv shm st :
  (forall i, clock_ok (sec i)) -> leds_good st -> leds_good (ledfx_process_requests sec tv shm st).2.
Proof.
  intros Hc H. unfold ledfx_process_requests. destruct (negb _); [done|].
  pose proof (fold_idx_ind (fun (_ : nat) (acc : shared_data_t * list led_slot_state_t) =>
      forall i, led_good (led_get acc.2 i))
    (fun i acc =>
      let (slot, state) := led_request_slot (sec i) (tv i) (get_slot acc.1 i) (led_get acc.2 i) in
      (put_slot acc.1 i slot, aset acc.2 i state)) MAX_SLOTS (shm, g_slot_state st)) as Hf.
  destruct (fold_idx _ _ _) as [shm' states]. cbn [fst snd] in *. refine (Hf H _). clear Hf H.
  intros k [shm1 st1] _ H1. cbn [fst snd] in *.
  pose proof (led_request_good (sec (Z.of_nat k)) (tv (Z.of_nat k)) (get_slot shm1 (Z.of_nat k))
    (led_get st1 (Z.of_nat k)) (Hc _) (H1 _)) as Hs.
  destruct (led_request_slot _ _ _ _) as [slot state]. cbn [snd] in *. intros i. exact (led_get_aset_good _ _ _ _ Hs H1).
Qed.

Lemma led_effect_of_Some v : 1 <= v < LEDFX_COUNT -> exists e, led_effect_of v = Some e.
Proof.
  unfold LEDFX_COUNT. intros Hv.
  assert (v = 1 \/ v = 2 \/ v = 3 \/ v = 4 \/ v = 5 \/ v = 6 \/ v = 7 \/ v = 8) as Hc by lia.
  repeat destruct Hc as [->|Hc]; try (subst v); by eexists.
Qed.

Context (Hfmod : fmod_ok).

Lemma led_update_total now tv slot s :
  clock_ok now -> led_good s ->
  exists slot' s' c, led_update cosf sinf fmod fmodf now tv slot s = Some (slot', s', c) /\ led_good s'.
Proof.
  intros Hn Hs. unfold led_update. cbv zeta.
  destruct (negb (connected slot) || led_static slot || negb (active s)) eqn:E0; [do 3 eexists; split; [reflexivity | assumption]|].
  destruct (_ && _ && _); [do 3 eexists; split; [reflexivity | assumption]|].
  assert (active s = true) as Ha by (apply orb_false_iff in E0 as [_ E0]; by destruct (active s)).
  destruct (Hs Ha) as (He & Hsp & Hst). destruct (led_effect_of_Some _ He) as [e Ee]. rewrite Ee.
  cbn [mbind option_bind]. pose proof (Hfmod now (start_time_sec s) (speed s) e Hn Hst Hsp) as Hc.
  unfold phase_of in Hc. cbv zeta in Hc. set (phase := fmod _ _) in *. clearbody phase.
  destruct Hc as [Hv Hnan].
  destruct (easing_apply_total cosf EASING_SINE_CYCLE (cycle_of fmod phase) Hv Hnan) as [f Ef].
  assert (exists c, effect_update cosf sinf fmod fmodf e s slot phase = Some c) as [[[r g] b] ->].
  { destruct e; unfold effect_update, effect_breath, effect_battery; rewrite ?Ef; repeat bcase; by eexists. }
  cbn [mbind option_bind]. clear E0. destruct (negb (r =? _) || _ || _); do 3 eexists; (split; [reflexivity|]); exact Hs.
Qed.

Lemma ledfx_update_total i now tv shm st :
  clock_ok now -> leds_good st ->
  exists shm' st' c, ledfx_update_slot cosf sinf fmod fmodf i now tv shm st = Some (shm', st', c) /\ leds_good st'.
Proof.
  intros Hn Hst. unfold ledfx_update_slot. destruct (negb _); [do 3 eexists; split; [reflexivity | assumption]|].
  destruct (_ || _); [do 3 eexists; split; [reflexivity | assumption]|].
  destruct (led_update_total now tv (get_slot shm i) (led_get (g_slot_state st) i) Hn (Hst i))
    as (slot' & s' & c & -> & Hs'). cbn [mbind option_bind]. do 3 eexists. split; [done|].
  intros j. exact (led_get_aset_good _ _ _ _ Hs' Hst).
Qed.
End effects.

(** ** The system calls *)

Section calls.
Context (kernel : kernel_t) (fuel : nat) (uhid_bytes : uhid_event -> list Z) (k L : nat).
Context (Hb : write_bounded kernel) (He : eintr_bounded kernel k) (Hfuel : (L * S k <= fuel)%nat).

Lemma returns_write fd data : (length data <= L)%nat -> returns (safe_write kernel fuel fd data).
Proof. intros Hl. apply (returns_safe_write kernel k); [done | done | nia]. Qed.

Lemma length_event_bytes tv e : length (event_bytes tv e) = 24%nat.
Proof. unfold event_bytes. by rewrite !length_app, !length_le_bytes. Qed.

Context (HL : (78 <= L)%nat).

Lemma returns_emit_all clock fd l : returns (emit_all kernel fuel clock fd l).
Proof.
  induction l as [|e l IH]; cbn [emit_all]; [apply returns_ret|]. apply returns_bind; [|intros _; exact IH].
  unfold emit. destruct (fd <? 0); [apply returns_ret|]. intros h.
  assert (returns (r ← safe_write kernel fuel fd (event_bytes (clock h) e); mret tt)) as Hr.
  { apply returns_bind; [|intros _; apply returns_ret]. apply returns_write. rewrite length_event_bytes. lia. }
  apply Hr.
Qed.

Lemma output_report_length crc s r : output_report crc s = Some r -> (length r <= 78)%nat.
Proof.
  unfold output_report, build_ds4_bt_report, build_ds4_usb_report, build_dualsense_bt_report, build_dualsense_usb_report.
  destruct (ctype s); [| |done]; destruct (is_bluetooth s); intros [= <-];
    first [rewrite append_crc_length by (rewrite !length_aset; reflexivity) | rewrite !length_aset];
    apply Nat.leb_le; reflexivity.
Qed.

Lemma returns_send_report crc fd s : returns (send_output_report crc kernel fuel fd s).
Proof.
  unfold send_output_report. destruct (_ || _); [apply returns_ret|].
  destruct (output_report crc s) as [r|] eqn:E; [|apply returns_ret]. apply output_report_length in E.
  apply returns_bind; [|intros _; apply returns_ret]. apply returns_write. lia.
Qed.

Lemma returns_ioctl_each fd req l : returns (ioctl_each kernel fd req l).
Proof. induction l as [|a l IH]; cbn [ioctl_each]; [apply returns_ret|]. apply returns_bind; [apply returns_sys_ | done]. Qed.

Lemma returns_setup_uinput user_dev i :
  (length (user_dev i) <= L)%nat -> returns (setup_uinput_indexed kernel fuel user_dev i).
Proof.
  intros Hu. unfold setup_uinput_indexed. cbv zeta.
  repeat first [apply returns_ioctl_each | apply returns_write; rewrite ?length_event_bytes; lia | returns_step].
Qed.

(** *** UHID *)

Context (Huhid : forall ev, (length (uhid_bytes ev) <= L)%nat).

Lemma returns_uhid_write fd ev : returns (uhid_write_event kernel fuel uhid_bytes fd ev).
Proof. unfold uhid_write_event. returns_step; [by apply returns_write | returns_step]. Qed.
Lemma returns_uhid_read reads fd : returns (uhid_read_event reads fd).
Proof. intros h. by eexists _, _. Qed.

Lemma returns_uhid_create reads fn fp fu tn s i :
  returns (uhid_create kernel fuel uhid_bytes reads fn fp fu tn s i).
Proof.
  unfold uhid_create.
  repeat first [apply returns_uhid_write | apply returns_uhid_read
    | progress change (uhid_build_report_descriptor (repeat 0 4096) 4096)
        with (custom_descriptor ++ drop (length custom_descriptor) (repeat 0 4096),
              Z.of_nat (length custom_descriptor)); cbv iota beta
    | returns_step].
Qed.
Lemma returns_uhid_destroy fd : returns (uhid_destroy kernel fuel uhid_bytes fd).
Proof. unfold uhid_destroy. repeat first [apply returns_uhid_write | returns_step]. Qed.
Lemma returns_send_input fd data : returns (uhid_send_input kernel fuel uhid_bytes fd data).
Proof. unfold uhid_send_input. repeat first [apply returns_uhid_write | returns_step]. Qed.

Lemma returns_handle_event fd ev s : returns (uhid_handle_event kernel fuel uhid_bytes fd ev s).
Proof.
  unfold uhid_handle_event, uhid_handle_get_report, uhid_handle_set_report. cbv zeta.
  destruct ev; repeat first [apply returns_uhid_write | returns_step].
Qed.

(** What handles an event does not read. *)
Lemma safe_write_reads fd fd' data h r h' :
  safe_write kernel fuel fd data h = Some (r, h') -> reads_of fd' h' = reads_of fd' h.
Proof.
  unfold safe_write. intros H. apply io_bind_inv in H as (ok & h1 & Hw & [= <- <-]). revert h Hw. generalize data. clear.
  induction fuel as [|n IH]; intros [|b d] h; simpl safe_write_loop; try done; try by intros [= <- <-].
  unfold mbind, io_bind, sys. cbv beta iota.
  repeat case_match; try (by intros [= <- <-]); intros Hr; by rewrite (IH _ _ Hr).
Qed.
Lemma uhid_write_reads fd fd' ev h r h' :
  uhid_write_event kernel fuel uhid_bytes fd ev h = Some (r, h') -> reads_of fd' h' = reads_of fd' h.
Proof.
  unfold uhid_write_event. intros H. apply io_bind_inv in H as (x & h1 & Hw & [= _ <-]). by eapply safe_write_reads.
Qed.
Lemma handle_event_reads fd ev s h s' h' :
  uhid_handle_event kernel fuel uhid_bytes fd ev s h = Some (s', h') -> reads_of fd h' = reads_of fd h.
Proof.
  unfold uhid_handle_event, uhid_handle_get_report, uhid_handle_set_report. cbv zeta.
  destruct ev; try (by intros [= _ <-]); intros H; apply io_bind_inv in H as (x & h1 & Hw & H).
  - apply io_bind_inv in Hw as (y & h2 & Hw & [= _ <-]). injection H as _ <-. by eapply uhid_write_reads.
  - injection H as _ <-. by eapply uhid_write_reads.
Qed.

(** Of any [N] reads of the descriptor in a row, one finds nothing. *)
Definition host_bounded (N : nat) (reads : Z -> list sysop -> option uhid_event) : Prop :=
  forall fd h, exists j, (j < N)%nat /\
    forall h', reads_of fd h' = (reads_of fd h + j)%nat -> reads fd h' = None.

Lemma handle_events_returns reads fd j n s h :
  (forall h', reads_of fd h' = (reads_of fd h + j)%nat -> reads fd h' = None) -> (j < n)%nat ->
  exists s' h', uhid_handle_events kernel fuel uhid_bytes reads n fd s h = Some (s', h').
Proof.
  revert j s h. induction n as [|n IH]; intros j s h Hj Hn; [lia|]. cbn [uhid_handle_events].
  unfold mbind, io_bind, uhid_read_event. cbv beta iota.
  destruct (reads fd h) as [ev|] eqn:Er; [|by eexists _, _].
  destruct j as [|j]; [rewrite (Hj h) in Er; [done | lia]|].
  destruct (returns_handle_event fd ev s (SysRead fd :: h)) as (s1 & h1 & E). rewrite E.
  apply handle_event_reads in E. cbn [reads_of] in E. rewrite Z.eqb_refl in E.
  apply (IH j); [|lia]. intros h' Hh'. apply Hj. lia.
Qed.

Lemma returns_handle_events N reads fd s :
  host_bounded N reads -> (N <= fuel)%nat -> returns (uhid_handle_events kernel fuel uhid_bytes reads fuel fd s).
Proof.
  intros HN Hn h. destruct (HN fd h) as (j & Hj & Hr). apply (handle_events_returns reads fd j); [done | lia].
Qed.
End calls.

(** ** The turns *)

(** Where the sticks are in a report. *)
Definition stick_offset (t : controller_type_t) (buf : list Z) : Z :=
  match t with
  | TYPE_DS4 => if aget 0 buf 0 =? 0x11 then 3 else 1
  | TYPE_DUALSENSE => if aget 0 buf 0 =? 0x31 then 2 else 1
  | TYPE_NSW_PRO => 0
  end.
(** No stick reads (0, 0), for which the curve has no entry. *)
Definition sticks_readable (t : controller_type_t) (buf : list Z) : Prop :=
  let off := stick_offset t buf in
  byte_buf buf /\ ~ (aget 0 buf off = 0 /\ aget 0 buf (off + 1) = 0) /\
  ~ (aget 0 buf (off + 2) = 0 /\ aget 0 buf (off + 3) = 0).

(** The sticks of a Switch controller, as its context keeps them: what the
    calibration of a Bluetooth one takes off a vertical axis leaves it above the
    corner. *)
Definition LOWEST : Z := -32768 + NSW_BT_OFFSET_LY.
Definition nsw_axes (c : nsw_context_t) : Z * Z * Z * Z := (ctx_lx c, ctx_ly c, ctx_rx c, ctx_ry c).
Definition axes_in (a : Z * Z * Z * Z) : Prop :=
  let '(lx, ly, rx, ry) := a in Forall is_i16 [lx; ly; rx; ry] /\ LOWEST < ly /\ LOWEST < ry.
(** The events that keep them there. *)
Definition reads_high (l : list nsw_read) : Prop :=
  Forall (fun r => match r with
    | RdEvent ev => ev_type ev = EV_ABS -> ev_code ev = ABS_Y \/ ev_code ev = ABS_RY -> LOWEST < i16 (ev_value ev)
    | _ => True
    end) l.

Section switch.
Context (powf : float -> float -> float).

Lemma nsw_key_axes code v s : nsw_axes (nsw_key_event code v s).2 = nsw_axes s.2.
Proof. destruct s as [s c]. unfold nsw_key_event, set_phy. repeat bcase; reflexivity. Qed.

Lemma nsw_abs_axes code v c :
  (code = ABS_Y \/ code = ABS_RY -> LOWEST < i16 v) -> axes_in (nsw_axes c) -> axes_in (nsw_axes (nsw_abs_event code v c)).
Proof.
  intros Hv (HF & Hy & Hry). pose proof (i16_range v) as Hr.
  repeat match goal with H : Forall _ (_ :: _) |- _ => apply Forall_cons in H as [? H] end.
  unfold nsw_abs_event, set_phy.
  destruct (Z.eqb_spec code ABS_X); [|destruct (Z.eqb_spec code ABS_Y); [|destruct (Z.eqb_spec code ABS_RX);
    [|destruct (Z.eqb_spec code ABS_RY); [|repeat bcase; (split; [by forall_list|]; by split)]]]];
    unfold axes_in, nsw_axes; cbn; cbv [constant];
    (split; [forall_list; first [assumption | unfold is_i16; lia]|]); split; auto.
Qed.

Lemma nsw_read_loop_axes reads s n :
  reads_high reads -> axes_in (nsw_axes s.2) -> axes_in (nsw_axes (nsw_read_loop reads s n).1.1.2).
Proof.
  intros Hr. revert s n. induction Hr as [|[ev| | |] reads He Hr IH]; intros s n Hs; cbn; try done.
  - apply IH. unfold nsw_event. destruct (Z.eqb_spec (ev_type ev) EV_KEY); [by rewrite nsw_key_axes|].
    destruct (Z.eqb_spec (ev_type ev) EV_ABS); [|done]. cbn [snd]. apply nsw_abs_axes; auto.
  - by apply IH.
Qed.

Lemma clamp_axis_range v : -32768 <= clamp_axis v <= 32767.
Proof. unfold clamp_axis. pose proof (i16_range v). zcases; lia. Qed.
Lemma clamp_axis_high v off : is_i16 v -> 0 <= off <= NSW_BT_OFFSET_LY -> LOWEST < v -> clamp_axis (v - off) <> -32768.
Proof.
  unfold is_i16, LOWEST, NSW_BT_OFFSET_LY, clamp_axis. intros ? ? ?. rewrite i16_small by lia. zcases; lia.
Qed.

(** The curve has an entry for sticks that are kept there. *)
Lemma nsw_transforms_Some ax s c :
  axes_in (nsw_axes c) -> exists ax' s', nsw_apply_transforms powf ax s c = (ax', Some s').
Proof.
  intros (HF & Hy & Hry).
  repeat match goal with H : Forall _ (_ :: _) |- _ => apply Forall_cons in H as [? H] end.
  unfold nsw_apply_transforms, apply_sensitivity_left, apply_sensitivity_right. cbv zeta.
  set (lx := if is_bluetooth s then clamp_axis (ctx_lx c + _) else _).
  set (ly := if is_bluetooth s then clamp_axis (ctx_ly c - _) else _).
  set (rx := if is_bluetooth s then clamp_axis (ctx_rx c + _) else _).
  set (ry := if is_bluetooth s then clamp_axis (ctx_ry c - _) else _).
  assert (forall v, is_i16 v -> -32768 <= v <= 32767) as Hi by (unfold is_i16; intros; lia).
  assert (-32768 <= lx <= 32767 /\ -32768 <= ly <= 32767 /\ -32768 <= rx <= 32767 /\ -32768 <= ry <= 32767)
    as (R1 & R2 & R3 & R4).
  { subst lx ly rx ry. destruct (is_bluetooth s); repeat split; first [apply clamp_axis_range | by apply Hi]. }
  assert (ly <> -32768 /\ ry <> -32768) as [N1 N2].
  { subst ly ry. unfold LOWEST, NSW_BT_OFFSET_LY in *.
    destruct (is_bluetooth s); split; try lia; apply clamp_axis_high;
      unfold LOWEST, NSW_BT_OFFSET_LY, NSW_BT_OFFSET_RY in *; done || lia. }
  destruct (apply_sensitivity_core _ _ lx ly) as [[a b]|] eqn:E1; [|apply core_None in E1; [tauto | done..]].
  destruct (apply_sensitivity_core _ _ rx ry) as [[a' b']|] eqn:E2; [|apply core_None in E2; [tauto | done..]].
  cbn [mbind option_bind]. repeat case_match; by do 2 eexists.
Qed.

Lemma nsw_forward_axes s c : nsw_axes (nsw_forward s c).1 = nsw_axes c.
Proof.
  unfold nsw_forward.
  assert (forall ch v c, In ch all_channels -> nsw_axes (ch_put ch v c) = nsw_axes c) as Hput.
  { intros ch v c0 H. revert ch H. apply List.Forall_forall.
    unfold all_channels, channels_common, channels_analog, channels_digital, channels_hat.
    cbn [app]. forall_list; reflexivity. }
  assert (forall chs c evs, Forall (fun ch => In ch all_channels) chs ->
    nsw_axes (fold_left (forward_one s) chs (c, evs)).1 = nsw_axes c) as H.
  { induction chs as [|ch chs IH]; intros c0 evs Hin; [done|]. apply Forall_cons in Hin as [Hc Hin].
    cbn [fold_left]. unfold forward_one at 2. cbn [fst snd]. bcase; rewrite IH by done; [|done]. by apply Hput. }
  specialize (H (nsw_channels (is_trigger_digital s)) c []).
  destruct (fold_left _ _ _) as [c1 evs]. cbn [fst] in *. apply H.
  apply List.Forall_forall. intros ch. apply nsw_channels_incl.
Qed.

Lemma nsw_read_events_total stack reads now ufd ax s c :
  (13 <= length stack)%nat -> reads_high reads -> axes_in (nsw_axes c) ->
  exists ax' s' c' sent n, nsw_read_events powf stack reads now ufd ax s c = Some (ax', s', c', sent, n) /\
    axes_in (nsw_axes c').
Proof.
  intros Hst Hr Hc. unfold nsw_read_events. cbv zeta.
  destruct (_ || _ || _); [do 5 eexists; split; [reflexivity | exact Hc]|].
  pose proof (nsw_read_loop_axes reads (s, c) 0 Hr Hc) as Hl.
  destruct (nsw_read_loop _ _ _) as [[[s1 c1] k] failed]. cbn [fst snd] in Hl.
  destruct failed; [do 5 eexists; split; [reflexivity | exact Hl]|].
  destruct (nsw_transforms_Some ax s1 c1 Hl) as (ax1 & s2 & ->). cbn [mbind option_bind].
  set (s3 := keys_apply_map s2 (keymap s2) (phy_raw c1)). clearbody s3.
  destruct (_ && _); [|do 5 eexists; split; [reflexivity | exact Hl]].
  pose proof (nsw_forward_axes s3 c1) as Hf.
  destruct (_ && _); [destruct (nsw_forward _ _) as [c2 evs]; cbn [fst] in Hf|];
    (destruct (0 <=? _); [rewrite uhid_build_spec by done|]); cbn [mbind option_bind];
    do 5 eexists; (split; [reflexivity|]); first [exact Hl | change (axes_in (nsw_axes c2)); by rewrite Hf].
Qed.
End switch.

Section turns.
Context (kernel : kernel_t) (fuel : nat).
Context (powf : float -> float -> float) (cosf sinf sin : float -> float)
  (fmod fmodf : float -> float -> float) (crc32 : Z -> list Z -> Z)
  (user_dev : Z -> list Z) (uhid_bytes : uhid_event -> list Z)
  (fmt_name fmt_phys : Z -> string) (fmt_uniq : Z -> Z -> string) (time_now : Z) (idx : Z).
Context (k L N : nat) (clock_ok : float -> Prop) (t : controller_type_t).

(** What is relied on: [write] does not exceed what it is given and is not
    interrupted for ever; [L] bounds what is written at once; the fuel is
    enough for that and for [N] events of the host; and [fmod]. *)
Record bounds : Prop := mk_bounds {
  bd_write : write_bounded kernel;
  bd_eintr : eintr_bounded kernel k;
  bd_fuel : (L * S k <= fuel)%nat;
  bd_reports : (78 <= L)%nat;
  bd_user_dev : forall i, (length (user_dev i) <= L)%nat;
  bd_uhid : forall ev, (length (uhid_bytes ev) <= L)%nat;
  bd_events : (N < fuel)%nat;
  bd_fmod : fmod_ok fmod clock_ok
}.
Context (Hbd : bounds).

(** What the world contributes to a turn: the others keep the type of the slot,
    no stick is in the corner, the host sends at most [N] events in a row, the
    buffer is the one of the code, the clocks are read. *)
Record turn_ok (e : turn_env) : Prop := mk_turn_ok {
  to_others : others_ok idx e;
  to_report : match t with
              | TYPE_NSW_PRO => reads_high (te_nsw_reads e)
              | _ => sticks_readable t (te_buf e)
              end;
  to_stack : (13 <= length (te_stack e))%nat;
  to_host : host_bounded N (te_uhid e);
  to_time : clock_ok (te_time_sec e);
  to_request : forall i, clock_ok (te_request_sec e i)
}.

Record run_ok (w : worker) : Prop := mk_run_ok {
  ro_memory : memory_ok idx w;
  ro_type : ctype (w_slot w) = t;
  ro_led : leds_good clock_ok (w_led w);
  ro_sticks : axes_in (nsw_axes (w_nsw w))
}.

(** The sticks in the context stay as they are. *)
Definition axes_same (w w' : worker) : Prop := nsw_axes (w_nsw w') = nsw_axes (w_nsw w).

Lemma run_ok_same w w' : same_fds idx w w' -> axes_same w w' -> run_ok w -> run_ok w'.
Proof.
  intros Hs Ha [[H1 H1'] H2 H3 H4]. pose proof (sf_len _ _ _ Hs) as Hl. split.
  - split; [done | congruence].
  - rewrite <- H2. apply (sf_slot _ _ _ Hs).
  - by rewrite (sf_led _ _ _ Hs).
  - by rewrite Ha.
Qed.

Lemma total_same w (m : io worker) :
  returns m -> quietly kernel m (same_fds idx w) -> quietly kernel m (axes_same w) -> run_ok w -> total m run_ok.
Proof.
  intros Hm Hq Ha Hw h. destruct (Hm h) as (w' & h' & E). exists w', h'. split; [done|].
  by apply (run_ok_same w); [eapply Hq | eapply Ha |].
Qed.

Lemma total_then {B} (b : bool) (m : worker -> io worker) (f : worker -> io B) (Q : B -> Prop) w :
  run_ok w -> total (m w) run_ok -> (forall w', run_ok w' -> total (f w') Q) ->
  total ((if b then m w else mret w) ≫= f) Q.
Proof. intros Hw Hm Hf. eapply total_bind; [|exact Hf]. apply total_if; [done | by apply total_ret]. Qed.

Lemma returns_device_write fd data : (length data <= L)%nat -> returns (safe_write kernel fuel fd data).
Proof. destruct Hbd. by apply (returns_write kernel fuel k L). Qed.

Lemma total_send_output w : run_ok w -> total (send_output kernel fuel crc32 w) run_ok.
Proof.
  intros Hw. apply (total_same w); [|apply quiet_send_output | |done].
  2:{ unfold send_output. eapply quietly_bind; [apply quiet_send_report|]. intros _ _. by apply quietly_ret. }
  unfold send_output.
  destruct Hbd. apply returns_bind; [by apply (returns_send_report kernel fuel k L) | intros; apply returns_ret].
Qed.
Lemma total_initial_output n w : run_ok w -> total (initial_output kernel fuel crc32 n w) run_ok.
Proof.
  revert w. induction n as [|n IH]; intros w Hw; cbn [initial_output]; [by apply total_ret|].
  eapply total_bind; [by apply total_send_output | exact IH].
Qed.

Lemma manage_vdev_axes setup create destroy emu uhid v h v' h' :
  manage_vdev kernel setup create destroy idx emu uhid v h = Some (v', h') ->
  nsw_axes (v_nsw v') = nsw_axes (v_nsw v).
Proof.
  assert (forall fd v, nsw_axes (tell_nsw fd v) = nsw_axes (v_nsw v)) as Ha.
  { intros fd v0. unfold tell_nsw, nsw_set_uhid_fd. repeat bcase; reflexivity. }
  unfold manage_vdev, close_uinput, close_uhid, unpoll, mbind, io_bind, mret, io_ret, sys_.
  repeat case_match; intros; simplify_eq; cbn; rewrite ?Ha; reflexivity.
Qed.

Lemma total_vdev e emu uhid w :
  run_ok w ->
  total (turn_vdev kernel fuel user_dev uhid_bytes fmt_name fmt_phys fmt_uniq time_now idx e emu uhid w) run_ok.
Proof.
  intros Hw h. destruct Hbd.
  assert (returns (turn_vdev kernel fuel user_dev uhid_bytes fmt_name fmt_phys fmt_uniq time_now idx e emu uhid w)) as Hr.
  { unfold turn_vdev, manage_vdev, close_uinput, close_uhid. cbv zeta.
    repeat first [by apply (returns_setup_uinput kernel fuel k L) | by apply (returns_uhid_create kernel fuel uhid_bytes k L)
      | by apply (returns_uhid_destroy kernel fuel uhid_bytes k L) | returns_step]. }
  destruct (Hr h) as (w' & h' & E). exists w', h'. split; [done|]. unfold turn_vdev in E.
  apply io_bind_inv in E as (v & h1 & Ev & [= <- <-]).
  pose proof (manage_vdev_axes _ _ _ _ _ _ _ _ _ Ev) as Ea.
  eapply manage_vdev_keeps in Ev as [Es%slot_kept_type _]. destruct Hw as [[H1 H1'] H2 H3 H4].
  split; [by split | exact (eq_trans Es H2) | exact H3 |].
  cut (axes_in (nsw_axes (v_nsw v))); [exact id|]. by rewrite Ea.
Qed.

Lemma total_effects e has_led w :
  turn_ok e -> run_ok w -> total (turn_effects cosf sinf fmod fmodf idx e has_led w) run_ok.
Proof.
  intros [_ _ _ _ Htm Hrq] Hw h. destruct Hbd as [_ _ _ _ _ _ _ Hfmod].
  assert (exists w' h', turn_effects cosf sinf fmod fmodf idx e has_led w h = Some (w', h') /\
    leds_good clock_ok (w_led w') /\ axes_same w w') as (w' & h' & E & Hl' & Ha).
  { destruct Hw as [_ _ Hl _]. unfold turn_effects. destruct (_ && _); [|by exists w, h].
    set (p := if te_trylock e then _ else _).
    assert (leds_good clock_ok p.2) as Hp by (subst p; destruct (te_trylock e); [by apply led_requests_good | done]).
    destruct p as [shm led]. cbn [snd] in Hp.
    destruct (ledfx_update_total cosf sinf fmod fmodf clock_ok Hfmod idx (te_time_sec e) (te_led_tv e) shm led Htm Hp)
      as (shm' & st' & c & E & Hst). rewrite E. by eexists _, _. }
  exists w', h'. split; [done|].
  destruct (quiet_effects kernel cosf sinf fmod fmodf idx e has_led w (ro_memory w Hw) h w' h' E) as [Hs _].
  apply (run_ok_same _ w' Hs Ha). destruct Hw as [H1 H2 _ H4]. by split.
Qed.

Lemma total_uinput e w : run_ok w -> total (turn_uinput kernel sin e w) run_ok.
Proof.
  intros Hw. apply (total_same w); [|apply quiet_uinput | |done]; unfold turn_uinput.
  - by repeat returns_step.
  - repeat quiet_step; cbv zeta; repeat bcase; reflexivity.
Qed.
Lemma total_uhid e w : turn_ok e -> run_ok w -> total (turn_uhid kernel fuel uhid_bytes e w) run_ok.
Proof.
  intros He Hw. apply (total_same w); [|apply quiet_uhid | |done]; unfold turn_uhid; destruct Hbd.
  2:{ eapply quietly_bind; [apply quiet_uhid_events|]. intros s _. by apply quietly_ret. }
  apply returns_bind; [|intros; apply returns_ret].
  apply (returns_handle_events kernel fuel uhid_bytes k L) with (N := N); [done..|by destruct He | lia].
Qed.
Lemma total_external e has_led w : run_ok w -> total (turn_external kernel e has_led w) run_ok.
Proof.
  intros Hw. apply (total_same w); [|apply quiet_external | |done]; unfold turn_external.
  - by repeat returns_step.
  - repeat quiet_step. bcase; reflexivity.
Qed.

(** The look-ups of a report are in bounds. *)
Lemma translate_Some e w target :
  turn_ok e -> run_ok w -> exists r, translate powf idx e w target = Some r.
Proof.
  intros [_ Hrep _ _ _ _] [_ Hty _ _]. unfold translate. rewrite Hty. unfold sticks_readable, stick_offset in *.
  destruct t; [destruct Hrep as (Hbuf & Hl & Hr) | destruct Hrep as (Hbuf & Hl & Hr) |]; [unfold translate_ds4 | unfold translate_dualsense | by eexists]; cbv zeta;
    match goal with |- context [translate_sticks ?p ?b ?o ?a ?s] =>
      pose proof (translate_sticks_spec p b o a s Hbuf) as Hs; destruct (translate_sticks p b o a s) as [ax [s'|]] end;
    cbn [snd] in Hs; try tauto; cbn [mbind option_bind];
    match goal with |- context [translate_rest ?a ?b ?c ?d ?f ?g ?h ?i ?j ?k ?l] =>
      destruct (translate_rest a b c d f g h i j k l) as [[g' s''] evs'] end; by eexists.
Qed.

Lemma returns_report e use_uhid w :
  turn_ok e -> run_ok w -> returns (turn_report kernel fuel powf uhid_bytes idx e use_uhid w).
Proof.
  intros He Hw. unfold turn_report. apply returns_bind; [intros h; by eexists _, _|]. intros r.
  destruct (0 <? r.1); [|apply returns_ret]. cbv zeta.
  destruct (translate_Some e w (if use_uhid then v_uhid_fd (w_dev w) else v_ufd (w_dev w)) He Hw) as [[[d s] evs] ->].
  destruct Hbd. apply returns_io_opt. apply returns_bind; [by apply (returns_emit_all kernel fuel k L)|]. intros _.
  destruct (_ && _); [|apply returns_ret]. rewrite uhid_build_spec by (by destruct He).
  apply returns_io_opt. apply returns_bind; [|intros; apply returns_ret].
  destruct (0 <? _); [by apply (returns_send_input kernel fuel uhid_bytes k L) | apply returns_ret].
Qed.

Lemma axes_report e use_uhid w :
  quietly kernel (turn_report kernel fuel powf uhid_bytes idx e use_uhid w) (fun r => axes_same w r.1).
Proof.
  unfold turn_report. quiet_step; [quiet_step|]. destruct (0 <? _); [|by apply quietly_ret]. cbv zeta.
  apply quiet_io_opt. intros [[d s] evs] _.
  eapply quietly_bind; [apply quiet_emit_all|]. intros _ _.
  destruct (_ && _); [|by apply quietly_ret]. apply quiet_io_opt. intros [rep size] _.
  eapply quietly_bind; [|intros; by apply quietly_ret].
  destruct (0 <? _); [apply quiet_send_input | by apply quietly_ret].
Qed.

Lemma total_report e use_uhid w :
  turn_ok e -> run_ok w ->
  total (turn_report kernel fuel powf uhid_bytes idx e use_uhid w) (fun r => run_ok r.1).
Proof.
  intros He Hw h. destruct (returns_report e use_uhid w He Hw h) as (r & h' & E). exists r, h'. split; [done|].
  apply (run_ok_same w); [by eapply quiet_report | by eapply axes_report | done].
Qed.

(** The events of a Switch controller. *)
Lemma returns_send_nsw e ufd fd l : returns (send_nsw kernel fuel uhid_bytes e ufd fd l).
Proof.
  destruct Hbd. induction l as [|[evs|rep] l IH]; cbn [send_nsw]; [apply returns_ret| |];
    (apply returns_bind; [|intros; exact IH]);
    [by apply (returns_emit_all kernel fuel k L) | by apply (returns_send_input kernel fuel uhid_bytes k L)].
Qed.

Lemma total_nsw_read e use_uhid w :
  t = TYPE_NSW_PRO -> turn_ok e -> run_ok w ->
  total (turn_nsw_read kernel fuel powf uhid_bytes e use_uhid w) run_ok.
Proof.
  intros Hty [_ Hrep Hst _ _ _] Hw h. rewrite Hty in Hrep.
  assert (exists w' h', turn_nsw_read kernel fuel powf uhid_bytes e use_uhid w h = Some (w', h') /\
    axes_in (nsw_axes (w_nsw w'))) as (w' & h' & E & Ha).
  { unfold turn_nsw_read. cbv zeta.
    destruct (nsw_read_events_total powf (te_stack e) (te_nsw_reads e) (te_nsw_now e)
      (if use_uhid then v_uhid_fd (w_dev w) else v_ufd (w_dev w)) (drv_axes (w_drv w)) (w_slot w) (w_nsw w)
      Hst Hrep (ro_sticks w Hw)) as (ax & s & c & sent & n & -> & Hc).
    rewrite (io_bind_Some _ _ _ (ax, s, c, sent, n) h eq_refl).
    destruct (returns_send_nsw e (if use_uhid then v_uhid_fd (w_dev w) else v_ufd (w_dev w))
      (ctx_uhid_fd (w_nsw w)) sent h) as (u & h1 & Es).
    rewrite (io_bind_Some _ _ _ _ _ Es). by eexists _, _. }
  exists w', h'. split; [done|].
  destruct (quiet_nsw_read kernel fuel powf uhid_bytes idx e use_uhid w h w' h' E) as [Hs _].
  destruct Hw as [[H1 H1'] H2 H3 H4]. pose proof (sf_len _ _ _ Hs) as Hl. split; [| | |done].
  - split; [done | congruence].
  - rewrite <- H2. apply (sf_slot _ _ _ Hs).
  - by rewrite (sf_led _ _ _ Hs).
Qed.

Lemma total_poll_nsw e use_uhid w :
  t = TYPE_NSW_PRO -> turn_ok e -> run_ok w ->
  total (turn_poll_nsw kernel fuel powf sin uhid_bytes e use_uhid w) (fun r => run_ok r.1).
Proof.
  intros Hty He Hw. unfold turn_poll_nsw. eapply total_bind; [apply total_returns, returns_sys_|]. intros p _.
  apply total_if; [|by apply total_ret].
  apply total_then; [done | by apply total_nsw_read |]. intros w1 H1.
  apply total_then; [done | by apply total_uinput |]. intros w2 H2.
  apply total_then; [done | by apply total_uhid |]. intros w3 H3. by apply total_ret.
Qed.

Lemma total_ready_ds e has_led use_uhid w :
  turn_ok e -> run_ok w ->
  total (turn_ready_ds kernel fuel powf sin uhid_bytes idx e has_led use_uhid w) (fun r => run_ok r.1).
Proof.
  intros He Hw. unfold turn_ready_ds. apply total_then; [done | by apply total_external |]. intros w1 H1.
  eapply total_bind with (P := fun r => run_ok r.1); [apply total_if; [by apply total_report | by apply total_ret]|].
  intros [w2 go] H2. cbn [fst] in H2. destruct (negb go); [by apply total_ret|].
  apply total_then; [done | by apply total_uinput |]. intros w3 H3.
  apply total_then; [done | by apply total_uhid |]. intros w4 H4. by apply total_ret.
Qed.

Lemma returns_nsw_rumble hup now upload s ctx : returns (nsw_send_rumble kernel fuel hup now upload s ctx).
Proof.
  unfold nsw_send_rumble, nsw_stop_effect, nsw_ff_write. cbv zeta. destruct Hbd.
  repeat first [apply returns_device_write; rewrite ?length_event_bytes; lia | returns_step].
Qed.

Lemma axes_stop_effect ctx :
  quietly kernel (nsw_stop_effect kernel fuel ctx) (fun r => nsw_axes r.1 = nsw_axes ctx).
Proof.
  unfold nsw_stop_effect. eapply quietly_bind; [apply quiet_ff_write|]. intros ok _. by repeat quiet_step.
Qed.
Lemma axes_nsw_rumble hup now upload s ctx :
  quietly kernel (nsw_send_rumble kernel fuel hup now upload s ctx) (fun c => nsw_axes c = nsw_axes ctx).
Proof.
  assert (forall c, nsw_axes (should_log_rumble now c).1 = nsw_axes c) as Hlog
    by (intros c; unfold should_log_rumble; repeat bcase; reflexivity).
  assert (forall c, quietly kernel (if 0 <=? effect_id c then r ← nsw_stop_effect kernel fuel c; mret r.1 else mret c)
    (fun c' => nsw_axes c' = nsw_axes c)) as Hstop.
  { intros c. destruct (0 <=? _); [|by apply quietly_ret].
    eapply quietly_bind; [apply axes_stop_effect|]. intros r Hr. by apply quietly_ret. }
  unfold nsw_send_rumble. cbv zeta.
  repeat first [apply Hstop | apply axes_stop_effect | apply quiet_ff_write | quiet_step].
  all: try bcase; rewrite ?Hlog; first [reflexivity | assumption].
Qed.

Lemma axes_output e has_led dirty w :
  quietly kernel (turn_output kernel fuel sin crc32 e has_led dirty w) (axes_same w).
Proof.
  unfold turn_output, rumble_process_pipeline. cbv zeta.
  eapply quietly_bind with (P := fun r => nsw_axes r.1.1.2 = nsw_axes (w_nsw w)).
  - destruct (_ && _); [|by apply quietly_ret].
    eapply quietly_bind with (P := fun r => nsw_axes r.2 = nsw_axes (w_nsw w)).
    + apply quiet_if; eapply quietly_bind;
        [apply axes_nsw_rumble | intros c Hc; by apply quietly_ret
        | apply quiet_send_report | intros _ _; by apply quietly_ret].
    + intros [s c] Hc. by apply quietly_ret.
  - intros [[[s c] t1] wrote] Hc. cbn [fst snd] in Hc.
    eapply quietly_bind with (P := fun _ => True).
    + apply quiet_if; [|by apply quietly_ret].
      eapply quietly_mono; [apply quiet_led_pipeline | done].
      intros s'. eapply quietly_bind; [apply quiet_send_report|]. intros _ _. by apply quietly_ret.
    + intros [[s' t2] lwrote] _. apply quietly_ret. by destruct (wrote || lwrote).
Qed.

Lemma total_output e has_led dirty w :
  run_ok w -> total (turn_output kernel fuel sin crc32 e has_led dirty w) run_ok.
Proof.
  intros Hw. apply (total_same w); [|apply quiet_output | apply axes_output | done].
  unfold turn_output, rumble_process_pipeline, led_process_pipeline. cbv zeta. destruct Hbd.
  repeat first [apply returns_nsw_rumble | by apply (returns_send_report kernel fuel k L) | returns_step].
Qed.

Lemma total_finish e has_led dirty r :
  run_ok r.1 ->
  total (let '(w, go) := r in
         if go : bool then w ← turn_output kernel fuel sin crc32 e has_led dirty w; mret (w, true)
         else mret (w, false)) (fun r => run_ok r.1).
Proof.
  destruct r as [w go]. intros Hw. apply total_if; [|by apply total_ret].
  eapply total_bind; [by apply total_output|]. intros w' H'. by apply total_ret.
Qed.

Lemma total_poll e has_led use_uhid dirty w :
  turn_ok e -> run_ok w ->
  total (turn_poll kernel fuel powf sin crc32 uhid_bytes idx e has_led use_uhid dirty w) (fun r => run_ok r.1).
Proof.
  intros He Hw. unfold turn_poll. rewrite (ro_type w Hw). destruct (bool_decide_reflect (t = TYPE_NSW_PRO)) as [Hty|Hty].
  - eapply total_bind with (P := fun r => run_ok r.1); [by apply total_poll_nsw|]. intros r Hr. by apply total_finish.
  - eapply total_bind with (P := fun _ => True); [intros h; by eexists _, _|]. intros p _.
    apply total_if; [by apply total_ret|].
    eapply total_bind with (P := fun r => run_ok r.1); [apply total_if; [by apply total_ready_ds | by apply total_ret]|].
    intros r Hr. by apply total_finish.
Qed.

(** A turn, the turns, the end. *)
Abbreviation one_turn := (worker_turn kernel fuel powf cosf sinf sin fmod fmodf crc32 user_dev uhid_bytes
  fmt_name fmt_phys fmt_uniq time_now idx).
Abbreviation all_turns := (worker_loop kernel fuel powf cosf sinf sin fmod fmodf crc32 user_dev uhid_bytes
  fmt_name fmt_phys fmt_uniq time_now idx).

Lemma run_ok_load w shm :
  run_ok w -> length (slots shm) = length (slots (w_shm w)) -> ctype (get_slot shm idx) = ctype (w_slot w) ->
  run_ok (load_memory idx shm w).
Proof.
  intros [[H1 H1'] H2 H3 H4] Hl Hty. split; [|exact (eq_trans Hty H2) | exact H3 | exact H4].
  split; [done | exact (eq_trans Hl H1')].
Qed.

Lemma turn_checks_axes e s c s' c' go : turn_checks e s c = (s', c', go) -> nsw_axes c' = nsw_axes c.
Proof.
  unfold turn_checks. destruct (_ || _); [by intros [= _ <- _]|]. cbv zeta.
  destruct (bool_decide _); [|by intros [= _ <- _]].
  assert (nsw_axes (nsw_monitor (te_nsw_inotify e) c).1 = nsw_axes c) as Hm
    by (unfold nsw_monitor; repeat bcase; reflexivity).
  destruct (nsw_monitor _ _). by intros [= _ <- _].
Qed.

Lemma total_turn e has_led w : turn_ok e -> run_ok w -> total (one_turn e has_led w) (fun r => run_ok r.1).
Proof.
  intros He Hw. unfold worker_turn. cbv zeta.
  pose proof (worker_memory_slot idx w (ro_memory w Hw)) as Ms.
  destruct (to_others e He (worker_memory idx w)) as [Ol Ot]. rewrite Ms in Ot.
  unfold worker_memory in Ol at 2. rewrite length_put_slot in Ol.
  pose proof (run_ok_load w _ Hw Ol Ot) as H1. set (w1 := load_memory idx _ w) in *. clearbody w1.
  set (b := (w_slot w1) {{ worker_heartbeat := te_time_us e }}). set (wb := put_wslot b w1).
  assert (run_ok wb) as Hb by (destruct H1; by split).
  destruct (turn_checks _ _ _) as [[s2 c2] ok] eqn:Ec. pose proof (turn_checks_axes _ _ _ _ _ _ Ec) as Ta.
  apply turn_checks_keeps in Ec as [Ts Tc].
  change (put_wslot s2 w1) with (put_wslot s2 wb). set (w2 := put_wnsw c2 (put_wslot s2 wb)).
  assert (run_ok w2) as H2
    by (apply (run_ok_same wb); [apply same_fds_nsw; [by apply same_fds_slot | done] | exact Ta | done]).
  clearbody w2. destruct (negb ok); [by apply total_ret|].
  eapply total_bind; [by apply total_vdev|]. intros w3 H3.
  eapply total_bind; [by apply total_effects|]. intros w4 H4. by apply total_poll.
Qed.

Lemma total_turns turns has_led w : Forall turn_ok turns -> run_ok w -> total (all_turns turns has_led w) run_ok.
Proof.
  intros Hts. revert w. induction Hts as [|e turns He Hts IH]; intros w Hw; cbn [worker_loop]; [by apply total_ret|].
  eapply total_bind; [by apply total_turn|]. intros [w1 go] H1. cbn [fst] in H1.
  apply total_if; [by apply IH | by apply total_ret].
Qed.

Lemma returns_exit w : returns (worker_exit kernel fuel uhid_bytes w).
Proof.
  unfold worker_exit, worker_close_devices, nsw_cleanup, nsw_stop_effect, nsw_ff_write. cbv zeta. destruct Hbd.
  repeat first [by apply (returns_uhid_destroy kernel fuel uhid_bytes k L)
    | apply returns_device_write; rewrite ?length_event_bytes; lia | returns_step].
Qed.

(** The context the loop begins with: the one given, or a fresh one. *)
Lemma zero_axes_in : axes_in (0, 0, 0, 0).
Proof. unfold axes_in, LOWEST, NSW_BT_OFFSET_LY, is_i16. repeat constructor; lia. Qed.

Lemma nsw_init_axes se s ctx h s' ctx' ok h' :
  nsw_init kernel fuel (se_node_name se) idx (se_pid se) (se_now se) (se_entries se) (se_link se) (se_has_rumble se)
    s ctx h = Some ((s', ctx', ok), h') ->
  axes_in (nsw_axes ctx) -> axes_in (nsw_axes ctx').
Proof.
  unfold nsw_init. destruct (initialized ctx); [by intros [= _ <- _ _]|]. intros E _. cut (nsw_axes ctx' = (0, 0, 0, 0)).
  { intros ->. exact zero_axes_in. }
  apply io_bind_inv in E as ([s1 fd] & h1 & _ & E). destruct (fd <? 0); [by injection E as _ <- _ _|]. cbv zeta in E.
  set (c1 := match se_link se with Some _ => _ | None => _ end) in E.
  assert (nsw_axes c1 = (0, 0, 0, 0)) as H1 by (subst c1; by destruct (se_link se)). clearbody c1.
  apply io_bind_inv in E as ([c2 b] & h2 & E2 & E).
  assert (nsw_axes c2 = nsw_axes c1) as H2.
  { revert E2. unfold nsw_setup_inotify, mbind, io_bind, sys_. cbv beta iota zeta.
    repeat case_match; by intros [= <- _ _]. }
  apply io_bind_inv in E as (bits & h3 & _ & E). apply io_bind_inv in E as (x & h4 & _ & [= _ <- _ _]).
  exact (eq_trans H2 H1).
Qed.

Lemma start_nsw_axes se path fd s ctx h s' ctx' r h' :
  start_nsw kernel fuel se idx path fd s ctx h = Some ((s', ctx', r), h') ->
  axes_in (nsw_axes ctx) -> axes_in (nsw_axes ctx').
Proof.
  unfold start_nsw. intros E Ha. apply io_bind_inv in E as ([s1 found] & h1 & _ & E).
  destruct (negb found); [apply io_bind_inv in E as (u & h2 & _ & [= _ <- _ _]); exact Ha|].
  apply io_bind_inv in E as ([[s2 c2] ok] & h2 & E2 & E).
  pose proof (nsw_init_axes _ _ _ _ _ _ _ _ E2 Ha) as H2.
  destruct (negb ok); [apply io_bind_inv in E as (u & h3 & _ & [= _ <- _ _]); exact H2|].
  apply io_bind_inv in E as (u & h3 & _ & E). apply io_bind_inv in E as (f1 & h4 & _ & E).
  apply io_bind_inv in E as (f2 & h5 & _ & E). destruct (f2 <? 0); injection E as _ <- _ _; exact H2.
Qed.

Lemma start_axes se path s ctx h s' ctx' fds h' :
  worker_start kernel fuel se idx path s ctx h = Some ((s', ctx', fds), h') ->
  axes_in (nsw_axes ctx) -> axes_in (nsw_axes ctx').
Proof.
  unfold worker_start. intros E Ha. apply io_bind_inv in E as (fd & h1 & _ & E).
  destruct (fd <? 0); [by injection E as _ <- _ _|].
  apply io_bind_inv in E as (r & h2 & _ & E). cbv zeta in E. set (s1 := if r =? 0 then _ else s) in E.
  apply io_bind_inv in E as (okk & h3 & _ & E).
  destruct (negb okk); [apply io_bind_inv in E as (u & h4 & _ & [= _ <- _ _]); exact Ha|].
  apply io_bind_inv in E as (u & h4 & _ & E). apply io_bind_inv in E as (s2 & h5 & _ & E).
  destruct (bool_decide _).
  - apply io_bind_inv in E as ([[s3 c3] rf] & h6 & E6 & [= _ <- _ _]). by eapply start_nsw_axes.
  - apply io_bind_inv in E as (s3 & h6 & _ & E). apply io_bind_inv in E as (ino & h7 & _ & [= _ <- _ _]). exact Ha.
Qed.

Lemma returns_worker se turns path now d led shm ctx :
  (forall fd, drains kernel N fd) -> valid_slot idx -> length (slots shm) = MAX_SLOTS ->
  ctype (get_slot shm idx) = t -> initialized ctx = false -> axes_in (nsw_axes ctx) ->
  leds_good clock_ok led -> Forall turn_ok turns ->
  returns (controller_worker kernel fuel powf cosf sinf sin fmod fmodf crc32 user_dev uhid_bytes
    fmt_name fmt_phys fmt_uniq time_now idx se turns path now d led shm ctx).
Proof.
  intros HN Hi Hl Hty Hc Ha Hled Hts. unfold controller_worker.
  assert (total (worker_start kernel fuel se idx path (get_slot shm idx) ctx)
    (fun r => ctype r.1.1 = t /\ axes_in (nsw_axes r.1.2))) as Hs.
  { intros h. destruct Hbd.
    destruct (worker_start_total kernel fuel idx se k N path (get_slot shm idx) ctx) with (h := h)
      as ([[s c] fds] & h' & E); [done | done | done | lia | nia |].
    exists (s, c, fds), h'. split; [done|]. cbn [fst snd]. split; [|by eapply start_axes].
    eapply worker_start_holds in E as (T & _); [congruence | done | apply holds_refl]. }
  apply returns_total with (Q := fun _ => True). eapply total_bind; [exact Hs|]. intros [[s c] fds] [Hst Hca].
  cbn [fst snd] in *. destruct fds as [[fd ino]|]; [|by apply total_ret]. cbv zeta.
  set (w0 := mk_worker _ _ _ _ _ _ _ _ _ _).
  assert (run_ok w0) as H0 by (split; [split; [done | exact Hl] | exact Hst | exact Hled | exact Hca]). clearbody w0.
  eapply total_bind with (P := run_ok); [apply total_if; [by apply total_initial_output | by apply total_ret]|].
  intros w1 H1. eapply total_bind; [by apply total_turns|]. intros w2 H2.
  eapply total_bind; [by apply total_returns, returns_exit|]. intros w3 _. by apply total_ret.
Qed.
End turns.

(** * Properties *)

(** C14: a worker comes back and gives everything back: under the bounds of
    [bounds] on the kernel, and whatever else it answers, the thread ends after
    any list of turns of which none has a stick in the corner; then its slot is
    disconnected and free, and no descriptor it opened is open, but for the two of
    the context of a Switch controller none of whose event nodes could be opened,
    which gives up before its loop. *)
Theorem worker_returns kernel fuel powf cosf sinf sin fmod fmodf crc32 user_dev uhid_bytes
  fmt_name fmt_phys fmt_uniq time_now idx k L N clock_ok se turns path now d led shm ctx h :
  let t := ctype (get_slot shm idx) in
  bounds kernel fuel fmod user_dev uhid_bytes k L N clock_ok ->
  (forall fd, drains kernel N fd) -> valid_slot idx -> length (slots shm) = MAX_SLOTS ->
  initialized ctx = false -> axes_in (nsw_axes ctx) ->
  leds_good clock_ok led -> Forall (turn_ok idx N clock_ok t) turns ->
  exists shm' ctx' h',
    controller_worker kernel fuel powf cosf sinf sin fmod fmodf crc32 user_dev uhid_bytes
      fmt_name fmt_phys fmt_uniq time_now idx se turns path now d led shm ctx h = Some ((shm', ctx'), h') /\
    connected (get_slot shm' idx) = false /\ bit (free_slots_bitmap shm') idx = true /\
    (no_leak kernel h h' \/
     t = TYPE_NSW_PRO /\ holds kernel h h' [event_fd ctx'; inotify_fd ctx'] /\
     exists slot, worker_start kernel fuel se idx path (get_slot shm idx) ctx h = Some ((slot, ctx', None), h')).
Proof.
  intros t Hbd HN Hi Hl Hc Ha Hled Hts.
  destruct (returns_worker kernel fuel powf cosf sinf sin fmod fmodf crc32 user_dev uhid_bytes fmt_name fmt_phys
    fmt_uniq time_now idx k L N clock_ok t Hbd se turns path now d led shm ctx HN Hi Hl eq_refl Hc Ha Hled Hts h)
    as ([shm' ctx'] & h' & E).
  exists shm', ctx', h'. split; [done|].
  assert (Forall (others_ok idx) turns) as Ho by (eapply Forall_impl; [exact Hts|]; by intros e []).
  apply worker_gives_back in E as (Hh & Hini & Hconn & Hbit); [|done..].
  split; [done|]. split; [done|]. unfold ctx_fds in Hh. destruct (initialized ctx').
  - right. destruct (Hini eq_refl). by split.
  - left. by apply holds_no_leak.
Qed.

(** A controller of which every other read delivers a report, with its sticks
    in the middle. *)
Definition reporting_kernel : kernel_t := fun h op =>
  match op with
  | SysRead fd => (if Nat.even (reads_of fd h) then 64 else 0, 0)
  | SysPoll _ _ => (1, 0)
  | _ => fresh_kernel h op
  end.
Definition reporting_turn : turn_env :=
  mk_turn_env id 10 [] (mk_timeval 1 0) true (fun _ => f64_of_Z 0) (fun _ => tv_zero) (f64_of_Z 0) tv_zero
    (fun k => if k =? 0 then POLLIN else 0) []
    (1 :: repeat 128 63) (fun _ => 0) (fun _ => tv_zero) (repeat 0 64) [] tv_zero (mk_event 0 0 0) (fun _ => None)
    tv_zero (fun _ _ => None) false tv_zero (fun _ _ => None) tv_zero tv_zero tv_zero.
Definition reporting_life := controller_worker reporting_kernel 100 (fun x _ => x) id id id (fun _ _ => f64_of_Z 0)
  (fun x _ => x) (fun _ _ => 0) (fun _ => [1; 2]) (fun _ => [1]) (fun _ => EmptyString) (fun _ => EmptyString)
  (fun _ _ => EmptyString) 0 0 demo_start [reporting_turn; reporting_turn] "/dev/hidraw0" tv_zero
  (mk_drv axes_start g_phy_debounce_init) (mk_ledfx [] true) demo_worker_shm zero_nsw_context [].

Lemma reporting_bounds :
  bounds reporting_kernel 100 (fun _ _ => f64_of_Z 0) (fun _ => [1; 2]) (fun _ => [1]) 0 78 1 (fun _ => True).
Proof.
  split; try (cbn; lia); try (intros; cbn; lia).
  - intros h fd data. apply Z.le_refl.
  - intros h fd data. exists O. split; [lia|]. cbn. lia.
  - intros now start speed effect _ _ _. split; vm_compute; reflexivity.
Qed.

Lemma reporting_drains fd : drains reporting_kernel 1 fd.
Proof.
  intros h. exists (if Nat.even (reads_of fd h) then 1 else 0)%nat.
  destruct (Nat.even (reads_of fd h)) eqn:E; (split; [lia|]); intros h' Hh'; cbn; rewrite Hh'.
  - rewrite Nat.add_1_r, Nat.even_succ, <- Nat.negb_even, E. apply Z.le_refl.
  - rewrite Nat.add_0_r, E. apply Z.le_refl.
Qed.

Lemma reporting_turn_ok : turn_ok 0 1 (fun _ => True) TYPE_DS4 reporting_turn.
Proof.
  split; try done.
  - cbv iota. unfold sticks_readable. split; [|by vm_compute; split; intros [H _]].
    apply List.Forall_forall. intros v [<-|Hv]; [|apply repeat_spec in Hv as ->]; unfold is_u8; lia.
  - cbn. lia.
  - intros fd h. exists O. split; [lia | done].
Qed.

(** The report reaches the virtual device: events of 24 bytes are written. *)
Example reporting_life_writes :
  match reporting_life with
  | Some (_, h') => existsb (fun op => match op with
      | SysWrite 13 data => (length data =? 24)%nat | _ => false end) h' = true
  | None => False
  end.
Proof. vm_compute. reflexivity. Qed.

(** A Switch controller whose sticks move. *)
Definition nsw_turn : turn_env :=
  mk_turn_env id 10 [] (mk_timeval 1 0) true (fun _ => f64_of_Z 0) (fun _ => tv_zero) (f64_of_Z 0) tv_zero
    (fun k => if k =? 0 then POLLIN else 0) [] [] (fun _ => 0) (fun _ => tv_zero) (repeat 0 64)
    [RdEvent (mk_event EV_ABS ABS_X (-32768)); RdEvent (mk_event EV_ABS ABS_Y (-20000)); RdAgain]
    (mk_timeval 9 0) (mk_event 0 0 0) (fun _ => None)
    tv_zero (fun _ _ => None) false tv_zero (fun _ _ => None) tv_zero tv_zero tv_zero.
Lemma nsw_turn_ok : turn_ok 0 1 (fun _ => True) TYPE_NSW_PRO nsw_turn.
Proof.
  split; try done.
  - repeat constructor; cbn; intros; vm_compute; try reflexivity. destruct H0; discriminate.
  - cbn. lia.
  - intros fd h. exists O. split; [lia | done].
Qed.

Example worker_returns_witness :
  exists shm' ctx' h', reporting_life = Some ((shm', ctx'), h') /\ no_leak reporting_kernel [] h' /\
    connected (get_slot shm' 0) = false.
Proof.
  destruct (worker_returns reporting_kernel 100 (fun x _ => x) id id id (fun _ _ => f64_of_Z 0)
    (fun x _ => x) (fun _ _ => 0) (fun _ => [1; 2]) (fun _ => [1]) (fun _ => EmptyString) (fun _ => EmptyString)
    (fun _ _ => EmptyString) 0 0 0 78 1 (fun _ => True) demo_start [reporting_turn; reporting_turn] "/dev/hidraw0" tv_zero
    (mk_drv axes_start g_phy_debounce_init) (mk_ledfx [] true) demo_worker_shm zero_nsw_context [])
    as (shm' & ctx' & h' & E & Hc & _ & [Hl|(Ht & _)]).
  - exact reporting_bounds.
  - exact reporting_drains.
  - unfold valid_slot, MAX_SLOTS. lia.
  - reflexivity.
  - reflexivity.
  - exact zero_axes_in.
  - intros i Ha. exfalso. revert Ha. unfold led_get, aget. cbn. destruct (Z.to_nat i); discriminate.
  - exact (Forall_cons_2 _ _ _ reporting_turn_ok (Forall_cons_2 _ _ _ reporting_turn_ok (Forall_nil_2 _))).
  - exists shm', ctx', h'. exact (conj E (conj Hl Hc)).
  - discriminate Ht.
Defined.
