(* ===== verification/Main.v ===== *)
(** * The start of the program ([main.c])

    The choice of the mode, the memory and the slots as the daemon prepares
    them, the signal handlers, and the way the terminal interface finds the
    daemon. *)

From S2P Require Import Prelude Led Settings Commands Float Types Keys Axes Utils Sys Daemon Mutex Tui.
Local Open Scope Z_scope.

Definition ENOENT : Z := 2.

(** ** The mode

    The arguments after the program's name. *)
Inductive main_mode := DaemonMode | CliMode (argv : list string) | TuiMode.
Definition mode_of (args : list string) : main_mode :=
  match args with
  | [] => TuiMode
  | first :: _ => if String.eqb first "--daemon" then DaemonMode else CliMode args
  end.

(** ** The daemon *)

(** What [memset(shm_ptr, 0, ..)] leaves. *)
Definition zero_shared_data : shared_data_t :=
  mk_shared_data 0 (repeat zero_controller MAX_SLOTS) false 0 0 false 0 0 EmptyString 0 EmptyString 0 0
    EmptyString.

(** The memory as it is made anew. *)
Definition reset_memory : shared_data_t :=
  zero_shared_data {{ magic := SHM_MAGIC_VALUE; daemon_pid := 0; heartbeat := 0; free_slots_bitmap := 0xFF }}.

Definition boot_slot (c : controller_t) : controller_t :=
  let gain := rumble_gain c in
  let c := if gain =? 0 then c {{ rumble_gain := 100 }} else c in
  c {{ connected := false;
       led_base_r := 0; led_base_g := 0; led_base_b := 255; led_r := 0; led_g := 0; led_b := 255;
       led_request_effect := 0; led_request_speed := 5; led_request_brightness := 80;
       led_request_pending := false; led_static := true; led_dirty := true;
       external_retry_count := 0; player_leds := 0; global_led_brightness := 100; debounce_enabled := false;
       rumble_active := true; led_reapply := true;
       request_switch_layout := false; request_xbox_layout := false; request_reset_all_keybinds := false;
       is_uhid := false; uinput_fd := -1; uhid_fd := -1; uhid_output_pending := false;
       uhid_output_buf := repeat 0 64; deadzone := 0; invert_ly := false; invert_ry := false;
       sensitivity_left_preset := SENS_PRESET_DEFAULT; sensitivity_right_preset := SENS_PRESET_DEFAULT;
       is_trigger_digital := false; worker_heartbeat := 0; worker_stop := false;
       last_external_retry := tv_zero; product_name := EmptyString; uniq := EmptyString; driver := EmptyString;
       num_input_nodes := 0;
       input_nodes := fold_idx (fun j l => aset l j (mk_input_node EmptyString EmptyString)) MAX_INPUT_NODES
                        (input_nodes c);
       keymap := keys_get_default_map TYPE_DS4 (keymap c) }}.

(** What the system calls answer: [shm_open] with its [errno], [shm_open] with
    [O_CREAT], [ftruncate], the memory [mmap] gives with the state of its mutex
    ([None] is [MAP_FAILED]), [kill] with its [errno], [getpid]; [be_thread] is
    the thread, as the mutex knows it. *)
Record boot_env := mk_boot_env {
  be_open : Z * Z; be_create : Z; be_truncate : Z; be_map : option (shared_data_t * mutex_t);
  be_kill : Z -> Z * Z; be_pid : Z; be_thread : nat }.

(** The state of the process once the daemon is announced. *)
Record booted := mk_booted { b_shm : shared_data_t; b_mutex : mutex_t; b_axes : axes_state; b_log : log_state }.

(** The process ends with 1, waits for the mutex, or goes on. *)
Inductive boot_result := BootExit | BootWaits | Booted (b : booted).

Section boot.
Context (powf : float -> float -> float) (e : boot_env).

Definition shm_is_dirty (shm : shared_data_t) : bool :=
  let old_pid := daemon_pid shm in
  if negb (magic shm =? SHM_MAGIC_VALUE) then true
  else (0 <? old_pid) && ((be_kill e old_pid).1 =? -1) && ((be_kill e old_pid).2 =? ESRCH).

(** The descriptor of the memory, and whether it was made just now. *)
Definition open_memory : Z * bool :=
  let (fd, errno) := be_open e in
  if (fd =? -1) && (errno =? ENOENT) then (be_create e, true) else (fd, false).

(** The memory and its mutex, made anew if they have to be. *)
Definition prepare_memory (needs_init : bool) (shm : shared_data_t) (m : mutex_t) : shared_data_t * mutex_t :=
  if needs_init || shm_is_dirty shm then (reset_memory, Free) else (shm, m).

Definition boot_slots (shm : shared_data_t) : shared_data_t :=
  fold_idx (fun i shm => put_slot shm i (boot_slot (get_slot shm i))) MAX_SLOTS shm.

Definition announce (shm : shared_data_t) : shared_data_t :=
  shm {{ heartbeat := 1; daemon_pid := be_pid e }}.

Definition boot (axes : axes_state) (log : log_state) : boot_result :=
  let log := log_rate_init log in
  let (fd, needs_init) := open_memory in
  if fd =? -1 then BootExit
  else if be_truncate e =? -1 then BootExit
  else
    match be_map e with
    | None => BootExit
    | Some (shm, m) =>
        let (shm, m) := prepare_memory needs_init shm m in
        match safe_shm_lock (be_thread e) m with
        | None => BootWaits
        | Some m =>
            let shm := boot_slots shm in
            let axes := init_axis_system powf axes in
            let shm := announce shm in
            Booted (mk_booted shm (pthread_mutex_unlock (be_thread e) m) axes log)
        end
    end.
End boot.

(** ** Signals *)

Definition handle_reload (shm_ptr : option shared_data_t) : option shared_data_t :=
  match shm_ptr with
  | Some shm => Some (shm {{ request_reload := true }})
  | None => None
  end.

Inductive log_level := LOG_INFO | LOG_DEBUG.
(** [debug_enabled], and the mask that is set. *)
Definition handle_sigusr1 (debug_enabled : bool) : bool * log_level :=
  let debug_enabled := negb debug_enabled in (debug_enabled, if debug_enabled then LOG_DEBUG else LOG_INFO).

(** ** The terminal interface *)

Record tui_env := mk_tui_env {
  tu_connect : connect_env;                            (* the first [try_connect_shm] *)
  tu_alive : bool; tu_conn : nat -> bool; tu_ready : nat -> bool;   (* in [start_service] *)
  tu_reconnect : connect_env;                          (* the second *)
  tu_sleep : nat -> shared_data_t -> shared_data_t;    (* others, while it waits for the pid *)
  tu_kill : Z -> Z * Z; tu_kill_env : shared_data_t -> shared_data_t; tu_now : timeval }.

(** [while (daemon_pid == 0 && pid_attempts--)]. *)
Fixpoint wait_pid (n : nat) (env : nat -> shared_data_t -> shared_data_t) (i : nat) (shm : shared_data_t)
  : shared_data_t :=
  match n with
  | O => shm
  | S n => if daemon_pid shm =? 0 then wait_pid n env (S i) (env i shm) else shm
  end.

(** What is done about the service, and the interface as it starts; [None] when
    the process ends with 1. *)
Definition tui_main (sizeof_shared_data : Z) (e : tui_env) : list svc_action * option ui_state :=
  let (c, ok) := try_connect_shm sizeof_shared_data (tu_connect e) (mk_conn None (-1)) in
  let '(acts, c, ok) :=
    if ok : bool then ([], c, true)
    else
      let acts := start_service (shm_ptr c) (tu_alive e) (tu_conn e) (tu_ready e) in
      let (c, ok) := try_connect_shm sizeof_shared_data (tu_reconnect e) c in
      (acts, c, ok) in
  if negb ok then (acts, None)
  else
    match shm_ptr c with
    | None => (acts, None)
    | Some shm =>
        if negb (magic shm =? SHM_MAGIC_VALUE) then (acts, None)
        else
          let shm := wait_pid 20 (tu_sleep e) 0 shm in
          let (ptr, _) := is_daemon_alive (tu_kill e) (tu_kill_env e) (Some shm) in
          (acts, Some (ui_start (mk_conn ptr (shm_fd c)) (tu_now e)))
    end.

(** ** [main] *)

Inductive main_result :=
| RanDaemon (r : boot_result)
| RanCli (r : option (shared_data_t * Z))
| RanTui (r : list svc_action * option ui_state).

(** [connects], [alive] and [env] are as in [process_cli_command]. *)
Definition main (powf : float -> float -> float) (sizeof_shared_data : Z) (be : boot_env) (axes : axes_state)
  (log : log_state) (te : tui_env) (env : nat -> shared_data_t -> shared_data_t) (connects alive : bool)
  (shm : shared_data_t) (args : list string) : main_result :=
  match mode_of args with
  | DaemonMode => RanDaemon (boot powf be axes log)
  | CliMode argv => RanCli (process_cli_command env connects alive argv shm)
  | TuiMode => RanTui (tui_main sizeof_shared_data te)
  end.

(** * Lemmas *)

(** A memory with its four slots, each with a whole key map. *)
Definition memory_sized (shm : shared_data_t) : Prop :=
  length (slots shm) = MAX_SLOTS /\ Forall (fun c => length (keymap c) = PHY_BTN_COUNT) (slots shm).

Lemma reset_sized : memory_sized reset_memory.
Proof. split; [reflexivity | repeat constructor]. Qed.

Lemma boot_slots_spec shm :
  length (slots shm) = MAX_SLOTS ->
  length (slots (boot_slots shm)) = MAX_SLOTS /\ magic (boot_slots shm) = magic shm /\
  free_slots_bitmap (boot_slots shm) = free_slots_bitmap shm /\
  forall j, valid_slot j -> get_slot (boot_slots shm) j = boot_slot (get_slot shm j).
Proof.
  intros Hl. destruct (fold_put_spec boot_slot MAX_SLOTS shm) as (L & B & G); [lia|].
  fold (boot_slots shm) in *. split; [congruence|]. split.
  - unfold boot_slots. by apply (fold_idx_ind (fun _ s => magic s = magic shm)).
  - split; [exact B|]. intros j [? ?]. rewrite G by done. by destruct (Z.ltb_spec j (Z.of_nat MAX_SLOTS)); [|lia].
Qed.

Lemma boot_slot_gain c :
  rumble_gain (boot_slot c) = if rumble_gain c =? 0 then 100 else rumble_gain c.
Proof. unfold boot_slot. by destruct (rumble_gain c =? 0). Qed.

Lemma announce_spec e shm :
  slots (announce e shm) = slots shm /\ magic (announce e shm) = magic shm /\
  free_slots_bitmap (announce e shm) = free_slots_bitmap shm /\
  daemon_pid (announce e shm) = be_pid e /\ heartbeat (announce e shm) = 1 /\
  forall j, get_slot (announce e shm) j = get_slot shm j.
Proof. by repeat split. Qed.

(** The configuration a slot starts with. *)
Lemma boot_slot_config c :
  controller_to_slot_config (boot_slot c) =
    mk_slot_config 0 0 255 0 0 255 (rumble_gain (boot_slot c)) 0 100 0 false (emulate_active c) false true true
      false false SENS_PRESET_DEFAULT SENS_PRESET_DEFAULT (to_uint8 0) 5 80 (keys_get_default_map TYPE_DS4 (keymap c)) false.
Proof. unfold boot_slot. by case_match. Qed.

Lemma boot_slot_ok c :
  length (keymap c) = PHY_BTN_COUNT -> 0 <= rumble_gain (boot_slot c) <= 100 -> config_ok (boot_slot c).
Proof.
  intros Hk Hg. pose proof (keymap_ok_default TYPE_DS4 _ Hk) as Hm.
  unfold config_ok. rewrite boot_slot_config. revert Hg Hm.
  generalize (rumble_gain (boot_slot c)) (keys_get_default_map TYPE_DS4 (keymap c)). intros g km Hg Hm.
  unfold cfg_ok. cbn.
  split; [forall_list; lia|]. split; [forall_list; lia|].
  unfold SENS_PRESET_DEFAULT, SENS_PRESET_COUNT, LEDFX_COUNT. change (u8 0) with 0. repeat (split; [lia|]). exact Hm.
Qed.

Lemma prepare_sized e needs_init shm m :
  memory_sized shm -> memory_sized (prepare_memory e needs_init shm m).1.
Proof. unfold prepare_memory. case_match; [by intros; apply reset_sized | done]. Qed.

Lemma prepare_magic e needs_init shm m : magic (prepare_memory e needs_init shm m).1 = SHM_MAGIC_VALUE.
Proof.
  unfold prepare_memory, shm_is_dirty.
  destruct needs_init; [done|]. by destruct (Z.eqb_spec (magic shm) SHM_MAGIC_VALUE); cbn; [case_match|].
Qed.

(** The result when nothing fails. *)
Lemma boot_cases powf e axes log :
  (boot powf e axes log = BootExit /\
    ((open_memory e).1 = -1 \/ be_truncate e = -1 \/ be_map e = None)) \/
  exists shm m shm0 m0,
    (open_memory e).1 <> -1 /\ be_truncate e <> -1 /\ be_map e = Some (shm, m) /\
    prepare_memory e (open_memory e).2 shm m = (shm0, m0) /\
    boot powf e axes log =
      match safe_shm_lock (be_thread e) m0 with
      | None => BootWaits
      | Some m1 =>
          Booted (mk_booted (announce e (boot_slots shm0))
            (pthread_mutex_unlock (be_thread e) m1) (init_axis_system powf axes) (log_rate_init log))
      end.
Proof.
  unfold boot. cbv zeta. destruct (open_memory e) as [fd needs_init]. cbn [fst snd].
  destruct (Z.eqb_spec fd (-1)); [by left; auto|].
  destruct (Z.eqb_spec (be_truncate e) (-1)); [by left; auto|].
  destruct (be_map e) as [[shm m]|]; [|by left; auto].
  destruct (prepare_memory e needs_init shm m) as [shm0 m0] eqn:E. right. by exists shm, m, shm0, m0.
Qed.

(** The memory of a daemon that is announced, and the one it was made of. *)
Lemma booted_slots powf e axes log b :
  (forall shm m, be_map e = Some (shm, m) -> memory_sized shm) ->
  boot powf e axes log = Booted b ->
  exists shm0, (shm0 = reset_memory \/ exists m, be_map e = Some (shm0, m)) /\ memory_sized shm0 /\
    magic (b_shm b) = SHM_MAGIC_VALUE /\ daemon_pid (b_shm b) = be_pid e /\ heartbeat (b_shm b) = 1 /\
    length (slots (b_shm b)) = MAX_SLOTS /\
    forall j, valid_slot j -> get_slot (b_shm b) j = boot_slot (get_slot shm0 j).
Proof.
  intros Hs Hb. destruct (boot_cases powf e axes log) as [[E _]|(shm & m & shm0 & m0 & _ & _ & Em & Ep & E)];
    rewrite E in Hb; [done|]. destruct (safe_shm_lock _ _); [|done].
  assert (b_shm b = announce e (boot_slots shm0)) as -> by (by injection Hb as <-). clear Hb E.
  pose proof (prepare_sized e (open_memory e).2 shm m (Hs _ _ Em)) as Hk.
  pose proof (prepare_magic e (open_memory e).2 shm m) as Hmagic. rewrite Ep in Hk, Hmagic. cbn [fst] in *.
  destruct (boot_slots_spec shm0 (proj1 Hk)) as (L & M & _ & G).
  destruct (announce_spec e (boot_slots shm0)) as (As & Am & _ & Ap & Ah & Ag).
  exists shm0. split.
  { unfold prepare_memory in Ep. destruct (_ || _); injection Ep as <- <-; [by left | right; by exists m]. }
  split; [exact Hk|]. split; [congruence|]. split; [exact Ap|]. split; [exact Ah|].
  split; [by rewrite As|]. intros j Hj. by rewrite Ag, G.
Qed.

(** A memory that is not announced yet is found as soon as it is. *)
Lemma connects_to size ce c shm pid :
  ce_fd ce <> -1 -> ce_size ce = Some size -> ce_map ce = Some shm -> magic shm = SHM_MAGIC_VALUE ->
  daemon_pid shm = pid -> 0 < pid -> 0 < heartbeat shm -> (ce_kill ce pid).1 = 0 ->
  try_connect_shm size ce c = (mk_conn (Some shm) (ce_fd ce), true).
Proof.
  intros Hf Hs Hm Hg Hp Hpos Hh Hk. unfold try_connect_shm. rewrite (proj2 (Z.eqb_neq _ _) Hf), Hs, Hm, Hg, Hp.
  rewrite Z.ltb_irrefl, Z.eqb_refl. cbn [negb]. destruct (Z.leb_spec pid 0); [lia|].
  cbn [wait_heartbeat]. replace (0 <? heartbeat shm) with true by lia.
  destruct (Z.eqb_spec (heartbeat shm) 0); [lia|]. destruct (ce_kill ce pid) as [r errno]. cbn [fst] in Hk. by subst r.
Qed.

(** * Properties *)

(** C27: once the daemon is announced its memory is as the others expect it: four
    slots, none connected and none with a descriptor or a stop request, each
    with a configuration in range if the gain it had was, the gain never 0; and
    a front end that looks for the daemon now finds it. *)
Theorem boot_ready powf e axes log b :
  (forall shm m, be_map e = Some (shm, m) -> memory_sized shm) ->
  boot powf e axes log = Booted b ->
  (length (slots (b_shm b)) = MAX_SLOTS /\
   forall j, valid_slot j -> let c := get_slot (b_shm b) j in
     connected c = false /\ uinput_fd c = -1 /\ uhid_fd c = -1 /\ worker_stop c = false /\
     rumble_gain c <> 0 /\ (0 <= rumble_gain c <= 100 -> config_ok c)) /\
  forall size ce c, ce_fd ce <> -1 -> ce_size ce = Some size -> ce_map ce = Some (b_shm b) ->
    0 < be_pid e -> (ce_kill ce (be_pid e)).1 = 0 ->
    try_connect_shm size ce c = (mk_conn (Some (b_shm b)) (ce_fd ce), true).
Proof.
  intros Hs Hb. destruct (booted_slots _ _ _ _ _ Hs Hb) as (shm0 & _ & [_ Hk] & Hg & Hp & Hh & L & G). split.
  - split; [exact L|]. intros j Hj. cbv zeta. rewrite G by done.
    do 4 (split; [by unfold boot_slot; case_match|]).
    split; [rewrite boot_slot_gain; by destruct (Z.eqb_spec (rumble_gain (get_slot shm0 j)) 0)|]. intros Hgain.
    apply boot_slot_ok; [by apply (aget_Forall _ _ _ _ Hk) | exact Hgain].
  - intros size ce c Hf Hz Hm Hpos Hkill. apply (connects_to _ _ _ _ (be_pid e)); try done. by rewrite Hh.
Qed.

(** There is no memory yet. *)
Definition first_start : boot_env :=
  mk_boot_env (-1, ENOENT) 5 0 (Some (zero_shared_data, Free)) (fun _ => (-1, ESRCH)) 77 1.
Definition first_boot : boot_result :=
  boot (fun x _ => x) first_start axes_start (mk_log_state zero_log_rate false).

Example boot_ready_witness :
  exists b, first_boot = Booted b /\ config_ok (get_slot (b_shm b) 3) /\
    try_connect_shm 1 (mk_connect_env 9 (Some 1) (Some (b_shm b)) (fun _ s => s) (fun _ => (0, 0))) (mk_conn None (-1))
      = (mk_conn (Some (b_shm b)) 9, true).
Proof.
  destruct first_boot as [| |b] eqn:E; [discriminate E | discriminate E|]. exists b. split; [done|].
  assert (rumble_gain (get_slot (b_shm b) 3) = 100) as Hg by (injection E as <-; reflexivity).
  destruct (boot_ready (fun x _ => x) first_start axes_start (mk_log_state zero_log_rate false) b)
    with (2 := E) as [[_ Hs] Hc].
  { intros shm m [= <- <-]. split; [reflexivity | repeat constructor]. }
  destruct (Hs 3 ltac:(unfold valid_slot, MAX_SLOTS; lia)) as (_ & _ & _ & _ & _ & Hok).
  split; [apply Hok; rewrite Hg; lia|]. apply Hc; cbn; first [done | lia].
Defined.

(** C28: the start fails only when the memory cannot be opened, sized or mapped.
    A memory that is new, damaged or left by a daemon that is gone is made anew,
    whatever state its mutex is in, so the start never waits there.  A memory
    whose daemon is still alive is taken over: nothing refuses a second daemon;
    all slots are disconnected and the pid is replaced, under the first one. *)
Theorem boot_outcome powf e axes log :
  (boot powf e axes log = BootExit <->
     (open_memory e).1 = -1 \/ be_truncate e = -1 \/ be_map e = None) /\
  forall shm m, (open_memory e).1 <> -1 -> be_truncate e <> -1 -> be_map e = Some (shm, m) ->
    ((open_memory e).2 = true \/ magic shm <> SHM_MAGIC_VALUE \/
     (0 < daemon_pid shm /\ be_kill e (daemon_pid shm) = (-1, ESRCH)) ->
     exists b, boot powf e axes log = Booted b /\ b_mutex b = Free /\ free_slots_bitmap (b_shm b) = 0xFF /\
       forall j, valid_slot j -> get_slot (b_shm b) j = boot_slot zero_controller) /\
    ((open_memory e).2 = false -> magic shm = SHM_MAGIC_VALUE -> (be_kill e (daemon_pid shm)).1 = 0 ->
     m = Free -> length (slots shm) = MAX_SLOTS ->
     exists b, boot powf e axes log = Booted b /\ b_mutex b = Free /\ daemon_pid (b_shm b) = be_pid e /\
       forall j, valid_slot j -> get_slot (b_shm b) j = boot_slot (get_slot shm j) /\
         connected (get_slot (b_shm b) j) = false).
Proof.
  destruct (boot_cases powf e axes log)
    as [[-> Hf]|(shm' & m' & shm0 & m0 & Hf & Ht & Em & Ep & ->)].
  { split; [by split|]. intros shm m H1 H2 H3. exfalso. destruct Hf as [?|[?|?]]; congruence. }
  split.
  { split; [by destruct (safe_shm_lock _ _)|]. intros [?|[?|?]]; congruence. }
  intros shm m _ _ E. rewrite Em in E. injection E as -> ->. split.
  - intros Hd. assert ((shm0, m0) = (reset_memory, Free)) as [= -> ->].
    { rewrite <- Ep. unfold prepare_memory, shm_is_dirty. destruct (open_memory e).2; [done|]. cbn [orb].
      destruct (Z.eqb_spec (magic shm) SHM_MAGIC_VALUE) as [Hg|]; cbn [negb]; [|done].
      destruct Hd as [?|[?|[Hpos ->]]]; [done | done |]. cbn. by replace (0 <? daemon_pid shm) with true by lia. }
    destruct (boot_slots_spec reset_memory eq_refl) as (_ & _ & B & G).
    destruct (announce_spec e (boot_slots reset_memory)) as (_ & _ & Ab & _ & _ & Ag).
    eexists. split; [reflexivity|]. split; [cbn; by rewrite Nat.eqb_refl|]. cbn [b_shm].
    split; [by rewrite Ab, B|]. intros j Hj. rewrite Ag, G by done. f_equal.
    apply (aget_Forall (fun c => c = zero_controller)); [repeat constructor | done].
  - intros Hn Hg Hk -> Hl. assert ((shm0, m0) = (shm, Free)) as [= -> ->].
    { rewrite <- Ep. unfold prepare_memory, shm_is_dirty. rewrite Hn, Hg, Z.eqb_refl, Hk. cbn [negb orb].
      by rewrite andb_false_r. }
    destruct (boot_slots_spec shm Hl) as (_ & _ & _ & G).
    destruct (announce_spec e (boot_slots shm)) as (_ & _ & _ & Ap & _ & Ag).
    eexists. split; [reflexivity|]. split; [cbn; by rewrite Nat.eqb_refl|]. cbn [b_shm]. split; [exact Ap|].
    intros j Hj. rewrite Ag, G by done. split; [done|]. unfold boot_slot. by case_match.
Qed.

(** A second daemon, while the first serves a controller in slot 1. *)
Definition served : shared_data_t :=
  put_slot (reset_memory {{ daemon_pid := 77; heartbeat := 40; free_slots_bitmap := 0xFD }}) 1
    (zero_controller {{ connected := true; dev_path := "/dev/hidraw2"%string }}).
Definition second_start : boot_env := mk_boot_env (5, 0) (-1) 0 (Some (served, Free)) (fun _ => (0, 0)) 88 2.

Example boot_outcome_witness :
  exists b, boot (fun x _ => x) second_start axes_start (mk_log_state zero_log_rate false) = Booted b /\
    connected (get_slot served 1) = true /\ connected (get_slot (b_shm b) 1) = false /\
    daemon_pid (b_shm b) = 88.
Proof.
  destruct (boot_outcome (fun x _ => x) second_start axes_start (mk_log_state zero_log_rate false)) as [_ H].
  destruct (H served Free ltac:(discriminate) ltac:(discriminate) eq_refl) as [_ Hlive].
  destruct (Hlive eq_refl eq_refl eq_refl eq_refl eq_refl) as (b & E & _ & Hp & Hs).
  exists b. split; [exact E|]. split; [reflexivity|].
  split; [exact (proj2 (Hs 1 ltac:(unfold valid_slot, MAX_SLOTS; lia))) | exact Hp].
Defined.
