(* ===== verification/System.v ===== *)
(** * The program as a whole

    The daemon's main thread, its workers, its settings thread and the three
    front ends share one memory; the settings thread also keeps the profile and
    the disk.  This file puts their operations, as modelled in the other files,
    side by side in one transition system and shows what holds in all its runs:
    no configuration, in the memory or in the profile, leaves its range.

    A step is what one thread does between two points where another may come in.
    A synchronous profile request is two steps of its client, posting it and
    taking the answer, with the steps of the settings thread between them. *)

From S2P Require Import Prelude Settings Commands Float Types Keys Axes Utils Sys Drivers Uhid Output Led Nsw Daemon Mutex Bus Handles Handlers Display Tui Worker Main.
Local Open Scope Z_scope.

(** ** What keeps the configurations in range *)

Definition kept (shm shm' : shared_data_t) : Prop :=
  length (slots shm') = length (slots shm) /\
  forall j, config_ok (get_slot shm j) -> config_ok (get_slot shm' j).
#[export] Instance kept_refl : Reflexive kept.
Proof. by split. Qed.
#[export] Instance kept_trans : Transitive kept.
Proof. intros a b c [? H1] [? H2]. split; [congruence | auto]. Qed.

Lemma kept_slots shm shm' : slots shm' = slots shm -> kept shm shm'.
Proof. intros E. split; [by rewrite E|]. intros j. unfold get_slot. by rewrite E. Qed.

(** A slot is replaced, whether its number exists or not. *)
Lemma kept_put shm i c : (config_ok (get_slot shm i) -> config_ok c) -> kept shm (put_slot shm i c).
Proof.
  intros H. split; [apply length_put_slot|]. intros j.
  destruct (get_put_slot_or shm i j) as [->|[-> ->]]; auto.
Qed.

(** The configuration of a slot is as it was. *)
Lemma kept_config shm i c :
  controller_to_slot_config c = controller_to_slot_config (get_slot shm i) -> kept shm (put_slot shm i c).
Proof. intros E. apply kept_put. unfold config_ok. by rewrite E. Qed.

Lemma kept_fold (f : Z -> shared_data_t -> shared_data_t) n shm :
  (forall i s, kept s (f i s)) -> kept shm (fold_idx f n shm).
Proof.
  intros Hf. apply (fold_idx_ind (fun _ s => kept shm s)); [reflexivity|].
  intros i s _ H. exact (transitivity H (Hf _ s)).
Qed.

(** ** The steps *)

(** The memory, the worker threads as the main thread knows them, the profile
    manager and the disk. *)
Record system `{C : CJson} := mk_system {
  y_shm : shared_data_t; y_threads : list thread_t; y_pm : profile_manager_t; y_disk : @disk C }.
Arguments mk_system {C}.

Section system.
Context `{C : CJson} `{B : DBus} (kernel : kernel_t) (fuel : nat).
Context (powf : float -> float -> float) (cosf sinf sin : float -> float)
  (fmod fmodf : float -> float -> float) (crc32 : Z -> list Z -> Z)
  (user_dev : Z -> list Z) (uhid_bytes : uhid_event -> list Z)
  (fmt_name fmt_phys : Z -> string) (fmt_uniq : Z -> Z -> string) (time_now : Z).
Context (answers : nat -> bool) (sizeof_shared_data : Z).

(** What the others do while one thread waits is in their own steps. *)
Definition nobody : nat -> shared_data_t -> shared_data_t := fun _ shm => shm.

(** The memory after a step of a front end. *)
Inductive front_end_step (shm : shared_data_t) : shared_data_t -> Prop :=
| step_cli connects alive argv shm' ret :
    process_cli_command nobody connects alive argv shm = Some (shm', ret) -> front_end_step shm shm'
| step_tui line i :
    ledfx_line_ok line ->
    front_end_step shm (put_slot shm i (tui_slot_command line (get_slot shm i)).1)
| step_look kill shm' : (is_daemon_alive kill (fun shm => shm) (Some shm)).1 = Some shm' -> front_end_step shm shm'
| step_bus bus_call systemctl msg (w : world) :
    Bus.w_shm w = shm -> (dbus_message_get_member msg = Some "SetEffect"%string -> effect_args_ok msg) ->
    front_end_step shm
      (Bus.w_shm (message_handler kernel answers bus_call sizeof_shared_data nobody systemctl msg w).2)
| step_post request name auto_enable auto_delay :
    front_end_step shm (profile_request_post request name auto_enable auto_delay shm)
| step_take : front_end_step shm (shm {{ profile_response := 0 }})
| step_reload shm' : handle_reload (Some shm) = Some shm' -> front_end_step shm shm'.

(** The memory and the threads after a step of the main thread; the names of nodes
    are short, as those the kernel gives are. *)
Definition short_name (name : string) : Prop := (String.length name <= 122)%nat.
Inductive main_step (st : daemon_state) : daemon_state -> Prop :=
| step_init my_pid : main_step st (daemon_init my_pid (d_shm st))
| step_scan probe access thread_ok aborts entries :
    Forall short_name (default [] entries) ->
    main_step st (scan_existing_devices probe access thread_ok aborts entries st)
| step_turn probe access thread_ok aborts now_us events :
    Forall (fun e => short_name e.2) events ->
    main_step st (daemon_turn probe access thread_ok aborts now_us events st)
| step_shutdown aborts : main_step st (daemon_shutdown aborts st).

(** The thread of slot [idx] and the memory after a step of it: its start, with or
    without success, a turn, its end. *)
Inductive thread_step (idx : Z) : thread_t -> shared_data_t -> thread_t -> shared_data_t -> Prop :=
| thread_starts shm se path ctx h slot ctx' fds h' :
    worker_start kernel fuel se idx path (get_slot shm idx) ctx h = Some ((slot, ctx', Some fds), h') ->
    thread_step idx Starting shm Looping (put_slot shm idx slot)
| thread_gives_up shm se path ctx h slot ctx' h' :
    worker_start kernel fuel se idx path (get_slot shm idx) ctx h = Some ((slot, ctx', None), h') ->
    thread_step idx Starting shm Finished (worker_abort idx (put_slot shm idx slot))
| thread_turns e has_led h0 h w w' go h' :
    worker_inv kernel idx h0 h w -> te_others e = (fun shm => shm) ->
    worker_turn kernel fuel powf cosf sinf sin fmod fmodf crc32 user_dev uhid_bytes fmt_name fmt_phys fmt_uniq
      time_now idx e has_led w h = Some ((w', go), h') ->
    thread_step idx Looping (worker_memory idx w) Looping (worker_memory idx w')
| thread_ends shm : thread_step idx Looping shm Finished (worker_cleanup idx shm).

(** The memory, the profile and the disk after a step of the settings thread. *)
Inductive settings_step : profile_manager_t * shared_data_t * @disk C -> profile_manager_t * shared_data_t * @disk C -> Prop :=
| step_publish pm shm d : settings_step (pm, shm, d) (pm, publish pm shm, d)
| step_sync env pm shm d : settings_step (pm, shm, d) (profile_sync_shm_to_active env pm shm, shm, d)
| step_requests env entries pm shm d : settings_step (pm, shm, d) (profile_process_requests env entries pm shm d)
| step_save env pm shm d :
    settings_step (pm, shm, d)
      ((profile_handle_auto_save env pm d).1, shm, (profile_handle_auto_save env pm d).2)
| step_notify env events pm shm d :
    settings_step (pm, shm, d)
      ((profile_handle_inotify env events d pm shm).1, (profile_handle_inotify env events d pm shm).2, d).

(** A step of the program while nobody stops the daemon, and any step. *)
Inductive live_step : @system C -> @system C -> Prop :=
| by_front_end shm shm' th pm d :
    front_end_step shm shm' -> live_step (mk_system shm th pm d) (mk_system shm' th pm d)
| by_main st st' pm d :
    main_step st st' ->
    live_step (mk_system (d_shm st) (d_threads st) pm d) (mk_system (d_shm st') (d_threads st') pm d)
| by_worker i t shm shm' th pm d :
    valid_slot i -> thread_step i (aget NoThread th i) shm t shm' ->
    live_step (mk_system shm th pm d) (mk_system shm' (aset th i t) pm d)
| by_settings shm shm' th pm pm' d d' :
    settings_step (pm, shm, d) (pm', shm', d') ->
    live_step (mk_system shm th pm d) (mk_system shm' th pm' d').
Inductive system_step : @system C -> @system C -> Prop :=
| step_live s s' : live_step s s' -> system_step s s'
| step_stop shm shm' th pm d :
    (stop_service (Some shm)).1 = Some shm' -> system_step (mk_system shm th pm d) (mk_system shm' th pm d).

(** ** The invariant *)

Definition shm_ok (shm : shared_data_t) : Prop :=
  length (slots shm) = MAX_SLOTS /\ forall j, valid_slot j -> config_ok (get_slot shm j).
Definition pm_ok (pm : profile_manager_t) : Prop :=
  length (p_slots (active_profile pm)) = MAX_SLOTS /\ forall j, valid_slot j -> cfg_ok (cfg_at pm j).
Definition system_ok (s : @system C) : Prop := shm_ok (y_shm s) /\ pm_ok (y_pm s).
End system.

Lemma kept_shm_ok shm shm' : kept shm shm' -> shm_ok shm -> shm_ok shm'.
Proof. intros [El H] [L Hs]. split; [congruence | auto]. Qed.

(** *** What the other threads leave alone

    The lives of the slots and the bitmap, with which the main thread and the
    workers tell each other which slot is whose. *)
Definition lived (shm shm' : shared_data_t) : Prop :=
  length (slots shm') = length (slots shm) /\ free_slots_bitmap shm' = free_slots_bitmap shm /\
  (length (slots shm) = MAX_SLOTS -> forall j, valid_slot j -> same_life (get_slot shm j) (get_slot shm' j)).
#[export] Instance lived_refl : Reflexive lived.
Proof. by split. Qed.
#[export] Instance lived_trans : Transitive lived.
Proof.
  intros a b c (L1 & B1 & H1) (L2 & B2 & H2). split; [congruence|]. split; [congruence|]. intros Hl j Hj.
  transitivity (get_slot b j); [by apply H1 | apply H2; [congruence | done]].
Qed.

Lemma lived_slots shm shm' :
  slots shm' = slots shm -> free_slots_bitmap shm' = free_slots_bitmap shm -> lived shm shm'.
Proof. intros E Eb. split; [by rewrite E|]. split; [done|]. intros _ j _. unfold get_slot. by rewrite E. Qed.
Lemma lived_put shm i c : same_life (get_slot shm i) c -> lived shm (put_slot shm i c).
Proof.
  intros H. split; [apply length_put_slot|]. split; [reflexivity|]. intros _ j _.
  destruct (get_put_slot_or shm i j) as [->|[-> ->]]; [reflexivity | exact H].
Qed.

(** What a front end does to the memory. *)
Definition spared (shm shm' : shared_data_t) : Prop := lived shm shm' /\ (shm_ok shm -> shm_ok shm').
#[export] Instance spared_refl : Reflexive spared.
Proof. by split. Qed.
Lemma spared_slots shm shm' :
  slots shm' = slots shm -> free_slots_bitmap shm' = free_slots_bitmap shm -> spared shm shm'.
Proof. intros E Eb. split; [by apply lived_slots | by apply kept_shm_ok, kept_slots]. Qed.
Lemma spared_put shm i c : slot_kept (get_slot shm i) c -> spared shm (put_slot shm i c).
Proof. intros [Hc Hl]. split; [by apply lived_put | by apply kept_shm_ok, kept_put]. Qed.

(** ** The main thread *)

Lemma mark_free_kept shm i : kept shm (mark_slot_free shm i).
Proof. apply kept_slots. unfold mark_slot_free. by case_match. Qed.
Lemma mark_busy_kept shm i : kept shm (mark_slot_busy shm i).
Proof. apply kept_slots. unfold mark_slot_busy. by case_match. Qed.
Lemma abort_kept i shm : kept shm (worker_abort i shm).
Proof. unfold worker_abort. etransitivity; [|apply mark_free_kept]. (apply kept_config; reflexivity). Qed.
Lemma cleanup_kept i shm : kept shm (worker_cleanup i shm).
Proof. unfold worker_cleanup. etransitivity; [|apply mark_free_kept]. (apply kept_config; reflexivity). Qed.
#[local] Hint Resolve abort_kept cleanup_kept mark_free_kept : core.

Lemma join_kept aborts i st : kept (d_shm st) (d_shm (join_thread aborts i st)).
Proof. unfold join_thread, Daemon.on_shm. destruct (thread_of st i), aborts; cbn; auto; reflexivity. Qed.

Lemma ghosts_kept accessible path idxs shm shm' :
  drop_ghosts accessible path idxs shm = Some shm' -> kept shm shm'.
Proof.
  revert shm. induction idxs as [|i idxs IH]; intros shm; cbn [drop_ghosts]; [by intros [= <-]|].
  destruct (_ && _); [|apply IH]. destruct accessible; [done|]. intros E%IH.
  exact (transitivity (abort_kept i shm) E).
Qed.

Section main_thread.
Context (probe : string -> option (Z * Z * Z)) (access : string -> bool) (thread_ok aborts : bool).

Lemma register_kept path st :
  kept (d_shm st) (d_shm (try_register_control probe access thread_ok aborts path st)).
Proof.
  destruct (register_cases probe access thread_ok aborts path st)
    as [[-> _]|(v & p & b & ty & shm & _ & _ & Eg%ghosts_kept & H)]; [reflexivity|].
  cbv zeta in H. destruct H as [[_ ->]|[_ ->]]; [exact Eg|].
  set (i := find_free_slot shm). set (st1 := prepared aborts i shm st).
  assert (kept (d_shm st) (d_shm st1)) as H1.
  { etransitivity; [exact Eg|]. unfold st1, prepared. destruct (negb _); [|reflexivity].
    apply (join_kept aborts i (mk_daemon shm (d_threads st))). }
  assert (kept (d_shm st1) (mark_slot_busy (put_slot (d_shm st1) i
    (registered_slot path ty (b =? 5) (slot_of st1 i))) i)) as H2.
  { etransitivity; [|apply mark_busy_kept]. (apply kept_config; apply registered_config). }
  clearbody st1. destruct thread_ok; cbn [d_shm]; [exact (transitivity H1 H2)|].
  exact (transitivity H1 (transitivity H2 (abort_kept i _))).
Qed.

Lemma watchdog_kept now i st :
  kept (d_shm st) (d_shm (watchdog_slot probe access thread_ok aborts now i st)).
Proof.
  unfold watchdog_slot. case_bool_decide; [reflexivity|]. cbv zeta. destruct (_ && _); [|reflexivity].
  set (st1 := Daemon.on_shm _ st). set (st2 := join_thread _ _ _). set (st3 := Daemon.on_shm _ st2).
  assert (kept (d_shm st) (d_shm st3)) as H3.
  { transitivity (d_shm st1); [(apply kept_config; reflexivity)|]. transitivity (d_shm st2); [apply join_kept|].
    unfold st3, Daemon.on_shm. cbn [d_shm]. etransitivity; [|apply mark_free_kept]. (apply kept_config; reflexivity). }
  clearbody st3. destruct (_ && _); [|exact H3]. exact (transitivity H3 (register_kept _ _)).
Qed.

Lemma lost_kept i st : kept (d_shm st) (d_shm (lost_slot aborts i st)).
Proof. unfold lost_slot. repeat case_match; first [reflexivity | apply join_kept]. Qed.

Lemma hotplug_kept opens name st :
  kept (d_shm st) (d_shm (hotplug_event probe access thread_ok aborts opens name st)).
Proof.
  unfold hotplug_event. destruct (contains _ _); [|reflexivity].
  generalize 0%nat. induction HOTPLUG_MAX_RETRIES as [|n IH]; intros k; [reflexivity|]. cbn [hotplug_attempts].
  destruct (opens k); [apply register_kept | apply IH].
Qed.

(** A loop of the main thread. *)
Lemma loop_kept {X} (f : daemon_state -> X -> daemon_state) l st :
  (forall x s, kept (d_shm s) (d_shm (f s x))) -> kept (d_shm st) (d_shm (fold_left f l st)).
Proof.
  intros Hf. revert st. induction l as [|x l IH]; intros st; [reflexivity|]. cbn [fold_left].
  exact (transitivity (Hf x st) (IH _)).
Qed.

Lemma turn_kept now events st :
  kept (d_shm st) (d_shm (daemon_turn probe access thread_ok aborts now events st)).
Proof.
  unfold daemon_turn. cbv zeta. etransitivity; [|apply loop_kept; intros; apply hotplug_kept].
  etransitivity; [|apply loop_kept; intros; apply lost_kept].
  etransitivity; [|apply loop_kept; intros; apply watchdog_kept]. (apply kept_slots; reflexivity).
Qed.
End main_thread.

Lemma main_step_kept st st' : main_step st st' -> kept (d_shm st) (d_shm st').
Proof.
  intros [my_pid|probe access thread_ok aborts entries|probe access thread_ok aborts now events|aborts].
  - unfold daemon_init. cbn [d_shm]. etransitivity; [|apply kept_fold; intros i s; (apply kept_config; reflexivity)].
    (apply kept_slots; reflexivity).
  - unfold scan_existing_devices. destruct entries; [|reflexivity]. apply loop_kept. intros x s.
    destruct (is_hidraw x); [apply register_kept | reflexivity].
  - apply turn_kept.
  - unfold daemon_shutdown, Daemon.on_shm. cbn [d_shm].
    etransitivity; [|apply kept_fold; intros i s; (apply kept_config; reflexivity)].
    etransitivity; [|(apply kept_slots; reflexivity)]. apply loop_kept. intros i s.
    case_bool_decide; [reflexivity | apply join_kept].
Qed.

(** ** The front ends *)

Definition slots_alike (shm shm' : shared_data_t) : Prop :=
  slots shm' = slots shm /\ free_slots_bitmap shm' = free_slots_bitmap shm.
Lemma alike_spared shm shm' : slots_alike shm shm' -> spared shm shm'.
Proof. intros []. by apply spared_slots. Qed.

Lemma wait_nobody n i size shm : slots_alike shm (wait_response n nobody i size shm).1.1.
Proof.
  revert i. induction n as [|n IH]; intros i; cbn [wait_response]; [done|]. cbv zeta.
  change (nobody i shm) with shm. destruct (negb _); [done | apply IH].
Qed.

Lemma post_alike request name enable delay shm : slots_alike shm (profile_request_post request name enable delay shm).
Proof. unfold profile_request_post. cbv zeta. by destruct name, (0 <=? enable), (0 <=? delay). Qed.

Lemma request_nobody request name enable delay size shm :
  slots_alike shm (profile_request_sync nobody request name enable delay size shm).1.1.
Proof.
  unfold profile_request_sync. destruct (post_alike request name enable delay shm) as [E1 E2].
  destruct (wait_nobody (Z.to_nat (1000 / 20)) 0 size (profile_request_post request name enable delay shm)) as [E3 E4].
  split; congruence.
Qed.

(** A request whose outcome is at hand. *)
Ltac request_spared :=
  match goal with
  | E : profile_request_sync nobody ?r ?n ?e ?d ?s ?shm = _ |- _ =>
      let H := fresh in
      pose proof (request_nobody r n e d s shm) as H; rewrite E in H; simplify_eq/=; apply alike_spared; exact H
  end.

Lemma profile_spared shm argv : spared shm (cmd_profile nobody shm argv).1.
Proof. unfold cmd_profile. cbv zeta. repeat case_match; first [reflexivity | request_spared]. Qed.
Lemma auto_save_spared shm argv : spared shm (cmd_auto_save nobody shm argv).1.
Proof. unfold cmd_auto_save. cbv zeta. repeat case_match; first [reflexivity | request_spared]. Qed.

Lemma cli_spared connects alive argv shm shm' ret :
  process_cli_command nobody connects alive argv shm = Some (shm', ret) -> spared shm shm'.
Proof.
  unfold process_cli_command. destruct argv as [|first rest]; [done|]. cbv zeta.
  set (args := if bool_decide _ then _ else _). clearbody args.
  destruct (negb connects); [by intros [= <- _]|]. destruct (negb _); [by intros [= <- _]|].
  destruct (negb alive); [by intros [= <- _]|]. destruct (_ || _ || _); [by intros [= <- _]|].
  destruct (slot_arg first) as [idx|].
  - destruct (negb _); [by intros [= <- _]|].
    destruct (slot_cli_total (get_slot shm idx) (tl args)) as (slot' & r & -> & Hk & _).
    intros [= <- _]. by apply spared_put.
  - destruct (String.eqb first "slots"); [by intros [= <- _]|].
    destruct (String.eqb first "profile"); [intros [= E]; pose proof (profile_spared shm (tl args)) as K; by rewrite E in K|].
    destruct (String.eqb first "auto-save"); [intros [= E]; pose proof (auto_save_spared shm (tl args)) as K; by rewrite E in K|].
    by intros [= <- _].
Qed.

Lemma alive_spared kill shm shm' :
  (is_daemon_alive kill (fun shm => shm) (Some shm)).1 = Some shm' -> spared shm shm'.
Proof.
  unfold is_daemon_alive. cbv zeta. destruct (daemon_pid shm <=? 0); [by intros [= <-]|].
  destruct (kill _) as [r errno]. destruct (negb _); [|by intros [= <-]].
  destruct (errno =? ESRCH); [|by intros [= <-]]. destruct (_ =? _); intros [= <-]; by apply spared_slots.
Qed.

Lemma stop_kept shm shm' : (stop_service (Some shm)).1 = Some shm' -> kept shm shm'.
Proof.
  unfold stop_service. cbn [fst]. intros [= <-].
  etransitivity; [|apply kept_fold; intros i s; apply kept_config; reflexivity]. apply kept_slots; reflexivity.
Qed.

Lemma bus_spared kernel answers `{B : DBus} bus_call sizeof_shared_data systemctl msg (w : world) :
  DBusLaws B -> (dbus_message_get_member msg = Some "SetEffect"%string -> effect_args_ok msg) ->
  spared (Bus.w_shm w)
    (Bus.w_shm (message_handler kernel answers bus_call sizeof_shared_data nobody systemctl msg w).2).
Proof.
  intros HB He. destruct (handler_cases kernel answers bus_call sizeof_shared_data nobody systemctl msg w)
    as [->|(name & h & Hin & _ & Hm & ->)]; [reflexivity|].
  destruct (method_keeps kernel answers bus_call sizeof_shared_data nobody systemctl
    (fun _ shm => shm_keeps_same shm shm eq_refl eq_refl) HB name h msg Hin) with (w := w) as (El & Eb & Hj).
  { intros ->. auto. }
  cbn [snd]. split.
  - split; [done|]. split; [done|]. intros Hl j Hv. apply (Hj Hl j Hv).
  - intros [Hl Hs]. split; [congruence|]. intros j Hv. destruct (Hj Hl j Hv) as [(Hc & _) _]. by apply Hc, Hs.
Qed.

Lemma front_end_spared kernel answers `{B : DBus} sizeof_shared_data shm shm' :
  DBusLaws B -> front_end_step kernel answers sizeof_shared_data shm shm' -> spared shm shm'.
Proof.
  intros HB [connects alive argv m ret E|line i Hline|kill m E|bus_call systemctl msg w <- He|r n en de| |m E].
  - by eapply cli_spared.
  - by apply spared_put, tui_slot_command_keeps.
  - by eapply alive_spared.
  - by apply bus_spared.
  - apply alike_spared, post_alike.
  - by apply spared_slots.
  - injection E as <-. by apply spared_slots.
Qed.

(** ** The workers *)

(** Every result of the computation satisfies [P]. *)
Definition yields {A} (m : io A) (P : A -> Prop) : Prop := forall h x h', m h = Some (x, h') -> P x.

Lemma yields_ret {A} (x : A) (P : A -> Prop) : P x -> yields (mret x) P.
Proof. by intros Hx h y h' [= <- <-]. Qed.
Lemma yields_bind {A B} (m : io A) (f : A -> io B) P Q :
  yields m P -> (forall x, P x -> yields (f x) Q) -> yields (m ≫= f) Q.
Proof. intros Hm Hf h y h' E. apply io_bind_inv in E as (x & h1 & E1 & E2). eapply Hf; [by eapply Hm | exact E2]. Qed.
Lemma yields_next {A B} (m : io A) (f : A -> io B) Q : (forall x, yields (f x) Q) -> yields (m ≫= f) Q.
Proof. intros Hf. by apply (yields_bind _ _ (fun _ => True)). Qed.

Section worker_start.
Context (kernel : kernel_t) (fuel : nat) (idx : Z) (se : start_env).

Lemma metadata_same fd s : yields (read_metadata kernel se fd s) (slot_kept s).
Proof.
  unfold read_metadata. cbv zeta. apply yields_next. intros r1. apply yields_next. intros r2. apply yields_ret.
  repeat case_match; frame_done.
Qed.

Lemma nodes_same paths i s : yields (store_input_nodes kernel se paths i s) (slot_kept s).
Proof.
  revert i s. induction paths as [|p paths IH]; intros i s; cbn [store_input_nodes]; [by apply yields_ret|].
  apply yields_next. intros fd. apply yields_next. intros name h x h' E. apply IH in E.
  etransitivity; [|exact E]. frame_done.
Qed.

Lemma discover_same path n s :
  yields (discover_input_nodes_with_retry kernel se path n s) (fun r => slot_kept s r.1).
Proof.
  unfold discover_input_nodes_with_retry. destruct (discover_attempts _ _ _); [by apply yields_ret|].
  eapply yields_bind; [apply nodes_same|]. intros s' H. apply yields_ret. exact H.
Qed.

Lemma find_same name l s : yields (nsw_find_loop kernel name l s) (fun r => slot_kept s r.1).
Proof.
  induction l as [|e l IH]; cbn [nsw_find_loop]; [by apply yields_ret|]. destruct (negb _); [exact IH|].
  cbv zeta. apply yields_next. intros fd. destruct (fd <? 0); [exact IH|]. apply yields_next. intros r.
  destruct (r <? 0); [by apply yields_next|].
  destruct (is_pro_controller _); [|by apply yields_next]. apply yields_ret. frame_done.
Qed.

Lemma nsw_init_same name pid now entries link rumble s ctx :
  yields (nsw_init kernel fuel name idx pid now entries link rumble s ctx) (fun r => slot_kept s r.1.1).
Proof.
  unfold nsw_init. destruct (initialized ctx); [by apply yields_ret|]. cbv zeta.
  apply (yields_bind _ _ (fun r => slot_kept s r.1)).
  - unfold nsw_find_evdev_device. destruct entries; [apply find_same | by apply yields_ret].
  - intros [s1 fd] H1. destruct (fd <? 0); [by apply yields_ret|].
    apply yields_next. intros [c ok]. apply yields_next. intros bits. apply yields_next. intros u. by apply yields_ret.
Qed.

(** A start keeps the life of its slot too, but for the path of a Switch
    controller. *)
Definition start_same (s s' : controller_t) : Prop :=
  (config_ok s -> config_ok s') /\ connected s' = connected s /\ ctype s' = ctype s /\
  worker_heartbeat s' = worker_heartbeat s /\ (dev_path s' = dev_path s \/ ctype s = TYPE_NSW_PRO).
Lemma kept_start s s' : slot_kept s s' -> start_same s s'.
Proof. unfold start_same. intros (? & ? & ? & ? & ?). auto 10. Qed.
Lemma kept_start_trans a b c : slot_kept a b -> start_same b c -> start_same a c.
Proof.
  intros (C1 & N1 & P1 & T1 & B1) (C2 & N2 & T2 & B2 & P2). split; [auto|].
  repeat (split; [congruence|]). destruct P2; [left | right]; congruence.
Qed.

Lemma start_nsw_same path fd s ctx :
  ctype s = TYPE_NSW_PRO -> yields (start_nsw kernel fuel se idx path fd s ctx) (fun r => start_same s r.1.1).
Proof.
  intros Ht. unfold start_nsw. eapply yields_bind; [apply discover_same|]. intros [s1 found] H1. cbn [fst] in H1.
  destruct (negb found); [apply yields_next; intros u; by apply yields_ret, kept_start|].
  eapply yields_bind; [apply nsw_init_same|]. intros [[s2 c2] ok] H2. cbn [fst] in H2.
  assert (slot_kept s s2) as H by (by etransitivity). clear H1 H2.
  destruct (negb ok); [apply yields_next; intros u; by apply yields_ret, kept_start|].
  apply yields_next. intros u. apply yields_next. intros f1. apply yields_next. intros f2.
  destruct (f2 <? 0); [by apply yields_ret, kept_start|]. apply yields_ret. cbn [fst]. apply (kept_start_trans _ _ _ H).
  destruct (find _ _); [|by apply kept_start]. apply slot_kept_type in H. rewrite <- H in Ht.
  split; [exact id|]. split; [reflexivity|]. split; [reflexivity|]. split; [reflexivity | by right].
Qed.

Lemma worker_start_same path s ctx :
  yields (worker_start kernel fuel se idx path s ctx) (fun r => start_same s r.1.1).
Proof.
  unfold worker_start. apply yields_next. intros fd. destruct (fd <? 0); [by apply yields_ret, kept_start|].
  apply yields_next. intros r. cbv zeta. set (s1 := if r =? 0 then _ else s).
  assert (slot_kept s s1) as H1 by (subst s1; destruct (r =? 0); [frame_done | reflexivity]).
  clearbody s1. apply yields_next. intros ok.
  destruct (negb ok); [apply yields_next; intros u; by apply yields_ret, kept_start|]. apply yields_next. intros u.
  eapply yields_bind; [apply metadata_same|]. intros s2 H2.
  assert (slot_kept s s2) as H by (by etransitivity). clear H1 H2.
  case_bool_decide as Ht.
  - eapply yields_bind; [by apply start_nsw_same|]. intros [[s3 c3] f3] H3. apply yields_ret. cbn [fst] in *.
    by eapply kept_start_trans.
  - unfold start_ds. eapply yields_bind; [apply nodes_same|]. intros s3 H3. apply yields_next. intros ino.
    apply yields_ret. cbn [fst]. apply kept_start. etransitivity; [exact H|]. etransitivity; [exact H3 | frame_done].
Qed.
End worker_start.

(** A turn keeps the configurations. *)
Lemma beat_kept i t shm : kept shm (beat i t shm).
Proof. by apply kept_config. Qed.
Lemma same_kept shm shm' : shm_same shm shm' -> kept shm shm'.
Proof. intros (El & _ & Hs). split; [exact El | intros j; apply Hs]. Qed.

Section threads.
Context (kernel : kernel_t) (fuel : nat).
Context (powf : float -> float -> float) (cosf sinf sin : float -> float)
  (fmod fmodf : float -> float -> float) (crc32 : Z -> list Z -> Z)
  (user_dev : Z -> list Z) (uhid_bytes : uhid_event -> list Z)
  (fmt_name fmt_phys : Z -> string) (fmt_uniq : Z -> Z -> string) (time_now : Z).

(** A step of a worker changes its slot at its start and at its end; a turn writes
    its sign of life and keeps the life of every slot otherwise. *)
Lemma thread_cases idx t shm t' shm' :
  thread_step kernel fuel powf cosf sinf sin fmod fmodf crc32 user_dev uhid_bytes fmt_name fmt_phys fmt_uniq
    time_now idx t shm t' shm' ->
  (exists slot, t = Starting /\ start_same (get_slot shm idx) slot /\
     (t' = Looping /\ shm' = put_slot shm idx slot \/
      t' = Finished /\ shm' = worker_abort idx (put_slot shm idx slot))) \/
  (exists now, t = Looping /\ t' = Looping /\ shm_same (beat idx now shm) shm') \/
  (t = Looping /\ t' = Finished /\ shm' = worker_cleanup idx shm).
Proof.
  intros [m se path ctx h slot ctx' fds h' E|m se path ctx h slot ctx' h' E|e has_led h0 h w w' go h' Hinv He E|m].
  - apply worker_start_same in E. left. eauto 10.
  - apply worker_start_same in E. left. eauto 10.
  - assert (others_ok idx e) as Ho by (intros m; by rewrite He).
    destruct (worker_turn_spec _ _ _ _ _ _ _ _ _ _ _ _ _ _ _ _ _ _ _ _ _ _ _ _ Ho E Hinv) as (_ & _ & Hs).
    rewrite He in Hs. right. left. eauto.
  - auto.
Qed.

Lemma thread_kept idx t shm t' shm' :
  thread_step kernel fuel powf cosf sinf sin fmod fmodf crc32 user_dev uhid_bytes fmt_name fmt_phys fmt_uniq
    time_now idx t shm t' shm' -> kept shm shm'.
Proof.
  intros [(slot & _ & [Hc _] & [[_ ->]|[_ ->]])|[(now & _ & _ & H)|(_ & _ & ->)]]%thread_cases.
  - by apply kept_put.
  - etransitivity; [by apply kept_put | apply abort_kept].
  - etransitivity; [apply beat_kept | by apply same_kept].
  - apply cleanup_kept.
Qed.
End threads.

(** ** The settings thread *)

Section settings.
Context `{C : CJson}.

Lemma pm_sized pm : pm_ok pm -> keymaps_sized (p_slots (active_profile pm)).
Proof.
  intros [Hl Hc]. apply List.Forall_forall. intros cfg Hin. apply (In_nth _ _ zero_slot_config) in Hin as (n & Hn & <-).
  pose proof (Hc (Z.of_nat n) ltac:(unfold valid_slot; lia)) as H. unfold cfg_at, aget in H.
  rewrite Nat2Z.id in H. by apply cfg_ok_sized.
Qed.

Lemma same_profile_ok pm pm' : active_profile pm' = active_profile pm -> pm_ok pm -> pm_ok pm'.
Proof. unfold pm_ok, cfg_at. by intros ->. Qed.

Lemma load_ok env (d : @disk C) pm name pm' ok :
  load_profile_from_disk env d pm name = (pm', ok) -> pm_ok pm -> pm_ok pm'.
Proof.
  intros E Hok. pose proof (pm_sized pm Hok) as Hsz. destruct Hok as [Hl Hc]. unfold load_profile_from_disk in E.
  repeat match type of E with context [match ?x with _ => _ end] => destruct x; try (by injection E as <- _) end.
  injection E as <- _. unfold pm_ok, cfg_at. cbn [active_profile p_slots].
  match goal with |- context [load_slots ?s _] =>
    destruct (load_slots_ok s (p_slots (active_profile pm)) Hl Hsz) as (Hl' & _ & Hj) end.
  split; [exact Hl'|]. intros i Hv. destruct (Hj i ltac:(unfold valid_slot in Hv; lia)) as [H|H];
    [exact H|]. exact (eq_ind_r cfg_ok (Hc i Hv) H).
Qed.

Lemma publish_ok pm shm : pm_ok pm -> shm_ok shm -> shm_ok (publish pm shm).
Proof.
  intros [_ Hc] [Hl _]. split; [exact (eq_trans (length_apply pm shm) Hl)|]. intros j Hv.
  unfold config_ok. rewrite publish_agrees by done. by apply Hc.
Qed.

Lemma update_inotify_ok (d : @disk C) pm : pm_ok pm -> pm_ok (profile_update_inotify d pm).
Proof. apply same_profile_ok, update_inotify_profile. Qed.

Lemma sync_ok env pm shm : pm_ok pm -> shm_ok shm -> pm_ok (profile_sync_shm_to_active env pm shm).
Proof.
  intros [Hl _] [_ Hs]. destruct (sync_spec env pm shm Hl) as (L & G & _). split; [exact L|].
  intros j Hv. rewrite G by done. by apply Hs.
Qed.

Lemma request_ok env entries req name pm shm (d : @disk C) pm' shm' d' r m :
  handle_request env entries req name pm shm d = (pm', shm', d', r, m) ->
  pm_ok pm -> shm_ok shm -> pm_ok pm' /\ shm_ok shm'.
Proof.
  intros E Hp Hs. unfold handle_request in E.
  destruct req as [|req|req]; [by injection E as <- <- _ _ _| |by injection E as <- <- _ _ _].
  do 3 (try (destruct req as [req|req|]; [| |])); try (by injection E as <- <- _ _ _).
  - assert (active_profile pm' = active_profile pm /\ slots shm' = slots shm) as [E1 E2].
    { injection E as <- <- _ _ _. by destruct (negb _), (0 <? _). }
    split; [by apply (same_profile_ok pm) | exact (kept_shm_ok _ _ (kept_slots _ _ E2) Hs)].
  - destruct (names d !! _); [|by injection E as <- <- _ _ _]. destruct (can_unlink env); [|by injection E as <- <- _ _ _].
    destruct (String.eqb name (active_name pm)); [|by injection E as <- <- _ _ _].
    destruct (load_profile_from_disk _ _ _ _) as [pm1 ok] eqn:El. injection E as <- <- _ _ _.
    pose proof (load_ok _ _ _ _ _ _ El Hp) as H1.
    assert (pm_ok (profile_update_inotify (unlink_file (json_path pm name) d) (pm1 {{ active_name := "Default"%string }})))
      as H2 by (apply update_inotify_ok; exact H1).
    split; [exact H2 | by apply publish_ok].
  - destruct (save_profile_to_disk _ _ _ _) as [d1 []]; [|by injection E as <- <- _ _ _].
    injection E as <- <- _ _ _. split; [|done]. by destruct (String.eqb _ _).
  - destruct (load_profile_from_disk _ _ _ _) as [pm1 ok] eqn:El. destruct ok; injection E as <- <- _ _ _.
    + pose proof (load_ok _ _ _ _ _ _ El Hp) as H1.
      assert (pm_ok (profile_update_inotify d (pm1 {{ active_name := name }}))) as H2
        by (apply update_inotify_ok; exact H1).
      split; [exact H2 | by apply publish_ok].
    + split; [exact (load_ok _ _ _ _ _ _ El Hp) | exact Hs].
Qed.

Lemma requests_ok env entries pm shm (d : @disk C) pm' shm' d' :
  profile_process_requests env entries pm shm d = (pm', shm', d') -> pm_ok pm -> shm_ok shm -> pm_ok pm' /\ shm_ok shm'.
Proof.
  intros E Hp Hs. unfold profile_process_requests in E. cbv zeta in E.
  destruct (_ =? 0); [by injection E as <- <- _|].
  destruct (handle_request _ _ _ _ _ _ _) as [[[[pm1 shm1] d1] r] m] eqn:Er.
  destruct (request_ok _ _ _ _ _ _ _ _ _ _ _ _ Er Hp Hs) as [H1 H2]. injection E as <- <- _.
  split; [exact H1|]. refine (kept_shm_ok _ _ (kept_slots _ _ _) H2). by destruct (_ && _).
Qed.

Lemma save_ok env pm (d : @disk C) : pm_ok pm -> pm_ok (profile_handle_auto_save env pm d).1.
Proof.
  intros H. unfold profile_handle_auto_save. destruct (_ || _); [done|]. destruct (_ <=? _); [|done].
  destruct (save_profile_to_disk _ _ _ _) as [d1 []]; done.
Qed.

Lemma notify_ok env events (d : @disk C) pm shm :
  pm_ok pm -> shm_ok shm ->
  pm_ok (profile_handle_inotify env events d pm shm).1 /\ shm_ok (profile_handle_inotify env events d pm shm).2.
Proof.
  intros Hp Hs. unfold profile_handle_inotify. destruct (_ <? 0); [done|].
  revert pm shm Hp Hs. induction events as [|ev events IH]; intros pm shm Hp Hs; [done|]. cbn [fold_left].
  unfold handle_inotify_event at 2 4. destruct ev; [|by apply IH]. destruct (profile_dirty pm); [by apply IH|].
  destruct (load_profile_from_disk _ _ _ _) as [pm1 ok] eqn:El. pose proof (load_ok _ _ _ _ _ _ El Hp) as H1.
  destruct ok; [|by apply IH]. apply IH; [exact H1 | by apply (publish_ok pm1)].
Qed.

Lemma settings_ok s s' :
  settings_step s s' -> pm_ok s.1.1 -> shm_ok s.1.2 -> pm_ok s'.1.1 /\ shm_ok s'.1.2.
Proof.
  intros [pm shm d|env pm shm d|env entries pm shm d|env pm shm d|env events pm shm d]; cbn [fst snd]; intros Hp Hs.
  - split; [done | by apply publish_ok].
  - split; [by apply sync_ok | done].
  - destruct (profile_process_requests _ _ _ _ _) as [[pm' shm'] d'] eqn:E. by eapply requests_ok.
  - split; [by apply save_ok | done].
  - by apply notify_ok.
Qed.

(** A turn of the settings thread without the others is a run of its steps. *)
Lemma settings_turn_steps t pm shm d :
  others t = (fun shm => shm) -> rtc settings_step (pm, shm, d) (settings_turn t (pm, shm, d)).
Proof.
  intros Ho. unfold settings_turn. rewrite Ho. eapply rtc_l; [apply (step_sync (env_sync t))|].
  eapply rtc_l; [apply (step_requests (env_request t) (dir_entries t))|].
  destruct (profile_process_requests _ _ _ _ _) as [[pm2 shm2] d2].
  eapply rtc_l; [apply (step_save (env_save t))|].
  destruct (profile_handle_auto_save _ _ _) as [pm3 d3]. cbn [fst snd].
  eapply rtc_l; [apply (step_notify (env_notify t) (inotify_events t))|].
  by destruct (profile_handle_inotify _ _ _ _ _) as [pm4 shm4].
Qed.
End settings.

(** ** The whole *)

Lemma live_step_ok `{C : CJson} `{B : DBus} kernel fuel powf cosf sinf sin fmod fmodf crc32 user_dev uhid_bytes
  fmt_name fmt_phys fmt_uniq time_now answers size s s' :
  DBusLaws B ->
  live_step kernel fuel powf cosf sinf sin fmod fmodf crc32 user_dev uhid_bytes fmt_name fmt_phys fmt_uniq time_now
    answers size s s' ->
  system_ok s -> system_ok s'.
Proof.
  intros HB [shm shm' th pm d H|st st' pm d H|i t shm shm' th pm d _ H|shm shm' th pm pm' d d' H] [Hs Hp];
    cbn [y_shm y_pm] in *; unfold system_ok; cbn [y_shm y_pm].
  - split; [by apply (front_end_spared _ _ _ _ _ HB H) | done].
  - split; [exact (kept_shm_ok _ _ (main_step_kept _ _ H) Hs) | done].
  - split; [exact (kept_shm_ok _ _ (thread_kept _ _ _ _ _ _ _ _ _ _ _ _ _ _ _ _ _ _ _ _ H) Hs) | done].
  - by destruct (settings_ok _ _ H Hp Hs).
Qed.

Lemma system_step_ok `{C : CJson} `{B : DBus} kernel fuel powf cosf sinf sin fmod fmodf crc32 user_dev uhid_bytes
  fmt_name fmt_phys fmt_uniq time_now answers size s s' :
  DBusLaws B ->
  system_step kernel fuel powf cosf sinf sin fmod fmodf crc32 user_dev uhid_bytes fmt_name fmt_phys fmt_uniq time_now
    answers size s s' ->
  system_ok s -> system_ok s'.
Proof.
  intros HB [a b H|shm shm' th pm d H] Hok; [by eapply live_step_ok|]. destruct Hok as [Hs Hp].
  split; [exact (kept_shm_ok _ _ (stop_kept _ _ H) Hs) | exact Hp].
Qed.

(** The memory the daemon starts with. *)
Lemma booted_ok powf e axes log b :
  (forall shm m, be_map e = Some (shm, m) ->
     memory_sized shm /\ Forall (fun c => 0 <= rumble_gain c <= 100) (slots shm)) ->
  boot powf e axes log = Booted b -> shm_ok (b_shm b).
Proof.
  intros Hm Hb. destruct (booted_slots powf e axes log b) as (shm0 & Hfrom & [_ Hk] & _ & _ & _ & L & G);
    [intros; by eapply Hm | done|]. split; [exact L|]. intros j Hj. rewrite G by done.
  apply boot_slot_ok; [by apply (aget_Forall _ _ _ _ Hk)|]. rewrite boot_slot_gain.
  assert (0 <= rumble_gain (get_slot shm0 j) <= 100) as Hg.
  { apply (aget_Forall (fun c => 0 <= rumble_gain c <= 100)); [|cbn; lia].
    destruct Hfrom as [->|[m E]]; [repeat constructor; cbn; lia | by eapply Hm]. }
  destruct (_ =? 0); lia.
Qed.

Lemma ledfx_out_of_range c : ~ config_ok (tui_slot_command "ledfx 3 99" c).1.
Proof.
  intros (_ & _ & _ & _ & _ & _ & H & _).
  change (1 <= 99 <= 10) in H. lia.
Qed.

(** * Property *)

(** C13: no command that is checked takes a configuration out of its range.
    Take the runs of the whole program in which every [ledfx] line typed in the
    terminal and every [SetEffect] call on the bus names a speed, a brightness
    (and, on the bus, an effect) in range, and in which the daemon starts with
    gains in range in a memory it takes over and with a profile in range.  Then
    in whatever order the command line, the terminal, the service, the main
    thread, the workers and the settings thread act, and whatever else is typed,
    sent or found on disk and whatever fails, every configuration of a slot and
    of the active profile stays in range.  Without the first condition that is
    false: the terminal takes any slot out of range with [ledfx 3 99], and the
    service with a [SetEffect] (see [set_effect_unchecked]); so it is without the
    second (see [short_profile_zero]). *)
Theorem system_keeps_config `{C : CJson} `{B : DBus} kernel fuel powf cosf sinf sin fmod fmodf crc32 user_dev uhid_bytes
  fmt_name fmt_phys fmt_uniq time_now answers size be axes log b env fd d pm d' s :
  DBusLaws B ->
  (forall shm m, be_map be = Some (shm, m) ->
     memory_sized shm /\ Forall (fun c => 0 <= rumble_gain c <= 100) (slots shm)) ->
  boot powf be axes log = Booted b -> profile_manager_init env fd d = (pm, d') -> pm_ok pm ->
  rtc (system_step kernel fuel powf cosf sinf sin fmod fmodf crc32 user_dev uhid_bytes fmt_name fmt_phys fmt_uniq
         time_now answers size)
    (mk_system (b_shm b) (repeat NoThread MAX_SLOTS) pm d') s ->
  (forall j, valid_slot j -> config_ok (get_slot (y_shm s) j) /\ cfg_ok (cfg_at (y_pm s) j)) /\
  (forall j, valid_slot j -> ~ config_ok (tui_slot_command "ledfx 3 99" (get_slot (y_shm s) j)).1).
Proof.
  intros HB Hm Hb Hi Hp Hr. split; [|intros j _; apply ledfx_out_of_range].
  assert (system_ok s) as [[_ Hs] [_ Hc]]; [|intros j Hj; split; [by apply Hs | by apply Hc]].
  assert (system_ok (mk_system (b_shm b) (repeat NoThread MAX_SLOTS) pm d')) as H0
    by (split; [by eapply booted_ok | done]).
  clear -HB Hr H0. induction Hr as [|x y z Hxy _ IH]; [done|]. apply IH. by eapply system_step_ok.
Qed.

(** The daemon starts with no memory and no profile; a gain is typed in the
    terminal, a DualShock 4 is found, and the settings thread looks. *)
Definition demo_steps := system_step good_kernel 100 (fun x _ => x) id id id (fun x _ => x) (fun x _ => x)
  (fun _ _ => 0) (fun _ => [1; 2]) (fun _ => [1]) (fun _ => EmptyString) (fun _ => EmptyString)
  (fun _ _ => EmptyString) 0 (fun _ => true) 1.

Lemma fresh_pm_ok : pm_ok (fresh_pm.1).
Proof.
  unfold pm_ok, cfg_at. rewrite fresh_slots. split; [reflexivity|]. intros j [? ?].
  pose proof (nth_In (repeat (default_slot_config (repeat 0 18)) 4) zero_slot_config (n := Z.to_nat j)) as H1.
  specialize (H1 ltac:(rewrite repeat_length; unfold MAX_SLOTS in *; lia)). apply repeat_spec in H1.
  unfold aget. rewrite H1. apply default_cfg_ok.
Qed.

Example system_keeps_config_witness :
  exists b s, first_boot = Booted b /\
    rtc demo_steps (mk_system (b_shm b) (repeat NoThread MAX_SLOTS) (fresh_pm.1) (fresh_pm.2)) s /\
    connected (get_slot (y_shm s) 0) = true /\ cfg_rumble_gain (cfg_at (y_pm s) 0) = 50 /\
    config_ok (get_slot (y_shm s) 0).
Proof.
  destruct first_boot as [| |b] eqn:E; [discriminate E | discriminate E|].
  set (s0 := mk_system (b_shm b) (repeat NoThread MAX_SLOTS) (fresh_pm.1) (fresh_pm.2)).
  set (shm1 := put_slot (b_shm b) 0 (tui_slot_command "gain 50" (get_slot (b_shm b) 0)).1).
  set (st2 := scan_existing_devices demo_probe (fun _ => true) true false (Some ["hidraw0"%string])
                (mk_daemon shm1 (repeat NoThread MAX_SLOTS))).
  set (s3 := mk_system (d_shm st2) (d_threads st2)
               (profile_sync_shm_to_active (good_env 9 tv_zero) (fresh_pm.1) (d_shm st2)) (fresh_pm.2)).
  assert (rtc demo_steps s0 s3) as Hr.
  { eapply rtc_l; [apply step_live, by_front_end, (step_tui _ _ _ _ "gain 50" 0); done|].
    eapply rtc_l; [apply step_live, (by_main _ _ _ _ _ _ _ _ _ _ _ _ _ _ _ _ _ (mk_daemon shm1 (repeat NoThread MAX_SLOTS)) st2);
      apply step_scan; repeat constructor; cbn; lia|].
    eapply rtc_l; [apply step_live, by_settings, (step_sync (good_env 9 tv_zero)) | apply rtc_refl]. }
  exists b, s3. split; [done|]. split; [exact Hr|].
  split; [subst s3 st2 shm1; clear -E; injection E as <-; vm_compute; reflexivity|].
  split; [subst s3 st2 shm1; clear -E; injection E as <-; vm_compute; reflexivity|].
  refine (proj1 (proj1 (system_keeps_config good_kernel 100 _ _ _ _ _ _ _ _ _ _ _ _ _ _ _ first_start _ _ b _ _ _ _ _ s3
    plain_bus_laws _ E _ fresh_pm_ok Hr) 0 _)).
  - intros shm m [= <- <-]. split; [split; [reflexivity | repeat constructor]|]. repeat constructor; cbn; lia.
  - apply surjective_pairing.
  - unfold valid_slot, MAX_SLOTS. lia.
Defined.

(** A [Default] profile with fewer than four slots, as an older version or a hand
    may have written it: at the start the configurations it does not have stay
    all zero, with a speed and a key map no effect and no button can use. *)
Definition short_disk : disk :=
  match cJSON_Print (cJSON_Object
    [ ("version", cJSON_Number 1); ("last_modified", cJSON_Number 5);
      ("slots", cJSON_Array [slot_json (default_slot_config (repeat 0 18))]) ]%string) with
  | Some s => write_file "/etc/dstx/profiles/Default.json" s empty_disk
  | None => empty_disk
  end.

Lemma short_profile_zero :
  cfg_at (profile_manager_init (good_env 6 tv_zero) 9 short_disk).1 0 = default_slot_config (repeat 0 18) /\
  cfg_at (profile_manager_init (good_env 6 tv_zero) 9 short_disk).1 1 = zero_slot_config /\
  ~ pm_ok (profile_manager_init (good_env 6 tv_zero) 9 short_disk).1.
Proof.
  split; [vm_compute; reflexivity|].
  assert (cfg_at (profile_manager_init (good_env 6 tv_zero) 9 short_disk).1 1 = zero_slot_config) as E
    by (vm_compute; reflexivity).
  split; [exact E|]. intros [_ H]. specialize (H 1 ltac:(unfold valid_slot, MAX_SLOTS; lia)).
  rewrite E in H. destruct H as (_ & _ & _ & _ & _ & _ & H & _). cbn in H. lia.
Qed.
