(* ===== verification/Live.v ===== *)
(** * The slots in the whole program

    While nobody stops the daemon, the main thread, the workers, the settings
    thread and the front ends agree on which slot is whose: the invariant of
    [Daemon] holds in every run of the transition system of [System].  Only the
    main thread and a slot's own worker change the life of a slot; a worker's step
    is taken apart into what [Daemon] has lemmas for. *)

From S2P Require Import Prelude Settings Commands Float Types Keys Axes Utils Sys Drivers Uhid Output Led Nsw Daemon Mutex Bus Handles Handlers Display Tui Worker Main System.
Local Open Scope Z_scope.

(** The main thread's view of the whole. *)
Definition slots_view `{C : CJson} (s : @system C) : daemon_state := mk_daemon (y_shm s) (y_threads s).

(** ** A step that leaves the lives alone *)

Section invariant.
Context {stopped : Z -> Prop}.

Lemma lived_ok shm shm' th : lived shm shm' -> slots_ok stopped (mk_daemon shm th) -> slots_ok stopped (mk_daemon shm' th).
Proof.
  intros (El & Eb & Hl) H. pose proof (ok_slots H) as Ls. cbn [d_shm] in Ls. specialize (Hl Ls).
  assert (forall i, valid_slot i -> same_life (slot_of (mk_daemon shm th) i) (slot_of (mk_daemon shm' th) i)) as Hs
    by exact Hl.
  destruct H as [_ Lt Hb Hf Hbu Hr Hst He Hp]. cbn [d_shm d_threads] in *. split; cbn [d_shm d_threads].
  - congruence.
  - done.
  - by rewrite Eb.
  - intros i Hi. destruct (Hs i Hi) as (-> & _). rewrite Eb. by apply Hf.
  - intros i Hi. destruct (Hs i Hi) as (-> & _). rewrite Eb. by apply Hbu.
  - intros i Hi. destruct (Hs i Hi) as (-> & _). by apply Hr.
  - intros i Hi Ht. destruct (Hs i Hi) as (_ & _ & _ & ->). by apply Hst.
  - intros i Hi Ht. destruct (Hs i Hi) as (_ & -> & _ & ->). by apply He.
  - intros i j Hi Hj Hne. pose proof (same_life_nsw _ _ (Hs i Hi)) as ->. pose proof (same_life_nsw _ _ (Hs j Hj)) as ->.
    destruct (Hs i Hi) as (-> & -> & _). destruct (Hs j Hj) as (-> & -> & _). by apply Hp.
Qed.

(** ** The main thread *)

Lemma join_loop_threads aborts l st :
  slots_ok stopped st -> (forall i, In i l -> valid_slot i) ->
  let st' := fold_left (fun st i => if bool_decide (thread_of st i = NoThread) then st else join_thread aborts i st) l st in
  slots_ok stopped st' /\
  forall j, valid_slot j -> In j l \/ thread_of st j = NoThread -> thread_of st' j = NoThread.
Proof.
  revert st. induction l as [|i l IH]; intros st H Hl; cbn [fold_left]; [split; [done|]; by intros j _ [[]|]|].
  assert (valid_slot i) as Hi by (apply Hl; by left).
  set (st1 := if bool_decide _ then _ else _).
  assert (slots_ok stopped st1 /\ thread_of st1 i = NoThread /\
    forall j, valid_slot j -> thread_of st j = NoThread -> thread_of st1 j = NoThread) as (H1 & Ti & Tj).
  { unfold st1. destruct (bool_decide_reflect (thread_of st i = NoThread)) as [E|E]; [done|].
    destruct (join_slot aborts i st H Hi) as (Ti & _ & _ & _ & Tj). split; [by apply join_ok|]. split; [done|].
    intros j Hj Ej. destruct (decide (j = i)) as [->|Hne]; [done|]. by destruct (Tj j Hj Hne) as [_ ->]. }
  clearbody st1. destruct (IH st1 H1 ltac:(intros; apply Hl; by right)) as [H2 T2]. split; [done|].
  intros j Hj [[<-|Hin]|E]; apply T2; auto.
Qed.

Lemma shutdown_ok aborts st : slots_ok stopped st -> slots_ok stopped (daemon_shutdown aborts st).
Proof.
  intros H. unfold daemon_shutdown.
  destruct (join_loop_threads aborts slot_indices st H) as [H1 T1]; [intros; by apply slot_indices_valid|].
  cbv zeta in *. set (st1 := fold_left _ slot_indices st) in *. clearbody st1. unfold Daemon.on_shm.
  set (s0 := (d_shm st1) {{ daemon_pid := 0; heartbeat := 0 }}).
  pose proof (ok_slots H1) as Ls.
  destruct (fold_put_spec (fun c => c {{ connected := false }}) MAX_SLOTS s0) as (L & Bm & G).
  { change (slots s0) with (slots (d_shm st1)). lia. }
  set (s1 := fold_idx _ _ _) in *. clearbody s1.
  apply (lived_ok (d_shm st1)); [|by destruct st1]. split; [exact L|]. split; [exact Bm|]. intros _ j Hj.
  rewrite (G j ltac:(apply Hj)). destruct (Z.ltb_spec j (Z.of_nat MAX_SLOTS)) as [_|Hge]; [|destruct Hj; lia].
  change (get_slot s0 j) with (slot_of st1 j). split; [|by split].
  destruct (connected (slot_of st1 j)) eqn:Ec; [|done]. exfalso.
  assert (thread_of st1 j = NoThread) as Et by (apply T1; [done | left; by apply slot_indices_valid]).
  destruct (ok_running H1 j Hj Ec); congruence.
Qed.

Lemma main_live st st' : main_step st st' -> slots_ok stopped st -> slots_ok stopped st'.
Proof.
  intros [my_pid|probe access thread_ok aborts entries Hn|probe access thread_ok aborts now events Hn|aborts] H.
  - apply init_ok, H.
  - unfold scan_existing_devices. destruct entries as [l|]; [|done]. change (Forall short_name l) in Hn.
    rewrite List.Forall_forall in Hn. apply loop_ok; [|done]. clear st H. intros e st He%Hn H.
    destruct (is_hidraw e); [|done]. apply register_ok; [done|].
    change (String.length (String.append "/dev/" e)) with (5 + String.length e)%nat. unfold short_name in He. lia.
  - by apply turn_ok.
  - by apply shutdown_ok.
Qed.

(** ** The workers *)

Section worker_live.
Context (idx : Z) (Hi : valid_slot idx).

Lemma aset_twice {A} (l : list A) i x y : aset (aset l i x) i y = aset l i y.
Proof. apply list_insert_insert_eq. Qed.

Lemma started_ok st slot t :
  slots_ok stopped st -> thread_of st idx = Starting -> start_same (slot_of st idx) slot -> t = Starting \/ t = Looping ->
  slots_ok stopped (mk_daemon (put_slot (d_shm st) idx slot) (aset (d_threads st) idx t)).
Proof.
  intros H Ht (_ & Ec & Ety & Eb & Hp) Hl. assert (is_nsw slot = is_nsw (slot_of st idx)) as En by (unfold is_nsw; by rewrite Ety).
  apply kept_ok; auto.
  - intros _. rewrite Eb. by apply (ok_starting H).
  - intros [->| ->]; by destruct Hl.
  - destruct Hp as [?|E]; [by left | right]. rewrite En. by apply bool_decide_eq_true.
Qed.

Lemma gave_up_ok st slot :
  slots_ok stopped st -> thread_of st idx = Starting -> start_same (slot_of st idx) slot ->
  slots_ok stopped (mk_daemon (worker_abort idx (put_slot (d_shm st) idx slot)) (aset (d_threads st) idx Finished)).
Proof.
  intros H Ht Hs. pose proof (started_ok st slot Starting H Ht Hs (or_introl eq_refl)) as H1.
  rewrite <- (aset_twice (d_threads st) idx Starting Finished).
  apply (ended_ok _ idx worker_abort Finished H1 Hi); [by right|]. right. split; [done|].
  pose proof (ok_threads H). unfold thread_of. cbn [d_threads]. apply aget_aset_eq. unfold valid_slot in Hi. lia.
Qed.

Lemma turned_ok st now shm' :
  slots_ok stopped st -> thread_of st idx = Looping -> shm_same (beat idx now (d_shm st)) shm' ->
  slots_ok stopped (mk_daemon shm' (aset (d_threads st) idx Looping)).
Proof.
  intros H Ht (El & Eb & Hs). apply (lived_ok (beat idx now (d_shm st))).
  - split; [done|]. split; [done|]. intros _ j _. apply (Hs j).
  - apply (kept_ok st idx ((slot_of st idx) {{ worker_heartbeat := now }}) Looping); auto; try done; [intros _; by right | by intros [?|?]].
Qed.

Lemma thread_live kernel fuel powf cosf sinf sin fmod fmodf crc32 user_dev uhid_bytes fmt_name fmt_phys fmt_uniq time_now
  shm t shm' th :
  thread_step kernel fuel powf cosf sinf sin fmod fmodf crc32 user_dev uhid_bytes fmt_name fmt_phys fmt_uniq time_now
    idx (aget NoThread th idx) shm t shm' ->
  slots_ok stopped (mk_daemon shm th) -> slots_ok stopped (mk_daemon shm' (aset th idx t)).
Proof.
  intros [(slot & Et & Hs & [[-> ->]|[-> ->]])|[(now & Et & -> & Hs)|(Et & -> & ->)]]%thread_cases H.
  - apply (started_ok _ slot Looping H Et Hs). by right.
  - exact (gave_up_ok _ slot H Et Hs).
  - exact (turned_ok _ now shm' H Et Hs).
  - apply (ended_ok _ idx worker_cleanup Finished H Hi); auto.
Qed.
End worker_live.

End invariant.

(** ** The settings thread *)

Section settings_live.
Context `{C : CJson}.

Lemma publish_lived pm shm : lived shm (publish pm shm).
Proof.
  assert (lived shm (profile_apply_to_shm pm shm)) as H.
  { unfold profile_apply_to_shm. apply (fold_idx_ind (fun _ s => lived shm s)); [reflexivity|].
    intros i s _ H. etransitivity; [exact H|]. by apply lived_put. }
  etransitivity; [exact H | by apply lived_slots].
Qed.

Lemma handled_lived env entries req name pm shm (d : @disk C) pm' shm' d' r m :
  handle_request env entries req name pm shm d = (pm', shm', d', r, m) -> lived shm shm'.
Proof.
  intros E. unfold handle_request in E.
  destruct req as [|req|req]; [by injection E as _ <- _ _ _| |by injection E as _ <- _ _ _].
  do 3 (try (destruct req as [req|req|]; [| |])); try (by injection E as _ <- _ _ _).
  - destruct (names d !! _); [|by injection E as _ <- _ _ _]. destruct (can_unlink env); [|by injection E as _ <- _ _ _].
    destruct (String.eqb name (active_name pm)); [|by injection E as _ <- _ _ _].
    destruct (load_profile_from_disk _ _ _ _) as [pm1 ok]. injection E as _ <- _ _ _. apply publish_lived.
  - by destruct (save_profile_to_disk _ _ _ _) as [d1 []]; injection E as _ <- _ _ _.
  - destruct (load_profile_from_disk _ _ _ _) as [pm1 ok]. destruct ok; injection E as _ <- _ _ _; [apply publish_lived | done].
Qed.

Lemma settings_lived s s' : settings_step s s' -> lived s.1.2 s'.1.2.
Proof.
  intros [pm shm d|env pm shm d|env entries pm shm d|env pm shm d|env events pm shm d]; cbn [fst snd]; try reflexivity.
  - apply publish_lived.
  - destruct (profile_process_requests env entries pm shm d) as [[pm' shm'] d'] eqn:E. cbn [fst snd].
    unfold profile_process_requests in E. cbv zeta in E. destruct (_ =? 0); [by injection E as _ <- _|].
    destruct (handle_request _ _ _ _ _ _ _) as [[[[pm1 shm1] d1] r] m] eqn:Er. apply handled_lived in Er.
    injection E as _ <- _. etransitivity; [exact Er|]. apply lived_slots; by destruct (_ && _).
  - unfold profile_handle_inotify. destruct (_ <? 0); [reflexivity|].
    revert pm shm. induction events as [|ev events IH]; intros pm shm; [reflexivity|]. cbn [fold_left].
    unfold handle_inotify_event at 2. destruct ev; [|apply IH]. destruct (profile_dirty pm); [apply IH|].
    destruct (load_profile_from_disk _ _ _ _) as [pm1 []]; [|apply IH].
    etransitivity; [apply (publish_lived pm1) | apply IH].
Qed.
End settings_live.

(** ** A run *)

Lemma live_step_slots `{C : CJson} `{B : DBus} (stopped : Z -> Prop) kernel fuel powf cosf sinf sin fmod fmodf crc32 user_dev uhid_bytes
  fmt_name fmt_phys fmt_uniq time_now answers size s s' :
  DBusLaws B ->
  live_step kernel fuel powf cosf sinf sin fmod fmodf crc32 user_dev uhid_bytes fmt_name fmt_phys fmt_uniq time_now
    answers size s s' ->
  slots_ok stopped (slots_view s) -> slots_ok stopped (slots_view s').
Proof.
  intros HB [shm shm' th pm d H|st st' pm d H|i t shm shm' th pm d Hi H|shm shm' th pm pm' d d' H] Hok.
  - apply (lived_ok shm); [by apply (front_end_spared _ _ _ _ _ HB H) | exact Hok].
  - apply (main_live (stopped := stopped) st) in H; [by destruct st' | by destruct st].
  - by eapply thread_live.
  - apply (lived_ok shm); [exact (settings_lived _ _ H) | exact Hok].
Qed.

(** *** A stop by another process *)



Section runs.
Context `{C : CJson} `{B : DBus} (kernel : kernel_t) (fuel : nat).
Context (powf : float -> float -> float) (cosf sinf sin : float -> float)
  (fmod fmodf : float -> float -> float) (crc32 : Z -> list Z -> Z)
  (user_dev : Z -> list Z) (uhid_bytes : uhid_event -> list Z)
  (fmt_name fmt_phys : Z -> string) (fmt_uniq : Z -> Z -> string) (time_now : Z).
Context (answers : nat -> bool) (size : Z) (HB : DBusLaws B).
Abbreviation live := (live_step kernel fuel powf cosf sinf sin fmod fmodf crc32 user_dev uhid_bytes fmt_name fmt_phys
  fmt_uniq time_now answers size).
Abbreviation any := (system_step kernel fuel powf cosf sinf sin fmod fmodf crc32 user_dev uhid_bytes fmt_name fmt_phys
  fmt_uniq time_now answers size).

(** What the main thread starts with. *)
Definition started_system (pid : Z) (shm : shared_data_t) (pm : profile_manager_t) (d : @disk C) : system :=
  mk_system (d_shm (daemon_init pid shm)) (d_threads (daemon_init pid shm)) pm d.

Lemma started_slots stopped pid shm pm d :
  length (slots shm) = MAX_SLOTS -> slots_ok stopped (slots_view (started_system pid shm pm d)).
Proof. intros Hl. exact (init_ok pid shm Hl). Qed.

Lemma live_run_slots stopped s s' : rtc live s s' -> slots_ok stopped (slots_view s) -> slots_ok stopped (slots_view s').
Proof. induction 1 as [|x y z Hxy _ IH]; [done|]. intros H. apply IH. by eapply live_step_slots. Qed.

End runs.

(** A worker whose slot was disconnected leaves its loop at the next turn, having
    touched nothing but its sign of life. *)
Lemma disconnected_worker_ends kernel fuel powf cosf sinf sin fmod fmodf crc32 user_dev uhid_bytes
  fmt_name fmt_phys fmt_uniq time_now idx e has_led w h :
  te_others e = (fun shm => shm) -> memory_ok idx w -> connected (w_slot w) = false ->
  exists w', worker_turn kernel fuel powf cosf sinf sin fmod fmodf crc32 user_dev uhid_bytes fmt_name fmt_phys fmt_uniq
    time_now idx e has_led w h = Some ((w', false), h).
Proof.
  intros He Hm Hc. unfold worker_turn, turn_checks. rewrite He. cbv zeta.
  set (w1 := load_memory idx _ w).
  assert (connected (w_slot w1) = false) as Hc1.
  { change (w_slot w1) with (get_slot (worker_memory idx w) idx). by rewrite worker_memory_slot. }
  clearbody w1. change (connected ((w_slot w1) {{ worker_heartbeat := te_time_us e }})) with (connected (w_slot w1)).
  rewrite Hc1, orb_true_r. by eexists.
Qed.

(** * Properties *)

(** As long as nobody stops the daemon, the slots stay consistent in every run of
    the whole program from the start of the main thread. *)
Theorem live_slots_consistent `{C : CJson} `{B : DBus} kernel fuel powf cosf sinf sin fmod fmodf crc32 user_dev
  uhid_bytes fmt_name fmt_phys fmt_uniq time_now answers size pid shm pm d s :
  DBusLaws B -> length (slots shm) = MAX_SLOTS ->
  rtc (live_step kernel fuel powf cosf sinf sin fmod fmodf crc32 user_dev uhid_bytes fmt_name fmt_phys fmt_uniq time_now
         answers size) (started_system pid shm pm d) s ->
  daemon_ok (slots_view s).
Proof. intros HB Hl Hr. by eapply live_run_slots, started_slots. Qed.


(** A DualShock 4 is found and its worker starts. *)
Abbreviation calm_step := (live_step fresh_kernel 100 (fun x _ => x) id id id (fun x _ => x) (fun x _ => x)
  (fun _ _ => 0) (fun _ => [1; 2]) (fun _ => [1]) (fun _ => EmptyString) (fun _ => EmptyString)
  (fun _ _ => EmptyString) 0 (fun _ => true) 1).
Definition found : daemon_state :=
  scan_existing_devices demo_probe (fun _ => true) true false (Some ["hidraw0"%string]) (daemon_init 7 cli_shm).
Definition start_result :=
  worker_start fresh_kernel 100 demo_start 0 "/dev/hidraw0" (get_slot (d_shm found) 0) zero_nsw_context [].
Definition started_slot : controller_t :=
  match start_result with Some ((slot, _, _), _) => slot | None => zero_controller end.
Definition started : system :=
  mk_system (put_slot (d_shm found) 0 started_slot) (aset (d_threads found) 0 Looping) fresh_pm.1 fresh_pm.2.

Lemma start_succeeds : exists ctx fds h,
  worker_start fresh_kernel 100 demo_start 0 "/dev/hidraw0" (get_slot (d_shm found) 0) zero_nsw_context [] =
    Some ((started_slot, ctx, Some fds), h).
Proof. do 3 eexists. vm_compute. reflexivity. Qed.
Lemma found_thread : aget NoThread (d_threads found) 0 = Starting.
Proof. vm_compute. reflexivity. Qed.

Lemma found_run :
  calm_step (started_system 7 cli_shm fresh_pm.1 fresh_pm.2) (mk_system (d_shm found) (d_threads found) fresh_pm.1 fresh_pm.2).
Proof.
  apply (by_main _ _ _ _ _ _ _ _ _ _ _ _ _ _ _ _ _ (daemon_init 7 cli_shm) found). apply step_scan.
  constructor; [unfold short_name; cbn; lia | constructor].
Qed.

Lemma started_run : calm_step (mk_system (d_shm found) (d_threads found) fresh_pm.1 fresh_pm.2) started.
Proof.
  destruct start_succeeds as (ctx & fds & h & E). apply by_worker; [unfold valid_slot, MAX_SLOTS; lia|].
  rewrite found_thread. exact (thread_starts _ _ _ _ _ _ _ _ _ _ _ _ _ _ _ 0 (d_shm found) _ _ _ _ _ _ _ _ E).
Qed.

Example live_slots_consistent_witness :
  daemon_ok (slots_view started) /\ connected (slot_of (slots_view started) 0) = true /\
  thread_of (slots_view started) 0 = Looping /\ free_slots_bitmap (y_shm started) = 254.
Proof.
  split; [|repeat split; vm_compute; reflexivity].
  exact (live_slots_consistent fresh_kernel 100 _ _ _ _ _ _ _ _ _ _ _ _ _ _ _ 7 cli_shm _ _ started plain_bus_laws
    eq_refl (rtc_l _ _ _ _ found_run (rtc_once _ _ started_run))).
Defined.


