(* ===== verification/Process.v ===== *)
(** * The processes: how they run and how they end

    A child process and its result ([execute_systemctl], [execute_command]), the
    clocks, the terminal and its modes ([utils.c], [ui.c]), the signal handler
    [cleanup], and the process of the daemon from the prepared memory to its end
    ([main.c], [run_daemon_loop]).  A signal comes between two steps. *)

From S2P Require Import Prelude Settings Commands Float Types Keys Axes Utils Sys Drivers Uhid Output Led Nsw Daemon Mutex Bus Handles Handlers Display Tui Worker Main System Live.
Local Open Scope Z_scope.

(** ** Children

    The status of a child that ended, as [wait] encodes it. *)
Definition WIFEXITED (status : Z) : bool := Z.land status 0x7f =? 0.
Definition WEXITSTATUS (status : Z) : Z := Z.land (Z.shiftr status 8) 0xff.

(** The parent's branch: what [fork] and [waitpid] return, and the status. *)
Definition execute_systemctl (pid waited status : Z) : Z :=
  if pid =? -1 then -1
  else if waited =? -1 then -1
  else if WIFEXITED status then WEXITSTATUS status
  else -1.
Definition execute_command (pid waited status : Z) : Z :=
  if pid =? -1 then -1
  else if waited =? -1 then -1
  else if WIFEXITED status then WEXITSTATUS status
  else -1.

(** The result is the code a child ended with, or -1, never anything else. *)
Lemma execute_result pid waited code signal :
  0 <= code < 256 -> 0 <= signal < 128 -> pid <> -1 -> waited <> -1 ->
  execute_systemctl pid waited (code * 256 + signal) = (if signal =? 0 then code else -1) /\
  execute_command pid waited (code * 256 + signal) = (if signal =? 0 then code else -1).
Proof.
  intros Hc Hs Hp Hw. unfold execute_systemctl, execute_command, WIFEXITED, WEXITSTATUS.
  destruct (Z.eqb_spec pid (-1)), (Z.eqb_spec waited (-1)); try done.
  assert (Z.land (code * 256 + signal) 0x7f = signal) as ->.
  { change 0x7f with (Z.ones 7). rewrite Z.land_ones by lia. change (2 ^ 7) with 128.
    replace (code * 256 + signal) with (signal + code * 2 * 128) by lia. rewrite Z.mod_add by lia. by apply Z.mod_small. }
  destruct (signal =? 0); [|done].
  change 0xff with (Z.ones 8). rewrite Z.land_ones, Z.shiftr_div_pow2 by lia. change (2 ^ 8) with 256.
  rewrite Z.div_add_l by lia. rewrite (Z.div_small signal) by lia. rewrite Z.add_0_r, Z.mod_small by lia. done.
Qed.

(** ** Clocks *)

Record timespec := mk_timespec { ts_sec : Z; ts_nsec : Z }.
Definition get_monotonic_time_us (ts : timespec) : Z :=
  u64 (u64 (u64 (ts_sec ts) * 1000000) + Z.quot (ts_nsec ts) 1000).
Definition get_monotonic_time_sec (ts : timespec) : float :=
  f64_add (f64_of_Z (ts_sec ts)) (f64_div (f64_of_Z (ts_nsec ts)) (f64_of_Z 1000000000)).

(** The time in microseconds is exact, and never runs back, for 584,000 years. *)
Lemma monotonic_us_exact ts :
  0 <= ts_sec ts < 2 ^ 44 -> 0 <= ts_nsec ts < 1000000000 ->
  get_monotonic_time_us ts = (ts_sec ts * 1000000000 + ts_nsec ts) / 1000.
Proof.
  intros Hs Hn. unfold get_monotonic_time_us. rewrite Z.quot_div_nonneg by lia.
  assert (0 <= ts_nsec ts / 1000 < 1000000) as Hd
    by (split; [apply Z.div_pos; lia | apply Z.div_lt_upper_bound; lia]).
  assert (forall x, 0 <= x < 2 ^ 64 -> u64 x = x) as U by (intros x Hx; by apply Z.mod_small).
  rewrite (U (ts_sec ts)) by lia. rewrite (U (ts_sec ts * 1000000)) by lia. rewrite U by lia.
  replace (ts_sec ts * 1000000000 + ts_nsec ts) with ((ts_sec ts * 1000000) * 1000 + ts_nsec ts) by lia.
  by rewrite Z.div_add_l by lia.
Qed.

(** ** The terminal *)

Record termios := mk_termios { c_iflag : Z; c_oflag : Z; c_cflag : Z; c_lflag : Z; c_cc : list Z }.
Definition ICANON : Z := 2.
Definition ECHO : Z := 8.
(** A [static struct termios]. *)
Definition zero_termios : termios := mk_termios 0 0 0 0 (repeat 0 32).

(** The terminal, with its size in rows and columns and whether it obeys a
    request to change it, and what the program remembers of it. *)
Record terminal := mk_terminal {
  t_attrs : termios; t_alt_buffer : bool; t_cursor : bool;
  t_size : Z * Z; t_resizable : bool;
  orig_termios : termios
}.

Definition enable_raw_mode (t : terminal) : terminal :=
  let raw := t_attrs t in
  mk_terminal
    (mk_termios (c_iflag raw) (c_oflag raw) (c_cflag raw)
       (Z.land (c_lflag raw) (Z.lnot (Z.lor ECHO ICANON))) (c_cc raw))
    (t_alt_buffer t) (t_cursor t) (t_size t) (t_resizable t) (t_attrs t).
Definition disable_raw_mode (t : terminal) : terminal :=
  mk_terminal (orig_termios t) (t_alt_buffer t) true (t_size t) (t_resizable t) (orig_termios t).

Definition ALT_BUFFER (on : bool) (t : terminal) : terminal :=
  mk_terminal (t_attrs t) on (t_cursor t) (t_size t) (t_resizable t) (orig_termios t).
Definition CURSOR (on : bool) (t : terminal) : terminal :=
  mk_terminal (t_attrs t) (t_alt_buffer t) on (t_size t) (t_resizable t) (orig_termios t).

(** The request [ESC [ 8 ; r ; c t]. *)
Definition force_terminal_size (r c : Z) (t : terminal) : terminal :=
  mk_terminal (t_attrs t) (t_alt_buffer t) (t_cursor t) (if t_resizable t then (r, c) else t_size t)
    (t_resizable t) (orig_termios t).

(** The set-up script has the terminal to itself. *)
Definition setup_script (script : terminal -> terminal) (t : terminal) : terminal :=
  let t' := script t in
  mk_terminal (t_attrs t') (t_alt_buffer t') (t_cursor t') (t_size t') (t_resizable t') (orig_termios t).

(** The steps of the interface that concern the terminal: the beginning of
    [run_ui_loop], its command [setup], its end. *)
Definition ui_opens : list (terminal -> terminal) :=
  [ALT_BUFFER true; force_terminal_size MIN_ROWS MIN_COLS; enable_raw_mode; CURSOR false].
Definition ui_setup (script : terminal -> terminal) : list (terminal -> terminal) :=
  [ALT_BUFFER false; CURSOR true; disable_raw_mode; setup_script script; enable_raw_mode; ALT_BUFFER true; CURSOR false].
Definition ui_closes : list (terminal -> terminal) := [CURSOR true; ALT_BUFFER false; disable_raw_mode].

Definition ui_action_steps (script : terminal -> terminal) (a : ui_action) : list (terminal -> terminal) :=
  match a with UiSetup => ui_setup script | UiService _ => [] end.
Definition ui_steps (script : terminal -> terminal) (acts : list ui_action) : list (terminal -> terminal) :=
  ui_opens ++ concat (map (ui_action_steps script) acts) ++ ui_closes.

Definition run_steps (l : list (terminal -> terminal)) (t : terminal) : terminal := fold_left (fun t f => f t) l t.

(** *** The handler of [SIGINT] and [SIGTERM]

    The flag of the loops, the terminal and the exit code. *)
Record signalled := mk_signalled { h_keep_running : bool; h_terminal : terminal; h_exit : option Z }.
Definition cleanup (is_daemon_mode : bool) (t : terminal) : signalled :=
  mk_signalled false (if negb is_daemon_mode then disable_raw_mode t else t) (Some 0).

(** The interface interrupted before its step [n]; [main] sets the handler before
    it calls [run_ui_loop]. *)
Definition interrupted (script : terminal -> terminal) (acts : list ui_action) (n : nat) (t : terminal) : terminal :=
  h_terminal (cleanup false (run_steps (take n (ui_steps script acts)) t)).

(** ** The daemon *)

(** What a turn of the main thread meets. *)
Record main_turn := mk_main_turn {
  mt_probe : string -> option (Z * Z * Z); mt_access : string -> bool; mt_thread_ok : bool; mt_aborts : bool;
  mt_now : Z; mt_hotplug : list ((nat -> bool) * string) }.

Section daemon.
Context `{C : CJson}.

(** What happens to the process: the other threads and processes act, the main
    thread makes a turn, or a signal comes. *)
Inductive daemon_event := Others (f : system -> system) | MainTurn (t : main_turn) | Signal.

(** It goes on; it is gone, by [exit]; the loop was left and the function has
    returned. *)
Inductive fate := Running (s : @system C) | Exited (code : Z) (s : @system C) | Returned (s : @system C).

(** A step of the main thread on the whole. *)
Definition on_slots (f : daemon_state -> daemon_state) (s : @system C) : @system C :=
  let st := f (slots_view s) in mk_system (d_shm st) (d_threads st) (y_pm s) (y_disk s).
Definition turn_of (t : main_turn) : daemon_state -> daemon_state :=
  daemon_turn (mt_probe t) (mt_access t) (mt_thread_ok t) (mt_aborts t) (mt_now t) (mt_hotplug t).

Definition daemon_leaves (aborts : bool) (s : @system C) : fate := Returned (on_slots (daemon_shutdown aborts) s).

(** [while (keep_running)]. *)
Fixpoint daemon_loop (evs : list daemon_event) (keep_running : bool) (t : terminal) (s : @system C) : fate :=
  match evs with
  | [] => Running s
  | Others f :: evs => daemon_loop evs keep_running t (f s)
  | MainTurn mt :: evs =>
      if keep_running then daemon_loop evs keep_running t (on_slots (turn_of mt) s)
      else daemon_leaves (mt_aborts mt) s
  | Signal :: evs =>
      let h := cleanup true t in
      match h_exit h with
      | Some code => Exited code s
      | None => daemon_loop evs (h_keep_running h) (h_terminal h) s
      end
  end.

(** [inotify_fd] is what [inotify_init1] returns; [entries] what [scan_existing_devices]
    finds in [/dev]. *)
Definition run_daemon_loop (my_pid inotify_fd : Z) (scan : main_turn) (entries : option (list string))
  (evs : list daemon_event) (t : terminal) (s : @system C) : fate :=
  let s := on_slots (fun st => daemon_init my_pid (d_shm st)) s in
  if inotify_fd <? 0 then Returned s
  else
    let s := on_slots (scan_existing_devices (mt_probe scan) (mt_access scan) (mt_thread_ok scan) (mt_aborts scan) entries) s in
    daemon_loop evs true t s.

(** From the announcement in [main] on: [settings_init], the loop,
    [settings_shutdown], the end with 0; the settings thread could be made. *)
Definition daemon_main (env : io_env) (fd : Z) (b : booted) (d : @disk C)
  (my_pid inotify_fd : Z) (scan : main_turn) (entries : option (list string)) (evs : list daemon_event)
  (t : terminal) (env_end : io_env) : fate :=
  let (pm, d) := profile_manager_init env fd d in
  match run_daemon_loop my_pid inotify_fd scan entries evs t (mk_system (b_shm b) (repeat NoThread MAX_SLOTS) pm d) with
  | Returned s =>
      let (pm, d) := profile_manager_cleanup env_end (y_pm s) (y_disk s) in
      Exited 0 (mk_system (y_shm s) (y_threads s) pm d)
  | r => r
  end.

(** The state after events that are no signals. *)
Fixpoint after_events (evs : list daemon_event) (s : @system C) : @system C :=
  match evs with
  | [] => s
  | Others f :: evs => after_events evs (f s)
  | MainTurn mt :: evs => after_events evs (on_slots (turn_of mt) s)
  | Signal :: evs => after_events evs s
  end.
Definition no_signal (evs : list daemon_event) : Prop := ~ In Signal evs.

(** The state the loop begins with. *)
Definition loop_start (my_pid : Z) (scan : main_turn) (entries : option (list string)) (s : @system C) : @system C :=
  on_slots (scan_existing_devices (mt_probe scan) (mt_access scan) (mt_thread_ok scan) (mt_aborts scan) entries)
    (on_slots (fun st => daemon_init my_pid (d_shm st)) s).
End daemon.
Arguments daemon_event : clear implicits.
Arguments daemon_event {C}.
Arguments fate : clear implicits.
Arguments fate {C}.

(** * Lemmas *)

(** ** The terminal *)

Lemma run_steps_app l l' t : run_steps (l ++ l') t = run_steps l' (run_steps l t).
Proof. apply fold_left_app. Qed.

(** The script leaves the terminal as it finds it. *)
Definition script_polite (script : terminal -> terminal) : Prop :=
  forall t, t_attrs (script t) = t_attrs t /\ t_alt_buffer (script t) = t_alt_buffer t /\
    t_cursor (script t) = t_cursor t /\ t_size (script t) = t_size t /\
    t_resizable (script t) = t_resizable t.

(** The size the terminal has once it was asked for the interface's. *)
Definition size_asked (t : terminal) : Z * Z := if t_resizable t then (MIN_ROWS, MIN_COLS) else t_size t.

(** The terminal between two keys. *)
Definition raw_terminal (t : terminal) : terminal :=
  mk_terminal (t_attrs (enable_raw_mode t)) true false (size_asked t) (t_resizable t) (t_attrs t).

Section terminal.
Context (script : terminal -> terminal) (Hs : script_polite script).

Lemma opened t : run_steps ui_opens t = raw_terminal t.
Proof. reflexivity. Qed.

(** However much of a [setup] was done, the attributes to go back to are known,
    and the size is the one asked for. *)
Lemma setup_prefix t n :
  let t' := run_steps (take n (ui_setup script)) (raw_terminal t) in
  orig_termios t' = t_attrs t /\ t_size t' = size_asked t.
Proof.
  unfold ui_setup. do 4 (destruct n as [|n]; [split; reflexivity|]).
  assert (forall t', t_attrs (setup_script script t') = t_attrs t') as Ha by (intros t'; apply Hs).
  assert (forall t', t_size (setup_script script t') = t_size t') as Hz by (intros t'; apply Hs).
  destruct n as [|n]; [split; [reflexivity | exact (Hz _)]|].
  do 3 (destruct n as [|n]; [split; [exact (Ha _) | exact (Hz _)]|]). split; [exact (Ha _) | exact (Hz _)].
Qed.
Lemma setup_done t : run_steps (ui_setup script) (raw_terminal t) = raw_terminal t.
Proof.
  unfold ui_setup. cbn [run_steps fold_left].
  set (t1 := disable_raw_mode _). unfold setup_script at 1.
  destruct (Hs t1) as (-> & -> & -> & -> & ->). reflexivity.
Qed.

Lemma actions_done acts t : run_steps (concat (map (ui_action_steps script) acts)) (raw_terminal t) = raw_terminal t.
Proof.
  induction acts as [|a acts IH]; [reflexivity|]. cbn [map concat]. rewrite run_steps_app.
  destruct a as [a|]; cbn [ui_action_steps]; [exact IH | by rewrite setup_done].
Qed.
Lemma actions_prefix acts t n :
  let t' := run_steps (take n (concat (map (ui_action_steps script) acts))) (raw_terminal t) in
  orig_termios t' = t_attrs t /\ t_size t' = size_asked t.
Proof.
  cbv zeta. revert n. induction acts as [|a acts IH]; intros n; cbn [map concat]; [by rewrite firstn_nil|].
  rewrite firstn_app, run_steps_app. destruct a as [a|]; cbn [ui_action_steps].
  - rewrite firstn_nil. apply IH.
  - destruct (le_lt_dec (length (ui_setup script)) n) as [Hn|Hn].
    + rewrite (firstn_all2 _ Hn), setup_done. apply IH.
    + rewrite (proj2 (Nat.sub_0_le n _)) by lia. apply setup_prefix.
Qed.

(** Once the mode was changed, a signal finds the attributes to go back to. *)
Lemma interrupted_terminal acts t n :
  (3 <= n)%nat ->
  let t' := interrupted script acts n t in
  t_attrs t' = t_attrs t /\ t_cursor t' = true /\ t_size t' = size_asked t.
Proof.
  intros Hn. cbv zeta.
  enough (orig_termios (run_steps (take n (ui_steps script acts)) t) = t_attrs t /\
    t_size (run_steps (take n (ui_steps script acts)) t) = size_asked t) as [H1 H2]
    by (split; [exact H1 | split; [reflexivity | exact H2]]).
  unfold ui_steps. destruct (decide (n = 3)%nat) as [->|Hne]; [split; reflexivity|].
  rewrite firstn_app, run_steps_app, (firstn_all2 ui_opens) by (cbn; lia). rewrite opened.
  set (k := (n - length ui_opens)%nat). clearbody k. rewrite firstn_app, run_steps_app.
  set (acts_steps := concat _). destruct (le_lt_dec (length acts_steps) k) as [Hk|Hk].
  - rewrite (firstn_all2 _ Hk). unfold acts_steps at 2 4. rewrite actions_done.
    set (j := (k - length acts_steps)%nat). clearbody j. unfold ui_closes.
    by do 4 (destruct j as [|j]; [split; reflexivity|]).
  - rewrite (proj2 (Nat.sub_0_le k _)) by lia. apply actions_prefix.
Qed.
End terminal.

(** ** The daemon *)

Section daemon_lemmas.
Context `{C : CJson}.

Lemma loop_after l evs t s :
  no_signal l -> daemon_loop (l ++ evs) true t s = daemon_loop evs true t (after_events l s).
Proof.
  revert s. induction l as [|e l IH]; intros s Hn; [done|].
  assert (no_signal l) as Hl by (intros H; apply Hn; by right).
  destruct e as [f|mt|]; cbn [app daemon_loop after_events]; [by apply IH | by apply IH|].
  destruct Hn. by left.
Qed.

Lemma restarted_config powf be axes log b shm m pm :
  be_map be = Some (shm, m) -> memory_sized shm -> boot powf be axes log = Booted b ->
  forall j, valid_slot j -> controller_to_slot_config (get_slot (publish pm (b_shm b)) j) = cfg_at pm j.
Proof.
  intros Hm Hz Hb j Hj.
  destruct (booted_slots powf be axes log b) as (_ & _ & _ & _ & _ & _ & L & _); [|done|].
  - intros shm' m'. rewrite Hm. by intros [= <- _].
  - by apply publish_agrees.
Qed.
(** [settings_shutdown] has the default profile to save, its values are in range
    and the disk takes it. *)
Definition shutdown_saves (env_end : io_env) (pm : profile_manager_t) (d : @disk C) : Prop :=
  disk_ok d /\ profiles_dir pm = "/etc/dstx/profiles"%string /\ active_name pm = "Default"%string /\ pm_ok pm /\
  0 <= version (active_profile pm) <= INT_MAX /\ profile_dirty pm = true /\ pm_auto_save_enabled pm = true /\
  0 <= time_NULL env_end /\ (forall text, wrote env_end text = text) /\
  (save_profile_to_disk env_end pm "Default" d).2 = true.

(** What [settings_shutdown] saves is there at the next start. *)
Lemma shutdown_keeps {L : CJsonLaws C} env_end pm d env' fd' :
  shutdown_saves env_end pm d -> can_read env' = true ->
  p_slots (active_profile (profile_manager_init env' fd' (profile_manager_cleanup env_end pm d).2).1) =
    p_slots (active_profile pm).
Proof.
  intros (Hd & Hdir & Hn & [Hl Hc] & Hv & Hdy & Ha & Ht & Hw & Hs) Hr. unfold profile_manager_cleanup. rewrite Hdy, Ha, Hn. cbn [andb].
  destruct (save_profile_to_disk env_end pm "Default" d) as [d' ok] eqn:E. cbn [snd] in Hs. subst ok.
  unfold profile_manager_init. cbn [fst snd].
  set (pm2 := mk_pm _ _ _ _ _ _ _ _ _ _).
  assert (Forall cfg_ok (p_slots (active_profile pm))) as Hf.
  { apply Forall_lookup. intros i c Hi. pose proof (lookup_lt_Some _ _ _ Hi).
    specialize (Hc (Z.of_nat i) ltac:(unfold valid_slot; lia)). unfold cfg_at, aget in Hc.
    rewrite Nat2Z.id in Hc. by rewrite (nth_lookup_Some _ _ _ _ Hi) in Hc. }
  rewrite (saved_loads_back env_end env' pm pm2 "Default" d d'); try done; [|by repeat constructor].
  cbn [fst]. unfold profile_update_inotify. by repeat case_match.
Qed.
End daemon_lemmas.

(** * Properties *)

(** C26: what the interface leaves of the terminal.  When it ends by itself,
    whatever was done and however often [setup] was run (by a script that leaves
    the terminal alone), the attributes, the buffer and the cursor are as they
    were, but not the size: a terminal that obeys is left with the 25 rows and 77
    columns the interface asked for.  A signal brings back the attributes and the
    cursor, at any moment after the mode was first changed, and leaves that size
    and the alternate buffer; a signal between [main]'s call of [signal] and the
    change of the mode sets all the attributes to zero.  Nothing ever gives the
    old size back. *)
Theorem terminal_given_back script acts t :
  script_polite script -> t_alt_buffer t = false -> t_cursor t = true -> orig_termios t = zero_termios ->
  let asked := if t_resizable t then (25, 77) else t_size t in
  (let final := run_steps (ui_steps script acts) t in
   t_attrs final = t_attrs t /\ t_alt_buffer final = false /\ t_cursor final = true /\
   t_size final = asked) /\
  (forall n, (3 <= n)%nat -> let t' := interrupted script acts n t in
     t_attrs t' = t_attrs t /\ t_cursor t' = true /\ t_size t' = asked) /\
  (forall done_ rest, acts = done_ ++ rest ->
     t_alt_buffer (interrupted script acts (length (ui_opens ++ concat (map (ui_action_steps script) done_))) t) = true) /\
  (forall n, (n <= 2)%nat -> let t' := interrupted script acts n t in
     t_attrs t' = zero_termios /\ t_size t' = (if (n =? 2)%nat then asked else t_size t)).
Proof.
  intros Hs Ha Hc Ho asked. split.
  { cbv zeta. unfold ui_steps. rewrite !run_steps_app, opened, actions_done by done. by repeat split. }
  split; [intros; by apply interrupted_terminal|]. split.
  - intros a1 a2 ->.
    assert (ui_steps script (a1 ++ a2) = (ui_opens ++ concat (map (ui_action_steps script) a1)) ++
      (concat (map (ui_action_steps script) a2) ++ ui_closes)) as E
      by (unfold ui_steps; by rewrite map_app, concat_app, <- !app_assoc).
    unfold interrupted. rewrite E, take_app_length, run_steps_app, opened, actions_done by done. reflexivity.
  - intros n Hn. unfold interrupted, cleanup. cbn [h_terminal negb disable_raw_mode t_attrs].
    destruct n as [|[|[|n]]]; [split; [exact Ho | reflexivity].. | lia].
Qed.

(** C25: a signal ends the daemon on the spot: the handler calls [exit], so the end of
    the main loop, which joins the workers, withdraws the announcement and saves
    a changed profile, is never reached.  The memory and the disk stay as they
    were when the signal came; and when the daemon is started again, every slot has
    the configuration the [Default] profile on that disk gives it, whatever it had
    before, where the end of [main] would have saved what it had.  A daemon that cannot have an [inotify]
    descriptor ends too, and stays announced. *)
Theorem signal_skips_shutdown `{C : CJson} {L : CJsonLaws C} env fd b d my_pid inotify_fd scan entries evs t env_end :
  let s0 := mk_system (b_shm b) (repeat NoThread MAX_SLOTS) (profile_manager_init env fd d).1
              (profile_manager_init env fd d).2 in
  let run := daemon_main env fd b d my_pid inotify_fd scan entries evs t env_end in
  (0 <= inotify_fd -> no_signal evs -> run = Running (after_events evs (loop_start my_pid scan entries s0))) /\
  (forall l l', 0 <= inotify_fd -> evs = l ++ Signal :: l' -> no_signal l ->
     let s := after_events l (loop_start my_pid scan entries s0) in
     run = Exited 0 s /\
     forall powf be axes log m b', be_map be = Some (y_shm s, m) -> memory_sized (y_shm s) ->
       boot powf be axes log = Booted b' -> forall env' fd' j, valid_slot j ->
       let pm := (profile_manager_init env' fd' (y_disk s)).1 in
       controller_to_slot_config (get_slot (publish pm (b_shm b')) j) = cfg_at pm j /\
       forall env_end, shutdown_saves env_end (y_pm s) (y_disk s) -> can_read env' = true ->
         cfg_at (profile_manager_init env' fd' (profile_manager_cleanup env_end (y_pm s) (y_disk s)).2).1 j =
         cfg_at (y_pm s) j) /\
  (inotify_fd < 0 -> exists s, run = Exited 0 s /\ daemon_pid (y_shm s) = my_pid).
Proof.
  intros s0 run. unfold run, daemon_main, run_daemon_loop.
  destruct (profile_manager_init env fd d) as [pm0 d0]. cbn [fst snd] in s0. fold s0.
  split; [|split].
  - intros Hi Hn. destruct (Z.ltb_spec inotify_fd 0); [lia|].
    fold (loop_start my_pid scan entries s0).
    rewrite <- (app_nil_r evs) at 1. by rewrite loop_after.
  - intros l l' Hi -> Hn. cbv zeta. destruct (Z.ltb_spec inotify_fd 0); [lia|].
    fold (loop_start my_pid scan entries s0). rewrite loop_after by done.
    split; [reflexivity|]. intros. split; [by eapply restarted_config|].
    intros env_end' Hs Hr. unfold cfg_at. by rewrite (shutdown_keeps env_end').
  - intros Hi. destruct (Z.ltb_spec inotify_fd 0); [|lia].
    set (s1 := on_slots _ s0).
    assert (daemon_pid (y_shm s1) = my_pid) as Hp.
    { unfold s1, on_slots, daemon_init. cbn [y_shm d_shm].
      apply (fold_idx_ind (fun _ m => daemon_pid m = my_pid)); [reflexivity|]. by intros i m _ Hm. }
    destruct (profile_manager_cleanup _ _ _). by eexists.
Qed.

Example terminal_given_back_witness :
  let t := mk_terminal (mk_termios 0x500 5 0xBF 0x8A3B (repeat 0 32)) false true (50, 200) true zero_termios in
  let final := run_steps (ui_steps (fun t => t) [UiSetup]) t in
  c_lflag (t_attrs (run_steps ui_opens t)) = 0x8A31 /\ t_attrs final = t_attrs t /\ t_cursor final = true /\
  t_size final = (25, 77).
Proof.
  intros t final.
  destruct (terminal_given_back (fun t => t) [UiSetup] t) as [(Ha & _ & Hc & Hz) _]; [done..|].
  split; [reflexivity|]. by split.
Defined.

(** A gain set from the command line is in the active profile, not yet on the
    disk, when the service is stopped or restarted. *)
Definition demo_scan : main_turn := mk_main_turn demo_probe (fun _ => true) true true 9 [].
Definition gain_set (s : system) : system :=
  mk_system (put_slot (y_shm s) 0 (tui_slot_command "gain 50" (get_slot (y_shm s) 0)).1) (y_threads s) (y_pm s) (y_disk s).
Definition gain_synced (s : system) : system :=
  mk_system (y_shm s) (y_threads s) (profile_sync_shm_to_active (good_env 9 tv_zero) (y_pm s) (y_shm s)) (y_disk s).
Definition restart (shm : shared_data_t) : boot_env :=
  mk_boot_env (5, 0) (-1) 0 (Some (shm, Free)) (fun _ => (-1, ESRCH)) 99 1.
Definition demo_events : list daemon_event := [Others gain_set; Others gain_synced].
Definition stopped_at (b : booted) : system :=
  after_events demo_events (loop_start 7 demo_scan None
    (mk_system (b_shm b) (repeat NoThread MAX_SLOTS) (profile_manager_init (good_env 1700000000 tv_zero) 9 empty_disk).1
       (profile_manager_init (good_env 1700000000 tv_zero) 9 empty_disk).2)).
Definition next_boot (s : system) : boot_result :=
  boot (fun x _ => x) (restart (y_shm s)) axes_start (mk_log_state zero_log_rate false).

Lemma stopped_saves b : first_boot = Booted b -> shutdown_saves (good_env 10 tv_zero) (y_pm (stopped_at b)) (y_disk (stopped_at b)).
Proof.
  intros E. unfold shutdown_saves. split; [exact fresh_disk_ok|].
  do 2 (split; [injection E as <-; vm_compute; reflexivity|]). split.
  { split; [injection E as <-; vm_compute; reflexivity|]. intros j Hj.
    assert (j = 0 \/ j = 1 \/ j = 2 \/ j = 3) as Hc by (unfold valid_slot, MAX_SLOTS in Hj; lia).
    injection E as <-. destruct Hc as [->|[->|[->| ->]]]; vm_compute; repeat split; try discriminate; repeat constructor; discriminate. }
  split; [injection E as <-; vm_compute; split; discriminate|].
  do 2 (split; [injection E as <-; vm_compute; reflexivity|]).
  split; [discriminate|]. split; [done|]. injection E as <-. vm_compute. reflexivity.
Qed.

Definition next_profile (d : disk) : profile_manager_t := (profile_manager_init (good_env 11 tv_zero) 9 d).1.
Lemma stopped_facts b : first_boot = Booted b ->
  memory_sized (y_shm (stopped_at b)) /\ rumble_gain (get_slot (y_shm (stopped_at b)) 0) = 50 /\
  cfg_rumble_gain (cfg_at (y_pm (stopped_at b)) 0) = 50 /\
  cfg_rumble_gain (cfg_at (next_profile (y_disk (stopped_at b))) 0) = 100.
Proof. intros E. injection E as <-. vm_compute. repeat constructor. Qed.
Lemma next_boots b : first_boot = Booted b -> exists b', next_boot (stopped_at b) = Booted b'.
Proof. intros E. injection E as <-. eexists. vm_compute. reflexivity. Qed.

Lemma gain_config c : rumble_gain c = cfg_rumble_gain (controller_to_slot_config c).
Proof. reflexivity. Qed.

Example signal_skips_shutdown_witness : exists b b',
  first_boot = Booted b /\ next_boot (stopped_at b) = Booted b' /\
  daemon_main (good_env 1700000000 tv_zero) 9 b empty_disk 7 4 demo_scan None (demo_events ++ [Signal])
    (mk_terminal zero_termios false true (25, 80) false zero_termios) (good_env 10 tv_zero) = Exited 0 (stopped_at b) /\
  rumble_gain (get_slot (y_shm (stopped_at b)) 0) = 50 /\
  rumble_gain (get_slot (publish (next_profile (y_disk (stopped_at b))) (b_shm b')) 0) = 100 /\
  cfg_rumble_gain (cfg_at (next_profile
    (profile_manager_cleanup (good_env 10 tv_zero) (y_pm (stopped_at b)) (y_disk (stopped_at b))).2) 0) = 50.
Proof.
  destruct first_boot as [| |b] eqn:E; [discriminate E | discriminate E|]. exists b.
  destruct (next_boots b E) as [b' E']. exists b'. destruct (stopped_facts b E) as (Hm & Hg & Hp & Hd).
  destruct (signal_skips_shutdown (good_env 1700000000 tv_zero) 9 b empty_disk 7 4 demo_scan None
    (demo_events ++ [Signal]) (mk_terminal zero_termios false true (25, 80) false zero_termios)
    (good_env 10 tv_zero)) as (_ & H & _).
  destruct (H demo_events [] ltac:(lia) eq_refl) as [Hx Hb].
  { intros [?|[?|[]]]; discriminate. }
  destruct (Hb (fun x _ => x) (restart (y_shm (stopped_at b))) axes_start (mk_log_state zero_log_rate false)
    Free b' eq_refl Hm E' (good_env 11 tv_zero) 9 0 ltac:(unfold valid_slot, MAX_SLOTS; lia)) as [Hc Hs].
  split; [done|]. split; [done|]. split; [exact Hx|]. split; [exact Hg|].
  fold (stopped_at b) in Hc, Hs. unfold next_profile in Hd |- *. rewrite gain_config, Hc.
  split; [exact Hd|]. rewrite (Hs _ (stopped_saves b E) eq_refl). exact Hp.
Defined.
